(* ===== verification/_CoqProject ===== *)
-Q . S2P
Prelude.v
Clrwspace.v
Xml.v
XmlFacts.v
EditTree.v
EditChecks.v
EditCompact.v
EditOps.v
EditXml.v
Samples.v
EditPrepared.v
EditRunning.v
EditClaims.v
CheckClaims.v
Datastore.v
DatastoreFacts.v
DatastoreClaims.v
OvsDevices.v
Ovsdb.v
OvsQueues.v
OvsBridges.v
OvsControllers.v
OvsPorts.v
OvsOpenFlow.v
OvsCerts.v
OvsConfig.v
OvsFacts.v
OvsQueueFacts.v
OvsQueueSpecs.v
OvsBridgeFacts.v
OvsTextFacts.v
OvsLayer.v
XmlText.v
ConfigFacts.v
PortFacts.v
CertFacts.v
OvsSamples.v
OvsClaims.v
OvsTxn.v
OvsTxnFacts.v
StateClaims.v
PortClaims.v
OfcModule.v
Agents.v
AgentsFacts.v
Sockets.v
Rpc.v
ServerSocket.v
ServerLoop.v
SocketFacts.v
ServerSpec.v
HandlerFacts.v
TableFacts.v
LoopFacts.v
ServeFacts.v
AgentSocket.v
AgentSocketFacts.v
ServerDBus.v
AgentDBus.v
DBusFacts.v
AgentDBusFacts.v
Comm.v
CommInstances.v
AgentProcess.v
AgentProcessFacts.v
ServerMain.v
CommSamples.v
CommClaims.v
ServerTransapi.v
TransapiClaims.v
StartClaims.v
