(* ===== verification/Prelude.v ===== *)
(** * OF-CONFIG server for Open vSwitch: verification library

    The program (src/server) is a NETCONF server for Open vSwitch in two kinds
    of processes.  An agent (agent.c) serves one NETCONF session and forwards
    its requests to the server (server.c), over a UNIX socket or the D-Bus.  The
    server keeps a list of agents (server_ops.c) and hands the requests to
    libnetconf, which calls the functions of ofconfig-datastore.c for <lock>,
    <get-config>, <edit-config>, <copy-config>, <delete-config> and rollback.
    The startup and candidate datastores are XML documents in memory, the
    running datastore is the OVSDB database.  edit-config.c checks and applies
    edit-config data: to the XML documents directly, and to OVSDB through the
    calls of data.h, which ovs-data.c implements on the rows of the database,
    the network devices, the switches and certificate files.

    ** Parts

    - Prelude.v: outcomes of C code ([Done], [Crash] with the memory error,
      [NoFuel]), the state monad [M] over them, struct nc_err, C strings, search
      loops on lists, the tactics [split_ifs] and [inv_bind].
    - Xml.v, XmlFacts.v: the libxml2 tree with node addresses, its edits, and
      the class [LibXml] of the libxml2 functions called, with the documented
      behaviour relied on; an instance is [ref_libxml].  A node pointer is an
      address; using one that is no longer in its document is [UseAfterFree].
    - edit-config.c: Clrwspace.v (clrwspace), EditTree.v (nscmp, clrns, get_key,
      get_defval, get_operation, is_key, matching_elements,
      find_element_equiv), EditChecks.v (check_keys, check_edit_ops_hierarchy,
      check_edit_ops), EditCompact.v (compact_edit_operations), EditOps.v
      (edit_delete, edit_remove, edit_replace, edit_create, edit_merge,
      edit_operations).  The if-else chains of the running = 1 code are split
      into definitions per parent element (delete_resource, create_rest, ...)
      in the order of the source.  get_operation and friends of libnetconf are
      the class [LibNetconf].
      EditXml.v: facts for running = 0; EditRunning.v: facts for running = 1;
      EditPrepared.v: what the compaction hands over; Samples.v: concrete
      documents and a backend that logs its calls; EditClaims.v, CheckClaims.v:
      the properties.
    - ofconfig-datastore.c, ofconfig-transapi.c: Datastore.v (one definition per
      callback; the state holds both documents, the rollback copy, the locks,
      *error and OVSDB), DatastoreFacts.v, DatastoreClaims.v; OfcModule.v (start
      and end of the datastore, the startup file, state data), StartClaims.v.
      Printing and parsing XML is the class [XmlIO], the text of a printed
      document [XmlFormat].
    - ovs-data.c: Ovsdb.v (rows, tables, the row operations of the OVSDB IDL;
      the class [OvsIdl] leaves open the order of rows, the names of new rows,
      the normal form of columns and whether deleted rows stay readable),
      OvsDevices.v (what lies beside the database: the classes [Kernel],
      [Vconn] and [Files], and the order in which the switches answer),
      OvsQueues.v (queues, QoS and their links to ports), OvsBridges.v (flow
      tables, ports and flow tables of bridges, datapath-id, fail mode),
      OvsControllers.v (controllers, their targets, txn_add_bridge), OvsPorts.v
      (ports, requested numbers, administrative state, advertised features,
      tunnels), OvsOpenFlow.v (port configuration by OpenFlow,
      of_post_ports), OvsCerts.v (owned and external certificates),
      OvsConfig.v (get_*_config, get_*_state), OvsTxn.v (the connection,
      transactions, txn_del_all; the database server is [OvsdbServer]).
      OvsFacts.v, OvsQueueFacts.v, OvsQueueSpecs.v, OvsBridgeFacts.v,
      OvsTextFacts.v, PortFacts.v, CertFacts.v, ConfigFacts.v and OvsTxnFacts.v
      hold the lemmas, XmlText.v a scanner for well-formed text, OvsSamples.v a
      database and devices to evaluate on; OvsClaims.v, StateClaims.v,
      PortClaims.v: the properties.
    - server_ops.c: Agents.v (the linked list with its pointers), AgentsFacts.v
      (it implements a registry), Rpc.v (srv_process_rpc and libnetconf's
      dispatch).
    - comm_socket.c, server_comm_socket.c, agent_comm_socket.c: Sockets.v,
      ServerSocket.v, ServerLoop.v, AgentSocket.v; SocketFacts.v,
      HandlerFacts.v, TableFacts.v, LoopFacts.v, ServeFacts.v,
      AgentSocketFacts.v.
    - server_comm_dbus.c, agent_comm_dbus.c: ServerDBus.v, AgentDBus.v;
      DBusFacts.v, AgentDBusFacts.v.
    - agent.c, server.c: AgentProcess.v, AgentProcessFacts.v, ServerMain.v.
    - ServerSpec.v: [serve], what the server promises to agents; Comm.v,
      CommInstances.v: the transport as an interface; CommSamples.v,
      CommClaims.v: samples and properties of the communication.
    - netconf-server-transapi.c: ServerTransapi.v, TransapiClaims.v.

    ** Interfaces

    edit-config.c meets ovs-data.c through the class [OvsBackend] (EditOps.v):
    one call at a time, a state, and the promise that a failing call leaves an
    error in *e.  ofconfig-datastore.c sees the transactions and get-config of
    OVSDB through the class [OvsStore] (Datastore.v).  The theorems on
    edit-config and the datastores are proved against the classes; OvsLayer.v
    dispatches the calls to the operations of ovs-data.c, and OvsTxnFacts.v
    discharges both classes for them.  What belongs to the database server, the
    kernel, the switches and the file system stays a class.

    Sockets are the class [SocketLib]: the kernel cuts what is sent as it likes,
    but not messages of a few bytes.  The code relies on this when it reads
    integers and strings with a single recv(); it is how UNIX sockets behave and
    nothing that POSIX promises.  accept() may return any number that is not
    open.

    agent.c meets the server through [CommOps] and [Comm] (Comm.v): every call
    is one step of [serve].  CommInstances.v discharges it for sockets and for
    the D-Bus.

    ** What is shown

    - Edits of XML configurations (EditClaims.v): edit_operations returns and
      touches no freed node for any mix of operations that does not nest an
      operation in itself; what create, replace, remove and merge do to the
      document; the default operation replace copies the edit data.
    - Edits of the running configuration: the walks end and consume exactly the
      edited node, a failure leaves an error, no failing call is ignored; the
      calls that single elements of the edit data ask for.
    - Checks (CheckClaims.v): clrwspace stays in its buffer and what it
      computes; the matching of elements and the search for counterparts against
      a relational specification; check_keys and check_edit_ops against
      declarative rules; the compaction preserves the effective operation of
      every node and the namespace declarations in use.
    - Datastores (DatastoreClaims.v): lock exclusion over any sequence of
      requests, every transaction is closed, <edit-config> of startup and
      candidate returns, rollback restores edits and deletions (it fails when
      the document had no root element), copies.
      StartClaims.v: a startup configuration survives the end and the next start
      of the server.
    - OVSDB rows (OvsClaims.v): a consistency invariant of queues, QoS and ports
      that all queue calls keep without ever following a dangling reference;
      what linking, renumbering and deleting a queue do to the links; adding and
      removing a port of a bridge; controller targets written and read back;
      the datapath-id conversion.
    - OVSDB as a whole (StateClaims.v): failures are reported; what txn_del_all
      commits, and what an abort after it goes back to; the tries to reach a
      switch; configuration and state data are well-formed XML for rows whose
      references and texts are as the code takes them to be ([readable]).
    - Ports and certificates (PortClaims.v): features, tunnels and certificates
      are read back as they were written, and what becomes of a requested
      administrative state.
    - Communication (CommClaims.v): the linked list is a registry of agents; a
      round of the server answers every pending request as [serve] says; the
      table of connections keeps its invariant; each remote call over either
      transport is a step of [serve]; no D-Bus message stops the server while
      the datastores return; an agent answers every request of its client, in
      order.
    - sshd (TransapiClaims.v): the lines written for it, what a failing call
      leaves, at most one daemon while process ids fit in 16 bits.
    - Defects of the code, with a theorem each where they show in the model:
      the theorems named ..._loops, ..._use_after_free, ..._crashes,
      ..._frees_..., ..._drops_..., ..._loses_key, ..._not_written,
      ..._other_bridge, ..._spins, ..._blocks_restart, ..._kills_own_session,
      ..._truncated, markup_breaks_configuration, empty_key_matches,
      clrwspace_not_strip, rollback_to_empty_fails.

    ** Fuel

    while loops and recursions through pointers take fuel; [NoFuel] is only
    returned when it is used up.  matching_elements recurses with the size of
    the tree and needs no fuel argument.  On XML configurations fuel above the
    sizes of both documents is enough (EditXml.v, editconfig_local_returns); on
    the running datastore fuel linear in the size of the edited node
    (EditRunning.v).  The theorems on non-termination state that
    no fuel is enough.  The loops over OVSDB rows are structural, of_open_vconn
    makes as many tries as its literal bound, and the loops that wait for the
    database are structural in the list of what arrives from it.  The loops of
    agent and server run over the list of what the client sends and of the
    rounds made.

    ** Not modelled

    Messages to the log and their printing (common.c), the texts of the
    command-line help, memory leaks.  The effect of ovsrec_*_verify_*
    (preconditions of a commit) is left out, as is what the database server does
    with a committed transaction beyond accepting or refusing it.  libnetconf's
    sessions, its parsing of requests and its dispatch to the datastores are
    classes, as is libdbus; the work of the notification thread of an agent and
    the child process that becomes sshd are left out. *)

From stdpp Require Export base option list strings gmap.
From Stdlib Require Export Ascii ZArith Lia.

(** ** Outcomes of C code

    A C function either returns, performs a memory error (the process dies or
    its behaviour is undefined) or waits for ever, or, in a fuelled model, has
    used up its fuel. *)
Inductive fault :=
| NullDeref       (* access through a NULL pointer *)
| UseAfterFree    (* access through a pointer to a freed node *)
| OutOfBounds     (* access outside a buffer *)
| BadFree         (* free() of memory that malloc() did not return *)
| Uninitialised   (* use of memory that was never written *)
| Blocked.        (* a call waits for something that will not happen *)

Inductive outcome (A : Type) :=
| Done (a : A)
| Crash (f : fault)
| NoFuel.
Arguments Done {_} _.
Arguments Crash {_} _.
Arguments NoFuel {_}.

#[global] Instance fault_eq_dec : EqDecision fault.
Proof. solve_decision. Defined.

(** State-passing code: the state is lost when the process dies. *)
Definition M (S A : Type) : Type := S → outcome (A * S).

#[global] Instance M_ret S : MRet (M S) := λ A a s, Done (a, s).
#[global] Instance M_bind S : MBind (M S) := λ A B k m s,
  match m s with
  | Done (a, s') => k a s'
  | Crash f => Crash f
  | NoFuel => NoFuel
  end.

Definition crash {S A} (f : fault) : M S A := λ _, Crash f.
Definition nofuel {S A} : M S A := λ _, NoFuel.
Definition gets {S A} (f : S → A) : M S A := λ s, Done (f s, s).
Definition modify {S} (f : S → S) : M S unit := λ s, Done (tt, f s).
(** Dereference a pointer the code does not test against NULL. *)
Definition deref {S A} (f : fault) (o : option A) : M S A :=
  match o with Some a => mret a | None => crash f end.

Lemma bind_Done {S A B} (m : M S A) (k : A → M S B) s r :
  (m ≫= k) s = Done r ↔ ∃ a s', m s = Done (a, s') ∧ k a s' = Done r.
Proof.
  unfold mbind, M_bind. destruct (m s) as [[a s']| |]; naive_solver.
Qed.

Lemma bind_run {S A B} (m : M S A) (k : A → M S B) s a s' :
  m s = Done (a, s') → (m ≫= k) s = k a s'.
Proof. unfold mbind, M_bind. by intros ->. Qed.

Lemma bind_gets {S A B} (f : S → A) (k : A → M S B) s : (gets f ≫= k) s = k (f s) s.
Proof. done. Qed.
Lemma bind_modify {S B} (f : S → S) (k : unit → M S B) s : (modify f ≫= k) s = k tt (f s).
Proof. done. Qed.
Lemma bind_ret {S A B} (a : A) (k : A → M S B) s : (mret a ≫= k) s = k a s.
Proof. done. Qed.

Lemma bind_NoFuel {S A B} (m : M S A) (k : A → M S B) s :
  (m ≫= k) s = NoFuel ↔
  m s = NoFuel ∨ ∃ a s', m s = Done (a, s') ∧ k a s' = NoFuel.
Proof.
  unfold mbind, M_bind. destruct (m s) as [[a s']| |]; naive_solver.
Qed.

(** ** Observations a computation does not change *)
Definition keeps {S A B} (f : S → B) (m : M S A) : Prop :=
  ∀ s a s', m s = Done (a, s') → f s' = f s.

Section keeps.
Context {S B : Type} (f : S → B).

Lemma keeps_ret {A} (a : A) : keeps f (mret a).
Proof. by intros s a' s' [= <- <-]. Qed.
Lemma keeps_gets {A} (g : S → A) : keeps f (gets g).
Proof. by intros s a' s' [= <- <-]. Qed.
Lemma keeps_modify g : (∀ s, f (g s) = f s) → keeps f (modify g).
Proof. by intros H s a' s' [= <- <-]. Qed.
Lemma keeps_bind {A C} (m : M S A) (k : A → M S C) :
  keeps f m → (∀ a, keeps f (k a)) → keeps f (m ≫= k).
Proof.
  intros Hm Hk s a s' (b & s1 & H1 & H2)%bind_Done.
  by rewrite (Hk _ _ _ _ H2), (Hm _ _ _ H1).
Qed.
Lemma keeps_crash {A} e : keeps f (crash (A := A) e).
Proof. done. Qed.
Lemma keeps_nofuel {A} : keeps f (nofuel (A := A)).
Proof. done. Qed.
Lemma keeps_deref {A} e (o : option A) : keeps f (deref e o).
Proof. destruct o; [apply keeps_ret|done]. Qed.
End keeps.

(** ** Exit codes and NETCONF errors *)
Inductive exit := EXIT_SUCCESS | EXIT_FAILURE.

#[global] Instance exit_eq_dec : EqDecision exit.
Proof. solve_decision. Defined.

Inductive nc_err_tag :=
| NC_ERR_BAD_ATTR | NC_ERR_BAD_ELEM | NC_ERR_MISSING_ELEM | NC_ERR_OP_FAILED
| NC_ERR_OP_NOT_SUPPORTED | NC_ERR_DATA_MISSING | NC_ERR_DATA_EXISTS
| NC_ERR_LOCK_DENIED.

(** struct nc_err, with the parameters this code sets. *)
Record nc_err := NcErr {
  err_tag : nc_err_tag;
  err_type : option string;
  err_badattr : option string;
  err_badelem : option string;
  err_sid : option string;
  err_msg : option string }.

Definition nc_err_new (t : nc_err_tag) : nc_err := NcErr t None None None None None.
Definition set_type (v : string) (e : nc_err) : nc_err :=
  NcErr (err_tag e) (Some v) (err_badattr e) (err_badelem e) (err_sid e) (err_msg e).
Definition set_badattr (v : string) (e : nc_err) : nc_err :=
  NcErr (err_tag e) (err_type e) (Some v) (err_badelem e) (err_sid e) (err_msg e).
Definition set_badelem (v : option string) (e : nc_err) : nc_err :=
  NcErr (err_tag e) (err_type e) (err_badattr e) v (err_sid e) (err_msg e).
Definition set_sid (v : option string) (e : nc_err) : nc_err :=
  NcErr (err_tag e) (err_type e) (err_badattr e) (err_badelem e) v (err_msg e).
Definition set_msg (v : string) (e : nc_err) : nc_err :=
  NcErr (err_tag e) (err_type e) (err_badattr e) (err_badelem e) (err_sid e) (Some v).

(** ** C characters and strings

    A char buffer is a list of characters indexed from 0; a C string is read
    up to its first NUL. *)
Definition NUL : ascii := Ascii.zero.

(** isspace() in the C locale: space, \t, \n, \v, \f, \r. *)
Definition isspace (c : ascii) : bool :=
  let n := N_of_ascii c in ((n =? 32) || ((9 <=? n) && (n <=? 13)))%N.

Lemma isspace_NUL : isspace NUL = false.
Proof. reflexivity. Qed.

(** The buffer strdup() fills: the characters and the terminating NUL. *)
Definition cbuf (s : string) : list ascii := String.list_ascii_of_string s ++ [NUL].

(** The string a char * pointing at a buffer denotes. *)
Fixpoint cstr (b : list ascii) : string :=
  match b with
  | [] => EmptyString
  | c :: b' => if bool_decide (c = NUL) then EmptyString else String c (cstr b')
  end.

(** A string without NUL characters: every string that came from a char *. *)
Definition nonul (l : list ascii) : Prop := Forall (λ c, c ≠ NUL) l.

Lemma cstr_app l b : nonul l →
  cstr (l ++ NUL :: b) = String.string_of_list_ascii l.
Proof.
  induction 1 as [|c l Hc _ IH]; [done|]. simpl.
  rewrite bool_decide_eq_false_2 by done. by rewrite IH.
Qed.

Lemma cstr_cbuf s : nonul (String.list_ascii_of_string s) → cstr (cbuf s) = s.
Proof.
  intros H. unfold cbuf. rewrite cstr_app by done.
  apply String.string_of_list_ascii_of_string.
Qed.

(** ** Tactics *)

(** Case analysis on every decidable test and match scrutinee of the goal. *)
Ltac split_ifs :=
  repeat (case_match || case_bool_decide || case_decide); simplify_eq/=.

(** Open a monadic computation that is known to have returned. *)
Ltac inv_bind H :=
  let a := fresh "a" in let s' := fresh "s'" in let H1 := fresh "Hm" in
  apply bind_Done in H; destruct H as (a & s' & H1 & H).

(** ** Lists *)
Section lists.
Context {A B : Type}.
Implicit Types (l : list A).

(** The first element with a property, as a search loop finds it. *)
Fixpoint find_first (P : A → bool) l : option A :=
  match l with
  | [] => None
  | x :: l' => if P x then Some x else find_first P l'
  end.

Lemma find_first_Some P l x :
  find_first P l = Some x → x ∈ l ∧ P x = true.
Proof.
  induction l as [|y l IH]; simpl; [done|].
  destruct (P y) eqn:E; intros H; simplify_eq; [set_solver|].
  destruct (IH H); set_solver.
Qed.

Lemma find_first_None P l :
  find_first P l = None ↔ ∀ x, x ∈ l → P x = false.
Proof.
  induction l as [|y l IH]; simpl; [set_solver|].
  destruct (P y) eqn:E.
  - split; [done|]. intros H. rewrite (H y) in E by set_solver. done.
  - rewrite IH. split; [|set_solver]. intros H x [->|]%elem_of_cons; auto.
Qed.

Lemma find_first_split P l x : find_first P l = Some x ↔
  ∃ l1 l2, l = l1 ++ x :: l2 ∧ P x = true ∧ ∀ y, y ∈ l1 → P y = false.
Proof.
  split.
  - induction l as [|y l IH]; simpl; [done|]. destruct (P y) eqn:E; intros H; simplify_eq.
    + exists [], l. split_and!; [done|done|set_solver].
    + destruct (IH H) as (l1 & l2 & -> & ? & ?). exists (y :: l1), l2. split_and!; set_solver.
  - intros (l1 & l2 & -> & Hx & H). induction l1 as [|y l1 IH]; simpl; [by rewrite Hx|].
    rewrite H by set_solver. set_solver.
Qed.

(** The first result a search loop stops with. *)
Fixpoint first_some (f : A → option B) l : option B :=
  match l with
  | [] => None
  | x :: l' => match f x with Some y => Some y | None => first_some f l' end
  end.

Lemma first_some_Some f l y : first_some f l = Some y → ∃ x, x ∈ l ∧ f x = Some y.
Proof.
  induction l as [|x l IH]; simpl; [done|].
  destruct (f x) eqn:E; intros H; simplify_eq; [set_solver|].
  destruct (IH H) as (x' & ? & ?); set_solver.
Qed.

Lemma first_some_None f l : first_some f l = None ↔ ∀ x, x ∈ l → f x = None.
Proof.
  induction l as [|x l IH]; simpl; [set_solver|].
  destruct (f x) eqn:E.
  - split; [done|]. intros H. rewrite (H x) in E by set_solver. done.
  - rewrite IH. split; [|set_solver]. intros H x' [->|]%elem_of_cons; auto.
Qed.

Lemma find_first_ext P Q l :
  (∀ x, x ∈ l → P x = Q x) → find_first P l = find_first Q l.
Proof.
  induction l as [|y l IH]; intros H; simpl; [done|].
  rewrite (H y) by set_solver. rewrite IH; [done|set_solver].
Qed.
End lists.

Lemma filter_keeps_all {A} (P : A → Prop) `{∀ x, Decision (P x)} (l : list A) :
  (∀ x, x ∈ l → P x) → filter P l = l.
Proof.
  induction l as [|x l IH]; intros Hl; [done|]. rewrite filter_cons, decide_True by (apply Hl; by left).
  f_equal. apply IH. intros y Hy. apply Hl. by right.
Qed.

Create HintDb ofc.
#[export] Hint Resolve isspace_NUL : ofc.
