(* ===== verification/Clrwspace.v ===== *)
(** * Whitespace stripping (edit-config.c, clrwspace)

    clrwspace() works in place on a strdup() copy of its argument.  The model
    keeps the buffer and both indices; [None] is an access outside the buffer
    or a loop that did not finish.  [clrwspace_closed] shows that neither
    happens and what the function computes. *)

From S2P Require Import Prelude.

(** while (retval[i] != '\0' && isspace(retval[i])) i++; *)
Fixpoint skip_ws (fuel : nat) (b : list ascii) (i : nat) : option nat :=
  match fuel with
  | 0 => None
  | S f => c ← b !! i;
           if bool_decide (c ≠ NUL) && isspace c then skip_ws f b (S i) else Some i
  end.

(** for (i = 0, j = 0; i < len; i++, j++) { skip; retval[j] = retval[i]; } *)
Fixpoint shift_left (fuel len : nat) (b : list ascii) (i j : nat) : option (list ascii * nat) :=
  match fuel with
  | 0 => None
  | S f =>
      if i <? len then
        i' ← skip_ws (S (length b)) b i;
        c ← b !! i';
        if j <? length b then shift_left f len (<[j:=c]> b) (S i') (S j) else None
      else Some (b, j)
  end.

(** while (j >= 0 && isspace(retval[j])) { retval[j] = '\0'; j--; } *)
Fixpoint trim_end (b : list ascii) (j : nat) : option (list ascii) :=
  c ← b !! j;
  if isspace c then
    match j with
    | 0 => Some (<[0:=NUL]> b)
    | S j' => trim_end (<[j:=NUL]> b) j'
    end
  else Some b.

Definition clrwspace (s : string) : option string :=
  let len := String.length s in
  let b0 := cbuf s in
  c0 ← b0 !! 0;
  '(b, j) ← (if isspace c0 then shift_left (S len) len b0 0 0 else Some (b0, 0));
  b' ← trim_end b j;
  Some (cstr b').

(** ** What it computes *)
Definition nonspaces (l : list ascii) : list ascii := filter (λ c, isspace c = false) l.
Definition ends_ws (l : list ascii) : bool :=
  match last l with Some c => isspace c | None => false end.

(** A string that starts with whitespace loses all of its whitespace, inner
    whitespace included; when it does not also end with whitespace the tail of
    the original text stays behind the result.  A string that does not start
    with whitespace is returned as it is. *)
Definition clr_chars (l : list ascii) : list ascii :=
  match l with
  | [] => []
  | c :: _ =>
      if isspace c then
        let t := nonspaces l in
        if ends_ws l then t
        else match l !! length t with
             | Some d => if isspace d then t else t ++ drop (length t) l
             | None => t
             end
      else l
  end.

Definition all_space (l : list ascii) : bool := forallb isspace l.

(** Overwriting a buffer from index j on. *)
Definition write (j : nat) (xs b : list ascii) : list ascii :=
  take j b ++ xs ++ drop (j + length xs) b.

Lemma isspace_nonul c : isspace c = true → c ≠ NUL.
Proof. by intros H ->. Qed.

Lemma nonspaces_app l k : nonspaces (l ++ k) = nonspaces l ++ nonspaces k.
Proof. apply filter_app. Qed.

Lemma nonspaces_space w : Forall (λ c, isspace c = true) w → nonspaces w = [].
Proof.
  induction 1 as [|c w Hc _ IH]; [done|]. unfold nonspaces in *.
  by rewrite filter_cons_False by congruence.
Qed.

Lemma nonspaces_keep c l : isspace c = false → nonspaces (c :: l) = c :: nonspaces l.
Proof. intros H. unfold nonspaces. by rewrite filter_cons_True. Qed.

Lemma nonspaces_nonul l : nonul l → nonul (nonspaces l).
Proof.
  unfold nonul, nonspaces. rewrite !Forall_forall. intros H c Hc.
  apply H. by apply list_elem_of_filter in Hc as [_ ?].
Qed.

Lemma skip_ws_spec b w c r : ∀ i fuel,
  Forall (λ c, isspace c = true) w → isspace c = false →
  drop i b = w ++ c :: r → length w < fuel →
  skip_ws fuel b i = Some (i + length w) ∧ b !! (i + length w) = Some c.
Proof.
  induction w as [|d w IH]; intros i [|fuel] Hw Hc Hb Hf; simpl in *; try lia.
  - assert (b !! i = Some c) as E.
    { rewrite <-(Nat.add_0_r i), <-lookup_drop, Hb. done. }
    rewrite Nat.add_0_r, E. simpl. rewrite Hc, andb_false_r. done.
  - inversion Hw; subst.
    assert (b !! i = Some d) as E.
    { rewrite <-(Nat.add_0_r i), <-lookup_drop, Hb. done. }
    rewrite E. simpl. rewrite bool_decide_eq_true_2 by by apply isspace_nonul.
    rewrite H1. simpl. rewrite Nat.add_succ_r. apply (IH (S i)); [done|done| |lia].
    rewrite <-Nat.add_1_r, <-drop_drop, Hb. done.
Qed.

(** Every list is a run of whitespace followed by nothing or by a
    non-whitespace character. *)
Lemma ws_prefix l : ∃ w r, l = w ++ r ∧ Forall (λ c, isspace c = true) w ∧
  match r with [] => True | c :: _ => isspace c = false end.
Proof.
  induction l as [|c l (w & r & -> & Hw & Hr)]; [by exists [], []|].
  destruct (isspace c) eqn:E.
  - exists (c :: w), r. auto.
  - by exists [], (c :: w ++ r).
Qed.

Lemma drop_insert_lt (b : list ascii) i j c : j < i → drop i (<[j:=c]> b) = drop i b.
Proof. intros. by rewrite drop_insert_lt. Qed.

Lemma write_nil j b : write j [] b = b.
Proof. unfold write. simpl. rewrite Nat.add_0_r. apply take_drop. Qed.

Lemma insert_write j c b : j < length b → <[j:=c]> b = write j [c] b.
Proof.
  intros H. unfold write. rewrite insert_take_drop by done. simpl.
  by rewrite Nat.add_1_r.
Qed.

Lemma write_cons j c xs b : j < length b →
  write (S j) xs (<[j:=c]> b) = write j (c :: xs) b.
Proof.
  intros H. unfold write. rewrite drop_insert_lt by lia. simpl.
  rewrite (take_S_r _ _ c), take_insert_ge by (done || by apply list_lookup_insert_eq).
  rewrite <-(assoc_L (++)). simpl. by rewrite Nat.add_succ_r.
Qed.

Lemma ends_ws_app w c r : isspace c = false → ends_ws (w ++ c :: r) = ends_ws r.
Proof.
  intros Hc. unfold ends_ws. rewrite last_app_cons. destruct r as [|d r]; simpl.
  - by rewrite Hc.
  - done.
Qed.

Lemma ends_ws_space w : w ≠ [] → Forall (λ c, isspace c = true) w → ends_ws w = true.
Proof.
  intros Hne Hw. destruct w as [|c w] using rev_ind; [done|].
  unfold ends_ws. rewrite last_snoc. apply Forall_app in Hw as [_ Hw].
  by inversion Hw.
Qed.

(** What the compaction loop writes when the characters [u] are still ahead. *)
Definition shifted (u : list ascii) : list ascii :=
  nonspaces u ++ (if ends_ws u then [NUL] else []).

Lemma shift_left_spec n : ∀ u i j b len fuel,
  length u ≤ n → drop i b = u ++ [NUL] → i + length u = len → length b = S len →
  j ≤ i → length u < fuel →
  shift_left fuel len b i j = Some (write j (shifted u) b, j + length (shifted u)).
Proof.
  induction n as [|n IH]; intros u i j b len [|fuel] Hn Hd Hl Hb Hj Hf; try lia.
  - destruct u; [|simpl in *; lia]. simpl in *. rewrite (proj2 (Nat.ltb_ge i len)) by lia.
    by rewrite write_nil, Nat.add_0_r.
  - destruct (ws_prefix u) as (w & r & -> & Hw & Hr). cbn [shift_left].
    rewrite length_app in *. destruct (decide (i < len)) as [Hi|Hi]; last first.
    { rewrite (proj2 (Nat.ltb_ge i len)) by lia.
      destruct w; [|simpl in *; lia]. destruct r; [|simpl in *; lia].
      by rewrite write_nil, Nat.add_0_r. }
    rewrite (proj2 (Nat.ltb_lt i len)) by done.
    destruct r as [|c r].
    + rewrite app_nil_r in *. simpl in Hl.
      destruct (skip_ws_spec b w NUL [] i (S (length b))) as [-> Hc]; [done|done|done|lia|].
      simpl. rewrite Hc. simpl. rewrite (proj2 (Nat.ltb_lt j (length b))) by lia.
      destruct fuel as [|fuel]; [lia|]. simpl.
      rewrite (proj2 (Nat.ltb_ge (S (i + length w)) len)) by lia.
      unfold shifted. rewrite nonspaces_space by done.
      rewrite ends_ws_space; [|destruct w; simpl in *; [lia|done]|done].
      simpl. by rewrite insert_write, Nat.add_1_r by lia.
    + rewrite <-(assoc_L (++)) in Hd. simpl in Hd, Hl, Hn, Hf.
      destruct (skip_ws_spec b w c (r ++ [NUL]) i (S (length b))) as [-> Hc]; [done|done|done|lia|].
      simpl. rewrite Hc. simpl. rewrite (proj2 (Nat.ltb_lt j (length b))) by lia.
      rewrite (IH r (S (i + length w)) (S j)); try lia.
      * unfold shifted. rewrite nonspaces_app, ends_ws_app, (nonspaces_space w) by done.
        rewrite nonspaces_keep by done. simpl.
        rewrite write_cons by lia. do 2 f_equal. lia.
      * rewrite drop_insert_lt by lia.
        replace (S (i + length w)) with (i + (length w + 1)) by lia.
        rewrite <-drop_drop, Hd, <-drop_drop, drop_app_length. done.
      * rewrite length_insert. lia.
Qed.

Lemma nonspaces_last t x l : nonspaces l = t ++ [x] → isspace x = false.
Proof.
  intros H. assert (x ∈ nonspaces l) as Hx by (rewrite H; set_solver).
  by apply list_elem_of_filter in Hx as [? _].
Qed.

Lemma nonspaces_length_lt c l : isspace c = true → length (nonspaces (c :: l)) ≤ length l.
Proof.
  intros H. unfold nonspaces. rewrite filter_cons_False by congruence. apply length_filter.
Qed.

Lemma trim_end_space l t d r : nonspaces l = t → isspace d = true →
  trim_end (t ++ d :: r) (length t) = Some (t ++ NUL :: r).
Proof.
  intros Ht Hd.
  assert ((t ++ d :: r) !! length t = Some d) as Hn.
  { rewrite lookup_app_r by lia. by rewrite Nat.sub_diag. }
  assert (<[length t:=NUL]> (t ++ d :: r) = t ++ NUL :: r) as Hi.
  { rewrite <-(Nat.add_0_r (length t)) at 1. by rewrite insert_app_r. }
  destruct t as [|x t' _] using rev_ind; [simpl in *; by rewrite Hd|].
  pose proof (nonspaces_last t' x l Ht) as Hx.
  rewrite length_app in Hn, Hi |- *. simpl in *. rewrite Nat.add_1_r in *. simpl.
  rewrite Hn. simpl. rewrite Hd, Hi. destruct (length t') eqn:El; simpl.
  - destruct t'; [|done]. simpl. by rewrite Hx.
  - rewrite lookup_app_l by (rewrite length_app; simpl; lia).
    rewrite lookup_app_r by lia. rewrite El, Nat.sub_diag. simpl. by rewrite Hx.
Qed.

Lemma trim_end_stop b j c : b !! j = Some c → isspace c = false → trim_end b j = Some b.
Proof. intros H Hc. destruct j; simpl; rewrite H; simpl; by rewrite Hc. Qed.

Lemma trim_end_nul t d r :
  trim_end (t ++ NUL :: d :: r) (S (length t)) =
  Some (t ++ NUL :: (if isspace d then NUL else d) :: r).
Proof.
  assert ((t ++ NUL :: d :: r) !! S (length t) = Some d) as Hn.
  { rewrite lookup_app_r by lia. by replace (S (length t) - length t) with 1 by lia. }
  destruct (isspace d) eqn:Hd; [|by eapply trim_end_stop].
  cbn [trim_end]. rewrite Hn. cbn [mbind option_bind]. rewrite Hd.
  assert (<[S (length t):=NUL]> (t ++ NUL :: d :: r) = t ++ NUL :: NUL :: r) as ->.
  { rewrite <-(Nat.add_1_r (length t)). by rewrite insert_app_r. }
  eapply trim_end_stop; [|apply isspace_NUL].
  rewrite lookup_app_r by lia. by rewrite Nat.sub_diag.
Qed.

Lemma length_string s : String.length s = length (String.list_ascii_of_string s).
Proof. induction s as [|c s IH]; simpl; [done|by rewrite IH]. Qed.

Lemma clrwspace_chars l : nonul l →
  clrwspace (String.string_of_list_ascii l) = Some (String.string_of_list_ascii (clr_chars l)).
Proof.
  intros Hl. unfold clrwspace, cbuf. rewrite length_string.
  rewrite !String.list_ascii_of_string_of_list_ascii.
  destruct l as [|c l']; [done|]. cbn [app lookup list_lookup mbind option_bind].
  unfold clr_chars. destruct (isspace c) eqn:Hc; last first.
  { cbn [mbind option_bind]. rewrite (trim_end_stop _ 0 c) by done.
    cbn [mbind option_bind]. f_equal. exact (cstr_app (c :: l') [] Hl). }
  change (c :: l' ++ [NUL]) with ((c :: l') ++ [NUL]).
  assert (length (nonspaces (c :: l')) < length (c :: l')) as Hk.
  { pose proof (nonspaces_length_lt c l' Hc). simpl. lia. }
  generalize dependent (c :: l'). clear l'. intros l Hl Hk. set (t := nonspaces l) in *.
  assert (nonul t) as Ht by by apply nonspaces_nonul.
  rewrite (shift_left_spec (length l) l) by (rewrite ?length_app; simpl; done || lia).
  unfold shifted, write. fold t. rewrite take_0, app_nil_l. cbn [mbind option_bind].
  destruct (drop (length t) l) as [|d r] eqn:Hd.
  { apply (f_equal length) in Hd. rewrite length_drop in Hd. simpl in Hd. lia. }
  assert (l !! length t = Some d) as Hlk.
  { rewrite <-(Nat.add_0_r (length t)), <-lookup_drop, Hd. done. }
  rewrite Hlk. destruct (ends_ws l) eqn:He.
  - rewrite length_app. cbn [length].
    replace (0 + (length t + 1)) with (S (length t)) by lia.
    rewrite drop_app_le by lia.
    assert (drop (S (length t)) l = r) as ->.
    { by rewrite <-Nat.add_1_r, <-drop_drop, Hd. }
    rewrite <-(assoc_L (++)). cbn [app].
    destruct (r ++ [NUL]) as [|d' r'] eqn:Er; [by destruct r|].
    rewrite trim_end_nul. cbn [mbind option_bind]. by rewrite cstr_app.
  - rewrite app_nil_r, Nat.add_0_l, drop_app_le, Hd by lia. cbn [app].
    destruct (isspace d) eqn:Hsd.
    + rewrite (trim_end_space l) by done. cbn [mbind option_bind]. by rewrite cstr_app.
    + erewrite (trim_end_stop _ _ d); [|by rewrite lookup_app_r, Nat.sub_diag by lia|done].
      cbn [mbind option_bind]. replace (t ++ d :: r ++ [NUL]) with ((t ++ d :: r) ++ NUL :: [])
        by by rewrite <-(assoc_L (++)).
      rewrite cstr_app; [done|]. apply Forall_app. split; [done|].
      unfold nonul in Hl. rewrite <-Hd. by apply Forall_drop.
Qed.

(** ** Consequences *)
Lemma clr_chars_no_lead l : (∀ c, head l = Some c → isspace c = false) → clr_chars l = l.
Proof. intros H. destruct l as [|c l]; [done|]. simpl. by rewrite (H c). Qed.

Lemma all_space_nonspaces l : all_space l = true ↔ nonspaces l = [].
Proof.
  unfold all_space. rewrite forallb_forall. split.
  - intros H. apply nonspaces_space, Forall_forall. intros c Hc. apply H. by apply list_elem_of_In.
  - intros H c Hc. destruct (isspace c) eqn:E; [done|].
    assert (c ∈ nonspaces l) as Hin by (apply list_elem_of_filter; split; [done|by apply list_elem_of_In]).
    rewrite H in Hin. set_solver.
Qed.

(** The only strings stripped to nothing are the blank ones. *)
Lemma clr_chars_nil l : clr_chars l = [] ↔ all_space l = true.
Proof.
  rewrite all_space_nonspaces. destruct l as [|c l]; [done|].
  unfold clr_chars. destruct (isspace c) eqn:Hc.
  - destruct (ends_ws (c :: l)) eqn:He; [done|]. split.
    + destruct (_ !! _) as [d|] eqn:Hd; [|done]. destruct (isspace d); [done|].
      intros [-> _]%app_eq_nil. done.
    + intros H. exfalso. rewrite ends_ws_space in He; [done|done|].
      apply Forall_forall. intros x Hx. apply all_space_nonspaces in H.
      unfold all_space in H. rewrite forallb_forall in H. apply H. by apply list_elem_of_In.
  - by rewrite nonspaces_keep.
Qed.
