(* ===== verification/Xml.v ===== *)
(** * The XML documents of the server

    The libxml2 data structure the code walks through (struct _xmlNode: type,
    name, ns, nsDef, properties, content, children, and parent as the path that
    leads to a node), and, as the class [LibXml], the libxml2 functions the
    code calls, with the documented behaviour it relies on.  A pointer is the
    identifier of a node; dereferencing an identifier that is no longer in its
    document is a use after free. *)

From S2P Require Import Prelude.

Definition ptr := nat.

Inductive xmlElementType :=
| XML_ELEMENT_NODE | XML_TEXT_NODE | XML_COMMENT_NODE | XML_PI_NODE
| XML_CDATA_SECTION_NODE | XML_DOCUMENT_NODE.

#[global] Instance xmlElementType_eq_dec : EqDecision xmlElementType.
Proof. solve_decision. Defined.

(** struct xmlNs: its address and its href. *)
Record xmlNs := XmlNs { ns_id : ptr; ns_href : option string }.

#[global] Instance xmlNs_eq_dec : EqDecision xmlNs.
Proof. solve_decision. Defined.

(** struct xmlAttr. *)
Record xmlAttr := XmlAttr { at_name : string; at_ns : option xmlNs; at_value : string }.

#[global] Instance xmlAttr_eq_dec : EqDecision xmlAttr.
Proof. solve_decision. Defined.

(** The fields of struct xmlNode other than its links. *)
Record xmlHdr := XmlHdr {
  h_type : xmlElementType;
  h_name : option string;
  h_ns : option xmlNs;
  h_nsDef : list xmlNs;
  h_properties : list xmlAttr;
  h_content : option string }.

(** struct xmlNode (and struct xmlDoc, a node of type XML_DOCUMENT_NODE). *)
Inductive xmlNode := XmlNode (id : ptr) (h : xmlHdr) (cs : list xmlNode).

Definition nid (n : xmlNode) : ptr := let (i, _, _) := n in i.
Definition hdr (n : xmlNode) : xmlHdr := let (_, h, _) := n in h.
Definition children (n : xmlNode) : list xmlNode := let (_, _, cs) := n in cs.
Definition ntype (n : xmlNode) : xmlElementType := h_type (hdr n).
Definition name (n : xmlNode) : option string := h_name (hdr n).
Definition ns (n : xmlNode) : option xmlNs := h_ns (hdr n).
Definition nsDef (n : xmlNode) : list xmlNs := h_nsDef (hdr n).
Definition properties (n : xmlNode) : list xmlAttr := h_properties (hdr n).
Definition content (n : xmlNode) : option string := h_content (hdr n).
(** node->children: the first child or NULL. *)
Definition first_child (n : xmlNode) : option xmlNode := head (children n).

Definition with_hdr (f : xmlHdr → xmlHdr) (n : xmlNode) : xmlNode :=
  let (i, h, cs) := n in XmlNode i (f h) cs.
Definition with_children (f : list xmlNode → list xmlNode) (n : xmlNode) : xmlNode :=
  let (i, h, cs) := n in XmlNode i h (f cs).
Definition hdr_set_ns (v : option xmlNs) (h : xmlHdr) : xmlHdr :=
  XmlHdr (h_type h) (h_name h) v (h_nsDef h) (h_properties h) (h_content h).
Definition hdr_set_nsDef (v : list xmlNs) (h : xmlHdr) : xmlHdr :=
  XmlHdr (h_type h) (h_name h) (h_ns h) v (h_properties h) (h_content h).
Definition hdr_set_properties (v : list xmlAttr) (h : xmlHdr) : xmlHdr :=
  XmlHdr (h_type h) (h_name h) (h_ns h) (h_nsDef h) v (h_content h).
Definition hdr_set_content (v : option string) (h : xmlHdr) : xmlHdr :=
  XmlHdr (h_type h) (h_name h) (h_ns h) (h_nsDef h) (h_properties h) v.

(** Induction that reaches the children. *)
Section node_ind.
Variable P : xmlNode → Prop.
Hypothesis step : ∀ i h cs, Forall P cs → P (XmlNode i h cs).
Fixpoint xmlNode_ind' (n : xmlNode) : P n :=
  match n with
  | XmlNode i h cs => step i h cs
      ((fix go l : Forall P l := match l with
        | [] => Forall_nil_2 P
        | c :: l' => Forall_cons_2 P c l' (xmlNode_ind' c) (go l')
        end) cs)
  end.
End node_ind.

(** xmlStrEqual() and xmlStrcmp() == 0: a NULL string equals only NULL. *)
Definition xmlStrEqual (a b : option string) : bool := bool_decide (a = b).
Definition name_is (n : xmlNode) (s : string) : bool := xmlStrEqual (name n) (Some s).

Lemma name_is_spec n s : name_is n s = true ↔ name n = Some s.
Proof. apply bool_decide_eq_true. Qed.

(** ** Pointers *)

(** Identifiers of a subtree, and its nodes in document order. *)
Fixpoint subtree (n : xmlNode) : list xmlNode :=
  n :: (fix go l := match l with [] => [] | c :: l' => subtree c ++ go l' end)
        (children n).
Definition forest (l : list xmlNode) : list xmlNode := l ≫= subtree.
Definition ids (n : xmlNode) : list ptr := nid <$> subtree n.
(** A document: distinct addresses, and document type at the root only. *)
Definition wf_doc (d : xmlNode) : Prop :=
  NoDup (ids d) ∧ ntype d = XML_DOCUMENT_NODE ∧
  Forall (λ n, ntype n ≠ XML_DOCUMENT_NODE) (forest (children d)).

(** Dereferencing a pointer with its parent links: the node, its parent, ...,
    the document. *)
Definition cursor := list xmlNode.

Fixpoint path_to (p : ptr) (n : xmlNode) : option cursor :=
  if bool_decide (nid n = p) then Some [n]
  else (fix go l := match l with
        | [] => None
        | c :: l' => match path_to p c with
                     | Some cur => Some (cur ++ [n])
                     | None => go l'
                     end
        end) (children n).

(** The tree without the subtrees rooted at p. *)
Fixpoint remove_node (p : ptr) (n : xmlNode) : xmlNode :=
  match n with XmlNode i h cs =>
    XmlNode i h ((fix go l := match l with
      | [] => []
      | c :: l' => if bool_decide (nid c = p) then go l' else remove_node p c :: go l'
      end) cs)
  end.

(** The tree with the node at p replaced by its image under f. *)
Fixpoint alter_node (p : ptr) (f : xmlNode → xmlNode) (n : xmlNode) : xmlNode :=
  match n with XmlNode i h cs =>
    if bool_decide (i = p) then f (XmlNode i h cs)
    else XmlNode i h ((fix go l := match l with
      | [] => []
      | c :: l' => alter_node p f c :: go l'
      end) cs)
  end.

Definition remove_list (p : ptr) (l : list xmlNode) : list xmlNode :=
  remove_node p <$> filter (λ c, nid c ≠ p) l.

(** ** Equations of the nested recursions *)
Lemma subtree_eq n : subtree n = n :: forest (children n).
Proof.
  by destruct n.
Qed.

Lemma forest_cons c l : forest (c :: l) = subtree c ++ forest l.
Proof. done. Qed.
Lemma forest_app l k : forest (l ++ k) = forest l ++ forest k.
Proof. apply bind_app. Qed.

Definition path_list (p : ptr) (l : list xmlNode) : option cursor :=
  (fix go l := match l with
   | [] => None
   | c :: l' => match path_to p c with Some cur => Some cur | None => go l' end
   end) l.

Lemma path_to_eq p n :
  path_to p n = if bool_decide (nid n = p) then Some [n]
                else (λ cur, cur ++ [n]) <$> path_list p (children n).
Proof.
  destruct n as [i h cs]. simpl. case_bool_decide; [done|].
  generalize (XmlNode i h cs) as m. intros m.
  induction cs as [|c cs IH]; [done|]. simpl. rewrite IH.
  by destruct (path_to p c).
Qed.

Lemma remove_node_eq p i h cs :
  remove_node p (XmlNode i h cs) = XmlNode i h (remove_list p cs).
Proof.
  simpl. f_equal. unfold remove_list. induction cs as [|c cs IH]; [done|].
  case_bool_decide.
  - rewrite filter_cons_False by naive_solver. exact IH.
  - rewrite filter_cons_True by done. rewrite fmap_cons. f_equal. exact IH.
Qed.

Lemma alter_node_eq p f i h cs :
  alter_node p f (XmlNode i h cs) =
  if bool_decide (i = p) then f (XmlNode i h cs)
  else XmlNode i h (alter_node p f <$> cs).
Proof.
  done.
Qed.

Lemma children_remove p n : children (remove_node p n) = remove_list p (children n).
Proof. destruct n. by rewrite remove_node_eq. Qed.
Lemma hdr_remove p n : hdr (remove_node p n) = hdr n.
Proof. destruct n. by rewrite remove_node_eq. Qed.
Lemma nid_remove p n : nid (remove_node p n) = nid n.
Proof. destruct n. by rewrite remove_node_eq. Qed.

(** ** Dereferencing after a removal *)

(** A cursor that leads from a node up to the document. *)
Fixpoint is_path (cur : cursor) (d : xmlNode) : Prop :=
  match cur with
  | [] => False
  | [n] => n = d
  | n :: (m :: _) as up => n ∈ children m ∧ is_path up d
  end.

Lemma path_list_Some p l cur : path_list p l = Some cur →
  ∃ c, c ∈ l ∧ path_to p c = Some cur.
Proof.
  induction l as [|c l IH]; simpl; [done|].
  destruct (path_to p c) eqn:E; intros; simplify_eq; [set_solver|].
  destruct IH as (c' & ? & ?); set_solver.
Qed.

Lemma path_list_None p l : path_list p l = None ↔ ∀ c, c ∈ l → path_to p c = None.
Proof.
  induction l as [|c l IH]; simpl; [set_solver|].
  destruct (path_to p c) eqn:E.
  - split; [done|]. intros H. rewrite H in E by set_solver. done.
  - rewrite IH. split; [|set_solver]. intros H c' [->|]%elem_of_cons; auto.
Qed.

Lemma is_path_app cur n d : is_path cur n → n ∈ children d → is_path (cur ++ [d]) d.
Proof.
  induction cur as [|c [|c' cur] IH]; simpl; [done|by intros ->|].
  intros [? ?] ?. split; [done|]. by apply IH.
Qed.

Lemma path_to_is_path p n cur : path_to p n = Some cur → is_path cur n.
Proof.
  revert cur. induction n as [i h cs IH] using xmlNode_ind'; intros cur.
  rewrite path_to_eq. case_bool_decide; [by intros [= <-]|]. simpl.
  intros (cur' & (c & Hc & Hp)%path_list_Some & ->)%fmap_Some.
  rewrite Forall_forall in IH. eapply is_path_app; eauto.
Qed.

Lemma path_to_head p n cur : path_to p n = Some cur →
  ∃ m up, cur = m :: up ∧ nid m = p.
Proof.
  revert cur. induction n as [i h cs IH] using xmlNode_ind'; intros cur.
  rewrite path_to_eq. case_bool_decide; [intros [= <-]; eauto|]. simpl.
  intros (cur' & (c & Hc & Hp)%path_list_Some & ->)%fmap_Some.
  rewrite Forall_forall in IH. destruct (IH c Hc cur' Hp) as (m & up & -> & ?).
  eexists m, _. split; [reflexivity|done].
Qed.

(** The nodes on a path, other than the root, lie below the root. *)
Lemma path_to_below p n cur : path_to p n = Some cur →
  ∃ l, cur = l ++ [n] ∧ Forall (λ m, m ∈ forest (children n)) l ∧
       (l = [] ↔ nid n = p).
Proof.
  revert cur. induction n as [i h cs IH] using xmlNode_ind'; intros cur.
  rewrite path_to_eq. case_bool_decide as Hi.
  { intros [= <-]. by exists []. }
  intros (cur' & (c & Hc & Hp)%path_list_Some & ->)%fmap_Some.
  rewrite Forall_forall in IH. destruct (IH c Hc cur' Hp) as (l & -> & Hl & _).
  exists (l ++ [c]). split_and!; [done| |].
  - assert (∀ m, m ∈ subtree c → m ∈ forest cs) as Hsub.
    { intros m Hm. apply list_elem_of_bind. eauto. }
    simpl. apply Forall_app. split; [|apply Forall_singleton, Hsub; rewrite subtree_eq; set_solver].
    eapply Forall_impl; [exact Hl|]. intros m Hm. apply Hsub. rewrite subtree_eq. set_solver.
  - split; [by intros [? ?]%app_nil|by intros ?].
Qed.

Lemma path_to_None p n : path_to p n = None ↔ p ∉ ids n.
Proof.
  induction n as [i h cs IH] using xmlNode_ind'.
  rewrite path_to_eq. unfold ids. rewrite subtree_eq. simpl.
  case_bool_decide as Hi; [subst; set_solver|].
  rewrite fmap_None, path_list_None. rewrite Forall_forall in IH.
  rewrite not_elem_of_cons. unfold forest. split.
  - intros H. split; [congruence|]. intros (m & -> & (c & Hm & Hc)%list_elem_of_bind)%list_elem_of_fmap.
    apply (proj1 (IH c Hc)); [auto|]. apply list_elem_of_fmap. eauto.
  - intros [_ H] c Hc. apply IH; [done|]. contradict H.
    apply list_elem_of_fmap in H as (m & -> & Hm). apply list_elem_of_fmap.
    exists m. split; [done|]. apply list_elem_of_bind. eauto.
Qed.

Lemma path_to_Some p n : is_Some (path_to p n) ↔ p ∈ ids n.
Proof.
  rewrite <-not_eq_None_Some. rewrite path_to_None.
  destruct (decide (p ∈ ids n)); naive_solver.
Qed.

Lemma elem_of_ids p n : p ∈ ids n ↔ p = nid n ∨ ∃ c, c ∈ children n ∧ p ∈ ids c.
Proof.
  unfold ids. rewrite subtree_eq, fmap_cons, elem_of_cons. f_equiv.
  rewrite list_elem_of_fmap. unfold forest. setoid_rewrite list_elem_of_bind.
  setoid_rewrite list_elem_of_fmap. naive_solver.
Qed.

Lemma elem_of_ids_list p l : p ∈ nid <$> forest l ↔ ∃ c, c ∈ l ∧ p ∈ ids c.
Proof.
  unfold ids, forest. rewrite list_elem_of_fmap.
  setoid_rewrite list_elem_of_bind. setoid_rewrite list_elem_of_fmap. naive_solver.
Qed.

(** Removing a node that is not there changes nothing. *)
Lemma remove_node_notin p n : p ∉ ids n → remove_node p n = n.
Proof.
  induction n as [i h cs IH] using xmlNode_ind'. intros Hp.
  rewrite remove_node_eq. f_equal. unfold remove_list.
  assert (∀ c, c ∈ cs → p ∉ ids c) as Hc.
  { intros c Hc H. apply Hp, elem_of_ids. simpl. eauto. }
  clear Hp. induction IH as [|c cs Hrec _ IHl]; [done|].
  rewrite filter_cons_True.
  - rewrite fmap_cons. rewrite IHl by set_solver. f_equal. apply Hrec. set_solver.
  - intros Hn. apply (Hc c); [set_solver|]. apply elem_of_ids. by left.
Qed.

Lemma subtree_remove_sub p n x :
  x ∈ ids (remove_node p n) → x ∈ ids n.
Proof.
  induction n as [i h cs IH] using xmlNode_ind'.
  rewrite remove_node_eq, !elem_of_ids. simpl. intros [->|(c & Hc & Hx)]; [by left|].
  unfold remove_list in Hc. apply list_elem_of_fmap in Hc as (c' & -> & Hc').
  apply list_elem_of_filter in Hc' as [_ Hc']. rewrite Forall_forall in IH. eauto.
Qed.

(** The removed node is gone. *)
Lemma remove_node_gone p n : nid n ≠ p → p ∉ ids (remove_node p n).
Proof.
  induction n as [i h cs IH] using xmlNode_ind'. intros Hi.
  rewrite remove_node_eq, elem_of_ids. simpl in *. intros [?|(c & Hc & Hx)]; [done|].
  unfold remove_list in Hc. apply list_elem_of_fmap in Hc as (c' & -> & Hc').
  apply list_elem_of_filter in Hc' as [? Hc']. rewrite Forall_forall in IH.
  eapply IH; eauto.
Qed.

(** ** The content of a node

    What a document says, without addresses: type, name, namespace, attributes,
    content and children.  Namespace declarations (nsDef) are left out: they
    only serve to resolve prefixes. *)
Inductive dtree := DTree (t : xmlElementType) (nm : option string)
  (href : option (option string))
  (attrs : list (string * option (option string) * string))
  (ct : option string) (cs : list dtree).

Definition attr_data (a : xmlAttr) : string * option (option string) * string :=
  (at_name a, ns_href <$> at_ns a, at_value a).

Fixpoint data (n : xmlNode) : dtree :=
  match n with XmlNode i h cs =>
    DTree (h_type h) (h_name h) (ns_href <$> h_ns h) (attr_data <$> h_properties h)
      (h_content h)
      ((fix go l := match l with [] => [] | c :: l' => data c :: go l' end) cs)
  end.

Lemma data_eq n :
  data n = DTree (ntype n) (name n) (ns_href <$> ns n) (attr_data <$> properties n)
             (content n) (data <$> children n).
Proof. by destruct n. Qed.

(** ** libxml2 *)

(** Attribute [nm] anchored in the namespace [href]. *)
Definition attr_is (nm href : string) (a : xmlAttr) : bool :=
  bool_decide (at_name a = nm) &&
  bool_decide (ns_href <$> at_ns a = Some (Some href)).

Fixpoint remove_first (P : xmlAttr → bool) (l : list xmlAttr) : list xmlAttr :=
  match l with
  | [] => []
  | a :: l' => if P a then l' else a :: remove_first P l'
  end.

(** Appending to a child list: adjacent text nodes are merged. *)
Fixpoint add_last (c : xmlNode) (l : list xmlNode) : list xmlNode :=
  match l with
  | [] => [c]
  | [d] => if bool_decide (ntype c = XML_TEXT_NODE) && bool_decide (ntype d = XML_TEXT_NODE)
           then [with_hdr (hdr_set_content
                   (Some (default "" (content d) +:+ default "" (content c)))) d]
           else [d; c]
  | d :: l' => d :: add_last c l'
  end.

Fixpoint set_root (r : xmlNode) (l : list xmlNode) : list xmlNode :=
  match l with
  | [] => [r]
  | c :: l' => if bool_decide (ntype c = XML_ELEMENT_NODE) then r :: l'
               else c :: set_root r l'
  end.

Definition is_element (n : xmlNode) : bool := bool_decide (ntype n = XML_ELEMENT_NODE).

Definition text_content (n : xmlNode) : string :=
  String.concat "" ((λ m, default "" (content m)) <$>
    filter (λ m, ntype m = XML_TEXT_NODE ∨ ntype m = XML_CDATA_SECTION_NODE) (subtree n)).

Definition NC_NS_BASE10 : string := "urn:ietf:params:xml:ns:netconf:base:1.0".

Definition op_names : list string := ["merge"; "replace"; "create"; "delete"; "remove"].
Definition op_query (op : string) : string := "//*[@nc:operation='" +:+ op +:+ "']".

(** Elements of a document, in document order, that carry the attribute
    operation="op" of the NETCONF base namespace. *)
Definition op_attr (n : xmlNode) : option string :=
  at_value <$> (if is_element n
    then find_first (attr_is "operation" NC_NS_BASE10) (properties n) else None).

Definition op_elements (op : string) (d : xmlNode) : list ptr :=
  nid <$> filter (λ n, op_attr n = Some op) (subtree d).

(** The functions of libxml2 that edit-config.c calls, each with the part of
    its documentation the code relies on. *)
Class LibXml := {
  (* "Search and get the value of an attribute associated to a node.  This
     attribute has to be anchored in the namespace specified." *)
  xmlGetNsProp : xmlNode → string → string → option string;
  xmlGetNsProp_spec n nm href : xmlGetNsProp n nm href =
    at_value <$> (if is_element n then find_first (attr_is nm href) (properties n) else None);
  (* xmlRemoveProp(xmlHasNsProp(n, nm, href)): "Unlink and free one attribute" *)
  xmlRemoveNsProp : xmlNode → string → string → xmlNode;
  xmlRemoveNsProp_spec n nm href : xmlRemoveNsProp n nm href =
    if is_element n
    then with_hdr (λ h, hdr_set_properties (remove_first (attr_is nm href) (h_properties h)) h) n
    else n;
  (* "Read the value of a node, this can be either the text carried directly by
     this node if it's a TEXT node or the aggregate string of the values carried
     by this node child's" *)
  xmlNodeGetContent : xmlNode → option string;
  xmlNodeGetContent_spec n : is_element n = true →
    xmlNodeGetContent n = Some (text_content n);
  (* xmlUnlinkNode(p); xmlFreeNode(p): "Unlink a node from its current context",
     "Free a node, this is a recursive behaviour" *)
  xmlUnlinkFreeNode : ptr → xmlNode → xmlNode;
  xmlUnlinkFreeNode_spec p d : xmlUnlinkFreeNode p d = remove_node p d;
  (* "Add a new node to parent, at the end of the child (or property) list
     merging adjacent TEXT nodes" *)
  xmlAddChild : ptr → xmlNode → xmlNode → xmlNode;
  xmlAddChild_spec p c d : xmlAddChild p c d = alter_node p (with_children (add_last c)) d;
  (* "Set the root element of the document (doc->children is a list containing
     possibly comments, PIs, etc ...)" *)
  xmlDocSetRootElement : xmlNode → xmlNode → xmlNode;
  xmlDocSetRootElement_spec r d : xmlDocSetRootElement r d = with_children (set_root r) d;
  (* "Do a copy of the node; if 1 do a recursive copy (properties, namespaces
     and children when applicable)"; with 0 neither is copied.  The copy is
     freshly allocated: its addresses are taken from the given one upwards. *)
  xmlCopyNode : bool → xmlNode → ptr → xmlNode * ptr;
  xmlCopyNode_deep n k : data (xmlCopyNode true n k).1 = data n;
  xmlCopyNode_flat n k :
    data (xmlCopyNode false n k).1 = DTree (ntype n) (name n) None [] (content n) [];
  xmlCopyNode_fresh b n k x : x ∈ ids (xmlCopyNode b n k).1 → k ≤ x < (xmlCopyNode b n k).2;
  xmlCopyNode_nodup b n k : NoDup (ids (xmlCopyNode b n k).1);
  xmlCopyNode_next b n k : k < (xmlCopyNode b n k).2;
  (* xmlSetNs(n, xmlNewNs(n, href, NULL)): "Creation of a new Namespace",
     "Set the namespace of a node" *)
  xmlNewSetNs : option string → ptr → xmlNode → xmlNode;
  xmlNewSetNs_spec href k n : xmlNewSetNs href k n =
    with_hdr (λ h, hdr_set_nsDef (h_nsDef h ++ [XmlNs k href]) (hdr_set_ns (Some (XmlNs k href)) h)) n;
  (* "Evaluate the XPath expression in the given context", with nc registered
     as the NETCONF base namespace *)
  xmlXPathEvalExpression : string → xmlNode → option (list ptr);
  xmlXPathEvalExpression_spec op d : op ∈ op_names →
    xmlXPathEvalExpression (op_query op) d = Some (op_elements op d)
}.

#[export] Hint Rewrite @xmlGetNsProp_spec @xmlRemoveNsProp_spec @xmlUnlinkFreeNode_spec
  @xmlAddChild_spec @xmlDocSetRootElement_spec @xmlNewSetNs_spec : libxml.

(** *** A reference implementation, for evaluation *)
Fixpoint relabel (n : xmlNode) (k : ptr) : xmlNode * ptr :=
  match n with XmlNode _ h cs =>
    let r := (fix go l k := match l with
      | [] => ([], k)
      | c :: l' => let (c', k1) := relabel c k in
                   let (l'', k2) := go l' k1 in (c' :: l'', k2)
      end) cs (S k) in
    (XmlNode k h r.1, r.2)
  end.

Definition relabel_list :=
  fix go (l : list xmlNode) (k : ptr) : list xmlNode * ptr := match l with
  | [] => ([], k)
  | c :: l' => let (c', k1) := relabel c k in
               let (l'', k2) := go l' k1 in (c' :: l'', k2)
  end.

Lemma relabel_eq i h cs k :
  relabel (XmlNode i h cs) k =
  (XmlNode k h (relabel_list cs (S k)).1, (relabel_list cs (S k)).2).
Proof. done. Qed.

Definition ref_copy (deep : bool) (n : xmlNode) (k : ptr) : xmlNode * ptr :=
  if deep then relabel n k
  else (XmlNode k (XmlHdr (ntype n) (name n) None [] [] (content n)) [], S k).

Definition ref_xpath (q : string) (d : xmlNode) : option (list ptr) :=
  (λ op, op_elements op d) <$> find_first (λ op, bool_decide (op_query op = q)) op_names.

Lemma relabel_data n : ∀ k, data (relabel n k).1 = data n.
Proof.
  induction n as [i h cs IH] using xmlNode_ind'. intros k.
  rewrite relabel_eq, !data_eq. simpl. f_equal. generalize (S k).
  induction IH as [|c cs Hc _ IHl]; intros j; [done|]. simpl.
  destruct (relabel c j) as [c' k1] eqn:E1. destruct (relabel_list cs k1) as [l2 k2] eqn:E2.
  simpl. rewrite <-(Hc j), E1. f_equal. specialize (IHl k1). by rewrite E2 in IHl.
Qed.

(** Fresh, increasing addresses. *)
Definition fresh_in (n : xmlNode) (k k' : ptr) : Prop :=
  k < k' ∧ NoDup (ids n) ∧ ∀ x, x ∈ ids n → k ≤ x < k'.

Lemma relabel_fresh n : ∀ k, fresh_in (relabel n k).1 k (relabel n k).2.
Proof.
  induction n as [i h cs IH] using xmlNode_ind'. intros k.
  assert (∀ j, let r := relabel_list cs j in
    j ≤ r.2 ∧ NoDup (nid <$> forest r.1) ∧
    ∀ x, x ∈ nid <$> forest r.1 → j ≤ x < r.2) as Hl.
  { induction IH as [|c cs Hc _ IHl]; intros j; cbn [relabel_list].
    - split_and!; [done|constructor|set_solver].
    - destruct (Hc j) as (H1 & H2 & H3). destruct (relabel c j) as [c' k1] eqn:E1.
      destruct (IHl k1) as (H4 & H5 & H6).
      destruct (relabel_list cs k1) as [l2 k2] eqn:E2. cbn [fst snd] in *.
      rewrite forest_cons, fmap_app. split_and!; [lia| |].
      + apply NoDup_app. split_and!; [done| |done].
        intros x Hx1 Hx2. specialize (H3 x Hx1). specialize (H6 x Hx2). lia.
      + intros x [Hx|Hx]%elem_of_app; [specialize (H3 x Hx)|specialize (H6 x Hx)]; lia. }
  destruct (Hl (S k)) as (H1 & H2 & H3). rewrite relabel_eq. simpl.
  unfold fresh_in, ids. rewrite subtree_eq. simpl. split_and!; [lia| |].
  - constructor; [|done]. intros Hk. specialize (H3 k Hk). lia.
  - intros x [->|Hx]%elem_of_cons; [lia|]. specialize (H3 x Hx). lia.
Qed.

Lemma ref_copy_fresh b n k : fresh_in (ref_copy b n k).1 k (ref_copy b n k).2.
Proof.
  destruct b; [apply relabel_fresh|]. unfold fresh_in, ids. simpl. split_and!; [lia| |].
  - apply NoDup_singleton.
  - intros x ->%list_elem_of_singleton. lia.
Qed.

Lemma op_query_inj a b : op_query a = op_query b → a = b.
Proof.
  unfold op_query. intros H. apply (inj (String.app _)) in H.
  assert (∀ s t : string, s +:+ "']" = t +:+ "']" → s = t) as Hs; [|eauto].
  induction s as [|c s IH]; intros [|d t]; simpl; intros E; simplify_eq; [done| | |].
  - by destruct t as [|? [|? ?]].
  - by destruct s as [|? [|? ?]].
  - f_equal. auto.
Qed.

#[export] Program Instance ref_libxml : LibXml := {|
  xmlGetNsProp n nm href :=
    at_value <$> (if is_element n then find_first (attr_is nm href) (properties n) else None);
  xmlRemoveNsProp n nm href :=
    if is_element n
    then with_hdr (λ h, hdr_set_properties (remove_first (attr_is nm href) (h_properties h)) h) n
    else n;
  xmlNodeGetContent n := Some (text_content n);
  xmlUnlinkFreeNode := remove_node;
  xmlAddChild p c d := alter_node p (with_children (add_last c)) d;
  xmlDocSetRootElement r d := with_children (set_root r) d;
  xmlCopyNode := ref_copy;
  xmlNewSetNs href k n :=
    with_hdr (λ h, hdr_set_nsDef (h_nsDef h ++ [XmlNs k href]) (hdr_set_ns (Some (XmlNs k href)) h)) n;
  xmlXPathEvalExpression := ref_xpath
|}.
Solve Obligations with done.
Next Obligation. intros. apply relabel_data. Qed.
Next Obligation. intros b n k x Hx. by destruct (ref_copy_fresh b n k) as (_ & _ & H); apply H. Qed.
Next Obligation. intros b n k. by destruct (ref_copy_fresh b n k) as (_ & H & _). Qed.
Next Obligation. intros b n k. by destruct (ref_copy_fresh b n k) as (H & _ & _). Qed.
Next Obligation.
  intros op d Hop. unfold ref_xpath.
  destruct (find_first _ op_names) as [op'|] eqn:E.
  - apply find_first_Some in E as [_ E]. apply bool_decide_eq_true in E.
    by apply op_query_inj in E as ->.
  - rewrite find_first_None in E. specialize (E op Hop).
    by rewrite bool_decide_eq_true_2 in E.
Qed.
