(* ===== verification/XmlFacts.v ===== *)
(** * Facts about edited documents

    Removing, altering and adding nodes: what happens to the addresses of a
    document and to its well-formedness.  [cells] lists the address and the
    header of every node, so that each operation is a statement about lists. *)

From S2P Require Import Prelude.
From S2P Require Import Xml.

Definition cell (n : xmlNode) : ptr * xmlHdr := (nid n, hdr n).
Definition cells (n : xmlNode) : list (ptr * xmlHdr) := cell <$> subtree n.
Definition cells_list (l : list xmlNode) : list (ptr * xmlHdr) := l ≫= cells.

Lemma cells_forest l : cell <$> forest l = cells_list l.
Proof.
  induction l as [|c l IH]; [done|]. rewrite forest_cons, fmap_app, IH. done.
Qed.

Lemma cells_eq n : cells n = cell n :: cells_list (children n).
Proof. unfold cells. rewrite subtree_eq, fmap_cons. by rewrite cells_forest. Qed.

Lemma ids_cells n : ids n = fst <$> cells n.
Proof. unfold ids, cells. rewrite <-list_fmap_compose. done. Qed.

Lemma cells_list_app l k : cells_list (l ++ k) = cells_list l ++ cells_list k.
Proof. apply bind_app. Qed.

Definition non_doc (x : ptr * xmlHdr) : Prop := h_type x.2 ≠ XML_DOCUMENT_NODE.

Lemma wf_doc_cells d :
  wf_doc d ↔ NoDup (fst <$> cells d) ∧ ntype d = XML_DOCUMENT_NODE ∧
             Forall non_doc (cells_list (children d)).
Proof.
  unfold wf_doc. rewrite ids_cells, <-cells_forest, Forall_fmap. done.
Qed.

(** ** Removal *)
Lemma cells_remove p n : cells (remove_node p n) `sublist_of` cells n.
Proof.
  induction n as [i h cs IH] using xmlNode_ind'.
  rewrite remove_node_eq, !cells_eq. apply sublist_skip. simpl.
  unfold remove_list. induction IH as [|c cs Hc _ IHl]; [constructor|].
  change (cells_list (c :: cs)) with (cells c ++ cells_list cs).
  destruct (decide (nid c ≠ p)).
  - rewrite filter_cons_True by done. rewrite fmap_cons. by apply sublist_app.
  - rewrite filter_cons_False by done. by apply sublist_inserts_l.
Qed.

Lemma cells_list_remove p l : cells_list (remove_list p l) `sublist_of` cells_list l.
Proof.
  unfold remove_list. induction l as [|c l IH]; [constructor|].
  change (cells_list (c :: l)) with (cells c ++ cells_list l).
  destruct (decide (nid c ≠ p)).
  - rewrite filter_cons_True by done. rewrite fmap_cons.
    apply sublist_app; [apply cells_remove|done].
  - rewrite filter_cons_False by done. by apply sublist_inserts_l.
Qed.

Lemma ids_remove p n : ids (remove_node p n) `sublist_of` ids n.
Proof. rewrite !ids_cells. by apply fmap_sublist, cells_remove. Qed.

Lemma wf_remove p d : wf_doc d → wf_doc (remove_node p d).
Proof.
  rewrite !wf_doc_cells. intros (H1 & H2 & H3). split_and!.
  - eapply sublist_NoDup; [exact H1|]. by apply fmap_sublist, cells_remove.
  - unfold ntype. by rewrite hdr_remove.
  - rewrite children_remove. rewrite Forall_forall in *. intros x Hx. apply H3.
    eapply elem_of_sublist, cells_list_remove; done.
Qed.

(** Removing a node that is there makes the document smaller. *)
Lemma length_remove p n : p ∈ ids n → nid n ≠ p →
  length (ids (remove_node p n)) < length (ids n).
Proof.
  intros Hp Hn. pose proof (ids_remove p n) as Hs.
  pose proof (sublist_length _ _ Hs) as Hle.
  destruct (decide (length (ids (remove_node p n)) = length (ids n))) as [He|]; [|lia].
  exfalso. apply (remove_node_gone p n Hn).
  apply sublist_submseteq, submseteq_length_Permutation in Hs; [|lia]. by rewrite Hs.
Qed.

(** ** Altering one node *)
Lemma alter_node_notin p f n : p ∉ ids n → alter_node p f n = n.
Proof.
  induction n as [i h cs IH] using xmlNode_ind'. intros Hp.
  rewrite elem_of_ids in Hp. simpl in Hp. rewrite alter_node_eq.
  rewrite bool_decide_eq_false_2 by naive_solver. f_equal.
  rewrite <-(list_fmap_id cs) at 2. apply list_fmap_ext. intros j c Hc. simpl.
  apply list_elem_of_lookup_2 in Hc. rewrite Forall_forall in IH.
  apply IH; [done|]. naive_solver.
Qed.

Lemma alter_list_notin p f (l : list xmlNode) :
  (∀ x, x ∈ l → p ∉ ids x) → alter_node p f <$> l = l.
Proof.
  intros H. rewrite <-(list_fmap_id l) at 2. apply list_fmap_ext.
  intros j x Hx. apply alter_node_notin, H. by apply list_elem_of_lookup_2 in Hx.
Qed.

Lemma cells_list_cons c l : cells_list (c :: l) = cells c ++ cells_list l.
Proof. done. Qed.

Lemma ids_cells_list x c l : c ∈ l → x ∈ ids c → x ∈ fst <$> cells_list l.
Proof.
  intros Hc. rewrite ids_cells, !list_elem_of_fmap. intros (y & ? & ?).
  exists y. split; [done|]. apply list_elem_of_bind. eauto.
Qed.

(** With distinct addresses, a pointer that occurs in a child does not occur in
    its siblings. *)
Lemma nodup_siblings i h cs1 c cs2 x :
  NoDup (ids (XmlNode i h (cs1 ++ c :: cs2))) → x ∈ ids c →
  NoDup (ids c) ∧ i ∉ ids c ∧
  (∀ y, y ∈ cs1 → x ∉ ids y) ∧ (∀ y, y ∈ cs2 → x ∉ ids y).
Proof.
  rewrite ids_cells, cells_eq. cbn [children fmap list_fmap].
  rewrite NoDup_cons, cells_list_app, cells_list_cons, !fmap_app, !NoDup_app, <-!ids_cells.
  intros (Hi & H1 & H2 & H3 & H4 & H5) Hx. split_and!; [done| | |].
  - simpl in Hi. rewrite !not_elem_of_app in Hi. tauto.
  - intros y Hy Hxy. apply (H2 x); [by eapply ids_cells_list|set_solver].
  - intros y Hy Hxy. apply (H4 x); [done|by eapply ids_cells_list].
Qed.

(** The place of a node: what comes before and after it in document order. *)
Lemma alter_split p d : NoDup (ids d) → p ∈ ids d →
  ∃ l1 n l2, nid n = p ∧ n ∈ subtree d ∧ cells d = l1 ++ cells n ++ l2 ∧
    (nid d = p → n = d) ∧
    (nid d ≠ p → ∃ l1', l1 = cell d :: l1') ∧
    ∀ f, cells (alter_node p f d) = l1 ++ cells (f n) ++ l2.
Proof.
  induction d as [i h cs IH] using xmlNode_ind'. intros Hnd Hp.
  destruct (decide (i = p)) as [->|Hi].
  { exists [], (XmlNode p h cs), []. rewrite subtree_eq, app_nil_r.
    split_and!; try done; [set_solver|]. intros f.
    rewrite alter_node_eq, bool_decide_eq_true_2 by done. by rewrite app_nil_r. }
  rewrite elem_of_ids in Hp. simpl in Hp. destruct Hp as [?|(c & Hc & Hp)]; [done|].
  apply list_elem_of_split in Hc as (cs1 & cs2 & ->). rewrite Forall_forall in IH.
  destruct (nodup_siblings _ _ _ _ _ _ Hnd Hp) as (Hc & _ & Hcs1 & Hcs2).
  destruct (IH c) as (l1 & n & l2 & Hn & Hin & Hcells & _ & _ & Hf); [set_solver|done..|].
  exists ((i, h) :: cells_list cs1 ++ l1), n, (l2 ++ cells_list cs2).
  split_and!; try done.
  - rewrite subtree_eq. simpl. rewrite forest_app, forest_cons. set_solver.
  - rewrite cells_eq. simpl. rewrite cells_list_app, cells_list_cons, Hcells.
    by rewrite <-!(assoc_L (++)).
  - intros _. by exists (cells_list cs1 ++ l1).
  - intros f. rewrite alter_node_eq, bool_decide_eq_false_2 by done.
    rewrite cells_eq. simpl. rewrite fmap_app, fmap_cons, !alter_list_notin by done.
    rewrite cells_list_app, cells_list_cons, Hf. by rewrite <-!(assoc_L (++)).
Qed.

(** ** Addresses below a bound *)
Definition below (k : ptr) (d : xmlNode) : Prop := ∀ x, x ∈ ids d → x < k.

Lemma below_remove k p d : below k d → below k (remove_node p d).
Proof. intros H x Hx. by apply H, (subtree_remove_sub p). Qed.

Lemma below_mono k k' d : below k d → k ≤ k' → below k' d.
Proof. intros H Hk x Hx. specialize (H x Hx). lia. Qed.

(** *** Changing a header only *)
Lemma cells_with_hdr f n : cells (with_hdr f n) = (nid n, f (hdr n)) :: cells_list (children n).
Proof. destruct n. rewrite cells_eq. done. Qed.

Lemma alter_hdr_ids p f d :
  (∀ n, nid (f n) = nid n ∧ children (f n) = children n) →
  ids (alter_node p f d) = ids d.
Proof.
  intros Hf. induction d as [i h cs IH] using xmlNode_ind'.
  rewrite alter_node_eq. case_bool_decide.
  - rewrite !ids_cells, !cells_eq. destruct (Hf (XmlNode i h cs)) as [H1 ->].
    cbn [fmap list_fmap]. f_equal. simpl. by rewrite H1.
  - rewrite !ids_cells, !cells_eq. cbn [children fmap list_fmap]. f_equal.
    induction IH as [|c cs Hc _ IHl]; [done|].
    rewrite fmap_cons, !cells_list_cons, !fmap_app, IHl, <-!ids_cells. by rewrite Hc.
Qed.

Lemma alter_hdr_wf p f d :
  (∀ n, nid (f n) = nid n ∧ children (f n) = children n ∧ ntype (f n) = ntype n) →
  wf_doc d → wf_doc (alter_node p f d).
Proof.
  intros Hf (H1 & H2 & H3). split_and!.
  - rewrite alter_hdr_ids; [done|]. intros n. destruct (Hf n) as (? & ? & _). done.
  - destruct d as [i h cs]. rewrite alter_node_eq. case_bool_decide; [|done].
    destruct (Hf (XmlNode i h cs)) as (_ & _ & ->). done.
  - assert (∀ d, ntype <$> subtree (alter_node p f d) = ntype <$> subtree d) as Hty.
    { clear -Hf. induction d as [i h cs IH] using xmlNode_ind'. rewrite alter_node_eq.
      case_bool_decide.
      - rewrite !subtree_eq, !fmap_cons. by destruct (Hf (XmlNode i h cs)) as (_ & -> & ->).
      - rewrite !subtree_eq, !fmap_cons. simpl. f_equal.
        induction IH as [|c cs Hc _ IHl]; [done|].
        by rewrite fmap_cons, !forest_cons, !fmap_app, Hc, IHl. }
    specialize (Hty d). rewrite !subtree_eq, !fmap_cons in Hty. injection Hty as _ Hty.
    rewrite <-(Forall_fmap ntype (λ t, t ≠ XML_DOCUMENT_NODE)) in *.
    by rewrite Hty.
Qed.

(** *** Adding a child *)

(** The copy is merged into a text node, or comes last. *)
Lemma cells_add_last c l :
  (fst <$> cells_list (add_last c l) = fst <$> cells_list l ∧
   h_type ∘ snd <$> cells_list (add_last c l) = h_type ∘ snd <$> cells_list l) ∨
  cells_list (add_last c l) = cells_list l ++ cells c.
Proof.
  induction l as [|d l IH]; [right; simpl; by rewrite app_nil_r|].
  destruct l as [|d' l].
  - cbn [add_last]. destruct (_ && _).
    + left. rewrite !cells_list_cons, !cells_with_hdr, (cells_eq d). by destruct d.
    + right. rewrite !cells_list_cons. simpl. by rewrite !app_nil_r.
  - change (add_last c (d :: d' :: l)) with (d :: add_last c (d' :: l)).
    rewrite !(cells_list_cons d), !fmap_app.
    destruct IH as [[-> ->]| ->]; [by left|right; by rewrite (assoc_L (++))].
Qed.

Lemma cells_add_last_elem c l : ntype c ≠ XML_TEXT_NODE →
  cells_list (add_last c l) = cells_list l ++ cells c.
Proof.
  intros Hc. induction l as [|d l IH]; [simpl; by rewrite app_nil_r|].
  destruct l as [|d' l].
  - cbn [add_last]. rewrite (bool_decide_eq_false_2 (ntype c = _)) by done.
    rewrite !cells_list_cons. simpl. by rewrite !app_nil_r.
  - change (add_last c (d :: d' :: l)) with (d :: add_last c (d' :: l)).
    by rewrite !(cells_list_cons d), IH, (assoc_L (++)).
Qed.

Lemma cells_set_root r l :
  ∃ l1 l2, cells_list (set_root r l) = l1 ++ cells r ++ l2 ∧ (l1 ++ l2) `sublist_of` cells_list l.
Proof.
  induction l as [|c l (l1 & l2 & IH & Hs)].
  { exists [], []. simpl. rewrite !app_nil_r. split; [done|constructor]. }
  simpl. case_bool_decide.
  - exists [], (cells_list l). rewrite cells_list_cons. split; [done|].
    by apply sublist_inserts_l.
  - exists (cells c ++ l1), l2. rewrite !cells_list_cons, IH, <-!(assoc_L (++)).
    split; [done|]. by apply sublist_app.
Qed.

(** A newly allocated tree, with addresses from k to k'. *)
Definition new_node (k k' : ptr) (c : xmlNode) : Prop :=
  NoDup (ids c) ∧ (∀ x, x ∈ ids c → k ≤ x < k') ∧ Forall non_doc (cells c).

Lemma non_doc_types l : Forall non_doc l ↔ Forall (λ t, t ≠ XML_DOCUMENT_NODE) (h_type ∘ snd <$> l).
Proof. by rewrite Forall_fmap. Qed.

(** Inserting a fresh tree somewhere in a document whose other nodes stay. *)
Lemma nodup_insert (l1 l2 l : list (ptr * xmlHdr)) k k' c :
  NoDup (fst <$> l) → (∀ x, x ∈ fst <$> l → x < k) → new_node k k' c →
  (l1 ++ l2) `sublist_of` l → NoDup (fst <$> (l1 ++ cells c ++ l2)).
Proof.
  intros Hn Hb (Hc & Hf & _) Hs.
  assert (l1 ++ cells c ++ l2 ≡ₚ (l1 ++ l2) ++ cells c) as ->.
  { rewrite <-(assoc_L (++)). f_equiv. by rewrite (comm (++)). }
  rewrite fmap_app. apply NoDup_app. split_and!.
  - eapply sublist_NoDup; [exact Hn|]. by apply fmap_sublist.
  - intros x Hx Hxc. rewrite <-ids_cells in Hxc. apply Hf in Hxc.
    assert (x < k); [|lia]. apply Hb. eapply elem_of_sublist; [exact Hx|]. by apply fmap_sublist.
  - by rewrite <-ids_cells.
Qed.

Lemma wf_set_root d k k' r :
  wf_doc d → below k d → new_node k k' r → wf_doc (with_children (set_root r) d).
Proof.
  destruct d as [i h cs]. rewrite !wf_doc_cells. unfold below. rewrite ids_cells, !cells_eq.
  cbn [with_children children fmap list_fmap]. intros (H1 & H2 & H3) Hb Hr.
  destruct (cells_set_root r cs) as (l1 & l2 & -> & Hs). split_and!; [|done|].
  - pose proof (nodup_insert ((i, h) :: l1) l2 ((i, h) :: cells_list cs) k k' r H1 Hb Hr) as H.
    apply H. by apply sublist_skip.
  - destruct Hr as (_ & _ & Hr). rewrite !Forall_app. rewrite Forall_forall in H3.
    split_and!; [|done|]; apply Forall_forall; intros x Hx; apply H3;
      (eapply elem_of_sublist; [|exact Hs]); set_solver.
Qed.

Lemma below_set_root d k k' r :
  below k d → new_node k k' r → k ≤ k' → below k' (with_children (set_root r) d).
Proof.
  destruct d as [i h cs]. unfold below. intros Hb (_ & Hr & _) Hk x. revert Hb.
  rewrite !ids_cells, !cells_eq. cbn [with_children children fmap list_fmap].
  destruct (cells_set_root r cs) as (l1 & l2 & -> & Hs). intros Hb.
  rewrite elem_of_cons, !fmap_app, !elem_of_app, <-ids_cells.
  assert (x ∈ fst <$> (l1 ++ l2) → x < k).
  { intros Hx. apply Hb. rewrite elem_of_cons. right.
    eapply elem_of_sublist; [exact Hx|]. by apply fmap_sublist. }
  rewrite fmap_app, elem_of_app in H. intros [->|[?|[Hx|?]]].
  - assert (i < k); [|simpl; lia]. apply Hb. set_solver.
  - assert (x < k) by tauto. lia.
  - specialize (Hr x Hx). lia.
  - assert (x < k) by tauto. lia.
Qed.

(** Children added to a node: either the copy disappears in a text node, or all
    its nodes are inserted. *)
Lemma ids_add_child p c d : NoDup (ids d) → p ∈ ids d →
  ids (alter_node p (with_children (add_last c)) d) = ids d ∨
  ∃ l1 l2, cells d = l1 ++ l2 ∧ l1 ≠ [] ∧
    cells (alter_node p (with_children (add_last c)) d) = l1 ++ cells c ++ l2.
Proof.
  intros Hnd Hp. destruct (alter_split p d Hnd Hp) as (l1 & n & l2 & Hn & _ & Hd & _ & _ & Hf).
  specialize (Hf (with_children (add_last c))). rewrite !ids_cells, Hf, Hd. clear Hf Hd Hnd Hp.
  destruct n as [i h cs]. cbn [with_children].
  rewrite (cells_eq (XmlNode i h cs)), (cells_eq (XmlNode i h (add_last c cs))). cbn [children].
  destruct (cells_add_last c cs) as [[H _]|H].
  - left. rewrite !fmap_app, !fmap_cons, H. done.
  - right. exists (l1 ++ (i, h) :: cells_list cs), l2. rewrite H.
    cbn [app]. rewrite <-!(assoc_L (++)). split_and!; [done|by destruct l1|done].
Qed.

Lemma cells_add_child p c d : NoDup (ids d) → p ∈ ids d → ntype c ≠ XML_TEXT_NODE →
  ∃ l1 l2, cells d = l1 ++ l2 ∧
    cells (alter_node p (with_children (add_last c)) d) = l1 ++ cells c ++ l2.
Proof.
  intros Hnd Hp Hc. destruct (alter_split p d Hnd Hp) as (l1 & n & l2 & _ & _ & -> & _ & _ & Hf).
  rewrite Hf. destruct n as [i h cs]. cbn [with_children].
  rewrite (cells_eq (XmlNode i h cs)), (cells_eq (XmlNode i h (add_last c cs))). cbn [children].
  rewrite cells_add_last_elem by done.
  exists (l1 ++ (i, h) :: cells_list cs), l2. cbn [app]. by rewrite <-!(assoc_L (++)).
Qed.

Lemma types_add_child p c d : Forall non_doc (cells c) →
  ntype d = XML_DOCUMENT_NODE → Forall non_doc (cells_list (children d)) →
  ntype (alter_node p (with_children (add_last c)) d) = XML_DOCUMENT_NODE ∧
  Forall non_doc (cells_list (children (alter_node p (with_children (add_last c)) d))).
Proof.
  intros Hc.
  assert (∀ l, Forall non_doc (cells_list l) → Forall non_doc (cells_list (add_last c l))) as Hadd.
  { intros l Hl. destruct (cells_add_last c l) as [[_ H]| ->]; [|by apply Forall_app].
    rewrite non_doc_types in *. by rewrite H. }
  assert (∀ n, Forall non_doc (cells n) →
    Forall non_doc (cells (alter_node p (with_children (add_last c)) n))) as Hrec.
  { induction n as [i h cs IH] using xmlNode_ind'. rewrite alter_node_eq.
    rewrite (cells_eq (XmlNode i h cs)), Forall_cons. intros [Hh Hcs].
    case_bool_decide; rewrite cells_eq, Forall_cons; (split; [done|]); simpl in *; [auto|].
    induction IH as [|x l Hx _ IHl]; [constructor|].
    rewrite cells_list_cons, Forall_app in Hcs. destruct Hcs as [Hx' Hl'].
    rewrite fmap_cons, cells_list_cons. apply Forall_app; auto. }
  destruct d as [i h cs]. intros Ht Hcs. rewrite alter_node_eq.
  case_bool_decide; simpl in *; (split; [done|]); [auto|].
  induction cs as [|x l IH]; [constructor|].
  rewrite cells_list_cons, Forall_app in Hcs. destruct Hcs.
  rewrite fmap_cons, cells_list_cons. apply Forall_app; auto.
Qed.

Lemma wf_add_child p d k k' c :
  wf_doc d → below k d → new_node k k' c →
  wf_doc (alter_node p (with_children (add_last c)) d).
Proof.
  destruct (decide (p ∈ ids d)) as [Hp|]; [|by rewrite alter_node_notin].
  rewrite !wf_doc_cells. intros (H1 & H2 & H3) Hb Hc.
  split; [|apply types_add_child; [apply Hc|done..]].
  destruct (ids_add_child p c d) as [H|(l1 & l2 & Hd & _ & ->)]; [by rewrite ids_cells|done| |].
  - by rewrite <-ids_cells, H, ids_cells.
  - eapply (nodup_insert l1 l2 (cells d)); [done| |done|by rewrite Hd].
    intros x. rewrite <-ids_cells. apply Hb.
Qed.

Lemma below_add_child p d k k' c :
  wf_doc d → below k d → new_node k k' c → k ≤ k' →
  below k' (alter_node p (with_children (add_last c)) d).
Proof.
  intros (Hnd & _) Hb (_ & Hc & _) Hk.
  destruct (decide (p ∈ ids d)) as [Hp|]; [|rewrite alter_node_notin by done; by eapply below_mono].
  destruct (ids_add_child p c d Hnd Hp) as [H|(l1 & l2 & Hd & _ & Hd')]; intros x.
  - rewrite H. intros Hx. specialize (Hb x Hx). lia.
  - rewrite ids_cells, Hd', !fmap_app, !elem_of_app, <-ids_cells.
    assert (x ∈ fst <$> l1 ∨ x ∈ fst <$> l2 → x < k).
    { intros. apply Hb. rewrite ids_cells, Hd, fmap_app, elem_of_app. done. }
    intros [?|[Hx|?]]; [|specialize (Hc x Hx); lia|]; assert (x < k) by tauto; lia.
Qed.

(** Nodes stay where they are when a child is added. *)
Lemma add_child_ids_sub p c d x : NoDup (ids d) →
  x ∈ ids d → x ∈ ids (alter_node p (with_children (add_last c)) d).
Proof.
  intros Hnd Hx. destruct (decide (p ∈ ids d)) as [Hp|]; [|by rewrite alter_node_notin].
  destruct (ids_add_child p c d Hnd Hp) as [->|(l1 & l2 & Hd & _ & Hd')]; [done|].
  rewrite ids_cells, Hd in Hx. rewrite ids_cells, Hd'. rewrite !fmap_app in *. set_solver.
Qed.

(** ** Copies *)
Lemma data_types n : ∀ m, data n = data m → ntype <$> subtree n = ntype <$> subtree m.
Proof.
  induction n as [i h cs IH] using xmlNode_ind'. intros [j g ds]. rewrite !data_eq, !subtree_eq.
  intros [= Ht _ _ _ _ Hcs]. rewrite !fmap_cons, Ht. f_equal. simpl in *.
  clear Ht. revert ds Hcs. induction IH as [|c cs Hc _ IHl]; intros [|d ds] Hcs; try done.
  rewrite !fmap_cons in Hcs. injection Hcs as Hd Hds.
  rewrite !forest_cons, !fmap_app. f_equal; [by apply Hc|by apply IHl].
Qed.

Lemma copy_new {LX : LibXml} deep n k :
  Forall (λ m, ntype m ≠ XML_DOCUMENT_NODE) (subtree n) →
  new_node k (xmlCopyNode deep n k).2 (xmlCopyNode deep n k).1.
Proof.
  intros Hn. split_and!; [apply xmlCopyNode_nodup|apply xmlCopyNode_fresh|].
  unfold cells. rewrite Forall_fmap.
  change (Forall (λ m, ntype m ≠ XML_DOCUMENT_NODE) (subtree (xmlCopyNode deep n k).1)).
  rewrite <-(Forall_fmap ntype (λ t, t ≠ XML_DOCUMENT_NODE)) in *.
  destruct deep.
  - by rewrite (data_types _ n (xmlCopyNode_deep n k)).
  - pose proof (xmlCopyNode_flat n k) as Hf. rewrite data_eq in Hf.
    injection Hf as Ht _ _ _ _ Hcs. apply fmap_nil_inv in Hcs.
    rewrite subtree_eq, fmap_cons, Hcs, Ht. rewrite subtree_eq, fmap_cons, Forall_cons in Hn.
    constructor; [tauto|constructor].
Qed.

Lemma new_node_hdr k k' f c : new_node k k' c →
  h_type (f (hdr c)) = h_type (hdr c) → new_node k k' (with_hdr f c).
Proof.
  intros (H1 & H2 & H3) Hf.
  assert (ids (with_hdr f c) = ids c) as Hids.
  { rewrite !ids_cells, cells_with_hdr, (cells_eq c). done. }
  unfold new_node. rewrite Hids. split_and!; [done..|].
  rewrite cells_with_hdr. rewrite cells_eq, Forall_cons in H3.
  constructor; [|tauto]. unfold non_doc. simpl. rewrite Hf. apply H3.
Qed.

(** ** Nodes of a changed document *)
Lemma subtree_self n : n ∈ subtree n.
Proof. rewrite subtree_eq. set_solver. Qed.
Lemma subtree_child n m c : c ∈ children n → m ∈ subtree c → m ∈ forest (children n).
Proof. intros Hc Hm. apply list_elem_of_bind. eauto. Qed.
Lemma forest_subtree n m : m ∈ forest (children n) → m ∈ subtree n.
Proof. rewrite subtree_eq. set_solver. Qed.
Lemma forest_inv l m : m ∈ forest l → ∃ c, c ∈ l ∧ m ∈ subtree c.
Proof. intros (c & ? & ?)%list_elem_of_bind. eauto. Qed.

Lemma subtree_trans n m x : m ∈ subtree n → x ∈ subtree m → x ∈ subtree n.
Proof.
  induction n as [i h cs IH] using xmlNode_ind'. rewrite (subtree_eq (XmlNode i h cs)).
  intros [->|(c & Hc & Hm)%forest_inv]%elem_of_cons Hx; [by rewrite subtree_eq in Hx|].
  apply elem_of_cons. right. rewrite Forall_forall in IH. eapply subtree_child; eauto.
Qed.

Lemma subtree_ids n m : m ∈ subtree n → nid m ∈ ids n.
Proof. apply list_elem_of_fmap_2. Qed.

Lemma subtree_ids_sub n m x : m ∈ subtree n → x ∈ ids m → x ∈ ids n.
Proof.
  intros Hm (y & -> & Hy)%list_elem_of_fmap. apply subtree_ids. by eapply subtree_trans.
Qed.

Lemma forest_ids_ne d m : NoDup (ids d) → m ∈ forest (children d) → nid m ≠ nid d.
Proof.
  unfold ids. rewrite subtree_eq, fmap_cons, NoDup_cons. intros [Hd _] Hm Heq.
  apply Hd. rewrite <-Heq. by apply list_elem_of_fmap_2.
Qed.

Lemma subtree_remove p n m : m ∈ subtree (remove_node p n) →
  ∃ m0, m0 ∈ subtree n ∧ m = remove_node p m0.
Proof.
  induction n as [i h cs IH] using xmlNode_ind'.
  rewrite (subtree_eq (remove_node p _)), children_remove. simpl (children _).
  intros [->|(c & Hc & Hm)%forest_inv]%elem_of_cons.
  - exists (XmlNode i h cs). split; [apply subtree_self|done].
  - unfold remove_list in Hc. apply list_elem_of_fmap in Hc as (c0 & -> & Hc0).
    apply list_elem_of_filter in Hc0 as [_ Hc0]. rewrite Forall_forall in IH.
    destruct (IH c0 Hc0 Hm) as (m0 & ? & ?). exists m0. split; [|done].
    apply forest_subtree. by eapply subtree_child.
Qed.

Lemma subtree_alter_hdr p f n m :
  (∀ x, nid (f x) = nid x ∧ children (f x) = children x ∧ ntype (f x) = ntype x) →
  m ∈ subtree (alter_node p f n) →
  ∃ m0, m0 ∈ subtree n ∧ ntype m = ntype m0 ∧ (children m0 = [] → children m = []).
Proof.
  intros Hf. induction n as [i h cs IH] using xmlNode_ind'. rewrite Forall_forall in IH.
  rewrite alter_node_eq. case_bool_decide; rewrite subtree_eq;
    intros [->|(c & Hc & Hm)%forest_inv]%elem_of_cons.
  - exists (XmlNode i h cs). destruct (Hf (XmlNode i h cs)) as (_ & -> & ->).
    split; [apply subtree_self|done].
  - destruct (Hf (XmlNode i h cs)) as (_ & Hch & _). rewrite Hch in Hc. simpl in Hc.
    exists m. split; [|done]. apply forest_subtree. by eapply subtree_child.
  - exists (XmlNode i h cs). split; [apply subtree_self|]. simpl. split; [done|]. by intros ->.
  - simpl in Hc. apply list_elem_of_fmap in Hc as (c0 & -> & Hc0).
    destruct (IH c0 Hc0 Hm) as (m0 & ? & ?). exists m0. split; [|done].
    apply forest_subtree. by eapply subtree_child.
Qed.

(** Removing forgets what was done to the node and below it. *)
Lemma remove_alter p f d : (∀ n, nid (f n) = nid n) → nid d ≠ p →
  remove_node p (alter_node p f d) = remove_node p d.
Proof.
  intros Hf. induction d as [i h cs IH] using xmlNode_ind'. simpl (nid _). intros Hi.
  rewrite alter_node_eq, bool_decide_eq_false_2 by done.
  rewrite !remove_node_eq. f_equal. unfold remove_list.
  induction IH as [|c cs Hc _ IHl]; [done|]. rewrite fmap_cons.
  assert (nid (alter_node p f c) = nid c) as Hn.
  { destruct c as [j g ds]. rewrite alter_node_eq. case_bool_decide; [apply Hf|done]. }
  destruct (decide (nid c = p)).
  - rewrite !filter_cons_False by (rewrite ?Hn; naive_solver). apply IHl.
  - rewrite !filter_cons_True by (rewrite ?Hn; done). rewrite !fmap_cons, IHl, Hc; done.
Qed.

Lemma remove_list_app p l1 l2 : remove_list p (l1 ++ l2) = remove_list p l1 ++ remove_list p l2.
Proof. unfold remove_list. by rewrite filter_app, fmap_app. Qed.

Lemma remove_list_notin p l : (∀ y, y ∈ l → p ∉ ids y) → remove_list p l = l.
Proof.
  unfold remove_list. induction l as [|y l IHl]; intros Hl; [done|].
  rewrite filter_cons_True.
  - rewrite fmap_cons, IHl by set_solver. f_equal. apply remove_node_notin. set_solver.
  - intros Hy. apply (Hl y); [set_solver|]. apply elem_of_ids. by left.
Qed.

Lemma remove_remove p q n d : NoDup (ids d) → n ∈ subtree d → nid n = p → nid d ≠ p →
  q ∈ ids n → remove_node p (remove_node q d) = remove_node p d.
Proof.
  induction d as [i h cs IH] using xmlNode_ind'. simpl (nid _). intros Hnd Hn Hp Hi Hq.
  rewrite !remove_node_eq. f_equal.
  rewrite subtree_eq in Hn. apply elem_of_cons in Hn as [->|(c & Hc & Hn)%forest_inv]; [done|].
  simpl in Hc. apply list_elem_of_split in Hc as (cs1 & cs2 & ->).
  pose proof (subtree_ids_sub _ _ _ Hn Hq) as Hqc.
  destruct (nodup_siblings _ _ _ _ _ _ Hnd Hqc) as (Hc & _ & Hcs1 & Hcs2).
  rewrite remove_list_app, !(remove_list_app p), (remove_list_notin q cs1) by done. f_equal.
  change (c :: cs2) with ([c] ++ cs2).
  rewrite remove_list_app, !(remove_list_app p), (remove_list_notin q cs2) by done. f_equal.
  rewrite Forall_forall in IH. unfold remove_list. rewrite !filter_cons, !filter_nil.
  destruct (decide (nid c = p)) as [Hcp|Hcp].
  - destruct (decide (nid c ≠ q)); rewrite ?decide_False by (simpl; rewrite ?nid_remove; tauto);
      cbn [fmap list_fmap]; rewrite ?filter_cons, ?filter_nil;
      rewrite ?decide_False by (rewrite ?nid_remove; tauto); done.
  - destruct (decide (nid c ≠ q)) as [Hcq|Hcq].
    + cbn [fmap list_fmap]. rewrite filter_cons, filter_nil.
      rewrite !decide_True by (rewrite ?nid_remove; done). cbn [fmap list_fmap]. f_equal.
      eapply IH; eauto. set_solver.
    + exfalso. apply dec_stable in Hcq. subst q.
      rewrite subtree_eq in Hn. apply elem_of_cons in Hn as [->|Hn]; [done|].
      unfold ids in Hc. rewrite subtree_eq, fmap_cons, NoDup_cons in Hc. destruct Hc as [Hc _].
      apply Hc. apply list_elem_of_fmap in Hq as (y & -> & Hy). apply list_elem_of_fmap_2.
      apply forest_inv in Hn as (z & Hz & Hn). eapply subtree_child; [done|].
      by eapply subtree_trans.
Qed.

(** ** Addresses of children *)
Lemma nid_in n : nid n ∈ ids n.
Proof. apply elem_of_ids. by left. Qed.

Lemma node_unique d n m : NoDup (ids d) → n ∈ subtree d → m ∈ subtree d → nid n = nid m → n = m.
Proof.
  intros Hnd Hn Hm Heq. unfold ids in Hnd.
  apply list_elem_of_lookup in Hn as [a Ha]. apply list_elem_of_lookup in Hm as [b Hb].
  assert (a = b) as ->; [|congruence].
  eapply (NoDup_lookup _ _ _ (nid n) Hnd); rewrite list_lookup_fmap.
  - by rewrite Ha.
  - by rewrite Hb, Heq.
Qed.

Lemma ids_remove_keep q d x : x ∈ ids d → (∀ m, m ∈ subtree d → nid m = q → x ∉ ids m) →
  x ∈ ids (remove_node q d).
Proof.
  induction d as [i h cs IH] using xmlNode_ind'. rewrite Forall_forall in IH.
  rewrite elem_of_ids. cbn [nid children]. intros [->|(c & Hc & Hx)] Hm.
  { rewrite remove_node_eq. apply elem_of_ids. by left. }
  apply elem_of_ids. right. rewrite children_remove. exists (remove_node q c). split.
  - apply list_elem_of_fmap_2, list_elem_of_filter. split; [|done]. intros Hq.
    apply (Hm c); [|done|done]. apply forest_subtree. by eapply subtree_child, subtree_self.
  - apply IH; [done..|]. intros m Hm' Hq. apply Hm; [|done]. apply forest_subtree.
    by eapply subtree_child.
Qed.

Lemma nodup_subtree d n : NoDup (ids d) → n ∈ subtree d → NoDup (ids n).
Proof.
  induction d as [i h cs IH] using xmlNode_ind'. rewrite Forall_forall in IH.
  intros Hnd. rewrite subtree_eq. intros [->|(c & Hc & Hn)%forest_inv]%elem_of_cons; [done|].
  apply IH with c; try done. simpl in Hc. apply list_elem_of_split in Hc as (cs1 & cs2 & ->).
  by destruct (nodup_siblings _ _ _ _ _ _ Hnd (nid_in c)).
Qed.

Lemma siblings_disjoint n c c' : NoDup (ids n) → c ∈ children n → c' ∈ children n →
  nid c ≠ nid c' → nid c ∉ ids c'.
Proof.
  destruct n as [i h cs]. simpl. intros Hnd (cs1 & cs2 & ->)%list_elem_of_split Hc' Hne.
  destruct (nodup_siblings _ _ _ _ _ _ Hnd (nid_in c)) as (_ & _ & H1 & H2).
  apply elem_of_app in Hc' as [?|[->|?]%elem_of_cons]; naive_solver.
Qed.

Lemma parent_not_below n c : NoDup (ids n) → c ∈ children n → nid n ∉ ids c.
Proof.
  destruct n as [i h cs]. simpl. intros Hnd (cs1 & cs2 & ->)%list_elem_of_split.
  by destruct (nodup_siblings _ _ _ _ _ _ Hnd (nid_in c)) as (_ & H & _).
Qed.

(** ** The path of a child extends the path of its parent *)
Lemma path_list_skip p cs1 l : (∀ y, y ∈ cs1 → p ∉ ids y) →
  path_list p (cs1 ++ l) = path_list p l.
Proof.
  induction cs1 as [|y cs1 IH]; intros H; [done|]. simpl.
  assert (path_to p y = None) as -> by (apply path_to_None, H; set_solver).
  apply IH. set_solver.
Qed.

Lemma path_list_cons p c l cur : path_to p c = Some cur → path_list p (c :: l) = Some cur.
Proof. intros H. simpl. by rewrite H. Qed.

Lemma path_child p d n up c : NoDup (ids d) → path_to p d = Some (n :: up) → c ∈ children n →
  path_to (nid c) d = Some (c :: n :: up).
Proof.
  revert n up. induction d as [i h cs IH] using xmlNode_ind'. intros n up Hnd Hp Hc.
  rewrite Forall_forall in IH. rewrite path_to_eq in Hp |- *. simpl nid in *.
  simpl children in *. case_bool_decide as Hi.
  - injection Hp as <- <-. simpl in Hc. apply list_elem_of_split in Hc as (cs1 & cs2 & ->).
    assert (nid c ∈ ids c) as Hcc by (apply elem_of_ids; by left).
    destruct (nodup_siblings _ _ _ _ _ _ Hnd Hcc) as (_ & Hic & H1 & _).
    rewrite bool_decide_eq_false_2 by (intros ->; done).
    rewrite path_list_skip by done.
    rewrite (path_list_cons _ _ _ [c]); [done|]. rewrite path_to_eq.
    by rewrite bool_decide_eq_true_2.
  - apply fmap_Some in Hp as (cur & (x & Hx & Hpx)%path_list_Some & Heq).
    pose proof (path_to_head _ _ _ Hpx) as (m & up' & -> & _). injection Heq as -> ->.
    apply list_elem_of_split in Hx as (cs1 & cs2 & ->).
    assert (NoDup (ids x)) as Hndx.
    { eapply (nodup_siblings _ _ _ _ _ (nid x) Hnd). apply elem_of_ids. by left. }
    assert (path_to (nid c) x = Some (c :: m :: up')) as Hcx by (eapply IH; eauto; set_solver).
    assert (nid c ∈ ids x) as Hin by (apply path_to_Some; eauto).
    destruct (nodup_siblings _ _ _ _ _ _ Hnd Hin) as (_ & Hic & H1 & _).
    rewrite bool_decide_eq_false_2 by (intros ->; done).
    rewrite path_list_skip by done. by rewrite (path_list_cons _ _ _ _ Hcx).
Qed.

(** ** Changes below a node are changes of that node *)
Lemma alter_below p n d (F : xmlNode → xmlNode) (g : list xmlNode → list xmlNode) :
  NoDup (ids d) → n ∈ subtree d → nid n = p →
  (* F acts on children only, and leaves alone what does not contain q *)
  ∀ q, q ∈ ids n → q ≠ p → (∀ i h cs, i ≠ q → F (XmlNode i h cs) = XmlNode i h (g cs)) →
  (∀ c l, nid c ≠ q → g (c :: l) = F c :: g l) → g [] = [] →
  (∀ x, q ∉ ids x → F x = x) →
  F d = alter_node p (λ _, F n) d.
Proof.
  intros Hnd Hn Hp q Hq Hqp HF Hg Hg0 Hid. revert Hnd Hn.
  induction d as [i h cs IH] using xmlNode_ind'. intros Hnd Hn. rewrite Forall_forall in IH.
  rewrite alter_node_eq. rewrite subtree_eq in Hn.
  apply elem_of_cons in Hn as [->|(c & Hc & Hn)%forest_inv].
  { simpl in Hp. by rewrite bool_decide_eq_true_2. }
  simpl in Hc. apply list_elem_of_split in Hc as (cs1 & cs2 & ->).
  pose proof (subtree_ids_sub _ _ _ Hn Hq) as Hqc.
  pose proof (subtree_ids _ _ Hn) as Hpc. rewrite Hp in Hpc.
  destruct (nodup_siblings _ _ _ _ _ _ Hnd Hqc) as (Hndc & Hic & Hq1 & Hq2).
  destruct (nodup_siblings _ _ _ _ _ _ Hnd Hpc) as (_ & _ & Hp1 & Hp2).
  rewrite bool_decide_eq_false_2 by (intros ->; done).
  rewrite HF by (intros ->; done). f_equal.
  assert (∀ l k, (∀ y, y ∈ l → q ∉ ids y) → g (l ++ k) = l ++ g k) as Hskip.
  { induction l as [|y l IHl]; intros k Hl; [done|]. simpl.
    assert (q ∉ ids y) as Hy by (apply Hl; set_solver).
    rewrite Hg, Hid, IHl; [done|set_solver|done|].
    intros Heq. apply Hy. rewrite <-Heq. apply subtree_ids, subtree_self. }
  assert (nid c ≠ q) as Hcq.
  { intros Heq. rewrite subtree_eq in Hn. apply elem_of_cons in Hn as [->|Hn]; [congruence|].
    apply forest_inv in Hn as (z & Hz & Hn). apply (parent_not_below c z Hndc Hz).
    rewrite Heq. by eapply subtree_ids_sub. }
  rewrite Hskip by done. rewrite fmap_app, fmap_cons, !alter_list_notin by done.
  f_equal. rewrite Hg by done. f_equal.
  - apply IH; [set_solver|done|done].
  - rewrite <-(app_nil_r cs2) at 1. rewrite Hskip by done. by rewrite Hg0, app_nil_r.
Qed.

Lemma remove_below p q n d : NoDup (ids d) → n ∈ subtree d → nid n = p → q ∈ ids n → q ≠ p →
  remove_node q d = alter_node p (λ _, remove_node q n) d.
Proof.
  intros. eapply (alter_below p n d (remove_node q) (remove_list q)) with (q := q); try done.
  - intros. apply remove_node_eq.
  - intros c l Hc. unfold remove_list. by rewrite filter_cons_True.
  - apply remove_node_notin.
Qed.

Lemma alter_alter_below p q f n d : NoDup (ids d) → n ∈ subtree d → nid n = p → q ∈ ids n →
  q ≠ p → alter_node q f d = alter_node p (λ _, alter_node q f n) d.
Proof.
  intros. eapply (alter_below p n d (alter_node q f) (fmap (alter_node q f))) with (q := q); try done.
  - intros. by rewrite alter_node_eq, bool_decide_eq_false_2.
  - apply alter_node_notin.
Qed.

Lemma alter_twice p n1 g d : nid n1 = p →
  alter_node p g (alter_node p (λ _, n1) d) = alter_node p (λ _, g n1) d.
Proof.
  intros Hn. induction d as [i h cs IH] using xmlNode_ind'.
  rewrite !(alter_node_eq p (λ _, _) i h cs). case_bool_decide.
  - destruct n1 as [j h1 cs1]. simpl in Hn. by rewrite alter_node_eq, bool_decide_eq_true_2.
  - rewrite alter_node_eq, bool_decide_eq_false_2 by done. f_equal.
    rewrite <-list_fmap_compose. apply list_fmap_ext. intros k c Hc. simpl.
    rewrite Forall_forall in IH. apply IH. by eapply list_elem_of_lookup_2.
Qed.

Lemma path_alter p f d cur : (∀ n, nid (f n) = nid n) → NoDup (ids d) → path_to p d = Some cur →
  path_to p (alter_node p f d) = Some (alter_node p f <$> cur).
Proof.
  intros Hf. revert cur. induction d as [i h cs IH] using xmlNode_ind'. intros cur Hnd Hp.
  rewrite Forall_forall in IH. rewrite path_to_eq in Hp. simpl nid in *. simpl children in *.
  case_bool_decide as Hi.
  - injection Hp as <-. rewrite list_fmap_singleton, alter_node_eq, bool_decide_eq_true_2 by done.
    rewrite path_to_eq, bool_decide_eq_true_2; [done|]. by rewrite Hf.
  - rewrite (alter_node_eq p f i h cs), bool_decide_eq_false_2 by done.
    apply fmap_Some in Hp as (cur' & (x & Hx & Hpx)%path_list_Some & ->).
    apply list_elem_of_split in Hx as (cs1 & cs2 & ->).
    assert (p ∈ ids x) as Hpin by (apply path_to_Some; eauto).
    destruct (nodup_siblings _ _ _ _ _ _ Hnd Hpin) as (Hndx & _ & H1 & H2).
    rewrite path_to_eq. simpl nid. rewrite bool_decide_eq_false_2 by done. simpl children.
    rewrite fmap_app, fmap_cons, (alter_list_notin p f cs1), (alter_list_notin p f cs2) by done.
    rewrite path_list_skip by done.
    rewrite (path_list_cons _ _ _ (alter_node p f <$> cur')) by (apply IH; [set_solver|done|done]).
    rewrite fmap_app, list_fmap_singleton, alter_node_eq, bool_decide_eq_false_2 by done.
    by rewrite fmap_app, fmap_cons, (alter_list_notin p f cs1), (alter_list_notin p f cs2).
Qed.

Lemma remove_alter_const p n d : nid n = p → nid d ≠ p →
  remove_node p (alter_node p (λ _, n) d) = remove_node p d.
Proof.
  intros Hn. induction d as [i h cs IH] using xmlNode_ind'. simpl (nid _). intros Hi.
  rewrite alter_node_eq, bool_decide_eq_false_2 by done.
  rewrite !remove_node_eq. f_equal. unfold remove_list.
  induction IH as [|c cs Hc _ IHl]; [done|]. rewrite fmap_cons.
  destruct (decide (nid c = p)) as [Hcp|Hcp].
  - assert (alter_node p (λ _, n) c = n) as ->.
    { destruct c. simpl in Hcp. by rewrite alter_node_eq, bool_decide_eq_true_2. }
    rewrite !filter_cons_False by naive_solver. apply IHl.
  - assert (nid (alter_node p (λ _, n) c) = nid c) as Hnc.
    { destruct c. simpl in Hcp. by rewrite alter_node_eq, bool_decide_eq_false_2. }
    rewrite !filter_cons_True by (rewrite ?Hnc; done). rewrite !fmap_cons, IHl, Hc; done.
Qed.
