(* ===== verification/EditTree.v ===== *)
(** * Reading edit-config data (edit-config.c)

    The helpers every edit-config operation is built from: namespace matching,
    key lookup, the operation attribute, and the search for the counterpart of
    an edit node in the configuration ([matching_elements],
    [find_element_equiv]).  They only read the documents. *)

From S2P Require Import Prelude.
From S2P Require Import Clrwspace.
From S2P Require Import Xml.

(** The string clrwspace() returns; [clrwspace] is total on C strings. *)
Definition stripped (s : string) : string := default s (clrwspace s).

(** ** Namespaces *)

(** 0 if the namespaces match, 1 otherwise; a namespace of edit data that is the
    NETCONF base namespace or blank is a wildcard. *)
Definition nscmp (reference node : xmlNode) : Z :=
  match ns reference ≫= ns_href with
  | Some href =>
      if bool_decide (href = NC_NS_BASE10)
         || bool_decide (String.length (stripped href) = 0)
      then 0
      else match ns node with
           | Some n => if bool_decide (ns_href n = Some href) then 0 else 1
           | None => 1
           end
  | None => 0
  end.

(** Is the namespace definition used by the element, an attribute of it or an
    element below it? *)
Fixpoint find_namespace_usage (node : xmlNode) (n : xmlNs) : bool :=
  if bool_decide (ns_id <$> ns node = Some (ns_id n)) then true
  else if existsb (λ a, bool_decide (ns_id <$> at_ns a = Some (ns_id n))) (properties node)
  then true
  else (fix go l := match l with
        | [] => false
        | c :: l' => if is_element c && find_namespace_usage c n then true else go l'
        end) (children node).

(** Drop the namespace definitions of an element that nothing uses. *)
Definition clrns (node : xmlNode) : xmlNode :=
  if is_element node
  then with_hdr (hdr_set_nsDef (filter (λ n, find_namespace_usage node n = true) (nsDef node))) node
  else node.

(** ** Children and keys *)
Definition go2node (parent : xmlNode) (nm : string) : option xmlNode :=
  find_first (λ c, is_element c && name_is c nm) (children parent).

(** xmlIsBlankNode(): a text node without content or with blank content only. *)
Definition is_blank_char (c : ascii) : bool :=
  let n := N_of_ascii c in ((n =? 32) || (n =? 9) || (n =? 10) || (n =? 13))%N.
Definition xmlIsBlankNode (n : xmlNode) : bool :=
  match ntype n with
  | XML_TEXT_NODE | XML_CDATA_SECTION_NODE =>
      match content n with
      | None => true
      | Some s => forallb is_blank_char (String.list_ascii_of_string s)
      end
  | _ => false
  end.

Definition get_key (parent : xmlNode) (nm : string) : option string :=
  node ← go2node parent nm;
  c ← first_child node;
  v ← content c;
  if xmlIsBlankNode c then None else Some v.

(** node->children ? node->children->content : NULL *)
Definition child_content (n : xmlNode) : option string := first_child n ≫= content.

(** Name of the k-th ancestor of the node a cursor points at: 1 is its parent. *)
Definition up_name (c : cursor) (k : nat) : option string := c !! k ≫= name.

Definition get_defval (c : cursor) : option string :=
  match c with
  | [] => None
  | node :: _ =>
      if name_is node "lost-connection-behavior" then Some "failSecureMode"
      else if name_is node "port" && xmlStrEqual (up_name c 1) (Some "controller") then Some "6633"
      else if name_is node "protocol" then Some "tls"
      else if name_is node "checksum-present" || name_is node "key-present"
              || name_is node "auto-negotiate" then Some "true"
      else if name_is node "no-receive" || name_is node "no-forward"
              || name_is node "no-packet-in" then Some "false"
      else if name_is node "admin-state" then Some "up"
      else None
  end.

(** ** Operations *)
Inductive NC_EDIT_OP_TYPE :=
| NC_EDIT_OP_ERROR | NC_EDIT_OP_NOTSET | NC_EDIT_OP_MERGE | NC_EDIT_OP_REPLACE
| NC_EDIT_OP_CREATE | NC_EDIT_OP_DELETE | NC_EDIT_OP_REMOVE.

Inductive NC_EDIT_DEFOP_TYPE :=
| NC_EDIT_DEFOP_ERROR | NC_EDIT_DEFOP_NOTSET | NC_EDIT_DEFOP_MERGE
| NC_EDIT_DEFOP_REPLACE | NC_EDIT_DEFOP_NONE.

#[global] Instance op_eq_dec : EqDecision NC_EDIT_OP_TYPE.
Proof. solve_decision. Defined.
#[global] Instance defop_eq_dec : EqDecision NC_EDIT_DEFOP_TYPE.
Proof. solve_decision. Defined.

(** with-defaults basic mode of libnetconf (ncdflt_get_basic_mode()). *)
Inductive NCWD_MODE :=
| NCWD_MODE_NOTSET | NCWD_MODE_ALL | NCWD_MODE_TRIM | NCWD_MODE_EXPLICIT.

#[global] Instance NCWD_MODE_eq_dec : EqDecision NCWD_MODE.
Proof. solve_decision. Defined.

(** What the code relies on of libnetconf's enumerations and settings: the cast
    (NC_EDIT_OP_TYPE) defop, which keeps the error, not-set, merge and replace
    values apart, and the with-defaults mode. *)
Class LibNetconf := {
  cast_defop : NC_EDIT_DEFOP_TYPE → NC_EDIT_OP_TYPE;
  cast_notset : cast_defop NC_EDIT_DEFOP_NOTSET = NC_EDIT_OP_NOTSET;
  cast_merge : cast_defop NC_EDIT_DEFOP_MERGE = NC_EDIT_OP_MERGE;
  cast_replace : cast_defop NC_EDIT_DEFOP_REPLACE = NC_EDIT_OP_REPLACE;
  ncdflt_get_basic_mode : NCWD_MODE
}.

(** The numbering of libnetconf's netconf.h, where NC_EDIT_DEFOP_NONE and
    NC_EDIT_OP_CREATE are both 3, and its default mode. *)
#[export] Instance ref_libnetconf : LibNetconf := {|
  cast_defop d := match d with
    | NC_EDIT_DEFOP_ERROR => NC_EDIT_OP_ERROR
    | NC_EDIT_DEFOP_NOTSET => NC_EDIT_OP_NOTSET
    | NC_EDIT_DEFOP_MERGE => NC_EDIT_OP_MERGE
    | NC_EDIT_DEFOP_REPLACE => NC_EDIT_OP_REPLACE
    | NC_EDIT_DEFOP_NONE => NC_EDIT_OP_CREATE
    end;
  cast_notset := eq_refl; cast_merge := eq_refl; cast_replace := eq_refl;
  ncdflt_get_basic_mode := NCWD_MODE_EXPLICIT
|}.

Definition op_string (op : NC_EDIT_OP_TYPE) : option string :=
  match op with
  | NC_EDIT_OP_MERGE => Some "merge"
  | NC_EDIT_OP_REPLACE => Some "replace"
  | NC_EDIT_OP_CREATE => Some "create"
  | NC_EDIT_OP_DELETE => Some "delete"
  | NC_EDIT_OP_REMOVE => Some "remove"
  | _ => None
  end.

(** The operation a (present) operation attribute names. *)
Definition parse_op (v : string) : NC_EDIT_OP_TYPE :=
  if bool_decide (v = "merge") then NC_EDIT_OP_MERGE
  else if bool_decide (v = "replace") then NC_EDIT_OP_REPLACE
  else if bool_decide (v = "create") then NC_EDIT_OP_CREATE
  else if bool_decide (v = "delete") then NC_EDIT_OP_DELETE
  else if bool_decide (v = "remove") then NC_EDIT_OP_REMOVE
  else NC_EDIT_OP_ERROR.

Section edit_tree.
Context {LX : LibXml}.

Definition get_operation_elements (op : NC_EDIT_OP_TYPE) (edit : xmlNode) : option (list ptr) :=
  opstring ← op_string op;
  xmlXPathEvalExpression (op_query opstring) edit.

(** [errp] says whether the caller passed an error structure: a bad value is
    reported through *error without a NULL test. *)
Definition get_operation (node : xmlNode) (defop : NC_EDIT_OP_TYPE) (errp : bool)
  : M (option nc_err) NC_EDIT_OP_TYPE :=
  match xmlGetNsProp node "operation" NC_NS_BASE10 with
  | Some v =>
      match parse_op v with
      | NC_EDIT_OP_ERROR =>
          if errp then
            _ ← modify (λ _, Some (set_badattr "operation" (nc_err_new NC_ERR_BAD_ATTR)));
            mret NC_EDIT_OP_ERROR
          else crash NullDeref
      | op => mret op
      end
  | None => mret defop
  end.

End edit_tree.

(** Is the node a key of a list instance? *)
Definition is_key (c : cursor) : bool :=
  match c with
  | [] => false
  | node :: _ =>
      if name_is node "id" then
        xmlStrEqual (up_name c 1) (Some "switch") || xmlStrEqual (up_name c 1) (Some "controller")
      else if name_is node "table-id" then true
      else if name_is node "name" && negb (xmlStrEqual (up_name c 1) (Some "flow-table")) then true
      else if name_is node "resource-id" && negb (xmlStrEqual (up_name c 1) (Some "flow-table"))
      then true
      else false
  end.

(** ** Matching *)

Definition is_text (n : xmlNode) : bool := bool_decide (ntype n = XML_TEXT_NODE).

(** Elements compared by their text: leaf-list items. *)
Definition leaflist_like (c : cursor) : bool :=
  match c with
  | [] => false
  | n2 :: _ =>
      name_is n2 "queue" || name_is n2 "flow-table" || name_is n2 "rate"
      || name_is n2 "medium"
      || (name_is n2 "port" && xmlStrEqual (up_name c 1) (Some "resources"))
  end.

(** Key child of a list element of the configuration, None for other elements. *)
Definition key_name (c : cursor) : option string :=
  match c with
  | [] => None
  | n2 :: _ =>
      if name_is n2 "controller" || name_is n2 "switch" then Some "id"
      else if name_is n2 "port" && xmlStrEqual (up_name c 2) (Some "capable-switch")
      then Some "name"
      else if name_is n2 "flow-table" && xmlStrEqual (up_name c 2) (Some "capable-switch")
      then Some "table-id"
      else if (name_is n2 "queue" || name_is n2 "owned-certificate"
               || name_is n2 "external-certificate")
              && xmlStrEqual (up_name c 2) (Some "capable-switch")
      then Some "resource-id"
      else None
  end.

Definition text_of (n : xmlNode) : string := stripped (default "" (content n)).

(** 0 - no match, 1 - match, -1 - a NULL argument.  The recursion descends in
    the first node; [matching_elements] gives it the size of that node as fuel. *)
Fixpoint matching_fuel (fuel : nat) (n1 : option xmlNode) (c2 : option cursor) : Z :=
  match fuel, n1, c2 with
  | S f, Some node1, Some ((node2 :: _) as cur2) =>
      if is_text node1 && is_text node2 then
        if bool_decide (text_of node1 = text_of node2) then 1 else 0
      else if negb (is_element node1) || negb (is_element node2) then 0
      else if negb (xmlStrEqual (name node1) (name node2)) then 0
      else if bool_decide (nscmp node1 node2 ≠ 0%Z) then 0
      else match (if leaflist_like cur2 then
                    match first_child node1, first_child node2 with
                    | Some t1, Some t2 =>
                        if is_text t1 && is_text t2 then Some (t1, t2) else None
                    | _, _ => None
                    end
                  else None) with
           | Some (t1, t2) => matching_fuel f (Some t1) (Some (t2 :: cur2))
           | None =>
               match key_name cur2 with
               | None => 1
               | Some k =>
                   match go2node node1 k, go2node node2 k with
                   | Some key1, Some key2 =>
                       matching_fuel f (first_child key1)
                         ((λ c, c :: key2 :: cur2) <$> first_child key2)
                   | _, _ => 0
                   end
               end
           end
  | _, _, _ => -1
  end.

Definition tsize (n : xmlNode) : nat := length (subtree n).

Definition matching_elements (n1 : option xmlNode) (c2 : option cursor) : Z :=
  matching_fuel (S (from_option tsize 0 n1)) n1 c2.

(** Search loop of find_element_equiv(): any result but 0 is taken as a match. *)
Definition find_match (edit : xmlNode) (oc : cursor) : option cursor :=
  match oc with
  | [] => None
  | op :: _ =>
      (λ c, c :: oc) <$>
      find_first (λ c, negb (bool_decide (matching_elements (Some edit) (Some (c :: oc)) = 0%Z)))
        (children op)
  end.

(** The counterpart of an edit node in the configuration, with its path. *)
Fixpoint find_element_equiv (orig : option xmlNode) (edit : cursor) : option cursor :=
  match orig, edit with
  | Some d, e :: ((pa :: _) as up) =>
      oc ← (if bool_decide (ntype pa ≠ XML_DOCUMENT_NODE) then find_element_equiv orig up
            else match children d with [] => None | _ => Some [d] end);
      find_match e oc
  | _, _ => None
  end.

(** ** Sizes and fuel *)
Lemma tsize_child c n : c ∈ children n → tsize c < tsize n.
Proof.
  intros Hc. unfold tsize. rewrite (subtree_eq n). simpl.
  apply list_elem_of_split in Hc as (l1 & l2 & ->).
  rewrite forest_app, forest_cons, !length_app. lia.
Qed.

Lemma first_child_in n c : first_child n = Some c → c ∈ children n.
Proof. unfold first_child. destruct (children n); simpl; [done|]. intros [= ->]. set_solver. Qed.

Lemma go2node_in n k c : go2node n k = Some c →
  c ∈ children n ∧ is_element c = true ∧ name c = Some k.
Proof.
  intros [H1 H2]%find_first_Some. apply andb_true_iff in H2 as [H2 H3].
  by rewrite name_is_spec in H3.
Qed.

Lemma tsize_first_child n c : first_child n = Some c → tsize c < tsize n.
Proof. intros H. by apply tsize_child, first_child_in. Qed.

Lemma tsize_go2node n k c : go2node n k = Some c → tsize c < tsize n.
Proof. intros (H & _)%go2node_in. by apply tsize_child. Qed.

Lemma tsize_key n k key : go2node n k = Some key →
  from_option tsize 0 (first_child key) < tsize n.
Proof.
  intros H. pose proof (tsize_go2node _ _ _ H).
  destruct (first_child key) as [c|] eqn:E; simpl; [|lia].
  pose proof (tsize_first_child _ _ E). lia.
Qed.

Lemma matching_fuel_irrel f : ∀ g n1 c2,
  from_option tsize 0 n1 < f → from_option tsize 0 n1 < g →
  matching_fuel f n1 c2 = matching_fuel g n1 c2.
Proof.
  induction f as [|f IH]; intros [|g] n1 c2 Hf Hg; try lia.
  destruct n1 as [n1|]; [|done]. simpl in Hf, Hg.
  destruct c2 as [[|n2 up]|]; [done| |done]. cbn [matching_fuel].
  repeat case_match; simplify_eq; try done.
  all: apply IH; simpl;
    repeat match goal with
    | H : first_child _ = Some _ |- _ => apply tsize_first_child in H
    | H : go2node _ _ = Some _ |- _ => apply tsize_key in H
    end; lia.
Qed.

(** Unfolding equation, at the element level. *)
Lemma matching_unfold n1 n2 up :
  let cur2 := n2 :: up in
  matching_elements (Some n1) (Some cur2) =
  if is_text n1 && is_text n2 then
    if bool_decide (text_of n1 = text_of n2) then 1%Z else 0%Z
  else if negb (is_element n1) || negb (is_element n2) then 0%Z
  else if negb (xmlStrEqual (name n1) (name n2)) then 0%Z
  else if bool_decide (nscmp n1 n2 ≠ 0%Z) then 0%Z
  else match (if leaflist_like cur2 then
                match first_child n1, first_child n2 with
                | Some t1, Some t2 =>
                    if is_text t1 && is_text t2 then Some (t1, t2) else None
                | _, _ => None
                end
              else None) with
       | Some (t1, t2) => matching_elements (Some t1) (Some (t2 :: cur2))
       | None =>
           match key_name cur2 with
           | None => 1%Z
           | Some k =>
               match go2node n1 k, go2node n2 k with
               | Some key1, Some key2 =>
                   matching_elements (first_child key1)
                     ((λ c, c :: key2 :: cur2) <$> first_child key2)
               | _, _ => 0%Z
               end
           end
       end.
Proof.
  cbv zeta. unfold matching_elements at 1. cbn [from_option matching_fuel].
  destruct (is_text n1 && is_text n2); [done|].
  destruct (negb (is_element n1) || negb (is_element n2)); [done|].
  destruct (negb (xmlStrEqual (name n1) (name n2))); [done|].
  destruct (bool_decide (nscmp n1 n2 ≠ 0%Z)); [done|].
  generalize (n2 :: up) as cur2. intros cur2.
  destruct (if leaflist_like cur2 then _ else None) as [[t1 t2]|] eqn:E.
  - apply matching_fuel_irrel; simpl; [|lia].
    repeat case_match; simplify_eq. by apply tsize_first_child.
  - destruct (key_name cur2) as [k|]; [|done].
    destruct (go2node n1 k) as [key1|] eqn:E1; [|done].
    destruct (go2node n2 k) as [key2|]; [|done].
    apply matching_fuel_irrel; [|lia]. pose proof (tsize_key _ _ _ E1). lia.
Qed.

(** ** find_element_equiv *)

Lemma find_match_Some e oc r : find_match e oc = Some r →
  ∃ c o up, oc = o :: up ∧ r = c :: oc ∧ c ∈ children o ∧
    matching_elements (Some e) (Some r) ≠ 0%Z.
Proof.
  destruct oc as [|o up]; simpl; [done|].
  intros (c & [Hc Hm]%find_first_Some & ->)%fmap_Some.
  apply negb_true_iff, bool_decide_eq_false in Hm. naive_solver.
Qed.

Lemma find_match_None e o up :
  find_match e (o :: up) = None ↔
  ∀ c, c ∈ children o → matching_elements (Some e) (Some (c :: o :: up)) = 0%Z.
Proof.
  simpl. rewrite fmap_None, find_first_None.
  setoid_rewrite negb_false_iff. setoid_rewrite bool_decide_eq_true. done.
Qed.

Lemma find_element_equiv_eq d e pa up :
  find_element_equiv (Some d) (e :: pa :: up) =
  (oc ← (if bool_decide (ntype pa ≠ XML_DOCUMENT_NODE) then find_element_equiv (Some d) (pa :: up)
         else match children d with [] => None | _ => Some [d] end);
   find_match e oc).
Proof. done. Qed.

(** ** What a counterpart is

    A specification of matching_elements() and find_element_equiv() of its own,
    by relations: when an element of the edit data stands for an element of the
    configuration, and which one it stands for. *)

(** Equal namespaces; an edit element without namespace, in the NETCONF base
    namespace or in a blank one stands for an element of any. *)
Definition ns_matches (e c : xmlNode) : Prop :=
  ∀ n h, ns e = Some n → ns_href n = Some h → h ≠ NC_NS_BASE10 → stripped h ≠ "" →
  ∃ n', ns c = Some n' ∧ ns_href n' = Some h.

Definition same_element (e c : xmlNode) : Prop :=
  ntype e = XML_ELEMENT_NODE ∧ ntype c = XML_ELEMENT_NODE ∧ name e = name c ∧ ns_matches e c.

(** The values of leaf-lists are their texts, and so are references to queues
    and flow tables. *)
Definition leaf_value (cur : cursor) : Prop :=
  ∃ nm, up_name cur 0 = Some nm ∧
    (nm ∈ ["queue"; "flow-table"; "rate"; "medium"] ∨
     (nm = "port" ∧ up_name cur 1 = Some "resources")).
Definition first_text (n t : xmlNode) : Prop :=
  first_child n = Some t ∧ ntype t = XML_TEXT_NODE.
Definition by_text (e c : xmlNode) (up : cursor) (t1 t2 : xmlNode) : Prop :=
  leaf_value (c :: up) ∧ first_text e t1 ∧ first_text c t2.

(** The key leaf k of the list the element at the cursor is an instance of. *)
Definition keyed (cur : cursor) (k : string) : Prop :=
  ∃ nm, up_name cur 0 = Some nm ∧
    ((nm ∈ ["controller"; "switch"] ∧ k = "id") ∨
     (up_name cur 2 = Some "capable-switch" ∧
      ((nm = "port" ∧ k = "name") ∨ (nm = "flow-table" ∧ k = "table-id") ∨
       (nm ∈ ["queue"; "owned-certificate"; "external-certificate"] ∧ k = "resource-id")))).

(** The first element named k below n. *)
Definition key_leaf (n : xmlNode) (k : string) (key : xmlNode) : Prop :=
  ∃ l1 l2, children n = l1 ++ key :: l2 ∧ ntype key = XML_ELEMENT_NODE ∧ name key = Some k ∧
    ∀ x, x ∈ l1 → ntype x = XML_ELEMENT_NODE → name x ≠ Some k.

(** Texts match when clrwspace() makes the same of them; elements of the same
    name and namespace match by their texts, their keys, or, having neither,
    alone.  A key leaf without value matches any. *)
Inductive matches : xmlNode → cursor → Prop :=
| matches_text t1 t2 up :
    ntype t1 = XML_TEXT_NODE → ntype t2 = XML_TEXT_NODE → text_of t1 = text_of t2 →
    matches t1 (t2 :: up)
| matches_by_text e c up t1 t2 :
    same_element e c → by_text e c up t1 t2 → matches t1 (t2 :: c :: up) →
    matches e (c :: up)
| matches_alone e c up :
    same_element e c → (∀ t1 t2, ¬ by_text e c up t1 t2) → (∀ k, ¬ keyed (c :: up) k) →
    matches e (c :: up)
| matches_key e c up k key1 key2 :
    same_element e c → (∀ t1 t2, ¬ by_text e c up t1 t2) → keyed (c :: up) k →
    key_leaf e k key1 → key_leaf c k key2 →
    (∀ v1 v2, first_child key1 = Some v1 → first_child key2 = Some v2 →
       matches v1 (v2 :: key2 :: c :: up)) →
    matches e (c :: up).

(** c is the first child of the node at oc that e matches. *)
Definition first_matching (e : xmlNode) (oc : cursor) (c : xmlNode) : Prop :=
  ∃ o up l1 l2, oc = o :: up ∧ children o = l1 ++ c :: l2 ∧ matches e (c :: oc) ∧
    ∀ x, x ∈ l1 → ¬ matches e (x :: oc).

(** Level by level, the first child that matches. *)
Inductive counterpart (d : xmlNode) : cursor → cursor → Prop :=
| counterpart_root e pa up c :
    ntype pa = XML_DOCUMENT_NODE → first_matching e [d] c →
    counterpart d (e :: pa :: up) (c :: [d])
| counterpart_below e pa up oc c :
    ntype pa ≠ XML_DOCUMENT_NODE → counterpart d (pa :: up) oc → first_matching e oc c →
    counterpart d (e :: pa :: up) (c :: oc).

Lemma nscmp_matches e c : nscmp e c = 0%Z ↔ ns_matches e c.
Proof.
  unfold nscmp, ns_matches. destruct (ns e) as [n|]; [|naive_solver]. cbn [mbind option_bind].
  destruct (ns_href n) as [h|] eqn:Eh; [|naive_solver].
  assert (String.length (stripped h) = 0 ↔ stripped h = "") as Hlen
    by (destruct (stripped h); naive_solver).
  repeat case_bool_decide; simpl; try naive_solver.
  - destruct (ns c) as [n'|]; [case_bool_decide|]; naive_solver.
Qed.

Lemma same_element_spec e c :
  same_element e c ↔ is_element e = true ∧ is_element c = true ∧
    xmlStrEqual (name e) (name c) = true ∧ nscmp e c = 0%Z.
Proof.
  unfold same_element, is_element, xmlStrEqual. rewrite !bool_decide_eq_true, nscmp_matches. done.
Qed.

Lemma leaf_value_spec c up : leaflist_like (c :: up) = true ↔ leaf_value (c :: up).
Proof.
  unfold leaflist_like, leaf_value. change (up_name (c :: up) 0) with (name c).
  rewrite !orb_true_iff, andb_true_iff, !name_is_spec. unfold xmlStrEqual.
  rewrite bool_decide_eq_true. set_solver.
Qed.

Lemma keyed_spec c up k : key_name (c :: up) = Some k ↔ keyed (c :: up) k.
Proof.
  unfold key_name, keyed. change (up_name (c :: up) 0) with (name c).
  unfold name_is, xmlStrEqual. destruct (name c) as [nm|]; [|naive_solver].
  repeat case_bool_decide; simplify_eq; simpl; set_solver.
Qed.

Lemma key_leaf_spec n k key : go2node n k = Some key ↔ key_leaf n k key.
Proof.
  assert (∀ x, is_element x && name_is x k = true ↔ ntype x = XML_ELEMENT_NODE ∧ name x = Some k)
    as Hx.
  { intros x. unfold is_element. by rewrite andb_true_iff, name_is_spec, bool_decide_eq_true. }
  unfold go2node, key_leaf. rewrite find_first_split.
  setoid_rewrite Hx. setoid_rewrite <-not_true_iff_false. setoid_rewrite Hx. naive_solver.
Qed.

Lemma element_not_text n : is_element n = true → is_text n = false.
Proof. unfold is_element, is_text. intros H%bool_decide_eq_true. by rewrite H. Qed.

Lemma by_text_spec e c up t1 t2 :
  (if leaflist_like (c :: up) then
     match first_child e, first_child c with
     | Some t1, Some t2 => if is_text t1 && is_text t2 then Some (t1, t2) else None
     | _, _ => None
     end
   else None) = Some (t1, t2) ↔ by_text e c up t1 t2.
Proof.
  unfold by_text, first_text. rewrite <-leaf_value_spec. unfold is_text.
  destruct (leaflist_like _); [|naive_solver].
  destruct (first_child e), (first_child c); try naive_solver.
  repeat case_bool_decide; naive_solver.
Qed.

(** Matching_elements() on an element of the configuration, step by step. *)
Lemma matching_element e c up : same_element e c →
  (∃ t1 t2, by_text e c up t1 t2 ∧
     matching_elements (Some e) (Some (c :: up)) = matching_elements (Some t1) (Some (t2 :: c :: up))) ∨
  (∀ t1 t2, ¬ by_text e c up t1 t2) ∧
  (((∀ k, ¬ keyed (c :: up) k) ∧ matching_elements (Some e) (Some (c :: up)) = 1%Z) ∨
   ∃ k, keyed (c :: up) k ∧
     match go2node e k, go2node c k with
     | Some key1, Some key2 =>
         matching_elements (Some e) (Some (c :: up)) =
         matching_elements (first_child key1) ((λ v, v :: key2 :: c :: up) <$> first_child key2)
     | _, _ => matching_elements (Some e) (Some (c :: up)) = 0%Z
     end).
Proof.
  intros (He & Hc & Hn & Hns)%same_element_spec. rewrite matching_unfold. cbv zeta.
  rewrite He, Hc, (element_not_text e He), Hn, Hns. cbn [andb orb negb].
  rewrite bool_decide_eq_false_2 by naive_solver.
  destruct (if leaflist_like (c :: up) then _ else None) as [[t1 t2]|] eqn:Ht.
  - left. exists t1, t2. by rewrite by_text_spec in Ht.
  - right. split; [intros t1 t2 H%by_text_spec; congruence|].
    destruct (key_name (c :: up)) as [k|] eqn:Hk.
    + right. exists k. split; [by apply keyed_spec|]. by repeat case_match.
    + left. split; [|done]. intros k H%keyed_spec. congruence.
Qed.

Lemma matching_same e c up : matching_elements (Some e) (Some (c :: up)) ≠ 0%Z →
  (ntype e = XML_TEXT_NODE ∧ ntype c = XML_TEXT_NODE ∧ text_of e = text_of c) ∨ same_element e c.
Proof.
  rewrite matching_unfold, same_element_spec. cbv zeta. intros Hm.
  destruct (is_text e && is_text c) eqn:Ht.
  { left. apply andb_true_iff in Ht as [H1%bool_decide_eq_true H2%bool_decide_eq_true].
    by case_bool_decide. }
  right. destruct (is_element e); [|done]. destruct (is_element c); [|done].
  destruct (xmlStrEqual (name e) (name c)); [|done]. cbn [orb negb] in Hm.
  case_bool_decide as Hns; [done|]. split_and!; [done..|]. by destruct (decide (nscmp e c = 0%Z)).
Qed.

Lemma matches_sound n : ∀ e c up, tsize e < n →
  matching_elements (Some e) (Some (c :: up)) ≠ 0%Z → matches e (c :: up).
Proof.
  induction n as [|n IH]; intros e c up Hn Hm; [lia|].
  destruct (matching_same _ _ _ Hm) as [(H1 & H2 & H3)|Hs]; [by constructor|].
  destruct (matching_element e c up Hs) as
    [(t1 & t2 & Ht & Heq)|[Ht [[Hk Heq]|(k & Hk & Heq)]]].
  - eapply matches_by_text; [done..|]. apply IH; [|congruence].
    destruct Ht as (_ & [Ht _] & _). apply tsize_first_child in Ht. lia.
  - by constructor.
  - destruct (go2node e k) as [key1|] eqn:E1; [|done]. destruct (go2node c k) as [key2|] eqn:E2; [|done].
    eapply matches_key; [done..|by apply key_leaf_spec|by apply key_leaf_spec|].
    intros v1 v2 Hv1 Hv2. rewrite Hv1, Hv2 in Heq. simpl in Heq.
    apply IH; [|congruence]. apply tsize_go2node in E1. apply tsize_first_child in Hv1. lia.
Qed.

Lemma by_text_fun e c up t1 t2 u1 u2 : by_text e c up t1 t2 → by_text e c up u1 u2 →
  t1 = u1 ∧ t2 = u2.
Proof. rewrite <-!by_text_spec. intros H1 H2. rewrite H1 in H2. by injection H2. Qed.

Lemma matches_complete e (cur : list xmlNode) : matches e cur → matching_elements (Some e) (Some cur) ≠ 0%Z.
Proof.
  induction 1 as [t1 t2 up H1 H2 H3|e c up t1 t2 Hs Ht _ IH|e c up Hs Ht Hk
                 |e c up k key1 key2 Hs Ht Hk H1 H2 _ IH].
  - rewrite matching_unfold. cbv zeta. unfold is_text. rewrite H1, H2, H3.
    by repeat (rewrite bool_decide_eq_true_2 by done).
  - destruct (matching_element e c up Hs) as [(u1 & u2 & Hu & ->)|[Hn _]]; [|naive_solver].
    by destruct (by_text_fun _ _ _ _ _ _ _ Ht Hu) as [-> ->].
  - destruct (matching_element e c up Hs) as [|[_ [[_ ->]|]]]; naive_solver.
  - destruct (matching_element e c up Hs) as [|[_ [[]|(k' & Hk' & Heq)]]]; [naive_solver..|].
    rewrite <-keyed_spec in Hk, Hk'. rewrite Hk in Hk'. injection Hk' as <-.
    apply key_leaf_spec in H1, H2. rewrite H1, H2 in Heq. rewrite Heq.
    destruct (first_child key1) as [v1|] eqn:E1; [|by destruct (first_child key2)].
    destruct (first_child key2) as [v2|] eqn:E2; [|done]. by apply IH.
Qed.

Lemma matches_spec e c up : matching_elements (Some e) (Some (c :: up)) ≠ 0%Z ↔ matches e (c :: up).
Proof. split; [by apply (matches_sound (S (tsize e))); lia|apply matches_complete]. Qed.

Lemma find_match_first e oc r : find_match e oc = Some r ↔ ∃ c, r = c :: oc ∧ first_matching e oc c.
Proof.
  unfold first_matching. destruct oc as [|o up]; [naive_solver|]. cbn [find_match].
  rewrite fmap_Some. setoid_rewrite find_first_split.
  setoid_rewrite negb_true_iff. setoid_rewrite negb_false_iff.
  setoid_rewrite bool_decide_eq_false. setoid_rewrite bool_decide_eq_true.
  setoid_rewrite matches_spec. split.
  - intros (c & (l1 & l2 & Hc & Hm & Hl) & ->). exists c. split; [done|]. exists o, up, l1, l2.
    split_and!; try done. intros x Hx Hmx%matches_spec. naive_solver.
  - intros (c & -> & o' & up' & l1 & l2 & [= <- <-] & Hc & Hm & Hl). exists c. split; [|done].
    exists l1, l2. split_and!; try done. intros x Hx. apply Hl in Hx.
    rewrite <-matches_spec in Hx. by destruct (decide (matching_elements (Some x) (Some (c :: o :: up)) = 0%Z)); lia.
Qed.

Lemma find_element_equiv_spec d edit r :
  find_element_equiv (Some d) edit = Some r ↔ counterpart d edit r.
Proof.
  split.
  - revert r. induction edit as [|e [|pa up] IH]; intros r; [discriminate|discriminate|].
    rewrite find_element_equiv_eq. case_bool_decide as Hpa.
    + destruct (find_element_equiv (Some d) (pa :: up)) as [oc|] eqn:E; [|done].
      cbn [mbind option_bind]. intros (c & -> & Hm)%find_match_first. econstructor 2; eauto.
    + destruct (children d) eqn:E; [done|]. cbn [mbind option_bind].
      intros (c & -> & Hm)%find_match_first. constructor; [|done].
      by destruct (decide (ntype pa = XML_DOCUMENT_NODE)).
  - induction 1 as [e pa up c Hpa Hm|e pa up oc c Hpa _ IH Hm]; rewrite find_element_equiv_eq.
    + rewrite bool_decide_eq_false_2 by naive_solver.
      destruct (children d) eqn:E; [|apply find_match_first; eauto].
      destruct Hm as (o & up' & l1 & l2 & [= <- <-] & Hc & _). rewrite E in Hc. by destruct l1.
    + rewrite bool_decide_eq_true_2 by done. rewrite IH. apply find_match_first. eauto.
Qed.

Lemma counterpart_path d edit r : counterpart d edit r →
  is_path r d ∧ ∃ c o up, r = c :: o :: up ∧ c ∈ children o.
Proof.
  induction 1 as [e pa up c Hpa Hm|e pa up oc c Hpa _ [IH _] Hm];
    destruct Hm as (o & up' & l1 & l2 & Heq & Hc & _); simplify_eq;
    (assert (c ∈ children o) by (rewrite Hc; set_solver)).
  - split; [done|eauto 10].
  - split; [by destruct up'; simpl|eauto 10].
Qed.

Lemma find_element_equiv_path d edit r :
  find_element_equiv (Some d) edit = Some r →
  is_path r d ∧ ∃ c o up, r = c :: o :: up ∧ c ∈ children o.
Proof. intros H. by eapply counterpart_path, find_element_equiv_spec. Qed.

(** A key element without a value is taken to match every key. *)
Lemma matching_empty_key n1 n2 up k key1 key2 :
  is_element n1 = true → is_element n2 = true → name n1 = name n2 → nscmp n1 n2 = 0%Z →
  leaflist_like (n2 :: up) = false →
  key_name (n2 :: up) = Some k →
  go2node n1 k = Some key1 → children key1 = [] → go2node n2 k = Some key2 →
  matching_elements (Some n1) (Some (n2 :: up)) = (-1)%Z.
Proof.
  intros He1 He2 Hn Hns Hl Hk Hk1 Hc Hk2. rewrite matching_unfold. cbv zeta.
  assert (is_text n1 = false) as ->.
  { unfold is_text, is_element in *. apply bool_decide_eq_true in He1. by rewrite He1. }
  rewrite He1, He2. cbn [andb orb negb].
  unfold xmlStrEqual at 1. rewrite Hn, bool_decide_eq_true_2 by done. cbn [negb].
  rewrite bool_decide_eq_false_2 by naive_solver. rewrite Hl, Hk, Hk1, Hk2.
  unfold first_child at 1. by rewrite Hc.
Qed.
