(* ===== verification/EditChecks.v ===== *)
(** * Checks before an edit (edit-config.c)

    [check_keys], [check_edit_ops_hierarchy] and [check_edit_ops] decide
    whether edit-config data may be applied at all. *)

From S2P Require Import Prelude.
From S2P Require Import Clrwspace.
From S2P Require Import Xml.
From S2P Require Import EditTree.

(** ** Keys of list instances *)

(** The key child a list element of /capable-switch/resources must have. *)
Definition resource_key (l2 : xmlNode) : option string :=
  if name_is l2 "port" then Some "name"
  else if name_is l2 "queue" || name_is l2 "owned-certificate"
          || name_is l2 "external-certificate" then Some "resource-id"
  else if name_is l2 "flow-table" then Some "table-id"
  else None.

(** A child of resources without its key. *)
Definition bad_resource (l2 : xmlNode) : option xmlNode :=
  if is_element l2 then
    match resource_key l2 with
    | Some k => match go2node l2 k with None => Some l2 | Some _ => None end
    | None => None
    end
  else None.

Definition bad_controller (l3 : xmlNode) : option xmlNode :=
  if is_element l3 && name_is l3 "controller" then
    match go2node l3 "id" with None => Some l3 | Some _ => None end
  else None.

(** A child of logical-switches: the switch itself, then its controllers. *)
Definition bad_switch (l2 : xmlNode) : option xmlNode :=
  if is_element l2 && name_is l2 "switch" then
    match go2node l2 "id" with
    | None => Some l2
    | Some _ =>
        match go2node l2 "controllers" with
        | None => None
        | Some l3 => first_some bad_controller (children l3)
        end
    end
  else None.

Definition bad_top (l1 : xmlNode) : option xmlNode :=
  if is_element l1 then
    if name_is l1 "resources" then first_some bad_resource (children l1)
    else if name_is l1 "logical-switches" then first_some bad_switch (children l1)
    else None
  else None.

(** xmlDocGetRootElement(): the first element child of the document. *)
Definition root_element (doc : xmlNode) : option xmlNode := find_first is_element (children doc).

Definition check_keys (doc : option xmlNode) : exit * option nc_err :=
  match doc ≫= root_element with
  | None => (EXIT_SUCCESS, None)
  | Some root =>
      match first_some bad_top (children root) with
      | None => (EXIT_SUCCESS, None)
      | Some enode =>
          (EXIT_FAILURE,
           Some (set_msg "The list element misses key."
                  (set_badelem (name enode) (nc_err_new NC_ERR_BAD_ELEM))))
      end
  end.

(** ** Operation hierarchy *)
Section checks.
Context {LX : LibXml} {LN : LibNetconf}.

(** The while loop over the ancestors: fail on the given operations. *)
Fixpoint check_parents (bad : NC_EDIT_OP_TYPE → bool) (up : cursor) : M (option nc_err) exit :=
  match up with
  | [] => crash NullDeref
  | parent :: up' =>
      if bool_decide (ntype parent = XML_DOCUMENT_NODE) then mret EXIT_SUCCESS
      else
        parent_op ← get_operation parent (cast_defop NC_EDIT_DEFOP_NOTSET) true;
        if bool_decide (parent_op = NC_EDIT_OP_ERROR) then mret EXIT_FAILURE
        else if bad parent_op then
          _ ← modify (λ _, Some (nc_err_new NC_ERR_OP_FAILED));
          mret EXIT_FAILURE
        else check_parents bad up'
  end.

Definition is_removal (op : NC_EDIT_OP_TYPE) : bool :=
  bool_decide (op = NC_EDIT_OP_DELETE) || bool_decide (op = NC_EDIT_OP_REMOVE).
Definition is_creation (op : NC_EDIT_OP_TYPE) : bool :=
  bool_decide (op = NC_EDIT_OP_CREATE) || bool_decide (op = NC_EDIT_OP_REPLACE).

Definition check_edit_ops_hierarchy (edit : cursor) (defop : NC_EDIT_DEFOP_TYPE)
  : M (option nc_err) exit :=
  match edit with
  | [] => crash NullDeref
  | node :: up =>
      op ← get_operation node (cast_defop NC_EDIT_DEFOP_NOTSET) true;
      if bool_decide (op = cast_defop NC_EDIT_DEFOP_NOTSET) then mret EXIT_SUCCESS
      else if bool_decide (op = NC_EDIT_OP_ERROR) then mret EXIT_FAILURE
      else if is_removal op then
        if bool_decide (defop = NC_EDIT_DEFOP_REPLACE) then
          _ ← modify (λ _, Some (nc_err_new NC_ERR_OP_FAILED));
          mret EXIT_FAILURE
        else check_parents is_creation up
      else if is_creation op then check_parents is_removal up
      else mret EXIT_SUCCESS
  end.

(** ** Existence rules of create and delete *)

(** The documents the checks may change, and *error. *)
Record cstate := CState {
  c_orig : option xmlNode;
  c_edit : xmlNode;
  c_err : option nc_err }.

Definition set_cerr (e : option nc_err) (s : cstate) : cstate :=
  CState (c_orig s) (c_edit s) e.

(** Run a computation on *error inside the larger state. *)
Definition on_err {A} (m : M (option nc_err) A) : M cstate A := λ s,
  match m (c_err s) with
  | Done (a, e) => Done (a, set_cerr e s)
  | Crash f => Crash f
  | NoFuel => NoFuel
  end.

(** The branch of a node whose default value matters: [unlink] removes the node
    the code frees when the value is the default one, [missing] is the error of
    a node without default value.  The value get_defval() returned is a string
    constant, and every path from here passes it to xmlFree(). *)
Definition default_branch (node : cursor) (missing : nc_err_tag)
  (unlink : cstate → cstate) : M cstate bool :=
  match get_defval node, node with
  | None, _ => _ ← modify (set_cerr (Some (nc_err_new missing))); mret false
  | Some defval, n :: _ =>
      match xmlNodeGetContent n with
      | None => _ ← modify (set_cerr (Some (nc_err_new missing))); crash BadFree
      | Some value =>
          if bool_decide (defval ≠ value) then
            _ ← modify (set_cerr (Some (nc_err_new NC_ERR_DATA_MISSING))); crash BadFree
          else _ ← modify unlink; crash BadFree
      end
  | Some _, [] => crash NullDeref
  end.

(** One round of the loop; the result says whether the loop goes on. *)
Definition check_edit_op (op : NC_EDIT_OP_TYPE) (p : ptr) (cur : cursor) : M cstate bool :=
  orig ← gets c_orig;
  let n := find_element_equiv orig cur in
  if bool_decide (op = NC_EDIT_OP_DELETE) && bool_decide (n = None) then
    if bool_decide (ncdflt_get_basic_mode = NCWD_MODE_ALL) then
      default_branch cur NC_ERR_DATA_MISSING
        (λ s, CState (c_orig s) (xmlUnlinkFreeNode p (c_edit s)) (c_err s))
    else _ ← modify (set_cerr (Some (nc_err_new NC_ERR_DATA_MISSING))); mret false
  else
    match n with
    | Some (n0 :: _) =>
        if bool_decide (op = NC_EDIT_OP_CREATE) then
          if bool_decide (ncdflt_get_basic_mode = NCWD_MODE_TRIM) then
            default_branch cur NC_ERR_DATA_EXISTS
              (λ s, CState (xmlUnlinkFreeNode (nid n0) <$> c_orig s) (c_edit s) (c_err s))
          else _ ← modify (set_cerr (Some (nc_err_new NC_ERR_DATA_EXISTS))); mret false
        else mret true
    | _ => mret true
    end.

Fixpoint check_edit_ops_loop (op : NC_EDIT_OP_TYPE) (defop : NC_EDIT_DEFOP_TYPE)
  (tab : list ptr) : M cstate exit :=
  match tab with
  | [] =>
      e ← gets c_err;
      mret (match e with Some _ => EXIT_FAILURE | None => EXIT_SUCCESS end)
  | p :: tab' =>
      edit ← gets c_edit;
      cur ← deref UseAfterFree (path_to p edit);
      r ← on_err (check_edit_ops_hierarchy cur defop);
      match r with
      | EXIT_FAILURE => mret EXIT_FAILURE
      | EXIT_SUCCESS =>
          go ← check_edit_op op p cur;
          if go : bool then check_edit_ops_loop op defop tab'
          else mret EXIT_FAILURE
      end
  end.

Definition check_edit_ops (op : NC_EDIT_OP_TYPE) (defop : NC_EDIT_DEFOP_TYPE) : M cstate exit :=
  edit ← gets c_edit;
  match get_operation_elements op edit with
  | None => _ ← modify (set_cerr (Some (nc_err_new NC_ERR_OP_FAILED))); mret EXIT_FAILURE
  | Some [] => mret EXIT_SUCCESS
  | Some tab => _ ← modify (set_cerr None); check_edit_ops_loop op defop tab
  end.

End checks.

(** ** Correctness of check_keys *)

(** Every list instance of the document has its key. *)
Definition resource_keyed (l2 : xmlNode) : Prop :=
  ∀ k, is_element l2 = true → resource_key l2 = Some k → is_Some (go2node l2 k).
Definition controller_keyed (l3 : xmlNode) : Prop :=
  is_element l3 = true → name l3 = Some "controller" → is_Some (go2node l3 "id").
Definition switch_keyed (l2 : xmlNode) : Prop :=
  is_element l2 = true → name l2 = Some "switch" →
  is_Some (go2node l2 "id") ∧
  ∀ l3, go2node l2 "controllers" = Some l3 → Forall controller_keyed (children l3).
Definition top_keyed (l1 : xmlNode) : Prop :=
  is_element l1 = true →
  (name l1 = Some "resources" → Forall resource_keyed (children l1)) ∧
  (name l1 = Some "logical-switches" → Forall switch_keyed (children l1)).
Definition doc_keyed (doc : xmlNode) : Prop :=
  ∀ root, root_element doc = Some root → Forall top_keyed (children root).

Lemma first_some_Forall {A B} (f : A → option B) (P : A → Prop) l :
  (∀ x, f x = None ↔ P x) → first_some f l = None ↔ Forall P l.
Proof. intros H. rewrite first_some_None, Forall_forall. naive_solver. Qed.

Lemma bad_resource_None n : bad_resource n = None ↔ resource_keyed n.
Proof.
  unfold bad_resource, resource_keyed. destruct (is_element n); [|naive_solver].
  destruct (resource_key n) as [k|]; [|naive_solver].
  destruct (go2node n k) eqn:E; split; intros; simplify_eq; eauto.
  edestruct H; eauto. congruence.
Qed.

Lemma bad_controller_None n : bad_controller n = None ↔ controller_keyed n.
Proof.
  unfold bad_controller, controller_keyed. destruct (is_element n); simpl; [|naive_solver].
  destruct (name_is n "controller") eqn:E; rewrite ?name_is_spec in E.
  - destruct (go2node n "id"); split; [by eauto|done|done|].
    intros H. destruct (H eq_refl E). done.
  - split; [|done]. intros _ _ H. apply name_is_spec in H. congruence.
Qed.

Lemma bad_switch_None n : bad_switch n = None ↔ switch_keyed n.
Proof.
  unfold bad_switch, switch_keyed. destruct (is_element n); simpl; [|naive_solver].
  destruct (name_is n "switch") eqn:E; rewrite ?name_is_spec in E.
  - destruct (go2node n "id").
    + destruct (go2node n "controllers") as [l3|].
      * rewrite (first_some_Forall _ controller_keyed) by apply bad_controller_None.
        split; [|naive_solver]. intros H _ _. split; [by eauto|]. by intros ? [= <-].
      * split; [|done]. intros _ _ _. split; [by eauto|done].
    + split; [done|]. intros H. destruct (H eq_refl E) as [[? ?] _]. done.
  - split; [|done]. intros _ _ H. apply name_is_spec in H. congruence.
Qed.

Lemma bad_top_None n : bad_top n = None ↔ top_keyed n.
Proof.
  unfold bad_top, top_keyed. destruct (is_element n); [|naive_solver].
  destruct (name_is n "resources") eqn:E; rewrite ?name_is_spec in E.
  { rewrite (first_some_Forall _ resource_keyed) by apply bad_resource_None.
    rewrite E. naive_solver. }
  assert (name n ≠ Some "resources") by by intros H%name_is_spec; congruence.
  destruct (name_is n "logical-switches") eqn:E2; rewrite ?name_is_spec in E2.
  { rewrite (first_some_Forall _ switch_keyed) by apply bad_switch_None.
    rewrite E2. naive_solver. }
  assert (name n ≠ Some "logical-switches") by by intros H'%name_is_spec; congruence.
  naive_solver.
Qed.

Lemma check_keys_bad doc root :
  root_element doc = Some root →
  check_keys (Some doc) = match first_some bad_top (children root) with
  | None => (EXIT_SUCCESS, None)
  | Some n => (EXIT_FAILURE, Some (set_msg "The list element misses key."
                 (set_badelem (name n) (nc_err_new NC_ERR_BAD_ELEM))))
  end.
Proof. intros H. unfold check_keys. simpl. by rewrite H. Qed.

(** ** Correctness of the hierarchy check *)
Section hierarchy.
Context {LX : LibXml} {LN : LibNetconf}.

(** The operation a node asks for. *)
Definition op_of (n : xmlNode) : NC_EDIT_OP_TYPE :=
  match op_attr n with Some v => parse_op v | None => NC_EDIT_OP_NOTSET end.

Lemma get_operation_spec n defop errp e :
  get_operation n defop errp e =
  match op_attr n with
  | None => Done (defop, e)
  | Some v =>
      match parse_op v with
      | NC_EDIT_OP_ERROR =>
          if errp
          then Done (NC_EDIT_OP_ERROR,
                     Some (set_badattr "operation" (nc_err_new NC_ERR_BAD_ATTR)))
          else Crash NullDeref
      | op => Done (op, e)
      end
  end.
Proof.
  unfold get_operation. rewrite xmlGetNsProp_spec. fold (op_attr n).
  destruct (op_attr n) as [v|]; [|done]. destruct (parse_op v), errp; done.
Qed.

Lemma parse_op_notset v : parse_op v ≠ NC_EDIT_OP_NOTSET.
Proof. unfold parse_op. repeat case_bool_decide; done. Qed.

Lemma get_operation_ok n errp e : op_of n ≠ NC_EDIT_OP_ERROR →
  get_operation n NC_EDIT_OP_NOTSET errp e = Done (op_of n, e).
Proof.
  unfold op_of. rewrite get_operation_spec. destruct (op_attr n) as [v|]; [|done].
  by destruct (parse_op v).
Qed.

Lemma check_parents_spec bad up d e :
  Forall (λ n, ntype n ≠ XML_DOCUMENT_NODE ∧ op_of n ≠ NC_EDIT_OP_ERROR) up →
  ntype d = XML_DOCUMENT_NODE →
  check_parents bad (up ++ [d]) e =
  if existsb (λ n, bad (op_of n)) up
  then Done (EXIT_FAILURE, Some (nc_err_new NC_ERR_OP_FAILED)) else Done (EXIT_SUCCESS, e).
Proof.
  intros Hup Hd. induction Hup as [|n up [Hn Ho] _ IH]; simpl.
  { by rewrite bool_decide_eq_true_2. }
  rewrite bool_decide_eq_false_2 by done. unfold mbind, M_bind.
  rewrite cast_notset, get_operation_ok by done.
  rewrite bool_decide_eq_false_2 by done. destruct (bad (op_of n)); [done|]. apply IH.
Qed.

(** Removal must not happen inside what is being created, nor creation inside
    what is being removed; removal excludes the default operation replace. *)
Definition hierarchy_ok (n : xmlNode) (up : cursor) (defop : NC_EDIT_DEFOP_TYPE) : Prop :=
  (is_removal (op_of n) = true →
     defop ≠ NC_EDIT_DEFOP_REPLACE ∧ Forall (λ m, is_creation (op_of m) = false) up) ∧
  (is_creation (op_of n) = true → Forall (λ m, is_removal (op_of m) = false) up).

Lemma existsb_Forall {A} (f : A → bool) l :
  existsb f l = false ↔ Forall (λ x, f x = false) l.
Proof.
  induction l as [|x l IH]; simpl; [by split|].
  rewrite orb_false_iff, IH, Forall_cons. done.
Qed.

Lemma hierarchy_spec n up d defop e :
  Forall (λ n, ntype n ≠ XML_DOCUMENT_NODE ∧ op_of n ≠ NC_EDIT_OP_ERROR) (n :: up) →
  ntype d = XML_DOCUMENT_NODE →
  (hierarchy_ok n up defop ∧
   check_edit_ops_hierarchy (n :: up ++ [d]) defop e = Done (EXIT_SUCCESS, e)) ∨
  (¬ hierarchy_ok n up defop ∧
   check_edit_ops_hierarchy (n :: up ++ [d]) defop e =
     Done (EXIT_FAILURE, Some (nc_err_new NC_ERR_OP_FAILED))).
Proof.
  intros [[Hn Ho] Hup]%Forall_cons Hd. unfold check_edit_ops_hierarchy, mbind, M_bind, hierarchy_ok.
  rewrite cast_notset, get_operation_ok by done.
  pose proof (λ bad, check_parents_spec bad up d e Hup Hd) as Hp.
  rewrite <-!existsb_Forall.
  destruct (op_of n) eqn:Eo; simpl; try done; try case_bool_decide; simpl;
    rewrite ?Hp; clear Hp Hup; repeat case_match;
    first [left; split; [split; intros ?; try split|]; done
          |right; split; [intros [H1 H2]|done];
           first [destruct (H1 eq_refl)|specialize (H2 eq_refl)]; congruence].
Qed.
End hierarchy.

(** ** Correctness of the create/delete check *)
Section existence.
Context {LX : LibXml} {LN : LibNetconf}.

(** delete needs a counterpart, create must not have one. *)
Definition existence_ok (op : NC_EDIT_OP_TYPE) (equiv : option cursor) : Prop :=
  match op with
  | NC_EDIT_OP_DELETE => equiv ≠ None
  | NC_EDIT_OP_CREATE => equiv = None
  | _ => True
  end.

(** The node a pointer denotes passes the hierarchy and the existence rule. *)
Definition op_node_ok (op : NC_EDIT_OP_TYPE) (defop : NC_EDIT_DEFOP_TYPE)
  (orig : option xmlNode) (edit : xmlNode) (p : ptr) : Prop :=
  ∃ n up, path_to p edit = Some (n :: up ++ [edit]) ∧ hierarchy_ok n up defop ∧
          existence_ok op (find_element_equiv orig (n :: up ++ [edit])).

(** Every operation attribute of the document has a legal value. *)
Definition ops_legal (edit : xmlNode) : Prop :=
  Forall (λ n, op_of n ≠ NC_EDIT_OP_ERROR) (forest (children edit)).

Lemma path_below edit p : wf_doc edit → p ∈ ids edit → p ≠ nid edit →
  ∃ n up, path_to p edit = Some (n :: up ++ [edit]) ∧
    Forall (λ m, m ∈ forest (children edit)) (n :: up).
Proof.
  intros _ Hp Hne. apply path_to_Some in Hp as [cur Hcur].
  destruct (path_to_below _ _ _ Hcur) as (l & -> & Hl & Hnil).
  destruct l as [|n up]; [naive_solver|]. eauto.
Qed.

Lemma op_elements_in op d p : wf_doc d → p ∈ op_elements op d → p ∈ ids d ∧ p ≠ nid d.
Proof.
  intros (Hnd & Hdoc & _) (n & -> & [Hop Hn]%list_elem_of_filter)%list_elem_of_fmap.
  split; [apply list_elem_of_fmap; eauto|].
  intros Heq. unfold ids in Hnd. rewrite subtree_eq in Hn, Hnd.
  apply elem_of_cons in Hn as [->|Hn].
  - unfold op_attr, is_element in Hop. by rewrite Hdoc in Hop.
  - simpl in Hnd. apply NoDup_cons in Hnd as [Hnd _]. apply Hnd.
    rewrite <-Heq. apply list_elem_of_fmap. eauto.
Qed.

Lemma check_edit_op_spec op p cur s :
  ncdflt_get_basic_mode ≠ NCWD_MODE_ALL → ncdflt_get_basic_mode ≠ NCWD_MODE_TRIM →
  (existence_ok op (find_element_equiv (c_orig s) cur) ∧
   check_edit_op op p cur s = Done (true, s)) ∨
  (¬ existence_ok op (find_element_equiv (c_orig s) cur) ∧
   ∃ t, check_edit_op op p cur s = Done (false, set_cerr (Some (nc_err_new t)) s)).
Proof.
  intros Hall Htrim. unfold check_edit_op, gets, mbind, M_bind. cbv zeta.
  rewrite !(bool_decide_eq_false_2 (ncdflt_get_basic_mode = _)) by done.
  destruct (find_element_equiv (c_orig s) cur) as [r|] eqn:E.
  - rewrite andb_false_r. destruct (c_orig s) as [d|] eqn:Ed; [|by destruct cur as [|? [|? ?]]].
    apply find_element_equiv_path in E as (_ & c & o & up & -> & _).
    case_bool_decide as Hop; [right|left].
    + subst op. split; [by intros ?|]. eexists. done.
    + split; [|done]. by destruct op.
  - rewrite (bool_decide_eq_true_2 (None = None)) by done. rewrite andb_true_r.
    case_bool_decide as Hop; [right|left].
    + subst op. split; [by intros []|]. eexists. done.
    + split; [|done]. by destruct op.
Qed.

Lemma loop_step op defop p tab s cur r : 
  path_to p (c_edit s) = Some cur →
  check_edit_ops_hierarchy cur defop (c_err s) = Done r →
  check_edit_ops_loop op defop (p :: tab) s =
  match r.1 with
  | EXIT_FAILURE => Done (EXIT_FAILURE, set_cerr r.2 s)
  | EXIT_SUCCESS =>
      match check_edit_op op p cur (set_cerr r.2 s) with
      | Done (true, s') => check_edit_ops_loop op defop tab s'
      | Done (false, s') => Done (EXIT_FAILURE, s')
      | Crash f => Crash f
      | NoFuel => NoFuel
      end
  end.
Proof.
  intros Hp Hr. cbn [check_edit_ops_loop]. unfold gets, mbind, M_bind, deref, on_err.
  rewrite Hp. cbn [mret M_ret]. unfold mret, M_ret. rewrite Hr.
  destruct r as [[] e]; [|done]. simpl. by destruct (check_edit_op _ _ _ _) as [[[] ?]| |].
Qed.

Lemma check_edit_ops_loop_spec op defop tab : ∀ s,
  ncdflt_get_basic_mode ≠ NCWD_MODE_ALL → ncdflt_get_basic_mode ≠ NCWD_MODE_TRIM →
  wf_doc (c_edit s) → ops_legal (c_edit s) → c_err s = None →
  Forall (λ p, p ∈ ids (c_edit s) ∧ p ≠ nid (c_edit s)) tab →
  (Forall (op_node_ok op defop (c_orig s) (c_edit s)) tab ∧
   check_edit_ops_loop op defop tab s = Done (EXIT_SUCCESS, s)) ∨
  (¬ Forall (op_node_ok op defop (c_orig s) (c_edit s)) tab ∧
   ∃ e, check_edit_ops_loop op defop tab s = Done (EXIT_FAILURE, set_cerr (Some e) s)).
Proof.
  intros s Hall Htrim Hwf Hleg Herr Htab. induction tab as [|p tab IH].
  { left. split; [constructor|]. simpl. unfold gets, mbind, M_bind. by rewrite Herr. }
  apply Forall_cons in Htab as [[Hp Hne] Htab]. specialize (IH Htab).
  destruct (path_below _ _ Hwf Hp Hne) as (n & up & Hcur & Hin).
  destruct (hierarchy_spec n up (c_edit s) defop (c_err s)) as [[Hok Hr]|[Hok Hr]].
  { destruct Hwf as (_ & _ & Hnd). unfold ops_legal in Hleg.
    rewrite Forall_forall in Hnd, Hleg, Hin |- *. auto. }
  { apply Hwf. }
  - rewrite (loop_step op defop p tab s _ _ Hcur Hr). cbn [fst snd].
    replace (set_cerr (c_err s) s) with s by by destruct s.
    destruct (check_edit_op_spec op p (n :: up ++ [c_edit s]) s Hall Htrim)
      as [[Hex ->]|[Hex [t ->]]].
    + destruct IH as [[Hall' IH]|[Hall' IH]]; [left|right]; (split; [|exact IH]).
      * constructor; [|done]. exists n, up. done.
      * contradict Hall'. by apply Forall_cons in Hall' as [_ ?].
    + right. split; [|eauto]. intros [(n' & up' & Hcur' & _ & Hex') _]%Forall_cons.
      rewrite Hcur in Hcur'. by injection Hcur' as <- [<- _]%app_inj_tail.
  - rewrite (loop_step op defop p tab s _ _ Hcur Hr). right. split; [|eauto].
    intros [(n' & up' & Hcur' & Hok' & _) _]%Forall_cons.
    rewrite Hcur in Hcur'. by injection Hcur' as <- [<- _]%app_inj_tail.
Qed.

Lemma check_edit_ops_spec op v defop s :
  op_string op = Some v →
  ncdflt_get_basic_mode ≠ NCWD_MODE_ALL → ncdflt_get_basic_mode ≠ NCWD_MODE_TRIM →
  wf_doc (c_edit s) → ops_legal (c_edit s) → c_err s = None →
  (Forall (op_node_ok op defop (c_orig s) (c_edit s)) (op_elements v (c_edit s)) ∧
   check_edit_ops op defop s = Done (EXIT_SUCCESS, s)) ∨
  (¬ Forall (op_node_ok op defop (c_orig s) (c_edit s)) (op_elements v (c_edit s)) ∧
   ∃ e, check_edit_ops op defop s = Done (EXIT_FAILURE, set_cerr (Some e) s)).
Proof.
  intros Hv Hall Htrim Hwf Hleg He. unfold check_edit_ops. rewrite bind_gets.
  unfold get_operation_elements. rewrite Hv. cbn [mbind option_bind].
  rewrite xmlXPathEvalExpression_spec.
  2:{ destruct op; simplify_eq/=; set_solver. }
  destruct (op_elements v (c_edit s)) as [|p tab] eqn:Ht; [left; split; [constructor|done]|].
  rewrite <-Ht, bind_modify. replace (set_cerr None s) with s by (destruct s; simpl in *; by subst).
  apply check_edit_ops_loop_spec; try done. apply Forall_forall. intros x Hx.
  by apply op_elements_in with v.
Qed.

End existence.
