(* ===== verification/EditCompact.v ===== *)
(** * Compacting operations (edit-config.c)

    [compact_edit_operations] removes operation attributes that repeat the
    operation a node inherits.  The theorems show that every node keeps its
    effective operation, that nothing else changes, and that no redundant
    attribute is left. *)

From S2P Require Import Prelude.
From S2P Require Import Clrwspace.
From S2P Require Import Xml.
From S2P Require Import EditTree.
From S2P Require Import EditChecks.

Section compact.
Context {LX : LibXml} {LN : LibNetconf}.

(** The loop over node->children, with the recursive call as an argument. *)
Definition compact_children (rec : xmlNode → outcome (exit * xmlNode)) :=
  fix go (l : list xmlNode) : outcome (exit * list xmlNode) :=
  match l with
  | [] => Done (EXIT_SUCCESS, [])
  | c :: l' =>
      match rec c with
      | Done (EXIT_SUCCESS, c') =>
          match go l' with
          | Done (e, l'') => Done (e, c' :: l'')
          | Crash f => Crash f
          | NoFuel => NoFuel
          end
      | Done (EXIT_FAILURE, c') => Done (EXIT_FAILURE, c' :: l')
      | Crash f => Crash f
      | NoFuel => NoFuel
      end
  end.

(** get_operation() is called with a NULL error structure. *)
Fixpoint compact_edit_operations_r (supreme_op : NC_EDIT_OP_TYPE) (node : xmlNode)
  : outcome (exit * xmlNode) :=
  match get_operation node (cast_defop NC_EDIT_DEFOP_NOTSET) false None with
  | Done (NC_EDIT_OP_ERROR, _) => Done (EXIT_FAILURE, node)
  | Done (op, _) =>
      let '(op', node') :=
        if bool_decide (op = NC_EDIT_OP_NOTSET) then (supreme_op, node)
        else if bool_decide (op = supreme_op)
        then (op, clrns (xmlRemoveNsProp node "operation" NC_NS_BASE10))
        else (op, node) in
      match node with XmlNode i _ cs =>
        match compact_children (compact_edit_operations_r op') cs with
        | Done (e, cs') => Done (e, XmlNode i (hdr node') cs')
        | Crash f => Crash f
        | NoFuel => NoFuel
        end
      end
  | Crash f => Crash f
  | NoFuel => NoFuel
  end.

(** Only the elements at the top of the document are entered. *)
Definition compact_edit_operations (edit_doc : option xmlNode) (defop : NC_EDIT_DEFOP_TYPE)
  : outcome (exit * option xmlNode) :=
  match edit_doc with
  | None => Done (EXIT_FAILURE, None)
  | Some d =>
      match compact_children
              (λ root, if is_element root
                       then compact_edit_operations_r (cast_defop defop) root
                       else Done (EXIT_SUCCESS, root)) (children d) with
      | Done (e, cs) => Done (e, Some (with_children (λ _, cs) d))
      | Crash f => Crash f
      | NoFuel => NoFuel
      end
  end.

(** ** Effective operations *)

(** The operation that applies to each node: its own, or the inherited one. *)
Definition own_or (sup : NC_EDIT_OP_TYPE) (n : xmlNode) : NC_EDIT_OP_TYPE :=
  if bool_decide (op_of n = NC_EDIT_OP_NOTSET) then sup else op_of n.

Fixpoint effective (sup : NC_EDIT_OP_TYPE) (n : xmlNode) : list (ptr * NC_EDIT_OP_TYPE) :=
  (nid n, own_or sup n) ::
  (fix go l := match l with
   | [] => []
   | c :: l' => effective (own_or sup n) c ++ go l'
   end) (children n).

Lemma effective_eq sup n :
  effective sup n = (nid n, own_or sup n) :: (children n ≫= effective (own_or sup n)).
Proof.
  by destruct n.
Qed.

(** No node repeats the operation it inherits. *)
Fixpoint compacted (sup : NC_EDIT_OP_TYPE) (n : xmlNode) : Prop :=
  (op_of n = NC_EDIT_OP_NOTSET ∨ op_of n ≠ sup) ∧
  (fix go l := match l with
   | [] => True
   | c :: l' => compacted (own_or sup n) c ∧ go l'
   end) (children n).

Lemma compacted_eq sup n :
  compacted sup n ↔ (op_of n = NC_EDIT_OP_NOTSET ∨ op_of n ≠ sup) ∧
                    Forall (compacted (own_or sup n)) (children n).
Proof.
  destruct n as [i h cs]. simpl. f_equiv. generalize (own_or sup (XmlNode i h cs)).
  intros o. induction cs as [|c cs IH]; [by split|]. rewrite Forall_cons, IH. done.
Qed.

(** The namespace declaration at address k is in use in the subtree. *)
Inductive uses (k : ptr) : xmlNode → Prop :=
| uses_self n : ns_id <$> ns n = Some k → uses k n
| uses_attr n a : a ∈ properties n → ns_id <$> at_ns a = Some k → uses k n
| uses_child n c : c ∈ children n → is_element c = true → uses k c → uses k n.

(** The subtree but for operation attributes, some of which are gone, and
    namespace declarations: those that are gone have no use in what is left. *)
Definition op_attribute (a : xmlAttr) : bool := attr_is "operation" NC_NS_BASE10 a.
Inductive trimmed : xmlNode → xmlNode → Prop :=
| trimmed_node i h cs ps ds cs' :
    ps `sublist_of` h_properties h → ds `sublist_of` h_nsDef h →
    filter (λ a, op_attribute a = false) ps = filter (λ a, op_attribute a = false) (h_properties h) →
    Forall2 trimmed cs cs' →
    (∀ d, d ∈ h_nsDef h →
       uses (ns_id d) (XmlNode i (hdr_set_nsDef ds (hdr_set_properties ps h)) cs') → d ∈ ds) →
    trimmed (XmlNode i h cs) (XmlNode i (hdr_set_nsDef ds (hdr_set_properties ps h)) cs').

Lemma trimmed_element n n' : trimmed n n' → is_element n' = is_element n.
Proof. by destruct 1. Qed.

Lemma uses_usage node d : uses (ns_id d) node → find_namespace_usage node d = true.
Proof.
  induction 1 as [n H|n a Ha H|n c Hc He _ IH]; destruct n as [i h cs];
    cbn [find_namespace_usage]; case_bool_decide; try done.
  all: destruct (existsb _ _) eqn:Hx; [done|].
  - rewrite existsb_Forall, Forall_forall in Hx. apply Hx in Ha.
    by apply bool_decide_eq_false in Ha.
  - clear Hx. change (children (XmlNode i h cs)) with cs in Hc.
    induction cs as [|x cs IHcs]; [by apply not_elem_of_nil in Hc|].
    cbn -[find_namespace_usage is_element].
    apply elem_of_cons in Hc as [Heq|Hc]; [subst x; by rewrite He, IH|].
    destruct (_ && _); [done|by apply IHcs].
Qed.

(** What is used after the trimming was used before. *)
Lemma trimmed_uses k n n' : trimmed n n' → uses k n' → uses k n.
Proof.
  intros Ht Hu. revert n Ht. induction Hu as [n' H|n' a Ha H|n' c Hc He _ IH];
    intros n Ht; inversion Ht as [i h cs ps ds cs' Hps Hds Hf Hcs Hk]; subst.
  - by apply uses_self.
  - eapply uses_attr; [|done]. simpl in *. by eapply elem_of_sublist.
  - simpl in Hc. apply list_elem_of_lookup in Hc as [j Hj].
    destruct (Forall2_lookup_r _ _ _ _ _ Hcs Hj) as (x & Hx & Htx).
    eapply (uses_child _ _ x); [by eapply list_elem_of_lookup_2| |by apply IH].
    by rewrite <-(trimmed_element _ _ Htx).
Qed.

(** Attributes are unique: an element has at most one operation attribute. *)
Definition one_op (n : xmlNode) : Prop :=
  length (filter (λ a, op_attribute a = true) (properties n)) ≤ 1.

Lemma remove_first_other P l :
  filter (λ a, P a = false) (remove_first P l) = filter (λ a, P a = false) l.
Proof.
  induction l as [|a l IH]; [done|]. simpl. destruct (P a) eqn:E.
  - by rewrite filter_cons_False by congruence.
  - rewrite !filter_cons_True by done. by rewrite IH.
Qed.

Lemma remove_first_one P l :
  length (filter (λ a, P a = true) l) ≤ 1 → find_first P (remove_first P l) = None.
Proof.
  induction l as [|a l IH]; [done|]. simpl. destruct (P a) eqn:E.
  - rewrite filter_cons_True by done. simpl. intros H. apply find_first_None.
    intros x Hx. destruct (P x) eqn:Ex; [|done]. exfalso.
    assert (x ∈ filter (λ a, P a = true) l) as Hin by by apply list_elem_of_filter.
    destruct (filter _ l); [set_solver|simpl in H; lia].
  - rewrite filter_cons_False by congruence. simpl. rewrite E. done.
Qed.

(** What removing the attribute and the unused namespaces does to the header. *)
Lemma stripped_hdr n : is_element n = true →
  hdr (clrns (xmlRemoveNsProp n "operation" NC_NS_BASE10)) =
  hdr_set_nsDef (nsDef (clrns (xmlRemoveNsProp n "operation" NC_NS_BASE10)))
    (hdr_set_properties (remove_first op_attribute (properties n)) (hdr n)).
Proof.
  intros He. rewrite xmlRemoveNsProp_spec, He. destruct n as [i h cs]. simpl.
  unfold clrns, is_element in *. unfold ntype in *. simpl in *. rewrite He. done.
Qed.

Lemma remove_first_sublist P (l : list xmlAttr) : remove_first P l `sublist_of` l.
Proof.
  induction l as [|a l IH]; simpl; [done|]. destruct (P a); [by constructor|by constructor].
Qed.

Lemma op_attr_some_element n v : op_attr n = Some v → is_element n = true.
Proof. unfold op_attr. by destruct (is_element n). Qed.

Lemma compact_children_spec (R : xmlNode → xmlNode → Prop) rec l :
  Forall (λ c, ∃ c', rec c = Done (EXIT_SUCCESS, c') ∧ R c c') l →
  ∃ l', compact_children rec l = Done (EXIT_SUCCESS, l') ∧ Forall2 R l l'.
Proof.
  induction 1 as [|c l (c' & Hc & HR) _ (l' & Hl & HF)]; simpl.
  - eexists. split; [done|constructor].
  - rewrite Hc, Hl. eexists. split; [done|by constructor].
Qed.

(** What compaction does to a subtree that inherits the operation [sup]. *)
Definition compacts (sup : NC_EDIT_OP_TYPE) (n n' : xmlNode) : Prop :=
  nid n' = nid n ∧ effective sup n' = effective sup n ∧ compacted sup n' ∧
  trimmed n n'.

Lemma compacts_children sup l l' : Forall2 (compacts sup) l l' →
  l' ≫= effective sup = l ≫= effective sup ∧ Forall (compacted sup) l' ∧
  Forall2 trimmed l l'.
Proof.
  induction 1 as [|c c' l l' (_ & He & Hc & Hw) _ (IH1 & IH2 & IH3)]; [done|].
  split_and!; [by rewrite !bind_cons, He, IH1|by constructor|by constructor].
Qed.

Lemma uses_step k i h h' cs cs' : h_ns h' = h_ns h →
  (∀ a, a ∈ h_properties h' → a ∈ h_properties h) → Forall2 trimmed cs cs' →
  uses k (XmlNode i h' cs') → uses k (XmlNode i h cs).
Proof.
  intros Hns Hps Hcs Hu. inversion Hu as [n H|n a Ha H|n c Hc He H]; subst; simpl in *.
  - apply uses_self. simpl. unfold ns in *. simpl in *. congruence.
  - eapply uses_attr; [|done]. by apply Hps.
  - apply list_elem_of_lookup in Hc as [j Hj].
    destruct (Forall2_lookup_r _ _ _ _ _ Hcs Hj) as (x & Hx & Htx).
    eapply (uses_child _ _ x); [by eapply list_elem_of_lookup_2| |by eapply trimmed_uses].
    by rewrite <-(trimmed_element _ _ Htx).
Qed.

(** The step of one node trims it, whatever is trimmed below. *)
Lemma trimmed_self i h cs cs' : Forall2 trimmed cs cs' → trimmed (XmlNode i h cs) (XmlNode i h cs').
Proof.
  intros H. destruct h as [ty nm n ds ps ct].
  by apply (trimmed_node i (XmlHdr ty nm n ds ps ct) cs ps ds cs').
Qed.

Lemma trimmed_step n cs' : is_element n = true → Forall2 trimmed (children n) cs' →
  trimmed n (XmlNode (nid n) (hdr (clrns (xmlRemoveNsProp n "operation" NC_NS_BASE10))) cs').
Proof.
  intros He Hcs. rewrite stripped_hdr by done. destruct n as [i h cs].
  set (n1 := XmlNode i (hdr_set_properties (remove_first op_attribute (h_properties h)) h) cs).
  assert (nsDef (clrns (xmlRemoveNsProp (XmlNode i h cs) "operation" NC_NS_BASE10)) =
          filter (λ d, find_namespace_usage n1 d = true) (h_nsDef h)) as ->.
  { rewrite xmlRemoveNsProp_spec, He. unfold clrns.
    change (is_element (with_hdr _ _)) with (is_element (XmlNode i h cs)). by rewrite He. }
  constructor; [apply remove_first_sublist|apply sublist_filter|apply remove_first_other|done|].
  intros d Hd Hu. apply list_elem_of_filter. split; [|done]. apply uses_usage.
  by eapply uses_step; [| |exact Hcs|exact Hu].
Qed.

Lemma op_of_hdr i j h cs ds : op_of (XmlNode i h cs) = op_of (XmlNode j h ds).
Proof. done. Qed.

Lemma op_of_stripped n cs : is_element n = true → one_op n →
  op_of (XmlNode (nid n) (hdr (clrns (xmlRemoveNsProp n "operation" NC_NS_BASE10))) cs)
  = NC_EDIT_OP_NOTSET.
Proof.
  intros He H1. unfold op_of, op_attr. rewrite stripped_hdr by done.
  unfold properties. simpl. rewrite remove_first_one by done.
  by destruct (is_element _).
Qed.

(** The node after its own step: a repeated operation is dropped. *)
Definition compact_node (sup : NC_EDIT_OP_TYPE) (n : xmlNode) : xmlNode :=
  if bool_decide (op_of n ≠ NC_EDIT_OP_NOTSET ∧ op_of n = sup)
  then clrns (xmlRemoveNsProp n "operation" NC_NS_BASE10) else n.

Lemma compact_r_legal sup n : op_of n ≠ NC_EDIT_OP_ERROR →
  compact_edit_operations_r sup n =
  match compact_children (compact_edit_operations_r (own_or sup n)) (children n) with
  | Done (e, cs') => Done (e, XmlNode (nid n) (hdr (compact_node sup n)) cs')
  | Crash f => Crash f
  | NoFuel => NoFuel
  end.
Proof.
  intros Hop. destruct n as [i h cs]. cbn [compact_edit_operations_r].
  rewrite cast_notset, get_operation_ok by done. unfold own_or, compact_node.
  destruct (op_of (XmlNode i h cs)) eqn:Eo; [done| |..];
    destruct sup; by rewrite ?bool_decide_eq_true_2, ?bool_decide_eq_false_2 by naive_solver.
Qed.

Lemma compact_r_spec n : ∀ sup,
  Forall (λ m, op_of m ≠ NC_EDIT_OP_ERROR) (subtree n) → Forall one_op (subtree n) →
  ∃ n', compact_edit_operations_r sup n = Done (EXIT_SUCCESS, n') ∧ compacts sup n n'.
Proof.
  induction n as [i h cs IH] using xmlNode_ind'. intros sup Hleg Hone.
  rewrite subtree_eq in Hleg, Hone. apply Forall_cons in Hleg as [Hop Hleg].
  apply Forall_cons in Hone as [H1 Hone]. set (n := XmlNode i h cs) in *.
  assert (∀ o, Forall (λ c, ∃ c', compact_edit_operations_r o c = Done (EXIT_SUCCESS, c') ∧
             compacts o c c') cs) as Hcs.
  { intros o. rewrite Forall_forall in IH, Hleg, Hone |- *. intros c Hc.
    assert (∀ m, m ∈ subtree c → m ∈ forest (children n)) as Hsub
      by (intros m Hm; apply list_elem_of_bind; eauto).
    apply IH; [done| |]; apply Forall_forall; auto. }
  pose proof (λ o, compact_children_spec (compacts o) _ _ (Hcs o)) as Hch. clear Hcs IH.
  rewrite compact_r_legal by done.
  destruct (Hch (own_or sup n)) as (cs' & Hc & HF). clear Hch.
  destruct (compacts_children _ _ _ HF) as (E1 & E2 & E3). clear HF.
  change (children n) with cs. rewrite Hc. eexists. split; [reflexivity|].
  assert (∀ h', own_or sup (XmlNode i h' cs') = own_or sup n →
    (op_of (XmlNode i h' cs') = NC_EDIT_OP_NOTSET ∨ op_of (XmlNode i h' cs') ≠ sup) →
    trimmed n (XmlNode i h' cs') → compacts sup n (XmlNode i h' cs')) as Hfin.
  { intros h' Ho Hr Hw. split_and!; [done| | |].
    - rewrite !effective_eq, Ho. change (children (XmlNode i h' cs')) with cs'. by rewrite E1.
    - rewrite compacted_eq, Ho. done.
    - done. }
  unfold compact_node. case_bool_decide as Hd.
  - destruct Hd as [Eo Es]. assert (is_element n = true) as He.
    { unfold op_of in Eo. destruct (op_attr n) eqn:Ea; [|done].
      by eapply op_attr_some_element. }
    pose proof (op_of_stripped n cs' He H1) as Hs. change (nid n) with i in Hs.
    change (nid n) with i. apply Hfin.
    + unfold own_or. rewrite Hs. simpl. by rewrite bool_decide_eq_false_2.
    + by left.
    + by apply trimmed_step.
  - apply Hfin; [done| |by apply trimmed_self]. change (op_of (XmlNode i (hdr n) cs')) with (op_of n).
    destruct (decide (op_of n = NC_EDIT_OP_NOTSET)); [by left|right; naive_solver].
Qed.

(** The whole document: its top-level elements inherit the default operation. *)
Definition doc_effective (sup : NC_EDIT_OP_TYPE) (d : xmlNode) : list (ptr * NC_EDIT_OP_TYPE) :=
  filter (λ c, is_element c = true) (children d) ≫= effective sup.
Definition doc_compacted (sup : NC_EDIT_OP_TYPE) (d : xmlNode) : Prop :=
  Forall (compacted sup) (filter (λ c, is_element c = true) (children d)).

(** The document with its elements trimmed; nothing else at its top changes. *)
Definition doc_trimmed (d d' : xmlNode) : Prop :=
  nid d' = nid d ∧ hdr d' = hdr d ∧
  Forall2 (λ c c', if is_element c then trimmed c c' else c' = c) (children d) (children d').

Lemma compact_top_spec sup l :
  Forall (λ m, op_of m ≠ NC_EDIT_OP_ERROR) (forest l) → Forall one_op (forest l) →
  ∃ l', compact_children (λ root, if is_element root
          then compact_edit_operations_r sup root else Done (EXIT_SUCCESS, root)) l
        = Done (EXIT_SUCCESS, l') ∧
  let els := filter (λ c, is_element c = true) in
  els l' ≫= effective sup = els l ≫= effective sup ∧
  Forall (compacted sup) (els l') ∧
    Forall2 (λ c c', if is_element c then trimmed c c' else c' = c) l l'.
Proof.
  induction l as [|c l IH]; intros Hleg Hone.
  { exists []. split_and!; done. }
  rewrite forest_cons, Forall_app in Hleg, Hone. destruct Hleg as [Hl1 Hl2], Hone as [Ho1 Ho2].
  destruct (IH Hl2 Ho2) as (l' & E & E1 & E2 & E3). cbn [compact_children].
  destruct (is_element c) eqn:Ec.
  - destruct (compact_r_spec c sup Hl1 Ho1) as (c' & -> & (_ & F1 & F2 & F3)).
    assert (is_element c' = true) as Ec' by by rewrite (trimmed_element c c').
    rewrite E. exists (c' :: l'). split; [done|]. cbv zeta.
    rewrite !filter_cons_True by done. rewrite !bind_cons, F1, E1.
    split_and!; [done|by constructor|constructor; [by rewrite Ec|done]].
  - rewrite E. exists (c :: l'). split; [done|]. cbv zeta.
    rewrite !filter_cons_False by congruence.
    split_and!; [done|done|constructor; [by rewrite Ec|done]].
Qed.

Lemma compact_doc_spec d defop :
  ops_legal d → Forall one_op (forest (children d)) →
  ∃ d', compact_edit_operations (Some d) defop = Done (EXIT_SUCCESS, Some d') ∧
    doc_effective (cast_defop defop) d' = doc_effective (cast_defop defop) d ∧
    doc_compacted (cast_defop defop) d' ∧ doc_trimmed d d'.
Proof.
  intros Hleg Hone. destruct (compact_top_spec (cast_defop defop) _ Hleg Hone)
    as (l' & E & E1 & E2 & E3).
  unfold compact_edit_operations. rewrite E. eexists. split; [reflexivity|].
  destruct d as [i h cs]. unfold doc_effective, doc_compacted. simpl in *.
  split_and!; [done|done|]. by split_and!.
Qed.

(** A compacted subtree is left as it is. *)
Lemma compact_r_id n : ∀ sup,
  Forall (λ m, op_of m ≠ NC_EDIT_OP_ERROR) (subtree n) → compacted sup n →
  compact_edit_operations_r sup n = Done (EXIT_SUCCESS, n).
Proof.
  induction n as [i h cs IH] using xmlNode_ind'. intros sup Hleg [Ho Hc]%compacted_eq.
  rewrite subtree_eq in Hleg. apply Forall_cons in Hleg as [Hop Hleg].
  rewrite compact_r_legal by done. unfold compact_node.
  rewrite bool_decide_eq_false_2 by naive_solver. simpl in *.
  assert (compact_children (compact_edit_operations_r (own_or sup (XmlNode i h cs))) cs
          = Done (EXIT_SUCCESS, cs)) as ->; [|done].
  generalize dependent (own_or sup (XmlNode i h cs)). clear Ho Hop. intros o Hc.
  induction IH as [|c cs Hrec _ IHl]; [done|]. apply Forall_cons in Hc as [Hc1 Hc2].
  change (forest (c :: cs)) with (subtree c ++ forest cs) in Hleg.
  apply Forall_app in Hleg as [Hl1 Hl2]. cbn [compact_children].
  rewrite Hrec by done. by rewrite IHl.
Qed.

Lemma compact_r_total n : ∀ sup,
  Forall (λ m, op_of m ≠ NC_EDIT_OP_ERROR) (subtree n) →
  ∃ n', compact_edit_operations_r sup n = Done (EXIT_SUCCESS, n').
Proof.
  induction n as [i h cs IH] using xmlNode_ind'. intros sup Hleg.
  rewrite subtree_eq in Hleg. apply Forall_cons in Hleg as [Hop Hleg].
  rewrite compact_r_legal by done.
  destruct (compact_children_spec (λ _ _, True)
    (compact_edit_operations_r (own_or sup (XmlNode i h cs))) cs) as (cs' & E & _).
  - rewrite Forall_forall in IH |- *. intros c Hc.
    destruct (IH c Hc (own_or sup (XmlNode i h cs))) as [c' Hc']; [|by eauto].
    rewrite Forall_forall in Hleg |- *. intros m Hm. apply Hleg, list_elem_of_bind. eauto.
  - change (children (XmlNode i h cs)) with cs. rewrite E. eauto.
Qed.

(** An illegal operation value is reported through a NULL pointer. *)
Lemma compact_r_illegal n : ∀ sup,
  Exists (λ m, op_of m = NC_EDIT_OP_ERROR) (subtree n) →
  compact_edit_operations_r sup n = Crash NullDeref.
Proof.
  induction n as [i h cs IH] using xmlNode_ind'. intros sup Hex.
  destruct (decide (op_of (XmlNode i h cs) = NC_EDIT_OP_ERROR)) as [E|E].
  { cbn [compact_edit_operations_r]. rewrite get_operation_spec. unfold op_of in E.
    destruct (op_attr (XmlNode i h cs)) as [v|]; [|done]. by rewrite E. }
  rewrite compact_r_legal by done. rewrite subtree_eq, Exists_cons in Hex.
  destruct Hex as [?|Hex]; [done|]. simpl in *. generalize (own_or sup (XmlNode i h cs)).
  intros o. clear E.
  assert (compact_children (compact_edit_operations_r o) cs = Crash NullDeref) as ->; [|done].
  induction IH as [|c cs Hrec _ IHl]; [by inversion Hex|].
  change (forest (c :: cs)) with (subtree c ++ forest cs) in Hex. cbn [compact_children].
  destruct (Exists_dec (λ m, op_of m = NC_EDIT_OP_ERROR) (subtree c)) as [Hc|Hc].
  { by rewrite Hrec. }
  apply Exists_app in Hex as [?|Hex]; [done|].
  destruct (compact_r_total c o) as [c' ->]; [|by rewrite (IHl Hex)].
  by apply Forall_Exists_neg.
Qed.

Lemma compact_doc_illegal d defop :
  (∀ n, n ∈ children d → is_element n = false → children n = []) →
  ¬ ops_legal d → compact_edit_operations (Some d) defop = Crash NullDeref.
Proof.
  intros Hleaf Hill. unfold compact_edit_operations, ops_legal in *.
  assert (Exists (λ m, op_of m = NC_EDIT_OP_ERROR) (forest (children d))) as Hex.
  { destruct (Exists_dec (λ m, op_of m = NC_EDIT_OP_ERROR) (forest (children d))); [done|].
    contradict Hill. by apply Forall_Exists_neg. }
  clear Hill.
  assert (compact_children (λ root, if is_element root
            then compact_edit_operations_r (cast_defop defop) root
            else Done (EXIT_SUCCESS, root)) (children d) = Crash NullDeref) as ->; [|done].
  induction (children d) as [|c l IH]; [by inversion Hex|].
  rewrite forest_cons in Hex. cbn [compact_children].
  destruct (Exists_dec (λ m, op_of m = NC_EDIT_OP_ERROR) (subtree c)) as [Hc|Hc].
  - destruct (is_element c) eqn:Ec; [by rewrite compact_r_illegal|].
    exfalso. rewrite subtree_eq, Hleaf in Hc by set_solver.
    apply Exists_cons in Hc as [Hc|Hc]; [|by inversion Hc].
    unfold op_of, op_attr in Hc. by rewrite Ec in Hc.
  - apply Exists_app in Hex as [?|Hex]; [done|]. rewrite IH by set_solver.
    destruct (is_element c); [|done].
    destruct (compact_r_total c (cast_defop defop)) as [c' ->]; [|done].
    by apply Forall_Exists_neg.
Qed.
End compact.
