(* ===== verification/EditOps.v ===== *)
(** * Applying edit-config operations (edit-config.c)

    [edit_delete], [edit_remove], [edit_replace], [edit_create], [edit_merge]
    and [edit_operations].  With running = 0 they change the XML of the startup
    or candidate datastore; with running = 1 they walk the same documents and
    call the OVSDB layer (ovs-data.c), which is the class [OvsBackend] here.
    Recursions and while loops take fuel; EditXml.v and EditRunning.v bound what they need. *)

From S2P Require Import Prelude.
From S2P Require Import Clrwspace.
From S2P Require Import Xml.
From S2P Require Import EditTree.
From S2P Require Import EditChecks.
From S2P Require Import EditCompact.

(** ** Calls into ovs-data.c *)

(** The functions of data.h that edit-config.c calls, with their arguments
    (a NULL string or node is None). *)
Inductive txn_op :=
| TxnDelAll
| OfcSetSwitchid (node : option xmlNode)
| OfcCheckBridgeQueue (br rid : option string)
| OfModPortCfg (port nm value : option string)
| TxnAddPort (node : xmlNode)
| TxnDelPort (port : option string)
| TxnModPortReqnumber (port value : option string)
| TxnAddPortAdvert (port : option string) (node : xmlNode)
| TxnDelPortAdvert (port : option string) (node : xmlNode)
| TxnAddPortTunnel (port : option string) (node : xmlNode)
| TxnDelPortTunnel (port : option string) (node : xmlNode)
| TxnModPortTunnelOpt (port nm value : option string)
| TxnAddQueue (node : xmlNode)
| TxnDelQueue (rid : option string)
| TxnAddQueuePort (rid port : option string)
| TxnDelQueuePort (rid : option string)
| TxnModQueueId (rid qid : option string)
| TxnModQueueOptions (rid opt : option string) (node : option xmlNode)
| TxnAddOwnedCertificate (node : xmlNode)
| TxnDelOwnedCertificate (node : xmlNode)
| TxnAddExternalCertificate (node : xmlNode)
| TxnDelExternalCertificate (node : xmlNode)
| TxnModOwnCertCertificate (rid : option string) (node : option xmlNode)
| TxnModOwnCertKeyType (rid : option string) (node : option xmlNode)
| TxnModOwnCertKeyData (rid : option string) (node : option xmlNode)
| TxnModExtCertCertificate (rid : option string) (node : option xmlNode)
| TxnAddFlowTable (node : xmlNode)
| TxnDelFlowTable (tid : option string)
| TxnModFlowtableName (tid : option string) (node : option xmlNode)
| TxnModFlowtableResid (tid : option string) (node : option xmlNode)
| TxnAddBridge (node : xmlNode)
| TxnDelBridge (br : option string)
| TxnAddBridgePort (br port : option string)
| TxnDelBridgePort (br port : option string)
| TxnAddBridgeFlowtable (br tid : option string)
| TxnDelBridgeFlowtable (br tid : option string)
| TxnModBridgeDatapath (br value : option string)
| TxnModBridgeFailmode (br value : option string)
| TxnAddContr (node : xmlNode) (br : option string)
| TxnDelContr (id br : option string)
| TxnModContrLip (id value : option string)
| TxnModContrTarget (id nm value : option string).

(** The calls that have no parameter e. *)
Definition reports_error (op : txn_op) : bool :=
  match op with OfcCheckBridgeQueue _ _ | OfcSetSwitchid _ => false | _ => true end.

(** The OVSDB layer as edit-config.c sees it: a state and one step per call,
    which returns an int and may set *e.  It promises to leave the result of a
    failing call in *e. *)
Class OvsBackend := {
  be : Type;
  be_exec : txn_op → M (be * option nc_err) Z;
  be_fail_err op b e r b' e' :
    be_exec op (b, e) = Done (r, (b', e')) → r ≠ 0%Z →
    reports_error op = true → is_Some e'
}.

(** ** State *)
Inductive side := Orig | Edit.

Section ops.
Context {LX : LibXml} {LN : LibNetconf} {OB : OvsBackend}.

(** Both documents, the next free address, the OVSDB layer and *error. *)
Record estate := EState {
  e_orig : xmlNode; e_edit : xmlNode; e_next : ptr; e_be : be; e_err : option nc_err }.

Definition doc_of (sd : side) (s : estate) : xmlNode :=
  match sd with Orig => e_orig s | Edit => e_edit s end.
Definition upd_doc (sd : side) (f : xmlNode → xmlNode) (s : estate) : estate :=
  match sd with
  | Orig => EState (f (e_orig s)) (e_edit s) (e_next s) (e_be s) (e_err s)
  | Edit => EState (e_orig s) (f (e_edit s)) (e_next s) (e_be s) (e_err s)
  end.
Definition set_err (e : option nc_err) (s : estate) : estate :=
  EState (e_orig s) (e_edit s) (e_next s) (e_be s) e.
Definition set_next (k : ptr) (s : estate) : estate :=
  EState (e_orig s) (e_edit s) k (e_be s) (e_err s).

Definition exit_of (r : Z) : exit := if bool_decide (r = 0%Z) then EXIT_SUCCESS else EXIT_FAILURE.

Definition call_int (op : txn_op) : M estate Z := λ s,
  match be_exec op (e_be s, e_err s) with
  | Done (r, (b, e)) => Done (r, EState (e_orig s) (e_edit s) (e_next s) b e)
  | Crash f => Crash f
  | NoFuel => NoFuel
  end.
Definition call (op : txn_op) : M estate exit := r ← call_int op; mret (exit_of r).
(** A call whose result is not looked at. *)
Definition call_ (op : txn_op) : M estate exit := _ ← call_int op; mret EXIT_SUCCESS.

Definition fail (e : nc_err) : M estate exit :=
  _ ← modify (set_err (Some e)); mret EXIT_FAILURE.

(** Dereference a node pointer together with its parent links. *)
Definition at_ptr (sd : side) (p : ptr) : M estate cursor :=
  d ← gets (doc_of sd); deref UseAfterFree (path_to p d).

(** get_key() of the k-th ancestor. *)
Definition key_up (cur : cursor) (k : nat) (nm : string) : M estate (option string) :=
  n ← deref NullDeref (cur !! k); mret (get_key n nm).

(** while (node->children) { ret = rec(node->children); if (ret) break; } *)
Fixpoint while_children (fuel : nat) (rec : ptr → M estate exit) (sd : side) (p : ptr)
  : M estate exit :=
  match fuel with
  | 0 => nofuel
  | S f =>
      cur ← at_ptr sd p;
      match head cur ≫= first_child with
      | None => mret EXIT_SUCCESS
      | Some c =>
          ret ← rec (nid c);
          match ret with
          | EXIT_SUCCESS => while_children f rec sd p
          | EXIT_FAILURE => mret EXIT_FAILURE
          end
      end
  end.

(** for (child = node->children; child; child = child->next)
      if ((ret = f(child))) break; *)
Fixpoint for_children (f : xmlNode → M estate exit) (l : list xmlNode) : M estate exit :=
  match l with
  | [] => mret EXIT_SUCCESS
  | c :: l' =>
      ret ← f c;
      match ret with
      | EXIT_SUCCESS => for_children f l'
      | EXIT_FAILURE => mret EXIT_FAILURE
      end
  end.

Definition unlink (sd : side) (p : ptr) : M estate unit :=
  modify (upd_doc sd (xmlUnlinkFreeNode p)).

Definition bad_leafref (node : xmlNode) : nc_err :=
  set_badelem (name node) (set_msg "invalid resources leafref" (nc_err_new NC_ERR_BAD_ELEM)).

(** ** edit_delete *)

(** Children of a resources element: those of capable-switch are the resources
    themselves, those of a switch are references. *)
Definition delete_resource (node : xmlNode) (cur : cursor) : M estate exit :=
  if xmlStrEqual (up_name cur 2) (Some "capable-switch") then
    if name_is node "port" then call (TxnDelPort (get_key node "name"))
    else if name_is node "queue" then call (TxnDelQueue (get_key node "resource-id"))
    else if name_is node "owned-certificate" then call (TxnDelOwnedCertificate node)
    else if name_is node "external-certificate" then call (TxnDelExternalCertificate node)
    else if name_is node "flow-table" then call (TxnDelFlowTable (get_key node "table-id"))
    else mret EXIT_SUCCESS
  else
    key ← key_up cur 2 "id";
    match child_content node with
    | None => fail (bad_leafref node)
    | Some aux =>
        if name_is node "port" then call (TxnDelBridgePort key (Some aux))
        else if name_is node "flow-table" then call (TxnDelBridgeFlowtable key (Some aux))
        else mret EXIT_SUCCESS
    end.

Definition is_tunnel (s : option string) : bool :=
  xmlStrEqual s (Some "ipgre-tunnel") || xmlStrEqual s (Some "vxlan-tunnel")
  || xmlStrEqual s (Some "tunnel").

(** Children of a port. *)
Definition delete_in_port (loop : ptr → M estate exit) (rec : ptr → M estate exit)
  (p : ptr) (node : xmlNode) (cur : cursor) : M estate exit :=
  if name_is node "requested-number" then
    key ← key_up cur 1 "name"; call (TxnModPortReqnumber key None)
  else if is_tunnel (name node) then
    key ← key_up cur 1 "name"; call (TxnDelPortTunnel key node)
  else if name_is node "features" then
    match go2node node "advertised" with
    | Some child => rec (nid child)
    | None => mret EXIT_SUCCESS
    end
  else loop p.

(** From the branch of a queue's children to the end of the chain. *)
Definition delete_rest (loop : ptr → M estate exit) (p : ptr) (node : xmlNode) (cur : cursor)
  : M estate exit :=
  let parent := up_name cur 1 in
  if xmlStrEqual parent (Some "queue") then
    if name_is node "port" then key ← key_up cur 1 "resource-id"; call (TxnDelQueuePort key)
    else if name_is node "properties" then loop p
    else mret EXIT_SUCCESS
  else if xmlStrEqual parent (Some "properties") then
    key ← key_up cur 2 "resource-id"; call (TxnModQueueOptions key (name node) None)
  else if xmlStrEqual parent (Some "owned-certificate") then
    key ← key_up cur 1 "resource-id"; call (TxnModOwnCertCertificate key None)
  else if name_is node "private-key" then loop p
  else if xmlStrEqual parent (Some "private-key") then
    key ← key_up cur 2 "resource-id";
    if name_is node "key-type" then call (TxnModOwnCertKeyType key None)
    else if name_is node "key-data" then call (TxnModOwnCertKeyData key None)
    else mret EXIT_SUCCESS
  else if xmlStrEqual parent (Some "external-certificate") then
    key ← key_up cur 1 "resource-id"; call (TxnModExtCertCertificate key None)
  else if xmlStrEqual parent (Some "flow-table") then
    key ← key_up cur 1 "table-id";
    if name_is node "name" then call (TxnModFlowtableName key None)
    else if name_is node "resource-id" then call (TxnModFlowtableResid key None)
    else mret EXIT_SUCCESS
  else if name_is node "switch" then call (TxnDelBridge (get_key node "id"))
  else if xmlStrEqual parent (Some "switch") then
    key ← key_up cur 1 "id";
    if name_is node "datapath-id" then call (TxnModBridgeDatapath key None)
    else if name_is node "controllers" || name_is node "resources" then loop p
    else if name_is node "lost-connection-behavior" then call (TxnModBridgeFailmode key None)
    else mret EXIT_SUCCESS
  else if name_is node "controller" then
    aux ← key_up cur 2 "id"; call (TxnDelContr (get_key node "id") aux)
  else if xmlStrEqual parent (Some "controller") then
    key ← key_up cur 1 "id";
    if name_is node "local-ip-address" then call (TxnModContrLip key None)
    else if name_is node "ip-address" || name_is node "port" || name_is node "protocol" then
      call (TxnModContrTarget key (name node) None)
    else mret EXIT_SUCCESS
  else mret EXIT_SUCCESS.

(** The chain over node->parent->name and node->name of edit_delete(). *)
Definition delete_running (loop rec : ptr → M estate exit) (p : ptr) (node : xmlNode)
  (cur : cursor) : M estate exit :=
  let parent := up_name cur 1 in
  if xmlStrEqual parent (Some "capable-switch") then
    if name_is node "id" then call_ (OfcSetSwitchid None) else loop p
  else if xmlStrEqual parent (Some "resources") then delete_resource node cur
  else if xmlStrEqual parent (Some "port") then delete_in_port loop rec p node cur
  else if xmlStrEqual parent (Some "configuration") then
    key ← key_up cur 2 "name"; call (OfModPortCfg key (name node) None)
  else if name_is node "advertised" then
    key ← key_up cur 2 "name";
    for_children (λ child, call (TxnDelPortAdvert key child)) (children node)
  else if xmlStrEqual parent (Some "advertised") then
    key ← key_up cur 3 "name"; call (TxnDelPortAdvert key node)
  else if is_tunnel parent then
    key ← key_up cur 2 "name"; call (TxnModPortTunnelOpt key (name node) None)
  else delete_rest loop p node cur.

Fixpoint edit_delete (fuel : nat) (sd : side) (p : ptr) (running : bool) : M estate exit :=
  match fuel with
  | 0 => nofuel
  | S f =>
      cur ← at_ptr sd p;
      match cur with
      | [] => crash NullDeref
      | node :: up =>
          if running && is_element node
             && bool_decide (ntype <$> head up = Some XML_DOCUMENT_NODE) then
            (* removing root *)
            call TxnDelAll
          else
            ret ← (if running && is_element node then
                     let rec q := edit_delete f sd q running in
                     delete_running (while_children f rec sd) rec p node cur
                   else mret EXIT_SUCCESS);
            match ret with
            | EXIT_SUCCESS => _ ← unlink sd p; mret EXIT_SUCCESS
            | EXIT_FAILURE => mret EXIT_FAILURE
            end
      end
  end.

(** while ((old = find_element_equiv(orig_doc, edit_node)) != NULL)
      if (edit_delete(old, ...)) return EXIT_FAILURE; *)
Fixpoint delete_equivs (n fuel : nat) (p : ptr) (running : bool) : M estate exit :=
  match n with
  | 0 => nofuel
  | S n' =>
      edit ← at_ptr Edit p;
      d ← gets e_orig;
      match find_element_equiv (Some d) edit ≫= head with
      | None => mret EXIT_SUCCESS
      | Some old =>
          ret ← edit_delete fuel Orig (nid old) running;
          match ret with
          | EXIT_SUCCESS => delete_equivs n' fuel p running
          | EXIT_FAILURE => mret EXIT_FAILURE
          end
      end
  end.

(** Run the second part when the first succeeded. *)
Definition and_then (a b : M estate exit) : M estate exit :=
  ret ← a;
  match ret with EXIT_SUCCESS => b | EXIT_FAILURE => mret EXIT_FAILURE end.

(** ** edit_remove *)
Definition edit_remove (fuel : nat) (p : ptr) (running : bool) : M estate exit :=
  and_then (delete_equivs fuel fuel p running)
    (_ ← edit_delete fuel Edit p false; mret EXIT_SUCCESS).

(** ** edit_create *)

(** A new address for a namespace definition. *)
Definition new_ptr : M estate ptr :=
  k ← gets e_next; _ ← modify (set_next (S k)); mret k.

Definition copy_node (deep : bool) (n : xmlNode) : M estate xmlNode :=
  k ← gets e_next;
  let r := xmlCopyNode deep n k in
  _ ← modify (set_next r.2); mret r.1.

(** xmlSetNs(retval, xmlNewNs(retval, edit->ns->href, NULL)) *)
Definition declare_ns (n : xmlNs) (c : xmlNode) : M estate xmlNode :=
  k ← new_ptr; mret (xmlNewSetNs (ns_href n) k c).

(** The parent of a node to create, created itself when it is missing. *)
Fixpoint edit_create_r (edit : cursor) : M estate (option ptr) :=
  match edit with
  | e :: ((pa :: _) as up) =>
      d ← gets e_orig;
      match find_element_equiv (Some d) edit ≫= head with
      | Some retval => mret (Some (nid retval))
      | None =>
          if bool_decide (ntype pa = XML_DOCUMENT_NODE) then
            c ← copy_node false e;
            retval ← match ns e with Some n => declare_ns n c | None => mret c end;
            _ ← modify (upd_doc Orig (xmlDocSetRootElement retval));
            mret (Some (nid retval))
          else
            parent ← edit_create_r up;
            match parent with
            | None => mret None
            | Some pp =>
                c ← copy_node false e;
                cur ← at_ptr Orig pp;
                retval ← match ns e, head cur ≫= ns with
                  | Some n, Some pn =>
                      if xmlStrEqual (ns_href n) (ns_href pn)
                      then mret (with_hdr (hdr_set_ns (Some pn)) c)
                      else declare_ns n c
                  | Some n, None => declare_ns n c
                  | None, _ => mret c
                  end;
                _ ← modify (upd_doc Orig (xmlAddChild pp retval));
                mret (Some (nid retval))
            end
      end
  | _ => crash NullDeref
  end.

(** The XML branch of edit_create(). *)
Definition create_xml (cur : cursor) : M estate exit :=
  match cur with
  | edit :: ((pa :: _) as up) =>
      parent ← (if bool_decide (ntype pa ≠ XML_DOCUMENT_NODE) then edit_create_r up
                else d ← gets e_orig; mret (Some (nid d)));
      match parent with
      | None => mret EXIT_FAILURE
      | Some pp =>
          pcur ← at_ptr Orig pp;
          c ← copy_node true edit;
          _ ← modify (upd_doc Orig
                (if bool_decide (ntype <$> head pcur = Some XML_DOCUMENT_NODE)
                 then xmlDocSetRootElement c else xmlAddChild pp c));
          mret EXIT_SUCCESS
      end
  | _ => crash NullDeref
  end.

Definition missing_switch_id : nc_err :=
  set_msg "Missing capable-switch's id"
    (set_badelem (Some "id") (nc_err_new NC_ERR_MISSING_ELEM)).

(** Children of a resources element. *)
Definition create_resource (node : xmlNode) (cur : cursor) : M estate exit :=
  if xmlStrEqual (up_name cur 2) (Some "capable-switch") then
    if name_is node "port" then call (TxnAddPort node)
    else if name_is node "queue" then call (TxnAddQueue node)
    else if name_is node "owned-certificate" then call (TxnAddOwnedCertificate node)
    else if name_is node "external-certificate" then call (TxnAddExternalCertificate node)
    else if name_is node "flow-table" then call (TxnAddFlowTable node)
    else mret EXIT_SUCCESS
  else
    key ← key_up cur 2 "id";
    match child_content node with
    | None => fail (bad_leafref node)
    | Some aux =>
        if name_is node "port" then call (TxnAddBridgePort key (Some aux))
        else if name_is node "flow-table" then call (TxnAddBridgeFlowtable key (Some aux))
        else if name_is node "queue" then
          r ← call_int (OfcCheckBridgeQueue key (Some aux));
          if bool_decide (r = 1%Z) then
            fail (set_msg "Invalid queue leafref"
                    (set_badelem (Some "queue") (nc_err_new NC_ERR_BAD_ELEM)))
          else if bool_decide (r = 2%Z) then
            fail (set_msg ("Assigning queue to the bridge (port) must " +:+
                           "be done by the port element in the queue")
                    (nc_err_new NC_ERR_OP_FAILED))
          else mret EXIT_SUCCESS
        else mret EXIT_SUCCESS
    end.

(** Children of a port. *)
Definition create_in_port (loop rec : ptr → M estate exit) (p : ptr) (node : xmlNode)
  (cur : cursor) : M estate exit :=
  if name_is node "requested-number" then
    key ← key_up cur 1 "name"; call (TxnModPortReqnumber key (child_content node))
  else if is_tunnel (name node) then
    key ← key_up cur 1 "name"; call (TxnAddPortTunnel key node)
  else if name_is node "features" then
    match go2node node "advertised" with
    | Some child => rec (nid child)
    | None => mret EXIT_SUCCESS
    end
  else loop p.

(** From the branch of a queue's children to the end of the chain. *)
Definition create_rest (loop : ptr → M estate exit) (p : ptr) (node : xmlNode) (cur : cursor)
  : M estate exit :=
  let parent := up_name cur 1 in
  let aux := child_content node in
  if xmlStrEqual parent (Some "queue") then
    if name_is node "id" then
      key ← key_up cur 1 "resource-id"; call (TxnModQueueId key aux)
    else if name_is node "port" then
      key ← key_up cur 1 "resource-id"; call (TxnAddQueuePort key aux)
    else if name_is node "properties" then loop p
    else mret EXIT_SUCCESS
  else if xmlStrEqual parent (Some "properties") then
    key ← key_up cur 2 "resource-id"; call (TxnModQueueOptions key (name node) (Some node))
  else if name_is node "private-key" then loop p
  else if xmlStrEqual parent (Some "owned-certificate") then
    key ← key_up cur 1 "resource-id"; call (TxnModOwnCertCertificate key (Some node))
  else if xmlStrEqual parent (Some "external-certificate") then
    key ← key_up cur 1 "resource-id"; call (TxnModExtCertCertificate key (Some node))
  else if xmlStrEqual parent (Some "private-key") then
    key ← key_up cur 2 "resource-id";
    if name_is node "key-type" then call (TxnModOwnCertKeyType key (Some node))
    else if name_is node "key-data" then call (TxnModOwnCertKeyData key (Some node))
    else mret EXIT_SUCCESS
  else if xmlStrEqual parent (Some "flow-table") then
    key ← key_up cur 1 "table-id";
    if name_is node "name" then call (TxnModFlowtableName key (Some node))
    else if name_is node "resource-id" then call (TxnModFlowtableResid key (Some node))
    else mret EXIT_SUCCESS
  else if name_is node "switch" then call (TxnAddBridge node)
  else if xmlStrEqual parent (Some "switch") then
    key ← key_up cur 1 "id";
    if name_is node "datapath-id" then call (TxnModBridgeDatapath key aux)
    else if name_is node "controllers" || name_is node "resources" then loop p
    else if name_is node "lost-connection-behavior" then call (TxnModBridgeFailmode key aux)
    else mret EXIT_SUCCESS
  else if name_is node "controller" then
    key ← key_up cur 2 "id"; call (TxnAddContr node key)
  else if xmlStrEqual parent (Some "controller") then
    key ← key_up cur 1 "id";
    if name_is node "local-ip-address" then call (TxnModContrLip key aux)
    else if name_is node "ip-address" || name_is node "port" || name_is node "protocol" then
      call (TxnModContrTarget key (name node) aux)
    else mret EXIT_SUCCESS
  else mret EXIT_SUCCESS.

(** The OVS branch of edit_create(), below the document level. *)
Definition create_running (loop rec : ptr → M estate exit) (p : ptr) (node : xmlNode)
  (cur : cursor) : M estate exit :=
  let parent := up_name cur 1 in
  if xmlStrEqual parent (Some "capable-switch") then
    if name_is node "id" then call_ (OfcSetSwitchid (Some node)) else loop p
  else if xmlStrEqual parent (Some "resources") then create_resource node cur
  else if xmlStrEqual parent (Some "port") then create_in_port loop rec p node cur
  else if xmlStrEqual parent (Some "configuration") then
    key ← key_up cur 2 "name"; call (OfModPortCfg key (name node) (child_content node))
  else if name_is node "advertised" then
    key ← key_up cur 2 "name";
    for_children (λ child, call (TxnAddPortAdvert key child)) (children node)
  else if xmlStrEqual parent (Some "advertised") then
    key ← key_up cur 3 "name"; call (TxnAddPortAdvert key node)
  else if is_tunnel parent then
    key ← key_up cur 2 "name"; call (TxnModPortTunnelOpt key (name node) (child_content node))
  else create_rest loop p node cur.

(** xmlRemoveProp(xmlHasNsProp(edit, "operation", ...)); clrns(edit); *)
Definition strip_op (n : xmlNode) : xmlNode :=
  clrns (xmlRemoveNsProp n "operation" NC_NS_BASE10).

Fixpoint edit_create (fuel : nat) (p : ptr) (running : bool) : M estate exit :=
  match fuel with
  | 0 => nofuel
  | S f =>
      _ ← modify (upd_doc Edit (alter_node p strip_op));
      cur ← at_ptr Edit p;
      match cur with
      | edit :: ((pa :: _) as up) =>
          ret ← (if running then
                   let rec q := edit_create f q running in
                   let loop := while_children f rec Edit in
                   if negb (is_element edit) then mret EXIT_SUCCESS
                   else if bool_decide (ntype pa = XML_DOCUMENT_NODE) then
                     match get_key edit "id" with
                     | None => fail missing_switch_id
                     | Some _ => loop p
                     end
                   else create_running loop rec p edit cur
                 else create_xml cur);
          match ret with
          | EXIT_SUCCESS => _ ← edit_delete fuel Edit p false; mret EXIT_SUCCESS
          | EXIT_FAILURE => mret EXIT_FAILURE
          end
      | _ => crash NullDeref
      end
  end.

(** ** edit_replace *)
Definition edit_replace (fuel : nat) (edit_node : option ptr) (running : bool)
  : M estate exit :=
  match edit_node with
  | None =>
      d ← gets e_orig;
      match first_child d with
      | Some c => edit_delete fuel Orig (nid c) running
      | None => call TxnDelAll
      end
  | Some p =>
      edit ← at_ptr Edit p;
      d ← gets e_orig;
      and_then
        (match find_element_equiv (Some d) edit ≫= head with
         | Some old => edit_delete fuel Orig (nid old) running
         | None => mret EXIT_SUCCESS
         end)
        (edit_create fuel p running)
  end.

(** ** edit_merge *)

(** The walk over the children.  A merge of one child unlinks at most that
    child, so the siblings are those found at the start. *)
Fixpoint merge_children (rec : ptr → M estate exit) (l : list ptr) : M estate exit :=
  match l with
  | [] => mret EXIT_SUCCESS
  | q :: l' =>
      child ← at_ptr Edit q;
      if is_key child then merge_children rec l'
      else and_then (rec q) (merge_children rec l')
  end.

Fixpoint edit_merge (fuel : nat) (p : ptr) (running : bool) : M estate exit :=
  match fuel with
  | 0 => nofuel
  | S f =>
      edit ← at_ptr Edit p;
      d ← gets e_orig;
      match find_element_equiv (Some d) edit, edit with
      | None, _ => edit_create f p running
      | Some _, [] => crash NullDeref
      | Some _, edit_node :: _ =>
          if is_key edit then mret EXIT_SUCCESS
          else if from_option is_text false (first_child edit_node)
          then edit_replace f (Some p) running
          else and_then
            (merge_children (λ q, edit_merge f q running) (nid <$> children edit_node))
            (_ ← edit_delete f Edit p false; mret EXIT_SUCCESS)
      end
  end.

(** ** edit_operations *)

(** for (edit_node = edit_doc->children; ...; edit_node = edit_doc->children)
    of the default replace: the result of edit_replace() is not looked at. *)
Fixpoint default_replace (n fuel : nat) (running : bool) : M estate exit :=
  match n with
  | 0 => nofuel
  | S n' =>
      d ← gets e_edit;
      match first_child d with
      | None => mret EXIT_SUCCESS
      | Some c =>
          _ ← edit_replace fuel (Some (nid c)) running;
          default_replace n' fuel running
      end
  end.

Fixpoint default_merge (n fuel : nat) (running : bool) : M estate exit :=
  match n with
  | 0 => nofuel
  | S n' =>
      d ← gets e_edit;
      match first_child d with
      | None => mret EXIT_SUCCESS
      | Some c => and_then (edit_merge fuel (nid c) running) (default_merge n' fuel running)
      end
  end.

(** for (i = 0; i < nodes->nodesetval->nodeNr; i++) ... *)
Fixpoint for_nodes (body : ptr → M estate exit) (l : list ptr) : M estate exit :=
  match l with
  | [] => mret EXIT_SUCCESS
  | p :: l' => and_then (body p) (for_nodes body l')
  end.

Definition phase (op : NC_EDIT_OP_TYPE) (body : ptr → M estate exit) : M estate exit :=
  d ← gets e_edit;
  match get_operation_elements op d with
  | None => mret EXIT_SUCCESS
  | Some nodes => for_nodes body nodes
  end.

(** Body of the loop over the delete operations. *)
Definition delete_node (fuel : nat) (running : bool) (p : ptr) : M estate exit :=
  edit ← at_ptr Edit p;
  d ← gets e_orig;
  match find_element_equiv (Some d) edit with
  | None => fail (nc_err_new NC_ERR_DATA_MISSING)
  | Some _ =>
      and_then (delete_equivs fuel fuel p running)
        (_ ← edit_delete fuel Edit p false; mret EXIT_SUCCESS)
  end.

Definition edit_phases (fuel : nat) (defop : NC_EDIT_DEFOP_TYPE) (running : bool)
  : M estate exit :=
  and_then (if bool_decide (defop = NC_EDIT_DEFOP_REPLACE)
            then default_replace fuel fuel running else mret EXIT_SUCCESS)
  (and_then (phase NC_EDIT_OP_DELETE (delete_node fuel running))
  (and_then (phase NC_EDIT_OP_REMOVE (λ p, edit_remove fuel p running))
  (and_then (phase NC_EDIT_OP_REPLACE (λ p, edit_replace fuel (Some p) running))
  (and_then (phase NC_EDIT_OP_CREATE (λ p, edit_create fuel p running))
  (and_then (phase NC_EDIT_OP_MERGE (λ p, edit_merge fuel p running))
            (if bool_decide (defop = NC_EDIT_DEFOP_MERGE)
                || bool_decide (defop = NC_EDIT_DEFOP_NOTSET)
             then default_merge fuel fuel running else mret EXIT_SUCCESS)))))).

(** [orig_doc] is not NULL: its callers have tested it. *)
Definition edit_operations (fuel : nat) (defop : NC_EDIT_DEFOP_TYPE) (running : bool)
  : M estate exit :=
  _ ← modify (set_err None);
  ret ← edit_phases fuel defop running;
  match ret with
  | EXIT_SUCCESS => mret EXIT_SUCCESS
  | EXIT_FAILURE =>
      _ ← modify (λ s, match e_err s with
                       | None => set_err (Some (nc_err_new NC_ERR_OP_FAILED)) s
                       | Some _ => s
                       end);
      mret EXIT_FAILURE
  end.

End ops.

Arguments estate {_}.
