(* ===== verification/EditXml.v ===== *)
(** * Edit operations on XML configurations

    The operations of edit-config.c with running = 0, as used for the startup
    and candidate datastores: they return, on well-formed documents they never
    touch a freed node, and they leave the documents as stated here. *)

From S2P Require Import Prelude.
From S2P Require Import Clrwspace.
From S2P Require Import Xml.
From S2P Require Import XmlFacts.
From S2P Require Import EditTree.
From S2P Require Import EditChecks.
From S2P Require Import EditCompact.
From S2P Require Import EditOps.

(** An edit document: only elements have children. *)
Definition wf_edit (d : xmlNode) : Prop :=
  wf_doc d ∧ Forall (λ n, is_element n = false → children n = []) (forest (children d)).

Lemma forest_remove p d m : m ∈ forest (children (remove_node p d)) →
  ∃ m0, m0 ∈ forest (children d) ∧ m = remove_node p m0.
Proof.
  rewrite children_remove. intros (c & Hc & Hm)%forest_inv.
  unfold remove_list in Hc. apply list_elem_of_fmap in Hc as (c0 & -> & Hc0).
  apply list_elem_of_filter in Hc0 as [_ Hc0].
  apply subtree_remove in Hm as (m0 & Hm0 & ->). exists m0.
  split; [by eapply subtree_child|done].
Qed.

Lemma wf_edit_remove p d : wf_edit d → wf_edit (remove_node p d).
Proof.
  intros [Hd Hl]. split; [by apply wf_remove|]. rewrite Forall_forall in *.
  intros m (m0 & Hm0 & ->)%forest_remove. unfold is_element, ntype. rewrite hdr_remove.
  intros He. rewrite children_remove, (Hl m0 Hm0 He). done.
Qed.

Section xml.
Context {LX : LibXml} {LN : LibNetconf} {OB : OvsBackend}.

Definition wf_state (s : estate) : Prop :=
  wf_doc (e_orig s) ∧ below (e_next s) (e_orig s) ∧ wf_edit (e_edit s).

(** Nothing but the configuration and the allocator changed. *)
Definition same_but_orig (s s' : estate) : Prop :=
  e_edit s' = e_edit s ∧ e_be s' = e_be s ∧ e_err s' = e_err s.

Lemma at_ptr_ok sd p s : p ∈ ids (doc_of sd s) →
  ∃ n up, path_to p (doc_of sd s) = Some (n :: up) ∧ nid n = p ∧
    at_ptr sd p s = Done (n :: up, s).
Proof.
  intros [cur Hc]%path_to_Some. pose proof (path_to_head _ _ _ Hc) as (n & up & -> & ?).
  exists n, up. split_and!; [done..|].
  unfold at_ptr, gets, deref, mbind, M_bind. rewrite Hc. done.
Qed.

Lemma upd_doc_unlink sd p s : upd_doc sd (xmlUnlinkFreeNode p) s = upd_doc sd (remove_node p) s.
Proof. destruct sd; simpl; by rewrite xmlUnlinkFreeNode_spec. Qed.

(** edit_delete() takes exactly the node out of the document. *)
Lemma edit_delete_xml f sd p s : p ∈ ids (doc_of sd s) →
  edit_delete (S f) sd p false s = Done (EXIT_SUCCESS, upd_doc sd (remove_node p) s).
Proof.
  intros (n & up & _ & _ & Hat)%at_ptr_ok. cbn [edit_delete].
  rewrite (bind_run _ _ _ _ _ Hat). cbn [andb]. rewrite bind_ret.
  unfold unlink. by rewrite bind_modify, upd_doc_unlink.
Qed.

(** ** Counterparts in the configuration *)
Lemma is_path_subtree cur d m : is_path cur d → m ∈ cur → m ∈ subtree d.
Proof.
  revert m. induction cur as [|c [|o up] IH]; intros m; [done| |].
  - intros Hc ->%list_elem_of_singleton. simpl in Hc. subst. apply subtree_self.
  - intros [Hc Hp] [->|Hm]%elem_of_cons; [|by apply IH].
    eapply subtree_trans; [apply (IH o); [done|set_solver]|].
    apply forest_subtree. by eapply subtree_child, subtree_self.
Qed.

Lemma equiv_in d edit c up : find_element_equiv (Some d) edit = Some (c :: up) →
  c ∈ forest (children d).
Proof.
  intros (Hp & c' & o & up' & [= <- ->] & Hc)%find_element_equiv_path.
  assert (o ∈ subtree d) as Ho.
  { eapply is_path_subtree; [exact Hp|]. set_solver. }
  rewrite subtree_eq in Ho. apply elem_of_cons in Ho as [->|(x & Hx & Ho)%forest_inv].
  - by eapply subtree_child, subtree_self.
  - eapply subtree_child; [exact Hx|]. eapply subtree_trans; [exact Ho|].
    apply forest_subtree. by eapply subtree_child, subtree_self.
Qed.

Lemma equiv_head d edit oc : find_element_equiv (Some d) edit = Some oc →
  ∃ c, head oc = Some c ∧ c ∈ forest (children d).
Proof.
  intros H. pose proof H as (_ & c & o & up & -> & _)%find_element_equiv_path.
  exists c. split; [done|]. by eapply equiv_in.
Qed.

Lemma forest_in_ids d c : c ∈ forest (children d) → nid c ∈ ids d.
Proof. intros. by apply subtree_ids, forest_subtree. Qed.

(** One step of the removal of counterparts. *)
Inductive drop_equiv (edit : cursor) : xmlNode → xmlNode → Prop :=
| drop_equiv_step d c up :
    find_element_equiv (Some d) edit = Some (c :: up) →
    drop_equiv edit d (remove_node (nid c) d).

Definition with_orig (d : xmlNode) (s : estate) : estate := upd_doc Orig (λ _, d) s.

Lemma delete_equivs_xml fuel p running n up : running = false →
  ∀ k s, wf_doc (e_orig s) → path_to p (e_edit s) = Some (n :: up) →
  length (ids (e_orig s)) < k →
  ∃ d', delete_equivs k (S fuel) p running s = Done (EXIT_SUCCESS, with_orig d' s) ∧
    rtc (drop_equiv (n :: up)) (e_orig s) d' ∧
    find_element_equiv (Some d') (n :: up) = None.
Proof.
  intros ->. induction k as [|k IH]; intros s Hwf Hp Hk; [lia|].
  assert (p ∈ ids (doc_of Edit s)) as Hin by (apply path_to_Some; simpl; rewrite Hp; eauto).
  destruct (at_ptr_ok _ _ _ Hin) as (n' & up' & Hp' & _ & Hat).
  assert (n' :: up' = n :: up) as [= -> ->] by (simpl in Hp'; congruence).
  cbn [delete_equivs]. rewrite (bind_run _ _ _ _ _ Hat), bind_gets.
  destruct (find_element_equiv (Some (e_orig s)) (n :: up)) as [oc|] eqn:Eq; cbn [mbind option_bind].
  - destruct (equiv_head _ _ _ Eq) as (c & Hc & Hcd). rewrite Hc.
    rewrite (bind_run _ _ _ _ _ (edit_delete_xml fuel Orig _ s (forest_in_ids _ _ Hcd))).
    destruct oc as [|c' oup]; [done|]. injection Hc as ->.
    set (s1 := upd_doc Orig (remove_node (nid c)) s).
    destruct (IH s1) as (d' & Hrun & Hrtc & Hnone).
    + simpl. by apply wf_remove.
    + done.
    + simpl. pose proof (length_remove (nid c) (e_orig s)) as Hl.
      specialize (Hl (forest_in_ids _ _ Hcd)).
      destruct Hwf as (Hnd & _). pose proof (forest_ids_ne _ _ Hnd Hcd). lia.
    + exists d'. rewrite Hrun. split_and!; [done| |done].
      eapply rtc_l; [|exact Hrtc]. by econstructor.
  - exists (e_orig s). split_and!; [by destruct s|constructor|done].
Qed.

(** Removing the edit node at the end of an operation. *)
Lemma drop_edit_node f p s : p ∈ ids (e_edit s) →
  (edit_delete (S f) Edit p false ≫= λ _, mret EXIT_SUCCESS) s
  = Done (EXIT_SUCCESS, upd_doc Edit (remove_node p) s).
Proof. intros Hp. by rewrite (bind_run _ _ _ _ _ (edit_delete_xml f Edit p s Hp)). Qed.

Lemma and_then_run a b s s' :
  a s = Done (EXIT_SUCCESS, s') → and_then a b s = b s'.
Proof. intros H. unfold and_then. by rewrite (bind_run _ _ _ _ _ H). Qed.

Lemma path_in p d n up : path_to p d = Some (n :: up) → p ∈ ids d.
Proof. intros H. apply path_to_Some. eauto. Qed.

Lemma edit_remove_spec fuel p n up s :
  wf_doc (e_orig s) → path_to p (e_edit s) = Some (n :: up) →
  length (ids (e_orig s)) < fuel →
  ∃ d', edit_remove fuel p false s
        = Done (EXIT_SUCCESS, upd_doc Edit (remove_node p) (with_orig d' s)) ∧
    rtc (drop_equiv (n :: up)) (e_orig s) d' ∧
    find_element_equiv (Some d') (n :: up) = None.
Proof.
  intros Hwf Hp Hf. destruct fuel as [|fuel]; [lia|].
  destruct (delete_equivs_xml fuel p false n up eq_refl (S fuel) s Hwf Hp Hf) as (d' & H & Hr & Hn).
  exists d'. split_and!; [|done..]. unfold edit_remove.
  rewrite (and_then_run _ _ _ _ H), drop_edit_node; [done|]. by eapply path_in.
Qed.

(** ** Creation *)
Lemma strip_op_hdr n :
  nid (strip_op n) = nid n ∧ children (strip_op n) = children n ∧ ntype (strip_op n) = ntype n.
Proof.
  unfold strip_op, clrns. rewrite xmlRemoveNsProp_spec. destruct n as [i h cs].
  destruct (is_element (XmlNode i h cs)) eqn:E; simpl; by repeat case_match.
Qed.

Lemma wf_edit_strip p d : wf_edit d → wf_edit (alter_node p strip_op d).
Proof.
  intros [Hd Hl]. split; [apply alter_hdr_wf; [apply strip_op_hdr|done]|].
  assert (∀ m, m ∈ forest (children (alter_node p strip_op d)) →
    ∃ m0, m0 ∈ forest (children d) ∧ ntype m = ntype m0 ∧ (children m0 = [] → children m = []))
    as Hsub.
  { intros m. destruct d as [i h cs]. rewrite alter_node_eq. case_bool_decide.
    - destruct (strip_op_hdr (XmlNode i h cs)) as (_ & -> & _). eauto.
    - simpl. intros (c & Hc & Hm)%forest_inv. apply list_elem_of_fmap in Hc as (c0 & -> & Hc0).
      apply subtree_alter_hdr in Hm as (m0 & ? & ?); [|apply strip_op_hdr].
      exists m0. split; [|done]. apply list_elem_of_bind. eauto. }
  rewrite Forall_forall in *. intros m (m0 & Hm0 & Ht & Hch)%Hsub.
  unfold is_element. rewrite Ht. intros He. by apply Hch, Hl.
Qed.

Lemma copy_node_run deep n s : copy_node deep n s
  = Done ((xmlCopyNode deep n (e_next s)).1, set_next (xmlCopyNode deep n (e_next s)).2 s).
Proof. done. Qed.

Lemma declare_ns_run n c s : declare_ns n c s =
  Done (xmlNewSetNs (ns_href n) (e_next s) c, set_next (S (e_next s)) s).
Proof. done. Qed.

(** The node and its ancestors up to the document, elements all of them. *)
Definition up_ok (cur : cursor) : Prop :=
  ∃ l d, cur = l ++ [d] ∧ l ≠ [] ∧ ntype d = XML_DOCUMENT_NODE ∧
    Forall (λ m, is_element m = true ∧
                 Forall (λ x, ntype x ≠ XML_DOCUMENT_NODE) (subtree m)) l.

Lemma nondoc_subtree d m : wf_doc d → m ∈ forest (children d) →
  Forall (λ x, ntype x ≠ XML_DOCUMENT_NODE) (subtree m).
Proof.
  intros (_ & _ & H) Hm. rewrite Forall_forall in *. intros x Hx. apply H.
  apply forest_inv in Hm as (c & Hc & Hm). eapply subtree_child; [done|]. by eapply subtree_trans.
Qed.

Lemma path_parents d p n up : wf_edit d → path_to p d = Some (n :: up) → nid d ≠ p →
  n ∈ forest (children d) ∧ (up = [d] ∨ (up_ok up ∧ ∃ pa up', up = pa :: up' ∧ ntype pa ≠ XML_DOCUMENT_NODE)).
Proof.
  intros [Hwf Hleaf] Hp Hne.
  destruct (path_to_below _ _ _ Hp) as (l & Hl & Hfor & Hnil).
  destruct l as [|n' l]; [tauto|]. injection Hl as <- ->.
  apply Forall_cons in Hfor as [Hn Hfor]. split; [done|].
  destruct l as [|pa l]; [by left|right]. split.
  - exists (pa :: l), d. split_and!; [done|done|apply Hwf|].
    apply path_to_is_path in Hp. clear Hnil Hn.
    assert (∀ x l, is_path (x :: l ++ [d]) d → Forall (λ m, m ∈ forest (children d)) l →
      Forall (λ m, is_element m = true ∧
        Forall (λ x, ntype x ≠ XML_DOCUMENT_NODE) (subtree m)) l) as Hgen; [|by eapply Hgen].
    clear -Hwf Hleaf. intros x l. revert x. induction l as [|y l IH]; intros x; [constructor|].
    intros [Hx Hpath] [Hy Hl]%Forall_cons. constructor; [|by eapply IH].
    split; [|by eapply nondoc_subtree].
    destruct (is_element y) eqn:E; [done|]. rewrite Forall_forall in Hleaf.
    rewrite (Hleaf y Hy E) in Hx. set_solver.
  - exists pa, (l ++ [d]). split; [done|]. apply Forall_cons in Hfor as [Hpa _].
    pose proof (nondoc_subtree _ _ Hwf Hpa) as H. rewrite subtree_eq, Forall_cons in H. tauto.
Qed.

(** Giving the copy its namespace changes nothing but that. *)
Definition ns_step (m : M estate xmlNode) (c : xmlNode) (href : option (option string))
  (s : estate) : Prop :=
  ∃ f k, m s = Done (with_hdr f c, set_next k s) ∧ e_next s ≤ k ∧
    (∀ h, h_type (f h) = h_type h ∧ h_name (f h) = h_name h ∧
          h_properties (f h) = h_properties h ∧ h_content (f h) = h_content h) ∧
    (∀ h, h_ns h = None → ns_href <$> h_ns (f h) = href).

Lemma declare_ns_step n c s : ns_step (declare_ns n c) c (Some (ns_href n)) s.
Proof.
  eexists _, (S (e_next s)). rewrite declare_ns_run, xmlNewSetNs_spec.
  split_and!; [done|lia|done|done].
Qed.

Lemma ret_ns_step n c s : ns_step (mret (with_hdr (hdr_set_ns (Some n)) c)) c (Some (ns_href n)) s.
Proof. eexists _, (e_next s). split_and!; [by destruct s|lia|done|done]. Qed.

Lemma ret_ns_step' c s : ns_step (mret c) c None s.
Proof.
  exists id, (e_next s). split_and!; [|lia|done|by intros h Hh; simpl; rewrite Hh].
  destruct c, s. done.
Qed.

(** ** What a creation adds to the configuration *)

(** A bare copy of an element: its name and namespace, no attributes. *)
Definition bare (e t : xmlNode) : Prop :=
  ntype t = ntype e ∧ name t = name e ∧ (ns_href <$> ns t) = (ns_href <$> ns e) ∧
  properties t = [] ∧ content t = content e.

(** Bare copies of l, each the only child of the one before, around leaf. *)
Fixpoint nested (l : list xmlNode) (leaf t : xmlNode) : Prop :=
  match l with
  | [] => t = leaf
  | e :: l' => bare e t ∧ ∃ t', children t = [t'] ∧ nested l' leaf t'
  end.

(** d' is d with t as its root, when found is the edit document, or else with t
    as the last child of the counterpart of found. *)
Definition grows (found : cursor) (t d d' : xmlNode) : Prop :=
  match found with
  | [] => False
  | [_] => d' = with_children (set_root t) d
  | _ => ∃ oc c, find_element_equiv (Some d) found = Some oc ∧ head oc = Some c ∧
           d' = alter_node (nid c) (with_children (add_last t)) d
  end.

(** cp is put below the ancestors up of the edit node: those without counterpart
    are created, outermost first. *)
Definition missing (miss found : list xmlNode) (d : xmlNode) : Prop :=
  ∀ l1 e l2, miss = l1 ++ e :: l2 → find_element_equiv (Some d) (e :: l2 ++ found) = None.
Definition inserted (up : cursor) (cp d d' : xmlNode) : Prop :=
  ∃ miss found t, up = miss ++ found ∧ missing miss found d ∧ nested (rev miss) cp t ∧
    grows found t d d'.

(** The same before cp is there: pp is the innermost of the new elements, at
    addresses below k. *)
Fixpoint hole (k : ptr) (l : list xmlNode) (pp : ptr) (t : xmlNode) : Prop :=
  match l with
  | [] => False
  | e :: l' => bare e t ∧ nid t < k ∧
      match l' with
      | [] => nid t = pp ∧ children t = []
      | _ => nid t ≠ pp ∧ ∃ t', children t = [t'] ∧ hole k l' pp t'
      end
  end.
Definition awaits (cur : cursor) (k : ptr) (pp : ptr) (d d' : xmlNode) : Prop :=
  ∃ miss found, cur = miss ++ found ∧ missing miss found d ∧
    ((miss = [] ∧ d' = d ∧ 2 ≤ length found ∧
        ∃ oc c, find_element_equiv (Some d) found = Some oc ∧ head oc = Some c ∧ pp = nid c) ∨
     (∃ t, hole k (rev miss) pp t ∧ pp ∉ ids d ∧ grows found t d d')).

Lemma bare_children g e t : bare e t → bare e (with_children g t).
Proof. by destruct t. Qed.

Lemma hole_fill k l pp t cp : hole k l pp t →
  nested l cp (alter_node pp (with_children (add_last cp)) t).
Proof.
  revert t. induction l as [|e l IH]; intros t; [done|]. intros (Hb & _ & Ht). destruct t as [i h cs].
  destruct l as [|e' l].
  - destruct Ht as [Hi Hc]. simpl in Hi, Hc. subst. rewrite alter_node_eq, bool_decide_eq_true_2 by done.
    split; [done|]. by exists cp.
  - destruct Ht as (Hi & t' & Hc & Ht'). simpl in Hi, Hc. subst.
    rewrite alter_node_eq, bool_decide_eq_false_2 by done. split; [done|]. eexists. split; [done|].
    by apply IH.
Qed.

Lemma hole_extend k k' l pp t e r : hole k l pp t → bare e r → children r = [] → k ≤ nid r < k' →
  hole k' (l ++ [e]) (nid r) (alter_node pp (with_children (add_last r)) t).
Proof.
  revert t. induction l as [|e1 l IH]; intros t; [done|]. intros (Hb & Hk & Ht) Hr Hc Hk'.
  destruct t as [i h cs]. simpl in Hk. destruct l as [|e2 l].
  - destruct Ht as [Hi Hcs]. simpl in Hi, Hcs. subst.
    rewrite alter_node_eq, bool_decide_eq_true_2 by done. simpl.
    split; [done|]. split; [lia|]. split; [lia|]. exists r. split; [done|]. split; [done|]. split; [lia|done].
  - destruct Ht as (Hi & t' & Hcs & Ht'). simpl in Hi, Hcs. subst.
    rewrite alter_node_eq, bool_decide_eq_false_2 by done.
    change ((e1 :: e2 :: l) ++ [e]) with (e1 :: (e2 :: l) ++ [e]). split; [done|]. split; [simpl; lia|].
    split; [simpl; lia|]. eexists. split; [done|]. by apply IH.
Qed.

Lemma hole_type k l pp t e : hole k (e :: l) pp t → ntype t = ntype e.
Proof. by intros ((? & _) & _). Qed.

(** Changing the new part commutes with inserting it. *)
Lemma alter_add_last p f t (l : list xmlNode) : (∀ x, x ∈ l → p ∉ ids x) →
  ntype t ≠ XML_TEXT_NODE → ntype (alter_node p f t) ≠ XML_TEXT_NODE →
  alter_node p f <$> add_last t l = add_last (alter_node p f t) l.
Proof.
  intros Hl Ht Hf. induction l as [|c l IH]; [done|].
  assert (alter_node p f c = c) as Hc by (apply alter_node_notin, Hl; by left).
  destruct l as [|c' l].
  - cbn [add_last]. rewrite (bool_decide_eq_false_2 (ntype t = _)) by done.
    rewrite (bool_decide_eq_false_2 (ntype (alter_node p f t) = _)) by done. simpl. by rewrite Hc.
  - change (add_last t (c :: c' :: l)) with (c :: add_last t (c' :: l)).
    change (add_last (alter_node p f t) (c :: c' :: l)) with (c :: add_last (alter_node p f t) (c' :: l)).
    rewrite fmap_cons, Hc, IH; [done|]. intros x Hx. apply Hl. by right.
Qed.

Lemma alter_set_root p f t (l : list xmlNode) : (∀ x, x ∈ l → p ∉ ids x) →
  alter_node p f <$> set_root t l = set_root (alter_node p f t) l.
Proof.
  induction l as [|c l IH]; intros Hl; [done|].
  assert (alter_node p f c = c) as Hc by (apply alter_node_notin, Hl; by left).
  cbn [set_root]. case_bool_decide; rewrite fmap_cons.
  - f_equal. by apply alter_list_notin; intros x Hx; apply Hl; right.
  - rewrite Hc, IH; [done|]. intros x Hx. apply Hl. by right.
Qed.

Lemma alter_inserted p q f t d : p ∉ ids d →
  ntype t ≠ XML_TEXT_NODE → ntype (alter_node p f t) ≠ XML_TEXT_NODE →
  alter_node p f (alter_node q (with_children (add_last t)) d) =
  alter_node q (with_children (add_last (alter_node p f t))) d.
Proof.
  intros Hp Ht Hf. induction d as [i h cs IH] using xmlNode_ind'.
  assert (i ≠ p) as Hi by (intros ->; apply Hp, elem_of_ids; by left).
  assert (∀ x, x ∈ cs → p ∉ ids x) as Hcs by (intros x Hx H; apply Hp, elem_of_ids; right; eauto).
  rewrite !alter_node_eq. case_bool_decide; cbn [with_children];
    rewrite alter_node_eq, bool_decide_eq_false_2 by done; f_equal.
  - by apply alter_add_last.
  - rewrite <-list_fmap_compose. apply list_fmap_ext. intros n x Hx%list_elem_of_lookup_2.
    rewrite Forall_forall in IH. apply (IH x Hx). by apply Hcs.
Qed.

Lemma grows_alter p f found t d d' : p ∉ ids d →
  ntype t ≠ XML_TEXT_NODE → ntype (alter_node p f t) ≠ XML_TEXT_NODE →
  grows found t d d' → grows found (alter_node p f t) d (alter_node p f d').
Proof.
  intros Hp Ht Hf. destruct found as [|x [|y l]]; [done| |].
  - simpl. intros ->. destruct d as [i h cs]. cbn [with_children].
    rewrite alter_node_eq, bool_decide_eq_false_2 by (intros ->; apply Hp, elem_of_ids; by left).
    f_equal. apply alter_set_root. intros z Hz H. apply Hp, elem_of_ids. right. eauto.
  - intros (oc & c & H1 & H2 & ->). exists oc, c. split; [done|]. split; [done|]. by apply alter_inserted.
Qed.

Definition add_ok (s s' : estate) (pp : ptr) : Prop :=
  wf_doc (e_orig s') ∧ below (e_next s') (e_orig s') ∧ same_but_orig s s' ∧
  pp ∈ ids (e_orig s') ∧ pp ≠ nid (e_orig s').

Lemma new_root_ok s k r :
  wf_doc (e_orig s) → below (e_next s) (e_orig s) → new_node (e_next s) k r →
  add_ok s (upd_doc Orig (xmlDocSetRootElement r) (set_next k s)) (nid r).
Proof.
  intros Hwf Hb Hr. pose proof Hr as (_ & Hrange & _). pose proof (Hrange _ (nid_in r)).
  unfold add_ok. simpl. rewrite xmlDocSetRootElement_spec. split_and!; try done.
  - by eapply wf_set_root.
  - eapply below_set_root; eauto. lia.
  - destruct (e_orig s) as [i h cs]. apply elem_of_ids. right. simpl.
    destruct (cells_set_root r cs) as (l1 & l2 & Hc & _).
    assert (nid r ∈ fst <$> cells_list (set_root r cs)) as Hin.
    { rewrite Hc, !fmap_app, !elem_of_app, <-ids_cells. right. left. apply nid_in. }
    rewrite <-cells_forest, <-list_fmap_compose in Hin. by apply elem_of_ids_list in Hin.
  - replace (nid (with_children (set_root r) (e_orig s))) with (nid (e_orig s)) by (by destruct (e_orig s)).
    specialize (Hb _ (nid_in (e_orig s))). lia.
Qed.

Lemma nid_alter p f d : (∀ n, nid (f n) = nid n) → nid (alter_node p f d) = nid d.
Proof. intros Hf. destruct d. rewrite alter_node_eq. case_bool_decide; [apply Hf|done]. Qed.

Lemma nid_with_children f n : nid (with_children f n) = nid n.
Proof. by destruct n. Qed.

Lemma new_child_ok s k p c :
  wf_doc (e_orig s) → below (e_next s) (e_orig s) → new_node (e_next s) k c →
  ntype c ≠ XML_TEXT_NODE → p ∈ ids (e_orig s) →
  add_ok s (upd_doc Orig (xmlAddChild p c) (set_next k s)) (nid c).
Proof.
  intros Hwf Hb Hc Ht Hp. pose proof Hc as (_ & Hrange & _). pose proof (Hrange _ (nid_in c)).
  unfold add_ok. simpl. rewrite xmlAddChild_spec. split_and!; try done.
  - by eapply wf_add_child.
  - eapply below_add_child; eauto. lia.
  - destruct (cells_add_child p c (e_orig s)) as (l1 & l2 & _ & Heq); [apply Hwf|done..|].
    rewrite ids_cells, Heq, !fmap_app, !elem_of_app, <-ids_cells. right. left. apply nid_in.
  - rewrite nid_alter by apply nid_with_children. specialize (Hb _ (nid_in (e_orig s))). lia.
Qed.

(** A flat copy with its namespace: a new element. *)
Lemma flat_copy_new e s m (f : xmlHdr → xmlHdr) k :
  is_element e = true → Forall (λ x, ntype x ≠ XML_DOCUMENT_NODE) (subtree e) →
  m = xmlCopyNode false e (e_next s) → m.2 ≤ k →
  (∀ h, h_type (f h) = h_type h ∧ h_name (f h) = h_name h ∧
        h_properties (f h) = h_properties h ∧ h_content (f h) = h_content h) →
  (∀ h, h_ns h = None → ns_href <$> h_ns (f h) = ns_href <$> ns e) →
  new_node (e_next s) k (with_hdr f m.1) ∧ ntype (with_hdr f m.1) ≠ XML_TEXT_NODE ∧
  bare e (with_hdr f m.1) ∧ children (with_hdr f m.1) = [].
Proof.
  intros He Hnd -> Hk Hf Hns. split; [|split].
  - apply new_node_hdr; [|apply Hf]. destruct (copy_new false e (e_next s) Hnd) as (H1 & H2 & H3).
    split_and!; [done| |done]. intros x Hx. specialize (H2 x Hx). lia.
  - pose proof (xmlCopyNode_flat e (e_next s)) as H. rewrite data_eq in H.
    injection H as Ht _ _ _ _ _. unfold is_element in He. apply bool_decide_eq_true in He.
    destruct (xmlCopyNode false e (e_next s)).1 as [j g ds]. simpl. unfold ntype in *. simpl in *.
    rewrite (proj1 (Hf g)). congruence.
  - pose proof (xmlCopyNode_flat e (e_next s)) as H. rewrite data_eq in H.
    destruct (xmlCopyNode false e (e_next s)).1 as [j g ds]. unfold bare, ntype, name, ns, properties, content in *.
    simpl in *. injection H as H1 H2 H3 H4 H5 H6. destruct (Hf g) as (-> & -> & -> & ->).
    apply fmap_None in H3. rewrite (Hns g H3). split_and!; try done.
    + by apply fmap_nil_inv in H4.
    + by apply fmap_nil_inv in H6.
Qed.

Lemma same_but_orig_trans s1 s2 s3 :
  same_but_orig s1 s2 → same_but_orig s2 s3 → same_but_orig s1 s3.
Proof. unfold same_but_orig. intros (? & ? & ?) (? & ? & ?). split_and!; congruence. Qed.

(** The namespace of a new element. *)
Lemma new_ns_step e cur c s :
  ns_step match ns e, head cur ≫= ns with
          | Some n, Some pn =>
              if xmlStrEqual (ns_href n) (ns_href pn) then mret (with_hdr (hdr_set_ns (Some pn)) c)
              else declare_ns n c
          | Some n, None => declare_ns n c
          | None, _ => mret c
          end c (ns_href <$> ns e) s.
Proof.
  destruct (ns e) as [n|]; [|apply ret_ns_step'].
  destruct (head cur ≫= ns) as [pn|]; [|apply declare_ns_step].
  destruct (xmlStrEqual (ns_href n) (ns_href pn)) eqn:E; [|apply declare_ns_step].
  apply bool_decide_eq_true in E. simpl. rewrite E. apply ret_ns_step.
Qed.

Lemma hole_bare k l pp t : hole k l pp t → ∃ e l', l = e :: l' ∧ bare e t.
Proof. destruct l as [|e l]; [done|]. intros (Hb & _). by exists e, l. Qed.

Lemma ntype_alter_children p g t : ntype (alter_node p (with_children g) t) = ntype t.
Proof. destruct t. rewrite alter_node_eq. by case_bool_decide. Qed.

Lemma missing_cons e miss found d : find_element_equiv (Some d) (e :: miss ++ found) = None →
  missing miss found d → missing (e :: miss) found d.
Proof.
  intros He Hm [|x l1] y l2 Heq; injection Heq as -> ->; [done|]. by eapply Hm.
Qed.

Lemma awaits_extend e cur k k' pp d d1 r :
  awaits cur k pp d d1 → find_element_equiv (Some d) (e :: cur) = None →
  Forall (λ x, ntype x ≠ XML_TEXT_NODE) cur → below k d → 1 < length cur →
  bare e r → children r = [] → k ≤ nid r < k' → ntype r ≠ XML_TEXT_NODE →
  awaits (e :: cur) k' (nid r) d (alter_node pp (with_children (add_last r)) d1).
Proof.
  intros (miss & found & -> & Hm & Haw) He Htext Hbel Hlen Hb Hc Hk Hr.
  exists (e :: miss), found. split; [done|]. split; [by apply missing_cons|]. right.
  assert (nid r ∉ ids d) as Hnew by (intros Hin%Hbel; lia).
  destruct Haw as [(-> & -> & Hl & oc & c & Hoc & Hhd & ->)|(t & Hh & Hpp & Hg)].
  - exists r. split; [simpl; split_and!; try done; lia|]. split; [done|].
    destruct found as [|x [|y found]]; simpl in Hl; [lia|lia|]. by exists oc, c.
  - exists (alter_node pp (with_children (add_last r)) t). cbn [rev].
    split; [by eapply hole_extend|]. split; [done|].
    destruct (hole_bare _ _ _ _ Hh) as (e0 & l0 & Hrev & (Hty & _)).
    assert (ntype t ≠ XML_TEXT_NODE) as Ht.
    { rewrite Hty. apply (proj1 (Forall_forall _ _) Htext). apply elem_of_app. left.
      apply list_elem_of_In, in_rev. rewrite Hrev. by left. }
    apply grows_alter; [done|done|by rewrite ntype_alter_children|done].
Qed.

Lemma edit_create_r_xml cur s :
  up_ok cur → wf_doc (e_orig s) → below (e_next s) (e_orig s) →
  ∃ pp s', edit_create_r cur s = Done (Some pp, s') ∧ add_ok s s' pp ∧ e_next s ≤ e_next s' ∧
    awaits cur (e_next s') pp (e_orig s) (e_orig s').
Proof.
  revert s. induction cur as [|e up IH]; intros s (l & d & Heq & Hl & Hd & Hfor) Hwf Hb.
  { by destruct l. }
  destruct l as [|e' l]; [done|]. injection Heq as <- ->.
  apply Forall_cons in Hfor as [[He Hnd] Hfor].
  assert (∃ pa up', l ++ [d] = pa :: up') as (pa & up' & Hup) by (destruct l; simpl; eauto).
  rewrite Hup in *. cbn [edit_create_r]. rewrite bind_gets.
  destruct (find_element_equiv (Some (e_orig s)) (e :: pa :: up')) as [oc|] eqn:Eq.
  { destruct (equiv_head _ _ _ Eq) as (c & Hc & Hcd). cbn [mbind option_bind]. rewrite Hc.
    exists (nid c), s. split; [done|]. split; [|split; [done|]].
    - unfold add_ok, same_but_orig.
      split_and!; try done; [by apply forest_in_ids|]. apply forest_ids_ne; [apply Hwf|done].
    - exists [], (e :: pa :: up'). split; [done|]. split; [by intros []|]. left.
      split_and!; [done|done|simpl; lia|]. by exists oc, c. }
  cbn [mbind option_bind]. case_bool_decide as Hpa.
  - rewrite (bind_run _ _ _ _ _ (copy_node_run false e s)).
    set (cp := xmlCopyNode false e (e_next s)). set (s1 := set_next cp.2 s).
    assert (ns_step (match ns e with Some n => declare_ns n cp.1 | None => mret cp.1 end) cp.1
      (ns_href <$> ns e) s1) as (f & k & Hrun & Hk & Hf & Hns).
    { destruct (ns e); [apply declare_ns_step|apply ret_ns_step']. }
    rewrite (bind_run _ _ _ _ _ Hrun), bind_modify.
    destruct (flat_copy_new e s cp f k He Hnd eq_refl Hk Hf Hns) as (Hnew & Ht & Hbare & Hch).
    pose proof (proj1 (proj2 Hnew) _ (nid_in _)) as Hr.
    eexists _, _. split; [reflexivity|]. split; [by apply (new_root_ok s k (with_hdr f cp.1) Hwf Hb Hnew)|].
    split; [simpl; lia|]. destruct l as [|pa0 l].
    2:{ simpl in Hup. injection Hup as -> _. apply Forall_cons in Hfor as [[He' _] _].
        unfold is_element in He'. apply bool_decide_eq_true in He'. congruence. }
    simpl in Hup. injection Hup as -> <-.
    exists [e], [pa]. split; [done|]. split; [apply missing_cons; [exact Eq|by intros []]|].
    right. exists (with_hdr f cp.1).
    split; [simpl; split_and!; try done; lia|]. split; [|simpl; by rewrite xmlDocSetRootElement_spec].
    intros Hin%Hb. lia.
  - destruct l as [|pa0 l]; [simpl in Hup; by injection Hup as <-|].
    injection Hup as -> <-.
    destruct (IH s) as (pp & s1 & Hrec & (Hwf1 & Hb1 & Hsame1 & Hpp & Hppd) & Hn1 & Haw); [|done..|].
    { exists (pa :: l), d. done. }
    rewrite (bind_run _ _ _ _ _ Hrec), (bind_run _ _ _ _ _ (copy_node_run false e s1)).
    set (cp := xmlCopyNode false e (e_next s1)). set (s2 := set_next cp.2 s1).
    destruct (at_ptr_ok Orig pp s2 Hpp) as (pn & pup & _ & _ & Hat).
    rewrite (bind_run _ _ _ _ _ Hat).
    destruct (new_ns_step e (pn :: pup) cp.1 s2) as (f & k & Hrun & Hk & Hf & Hns).
    rewrite (bind_run _ _ _ _ _ Hrun), bind_modify.
    destruct (flat_copy_new e s1 cp f k He Hnd eq_refl Hk Hf Hns) as (Hnew & Ht & Hbare & Hch).
    pose proof (proj1 (proj2 Hnew) _ (nid_in _)) as Hr.
    eexists _, _. split; [reflexivity|].
    destruct (new_child_ok s1 k pp (with_hdr f cp.1) Hwf1 Hb1 Hnew Ht Hpp) as (H1 & H2 & H3 & H4 & H5).
    split; [split; [done|]; split; [done|]; split; [by eapply same_but_orig_trans|done]|].
    split; [simpl; lia|]. simpl. rewrite xmlAddChild_spec.
    apply (awaits_extend e _ (e_next s1)); try done.
    + change (pa :: l ++ [d]) with ((pa :: l) ++ [d]).
      apply Forall_app. split; [|apply Forall_singleton; congruence].
      eapply Forall_impl; [exact Hfor|]. intros x [Hx _]. unfold is_element in Hx.
      apply bool_decide_eq_true in Hx. congruence.
    + by eapply below_mono.
    + simpl. destruct l; simpl; lia.
Qed.

Lemma nid_edit_alter p s : nid (alter_node p strip_op (e_edit s)) = nid (e_edit s).
Proof. apply nid_alter. intros n. apply strip_op_hdr. Qed.

Lemma remove_strip p s : nid (e_edit s) ≠ p →
  remove_node p (alter_node p strip_op (e_edit s)) = remove_node p (e_edit s).
Proof. apply remove_alter. intros n. apply strip_op_hdr. Qed.

(** l are the attributes of n without the operation of the NETCONF namespace. *)
Definition without_operation (n : xmlNode) (l : list xmlAttr) : Prop :=
  (Forall (λ a, attr_is "operation" NC_NS_BASE10 a = false) (properties n) ∧ l = properties n) ∨
  ∃ l1 a l2, properties n = l1 ++ a :: l2 ∧ attr_is "operation" NC_NS_BASE10 a = true ∧
    Forall (λ a, attr_is "operation" NC_NS_BASE10 a = false) l1 ∧ l = l1 ++ l2.

(** cp says what n says, but for n's operation. *)
Definition copies (n cp : xmlNode) : Prop :=
  ∃ l, (if is_element n then without_operation n l else l = properties n) ∧
    data cp = DTree (ntype n) (name n) (ns_href <$> ns n) (attr_data <$> l) (content n)
                (data <$> children n).

Lemma remove_first_without n :
  without_operation n (remove_first (attr_is "operation" NC_NS_BASE10) (properties n)).
Proof.
  unfold without_operation. induction (properties n) as [|a l IH]; [left; by split; [constructor|]|].
  cbn [remove_first]. destruct (attr_is "operation" NC_NS_BASE10 a) eqn:E.
  - right. exists [], a, l. done.
  - destruct IH as [[Hl ->]|(l1 & b & l2 & -> & Hb & Hl & ->)].
    + left. split; [by constructor|done].
    + right. exists (a :: l1), b, l2. split; [done|]. split; [done|]. split; [by constructor|done].
Qed.

Lemma strip_op_copies n cp : data cp = data (strip_op n) → copies n cp.
Proof.
  intros Heq. unfold copies. rewrite Heq. unfold strip_op, clrns. rewrite xmlRemoveNsProp_spec.
  destruct (is_element n) eqn:E.
  - eexists. split; [apply remove_first_without|].
    destruct n as [i h cs]. rewrite data_eq. unfold is_element, ntype in *. simpl in *. by rewrite E.
  - eexists. split; [done|]. rewrite E. apply data_eq.
Qed.

(** The configuration after a creation: the whole edit node, as it is without
    its operation attribute, has been put below the counterparts of its
    ancestors. *)
Definition create_result (cur : cursor) (d d' : xmlNode) : Prop :=
  match cur with
  | n :: up => ∃ cp, data cp = data n ∧ inserted up cp d d'
  | [] => False
  end.

(** What awaits a child gets it. *)
Lemma awaits_insert cur k pp cp d d1 : awaits cur k pp d d1 →
  Forall (λ x, ntype x ≠ XML_TEXT_NODE) cur →
  inserted cur cp d (alter_node pp (with_children (add_last cp)) d1).
Proof.
  intros (miss & found & -> & Hm & Haw) Htext. exists miss, found.
  destruct Haw as [(-> & -> & Hl & oc & c & Hoc & Hhd & ->)|(t & Hh & Hpp & Hg)].
  - exists cp. split_and!; try done. destruct found as [|x [|y found]]; simpl in Hl; [lia|lia|].
    by exists oc, c.
  - exists (alter_node pp (with_children (add_last cp)) t). split; [done|]. split; [done|].
    split; [by eapply hole_fill|].
    destruct (hole_bare _ _ _ _ Hh) as (e0 & l0 & Hrev & (Hty & _)).
    assert (ntype t ≠ XML_TEXT_NODE) as Ht.
    { rewrite Hty. apply (proj1 (Forall_forall _ _) Htext). apply elem_of_app. left.
      apply list_elem_of_In, in_rev. rewrite Hrev. by left. }
    apply grows_alter; [done|done|by rewrite ntype_alter_children|done].
Qed.

Lemma add_deep_ok s p cp k :
  wf_doc (e_orig s) → below (e_next s) (e_orig s) → new_node (e_next s) k cp → e_next s ≤ k →
  let s' := upd_doc Orig (xmlAddChild p cp) (set_next k s) in
  wf_doc (e_orig s') ∧ below (e_next s') (e_orig s').
Proof.
  intros Hwf Hb Hn Hk. simpl. rewrite xmlAddChild_spec. split.
  - by eapply wf_add_child.
  - by eapply below_add_child.
Qed.

Lemma head_type_root d : ntype d = XML_DOCUMENT_NODE →
  ntype <$> head [d] = Some XML_DOCUMENT_NODE.
Proof. simpl. by intros ->. Qed.

Lemma path_root d : path_to (nid d) d = Some [d].
Proof. rewrite path_to_eq. by rewrite bool_decide_eq_true_2. Qed.

Lemma create_root_ok s n pa :
  wf_doc (e_orig s) → below (e_next s) (e_orig s) → wf_edit (e_edit s) →
  Forall (λ x, ntype x ≠ XML_DOCUMENT_NODE) (subtree n) → ntype pa = XML_DOCUMENT_NODE →
  ∃ s', create_xml [n; pa] s = Done (EXIT_SUCCESS, s') ∧
    wf_state s' ∧ same_but_orig s s' ∧ create_result [n; pa] (e_orig s) (e_orig s').
Proof.
  intros Hwf Hb Hed Hnd Hpa. unfold create_xml, create_result.
  rewrite bool_decide_eq_false_2 by naive_solver.
  assert ((gets e_orig ≫= λ d, mret (Some (nid d))) s = Done (Some (nid (e_orig s)), s))
    as Hpar by done.
  rewrite (bind_run _ _ _ _ _ Hpar).
  assert (at_ptr Orig (nid (e_orig s)) s = Done ([e_orig s], s)) as Hat.
  { unfold at_ptr. rewrite bind_gets. simpl doc_of. by rewrite path_root. }
  rewrite (bind_run _ _ _ _ _ Hat), (bind_run _ _ _ _ _ (copy_node_run true n s)).
  rewrite bool_decide_eq_true_2 by apply head_type_root, Hwf. rewrite bind_modify.
  eexists. split; [reflexivity|].
  destruct (new_root_ok s _ _ Hwf Hb (copy_new true n (e_next s) Hnd)) as (H1 & H2 & H3 & _).
  split; [done|]. split; [done|].
  eexists. split; [apply xmlCopyNode_deep|]. exists [], [pa]. eexists. split; [done|].
  split; [by intros []|]. split; [done|]. simpl. by rewrite xmlDocSetRootElement_spec.
Qed.

Lemma path_nondoc d p n up : wf_doc d → path_to p d = Some (n :: up) → p ≠ nid d →
  ntype n ≠ XML_DOCUMENT_NODE.
Proof.
  intros Hwf Hpath Hp. destruct (path_to_below _ _ _ Hpath) as ([|x l] & Hl & Hfor & Hnil).
  - naive_solver.
  - injection Hl as -> _. apply Forall_cons in Hfor as [Hx _].
    pose proof (nondoc_subtree _ _ Hwf Hx) as Hx'. rewrite subtree_eq, Forall_cons in Hx'. tauto.
Qed.

Lemma create_below_ok s n pa up :
  wf_doc (e_orig s) → below (e_next s) (e_orig s) → wf_edit (e_edit s) →
  Forall (λ x, ntype x ≠ XML_DOCUMENT_NODE) (subtree n) → ntype pa ≠ XML_DOCUMENT_NODE →
  up_ok (pa :: up) →
  ∃ s', create_xml (n :: pa :: up) s = Done (EXIT_SUCCESS, s') ∧
    wf_state s' ∧ same_but_orig s s' ∧ create_result (n :: pa :: up) (e_orig s) (e_orig s').
Proof.
  intros Hwf Hb Hed Hnd Hpa Hok.
  destruct (edit_create_r_xml (pa :: up) s Hok Hwf Hb)
    as (pp & s1 & Hrun & (Hwf1 & Hb1 & Hs1 & Hpp & Hppd) & Hn1 & Haw).
  unfold create_xml, create_result. rewrite bool_decide_eq_true_2 by done.
  rewrite (bind_run _ _ _ _ _ Hrun).
  destruct (at_ptr_ok Orig pp s1 Hpp) as (pn & pup & Hpath & Hpn & Hat).
  rewrite (bind_run _ _ _ _ _ Hat), (bind_run _ _ _ _ _ (copy_node_run true n s1)).
  pose proof (path_nondoc _ _ _ _ Hwf1 Hpath Hppd) as Ht.
  rewrite bool_decide_eq_false_2 by (simpl; congruence). rewrite bind_modify.
  eexists. split; [reflexivity|].
  pose proof (copy_new true n (e_next s1) Hnd) as Hnew.
  destruct (add_deep_ok s1 pp _ _ Hwf1 Hb1 Hnew) as [H1 H2].
  { pose proof (xmlCopyNode_next true n (e_next s1)). lia. }
  split; [split; [done|split; [done|]]|split; [done|]].
  - simpl. destruct Hs1 as (-> & _). done.
  - eexists. split; [apply xmlCopyNode_deep|]. simpl. rewrite xmlAddChild_spec.
    eapply awaits_insert; [exact Haw|]. destruct Hok as (l & d & -> & _ & Hd & Hfor).
    apply Forall_app. split; [|apply Forall_singleton; congruence].
    eapply Forall_impl; [exact Hfor|]. intros x [Hx _]. unfold is_element in Hx.
    apply bool_decide_eq_true in Hx. congruence.
Qed.

Lemma create_xml_ok s p n up :
  wf_state s → nid (e_edit s) ≠ p → path_to p (e_edit s) = Some (n :: up) →
  ∃ s', create_xml (n :: up) s = Done (EXIT_SUCCESS, s') ∧
    wf_state s' ∧ same_but_orig s s' ∧ create_result (n :: up) (e_orig s) (e_orig s').
Proof.
  intros (Hwf & Hb & Hed) Hne Hp.
  destruct (path_parents _ _ _ _ Hed Hp Hne) as [Hn Hup].
  pose proof (nondoc_subtree _ _ (proj1 Hed) Hn) as Hnd.
  destruct Hup as [->|(Hok & pa & up' & -> & Hpa)].
  - apply create_root_ok; try done. apply Hed.
  - by apply create_below_ok.
Qed.

(** What an operation on an edit node leaves of the state. *)
Definition consumed (p : ptr) (s s' : estate) : Prop :=
  wf_state s' ∧ e_edit s' = remove_node p (e_edit s) ∧ e_be s' = e_be s ∧ e_err s' = e_err s.

Lemma edit_create_spec f p s :
  wf_state s → nid (e_edit s) ≠ p → p ∈ ids (e_edit s) →
  ∃ n up s', path_to p (alter_node p strip_op (e_edit s)) = Some (n :: up) ∧
    edit_create (S f) p false s = Done (EXIT_SUCCESS, s') ∧ consumed p s s' ∧
    create_result (n :: up) (e_orig s) (e_orig s').
Proof.
  intros (Hwf & Hb & Hed) Hne Hp.
  set (s1 := upd_doc Edit (alter_node p strip_op) s).
  assert (wf_state s1) as Hs1 by (split_and!; [done|done|by apply wf_edit_strip]).
  assert (ids (e_edit s1) = ids (e_edit s)) as Hids.
  { apply alter_hdr_ids. intros x. destruct (strip_op_hdr x) as (? & ? & _). done. }
  destruct (at_ptr_ok Edit p s1) as (n & up & Hpath & Hn & Hat); [change (p ∈ ids (e_edit s1)); by rewrite Hids|].
  assert (nid (e_edit s1) ≠ p) as Hne1 by (simpl; by rewrite nid_edit_alter).
  destruct (create_xml_ok s1 p n up Hs1 Hne1 Hpath) as (s2 & Hrun & (H1 & H2 & H3) & (He & Hbe & Her) & Hres).
  cbn [edit_create]. rewrite bind_modify, (bind_run _ _ _ _ _ Hat).
  destruct up as [|pa up]; [done|]. rewrite (bind_run _ _ _ _ _ Hrun).
  rewrite drop_edit_node by (rewrite He, Hids; done).
  eexists n, (pa :: up), _. split; [done|]. split; [reflexivity|]. split; [|done].
  split_and!; try done.
  - split_and!; [done|done|by apply wf_edit_remove].
  - simpl. rewrite He. simpl. by apply remove_strip.
Qed.

(** ** Replacement *)
Lemma delete_orig_ok f c s : wf_state s → c ∈ forest (children (e_orig s)) →
  ∃ s', edit_delete (S f) Orig (nid c) false s = Done (EXIT_SUCCESS, s') ∧
    wf_state s' ∧ same_but_orig s s' ∧ e_orig s' = remove_node (nid c) (e_orig s).
Proof.
  intros (Hwf & Hb & Hed) Hc. eexists.
  split; [apply edit_delete_xml; by apply forest_in_ids|].
  split; [split_and!; [by apply wf_remove|by apply below_remove|done]|done].
Qed.

(** The configuration an edit_replace() starts its creation from. *)
Definition without_equiv (edit : cursor) (d : xmlNode) : xmlNode :=
  match find_element_equiv (Some d) edit ≫= head with
  | Some old => remove_node (nid old) d
  | None => d
  end.

Lemma edit_replace_spec f p s n0 up0 :
  wf_state s → nid (e_edit s) ≠ p → path_to p (e_edit s) = Some (n0 :: up0) →
  ∃ n up s', path_to p (alter_node p strip_op (e_edit s)) = Some (n :: up) ∧
    edit_replace (S f) (Some p) false s = Done (EXIT_SUCCESS, s') ∧ consumed p s s' ∧
    create_result (n :: up) (without_equiv (n0 :: up0) (e_orig s)) (e_orig s').
Proof.
  intros Hs Hne Hpath. pose proof (path_in _ _ _ _ Hpath) as Hp.
  destruct (at_ptr_ok Edit p s Hp) as (n' & up' & Hpath' & _ & Hat).
  assert (n' :: up' = n0 :: up0) as [= -> ->] by (simpl in Hpath'; congruence).
  unfold edit_replace, without_equiv. rewrite (bind_run _ _ _ _ _ Hat), bind_gets.
  destruct (find_element_equiv (Some (e_orig s)) (n0 :: up0)) as [oc|] eqn:Eq.
  - destruct (equiv_head _ _ _ Eq) as (c & Hc & Hcd). cbn [mbind option_bind]. rewrite Hc.
    destruct (delete_orig_ok f c s Hs Hcd) as (s1 & Hrun & Hs1 & (He & Hb & Hr) & Ho).
    rewrite (and_then_run _ _ _ _ Hrun), <-Ho.
    destruct (edit_create_spec f p s1) as (n & up & s2 & Hn & Hrun2 & (H1 & H2 & H3 & H4) & Hres);
      [done|by rewrite He|by rewrite He|].
    rewrite He in Hn, H2. exists n, up, s2.
    split; [done|]. split; [done|]. split; [|done]. unfold consumed.
    split; [done|]. split; [done|]. split; congruence.
  - rewrite (and_then_run _ _ s s) by done.
    destruct (edit_create_spec f p s) as (n & up & s2 & ? & ? & ? & ?); [done..|].
    exists n, up, s2. done.
Qed.

(** ** Merging *)
Lemma subtree_size n m : m ∈ subtree n → tsize m ≤ tsize n.
Proof.
  induction n as [i h cs IH] using xmlNode_ind'. rewrite subtree_eq.
  intros [->|(c & Hc & Hm)%forest_inv]%elem_of_cons; [done|].
  rewrite Forall_forall in IH. specialize (IH c Hc Hm).
  pose proof (tsize_child c (XmlNode i h cs) Hc). lia.
Qed.

Lemma path_subtree p d n up : path_to p d = Some (n :: up) → n ∈ subtree d.
Proof. intros H%path_to_is_path. eapply is_path_subtree; [exact H|]. set_solver. Qed.

(** A merge that is not stopped at a key consumes its edit node. *)
Definition merge_ok (fuel : nat) : Prop := ∀ p s n up,
  wf_state s → nid (e_edit s) ≠ p → path_to p (e_edit s) = Some (n :: up) →
  is_key (n :: up) = false → tsize n < fuel →
  ∃ s', edit_merge fuel p false s = Done (EXIT_SUCCESS, s') ∧ consumed p s s'.

(** The path of a node after another node was removed. *)
Lemma path_remove p q d cur : NoDup (ids d) → path_to p d = Some cur →
  p ∈ ids (remove_node q d) → path_to p (remove_node q d) = Some (remove_node q <$> cur).
Proof.
  revert cur. induction d as [i h cs IH] using xmlNode_ind'. intros cur Hnd Hp Hin.
  rewrite Forall_forall in IH. rewrite remove_node_eq in *. rewrite path_to_eq in Hp |- *.
  simpl nid in *. simpl children in *. case_bool_decide as Hi.
  { injection Hp as <-. by rewrite list_fmap_singleton, remove_node_eq. }
  apply fmap_Some in Hp as (cur' & (x & Hx & Hpx)%path_list_Some & ->).
  apply list_elem_of_split in Hx as (cs1 & cs2 & ->).
  assert (p ∈ ids x) as Hpin by (apply path_to_Some; eauto).
  destruct (nodup_siblings _ _ _ _ _ _ Hnd Hpin) as (Hndx & _ & H1 & H2).
  apply elem_of_ids in Hin as [?|(y & Hy & Hpy)]; [done|]. simpl in Hy.
  unfold remove_list in Hy. apply list_elem_of_fmap in Hy as (y0 & -> & [Hyq Hy]%list_elem_of_filter).
  assert (y0 = x) as ->.
  { pose proof (subtree_remove_sub _ _ _ Hpy). rewrite elem_of_app, elem_of_cons in Hy. naive_solver. }
  rewrite remove_list_app, path_list_skip.
  - assert (remove_list q (x :: cs2) = remove_node q x :: remove_list q cs2) as Hrl.
    { unfold remove_list. by rewrite filter_cons_True. }
    rewrite Hrl, (path_list_cons _ _ _ (remove_node q <$> cur')) by (apply IH; set_solver).
    rewrite fmap_app, list_fmap_singleton, remove_node_eq, remove_list_app, Hrl. done.
  - intros z (z0 & -> & [_ Hz]%list_elem_of_filter)%list_elem_of_fmap Hpz%subtree_remove_sub.
    by eapply H1.
Qed.

(** Removing one child leaves the parent and the other children. *)
Lemma remove_child p d n up c : NoDup (ids d) → path_to p d = Some (n :: up) → c ∈ children n →
  path_to p (remove_node (nid c) d) = Some (remove_node (nid c) n :: (remove_node (nid c) <$> up)) ∧
  ∀ c', c' ∈ children n → nid c' ≠ nid c → c' ∈ children (remove_node (nid c) n).
Proof.
  intros Hnd Hp Hc. pose proof (path_subtree _ _ _ _ Hp) as Hn.
  pose proof (path_to_head _ _ _ Hp) as (? & ? & [= <- <-] & Hnp).
  pose proof (nodup_subtree _ _ Hnd Hn) as Hndn. split.
  - apply (path_remove p (nid c) d (n :: up)); [done|done|]. apply ids_remove_keep; [by eapply path_in|].
    intros m Hm Hq. assert (m = c) as ->.
    { apply (node_unique d); try done. eapply subtree_trans; [exact Hn|].
      apply forest_subtree. by eapply subtree_child, subtree_self. }
    rewrite <-Hnp. by apply parent_not_below.
  - intros c' Hc' Hne. rewrite children_remove. apply list_elem_of_fmap. exists c'. split.
    + rewrite remove_node_notin; [done|]. by apply (siblings_disjoint n).
    + by apply list_elem_of_filter.
Qed.

Lemma merge_children_ok fuel p E0 : merge_ok fuel → nid E0 ≠ p →
  ∀ cs s n up, wf_state s → nid (e_edit s) = nid E0 →
  path_to p (e_edit s) = Some (n :: up) → tsize n ≤ fuel →
  (∀ c, c ∈ cs → c ∈ children n) → NoDup (nid <$> cs) →
  remove_node p (e_edit s) = remove_node p E0 →
  ∃ s', merge_children (λ q, edit_merge fuel q false) (nid <$> cs) s = Done (EXIT_SUCCESS, s') ∧
    wf_state s' ∧ p ∈ ids (e_edit s') ∧ remove_node p (e_edit s') = remove_node p E0 ∧
    e_be s' = e_be s ∧ e_err s' = e_err s.
Proof.
  intros Hmerge Hroot. induction cs as [|c cs IH]; intros s n up Hs Hid Hp Hsz Hcs Hnd Hrem.
  { exists s. split; [done|]. split; [done|]. split; [by eapply path_in|done]. }
  assert (NoDup (ids (e_edit s))) as Hnde by apply Hs.
  assert (c ∈ children n) as Hc by set_solver.
  assert (c ∈ subtree (e_edit s)) as Hcs'.
  { eapply subtree_trans; [by eapply path_subtree|].
    apply forest_subtree. by eapply subtree_child, subtree_self. }
  destruct (at_ptr_ok Edit (nid c) s (subtree_ids _ _ Hcs')) as (c' & cup & Hcp & Hcn & Hat).
  assert (c' = c) as -> by (apply (node_unique (e_edit s)); eauto using path_subtree).
  rewrite fmap_cons. cbn [merge_children]. rewrite (bind_run _ _ _ _ _ Hat).
  rewrite fmap_cons, NoDup_cons in Hnd. destruct Hnd as [Hnc Hnd].
  destruct (is_key (c :: cup)) eqn:Hk; [eapply IH; eauto; set_solver|].
  assert (nid c ∈ ids n) as Hcn'.
  { apply elem_of_ids. right. exists c. split; [done|apply nid_in]. }
  assert (nid (e_edit s) ≠ nid c) as Hce.
  { intros Heq. assert (e_edit s = c) as He.
    { apply (node_unique (e_edit s)); auto using subtree_self. }
    pose proof (tsize_child _ _ Hc). pose proof (subtree_size _ _ (path_subtree _ _ _ _ Hp)).
    rewrite He in *. lia. }
  destruct (Hmerge (nid c) s c cup Hs Hce Hcp Hk) as (s1 & Hrun & Hs1 & He1 & Hb1 & Hr1).
  { pose proof (tsize_child _ _ Hc). lia. }
  rewrite (and_then_run _ _ _ _ Hrun).
  destruct (remove_child p _ n up c Hnde Hp Hc) as [Hp' Hkeep].
  destruct (IH s1 (remove_node (nid c) n) (remove_node (nid c) <$> up)) as (s' & Hrun' & ? & ? & ? & ? & ?).
  - done.
  - by rewrite He1, nid_remove.
  - by rewrite He1.
  - unfold tsize in *. pose proof (sublist_length _ _ (ids_remove (nid c) n)) as Hl.
    unfold ids in Hl. rewrite !length_fmap in Hl. lia.
  - intros x Hx. apply Hkeep; [set_solver|]. intros Heq. apply Hnc. rewrite <-Heq.
    by apply list_elem_of_fmap_2.
  - done.
  - rewrite He1, <-Hrem. pose proof (path_to_head _ _ _ Hp) as (? & ? & [= <- <-] & Hnp).
    eapply remove_remove; [done|exact (path_subtree _ _ _ _ Hp)|done|by rewrite Hid|done].
  - exists s'. split_and!; try done; congruence.
Qed.

Lemma children_nodup n : NoDup (ids n) → NoDup (nid <$> children n).
Proof.
  destruct n as [i h cs]. unfold ids. rewrite subtree_eq, fmap_cons, NoDup_cons. simpl.
  intros [_ H]. induction cs as [|c cs IH]; [constructor|].
  rewrite forest_cons, fmap_app, NoDup_app in H. destruct H as (_ & H1 & H2).
  rewrite fmap_cons, NoDup_cons. split; [|auto].
  intros (c' & Heq & Hc')%list_elem_of_fmap. apply (H1 (nid c)); [apply nid_in|].
  apply elem_of_ids_list. exists c'. split; [done|]. rewrite Heq. apply nid_in.
Qed.

Lemma tsize_pos n : 0 < tsize n.
Proof. unfold tsize. rewrite subtree_eq. simpl. lia. Qed.

Lemma merge_ok_all fuel : merge_ok fuel.
Proof.
  induction fuel as [|f IH]; intros p s n up Hs Hne Hp Hk Hsz; [lia|].
  pose proof (tsize_pos n). destruct f as [|f]; [lia|].
  destruct (at_ptr_ok Edit p s (path_in _ _ _ _ Hp)) as (n' & up' & Hp' & _ & Hat).
  assert (n' :: up' = n :: up) as [= -> ->] by (simpl in Hp'; congruence).
  cbn [edit_merge]. rewrite (bind_run _ _ _ _ _ Hat), bind_gets.
  destruct (find_element_equiv _ (n :: up)) as [oc|] eqn:Eq.
  - rewrite Hk. destruct (from_option is_text false (first_child n)).
    + destruct (edit_replace_spec f p s n up Hs Hne Hp) as (? & ? & s' & _ & ? & ? & _). eauto.
    + destruct (merge_children_ok (S f) p (e_edit s) IH Hne (children n) s n up)
        as (s1 & Hrun & Hs1 & Hp1 & Hrem & Hb & Hr); try done; [lia| |].
      { eapply children_nodup, nodup_subtree; [apply Hs|exact (path_subtree _ _ _ _ Hp)]. }
      rewrite (and_then_run _ _ _ _ Hrun), drop_edit_node by done.
      eexists. split; [reflexivity|]. destruct Hs1 as (? & ? & ?).
      split; [split_and!; [done|done|by apply wf_edit_remove]|done].
  - destruct (edit_create_spec f p s Hs Hne (path_in _ _ _ _ Hp)) as (? & ? & s' & _ & ? & ? & _).
    eauto.
Qed.

(** A key that has a counterpart stays. *)
Lemma edit_merge_key f p s n up oc : path_to p (e_edit s) = Some (n :: up) →
  is_key (n :: up) = true → find_element_equiv (Some (e_orig s)) (n :: up) = Some oc →
  edit_merge (S f) p false s = Done (EXIT_SUCCESS, s).
Proof.
  intros Hp Hk Ho. destruct (at_ptr_ok Edit p s (path_in _ _ _ _ Hp)) as (n' & up' & Hp' & _ & Hat).
  assert (n' :: up' = n :: up) as [= -> ->] by (simpl in Hp'; congruence).
  cbn [edit_merge]. by rewrite (bind_run _ _ _ _ _ Hat), bind_gets, Ho, Hk.
Qed.

(** ** The default operation *)

(** The first child of the document, as an edit node. *)
Lemma first_child_path d c : wf_doc d → first_child d = Some c →
  path_to (nid c) d = Some [c; d] ∧ nid d ≠ nid c.
Proof.
  intros (Hnd & _) Hc. destruct d as [i h [|c' cs]]; [done|]. injection Hc as ->.
  assert (i ≠ nid c) as Hne.
  { intros Heq. assert (nid c ∉ ids c) as H; [|by destruct (H (nid_in c))].
    rewrite <-Heq at 1. apply (parent_not_below (XmlNode i h (c :: cs)) c Hnd). simpl. set_solver. }
  split; [|done]. rewrite path_to_eq. simpl nid. rewrite bool_decide_eq_false_2 by done.
  simpl. by rewrite path_root.
Qed.

Lemma children_remove_first d c cs : NoDup (ids d) → children d = c :: cs →
  children (remove_node (nid c) d) = cs.
Proof.
  intros Hnd Hc. destruct d as [i h cs']. simpl in Hc. subst cs'.
  rewrite children_remove. simpl children.
  pose proof (nodup_siblings i h [] c cs (nid c) Hnd (nid_in c)) as (_ & _ & _ & H).
  change (c :: cs) with ([c] ++ cs). rewrite remove_list_app, (remove_list_notin _ cs) by done.
  unfold remove_list. rewrite filter_cons_False by tauto. done.
Qed.

(** Loops over the top-level nodes of the edit document end, with all of them
    consumed, when each round consumes the first. *)
Lemma top_loop_ok (loop : nat → M estate exit) (body : ptr → M estate exit) s :
  (∀ n s, loop (S n) s = match first_child (e_edit s) with
     | None => Done (EXIT_SUCCESS, s)
     | Some c => and_then (body (nid c)) (loop n) s end) →
  (∀ s0 c cs, wf_state s0 → children (e_edit s0) = c :: cs →
     (∀ x, x ∈ c :: cs → x ∈ children (e_edit s)) → hdr (e_edit s0) = hdr (e_edit s) →
     ∃ s', body (nid c) s0 = Done (EXIT_SUCCESS, s') ∧ consumed (nid c) s0 s') →
  wf_state s → ∀ n, length (children (e_edit s)) < n →
  ∃ s', loop n s = Done (EXIT_SUCCESS, s') ∧ wf_state s' ∧ children (e_edit s') = [] ∧
    e_be s' = e_be s ∧ e_err s' = e_err s.
Proof.
  intros Hloop Hbody Hwf n Hn.
  assert (∀ cs s0 n, wf_state s0 → children (e_edit s0) = cs → length cs < n →
    (∀ x, x ∈ cs → x ∈ children (e_edit s)) → hdr (e_edit s0) = hdr (e_edit s) →
    ∃ s', loop n s0 = Done (EXIT_SUCCESS, s') ∧ wf_state s' ∧ children (e_edit s') = [] ∧
      e_be s' = e_be s0 ∧ e_err s' = e_err s0) as Hgen; [|by eapply Hgen].
  clear Hwf n Hn. induction cs as [|c cs IH]; intros s0 [|n] Hs Hc Hn Hsub Hid; simpl in Hn; try lia.
  - rewrite Hloop. unfold first_child. rewrite Hc. simpl. eauto 10.
  - rewrite Hloop. unfold first_child. rewrite Hc. simpl.
    destruct (Hbody s0 c cs Hs Hc Hsub Hid) as (s1 & Hrun & Hs1 & He & Hb & Hr).
    rewrite (and_then_run _ _ _ _ Hrun).
    destruct (IH s1 n) as (s' & ? & ? & ? & ? & ?); [done| |lia|set_solver| |].
    + rewrite He. eapply children_remove_first; [apply Hs|done].
    + by rewrite He, hdr_remove.
    + exists s'. split_and!; try done; congruence.
Qed.

Lemma length_children d : length (children d) < tsize d.
Proof.
  unfold tsize. rewrite subtree_eq. induction (children d) as [|c cs IH]; [simpl; lia|].
  rewrite forest_cons. cbn [length] in *. rewrite length_app. pose proof (tsize_pos c). unfold tsize in *. lia.
Qed.

(** No top-level node of the edit document is named like a key. *)
Definition no_top_key (d : xmlNode) : Prop := ∀ x, x ∈ children d → is_key [x; d] = false.

Lemma is_key_hdr x d d' : hdr d = hdr d' → is_key [x; d] = is_key [x; d'].
Proof. intros H. unfold is_key, up_name. simpl. unfold name. by rewrite H. Qed.

Lemma default_merge_ok fuel s : wf_state s → no_top_key (e_edit s) →
  tsize (e_edit s) < fuel →
  ∃ s', default_merge fuel fuel false s = Done (EXIT_SUCCESS, s') ∧ wf_state s' ∧
    children (e_edit s') = [] ∧ e_be s' = e_be s ∧ e_err s' = e_err s.
Proof.
  intros Hs Hkey Hf. apply (top_loop_ok (λ n, default_merge n fuel false)
    (λ p, edit_merge fuel p false)); [| |done|pose proof (length_children (e_edit s)); lia].
  { intros n s0. cbn [default_merge]. rewrite bind_gets. by destruct (first_child (e_edit s0)). }
  intros s0 c cs Hs0 Hc Hsub Hh.
  destruct (first_child_path (e_edit s0) c) as [Hp Hne];
    [apply Hs0|unfold first_child; by rewrite Hc|].
  apply (merge_ok_all fuel (nid c) s0 c [e_edit s0]); try done.
  - rewrite (is_key_hdr c _ _ Hh). apply Hkey, Hsub. set_solver.
  - assert (tsize c < tsize (e_edit s)); [|lia]. apply tsize_child, Hsub. set_solver.
Qed.

Lemma default_replace_ok fuel s : wf_state s → tsize (e_edit s) < fuel →
  ∃ s', default_replace fuel fuel false s = Done (EXIT_SUCCESS, s') ∧ wf_state s' ∧
    children (e_edit s') = [] ∧ e_be s' = e_be s ∧ e_err s' = e_err s.
Proof.
  intros Hs Hf. destruct fuel as [|f]; [lia|].
  apply (top_loop_ok (λ n, default_replace n (S f) false)
    (λ p, edit_replace (S f) (Some p) false ≫= λ _, mret EXIT_SUCCESS)).
  - intros n s0. cbn [default_replace]. rewrite bind_gets.
    destruct (first_child (e_edit s0)) as [c|]; [|done]. unfold and_then, mbind, M_bind.
    by destruct (edit_replace (S f) (Some (nid c)) false s0) as [[[] ?]| |].
  - intros s0 c cs Hs0 Hc Hsub Hh.
    destruct (first_child_path (e_edit s0) c) as [Hp Hne];
      [apply Hs0|unfold first_child; by rewrite Hc|].
    destruct (edit_replace_spec f (nid c) s0 c [e_edit s0] Hs0 Hne Hp)
      as (? & ? & s' & _ & Hrun & Hcons & _).
    exists s'. by rewrite (bind_run _ _ _ _ _ Hrun).
  - done.
  - pose proof (length_children (e_edit s)). lia.
Qed.

(** ** Explicit operations *)
Lemma phase_nodes op body s v : op_string op = Some v → v ∈ op_names →
  phase op body s = for_nodes body (op_elements v (e_edit s)) s.
Proof.
  intros Hv Hin. unfold phase. rewrite bind_gets. unfold get_operation_elements.
  rewrite Hv. cbn [mbind option_bind]. by rewrite xmlXPathEvalExpression_spec.
Qed.

(** No element lies below another one with the same operation. *)
Definition flat_ops (d : xmlNode) : Prop :=
  ∀ n m v, n ∈ subtree d → m ∈ forest (children n) →
    op_attr n = Some v → op_attr m = Some v → False.

(** The edit document only ever loses nodes. *)
Definition shrink (d d' : xmlNode) : Prop := ∃ p, d' = remove_node p d.

Lemma op_attr_remove p n : op_attr (remove_node p n) = op_attr n.
Proof. unfold op_attr, is_element, ntype, properties. by rewrite hdr_remove. Qed.

Lemma flat_ops_shrink d d' : rtc shrink d d' → flat_ops d → flat_ops d'.
Proof.
  induction 1 as [|d ? d' [p ->] _ IH]; [done|]. intros Hd. apply IH. clear IH.
  intros n m v (n0 & Hn & ->)%subtree_remove (m0 & Hm & ->)%forest_remove.
  rewrite !op_attr_remove. by apply Hd.
Qed.

Lemma no_top_key_shrink d d' : rtc shrink d d' → no_top_key d → no_top_key d'.
Proof.
  induction 1 as [|d ? d' [p ->] _ IH]; [done|]. intros Hd. apply IH. clear IH.
  intros x. rewrite children_remove. unfold remove_list.
  intros (x0 & -> & [_ Hx]%list_elem_of_filter)%list_elem_of_fmap.
  rewrite (is_key_hdr _ _ d) by apply hdr_remove. rewrite <-(Hd x0 Hx).
  unfold is_key, up_name, name_is. simpl. unfold name. by rewrite hdr_remove.
Qed.

Lemma tsize_shrink d d' : rtc shrink d d' → tsize d' ≤ tsize d.
Proof.
  induction 1 as [|d ? d' [p ->] _ IH]; [done|].
  pose proof (sublist_length _ _ (ids_remove p d)) as Hl. unfold ids in Hl.
  rewrite !length_fmap in Hl. unfold tsize in *. lia.
Qed.

(** Pointers none of which lies below another one. *)
Definition antichain (l : list ptr) (d : xmlNode) : Prop :=
  ∀ p p', p ∈ l → p' ∈ l → p ≠ p' → ∀ m, m ∈ subtree d → nid m = p → p' ∉ ids m.

Lemma antichain_remove l q d : antichain l d → antichain l (remove_node q d).
Proof.
  intros H p p' Hp Hp' Hne m (m0 & Hm0 & ->)%subtree_remove. rewrite nid_remove.
  intros Hm Hin%subtree_remove_sub. by eapply (H p p').
Qed.

Lemma op_elements_antichain v d : NoDup (ids d) → flat_ops d → antichain (op_elements v d) d.
Proof.
  intros Hnd Hflat p p' Hp Hp' Hne m Hm Hmp Hin. unfold op_elements in *.
  apply list_elem_of_fmap in Hp as (n & -> & [Hn Hnd']%list_elem_of_filter).
  apply list_elem_of_fmap in Hp' as (n' & -> & [Hn' Hnd'']%list_elem_of_filter).
  assert (m = n) as -> by (by apply (node_unique d)).
  apply list_elem_of_fmap in Hin as (x & Heq & Hx).
  assert (x = n') as ->.
  { apply (node_unique d); [done| |done|done]. by eapply subtree_trans. }
  rewrite subtree_eq in Hx. apply elem_of_cons in Hx as [->|Hx]; [done|].
  by apply (Hflat n n' v).
Qed.

(** Result of an operation or a phase: the edit document shrinks; a failure is a
    delete operation whose data do not exist. *)
Definition op_result (s : estate) (r : exit) (s' : estate) : Prop :=
  wf_state s' ∧ rtc shrink (e_edit s) (e_edit s') ∧ nid (e_edit s') = nid (e_edit s) ∧
  e_be s' = e_be s ∧
  match r with
  | EXIT_SUCCESS => e_err s' = e_err s
  | EXIT_FAILURE => e_err s' = Some (nc_err_new NC_ERR_DATA_MISSING)
  end.

Lemma op_result_refl s : wf_state s → op_result s EXIT_SUCCESS s.
Proof. intros. split_and!; try done; apply H. Qed.

Lemma op_result_trans s1 s2 s3 r :
  op_result s1 EXIT_SUCCESS s2 → op_result s2 r s3 → op_result s1 r s3.
Proof.
  intros (_ & H1 & Hn & Hb & He) (H3 & H4 & Hn' & Hb' & He').
  split; [done|]. split; [by etransitivity|]. split; [congruence|]. split; [congruence|].
  destruct r; congruence.
Qed.

Lemma consumed_result p s s' : consumed p s s' → op_result s EXIT_SUCCESS s'.
Proof.
  intros (H1 & H2 & H3 & H4). split; [done|]. rewrite H2, nid_remove.
  split; [|done]. apply rtc_once. by exists p.
Qed.

Section loop.
Variable Inv : estate → Prop.
Variable body : ptr → M estate exit.
(** Each round consumes its node, skips it or fails. *)
Hypothesis body_ok : ∀ p s, wf_state s → Inv s → p ∈ ids (e_edit s) → nid (e_edit s) ≠ p →
  ∃ r s', body p s = Done (r, s') ∧ op_result s r s' ∧ Inv s' ∧
    (e_edit s' = remove_node p (e_edit s) ∨ e_edit s' = e_edit s).

Lemma for_nodes_ok l : ∀ s, wf_state s → Inv s → NoDup l → antichain l (e_edit s) →
  (∀ p, p ∈ l → p ∈ ids (e_edit s) ∧ nid (e_edit s) ≠ p) →
  ∃ r s', for_nodes body l s = Done (r, s') ∧ op_result s r s' ∧ Inv s'.
Proof.
  induction l as [|p l IH]; intros s Hs HI Hnd Hanti Hin.
  { exists EXIT_SUCCESS, s. split; [done|]. split; [by apply op_result_refl|done]. }
  apply NoDup_cons in Hnd as [Hpl Hnd].
  destruct (Hin p) as [Hp Hne]; [set_solver|].
  destruct (body_ok p s Hs HI Hp Hne) as (r & s1 & Hrun & Hres & HI1 & He).
  cbn [for_nodes]. destruct r.
  - rewrite (and_then_run _ _ _ _ Hrun).
    destruct (IH s1) as (r & s' & Hrun' & Hres' & HI'); [apply Hres|done|done| | |].
    + assert (antichain l (e_edit s)) by (intros x y ? ?; apply Hanti; set_solver).
      destruct He as [-> | ->]; [by apply antichain_remove|done].
    + intros p' Hp'. destruct (Hin p') as [Hp1 Hp2]; [set_solver|].
      destruct He as [-> | ->]; [|done]. rewrite nid_remove. split; [|done].
      apply ids_remove_keep; [done|]. intros m Hm Hmp.
      apply (Hanti p p'); [set_solver|set_solver| |done|done]. by intros ->.
    + exists r, s'. split; [done|]. split; [by eapply op_result_trans|done].
  - exists EXIT_FAILURE, s1. unfold and_then. by rewrite (bind_run _ _ _ _ _ Hrun).
Qed.

Lemma phase_ok op v s : op_string op = Some v → v ∈ op_names →
  wf_state s → Inv s → flat_ops (e_edit s) →
  ∃ r s', phase op body s = Done (r, s') ∧ op_result s r s' ∧ Inv s'.
Proof.
  intros Hv Hin Hs HI Hflat. rewrite (phase_nodes op body s v Hv Hin).
  destruct Hs as (H1 & H2 & Hwf & Hleaf). pose proof Hwf as (Hnd & Hdoc & _).
  apply for_nodes_ok; [done|done| |by apply op_elements_antichain|].
  - unfold op_elements. unfold ids in Hnd. eapply sublist_NoDup; [exact Hnd|].
    apply fmap_sublist, sublist_filter.
  - intros p (n & -> & [Hn Hnd']%list_elem_of_filter)%list_elem_of_fmap.
    split; [by apply subtree_ids|]. intros Heq.
    assert (e_edit s = n) as He by (apply (node_unique (e_edit s)); auto using subtree_self).
    unfold op_attr, is_element in Hn. rewrite <-He, Hdoc in Hn. done.
Qed.
End loop.

Lemma drop_equiv_ok edit d d' : rtc (drop_equiv edit) d d' →
  wf_doc d → (wf_doc d' ∧ (∀ k, below k d → below k d') ∧ length (ids d') ≤ length (ids d)).
Proof.
  induction 1 as [|d x d' [? c up Heq] _ IH]; [done|]. intros Hwf.
  destruct IH as (H1 & H2 & H3); [by apply wf_remove|]. split_and!; [done| |].
  - intros k Hk. by apply H2, below_remove.
  - pose proof (sublist_length _ _ (ids_remove (nid c) d0)). lia.
Qed.

(** Fuel for the loops over counterparts, before anything is created. *)
Definition fuel_orig (fuel : nat) (s : estate) : Prop := length (ids (e_orig s)) < fuel.
Definition fuel_edit (fuel : nat) (s : estate) : Prop := tsize (e_edit s) < fuel.

(** The common part of delete and remove: counterparts and edit node go. *)
Lemma remove_result fuel p d' s edit :
  wf_state s → rtc (drop_equiv edit) (e_orig s) d' →
  fuel_orig fuel s → fuel_edit fuel s → nid (e_edit s) ≠ p →
  let s' := upd_doc Edit (remove_node p) (with_orig d' s) in
  op_result s EXIT_SUCCESS s' ∧ (fuel_orig fuel s' ∧ fuel_edit fuel s') ∧
  (e_edit s' = remove_node p (e_edit s) ∨ e_edit s' = e_edit s).
Proof.
  intros (Hwf & Hb & Hed) Hr Ho He Hp s'.
  destruct (drop_equiv_ok _ _ _ Hr Hwf) as (H1 & H2 & H3).
  assert (consumed p s s') as Hc.
  { split_and!; try done. split_and!; [done|by apply H2|by apply wf_edit_remove]. }
  pose proof (consumed_result _ _ _ Hc) as Hres.
  split; [done|]. split; [|by left]. split.
  - unfold fuel_orig in *. simpl. lia.
  - unfold fuel_edit in *. destruct Hres as (_ & Hsh%tsize_shrink & _). lia.
Qed.

Lemma delete_node_ok fuel p s : wf_state s → fuel_orig fuel s ∧ fuel_edit fuel s →
  p ∈ ids (e_edit s) → nid (e_edit s) ≠ p →
  ∃ r s', delete_node fuel false p s = Done (r, s') ∧ op_result s r s' ∧
    (fuel_orig fuel s' ∧ fuel_edit fuel s') ∧
    (e_edit s' = remove_node p (e_edit s) ∨ e_edit s' = e_edit s).
Proof.
  intros Hs [Ho He] Hp Hne. destruct (at_ptr_ok Edit p s Hp) as (n & up & Hpath & _ & Hat).
  unfold delete_node. rewrite (bind_run _ _ _ _ _ Hat), bind_gets.
  destruct (find_element_equiv (Some (e_orig s)) (n :: up)) eqn:Eq.
  - destruct (edit_remove_spec fuel p n up s (proj1 Hs) Hpath Ho) as (d' & Hrun & Hr & _).
    eexists EXIT_SUCCESS, _. split; [exact Hrun|]. by eapply remove_result.
  - eexists EXIT_FAILURE, _. split; [reflexivity|].
    split; [split_and!; try done; apply Hs|]. split; [done|by right].
Qed.

Lemma edit_remove_ok fuel p s : wf_state s → fuel_orig fuel s ∧ fuel_edit fuel s →
  p ∈ ids (e_edit s) → nid (e_edit s) ≠ p →
  ∃ r s', edit_remove fuel p false s = Done (r, s') ∧ op_result s r s' ∧
    (fuel_orig fuel s' ∧ fuel_edit fuel s') ∧
    (e_edit s' = remove_node p (e_edit s) ∨ e_edit s' = e_edit s).
Proof.
  intros Hs [Ho He] Hp Hne. destruct (at_ptr_ok Edit p s Hp) as (n & up & Hpath & _ & _).
  destruct (edit_remove_spec fuel p n up s (proj1 Hs) Hpath Ho) as (d' & Hrun & Hr & _).
  eexists EXIT_SUCCESS, _. split; [exact Hrun|]. by eapply remove_result.
Qed.

Lemma consumed_ok fuel p s s' : fuel_edit fuel s → consumed p s s' →
  op_result s EXIT_SUCCESS s' ∧ fuel_edit fuel s' ∧
  (e_edit s' = remove_node p (e_edit s) ∨ e_edit s' = e_edit s).
Proof.
  intros Hf Hc. pose proof (consumed_result _ _ _ Hc) as Hres. split; [done|].
  split; [|left; apply Hc]. unfold fuel_edit in *.
  destruct Hres as (_ & Hsh%tsize_shrink & _). lia.
Qed.

Lemma edit_replace_ok fuel p s : wf_state s → fuel_edit fuel s →
  p ∈ ids (e_edit s) → nid (e_edit s) ≠ p →
  ∃ r s', edit_replace fuel (Some p) false s = Done (r, s') ∧ op_result s r s' ∧
    fuel_edit fuel s' ∧ (e_edit s' = remove_node p (e_edit s) ∨ e_edit s' = e_edit s).
Proof.
  intros Hs Hf Hp Hne. destruct fuel as [|f]; [unfold fuel_edit in *; lia|].
  destruct (at_ptr_ok Edit p s Hp) as (n & up & Hpath & _ & _).
  destruct (edit_replace_spec f p s n up Hs Hne Hpath) as (? & ? & s' & _ & Hrun & Hc & _).
  exists EXIT_SUCCESS, s'. split; [done|]. by apply consumed_ok.
Qed.

Lemma edit_create_ok fuel p s : wf_state s → fuel_edit fuel s →
  p ∈ ids (e_edit s) → nid (e_edit s) ≠ p →
  ∃ r s', edit_create fuel p false s = Done (r, s') ∧ op_result s r s' ∧
    fuel_edit fuel s' ∧ (e_edit s' = remove_node p (e_edit s) ∨ e_edit s' = e_edit s).
Proof.
  intros Hs Hf Hp Hne. destruct fuel as [|f]; [unfold fuel_edit in *; lia|].
  destruct (edit_create_spec f p s Hs Hne Hp) as (? & ? & s' & _ & Hrun & Hc & _).
  exists EXIT_SUCCESS, s'. split; [done|]. by apply consumed_ok.
Qed.

Lemma edit_merge_ok fuel p s : wf_state s → fuel_edit fuel s →
  p ∈ ids (e_edit s) → nid (e_edit s) ≠ p →
  ∃ r s', edit_merge fuel p false s = Done (r, s') ∧ op_result s r s' ∧
    fuel_edit fuel s' ∧ (e_edit s' = remove_node p (e_edit s) ∨ e_edit s' = e_edit s).
Proof.
  intros Hs Hf Hp Hne. destruct (at_ptr_ok Edit p s Hp) as (n & up & Hpath & _ & Hat).
  pose proof (subtree_size _ _ (path_subtree _ _ _ _ Hpath)) as Hsz. simpl in Hsz.
  assert (tsize n < fuel) by (unfold fuel_edit in Hf; lia).
  destruct (is_key (n :: up)) eqn:Hk.
  - destruct fuel as [|[|f]]; [lia|pose proof (tsize_pos n); lia|].
    destruct (find_element_equiv (Some (e_orig s)) (n :: up)) as [oc|] eqn:Eq.
    + rewrite (edit_merge_key _ _ _ _ _ _ Hpath Hk Eq). exists EXIT_SUCCESS, s.
      split; [done|]. split; [by apply op_result_refl|]. split; [done|by right].
    + destruct (edit_create_spec f p s Hs Hne Hp) as (? & ? & s' & _ & Hrun & Hc & _).
      exists EXIT_SUCCESS, s'. split; [|by apply consumed_ok].
      cbn [edit_merge]. by rewrite (bind_run _ _ _ _ _ Hat), bind_gets, Eq.
  - destruct (merge_ok_all fuel p s n up Hs Hne Hpath Hk) as (s' & Hrun & Hc); [done|].
    exists EXIT_SUCCESS, s'. split; [done|]. by apply consumed_ok.
Qed.

(** ** edit_operations *)
Definition op_failed (r : exit) (s : estate) : Prop :=
  r = EXIT_FAILURE ∧ e_err s = Some (nc_err_new NC_ERR_DATA_MISSING).

(** Chaining phases: what holds between them is a well-formed state, an edit
    document without nested operations or top-level keys, and an invariant. *)
Definition phase_inv (Inv : estate → Prop) (s : estate) : Prop :=
  wf_state s ∧ flat_ops (e_edit s) ∧ no_top_key (e_edit s) ∧ Inv s.

Definition runs_to (m : M estate exit) (s : estate) (Post : estate → Prop) : Prop :=
  ∃ r s', m s = Done (r, s') ∧ wf_state s' ∧ e_be s' = e_be s ∧
    match r with
    | EXIT_SUCCESS => e_err s' = e_err s ∧ Post s'
    | EXIT_FAILURE => e_err s' = Some (nc_err_new NC_ERR_DATA_MISSING)
    end.

Lemma runs_to_then a b s (P Q : estate → Prop) :
  runs_to a s P → (∀ s', wf_state s' → P s' → runs_to b s' Q) → runs_to (and_then a b) s Q.
Proof.
  intros (r & s1 & Ha & Hs1 & Hb1 & Hr) Hb. destruct r.
  - destruct Hr as [He HP]. destruct (Hb s1 Hs1 HP) as (r & s2 & H2 & Hs2 & Hb2 & Hr2).
    exists r, s2. rewrite (and_then_run _ _ _ _ Ha). split; [done|]. split; [done|].
    split; [congruence|]. destruct r; [destruct Hr2; split; congruence|done].
  - exists EXIT_FAILURE, s1. unfold and_then. by rewrite (bind_run _ _ _ _ _ Ha).
Qed.

Lemma runs_to_weaken m s (P Q : estate → Prop) :
  runs_to m s P → (∀ s', P s' → Q s') → runs_to m s Q.
Proof.
  intros (r & s1 & Ha & Hs1 & Hb1 & Hr) H. exists r, s1.
  split; [done|]. split; [done|]. split; [done|]. destruct r; naive_solver.
Qed.

Lemma phase_runs (Inv : estate → Prop) body op v s :
  (∀ p s, wf_state s → Inv s → p ∈ ids (e_edit s) → nid (e_edit s) ≠ p →
    ∃ r s', body p s = Done (r, s') ∧ op_result s r s' ∧ Inv s' ∧
      (e_edit s' = remove_node p (e_edit s) ∨ e_edit s' = e_edit s)) →
  op_string op = Some v → v ∈ op_names → phase_inv Inv s →
  runs_to (phase op body) s (phase_inv Inv).
Proof.
  intros Hbody Hv Hin (Hs & Hf & Hk & HI).
  destruct (phase_ok Inv body Hbody op v s Hv Hin Hs HI Hf)
    as (r & s' & Hrun & (Hs' & Hsh & _ & Hb & He) & HI').
  exists r, s'. split; [done|]. split; [done|]. split; [done|].
  destruct r; [|done]. split; [done|]. split; [done|]. split; [by eapply flat_ops_shrink|].
  split; [by eapply no_top_key_shrink|done].
Qed.

(** The phases after the default replace. *)
Definition explicit_phases (fuel : nat) (defop : NC_EDIT_DEFOP_TYPE) : M estate exit :=
  and_then (phase NC_EDIT_OP_DELETE (delete_node fuel false))
  (and_then (phase NC_EDIT_OP_REMOVE (λ p, edit_remove fuel p false))
  (and_then (phase NC_EDIT_OP_REPLACE (λ p, edit_replace fuel (Some p) false))
  (and_then (phase NC_EDIT_OP_CREATE (λ p, edit_create fuel p false))
  (and_then (phase NC_EDIT_OP_MERGE (λ p, edit_merge fuel p false))
            (if bool_decide (defop = NC_EDIT_DEFOP_MERGE)
                || bool_decide (defop = NC_EDIT_DEFOP_NOTSET)
             then default_merge fuel fuel false else mret EXIT_SUCCESS))))).

Lemma explicit_phases_ok fuel defop s :
  phase_inv (λ s, fuel_orig fuel s ∧ fuel_edit fuel s) s →
  runs_to (explicit_phases fuel defop) s (λ s',
    defop = NC_EDIT_DEFOP_MERGE ∨ defop = NC_EDIT_DEFOP_NOTSET → children (e_edit s') = []).
Proof.
  intros H0. unfold explicit_phases.
  eapply runs_to_then; [eapply phase_runs; [apply delete_node_ok|done|set_solver|exact H0]|].
  intros s1 _ H1.
  eapply runs_to_then; [eapply phase_runs; [apply edit_remove_ok|done|set_solver|exact H1]|].
  intros s2 _ (Hs2 & Hf2 & Hk2 & _ & He2).
  assert (phase_inv (fuel_edit fuel) s2) as H2 by done.
  eapply runs_to_then; [eapply phase_runs; [apply edit_replace_ok|done|set_solver|exact H2]|].
  intros s3 _ H3.
  eapply runs_to_then; [eapply phase_runs; [apply edit_create_ok|done|set_solver|exact H3]|].
  intros s4 _ H4.
  eapply runs_to_then; [eapply phase_runs; [apply edit_merge_ok|done|set_solver|exact H4]|].
  intros s5 Hs5 (_ & _ & Hk & Hf). case_match eqn:Hd.
  - destruct (default_merge_ok fuel s5 Hs5 Hk Hf) as (s' & Hrun & Hs' & Hc & Hb & He).
    exists EXIT_SUCCESS, s'. done.
  - apply orb_false_iff in Hd as [?%bool_decide_eq_false ?%bool_decide_eq_false].
    exists EXIT_SUCCESS, s5. split; [done|]. split; [done|]. split; [done|]. split; [done|tauto].
Qed.

(** With an empty edit document there is nothing to do. *)
Lemma phase_empty op v body s : op_string op = Some v → v ∈ op_names →
  ntype (e_edit s) = XML_DOCUMENT_NODE → children (e_edit s) = [] →
  phase op body s = Done (EXIT_SUCCESS, s).
Proof.
  intros Hv Hin Ht Hc. rewrite (phase_nodes op body s v Hv Hin). unfold op_elements.
  rewrite subtree_eq, Hc, filter_cons_False; [done|].
  unfold op_attr, is_element. by rewrite Ht.
Qed.

Lemma explicit_phases_empty fuel defop s : 0 < fuel →
  ntype (e_edit s) = XML_DOCUMENT_NODE → children (e_edit s) = [] →
  explicit_phases fuel defop s = Done (EXIT_SUCCESS, s).
Proof.
  intros Hf Ht Hc. unfold explicit_phases.
  do 5 (erewrite and_then_run; [|eapply phase_empty; [done|set_solver|done|done]]).
  case_match; [|done]. destruct fuel; [lia|]. cbn [default_merge]. rewrite bind_gets.
  unfold first_child. by rewrite Hc.
Qed.

Lemma edit_phases_ok fuel defop s :
  phase_inv (λ s, fuel_orig fuel s ∧ fuel_edit fuel s) s →
  runs_to (edit_phases fuel defop false) s (λ s',
    defop ≠ NC_EDIT_DEFOP_NONE → defop ≠ NC_EDIT_DEFOP_ERROR → children (e_edit s') = []).
Proof.
  intros H0. change (edit_phases fuel defop false) with
    (and_then (if bool_decide (defop = NC_EDIT_DEFOP_REPLACE)
               then default_replace fuel fuel false else mret EXIT_SUCCESS)
              (explicit_phases fuel defop)).
  pose proof H0 as (Hs & _ & _ & _ & Hf). case_bool_decide as Hd.
  - destruct (default_replace_ok fuel s Hs Hf) as (s1 & Hrun & Hs1 & Hc & Hb & He).
    exists EXIT_SUCCESS, s1. rewrite (and_then_run _ _ _ _ Hrun).
    rewrite explicit_phases_empty by (done || apply Hs1 || (unfold fuel_edit in Hf; lia)). done.
  - unfold runs_to. rewrite (and_then_run _ _ s s) by done.
    eapply runs_to_weaken; [by apply explicit_phases_ok|].
    simpl. intros s' H ? ?. destruct defop; naive_solver.
Qed.

Lemma edit_operations_ok fuel defop s :
  phase_inv (λ s, fuel_orig fuel s ∧ fuel_edit fuel s) s →
  ∃ r s', edit_operations fuel defop false s = Done (r, s') ∧ wf_state s' ∧ e_be s' = e_be s ∧
    match r with
    | EXIT_SUCCESS => e_err s' = None ∧
        (defop ≠ NC_EDIT_DEFOP_NONE → defop ≠ NC_EDIT_DEFOP_ERROR → children (e_edit s') = [])
    | EXIT_FAILURE => e_err s' = Some (nc_err_new NC_ERR_DATA_MISSING)
    end.
Proof.
  intros H0. unfold edit_operations. rewrite bind_modify.
  destruct (edit_phases_ok fuel defop (set_err None s)) as (r & s' & Hrun & Hs & Hb & Hr).
  { exact H0. }
  rewrite (bind_run _ _ _ _ _ Hrun). exists r. destruct r.
  - exists s'. done.
  - eexists. split; [reflexivity|]. by rewrite Hr.
Qed.

(** ** The OVSDB layer is not involved *)
Ltac keeps_be_step :=
  first [ apply keeps_ret | apply keeps_gets | apply keeps_crash | apply keeps_nofuel
        | apply keeps_deref
        | match goal with sd : side |- _ => apply keeps_modify; intros []; destruct sd; reflexivity end
        | apply keeps_modify; intros []; reflexivity
        | apply keeps_bind; [|intros ?] | case_match ].

Lemma keeps_be_delete fuel sd p : keeps e_be (edit_delete fuel sd p false).
Proof. destruct fuel; cbn [edit_delete]; unfold at_ptr, unlink; repeat keeps_be_step. Qed.

Lemma keeps_be_then a b : keeps e_be a → keeps e_be b → keeps e_be (and_then a b).
Proof. intros Ha Hb. unfold and_then. repeat first [exact Ha|exact Hb|keeps_be_step]. Qed.

Ltac then_step := match goal with |- keeps _ (and_then _ _) => apply keeps_be_then end.

Lemma keeps_be_equivs n fuel p : keeps e_be (delete_equivs n fuel p false).
Proof.
  induction n as [|n IH]; cbn [delete_equivs]; unfold at_ptr;
    repeat first [apply IH|apply keeps_be_delete|keeps_be_step].
Qed.

Lemma keeps_be_create_r cur : keeps e_be (edit_create_r cur).
Proof.
  induction cur as [|e [|pa up] IH]; cbn [edit_create_r]; [repeat keeps_be_step..|].
  unfold copy_node, declare_ns, new_ptr, at_ptr. repeat first [apply IH|keeps_be_step].
Qed.

Lemma keeps_be_create fuel p : keeps e_be (edit_create fuel p false).
Proof.
  destruct fuel; cbn [edit_create]; unfold at_ptr, create_xml, copy_node, at_ptr;
    repeat first [apply keeps_be_create_r|apply keeps_be_delete|keeps_be_step].
Qed.

Lemma keeps_be_replace fuel p : keeps e_be (edit_replace fuel (Some p) false).
Proof.
  unfold edit_replace, at_ptr.
  repeat first [then_step|apply keeps_be_delete|apply keeps_be_create|keeps_be_step].
Qed.

Lemma keeps_be_merge fuel p : keeps e_be (edit_merge fuel p false).
Proof.
  revert p. induction fuel as [|f IH]; intros p; [done|]. cbn [edit_merge]. unfold at_ptr.
  assert (∀ l, keeps e_be (merge_children (λ q, edit_merge f q false) l)) as Hl.
  { induction l as [|q l IHl]; cbn [merge_children]; unfold at_ptr;
      repeat first [apply IHl|apply IH|then_step|keeps_be_step]. }
  repeat first [then_step|apply Hl|apply keeps_be_delete|apply keeps_be_create
               |apply keeps_be_replace|keeps_be_step].
Qed.

Lemma keeps_be_phase op body : (∀ p, keeps e_be (body p)) → keeps e_be (phase op body).
Proof.
  intros H. unfold phase. apply keeps_bind; [apply keeps_gets|intros d].
  destruct (get_operation_elements op d) as [l|]; [|apply keeps_ret].
  induction l as [|p l IH]; [apply keeps_ret|]. by apply keeps_be_then.
Qed.

Lemma keeps_be_operations fuel defop : keeps e_be (edit_operations fuel defop false).
Proof.
  assert (∀ n, keeps e_be (default_replace n fuel false)) as Hr.
  { induction n as [|n IH]; cbn [default_replace];
      repeat first [apply IH|apply keeps_be_replace|keeps_be_step]. }
  assert (∀ n, keeps e_be (default_merge n fuel false)) as Hm.
  { induction n as [|n IH]; cbn [default_merge];
      repeat first [apply IH|then_step|apply keeps_be_merge|keeps_be_step]. }
  assert (keeps e_be (edit_phases fuel defop false)) as Hp.
  { unfold edit_phases, delete_node, edit_remove, fail, at_ptr.
    repeat first [then_step|apply keeps_be_phase; intros ?|apply Hr|apply Hm
      |apply keeps_be_equivs|apply keeps_be_delete|apply keeps_be_replace|apply keeps_be_create
      |apply keeps_be_merge|keeps_be_step]. }
  unfold edit_operations. repeat first [apply Hp|keeps_be_step].
  apply keeps_modify. intros s. by destruct (e_err s).
Qed.
End xml.
