(* ===== verification/Samples.v ===== *)
(** * Sample documents and a sample OVSDB layer

    Small configurations, edit documents and a backend that records its calls,
    to evaluate the definitions on, and the tests that decide on such inputs
    the well-formedness the theorems ask for. *)

From S2P Require Import Prelude.
From S2P Require Import Clrwspace.
From S2P Require Import Xml.
From S2P Require Import XmlFacts.
From S2P Require Import EditTree.
From S2P Require Import EditChecks.
From S2P Require Import EditCompact.
From S2P Require Import EditOps.
From S2P Require Import EditXml.

Definition ofc_ns : xmlNs := XmlNs 1000 (Some "urn:onf:config:yang").
Definition nc_ns : xmlNs := XmlNs 1001 (Some NC_NS_BASE10).

(** An element, an element with an operation, a text node, a leaf, a comment. *)
Definition el (i : ptr) (nm : string) (cs : list xmlNode) : xmlNode :=
  XmlNode i (XmlHdr XML_ELEMENT_NODE (Some nm) (Some ofc_ns) [] [] None) cs.
Definition el_op (i : ptr) (nm op : string) (cs : list xmlNode) : xmlNode :=
  XmlNode i (XmlHdr XML_ELEMENT_NODE (Some nm) (Some ofc_ns) []
    [XmlAttr "operation" (Some nc_ns) op] None) cs.
Definition txt (i : ptr) (v : string) : xmlNode :=
  XmlNode i (XmlHdr XML_TEXT_NODE (Some "text") None [] [] (Some v)) [].
Definition lf (i : ptr) (nm v : string) : xmlNode := el i nm [txt (S i) v].
Definition comment (i : ptr) (v : string) : xmlNode :=
  XmlNode i (XmlHdr XML_COMMENT_NODE (Some "comment") None [] [] (Some v)) [].
Definition doc (cs : list xmlNode) : xmlNode :=
  XmlNode 0 (XmlHdr XML_DOCUMENT_NODE None None [] [] None) cs.

(** A configuration with one bridge and one port. *)
Definition conf : xmlNode := doc [el 1 "capable-switch" [
  lf 2 "id" "ofc";
  el 4 "resources" [el 5 "port" [lf 6 "name" "eth0"; lf 8 "requested-number" "1"]];
  el 10 "logical-switches" [el 11 "switch" [lf 12 "id" "br0"; lf 14 "datapath-id" "00:01"]]]].

(** Is a transaction open, and the calls so far; every call succeeds. *)
#[export] Program Instance log_backend : OvsBackend := {|
  be := bool * list txn_op;
  be_exec op st := Done (0%Z, ((st.1.1, st.1.2 ++ [op]), st.2))
|}.
Next Obligation. intros op b e r b' e' [= <- <- <-] H. done. Qed.

Definition start (o e : xmlNode) : @estate log_backend := EState o e 100 (false, []) None.

(** ** Deciding the hypotheses on samples *)
Definition wf_docb (d : xmlNode) : bool :=
  bool_decide (NoDup (ids d)) && bool_decide (ntype d = XML_DOCUMENT_NODE)
  && forallb (λ n, negb (bool_decide (ntype n = XML_DOCUMENT_NODE))) (forest (children d)).

Lemma forallb_Forall_iff {A} (f : A → bool) (P : A → Prop) l :
  (∀ x, f x = true → P x) → forallb f l = true → Forall P l.
Proof.
  intros H. induction l as [|x l IH]; simpl; [constructor|].
  intros [? ?]%andb_true_iff. constructor; auto.
Qed.

Lemma wf_docb_ok d : wf_docb d = true → wf_doc d.
Proof.
  unfold wf_docb. rewrite !andb_true_iff. intros [[H1 H2] H3].
  split_and!; [by apply bool_decide_eq_true in H1|by apply bool_decide_eq_true in H2|].
  revert H3. apply forallb_Forall_iff. intros x Hx%negb_true_iff. by apply bool_decide_eq_false in Hx.
Qed.

Definition wf_stateb {OB : OvsBackend} (s : estate) : bool :=
  wf_docb (e_orig s) && forallb (λ x, Nat.ltb x (e_next s)) (ids (e_orig s)) && wf_docb (e_edit s)
  && forallb (λ n, is_element n || bool_decide (length (children n) = 0))
       (forest (children (e_edit s))).

Lemma wf_stateb_ok {OB : OvsBackend} s : wf_stateb s = true → wf_state s.
Proof.
  unfold wf_stateb. rewrite !andb_true_iff. intros [[[H1 H2] H3] H4].
  split_and!; [by apply wf_docb_ok| |split; [by apply wf_docb_ok|]].
  - intros x Hx. eapply (forallb_Forall_iff _ (λ x, x < e_next s)) in H2.
    + rewrite Forall_forall in H2. by apply H2.
    + intros y Hy. by apply Nat.ltb_lt.
  - revert H4. apply forallb_Forall_iff. intros n [->|H]%orb_true_iff; [done|].
    apply bool_decide_eq_true in H. intros _. by destruct (children n).
Qed.

Definition flat_opsb (d : xmlNode) : bool :=
  forallb (λ n, match op_attr n with
                | None => true
                | Some v => forallb (λ m, negb (bool_decide (op_attr m = Some v)))
                              (forest (children n))
                end) (subtree d).

Lemma flat_opsb_ok d : flat_opsb d = true → flat_ops d.
Proof.
  intros H n m v Hn Hm Hv Hmv. unfold flat_opsb in H.
  eapply (forallb_Forall_iff _ (λ n, ∀ m v, op_attr n = Some v → m ∈ forest (children n) →
    op_attr m ≠ Some v)) in H.
  - rewrite Forall_forall in H. by eapply H.
  - intros x Hx y w Hw Hy. rewrite Hw in Hx.
    eapply (forallb_Forall_iff _ (λ m, op_attr m ≠ Some w)) in Hx.
    + rewrite Forall_forall in Hx. by apply Hx.
    + intros z Hz%negb_true_iff. by apply bool_decide_eq_false in Hz.
Qed.

Definition no_top_keyb (d : xmlNode) : bool := forallb (λ x, negb (is_key [x; d])) (children d).

Lemma no_top_keyb_ok d : no_top_keyb d = true → no_top_key d.
Proof.
  intros H x Hx. eapply (forallb_Forall_iff _ (λ x, is_key [x; d] = false)) in H.
  - rewrite Forall_forall in H. by apply H.
  - intros y Hy. by apply negb_true_iff in Hy.
Qed.
