(* ===== verification/EditPrepared.v ===== *)
(** * Compacted edit documents

    The document compact_edit_operations() hands to edit_operations() is as
    well-formed as the one it was given, and has no more operations. *)

From S2P Require Import Prelude.
From S2P Require Import Clrwspace.
From S2P Require Import Xml.
From S2P Require Import XmlFacts.
From S2P Require Import EditTree.
From S2P Require Import EditChecks.
From S2P Require Import EditCompact.
From S2P Require Import EditOps.
From S2P Require Import EditXml.

(** The same tree, possibly without some of its operation attributes. *)
Fixpoint fewer_ops (n n' : xmlNode) : Prop :=
  match n, n' with
  | XmlNode i h cs, XmlNode i' h' cs' =>
      i' = i ∧ h_type h' = h_type h ∧ h_name h' = h_name h ∧
      (op_attr (XmlNode i' h' cs') = op_attr (XmlNode i h cs) ∨
       op_attr (XmlNode i' h' cs') = None) ∧
      (fix go l l' := match l, l' with
       | [], [] => True
       | c :: l, c' :: l' => fewer_ops c c' ∧ go l l'
       | _, _ => False
       end) cs cs'
  end.

Lemma fewer_ops_eq i h cs i' h' cs' :
  fewer_ops (XmlNode i h cs) (XmlNode i' h' cs') ↔
  i' = i ∧ h_type h' = h_type h ∧ h_name h' = h_name h ∧
  (op_attr (XmlNode i' h' cs') = op_attr (XmlNode i h cs) ∨
   op_attr (XmlNode i' h' cs') = None) ∧ Forall2 fewer_ops cs cs'.
Proof.
  simpl. do 4 f_equiv. revert cs'. induction cs as [|c cs IH]; intros [|c' cs']; split;
    try done; try (intros H; by inversion H).
  - intros [H1 H2]. constructor; [done|]. by apply IH.
  - intros H. inversion H; subst. split; [done|]. by apply IH.
Qed.

Lemma fewer_ops_refl n : fewer_ops n n.
Proof.
  induction n as [i h cs IH] using xmlNode_ind'. apply fewer_ops_eq. split_and!; auto.
  induction IH; constructor; auto.
Qed.

Lemma Forall2_in_r {A B} (R : A → B → Prop) l k y : Forall2 R l k → y ∈ k → ∃ x, x ∈ l ∧ R x y.
Proof. induction 1; [set_solver|]. intros [->|?]%elem_of_cons; [set_solver|]. naive_solver set_solver. Qed.

Lemma fewer_ops_node n n' : fewer_ops n n' →
  nid n' = nid n ∧ ntype n' = ntype n ∧ name n' = name n ∧
  (∀ v, op_attr n' = Some v → op_attr n = Some v) ∧ Forall2 fewer_ops (children n) (children n').
Proof.
  destruct n as [i h cs], n' as [i' h' cs']. rewrite fewer_ops_eq.
  intros (-> & Ht & Hn & Ho & Hc). split_and!; [done|done|done| |done].
  intros v Hv. destruct Ho; congruence.
Qed.

Lemma fewer_ops_ids n : ∀ n', fewer_ops n n' → ids n' = ids n.
Proof.
  induction n as [i h cs IH] using xmlNode_ind'. intros n' H.
  pose proof (fewer_ops_node _ _ H) as (Hn & _ & _ & _ & Hc). simpl in Hc.
  unfold ids. rewrite !subtree_eq, !fmap_cons, Hn. f_equal. simpl children.
  clear Hn H. revert IH. induction Hc as [|c c' l l' Hcc _ IHl]; [done|].
  intros [Hrec Hrest]%Forall_cons. rewrite !forest_cons, !fmap_app, IHl by done.
  f_equal. by apply Hrec.
Qed.

Lemma fewer_ops_subtree n : ∀ n' m', fewer_ops n n' → m' ∈ subtree n' →
  ∃ m, m ∈ subtree n ∧ fewer_ops m m'.
Proof.
  induction n as [i h cs IH] using xmlNode_ind'. intros n' m' H Hm.
  rewrite Forall_forall in IH. rewrite subtree_eq in Hm.
  apply elem_of_cons in Hm as [->|(c' & Hc' & Hm)%forest_inv].
  { exists (XmlNode i h cs). split; [apply subtree_self|done]. }
  pose proof (fewer_ops_node _ _ H) as (_ & _ & _ & _ & Hc).
  destruct (Forall2_in_r _ _ _ _ Hc Hc') as (c & Hcc & Hf). simpl in Hcc.
  destruct (IH c Hcc c' m' Hf Hm) as (m & Hm1 & Hm2). exists m. split; [|done].
  apply forest_subtree. eapply subtree_child; [exact Hcc|done].
Qed.

Lemma fewer_ops_forest n n' m' : fewer_ops n n' → m' ∈ forest (children n') →
  ∃ m, m ∈ forest (children n) ∧ fewer_ops m m'.
Proof.
  intros H (c' & Hc' & Hm)%forest_inv.
  pose proof (fewer_ops_node _ _ H) as (_ & _ & _ & _ & Hc).
  destruct (Forall2_in_r _ _ _ _ Hc Hc') as (c & Hcc & Hf).
  destruct (fewer_ops_subtree c c' m' Hf Hm) as (m & ? & ?). exists m. split; [|done].
  by eapply subtree_child.
Qed.

(** What edit_operations() needs of the edit document carries over. *)
Lemma fewer_ops_prepared d d' : fewer_ops d d' →
  (wf_edit d → wf_edit d') ∧ (flat_ops d → flat_ops d') ∧ (no_top_key d → no_top_key d') ∧
  tsize d' = tsize d.
Proof.
  intros H. pose proof (fewer_ops_node _ _ H) as (Hn & Ht & Hnm & _ & Hc). split_and!.
  - intros [(H1 & H2 & H3) H4]. split; [split_and!|].
    + by rewrite (fewer_ops_ids _ _ H).
    + congruence.
    + rewrite Forall_forall in *. intros m' Hm'.
      destruct (fewer_ops_forest _ _ _ H Hm') as (m & Hm & (_ & Htm & _)%fewer_ops_node).
      rewrite Htm. by apply H3.
    + rewrite Forall_forall in *. intros m' Hm'.
      destruct (fewer_ops_forest _ _ _ H Hm') as (m & Hm & (_ & Htm & _ & _ & Hcm)%fewer_ops_node).
      unfold is_element. rewrite Htm. intros He. specialize (H4 m Hm He).
      rewrite H4 in Hcm. by inversion Hcm.
  - intros Hf n' m' v Hn' Hm' Hv Hmv.
    destruct (fewer_ops_subtree _ _ _ H Hn') as (n & Hns & Hnf).
    destruct (fewer_ops_forest _ _ _ Hnf Hm') as (m & Hm & Hmf).
    apply (Hf n m v); [done|done| |].
    + by apply (fewer_ops_node _ _ Hnf).
    + by apply (fewer_ops_node _ _ Hmf).
  - intros Hk x' Hx'. destruct (Forall2_in_r _ _ _ _ Hc Hx') as (x & Hx & (_ & _ & Hxn & _)%fewer_ops_node).
    rewrite <-(Hk x Hx). unfold is_key, up_name, name_is. simpl. by rewrite Hxn, Hnm.
  - pose proof (f_equal length (fewer_ops_ids _ _ H)) as Hl. unfold ids in Hl.
    rewrite !length_fmap in Hl. done.
Qed.

Section prepared.
Context {LX : LibXml} {LN : LibNetconf}.

Lemma compact_node_hdr sup n cs cs' : one_op n → children n = cs →
  let n' := XmlNode (nid n) (hdr (compact_node sup n)) cs' in
  ntype n' = ntype n ∧ name n' = name n ∧ (op_attr n' = op_attr n ∨ op_attr n' = None).
Proof.
  intros H1 Hc. unfold compact_node. case_bool_decide as Hd; [|split_and!; [done|done|by left]].
  destruct Hd as [Eo Es]. assert (is_element n = true) as He.
  { unfold op_of in Eo. destruct (op_attr n) eqn:Ea; [|done]. by eapply op_attr_some_element. }
  pose proof (op_of_stripped n cs' He H1) as Hs. rewrite stripped_hdr in * by done.
  split_and!; [done|done|right]. unfold op_of in Hs.
  destruct (op_attr _) as [v|] eqn:E in Hs; [|exact E]. exfalso. by eapply parse_op_notset.
Qed.

Lemma compact_r_fewer n : ∀ sup n', Forall one_op (subtree n) →
  Forall (λ m, op_of m ≠ NC_EDIT_OP_ERROR) (subtree n) →
  compact_edit_operations_r sup n = Done (EXIT_SUCCESS, n') → fewer_ops n n'.
Proof.
  induction n as [i h cs IH] using xmlNode_ind'. intros sup n' Hone Hleg.
  rewrite subtree_eq in Hleg, Hone. apply Forall_cons in Hleg as [Hop Hleg].
  apply Forall_cons in Hone as [H1 Hone]. rewrite compact_r_legal by done. simpl children.
  destruct (compact_children_spec fewer_ops
    (compact_edit_operations_r (own_or sup (XmlNode i h cs))) cs) as (cs' & Hcs & HF).
  - rewrite Forall_forall in IH, Hleg, Hone |- *. intros c Hc.
    assert (∀ m, m ∈ subtree c → m ∈ forest cs) as Hsub
      by (intros m Hm; apply list_elem_of_bind; eauto).
    destruct (compact_r_total c (own_or sup (XmlNode i h cs))) as [c' Hc'].
    { apply Forall_forall. auto. }
    exists c'. split; [done|]. eapply IH; [done| | |exact Hc']; apply Forall_forall; auto.
  - rewrite Hcs. intros [= <-]. simpl in HF.
    destruct (compact_node_hdr sup (XmlNode i h cs) cs cs' H1 eq_refl) as (Ht & Hn & Ho).
    apply fewer_ops_eq. split_and!; done.
Qed.

Lemma compact_fewer d defop d' : Forall one_op (forest (children d)) → ops_legal d →
  compact_edit_operations (Some d) defop = Done (EXIT_SUCCESS, Some d') → fewer_ops d d'.
Proof.
  intros Hone Hleg. unfold compact_edit_operations.
  destruct (compact_children_spec fewer_ops (λ root, if is_element root
    then compact_edit_operations_r (cast_defop defop) root else Done (EXIT_SUCCESS, root))
    (children d)) as (cs' & Hcs & HF).
  - unfold ops_legal in Hleg. rewrite Forall_forall in Hleg, Hone |- *. intros c Hc.
    assert (∀ m, m ∈ subtree c → m ∈ forest (children d)) as Hsub
      by (intros m Hm; apply list_elem_of_bind; eauto).
    destruct (is_element c); [|exists c; split; [done|apply fewer_ops_refl]].
    destruct (compact_r_total c (cast_defop defop)) as [c' Hc'].
    { apply Forall_forall. auto. }
    exists c'. split; [done|]. eapply compact_r_fewer; [| |exact Hc']; apply Forall_forall; auto.
  - rewrite Hcs. intros [= <-]. destruct d as [i h cs]. simpl in *.
    apply fewer_ops_eq. split_and!; auto.
Qed.
End prepared.
