(* ===== verification/EditRunning.v ===== *)
(** * Edit operations on the running datastore

    The operations of edit-config.c with running = 1: every element is turned
    into calls of the OVSDB layer and the documents are consumed on the way.
    Shown against the interface [OvsBackend], for an OVSDB layer that returns
    from every call: the walks end, they dereference no freed or missing node,
    a failure leaves an error, and success consumes exactly the edited node. *)

From S2P Require Import Prelude.
From S2P Require Import Clrwspace.
From S2P Require Import Xml.
From S2P Require Import XmlFacts.
From S2P Require Import EditTree.
From S2P Require Import EditChecks.
From S2P Require Import EditCompact.
From S2P Require Import EditOps.
From S2P Require Import EditXml.

Section running.
Context {LX : LibXml} {LN : LibNetconf} {OB : OvsBackend}.

(** Every call of the OVSDB layer returns. *)
Definition be_total : Prop :=
  ∀ op st, ∃ r st', be_exec op st = Done (r, st').

Hypothesis total : be_total.

(** Computations that return, leave the documents alone and set *error when
    they fail. *)
Definition same_docs (s s' : estate) : Prop :=
  e_orig s' = e_orig s ∧ e_edit s' = e_edit s ∧ e_next s' = e_next s.
Definition leaf (m : M estate exit) : Prop := ∀ s, ∃ r s', m s = Done (r, s') ∧
  same_docs s s' ∧ (r = EXIT_FAILURE → is_Some (e_err s')).

Lemma call_int_run op s : ∃ r s', call_int op s = Done (r, s') ∧ same_docs s s' ∧
  (r ≠ 0%Z → reports_error op = true → is_Some (e_err s')).
Proof.
  unfold call_int. destruct (total op (e_be s, e_err s)) as (r & [b e] & H). rewrite H.
  eexists r, _. split; [reflexivity|]. split; [done|]. intros Hr Ho. simpl.
  by eapply be_fail_err.
Qed.

Lemma leaf_call op : reports_error op = true → leaf (call op).
Proof.
  intros Ho s. unfold call. destruct (call_int_run op s) as (r & s' & H & Hd & He).
  rewrite (bind_run _ _ _ _ _ H). eexists _, s'. split; [reflexivity|]. split; [done|].
  unfold exit_of. case_bool_decide; [done|auto].
Qed.

Lemma leaf_call_ op : leaf (call_ op).
Proof.
  intros s. unfold call_. destruct (call_int_run op s) as (r & s' & H & Hd & He).
  rewrite (bind_run _ _ _ _ _ H). by eexists _, s'.
Qed.

Lemma leaf_fail e : leaf (fail e).
Proof. intros s. eexists _, _. split; [reflexivity|]. split; [done|]. simpl. eauto. Qed.

Lemma leaf_success : leaf (mret EXIT_SUCCESS).
Proof. intros s. by eexists _, s. Qed.

Lemma leaf_key cur k nm f : k < length cur → (∀ key, leaf (f key)) → leaf (key_up cur k nm ≫= f).
Proof.
  intros Hk Hf s. apply lookup_lt_is_Some in Hk as [n Hn]. unfold key_up.
  assert (deref (S := estate) NullDeref (cur !! k) s = Done (n, s)) as Hd by (unfold deref, cursor; by rewrite Hn).
  destruct (Hf (get_key n nm) s) as (r & s' & Hrun & H). exists r, s'. split; [|done].
  rewrite <-Hrun. unfold mbind at 1, M_bind at 1. by rewrite (bind_run _ _ _ _ _ Hd).
Qed.

Lemma leaf_bind_int op (f : Z → M estate exit) : (∀ r, leaf (f r)) → leaf (call_int op ≫= f).
Proof.
  intros Hf s. destruct (call_int_run op s) as (r & s1 & H & (H1 & H2 & H3) & _).
  rewrite (bind_run _ _ _ _ _ H). destruct (Hf r s1) as (r' & s' & ? & (? & ? & ?) & ?).
  exists r', s'. split; [done|]. split; [split_and!; congruence|done].
Qed.

Lemma leaf_for f l : (∀ c, leaf (f c)) → leaf (for_children f l).
Proof.
  intros Hf. induction l as [|c l IH]; [apply leaf_success|].
  intros s. cbn [for_children]. destruct (Hf c s) as (r & s1 & H & (H1 & H2 & H3) & He).
  rewrite (bind_run _ _ _ _ _ H). destruct r; [|by eexists _, s1].
  destruct (IH s1) as (r & s' & ? & (? & ? & ?) & ?).
  exists r, s'. split; [done|]. split; [split_and!; congruence|done].
Qed.

(** The branches of the running dispatch that end in a single call. *)
Ltac leaf_tac :=
  repeat first
    [ apply leaf_success | apply leaf_call_ | apply leaf_fail
    | apply leaf_call; reflexivity
    | apply leaf_key; [simpl in *; lia|intros ?]
    | apply leaf_bind_int; intros ?
    | apply leaf_for; intros ?
    | case_match ].

Lemma delete_resource_leaf node cur : 2 < length cur → leaf (delete_resource node cur).
Proof. intros Hl. unfold delete_resource. leaf_tac. Qed.

Lemma create_resource_leaf node cur : 2 < length cur → leaf (create_resource node cur).
Proof. intros Hl. unfold create_resource. leaf_tac. Qed.

(** Work on a node: a single call, or a walk over what is below it. *)
Inductive walk (loop rec : ptr → M estate exit) (p : ptr) (node : xmlNode)
  : M estate exit → Prop :=
| walk_leaf m : leaf m → walk loop rec p node m
| walk_loop : walk loop rec p node (loop p)
| walk_rec c : c ∈ children node → walk loop rec p node (rec (nid c))
| walk_key cur k nm f : k < length cur → (∀ key, walk loop rec p node (f key)) →
    walk loop rec p node (key_up cur k nm ≫= f).

Ltac walk_tac :=
  repeat first [ apply walk_loop | case_match
               | apply walk_key; [simpl in *; lia|intros ?] ];
  first [ apply walk_loop
        | eapply walk_rec, go2node_in; eassumption
        | apply walk_leaf; leaf_tac ].

Lemma delete_running_walk loop rec p node cur : 2 < length cur →
  (up_name cur 1 = Some "advertised" → 3 < length cur) →
  walk loop rec p node (delete_running loop rec p node cur).
Proof.
  intros Hl Ha. unfold delete_running.
  destruct (xmlStrEqual (up_name cur 1) (Some "advertised")) eqn:Hadv.
  - apply bool_decide_eq_true in Hadv. specialize (Ha Hadv). rewrite Hadv. simpl.
    case_match; apply walk_leaf; leaf_tac.
  - unfold delete_in_port, delete_rest, delete_resource. walk_tac.
Qed.

Lemma create_running_walk loop rec p node cur : 2 < length cur →
  (up_name cur 1 = Some "advertised" → 3 < length cur) →
  walk loop rec p node (create_running loop rec p node cur).
Proof.
  intros Hl Ha. unfold create_running.
  destruct (xmlStrEqual (up_name cur 1) (Some "advertised")) eqn:Hadv.
  - apply bool_decide_eq_true in Hadv. specialize (Ha Hadv). rewrite Hadv. simpl.
    case_match; apply walk_leaf; leaf_tac.
  - unfold create_in_port, create_rest, create_resource. walk_tac.
Qed.

(** ** What a walk may do to the document it consumes *)
Definition other (sd : side) : side := match sd with Orig => Edit | Edit => Orig end.

(** Only the subtree at p changed, and p itself is still there. *)
Definition inside (sd : side) (p : ptr) (s s' : estate) : Prop :=
  doc_of (other sd) s' = doc_of (other sd) s ∧ e_next s' = e_next s ∧
  wf_doc (doc_of sd s') ∧
  ∃ n', nid n' = p ∧ doc_of sd s' = alter_node p (λ _, n') (doc_of sd s).

(** The node is gone, and nothing else. *)
Definition gone (sd : side) (p : ptr) (s s' : estate) : Prop :=
  doc_of (other sd) s' = doc_of (other sd) s ∧ e_next s' = e_next s ∧
  doc_of sd s' = remove_node p (doc_of sd s).

Definition deep_enough (cur : cursor) : Prop :=
  2 < length cur ∧ (up_name cur 1 = Some "advertised" → 3 < length cur).

(** A node operation that returns and consumes its node or fails with an error. *)
Definition consumes (sd : side) (X : ptr → M estate exit) (sz : nat) : Prop := ∀ p s n up,
  wf_doc (doc_of sd s) → path_to p (doc_of sd s) = Some (n :: up) →
  deep_enough (n :: up) → tsize n < sz →
  ∃ r s', X p s = Done (r, s') ∧
    match r with
    | EXIT_SUCCESS => gone sd p s s'
    | EXIT_FAILURE => inside sd p s s' ∧ is_Some (e_err s')
    end.

Lemma alter_same p d n up : NoDup (ids d) → path_to p d = Some (n :: up) →
  alter_node p (λ _, n) d = d.
Proof.
  intros Hnd Hp. pose proof (path_to_head _ _ _ Hp) as (? & ? & [= <- <-] & Hn).
  pose proof (path_subtree _ _ _ _ Hp) as Hsub. clear Hp up. revert Hnd Hsub.
  induction d as [i h cs IH] using xmlNode_ind'. rewrite Forall_forall in IH. intros Hnd Hsub.
  rewrite alter_node_eq. rewrite subtree_eq in Hsub.
  apply elem_of_cons in Hsub as [->|(c & Hc & Hsub)%forest_inv].
  { simpl in Hn. by rewrite bool_decide_eq_true_2. }
  simpl in Hc. apply list_elem_of_split in Hc as (cs1 & cs2 & ->).
  pose proof (subtree_ids _ _ Hsub) as Hin. rewrite Hn in Hin.
  destruct (nodup_siblings _ _ _ _ _ _ Hnd Hin) as (Hndc & Hic & H1 & H2).
  rewrite bool_decide_eq_false_2 by (intros ->; done). f_equal.
  rewrite fmap_app, fmap_cons, !alter_list_notin by done. do 2 f_equal.
  apply IH; [set_solver|done|done].
Qed.

Lemma inside_refl sd p s n up : wf_doc (doc_of sd s) → path_to p (doc_of sd s) = Some (n :: up) →
  ∀ s', same_docs s s' → inside sd p s s'.
Proof.
  intros Hwf Hp s' (H1 & H2 & H3). pose proof (path_to_head _ _ _ Hp) as (? & ? & [= <- <-] & Hn).
  assert (doc_of sd s' = doc_of sd s) as Hd by (by destruct sd).
  split; [by destruct sd|]. split; [done|]. rewrite Hd. split; [done|]. exists n.
  split; [done|]. symmetry. eapply alter_same; [apply Hwf|done].
Qed.

Lemma inside_trans sd p s1 s2 s3 : inside sd p s1 s2 → inside sd p s2 s3 → inside sd p s1 s3.
Proof.
  intros (H1 & H2 & _ & n1 & Hn1 & Hd1) (H3 & H4 & H5 & n2 & Hn2 & Hd2).
  split; [congruence|]. split; [congruence|]. split; [done|]. exists n2. split; [done|].
  by rewrite Hd2, Hd1, alter_twice.
Qed.

(** A change inside a child, or its removal, is a change inside the parent. *)
Lemma inside_child sd p s s' n up c : wf_doc (doc_of sd s) →
  path_to p (doc_of sd s) = Some (n :: up) → c ∈ children n →
  inside sd (nid c) s s' ∨ gone sd (nid c) s s' → inside sd p s s'.
Proof.
  intros Hwf Hp Hc H. pose proof (path_to_head _ _ _ Hp) as (? & ? & [= <- <-] & Hn).
  pose proof (path_subtree _ _ _ _ Hp) as Hsub.
  pose proof (nodup_subtree _ _ (proj1 Hwf) Hsub) as Hnd.
  assert (nid c ∈ ids n) as Hin by (apply elem_of_ids; right; eauto using nid_in).
  assert (nid c ≠ p) as Hne.
  { rewrite <-Hn. intros Heq. apply (parent_not_below n c Hnd Hc). rewrite <-Heq. apply nid_in. }
  destruct H as [(H1 & H2 & H3 & c' & Hc' & Hd)|(H1 & H2 & Hd)].
  - split; [done|]. split; [done|]. split; [done|].
    exists (alter_node (nid c) (λ _, c') n). split.
    + destruct n as [i h cs]. rewrite alter_node_eq, bool_decide_eq_false_2; [done|].
      simpl in Hn. congruence.
    + rewrite Hd. apply alter_alter_below; try done. apply Hwf.
  - split; [done|]. split; [done|]. split; [rewrite Hd; by apply wf_remove|].
    exists (remove_node (nid c) n). split; [by rewrite nid_remove|].
    rewrite Hd. apply remove_below; try done. apply Hwf.
Qed.

Lemma while_children_ok sd rec sz p : consumes sd rec sz →
  ∀ f s n up, wf_doc (doc_of sd s) → path_to p (doc_of sd s) = Some (n :: up) →
  1 < length (n :: up) → (name n = Some "advertised" → 2 < length (n :: up)) →
  tsize n ≤ sz → length (children n) < f →
  ∃ r s', while_children f rec sd p s = Done (r, s') ∧ inside sd p s s' ∧
    (r = EXIT_FAILURE → is_Some (e_err s')).
Proof.
  intros Hrec. induction f as [|f IH]; intros s n up Hwf Hp Hl Ha Hsz Hf; [lia|].
  destruct (at_ptr_ok sd p s (path_in _ _ _ _ Hp)) as (n' & up' & Hp' & _ & Hat).
  assert (n' :: up' = n :: up) as [= -> ->] by congruence.
  cbn [while_children]. rewrite (bind_run _ _ _ _ _ Hat). cbn [head mbind option_bind].
  unfold first_child. destruct (children n) as [|c cs] eqn:Hcs; cbn [head].
  { exists EXIT_SUCCESS, s. split; [done|]. split; [by eapply inside_refl|done]. }
  assert (c ∈ children n) as Hc by (rewrite Hcs; set_solver).
  pose proof (path_child _ _ _ _ _ (proj1 Hwf) Hp Hc) as Hpc.
  destruct (Hrec (nid c) s c (n :: up) Hwf Hpc) as (r & s1 & Hrun & Hr).
  { split; [simpl in *; lia|]. unfold up_name. simpl. intros Hn. specialize (Ha Hn). simpl in *. lia. }
  { pose proof (tsize_child _ _ Hc). lia. }
  rewrite (bind_run _ _ _ _ _ Hrun). destruct r.
  - assert (inside sd p s s1) as Hin by (eapply inside_child; eauto).
    destruct Hr as (H1 & H2 & Hd). destruct (remove_child p _ n up c (proj1 Hwf) Hp Hc) as [Hp1 _].
    assert (length (remove_node (nid c) <$> up) = length up) as Hlen by apply length_fmap.
    destruct (IH s1 (remove_node (nid c) n) (remove_node (nid c) <$> up)) as (r & s' & Hrun' & Hin' & Hr').
    + rewrite Hd. by apply wf_remove.
    + by rewrite Hd.
    + simpl in *. lia.
    + unfold name. rewrite hdr_remove. intros Hn. specialize (Ha Hn). simpl in *. lia.
    + unfold tsize in *. pose proof (sublist_length _ _ (ids_remove (nid c) n)) as Hl'.
      unfold ids in Hl'. rewrite !length_fmap in Hl'. lia.
    + rewrite (children_remove_first n c cs); [simpl in *; lia| |done].
      eapply nodup_subtree; [apply Hwf|by eapply path_subtree].
    + exists r, s'. split; [done|]. split; [by eapply inside_trans|done].
  - destruct Hr as [Hr He]. exists EXIT_FAILURE, s1. split; [done|].
    split; [eapply inside_child; eauto|done].
Qed.

Lemma walk_ok sd rec sz f p n up m s : consumes sd rec sz →
  walk (while_children f rec sd) rec p n m →
  wf_doc (doc_of sd s) → path_to p (doc_of sd s) = Some (n :: up) → deep_enough (n :: up) →
  tsize n ≤ sz → length (children n) < f →
  ∃ r s', m s = Done (r, s') ∧ inside sd p s s' ∧ (r = EXIT_FAILURE → is_Some (e_err s')).
Proof.
  intros Hrec Hwalk Hwf Hp [Hl Ha] Hsz Hf.
  induction Hwalk as [m Hm| |c Hc|cur k nm g Hk _ IH].
  - destruct (Hm s) as (r & s' & Hrun & Hd & He). exists r, s'.
    split; [done|]. split; [by eapply inside_refl|done].
  - eapply while_children_ok;
      [exact Hrec|exact Hwf|exact Hp|simpl in *; lia|intros _; simpl in *; lia|exact Hsz|exact Hf].
  - pose proof (path_child _ _ _ _ _ (proj1 Hwf) Hp Hc) as Hpc.
    destruct (Hrec (nid c) s c (n :: up) Hwf Hpc) as (r & s1 & Hrun & Hr).
    { split; simpl in *; lia. }
    { pose proof (tsize_child _ _ Hc). lia. }
    exists r, s1. split; [done|].
    destruct r; [split; [eapply inside_child; eauto|done]|].
    destruct Hr. split; [eapply inside_child; eauto|done].
  - apply lookup_lt_is_Some in Hk as [x Hx]. specialize (IH (get_key x nm)).
    destruct IH as (r & s' & Hrun & H). exists r, s'. split; [|done]. rewrite <-Hrun.
    unfold key_up.
    assert (deref (S := estate) NullDeref (cur !! k) s = Done (x, s)) as Hd
      by (unfold deref, cursor; by rewrite Hx).
    unfold mbind at 1, M_bind at 1. by rewrite (bind_run _ _ _ _ _ Hd).
Qed.

Lemma deep_parent d p n up : wf_doc d → path_to p d = Some (n :: up) → 2 < length (n :: up) →
  ∃ pa up', up = pa :: up' ∧ ntype pa ≠ XML_DOCUMENT_NODE ∧ nid d ≠ p ∧ n ∈ children pa ∧
    pa ∈ subtree d.
Proof.
  intros Hwf Hp Hl. destruct (path_to_below _ _ _ Hp) as (l & Heq & Hfor & Hnil).
  destruct l as [|n' [|pa l]].
  - injection Heq as -> ->. simpl in Hl. lia.
  - injection Heq as -> ->. simpl in Hl. lia.
  - injection Heq as <- ->. exists pa, (l ++ [d]). split; [done|].
    rewrite !Forall_cons in Hfor. destruct Hfor as (_ & Hpa & _).
    pose proof (nondoc_subtree _ _ Hwf Hpa) as H. rewrite subtree_eq, Forall_cons in H.
    split; [tauto|]. split; [intros Heq; by apply Hnil in Heq|].
    apply path_to_is_path in Hp. simpl in Hp. split; [apply Hp|]. by apply forest_subtree.
Qed.

(** The node is unlinked after the work inside it. *)
Lemma inside_gone sd p s s' : nid (doc_of sd s) ≠ p → inside sd p s s' →
  gone sd p s (upd_doc sd (remove_node p) s').
Proof.
  intros Hne (H1 & H2 & _ & n' & Hn' & Hd).
  destruct sd; simpl in *; (split; [done|split; [done|]]); simpl;
    by rewrite Hd, remove_alter_const.
Qed.

Lemma unlink_run sd p s : unlink sd p s = Done (tt, upd_doc sd (remove_node p) s).
Proof. unfold unlink, modify. by rewrite upd_doc_unlink. Qed.

Lemma edit_delete_consumes sd fuel : consumes sd (λ p, edit_delete fuel sd p true) fuel.
Proof.
  induction fuel as [|f IH]; intros p s n up Hwf Hp Hdeep Hsz; [lia|].
  destruct (at_ptr_ok sd p s (path_in _ _ _ _ Hp)) as (n' & up' & Hp' & _ & Hat).
  assert (n' :: up' = n :: up) as [= -> ->] by congruence.
  cbn [edit_delete]. rewrite (bind_run _ _ _ _ _ Hat).
  destruct (deep_parent _ _ _ _ Hwf Hp (proj1 Hdeep)) as (pa & upp & -> & Hpa & Hne & _).
  rewrite (bool_decide_eq_false_2 (ntype <$> head (pa :: upp) = _)) by (simpl; congruence).
  rewrite andb_false_r. cbn [andb].
  match goal with |- context [mbind ?k ?m s] =>
    assert (∃ r s', m s = Done (r, s') ∧ inside sd p s s' ∧ (r = EXIT_FAILURE → is_Some (e_err s')))
      as (r & s' & Hrun & Hin & Hr) end.
  { case_match.
    - eapply walk_ok; [exact IH| |done|exact Hp|done|lia|].
      + apply delete_running_walk; apply Hdeep.
      + pose proof (length_children n). lia.
    - exists EXIT_SUCCESS, s. split; [done|]. split; [by eapply inside_refl|done]. }
  rewrite (bind_run _ _ _ _ _ Hrun). destruct r.
  - rewrite (bind_run _ _ _ _ _ (unlink_run sd p s')). eexists _, _. split; [reflexivity|].
    by apply inside_gone.
  - exists EXIT_FAILURE, s'. auto.
Qed.

Lemma alter_const p f d n up : NoDup (ids d) → path_to p d = Some (n :: up) →
  alter_node p f d = alter_node p (λ _, f n) d.
Proof.
  intros Hnd Hp. pose proof (path_to_head _ _ _ Hp) as (? & ? & [= <- <-] & Hn).
  rewrite <-(alter_twice p n f d) by done. by rewrite (alter_same p d n up).
Qed.

(** Stripping the operation attribute changes the node only. *)
Lemma strip_inside p s n up : wf_doc (e_edit s) → path_to p (e_edit s) = Some (n :: up) →
  inside Edit p s (upd_doc Edit (alter_node p strip_op) s).
Proof.
  intros Hwf Hp. pose proof (path_to_head _ _ _ Hp) as (? & ? & [= <- <-] & Hn).
  split; [done|]. split; [done|]. split; [apply alter_hdr_wf; [apply strip_op_hdr|done]|].
  exists (strip_op n). split; [by rewrite (proj1 (strip_op_hdr n))|].
  eapply alter_const; [apply Hwf|done].
Qed.

Lemma strip_path p s n pa up : wf_doc (e_edit s) → path_to p (e_edit s) = Some (n :: pa :: up) →
  nid pa ≠ p →
  ∃ pa' up', path_to p (e_edit (upd_doc Edit (alter_node p strip_op) s))
             = Some (strip_op n :: pa' :: up') ∧
    length up' = length up ∧ name pa' = name pa ∧ ntype pa' = ntype pa.
Proof.
  intros Hwf Hp Hpa. pose proof (path_to_head _ _ _ Hp) as (? & ? & [= <- <-] & Hn). simpl.
  rewrite (path_alter p strip_op _ _ (λ x, proj1 (strip_op_hdr x)) (proj1 Hwf) Hp).
  rewrite !fmap_cons.
  assert (alter_node p strip_op n = strip_op n) as ->.
  { destruct n. simpl in Hn. by rewrite alter_node_eq, bool_decide_eq_true_2. }
  eexists _, _. split; [done|]. split; [apply length_fmap|].
  destruct pa as [j h cs]. simpl in Hpa. rewrite alter_node_eq, bool_decide_eq_false_2 by done. done.
Qed.

Lemma tsize_strip n : tsize (strip_op n) = tsize n.
Proof.
  unfold tsize. rewrite !subtree_eq. by rewrite (proj1 (proj2 (strip_op_hdr n))).
Qed.

(** ** The calls of a creation *)

Definition named (n : xmlNode) (s : string) : Prop := name n = Some s.

(** The call an element of the edit data asks for, by its place in the
    configuration: the cursor is the element and its ancestors. *)
Inductive asks : cursor → txn_op → Prop :=
| asks_resource n rs cs up op : named rs "resources" → named cs "capable-switch" →
    (named n "port" ∧ op = TxnAddPort n) ∨ (named n "queue" ∧ op = TxnAddQueue n) ∨
    (named n "owned-certificate" ∧ op = TxnAddOwnedCertificate n) ∨
    (named n "external-certificate" ∧ op = TxnAddExternalCertificate n) ∨
    (named n "flow-table" ∧ op = TxnAddFlowTable n) →
    asks (n :: rs :: cs :: up) op
| asks_reference n rs sw up v op : named rs "resources" → named sw "switch" →
    child_content n = Some v →
    (named n "port" ∧ op = TxnAddBridgePort (get_key sw "id") (Some v)) ∨
    (named n "flow-table" ∧ op = TxnAddBridgeFlowtable (get_key sw "id") (Some v)) →
    asks (n :: rs :: sw :: up) op
| asks_port n pt up op : named pt "port" →
    (named n "requested-number" ∧ op = TxnModPortReqnumber (get_key pt "name") (child_content n)) ∨
    (is_tunnel (name n) = true ∧ op = TxnAddPortTunnel (get_key pt "name") n) →
    asks (n :: pt :: up) op
| asks_config n cf pt up : named cf "configuration" →
    asks (n :: cf :: pt :: up) (OfModPortCfg (get_key pt "name") (name n) (child_content n))
| asks_advert n ad ft pt up : named ad "advertised" → ¬ named n "advertised" →
    asks (n :: ad :: ft :: pt :: up) (TxnAddPortAdvert (get_key pt "name") n)
| asks_tunnel n tn pt up : is_tunnel (name tn) = true → ¬ named n "advertised" →
    asks (n :: tn :: pt :: up) (TxnModPortTunnelOpt (get_key pt "name") (name n) (child_content n))
| asks_queue n qu up op : named qu "queue" →
    (named n "id" ∧ op = TxnModQueueId (get_key qu "resource-id") (child_content n)) ∨
    (named n "port" ∧ op = TxnAddQueuePort (get_key qu "resource-id") (child_content n)) →
    asks (n :: qu :: up) op
| asks_property n ps qu up : named ps "properties" → ¬ named n "advertised" →
    asks (n :: ps :: qu :: up) (TxnModQueueOptions (get_key qu "resource-id") (name n) (Some n))
| asks_certificate n ct up op : named n "certificate" →
    (named ct "owned-certificate" ∧
       op = TxnModOwnCertCertificate (get_key ct "resource-id") (Some n)) ∨
    (named ct "external-certificate" ∧
       op = TxnModExtCertCertificate (get_key ct "resource-id") (Some n)) →
    asks (n :: ct :: up) op
| asks_private_key n pk ct up op : named pk "private-key" →
    (named n "key-type" ∧ op = TxnModOwnCertKeyType (get_key ct "resource-id") (Some n)) ∨
    (named n "key-data" ∧ op = TxnModOwnCertKeyData (get_key ct "resource-id") (Some n)) →
    asks (n :: pk :: ct :: up) op
| asks_flow_table n ft up op : named ft "flow-table" →
    (named n "name" ∧ op = TxnModFlowtableName (get_key ft "table-id") (Some n)) ∨
    (named n "resource-id" ∧ op = TxnModFlowtableResid (get_key ft "table-id") (Some n)) →
    asks (n :: ft :: up) op
| asks_switch n ls up : named ls "logical-switches" → named n "switch" →
    asks (n :: ls :: up) (TxnAddBridge n)
| asks_switch_leaf n sw up op : named sw "switch" →
    (named n "datapath-id" ∧ op = TxnModBridgeDatapath (get_key sw "id") (child_content n)) ∨
    (named n "lost-connection-behavior" ∧
       op = TxnModBridgeFailmode (get_key sw "id") (child_content n)) →
    asks (n :: sw :: up) op
| asks_controller n cs sw up : named cs "controllers" → named n "controller" →
    asks (n :: cs :: sw :: up) (TxnAddContr n (get_key sw "id"))
| asks_controller_leaf n ct up op : named ct "controller" →
    (named n "local-ip-address" ∧ op = TxnModContrLip (get_key ct "id") (child_content n)) ∨
    (name n ∈ [Some "ip-address"; Some "port"; Some "protocol"] ∧
       op = TxnModContrTarget (get_key ct "id") (name n) (child_content n)) →
    asks (n :: ct :: up) op.

Lemma key_up_bind cur k nm n (f : option string → M estate exit) : cur !! k = Some n →
  ∀ s, (key_up cur k nm ≫= f) s = f (get_key n nm) s.
Proof. intros Hn s. unfold key_up, cursor in *. by rewrite Hn. Qed.

Lemma is_tunnel_names o : is_tunnel o = true →
  o = Some "ipgre-tunnel" ∨ o = Some "vxlan-tunnel" ∨ o = Some "tunnel".
Proof. unfold is_tunnel, xmlStrEqual. rewrite !orb_true_iff, !bool_decide_eq_true. tauto. Qed.

(** Evaluate the comparisons of names that are known. *)
Ltac names_tac :=
  unfold create_running, create_resource, create_in_port, create_rest, is_tunnel, name_is, up_name,
    named in *;
  cbn [lookup list_lookup mbind option_bind];
  repeat match goal with H : name _ = _ |- _ => rewrite H; clear H end;
  repeat match goal with
    | |- context [xmlStrEqual ?a ?b] =>
        let v := eval vm_compute in (xmlStrEqual a b) in
        match v with true => idtac | false => idtac end; change (xmlStrEqual a b) with v;
        cbn [orb andb]
    | H : name _ ≠ ?b |- context [xmlStrEqual (name _) ?b] =>
        rewrite (bool_decide_eq_false_2 _ H : xmlStrEqual (name _) b = false)
    end.

Lemma asks_runs loop rec p n up op : asks (n :: up) op →
  ∀ s, create_running loop rec p n (n :: up) s = call op s.
Proof.
  intros Ha s. inversion Ha; subst;
    repeat match goal with
    | H : _ ∨ _ |- _ => destruct H
    | H : _ ∧ _ |- _ => destruct H
    | H : is_tunnel _ = true |- _ => apply is_tunnel_names in H
    | H : _ ∈ _ |- _ => apply elem_of_cons in H
    | H : _ ∈ [] |- _ => by apply not_elem_of_nil in H
    end; subst; names_tac; try reflexivity.
  all: try (erewrite key_up_bind by reflexivity).
  all: repeat match goal with H : child_content _ = _ |- _ => rewrite H end.
  all: try reflexivity.
Qed.

Lemma edit_create_consumes fuel : consumes Edit (λ p, edit_create fuel p true) fuel.
Proof.
  induction fuel as [|f IH]; intros p s n up Hwf Hp Hdeep Hsz; [lia|].
  destruct (deep_parent _ _ _ _ Hwf Hp (proj1 Hdeep)) as (pa & upp & -> & Hpa & Hne & Hch & Hsub).
  pose proof (path_to_head _ _ _ Hp) as (? & ? & [= <- <-] & Hn).
  assert (nid pa ≠ p) as Hpp.
  { rewrite <-Hn. intros Heq. apply (parent_not_below pa n); [|done|rewrite Heq; apply nid_in].
    eapply nodup_subtree; [apply Hwf|done]. }
  cbn [edit_create]. rewrite bind_modify.
  pose proof (strip_inside p s n _ Hwf Hp) as Hin1.
  destruct (strip_path p s n pa upp Hwf Hp Hpp) as (pa' & up' & Hp1 & Hlen & Hnm & Hty).
  set (s1 := upd_doc Edit (alter_node p strip_op) s) in *.
  destruct (at_ptr_ok Edit p s1 (path_in _ _ _ _ Hp1)) as (n2 & up2 & Hp2 & _ & Hat).
  change (doc_of Edit s1) with (e_edit s1) in Hp2.
  assert (n2 :: up2 = strip_op n :: pa' :: up') as Heq2 by congruence. injection Heq2 as -> ->.
  rewrite (bind_run _ _ _ _ _ Hat).
  assert (deep_enough (strip_op n :: pa' :: up')) as Hdeep'.
  { destruct Hdeep as [Hl Ha]. unfold deep_enough, up_name in *. simpl in *.
    rewrite Hlen, Hnm. done. }
  rewrite (bool_decide_eq_false_2 (ntype pa' = _)) by congruence.
  match goal with |- context [mbind ?k ?m s1] =>
    assert (∃ r s', m s1 = Done (r, s') ∧ inside Edit p s1 s' ∧ (r = EXIT_FAILURE → is_Some (e_err s')))
      as (r & s' & Hrun & Hin & Hr) end.
  { case_match.
    - exists EXIT_SUCCESS, s1. split; [done|]. split; [|done].
      eapply inside_refl; [apply Hin1|exact Hp1|done].
    - eapply walk_ok; [exact IH| |apply Hin1|exact Hp1|done| |].
      + apply create_running_walk; apply Hdeep'.
      + rewrite tsize_strip. lia.
      + pose proof (length_children (strip_op n)). rewrite tsize_strip in *. lia. }
  rewrite (bind_run _ _ _ _ _ Hrun).
  pose proof (inside_trans _ _ _ _ _ Hin1 Hin) as Hin'. destruct r.
  - destruct Hin' as (? & ? & ? & n' & Hn' & Hd). rewrite drop_edit_node.
    + eexists _, _. split; [reflexivity|]. apply inside_gone; [done|].
      split; [done|]. split; [done|]. split; [done|]. eauto.
    + simpl in Hd. rewrite Hd.
      pose proof (alter_split p (e_edit s) (proj1 Hwf) (path_in _ _ _ _ Hp)) as
        (l1 & x & l2 & _ & _ & _ & _ & _ & Hf).
      rewrite ids_cells, Hf, !fmap_app, !elem_of_app, <-ids_cells. right. left.
      rewrite <-Hn'. apply nid_in.
  - exists EXIT_FAILURE, s'. auto.
Qed.

(** ** No failing call is ignored *)

(** A call that returned, without failure if it reports errors. *)
Definition call_ok (st st' : be * option nc_err) : Prop :=
  ∃ op r, be_exec op st = Done (r, st') ∧ (reports_error op = true → r = 0%Z).
Definition calls_ok (s s' : estate) : Prop :=
  rtc call_ok (e_be s, e_err s) (e_be s', e_err s').

#[local] Instance calls_ok_trans : Transitive calls_ok.
Proof. intros s1 s2 s3. unfold calls_ok. apply transitivity. Qed.

Definition heeds (m : M estate exit) : Prop :=
  ∀ s s', m s = Done (EXIT_SUCCESS, s') → calls_ok s s'.

Lemma heeds_success : heeds (mret EXIT_SUCCESS).
Proof. intros s s' [= <-]. constructor. Qed.

Lemma heeds_fail e : heeds (fail e).
Proof. intros s s' H. discriminate. Qed.

Lemma call_int_ok op s r s' : call_int op s = Done (r, s') →
  (reports_error op = true → r = 0%Z) → calls_ok s s'.
Proof.
  unfold call_int. destruct (be_exec op (e_be s, e_err s)) as [[r1 [b e]]| |] eqn:E; [|done..].
  intros [= -> <-] Hr. apply rtc_once. exists op, r. done.
Qed.

Lemma heeds_call op : heeds (call op).
Proof.
  intros s s' (r & s1 & H & [= Hr <-])%bind_Done. eapply call_int_ok; [exact H|].
  intros _. unfold exit_of in Hr. by case_bool_decide.
Qed.

Lemma heeds_int op (f : Z → M estate exit) : reports_error op = false →
  (∀ r, heeds (f r)) → heeds (call_int op ≫= f).
Proof.
  intros Hop Hf s s' (r & s1 & H & Hr)%bind_Done. etrans; [|by eapply Hf].
  eapply call_int_ok; [exact H|]. congruence.
Qed.

Lemma heeds_key cur k nm f : (∀ key, heeds (f key)) → heeds (key_up cur k nm ≫= f).
Proof.
  intros Hf s s' (key & s1 & (n & s2 & Hd & Hk)%bind_Done & H)%bind_Done.
  unfold deref in Hd. destruct (cur !! k); [|done]. injection Hd as _ <-. injection Hk as _ <-.
  by eapply Hf.
Qed.

Lemma heeds_seq m m' : heeds m → heeds m' →
  heeds (ret ← m; match ret with EXIT_SUCCESS => m' | EXIT_FAILURE => mret EXIT_FAILURE end).
Proof.
  intros Hm Hm' s s' ([] & s1 & H & Hr)%bind_Done; [|done].
  etrans; [by apply Hm|by apply Hm'].
Qed.

Lemma heeds_for f l : (∀ c, heeds (f c)) → heeds (for_children f l).
Proof.
  intros Hf. induction l as [|c l IH]; [apply heeds_success|]. by apply heeds_seq.
Qed.

(** Looking up a node changes nothing. *)
Lemma heeds_at sd p (f : cursor → M estate exit) : (∀ cur, heeds (f cur)) → heeds (at_ptr sd p ≫= f).
Proof.
  intros Hf s s' (cur & s1 & (d & s2 & [= <- <-] & Hd)%bind_Done & H)%bind_Done.
  unfold deref in Hd. destruct (path_to p (doc_of sd s)); [|done]. injection Hd as _ <-.
  by eapply Hf.
Qed.

Lemma heeds_while f rec sd p : (∀ q, heeds (rec q)) → heeds (while_children f rec sd p).
Proof.
  intros Hr. induction f as [|f IH]; [by intros s s' H|]. cbn [while_children].
  apply heeds_at. intros cur. destruct (head cur ≫= first_child); [|apply heeds_success].
  by apply heeds_seq.
Qed.

Ltac heeds_tac :=
  repeat first
    [ apply heeds_success | apply heeds_fail | apply heeds_call
    | apply heeds_key; intros ? | apply heeds_int; [reflexivity|intros ?]
    | apply heeds_for; intros ? | apply heeds_while | case_match | solve [auto] ].

Lemma create_running_heeds loop rec p node cur :
  (∀ q, heeds (loop q)) → (∀ q, heeds (rec q)) → heeds (create_running loop rec p node cur).
Proof.
  intros Hl Hr. unfold create_running, create_resource, create_in_port, create_rest, call_.
  heeds_tac.
Qed.

Lemma heeds_drop f p :
  heeds (_ ← edit_delete f Edit p false; mret EXIT_SUCCESS).
Proof.
  intros s s' (r & s1 & H & [= <-])%bind_Done. destruct f as [|f]; [done|].
  cbn [edit_delete] in H. apply bind_Done in H as (cur & s2 & (d & s3 & [= <- <-] & Hd)%bind_Done & H).
  unfold deref in Hd. destruct (path_to p _) as [l|]; [|done].
  injection Hd as <- <-. destruct l as [|n up]; [done|].
  cbn [andb] in H. rewrite bind_ret, (bind_run _ _ _ _ _ (unlink_run Edit p s)) in H.
  injection H as _ <-. constructor.
Qed.

Lemma edit_create_heeds fuel : ∀ p, heeds (edit_create fuel p true).
Proof.
  induction fuel as [|f IH]; intros p s s' H; [done|]. cbn [edit_create] in H.
  rewrite bind_modify in H. set (s1 := upd_doc Edit (alter_node p strip_op) s) in *.
  change (calls_ok s1 s'). revert H. generalize s1. clear s1 s. intros s. revert s s'.
  apply heeds_at. intros [|n [|pa up]]; [done..|].
  change true with true. apply heeds_seq.
  - destruct (is_element n); [|apply heeds_success]. cbn [negb].
    destruct (bool_decide _); [heeds_tac|].
    apply create_running_heeds; [|done]. intros q. by apply heeds_while.
  - apply (heeds_drop (S f)).
Qed.

(** The node that is created, when it asks for a call, gets this call alone. *)
Lemma edit_create_asks fuel p s n up op r s' :
  wf_doc (e_edit s) → path_to p (alter_node p strip_op (e_edit s)) = Some (n :: up) →
  2 < length (n :: up) → is_element n = true → asks (n :: up) op →
  edit_create fuel p true s = Done (r, s') →
  ∃ c, be_exec op (e_be s, e_err s) = Done (c, (e_be s', e_err s')) ∧ r = exit_of c.
Proof.
  intros Hwf Hp Hl Hel Ha H. destruct fuel as [|f]; [done|]. cbn [edit_create] in H.
  rewrite bind_modify in H. set (s1 := upd_doc Edit (alter_node p strip_op) s) in *.
  assert (wf_doc (doc_of Edit s1)) as Hwf1 by (apply alter_hdr_wf; [apply strip_op_hdr|done]).
  destruct (deep_parent (doc_of Edit s1) p n up Hwf1 Hp Hl) as (pa & upp & -> & Hpa & _).
  destruct (at_ptr_ok Edit p s1 (path_in _ _ _ _ Hp)) as (n2 & up2 & Hp2 & _ & Hat).
  change (doc_of Edit s1) with (e_edit s1) in Hp2.
  assert (n2 :: up2 = n :: pa :: upp) as [= -> ->] by (simpl in Hp2; congruence).
  rewrite (bind_run _ _ _ _ _ Hat), Hel, bool_decide_eq_false_2 in H by done. cbn [negb] in H.
  apply bind_Done in H as (ret & s2 & H1 & H2). rewrite (asks_runs _ _ _ _ _ _ Ha) in H1.
  unfold call in H1. apply bind_Done in H1 as (c & s3 & H1 & [= <- <-]).
  unfold call_int in H1. change (e_be s1) with (e_be s) in H1. change (e_err s1) with (e_err s) in H1.
  destruct (be_exec op (e_be s, e_err s)) as [[c' [b e]]| |]; [|done..]. injection H1 as -> <-.
  exists c. revert H2. destruct (exit_of c); [|by intros [= <- <-]].
  rewrite drop_edit_node by exact (path_in _ _ _ _ Hp). by intros [= <- <-].
Qed.
End running.
