(* ===== verification/EditClaims.v ===== *)
(** * What the edit operations guarantee

    The properties of edit-config.c on XML configurations (startup and
    candidate) and on the running datastore, each with a concrete instance. *)

From S2P Require Import Prelude.
From S2P Require Import Clrwspace.
From S2P Require Import Xml.
From S2P Require Import XmlFacts.
From S2P Require Import EditTree.
From S2P Require Import EditChecks.
From S2P Require Import EditCompact.
From S2P Require Import EditOps.
From S2P Require Import EditXml.
From S2P Require Import EditRunning.
From S2P Require Import Samples.

Section claims.
Context {LX : LibXml} {LN : LibNetconf} {OB : OvsBackend}.

(** C1: on an XML configuration, edit_operations() returns: whatever mix of operations
    the edit document asks for, as long as no element lies below another one
    with the same operation, no freed node is touched, the OVSDB layer is not
    called, the documents stay well-formed, the only failure is a delete of
    data that do not exist, and success leaves nothing of the edit document
    when the default operation is merge or replace. *)
Theorem edit_operations_safe fuel defop s :
  wf_state s → flat_ops (e_edit s) → no_top_key (e_edit s) →
  length (ids (e_orig s)) < fuel → tsize (e_edit s) < fuel →
  ∃ r s', edit_operations fuel defop false s = Done (r, s') ∧ wf_state s' ∧ e_be s' = e_be s ∧
    match r with
    | EXIT_SUCCESS => e_err s' = None ∧
        (defop ≠ NC_EDIT_DEFOP_NONE → defop ≠ NC_EDIT_DEFOP_ERROR → children (e_edit s') = [])
    | EXIT_FAILURE => e_err s' = Some (nc_err_new NC_ERR_DATA_MISSING)
    end.
Proof. intros H1 H2 H3 H4 H5. by apply edit_operations_ok. Qed.

(** Configurations with at most the root element. *)
Lemma set_root_single (cp : xmlNode) (l : list xmlNode) :
  length l ≤ 1 → Forall (λ c, is_element c = true) l → set_root cp l = [cp].
Proof.
  intros Hl Hf. destruct l as [|c [|? ?]]; simpl in Hl; try lia; [done|].
  apply Forall_cons in Hf as [Hf _].
  cbn [set_root]. unfold is_element in Hf. by rewrite Hf.
Qed.

Lemma without_equiv_single edit d : length (children d) ≤ 1 →
  Forall (λ c, is_element c = true) (children d) →
  length (children (without_equiv edit d)) ≤ 1 ∧
  Forall (λ c, is_element c = true) (children (without_equiv edit d)).
Proof.
  intros Hl Hf. unfold without_equiv. destruct (_ ≫= head) as [old|]; [|done].
  rewrite children_remove. unfold remove_list. split.
  - rewrite length_fmap. pose proof (length_filter (λ c, nid c ≠ nid old) (children d)). lia.
  - apply Forall_fmap, Forall_forall. intros x [_ Hx]%list_elem_of_filter.
    unfold compose, is_element, ntype. rewrite hdr_remove. rewrite Forall_forall in Hf. by apply Hf.
Qed.

(** C28: the default operation replace makes the configuration a copy of the edit
    data: with one root element on either side (or an empty configuration) the
    result has exactly the content of the edit document's root. *)
Theorem edit_operations_replaces fuel s r :
  wf_state s → children (e_edit s) = [r] →
  length (children (e_orig s)) ≤ 1 → Forall (λ c, is_element c = true) (children (e_orig s)) →
  2 < fuel →
  ∃ s', edit_operations fuel NC_EDIT_DEFOP_REPLACE false s = Done (EXIT_SUCCESS, s') ∧
    data <$> children (e_orig s') = [data (strip_op r)] ∧ children (e_edit s') = [].
Proof.
  intros Hs Hr Hl Hel Hf. destruct fuel as [|[|f]]; [lia..|].
  set (s0 := set_err None s). assert (wf_state s0) as Hs0 by done.
  destruct (first_child_path (e_edit s0) r) as [Hp Hne];
    [apply Hs|unfold first_child; simpl; by rewrite Hr|].
  destruct (edit_replace_spec (S f) (nid r) s0 r [e_edit s0] Hs0 Hne Hp)
    as (n & up & s1 & Hp1 & Hrun & (Hs1 & He1 & _ & Her1) & Hres).
  assert (n = strip_op r ∧ up = [alter_node (nid r) strip_op (e_edit s0)]) as [-> ->].
  { pose proof (path_alter (nid r) strip_op _ _ (λ x, proj1 (strip_op_hdr x))
      (proj1 (proj1 (proj2 (proj2 Hs0)))) Hp) as Hpa.
    rewrite Hpa in Hp1. cbn [fmap list_fmap] in Hp1. injection Hp1 as <- <-. split; [|done].
    destruct r. by rewrite alter_node_eq, bool_decide_eq_true_2. }
  assert (children (e_edit s1) = []) as Hc1.
  { rewrite He1. apply children_remove_first; [apply Hs|done]. }
  exists s1. destruct Hres as (cp & Hcp & [|x miss] & found & t & Hup & _ & Hnest & Ho);
    [|injection Hup as _ Hup; symmetry in Hup; apply app_nil in Hup as [_ ->]; done].
  simpl in Hup, Hnest. subst found t. simpl in Ho.
  destruct (without_equiv_single [r; e_edit s0] (e_orig s0) Hl Hel) as [Hl' Hel'].
  split; [|split; [|done]].
  - unfold edit_operations. rewrite bind_modify. fold s0.
    change (edit_phases (S (S f)) NC_EDIT_DEFOP_REPLACE false) with
      (and_then (default_replace (S (S f)) (S (S f)) false)
                (explicit_phases (S (S f)) NC_EDIT_DEFOP_REPLACE)).
    assert (default_replace (S (S f)) (S (S f)) false s0 = Done (EXIT_SUCCESS, s1)) as Hd.
    { cbn [default_replace]. rewrite bind_gets. unfold first_child at 1.
      change (e_edit s0) with (e_edit s). rewrite Hr. cbn [head].
      rewrite (bind_run _ _ _ _ _ Hrun), bind_gets. unfold first_child. by rewrite Hc1. }
    assert (explicit_phases (S (S f)) NC_EDIT_DEFOP_REPLACE s1 = Done (EXIT_SUCCESS, s1)) as Hx.
    { apply explicit_phases_empty; [lia|apply Hs1|done]. }
    unfold mbind, M_bind. by rewrite (and_then_run _ _ _ _ Hd), Hx.
  - rewrite Ho. change (e_edit s) with (e_edit s0). change (e_orig s) with (e_orig s0).
    destruct (without_equiv [r; e_edit s0] (e_orig s0)) as [i h cs].
    simpl in Hl', Hel'. simpl. rewrite set_root_single by done. simpl. by rewrite Hcp.
Qed.

(** Edit_remove() removes every counterpart of the edit node, only counterparts,
    and the edit node itself; it succeeds whether or not there is one. *)
Theorem edit_remove_clears fuel p n up s :
  wf_doc (e_orig s) → path_to p (e_edit s) = Some (n :: up) →
  length (ids (e_orig s)) < fuel →
  ∃ d', edit_remove fuel p false s
        = Done (EXIT_SUCCESS, upd_doc Edit (remove_node p) (with_orig d' s)) ∧
    rtc (drop_equiv (n :: up)) (e_orig s) d' ∧
    find_element_equiv (Some d') (n :: up) = None.
Proof. apply edit_remove_spec. Qed.

(** C19: edit_create() of an XML configuration takes the edit node out of the edit
    document and adds one subtree to the configuration, at the end of the
    children of the nearest ancestor's counterpart (or as the root, in place of
    the one there was): the ancestors without a counterpart, outermost first,
    each a bare element with the edit's name and namespace and the next as its
    only child, and in the innermost a copy of the edit node with the same type,
    name, namespace, content and children and the same attributes but the
    operation.  Nothing else of the configuration changes. *)
Theorem edit_create_copies f p n up0 s :
  wf_state s → nid (e_edit s) ≠ p → path_to p (e_edit s) = Some (n :: up0) →
  ∃ m up s' cp, path_to p (alter_node p strip_op (e_edit s)) = Some (m :: up) ∧
    edit_create (S f) p false s = Done (EXIT_SUCCESS, s') ∧
    e_edit s' = remove_node p (e_edit s) ∧ wf_state s' ∧
    copies n cp ∧ inserted up cp (e_orig s) (e_orig s').
Proof.
  intros H1 H2 H3. destruct (edit_create_spec f p s H1 H2 (path_in _ _ _ _ H3))
    as (m & up & s' & Hp & Hrun & (Hs & He & _) & cp & Hcp & Hres).
  exists m, up, s', cp. split_and!; try done. apply strip_op_copies. rewrite Hcp. f_equal.
  pose proof (path_alter p strip_op _ _ (λ x, proj1 (strip_op_hdr x))
    (proj1 (proj1 (proj2 (proj2 H1)))) H3) as Hpa.
  rewrite Hpa in Hp. cbn [fmap list_fmap] in Hp. injection Hp as <- _.
  destruct (path_to_head _ _ _ H3) as (n' & up' & [= <- <-] & Hn).
  destruct n. rewrite alter_node_eq, bool_decide_eq_true_2; done.
Qed.

(** Edit_replace() of an XML configuration is the removal of the counterpart
    followed by such a creation. *)
Theorem edit_replace_swaps f p s n0 up0 :
  wf_state s → nid (e_edit s) ≠ p → path_to p (e_edit s) = Some (n0 :: up0) →
  ∃ n up s', path_to p (alter_node p strip_op (e_edit s)) = Some (n :: up) ∧
    edit_replace (S f) (Some p) false s = Done (EXIT_SUCCESS, s') ∧
    e_edit s' = remove_node p (e_edit s) ∧ wf_state s' ∧
    create_result (n :: up) (without_equiv (n0 :: up0) (e_orig s)) (e_orig s').
Proof.
  intros H1 H2 H3. destruct (edit_replace_spec f p s n0 up0 H1 H2 H3)
    as (n & up & s' & Hp & Hrun & (Hs & He & _) & Hres).
  exists n, up, s'. done.
Qed.

(** Edit_merge() of an XML configuration returns for any depth of the edit data,
    with fuel linear in its size, and consumes exactly its edit node, unless the
    node is a list key, which stays. *)
Theorem edit_merge_consumes fuel p s n up :
  wf_state s → nid (e_edit s) ≠ p → path_to p (e_edit s) = Some (n :: up) →
  tsize n < fuel →
  ∃ s', edit_merge fuel p false s = Done (EXIT_SUCCESS, s') ∧ wf_state s' ∧
    (e_edit s' = remove_node p (e_edit s) ∨ (is_key (n :: up) = true ∧ s' = s)).
Proof.
  intros Hs Hne Hp Hsz. destruct (is_key (n :: up)) eqn:Hk.
  - destruct fuel as [|[|f]]; [lia|pose proof (tsize_pos n); lia|].
    destruct (find_element_equiv (Some (e_orig s)) (n :: up)) as [oc|] eqn:Eq.
    + exists s. rewrite (edit_merge_key _ _ _ _ _ _ Hp Hk Eq). auto.
    + destruct (edit_create_spec f p s Hs Hne (path_in _ _ _ _ Hp))
        as (? & ? & s' & _ & Hrun & (Hs' & He & _) & _).
      exists s'. split; [|auto].
      destruct (at_ptr_ok Edit p s (path_in _ _ _ _ Hp)) as (n' & up' & Hp' & _ & Hat).
      assert (n' :: up' = n :: up) as [= -> ->] by (simpl in Hp'; congruence).
      cbn [edit_merge]. by rewrite (bind_run _ _ _ _ _ Hat), bind_gets, Eq.
  - destruct (merge_ok_all fuel p s n up Hs Hne Hp Hk Hsz) as (s' & Hrun & Hs' & He & _). eauto.
Qed.
End claims.

(** ** Concrete edits *)

(** Merge of a second bridge, removal of the port's number. *)
Definition edit_mixed : xmlNode := doc [el 1 "capable-switch" [
  el 2 "resources" [el 3 "port" [lf 4 "name" "eth0"; el_op 6 "requested-number" "delete" []]];
  el 7 "logical-switches" [el 8 "switch" [lf 9 "id" "br1"]]]].

Lemma edit_operations_safe_witness :
  ∃ r s', edit_operations 20 NC_EDIT_DEFOP_MERGE false (start conf edit_mixed) = Done (r, s') ∧
    wf_state s' ∧ e_be s' = (false, []) ∧
    match r with
    | EXIT_SUCCESS => e_err s' = None ∧ (NC_EDIT_DEFOP_MERGE ≠ NC_EDIT_DEFOP_NONE →
        NC_EDIT_DEFOP_MERGE ≠ NC_EDIT_DEFOP_ERROR → children (e_edit s') = [])
    | EXIT_FAILURE => e_err s' = Some (nc_err_new NC_ERR_DATA_MISSING)
    end.
Proof.
  apply (edit_operations_safe 20 NC_EDIT_DEFOP_MERGE (start conf edit_mixed)).
  - apply wf_stateb_ok. vm_compute. reflexivity.
  - apply flat_opsb_ok. vm_compute. reflexivity.
  - apply no_top_keyb_ok. vm_compute. reflexivity.
  - vm_compute. lia.
  - vm_compute. lia.
Defined.

(** A new configuration. *)
Definition new_root : xmlNode := el 1 "capable-switch" [lf 2 "id" "new"].

Lemma edit_operations_replaces_witness :
  ∃ s', edit_operations 3 NC_EDIT_DEFOP_REPLACE false (start conf (doc [new_root]))
        = Done (EXIT_SUCCESS, s') ∧
    data <$> children (e_orig s') = [data (strip_op new_root)] ∧ children (e_edit s') = [].
Proof.
  apply (edit_operations_replaces 3 (start conf (doc [new_root])) new_root).
  - apply wf_stateb_ok. vm_compute. reflexivity.
  - reflexivity.
  - vm_compute. lia.
  - repeat constructor.
  - lia.
Defined.

(** The edit node of the port's number in [edit_mixed]. *)
Lemma edit_remove_clears_witness : ∃ n up d',
  path_to 6 edit_mixed = Some (n :: up) ∧
  edit_remove 20 6 false (start conf edit_mixed)
    = Done (EXIT_SUCCESS, upd_doc Edit (remove_node 6) (with_orig d' (start conf edit_mixed))) ∧
  rtc (drop_equiv (n :: up)) conf d' ∧ find_element_equiv (Some d') (n :: up) = None.
Proof.
  destruct (path_to 6 edit_mixed) as [[|n up]|] eqn:E; [vm_compute in E; discriminate| |
    vm_compute in E; discriminate].
  destruct (edit_remove_clears 20 6 n up (start conf edit_mixed)) as (d' & H1 & H2 & H3).
  - apply wf_docb_ok. vm_compute. reflexivity.
  - exact E.
  - vm_compute. lia.
  - exists n, up, d'. done.
Defined.

Lemma edit_create_copies_witness : ∃ n up0 m up s' cp,
  path_to 8 edit_mixed = Some (n :: up0) ∧
  path_to 8 (alter_node 8 strip_op edit_mixed) = Some (m :: up) ∧
  edit_create 1 8 false (start conf edit_mixed) = Done (EXIT_SUCCESS, s') ∧
  e_edit s' = remove_node 8 edit_mixed ∧ wf_state s' ∧
  copies n cp ∧ inserted up cp conf (e_orig s').
Proof.
  destruct (path_to 8 edit_mixed) as [[|n up0]|] eqn:E; [vm_compute in E; discriminate| |
    vm_compute in E; discriminate].
  destruct (edit_create_copies 0 8 n up0 (start conf edit_mixed)) as (m & up & s' & cp & H).
  - apply wf_stateb_ok. vm_compute. reflexivity.
  - discriminate.
  - exact E.
  - exists n, up0, m, up, s', cp. done.
Defined.

Lemma edit_replace_swaps_witness : ∃ n0 up0 n up s',
  path_to 3 edit_mixed = Some (n0 :: up0) ∧
  path_to 3 (alter_node 3 strip_op edit_mixed) = Some (n :: up) ∧
  edit_replace 1 (Some 3) false (start conf edit_mixed) = Done (EXIT_SUCCESS, s') ∧
  e_edit s' = remove_node 3 edit_mixed ∧ wf_state s' ∧
  create_result (n :: up) (without_equiv (n0 :: up0) conf) (e_orig s').
Proof.
  destruct (path_to 3 edit_mixed) as [[|n0 up0]|] eqn:E; [vm_compute in E; discriminate| |
    vm_compute in E; discriminate].
  destruct (edit_replace_swaps 0 3 (start conf edit_mixed) n0 up0) as (n & up & s' & H).
  - apply wf_stateb_ok. vm_compute. reflexivity.
  - discriminate.
  - exact E.
  - exists n0, up0, n, up, s'. done.
Defined.

Lemma edit_merge_consumes_witness : ∃ n up s',
  path_to 1 edit_mixed = Some (n :: up) ∧
  edit_merge 20 1 false (start conf edit_mixed) = Done (EXIT_SUCCESS, s') ∧ wf_state s' ∧
  (e_edit s' = remove_node 1 edit_mixed ∨ (is_key (n :: up) = true ∧ s' = start conf edit_mixed)).
Proof.
  destruct (path_to 1 edit_mixed) as [[|n up]|] eqn:E; [vm_compute in E; discriminate| |
    vm_compute in E; discriminate].
  destruct (edit_merge_consumes 20 1 (start conf edit_mixed) n up) as (s' & H).
  - apply wf_stateb_ok. vm_compute. reflexivity.
  - discriminate.
  - exact E.
  - vm_compute in E. injection E as <- _. vm_compute. lia.
  - exists n, up, s'. done.
Defined.

(** ** The running datastore *)
Section running_claims.
Context {LX : LibXml} {LN : LibNetconf} {OB : OvsBackend}.

(** C26: for an OVSDB layer that returns from its calls, edit_delete() of any node below
    the root returns, with fuel linear in the size of the node: success removes
    exactly that node from its document, failure sets an error and changes
    nothing outside the node. *)
Theorem edit_delete_running_sound fuel sd p n up s :
  be_total → wf_doc (doc_of sd s) → path_to p (doc_of sd s) = Some (n :: up) →
  deep_enough (n :: up) → tsize n < fuel →
  ∃ r s', edit_delete fuel sd p true s = Done (r, s') ∧
    match r with
    | EXIT_SUCCESS => gone sd p s s'
    | EXIT_FAILURE => inside sd p s s' ∧ is_Some (e_err s')
    end.
Proof. intros Ht. apply (edit_delete_consumes Ht sd fuel). Qed.

(** C27: for an OVSDB layer that returns from its calls, edit_create() on the running
    datastore of a node below the root of the edit document returns, with fuel
    linear in the size of the node.  Success means that the node, and nothing
    else, is gone and that every call made that reports errors returned 0, so no
    failing call is ignored; failure leaves an error and an edit document that
    differs inside the node only; the configuration document is not touched.
    For the elements that [asks] lists by their names and their ancestors'
    (resources of the switch and references to them, switches, controllers, and
    the leaves of all these that OVSDB has a function for), this function alone
    is called, once, with the keys read from the ancestors, and its result
    decides. *)
Theorem edit_create_running_sound fuel p n up s :
  be_total → wf_doc (e_edit s) → path_to p (e_edit s) = Some (n :: up) →
  deep_enough (n :: up) → tsize n < fuel →
  ∃ r s', edit_create fuel p true s = Done (r, s') ∧
    match r with
    | EXIT_SUCCESS => gone Edit p s s' ∧ calls_ok s s'
    | EXIT_FAILURE => inside Edit p s s' ∧ is_Some (e_err s')
    end ∧
    ∀ m up' op, path_to p (alter_node p strip_op (e_edit s)) = Some (m :: up') →
      is_element m = true → asks (m :: up') op →
      ∃ c, be_exec op (e_be s, e_err s) = Done (c, (e_be s', e_err s')) ∧ r = exit_of c.
Proof.
  intros Ht Hwf Hp Hd Hsz. destruct (edit_create_consumes Ht fuel p s n up Hwf Hp Hd Hsz)
    as (r & s' & Hrun & H). exists r, s'. split; [done|]. split.
  - destruct r; [|done]. split; [done|]. by eapply edit_create_heeds.
  - intros m up' op Hm Hel Ha. eapply edit_create_asks; try done.
    pose proof (path_alter p strip_op _ _ (λ x, proj1 (strip_op_hdr x)) (proj1 Hwf) Hp) as Hpa.
    rewrite Hpa in Hm. injection Hm as _ <-. destruct Hd as [Hd _]. by rewrite length_cons, length_fmap.
Qed.

Lemma delete_equivs_root k fuel p n up c d : ∀ s,
  (∀ st, ∃ st', be_exec TxnDelAll st = Done (0%Z, st')) →
  e_orig s = d → path_to p (e_edit s) = Some (n :: up) →
  find_element_equiv (Some d) (n :: up) = Some [c; d] → path_to (nid c) d = Some [c; d] →
  is_element c = true → ntype d = XML_DOCUMENT_NODE →
  delete_equivs k fuel p true s = NoFuel.
Proof.
  induction k as [|k IH]; intros s Hbe Hd Hp Heq Hc He Ht; [done|].
  destruct (at_ptr_ok Edit p s (path_in _ _ _ _ Hp)) as (n' & up' & Hp' & _ & Hat).
  assert (n' :: up' = n :: up) as [= -> ->] by (simpl in Hp'; congruence).
  cbn [delete_equivs]. rewrite (bind_run _ _ _ _ _ Hat), bind_gets, Hd, Heq.
  cbn [mbind option_bind head]. destruct fuel as [|f]; [done|].
  destruct (Hbe (e_be s, e_err s)) as ([b e] & Hb).
  assert (edit_delete (S f) Orig (nid c) true s
    = Done (EXIT_SUCCESS, EState (e_orig s) (e_edit s) (e_next s) b e)) as Hrun.
  { cbn [edit_delete].
    assert (at_ptr Orig (nid c) s = Done ([c; d], s)) as Hat'.
    { unfold at_ptr. rewrite bind_gets. simpl doc_of. by rewrite Hd, Hc. }
    rewrite (bind_run _ _ _ _ _ Hat'), He. cbn [andb head].
    rewrite bool_decide_eq_true_2 by (simpl; congruence).
    unfold call, call_int, mbind, M_bind. by rewrite Hb. }
  rewrite (bind_run _ _ _ _ _ Hrun). by eapply IH.
Qed.

(** Removing the root of the running configuration never returns: edit_delete()
    leaves through txn_del_all() without unlinking the root, so the search for
    further counterparts finds it again, however often it is deleted. *)
Theorem edit_remove_root_running_loops fuel p n up c d s :
  (∀ st, ∃ st', be_exec TxnDelAll st = Done (0%Z, st')) →
  e_orig s = d → path_to p (e_edit s) = Some (n :: up) →
  find_element_equiv (Some d) (n :: up) = Some [c; d] → path_to (nid c) d = Some [c; d] →
  is_element c = true → ntype d = XML_DOCUMENT_NODE →
  edit_remove fuel p true s = NoFuel.
Proof.
  intros. unfold edit_remove, and_then, mbind, M_bind.
  by erewrite delete_equivs_root.
Qed.
End running_claims.

Lemma log_total : @be_total log_backend.
Proof. intros op st. eexists _, _. reflexivity. Defined.

Lemma edit_delete_running_sound_witness : ∃ r s' n up,
  path_to 10 conf = Some (n :: up) ∧
  edit_delete 20 Orig 10 true (start conf (doc [])) = Done (r, s') ∧
  match r with
  | EXIT_SUCCESS => gone Orig 10 (start conf (doc [])) s'
  | EXIT_FAILURE => inside Orig 10 (start conf (doc [])) s' ∧ is_Some (e_err s')
  end.
Proof.
  destruct (path_to 10 conf) as [[|n up]|] eqn:E; [vm_compute in E; discriminate| |
    vm_compute in E; discriminate].
  destruct (edit_delete_running_sound 20 Orig 10 n up (start conf (doc []))) as (r & s' & H).
  - apply log_total.
  - apply wf_docb_ok. vm_compute. reflexivity.
  - exact E.
  - vm_compute in E. injection E as <- <-. split; [vm_compute; lia|discriminate].
  - vm_compute in E. injection E as <- _. vm_compute. lia.
  - exists r, s', n, up. done.
Defined.

Lemma edit_create_running_sound_witness : ∃ r s' n up,
  path_to 8 edit_mixed = Some (n :: up) ∧
  edit_create 20 8 true (start conf edit_mixed) = Done (r, s') ∧
  match r with
  | EXIT_SUCCESS => gone Edit 8 (start conf edit_mixed) s' ∧ calls_ok (start conf edit_mixed) s'
  | EXIT_FAILURE => inside Edit 8 (start conf edit_mixed) s' ∧ is_Some (e_err s')
  end ∧
  ∃ m c, be_exec (TxnAddBridge m) (false, [], None) = Done (c, (e_be s', e_err s')) ∧
    name m = Some "switch" ∧ r = exit_of c.
Proof.
  destruct (path_to 8 edit_mixed) as [[|n up]|] eqn:E; [vm_compute in E; discriminate| |
    vm_compute in E; discriminate].
  destruct (path_to 8 (alter_node 8 strip_op edit_mixed)) as [[|m up']|] eqn:Em;
    [vm_compute in Em; discriminate| |vm_compute in Em; discriminate].
  destruct (edit_create_running_sound 20 8 n up (start conf edit_mixed)) as (r & s' & H1 & H2 & H3).
  - apply log_total.
  - apply wf_docb_ok. vm_compute. reflexivity.
  - exact E.
  - vm_compute in E. injection E as <- <-. split; [vm_compute; lia|discriminate].
  - vm_compute in E. injection E as <- _. vm_compute. lia.
  - exists r, s', n, up. split; [reflexivity|]. split; [done|]. split; [done|].
    vm_compute in Em. injection Em as <- <-. eexists.
    edestruct H3 as (c & Hc & Hr); [reflexivity|reflexivity|apply asks_switch; reflexivity|].
    exists c. split; [exact Hc|]. done.
Defined.

(** <capable-switch operation="remove"/> *)
Definition edit_root : xmlNode := doc [el_op 1 "capable-switch" "remove" []].

Lemma edit_remove_root_running_loops_witness :
  edit_remove 100 1 true (start conf edit_root) = NoFuel.
Proof.
  eapply (edit_remove_root_running_loops 100 1 _ _ _ conf (start conf edit_root)).
  - intros st. eexists. reflexivity.
  - reflexivity.
  - vm_compute. reflexivity.
  - vm_compute. reflexivity.
  - vm_compute. reflexivity.
  - reflexivity.
  - reflexivity.
Defined.

(** ** Edits that go wrong *)

(** A configuration without the mandatory id. *)
Definition edit_no_id : xmlNode := doc [el 1 "capable-switch" []].

Lemma replace_no_id_step fuel b e :
  edit_replace (S fuel) (Some 1) true (@EState log_backend (doc []) edit_no_id 100 b e)
  = Done (EXIT_FAILURE, EState (doc []) edit_no_id 100 b (Some missing_switch_id)).
Proof. vm_compute. reflexivity. Qed.

Lemma default_replace_no_id n fuel b e :
  default_replace n fuel true (@EState log_backend (doc []) edit_no_id 100 b e) = NoFuel.
Proof.
  revert e. induction n as [|n IH]; intros e; [done|].
  cbn [default_replace]. rewrite bind_gets.
  change (first_child (e_edit _)) with (Some (el 1 "capable-switch" [])).
  destruct fuel as [|f]; [reflexivity|].
  rewrite (bind_run _ _ _ _ _ (replace_no_id_step f b e)). apply IH.
Qed.

(** The loop of the default operation replace does not look at the result of
    edit_replace(): on the running datastore an edit whose creation fails, such
    as a capable-switch without id, is retried for ever. *)
Theorem default_replace_failure_loops fuel :
  edit_operations fuel NC_EDIT_DEFOP_REPLACE true (start (doc []) edit_no_id) = NoFuel.
Proof.
  unfold edit_operations. rewrite bind_modify.
  unfold edit_phases. rewrite bool_decide_eq_true_2 by done.
  unfold and_then, mbind, M_bind.
  change (set_err None (start (doc []) edit_no_id))
    with (@EState log_backend (doc []) edit_no_id 100 (false, []) None).
  by rewrite default_replace_no_id.
Qed.

(** A delete inside a merge inside a delete. *)
Definition edit_nested : xmlNode := doc [el 1 "capable-switch" [
  el 2 "resources" [el_op 3 "port" "delete" [lf 4 "name" "eth0";
    el_op 6 "configuration" "merge" [el_op 7 "admin-state" "delete" []]]]]].
Definition conf_nested : xmlNode := doc [el 1 "capable-switch" [
  lf 2 "id" "ofc";
  el 4 "resources" [el 5 "port" [lf 6 "name" "eth0";
    el 8 "configuration" [lf 9 "admin-state" "up"]]]]].

(** An edit with a delete below a merge below a delete passes the checks and the
    compaction, and then edit_operations() dereferences the inner node after it
    was freed with the outer one. *)
Theorem nested_delete_use_after_free :
  check_keys (Some edit_nested) = (EXIT_SUCCESS, None) ∧
  check_edit_ops NC_EDIT_OP_DELETE NC_EDIT_DEFOP_MERGE
    (CState (Some conf_nested) edit_nested None)
    = Done (EXIT_SUCCESS, CState (Some conf_nested) edit_nested None) ∧
  compact_edit_operations (Some edit_nested) NC_EDIT_DEFOP_MERGE
    = Done (EXIT_SUCCESS, Some edit_nested) ∧
  edit_operations 30 NC_EDIT_DEFOP_MERGE false (start conf_nested edit_nested)
    = Crash UseAfterFree.
Proof. repeat split; vm_compute; reflexivity. Qed.

(** Creation inside a switch that does not exist yet. *)
Definition edit_new_switch : xmlNode := doc [el 1 "capable-switch" [
  el 2 "logical-switches" [el 3 "switch" [lf 4 "id" "br1";
    el_op 6 "datapath-id" "create" [txt 7 "00:02"]]]]].

(** The id and the datapath-id of every switch of a configuration. *)
Definition switches (d : xmlNode) : list (option string * option string) :=
  (λ n, (get_key n "id", get_key n "datapath-id")) <$>
  filter (λ n, name n = Some "switch") (subtree d).

(** When the parent of a node to create is a list instance that does not exist,
    edit_create_r() creates the parent without its key: the new datapath-id ends
    up in a switch without id, next to the switch the edit asked for. *)
Theorem create_below_missing_switch_loses_key :
  ∃ s', edit_operations 40 NC_EDIT_DEFOP_MERGE false (start conf edit_new_switch)
        = Done (EXIT_SUCCESS, s') ∧
    switches (e_orig s') = [(Some "br0", Some "00:01"); (None, Some "00:02"); (Some "br1", None)].
Proof. eexists. split; vm_compute; reflexivity. Qed.

(** A comment after the root of the edit data replaces the whole configuration:
    with the default operation replace, the comment is made the root in turn. *)
Theorem trailing_comment_drops_configuration :
  ∃ s', edit_operations 30 NC_EDIT_DEFOP_REPLACE false
          (start conf (doc [new_root; comment 9 "note"])) = Done (EXIT_SUCCESS, s') ∧
    data <$> children (e_orig s') = [data (comment 9 "note")].
Proof. eexists. split; vm_compute; reflexivity. Qed.
