(* ===== verification/CheckClaims.v ===== *)
(** * What the checks and the compaction of edit-config guarantee

    The properties of clrwspace(), of the search for counterparts, of the
    checks made before an edit and of compact_edit_operations(). *)

From S2P Require Import Prelude.
From S2P Require Import Clrwspace.
From S2P Require Import Xml.
From S2P Require Import XmlFacts.
From S2P Require Import EditTree.
From S2P Require Import EditChecks.
From S2P Require Import EditCompact.
From S2P Require Import EditOps.
From S2P Require Import EditXml.
From S2P Require Import Samples.

(** ** clrwspace *)

(** C36: clrwspace() never leaves its buffer, and what it computes is [clr_chars]: a
    string that does not start with whitespace is returned as it is; otherwise
    the whitespace-free part of the string is followed by what the compaction
    left behind it.  Only blank strings become empty. *)
Theorem clrwspace_result l :
  nonul l →
  clrwspace (String.string_of_list_ascii l) = Some (String.string_of_list_ascii (clr_chars l)) ∧
  (clr_chars l = [] ↔ all_space l = true).
Proof. intros H. split; [by apply clrwspace_chars|apply clr_chars_nil]. Qed.

Lemma clrwspace_result_witness :
  clrwspace (String.string_of_list_ascii [" "; "a"; " "]%char)
  = Some (String.string_of_list_ascii (clr_chars [" "; "a"; " "]%char)) ∧
  (clr_chars [" "; "a"; " "]%char = [] ↔ all_space [" "; "a"; " "]%char = true).
Proof. apply (clrwspace_result [" "; "a"; " "]%char). repeat constructor; discriminate. Defined.

(** Clrwspace() does not strip: trailing whitespace stays when there is none in
    front, inner whitespace goes when there is, and a single leading space makes
    the last character appear twice. *)
Theorem clrwspace_not_strip :
  clrwspace "a " = Some "a " ∧ clrwspace " a b " = Some "ab" ∧ clrwspace " a" = Some "aa".
Proof. repeat split; vm_compute; reflexivity. Qed.

(** ** Counterparts *)

(** C21: find_element_equiv() finds a node exactly when it is the counterpart of the
    edit node: at every level from the root, the first child of the counterpart
    of the parent that the element matches.  Texts match when clrwspace() makes
    the same of them; elements of the same name and namespace (any, for edit
    data in the NETCONF base namespace, a blank one or none) match by their texts in a
    leaf-list, by the value of the key leaf in a list, where a key leaf without
    value matches any, and alone otherwise.  The result is a node of the
    configuration together with the path to it. *)
Theorem find_element_equiv_correct d edit r :
  (find_element_equiv (Some d) edit = Some r ↔ counterpart d edit r) ∧
  (find_element_equiv (Some d) edit = Some r → is_path r d).
Proof.
  split; [apply find_element_equiv_spec|].
  intros H. by apply find_element_equiv_path in H as [? _].
Qed.

(** A list instance whose key element is empty matches every instance of the list:
    matching_elements() answers -1 for the missing key value, and its caller
    takes any answer but 0 for a match. *)
Theorem empty_key_matches n1 n2 up k key1 key2 :
  is_element n1 = true → is_element n2 = true → name n1 = name n2 → nscmp n1 n2 = 0%Z →
  leaflist_like (n2 :: up) = false →
  key_name (n2 :: up) = Some k →
  go2node n1 k = Some key1 → children key1 = [] → go2node n2 k = Some key2 →
  matching_elements (Some n1) (Some (n2 :: up)) = (-1)%Z ∧
  ∀ o, children o = [n2] → up = [o] → find_match n1 up = Some (n2 :: up).
Proof.
  intros. assert (matching_elements (Some n1) (Some (n2 :: up)) = (-1)%Z) as Hm
    by (by eapply matching_empty_key). split; [done|].
  intros o Ho ->. cbn [find_match]. rewrite Ho. cbn [find_first]. by rewrite Hm.
Qed.

Definition switch_no_key : xmlNode := el 1 "switch" [el 2 "id" []].
Definition switch_br0 : xmlNode := el 1 "switch" [lf 2 "id" "br0"].

Lemma empty_key_matches_witness :
  matching_elements (Some switch_no_key) (Some [switch_br0; el 9 "logical-switches" [switch_br0]])
    = (-1)%Z ∧
  ∀ o, children o = [switch_br0] → [el 9 "logical-switches" [switch_br0]] = [o] →
    find_match switch_no_key [el 9 "logical-switches" [switch_br0]]
      = Some [switch_br0; el 9 "logical-switches" [switch_br0]].
Proof.
  eapply (empty_key_matches switch_no_key switch_br0 [el 9 "logical-switches" [switch_br0]]
    "id" _ _); vm_compute; reflexivity.
Defined.

(** ** Checks *)

(** Check_keys() accepts a document exactly when every list instance in it has its
    key; otherwise it reports the first instance without key as the bad element. *)
Theorem check_keys_correct d :
  match check_keys (Some d) with
  | (EXIT_SUCCESS, e) => e = None ∧ doc_keyed d
  | (EXIT_FAILURE, e) => ¬ doc_keyed d ∧
      ∃ n, n ∈ subtree d ∧ (e = Some (set_msg "The list element misses key."
             (set_badelem (name n) (nc_err_new NC_ERR_BAD_ELEM))))
  end.
Proof.
  unfold doc_keyed. destruct (root_element d) as [root|] eqn:Hr.
  2:{ unfold check_keys. simpl. by rewrite Hr. }
  rewrite (check_keys_bad d root Hr).
  destruct (first_some bad_top (children root)) as [n|] eqn:Hb.
  - split.
    + intros H. specialize (H root eq_refl).
      rewrite <-(first_some_Forall bad_top) in H by apply bad_top_None. congruence.
    + apply first_some_Some in Hb as (t & Ht & Hb).
      assert (t ∈ subtree d) as Htd.
      { apply find_first_Some in Hr as [Hr _]. eapply subtree_trans.
        - apply forest_subtree. eapply subtree_child; [exact Hr|apply subtree_self].
        - apply forest_subtree. eapply subtree_child; [exact Ht|apply subtree_self]. }
      exists n. split; [|done]. eapply subtree_trans; [exact Htd|]. apply forest_subtree.
      unfold bad_top in Hb. destruct (is_element t); [|done].
      destruct (name_is t "resources").
      * apply first_some_Some in Hb as (x & Hx & Hb). unfold bad_resource in Hb.
        repeat case_match; simplify_eq. eapply subtree_child; [exact Hx|apply subtree_self].
      * destruct (name_is t "logical-switches"); [|done].
        apply first_some_Some in Hb as (x & Hx & Hb). eapply subtree_child; [exact Hx|].
        unfold bad_switch in Hb. repeat case_match; simplify_eq; [|apply subtree_self].
        apply first_some_Some in Hb as (y & Hy & Hb). unfold bad_controller in Hb.
        repeat case_match; simplify_eq. apply forest_subtree.
        match goal with H : go2node _ _ = Some ?c |- _ => apply go2node_in in H as (Hc & _) end.
        eapply subtree_child; [exact Hc|]. apply forest_subtree.
        eapply subtree_child; [exact Hy|apply subtree_self].
  - split; [done|]. intros root' [= <-].
    by rewrite <-(first_some_Forall bad_top) by apply bad_top_None.
Qed.

Section checks.
Context {LX : LibXml} {LN : LibNetconf}.

(** C18: check_edit_ops() decides the NETCONF rules for the nodes with the given
    operation: nothing is created inside what is removed nor removed inside what
    is created, removal excludes the default operation replace, deleted data
    exist and created data do not.  It accepts when every such node obeys them,
    rejects with an error otherwise, and changes neither document (with-defaults
    mode explicit). *)
Theorem check_edit_ops_correct op v defop s :
  op_string op = Some v →
  ncdflt_get_basic_mode ≠ NCWD_MODE_ALL → ncdflt_get_basic_mode ≠ NCWD_MODE_TRIM →
  wf_doc (c_edit s) → ops_legal (c_edit s) → c_err s = None →
  (Forall (op_node_ok op defop (c_orig s) (c_edit s)) (op_elements v (c_edit s)) ∧
   check_edit_ops op defop s = Done (EXIT_SUCCESS, s)) ∨
  (¬ Forall (op_node_ok op defop (c_orig s) (c_edit s)) (op_elements v (c_edit s)) ∧
   ∃ e, check_edit_ops op defop s = Done (EXIT_FAILURE, set_cerr (Some e) s)).
Proof. apply check_edit_ops_spec. Qed.

(** In the with-defaults mode report-all, a delete of a missing node that has a
    default value makes check_edit_ops() free the string constant get_defval()
    returned. *)
Theorem check_edit_ops_frees_constant defop p n up dv :
  ncdflt_get_basic_mode = NCWD_MODE_ALL →
  ∀ s, path_to p (c_edit s) = Some (n :: up) →
  check_edit_ops_hierarchy (n :: up) defop (c_err s) = Done (EXIT_SUCCESS, c_err s) →
  find_element_equiv (c_orig s) (n :: up) = None → get_defval (n :: up) = Some dv →
  check_edit_ops_loop NC_EDIT_OP_DELETE defop [p] s = Crash BadFree.
Proof.
  intros Hmode s Hp Hh Hn Hd. rewrite (loop_step _ _ _ _ _ _ _ Hp Hh). cbn [fst snd].
  replace (set_cerr (c_err s) s) with s by (by destruct s).
  unfold check_edit_op. rewrite bind_gets, Hn. cbv zeta.
  rewrite !bool_decide_eq_true_2 by done. cbn [andb]. unfold default_branch. rewrite Hd.
  destruct (xmlNodeGetContent n); [|done]. by case_bool_decide.
Qed.

(** ** Compaction *)

(** C20: compact_edit_operations() on an edit document whose operation attributes
    all hold legal values, at most one on an element, succeeds.  (An illegal
    value makes it dereference NULL: compact_illegal_crashes.)  Every element
    keeps the operation that applied to it before (its own or the inherited one,
    the default operation at the top), no attribute that repeats the inherited
    operation is left, and nothing else changes but namespace declarations, of
    which only those go that nothing uses in the result. *)
Theorem compact_preserves d defop :
  ops_legal d → Forall one_op (forest (children d)) →
  ∃ d', compact_edit_operations (Some d) defop = Done (EXIT_SUCCESS, Some d') ∧
    doc_effective (cast_defop defop) d' = doc_effective (cast_defop defop) d ∧
    doc_compacted (cast_defop defop) d' ∧ doc_trimmed d d'.
Proof. apply compact_doc_spec. Qed.

(** An operation attribute with an illegal value makes compact_edit_operations()
    dereference a NULL pointer: get_operation() reports it through the error
    structure it was not given. *)
Theorem compact_illegal_crashes d defop :
  (∀ n, n ∈ children d → is_element n = false → children n = []) →
  ¬ ops_legal d → compact_edit_operations (Some d) defop = Crash NullDeref.
Proof. apply compact_doc_illegal. Qed.
End checks.

(** *** Instances *)
Definition edit_checked : xmlNode := doc [el 1 "capable-switch" [
  el 2 "resources" [el 3 "port" [lf 4 "name" "eth0"; el_op 6 "requested-number" "delete" []]]]].

Lemma ops_legal_checked : ops_legal edit_checked.
Proof. repeat constructor; discriminate. Defined.

Lemma check_edit_ops_correct_witness :
  let s := CState (Some conf) edit_checked None in
  (Forall (op_node_ok NC_EDIT_OP_DELETE NC_EDIT_DEFOP_MERGE (Some conf) edit_checked)
     (op_elements "delete" edit_checked) ∧
   check_edit_ops NC_EDIT_OP_DELETE NC_EDIT_DEFOP_MERGE s = Done (EXIT_SUCCESS, s)) ∨
  (¬ Forall (op_node_ok NC_EDIT_OP_DELETE NC_EDIT_DEFOP_MERGE (Some conf) edit_checked)
     (op_elements "delete" edit_checked) ∧
   ∃ e, check_edit_ops NC_EDIT_OP_DELETE NC_EDIT_DEFOP_MERGE s
        = Done (EXIT_FAILURE, set_cerr (Some e) s)).
Proof.
  apply (check_edit_ops_correct NC_EDIT_OP_DELETE "delete" NC_EDIT_DEFOP_MERGE
           (CState (Some conf) edit_checked None)).
  - reflexivity.
  - discriminate.
  - discriminate.
  - apply wf_docb_ok. vm_compute. reflexivity.
  - apply ops_legal_checked.
  - reflexivity.
Defined.

(** report-all *)
Definition libnetconf_all : LibNetconf := {|
  cast_defop := @cast_defop ref_libnetconf;
  cast_notset := eq_refl; cast_merge := eq_refl; cast_replace := eq_refl;
  ncdflt_get_basic_mode := NCWD_MODE_ALL |}.

Definition edit_admin : xmlNode := doc [el 1 "capable-switch" [
  el 2 "resources" [el 3 "port" [lf 4 "name" "eth0";
    el 6 "configuration" [el_op 7 "admin-state" "delete" []]]]]].

Lemma check_edit_ops_frees_constant_witness :
  @check_edit_ops_loop _ libnetconf_all NC_EDIT_OP_DELETE NC_EDIT_DEFOP_MERGE [7]
    (CState (Some conf) edit_admin None) = Crash BadFree.
Proof.
  eapply (@check_edit_ops_frees_constant _ libnetconf_all NC_EDIT_DEFOP_MERGE 7 _ _ _).
  - reflexivity.
  - vm_compute. reflexivity.
  - vm_compute. reflexivity.
  - vm_compute. reflexivity.
  - vm_compute. reflexivity.
Defined.

Lemma compact_preserves_witness :
  ∃ d', compact_edit_operations (Some edit_checked) NC_EDIT_DEFOP_MERGE
        = Done (EXIT_SUCCESS, Some d') ∧
    doc_effective (cast_defop NC_EDIT_DEFOP_MERGE) d' = doc_effective (cast_defop NC_EDIT_DEFOP_MERGE) edit_checked ∧
    doc_compacted (cast_defop NC_EDIT_DEFOP_MERGE) d' ∧ doc_trimmed edit_checked d'.
Proof.
  apply (compact_preserves edit_checked NC_EDIT_DEFOP_MERGE).
  - apply ops_legal_checked.
  - repeat constructor; vm_compute; lia.
Defined.

Definition edit_illegal : xmlNode := doc [el_op 1 "capable-switch" "destroy" []].

Lemma compact_illegal_crashes_witness :
  compact_edit_operations (Some edit_illegal) NC_EDIT_DEFOP_MERGE = Crash NullDeref.
Proof.
  apply (compact_illegal_crashes edit_illegal NC_EDIT_DEFOP_MERGE).
  - intros n Hn. apply list_elem_of_singleton in Hn as ->. discriminate.
  - intros H. unfold ops_legal in H. apply Forall_cons in H as [H _]. apply H. reflexivity.
Defined.
