(* ===== verification/Datastore.v ===== *)
(** * The datastores (ofconfig-datastore.c)

    The running datastore is OVSDB, seen through the interface [OvsStore]; the
    startup and candidate datastores are XML documents kept by the server.  The
    state holds these documents, the rollback copy and the locks; the callbacks
    of struct ncds_custom_funcs are operations on it. *)

From S2P Require Import Prelude.
From S2P Require Import Clrwspace.
From S2P Require Import Xml.
From S2P Require Import XmlFacts.
From S2P Require Import EditTree.
From S2P Require Import EditChecks.
From S2P Require Import EditCompact.
From S2P Require Import EditOps.
From S2P Require Import EditXml.

Inductive NC_DATASTORE :=
| NC_DATASTORE_ERROR | NC_DATASTORE_CONFIG | NC_DATASTORE_URL
| NC_DATASTORE_RUNNING | NC_DATASTORE_STARTUP | NC_DATASTORE_CANDIDATE.

#[global] Instance NC_DATASTORE_eq_dec : EqDecision NC_DATASTORE.
Proof. solve_decision. Defined.

(** ** Libraries *)

(** Parsing, printing and copying whole documents (libxml2).  A document that
    comes from the parser survives printing and parsing; a document without root
    element does not, "Document is empty". *)
Class XmlIO := {
  xmlReadMemory : string → ptr → option (xmlNode * ptr);
  xmlDocDumpMemory : xmlNode → string;
  xmlCopyDoc : xmlNode → ptr → xmlNode * ptr;
  canonical : xmlNode → Prop;
  read_fresh s k d k' : xmlReadMemory s k = Some (d, k') →
    wf_doc d ∧ k ≤ k' ∧ (∀ x, x ∈ ids d → k ≤ x < k') ∧ canonical d;
  read_dump d k : canonical d →
    ∃ d' k', xmlReadMemory (xmlDocDumpMemory d) k = Some (d', k') ∧ data d' = data d;
  read_dump_empty d k : children d = [] → xmlReadMemory (xmlDocDumpMemory d) k = None;
  dump_nonempty d : xmlDocDumpMemory d ≠ "";
  canonical_copy d k : canonical d → canonical (xmlCopyDoc d k).1;
  xmlCopyDoc_data d k : data (xmlCopyDoc d k).1 = data d;
  xmlCopyDoc_fresh d k : wf_doc d → wf_doc (xmlCopyDoc d k).1 ∧ k ≤ (xmlCopyDoc d k).2 ∧
    (∀ x, x ∈ ids (xmlCopyDoc d k).1 → k ≤ x < (xmlCopyDoc d k).2)
}.

(** The OVSDB layer as the datastore sees it, on top of [OvsBackend]. *)
Class OvsStore {OB : OvsBackend} := {
  ofc_get_config_data : M be (option string);
  txn_init : M be unit;
  txn_abort : M be unit;
  txn_commit : M (be * option nc_err) exit;
  of_post_ports : option xmlNode → M (be * option nc_err) exit;
  (* is a transaction being prepared? *)
  txn_open : be → bool;
  get_config_open b v b' : ofc_get_config_data b = Done (v, b') → txn_open b' = txn_open b;
  init_open b b' : txn_init b = Done (tt, b') → txn_open b' = true;
  abort_open b b' : txn_abort b = Done (tt, b') → txn_open b' = false;
  commit_open b e r b' e' : txn_commit (b, e) = Done (r, (b', e')) → txn_open b' = false;
  commit_err b e r b' e' : txn_commit (b, e) = Done (r, (b', e')) →
    r = EXIT_FAILURE → is_Some e';
  post_open root b e r b' e' : of_post_ports root (b, e) = Done (r, (b', e')) →
    txn_open b' = txn_open b
}.

Section datastore.
Context {LX : LibXml} {LN : LibNetconf} {IO : XmlIO} {OB : OvsBackend} {OS : OvsStore}.

(** ** State *)

(** One member of the locks structure: the flag and the session. *)
Record lock := Lock { locked : bool; sid : option string }.

Record dstate := DState {
  gds_startup : option xmlNode;
  gds_cand : option xmlNode;
  rollback_doc : option xmlNode;
  rollback_type : NC_DATASTORE;
  rollbacking : bool;
  lock_running : lock;
  lock_startup : lock;
  lock_cand : lock;
  d_next : ptr;
  d_be : be;
  d_err : option nc_err }.

Definition set_startup (v : option xmlNode) (s : dstate) : dstate :=
  DState v (gds_cand s) (rollback_doc s) (rollback_type s) (rollbacking s) (lock_running s)
    (lock_startup s) (lock_cand s) (d_next s) (d_be s) (d_err s).
Definition set_cand (v : option xmlNode) (s : dstate) : dstate :=
  DState (gds_startup s) v (rollback_doc s) (rollback_type s) (rollbacking s) (lock_running s)
    (lock_startup s) (lock_cand s) (d_next s) (d_be s) (d_err s).
Definition set_rollbacking (v : bool) (s : dstate) : dstate :=
  DState (gds_startup s) (gds_cand s) (rollback_doc s) (rollback_type s) v (lock_running s)
    (lock_startup s) (lock_cand s) (d_next s) (d_be s) (d_err s).
Definition set_derr (v : option nc_err) (s : dstate) : dstate :=
  DState (gds_startup s) (gds_cand s) (rollback_doc s) (rollback_type s) (rollbacking s)
    (lock_running s) (lock_startup s) (lock_cand s) (d_next s) (d_be s) v.
Definition set_dnext (v : ptr) (s : dstate) : dstate :=
  DState (gds_startup s) (gds_cand s) (rollback_doc s) (rollback_type s) (rollbacking s)
    (lock_running s) (lock_startup s) (lock_cand s) v (d_be s) (d_err s).
Definition set_dbe (v : be) (s : dstate) : dstate :=
  DState (gds_startup s) (gds_cand s) (rollback_doc s) (rollback_type s) (rollbacking s)
    (lock_running s) (lock_startup s) (lock_cand s) (d_next s) v (d_err s).
Definition set_lock (t : NC_DATASTORE) (v : lock) (s : dstate) : dstate :=
  let go r st c := DState (gds_startup s) (gds_cand s) (rollback_doc s) (rollback_type s)
    (rollbacking s) r st c (d_next s) (d_be s) (d_err s) in
  match t with
  | NC_DATASTORE_RUNNING => go v (lock_startup s) (lock_cand s)
  | NC_DATASTORE_STARTUP => go (lock_running s) v (lock_cand s)
  | NC_DATASTORE_CANDIDATE => go (lock_running s) (lock_startup s) v
  | _ => s
  end.

(** ** Access to the libraries *)
Definition on_be {A} (m : M be A) : M dstate A := λ s,
  match m (d_be s) with
  | Done (a, b) => Done (a, set_dbe b s)
  | Crash f => Crash f
  | NoFuel => NoFuel
  end.
Definition on_be_err {A} (m : M (be * option nc_err) A) : M dstate A := λ s,
  match m (d_be s, d_err s) with
  | Done (a, (b, e)) => Done (a, set_derr e (set_dbe b s))
  | Crash f => Crash f
  | NoFuel => NoFuel
  end.

Definition read_memory (v : string) : M dstate (option xmlNode) :=
  k ← gets d_next;
  match xmlReadMemory v k with
  | Some (d, k') => _ ← modify (set_dnext k'); mret (Some d)
  | None => mret None
  end.

Definition copy_doc (d : option xmlNode) : M dstate (option xmlNode) :=
  match d with
  | None => mret None
  | Some d =>
      k ← gets d_next;
      _ ← modify (set_dnext (xmlCopyDoc d k).2);
      mret (Some (xmlCopyDoc d k).1)
  end.

(** xmlNewDoc("1.0") *)
Definition new_doc : M dstate xmlNode :=
  k ← gets d_next;
  _ ← modify (set_dnext (S k));
  mret (XmlNode k (XmlHdr XML_DOCUMENT_NODE None None [] [] None) []).

Definition dfail (e : nc_err) : M dstate exit :=
  _ ← modify (set_derr (Some e)); mret EXIT_FAILURE.

(** ** Locks *)
Definition lock_of (t : NC_DATASTORE) (s : dstate) : option lock :=
  match t with
  | NC_DATASTORE_RUNNING => Some (lock_running s)
  | NC_DATASTORE_STARTUP => Some (lock_startup s)
  | NC_DATASTORE_CANDIDATE => Some (lock_cand s)
  | _ => None
  end.

Definition ofcds_lock (target : NC_DATASTORE) (session_id : string) : M dstate exit :=
  l ← gets (lock_of target);
  match l with
  | None => mret EXIT_FAILURE
  | Some l =>
      if locked l then dfail (set_sid (sid l) (nc_err_new NC_ERR_LOCK_DENIED))
      else _ ← modify (set_lock target (Lock true (Some session_id))); mret EXIT_SUCCESS
  end.

(** strcmp() on the stored session id. *)
Definition ofcds_unlock (target : NC_DATASTORE) (session_id : string) : M dstate exit :=
  l ← gets (lock_of target);
  match l with
  | None => mret EXIT_FAILURE
  | Some l =>
      if locked l then
        owner ← deref NullDeref (sid l);
        if bool_decide (owner = session_id) then
          _ ← modify (set_lock target (Lock false None)); mret EXIT_SUCCESS
        else dfail (set_msg "Target datastore is locked by another session."
                     (set_sid (Some owner) (nc_err_new NC_ERR_LOCK_DENIED)))
      else dfail (set_msg "Target datastore is not locked." (nc_err_new NC_ERR_OP_FAILED))
  end.

(** ** Reading and deleting *)
Definition dump_opt (d : option xmlNode) : string :=
  match d with None => "" | Some d => xmlDocDumpMemory d end.

Definition ofcds_getconfig (target : NC_DATASTORE) : M dstate (option string) :=
  match target with
  | NC_DATASTORE_RUNNING => on_be ofc_get_config_data
  | NC_DATASTORE_STARTUP => d ← gets gds_startup; mret (Some (dump_opt d))
  | NC_DATASTORE_CANDIDATE => d ← gets gds_cand; mret (Some (dump_opt d))
  | _ =>
      _ ← modify (set_derr (Some (set_badelem (Some "source") (nc_err_new NC_ERR_BAD_ELEM))));
      mret None
  end.

Definition store_rollback (doc : option xmlNode) (type : NC_DATASTORE) : M dstate unit :=
  modify (λ s, DState (gds_startup s) (gds_cand s) doc type (rollbacking s) (lock_running s)
    (lock_startup s) (lock_cand s) (d_next s) (d_be s) (d_err s)).

Definition ofcds_deleteconfig (target : NC_DATASTORE) : M dstate exit :=
  match target with
  | NC_DATASTORE_RUNNING =>
      dfail (set_msg "Cannot delete a running datastore." (nc_err_new NC_ERR_OP_FAILED))
  | NC_DATASTORE_STARTUP =>
      d ← gets gds_startup;
      _ ← store_rollback d NC_DATASTORE_STARTUP;
      _ ← modify (set_startup None); mret EXIT_SUCCESS
  | NC_DATASTORE_CANDIDATE =>
      d ← gets gds_cand;
      _ ← store_rollback d NC_DATASTORE_CANDIDATE;
      _ ← modify (set_cand None); mret EXIT_SUCCESS
  | _ => dfail (set_badelem (Some "target") (nc_err_new NC_ERR_BAD_ELEM))
  end.

(** ** edit-config *)

(** gds_startup and cfgds are the same document: what is done to one is done to
    the other.  The running configuration was read into a document of its own. *)
Definition put_doc (target : NC_DATASTORE) (d : option xmlNode) : M dstate unit :=
  match target with
  | NC_DATASTORE_STARTUP => modify (set_startup d)
  | NC_DATASTORE_CANDIDATE => modify (set_cand d)
  | _ => mret tt
  end.

(** The label error_cleanup. *)
Definition error_cleanup (target : NC_DATASTORE) : M dstate exit :=
  _ ← (if bool_decide (target = NC_DATASTORE_RUNNING) then on_be txn_abort else mret tt);
  mret EXIT_FAILURE.

(** check_edit_ops() on cfgds and cfg; both may have changed afterwards. *)
Definition run_check (target : NC_DATASTORE) (op : NC_EDIT_OP_TYPE) (defop : NC_EDIT_DEFOP_TYPE)
  (docs : option xmlNode * xmlNode) : M dstate (exit * (option xmlNode * xmlNode)) := λ s,
  match check_edit_ops op defop (CState docs.1 docs.2 (d_err s)) with
  | Done (r, c) =>
      (_ ← modify (set_derr (c_err c)); _ ← put_doc target (c_orig c);
       mret (r, (c_orig c, c_edit c))) s
  | Crash f => Crash f
  | NoFuel => NoFuel
  end.

(** edit_operations() on the two documents. *)
Definition run_edit (fuel : nat) (target : NC_DATASTORE) (defop : NC_EDIT_DEFOP_TYPE)
  (cfgds_new : bool) (cfgds cfg : xmlNode) : M dstate (exit * xmlNode) := λ s,
  match edit_operations fuel defop (bool_decide (target = NC_DATASTORE_RUNNING))
          (EState cfgds cfg (d_next s) (d_be s) (d_err s)) with
  | Done (r, e) =>
      (_ ← modify (λ s, set_derr (e_err e) (set_dbe (e_be e) (set_dnext (e_next e) s)));
       _ ← (if cfgds_new then mret tt else put_doc target (Some (e_orig e)));
       mret (r, e_orig e)) s
  | Crash f => Crash f
  | NoFuel => NoFuel
  end.

(** After edit_operations() succeeded. *)
Definition edit_finish (target : NC_DATASTORE) (cfgds_new : bool) (cfgds : xmlNode)
  (cfg_clone : option xmlNode) : M dstate exit :=
  if bool_decide (target = NC_DATASTORE_RUNNING) then
    ret ← on_be_err txn_commit;
    match ret with
    | EXIT_SUCCESS => on_be_err (of_post_ports (cfg_clone ≫= root_element))
    | EXIT_FAILURE => mret EXIT_FAILURE
    end
  else if cfgds_new then
    match children cfgds with
    | [] => mret EXIT_SUCCESS
    | _ => _ ← put_doc target (Some cfgds); mret EXIT_SUCCESS
    end
  else mret EXIT_SUCCESS.

(** From the compaction on. *)
Definition edit_apply (fuel : nat) (target : NC_DATASTORE) (defop : NC_EDIT_DEFOP_TYPE)
  (cfg_clone : option xmlNode) (docs : option xmlNode * xmlNode) : M dstate exit :=
  _ ← (if bool_decide (target = NC_DATASTORE_RUNNING) then on_be txn_init else mret tt);
  match compact_edit_operations (Some docs.2) defop with
  | Done (EXIT_SUCCESS, Some cfg) =>
      let cfgds_new := match docs.1 with None => true | Some _ => false end in
      cfgds ← match docs.1 with Some d => mret d | None => new_doc end;
      r ← run_edit fuel target defop cfgds_new cfgds cfg;
      match r with
      | (EXIT_SUCCESS, cfgds') => edit_finish target cfgds_new cfgds' cfg_clone
      | (EXIT_FAILURE, _) => error_cleanup target
      end
  | Done _ =>
      _ ← modify (set_derr (Some (nc_err_new NC_ERR_OP_FAILED)));
      error_cleanup target
  | Crash f => crash f
  | NoFuel => nofuel
  end.

(** From store_rollback() on. *)
Definition edit_target (fuel : nat) (target : NC_DATASTORE) (defop : NC_EDIT_DEFOP_TYPE)
  (cfg : xmlNode) (cfg_clone cfgds : option xmlNode) : M dstate exit :=
  copy ← copy_doc cfgds;
  _ ← store_rollback copy target;
  match check_keys (Some cfg) with
  | (EXIT_FAILURE, e) => _ ← modify (set_derr e); error_cleanup target
  | (EXIT_SUCCESS, _) =>
      r1 ← run_check target NC_EDIT_OP_DELETE defop (cfgds, cfg);
      match r1 with
      | (EXIT_FAILURE, _) => error_cleanup target
      | (EXIT_SUCCESS, docs1) =>
          r2 ← run_check target NC_EDIT_OP_CREATE defop docs1;
          match r2 with
          | (EXIT_FAILURE, _) => error_cleanup target
          | (EXIT_SUCCESS, docs2) => edit_apply fuel target defop cfg_clone docs2
          end
      end
  end.

Definition bad_edit_root (cfg : xmlNode) : bool :=
  match root_element cfg with
  | Some r => negb (name_is r "capable-switch")
  | None => false
  end.

Definition ofcds_editconfig (fuel : nat) (target : NC_DATASTORE) (config : string)
  (defop0 : NC_EDIT_DEFOP_TYPE) : M dstate exit :=
  let defop := if bool_decide (defop0 = NC_EDIT_DEFOP_NOTSET) then NC_EDIT_DEFOP_MERGE else defop0 in
  cfg ← read_memory config;
  match cfg with
  | None => dfail (set_badelem (Some "config") (nc_err_new NC_ERR_BAD_ELEM))
  | Some cfg =>
      if bad_edit_root cfg
      then dfail (set_badelem (Some "config") (nc_err_new NC_ERR_BAD_ELEM))
      else
        match target with
        | NC_DATASTORE_RUNNING =>
            cfg_clone ← copy_doc (Some cfg);
            aux ← on_be ofc_get_config_data;
            match aux with
            | None =>
                _ ← modify (set_derr (Some (nc_err_new NC_ERR_OP_FAILED)));
                error_cleanup target
            | Some aux =>
                cfgds ← read_memory aux;
                edit_target fuel target defop cfg cfg_clone cfgds
            end
        | NC_DATASTORE_STARTUP =>
            d ← gets gds_startup; edit_target fuel target defop cfg None d
        | NC_DATASTORE_CANDIDATE =>
            d ← gets gds_cand; edit_target fuel target defop cfg None d
        | _ =>
            _ ← modify (set_derr (Some (set_badelem (Some "target") (nc_err_new NC_ERR_BAD_ELEM))));
            error_cleanup target
        end
  end.

(** ** copy-config *)

(** The document to copy, or the failure of the source switch. *)
Definition copy_source (source : NC_DATASTORE) (config : option string)
  : M dstate (exit * option xmlNode) :=
  match source with
  | NC_DATASTORE_RUNNING =>
      v ← ofcds_getconfig NC_DATASTORE_RUNNING;
      match v with
      | None => mret (EXIT_FAILURE, None)
      | Some v =>
          d ← read_memory v;
          match d with
          | None =>
              r ← dfail (set_badelem (Some "invalid running source data") (nc_err_new NC_ERR_OP_FAILED));
              mret (r, None)
          | Some d => mret (EXIT_SUCCESS, Some d)
          end
      end
  | NC_DATASTORE_STARTUP =>
      d ← gets gds_startup; c ← copy_doc d; mret (EXIT_SUCCESS, c)
  | NC_DATASTORE_CANDIDATE =>
      d ← gets gds_cand; c ← copy_doc d; mret (EXIT_SUCCESS, c)
  | NC_DATASTORE_CONFIG =>
      let bad := r ← dfail (set_badelem (Some "config") (nc_err_new NC_ERR_BAD_ELEM));
                 mret (r, None) in
      match config with
      | None => bad
      | Some v =>
          if bool_decide (v = "") then mret (EXIT_SUCCESS, None)
          else
            d ← read_memory v;
            match d with
            | None => bad
            | Some d => mret (EXIT_SUCCESS, Some d)
            end
      end
  | _ =>
      r ← dfail (set_badelem (Some "source") (nc_err_new NC_ERR_BAD_ELEM));
      mret (r, None)
  end.

(** edit_replace() of the root of src_doc in dst_doc, on OVSDB. *)
Definition run_replace (fuel : nat) (dst : xmlNode) (src : option xmlNode) : M dstate exit := λ s,
  let envelope := XmlNode 0 (XmlHdr XML_DOCUMENT_NODE None None [] [] None) [] in
  match edit_replace fuel (nid <$> (src ≫= root_element)) true
          (EState dst (default envelope src) (d_next s) (d_be s) (d_err s)) with
  | Done (r, e) =>
      (_ ← modify (λ s, set_derr (e_err e) (set_dbe (e_be e) (set_dnext (e_next e) s)));
       mret r) s
  | Crash f => Crash f
  | NoFuel => NoFuel
  end.

Definition copy_to_running (fuel : nat) (src : option xmlNode) : M dstate exit :=
  v ← ofcds_getconfig NC_DATASTORE_RUNNING;
  match v with
  | None => mret EXIT_FAILURE
  | Some v =>
      d ← read_memory v;
      dst ← match d with Some d => mret d | None => new_doc end;
      rb ← gets rollbacking;
      _ ← (if rb : bool then mret tt
           else c ← copy_doc (Some dst); store_rollback c NC_DATASTORE_RUNNING);
      _ ← on_be txn_init;
      r ← run_replace fuel dst src;
      match r with
      | EXIT_FAILURE => _ ← on_be txn_abort; mret EXIT_FAILURE
      | EXIT_SUCCESS => on_be_err txn_commit
      end
  end.

(** Store the copy in gds_startup or gds_cand. *)
Definition store_copy (target : NC_DATASTORE) (old src : option xmlNode) : M dstate exit :=
  rb ← gets rollbacking;
  _ ← (if rb : bool then mret tt else store_rollback old target);
  _ ← put_doc target src;
  mret EXIT_SUCCESS.

Definition ofcds_copyconfig (fuel : nat) (target source : NC_DATASTORE) (config : option string)
  : M dstate exit :=
  r ← copy_source source config;
  match r with
  | (EXIT_FAILURE, _) => mret EXIT_FAILURE
  | (EXIT_SUCCESS, src) =>
      match target with
      | NC_DATASTORE_RUNNING => copy_to_running fuel src
      | NC_DATASTORE_STARTUP => old ← gets gds_startup; store_copy target old src
      | NC_DATASTORE_CANDIDATE => old ← gets gds_cand; store_copy target old src
      | _ => dfail (set_badelem (Some "source") (nc_err_new NC_ERR_BAD_ELEM))
      end
  end.

(** ** rollback *)

(** The variable e is not initialised: when ofcds_copyconfig() fails without
    setting it, nc_err_free() is handed garbage. *)
Definition ofcds_rollback (fuel : nat) : M dstate exit :=
  t ← gets rollback_type;
  if bool_decide (t = NC_DATASTORE_ERROR) then mret EXIT_FAILURE
  else
    doc ← gets rollback_doc;
    saved ← gets d_err;
    _ ← modify (set_derr None);
    _ ← modify (set_rollbacking true);
    ret ← ofcds_copyconfig fuel t NC_DATASTORE_CONFIG (Some (dump_opt doc));
    _ ← modify (set_rollbacking false);
    e ← gets d_err;
    _ ← modify (set_derr saved);
    match ret, e with
    | EXIT_FAILURE, None => crash BadFree
    | _, _ => mret ret
    end.
End datastore.
