(* ===== verification/DatastoreFacts.v ===== *)
(** * Facts about the datastore callbacks

    What each callback leaves alone, the locks as a state machine, and the
    rollback copy. *)

From S2P Require Import Prelude.
From S2P Require Import Clrwspace.
From S2P Require Import Xml.
From S2P Require Import XmlFacts.
From S2P Require Import EditTree.
From S2P Require Import EditChecks.
From S2P Require Import EditCompact.
From S2P Require Import EditOps.
From S2P Require Import EditXml.
From S2P Require Import EditPrepared.
From S2P Require Import Datastore.

Section facts.
Context {LX : LibXml} {LN : LibNetconf} {IO : XmlIO} {OB : OvsBackend} {OS : OvsStore}.

(** ** Observations a callback does not change *)
Section keeps.
Context {B : Type} (f : dstate → B).

Lemma keeps_on_be {A} (m : M be A) : (∀ b s, f (set_dbe b s) = f s) → keeps f (on_be m).
Proof.
  intros H s a s'. unfold on_be. destruct (m (d_be s)) as [[a' b]| |]; [|done..].
  intros [= <- <-]. apply H.
Qed.
Lemma keeps_on_be_err {A} (m : M (be * option nc_err) A) :
  (∀ b e s, f (set_derr e (set_dbe b s)) = f s) → keeps f (on_be_err m).
Proof.
  intros H s a s'. unfold on_be_err. destruct (m (d_be s, d_err s)) as [[a' [b e]]| |]; [|done..].
  intros [= <- <-]. apply H.
Qed.
End keeps.

(** Computations that touch none of the locks, or neither those nor rollback. *)
Definition locks_of (s : dstate) := (lock_running s, lock_startup s, lock_cand s).
Definition saved_of (s : dstate) := (rollback_doc s, rollback_type s, rollbacking s).

Ltac keeps_tac :=
  repeat first
    [ apply keeps_ret | apply keeps_gets | apply keeps_crash | apply keeps_nofuel
    | apply keeps_deref
    | apply keeps_modify; intros []; reflexivity
    | apply keeps_on_be; intros ? []; reflexivity
    | apply keeps_on_be_err; intros ? ? []; reflexivity
    | apply keeps_bind; [|intros ?]
    | case_match ].

Lemma keeps_locks_read v : keeps locks_of (read_memory v).
Proof. unfold read_memory. keeps_tac. Qed.
Lemma keeps_locks_copy d : keeps locks_of (copy_doc d).
Proof. unfold copy_doc. keeps_tac. Qed.
Lemma keeps_saved_copy d : keeps saved_of (copy_doc d).
Proof. unfold copy_doc. keeps_tac. Qed.

Lemma keeps_put {B} (f : dstate → B) t d : (∀ v s, f (set_startup v s) = f s) →
  (∀ v s, f (set_cand v s) = f s) → keeps f (put_doc t d).
Proof.
  intros H1 H2. unfold put_doc. destruct t; try apply keeps_ret; by apply keeps_modify.
Qed.

Lemma keeps_run_check {B} (f : dstate → B) t op defop docs :
  (∀ v s, f (set_startup v s) = f s) → (∀ v s, f (set_cand v s) = f s) →
  (∀ v s, f (set_derr v s) = f s) → keeps f (run_check t op defop docs).
Proof.
  intros H1 H2 H3 s a s'. unfold run_check.
  destruct (check_edit_ops op defop _) as [[r c]| |]; [|done..]. revert s a s'.
  apply keeps_bind; [by apply keeps_modify|]. intros _.
  apply keeps_bind; [by apply keeps_put|]. intros _. apply keeps_ret.
Qed.

Lemma keeps_run_edit {B} (f : dstate → B) fuel t defop new cfgds cfg :
  (∀ v s, f (set_startup v s) = f s) → (∀ v s, f (set_cand v s) = f s) →
  (∀ v b k s, f (set_derr v (set_dbe b (set_dnext k s))) = f s) →
  keeps f (run_edit fuel t defop new cfgds cfg).
Proof.
  intros H1 H2 H3 s a s'. unfold run_edit.
  destruct (edit_operations fuel defop _ _) as [[r e]| |]; [|done..]. revert s a s'.
  apply keeps_bind; [apply keeps_modify; intros s; apply H3|]. intros _.
  apply keeps_bind; [|intros _; apply keeps_ret].
  destruct new; [apply keeps_ret|by apply keeps_put].
Qed.

Ltac keeps_run :=
  first [ apply keeps_run_check; intros ? []; reflexivity
        | apply keeps_run_edit; [intros ? []; reflexivity..|intros ? ? ? []; reflexivity]
        | apply keeps_put; intros ? []; reflexivity ].

Ltac keeps_step :=
  first
    [ apply keeps_locks_copy | apply keeps_saved_copy | apply keeps_locks_read
    | keeps_run | apply keeps_ret | apply keeps_gets | apply keeps_crash | apply keeps_nofuel
    | apply keeps_modify; intros []; reflexivity
    | apply keeps_on_be; intros ? []; reflexivity
    | apply keeps_on_be_err; intros ? ? []; reflexivity
    | apply keeps_bind; [|intros ?]
    | case_match ].
Ltac keeps_all := repeat keeps_step.

Lemma keeps_saved_apply fuel t defop cl docs : keeps saved_of (edit_apply fuel t defop cl docs).
Proof. unfold edit_apply, new_doc, edit_finish, error_cleanup. keeps_all. Qed.

Lemma keeps_locks_editconfig fuel t cfg defop : keeps locks_of (ofcds_editconfig fuel t cfg defop).
Proof.
  unfold ofcds_editconfig, edit_target, edit_apply, new_doc, edit_finish, error_cleanup,
    dfail, store_rollback.
  keeps_all.
Qed.

Lemma keeps_run_replace fuel d src : keeps locks_of (run_replace fuel d src).
Proof.
  intros s a s'. unfold run_replace.
  destruct (edit_replace _ _ _ _) as [[r e]| |]; [|done..]. by intros [= <- <-].
Qed.

Lemma keeps_locks_copyconfig fuel t src cfg : keeps locks_of (ofcds_copyconfig fuel t src cfg).
Proof.
  unfold ofcds_copyconfig, copy_source, copy_to_running, store_copy, ofcds_getconfig, new_doc,
    dfail, store_rollback.
  repeat first [apply keeps_run_replace | keeps_step].
Qed.

Lemma keeps_locks_rollback fuel : keeps locks_of (ofcds_rollback fuel).
Proof.
  unfold ofcds_rollback. repeat first [apply keeps_locks_copyconfig | keeps_step].
Qed.

Lemma keeps_locks_getconfig t : keeps locks_of (ofcds_getconfig t).
Proof. unfold ofcds_getconfig. keeps_all. Qed.

Lemma keeps_locks_deleteconfig t : keeps locks_of (ofcds_deleteconfig t).
Proof. unfold ofcds_deleteconfig, dfail, store_rollback. keeps_all. Qed.

(** ** Requests *)
Inductive request :=
| ReqLock (t : NC_DATASTORE) (session : string)
| ReqUnlock (t : NC_DATASTORE) (session : string)
| ReqGet (t : NC_DATASTORE)
| ReqDelete (t : NC_DATASTORE)
| ReqEdit (t : NC_DATASTORE) (config : string) (defop : NC_EDIT_DEFOP_TYPE)
| ReqCopy (t source : NC_DATASTORE) (config : option string)
| ReqRollback.

(** The callbacks libnetconf calls for a request. *)
Definition handle (fuel : nat) (r : request) : M dstate exit :=
  match r with
  | ReqLock t session => ofcds_lock t session
  | ReqUnlock t session => ofcds_unlock t session
  | ReqGet t =>
      v ← ofcds_getconfig t;
      mret (match v with Some _ => EXIT_SUCCESS | None => EXIT_FAILURE end)
  | ReqDelete t => ofcds_deleteconfig t
  | ReqEdit t config defop => ofcds_editconfig fuel t config defop
  | ReqCopy t source config => ofcds_copyconfig fuel t source config
  | ReqRollback => ofcds_rollback fuel
  end.

(** A run of the datastore: requests answered one after the other. *)
Inductive serves (fuel : nat) : list request → dstate → dstate → Prop :=
| serves_nil s : serves fuel [] s s
| serves_cons r rs s x s1 s2 :
    handle fuel r s = Done (x, s1) → serves fuel rs s1 s2 → serves fuel (r :: rs) s s2.

(** ** Locks *)
Definition holds (t : NC_DATASTORE) (session : string) (s : dstate) : Prop :=
  lock_of t s = Some (Lock true (Some session)).

Lemma lock_of_locks t s s' : locks_of s' = locks_of s → lock_of t s' = lock_of t s.
Proof. unfold locks_of. intros [= H1 H2 H3]. destruct t; simpl; congruence. Qed.

Lemma lock_of_set t t' l s : t ≠ t' → lock_of t (set_lock t' l s) = lock_of t s.
Proof. intros H. destruct t, t'; done. Qed.

Lemma lock_of_err t e s : lock_of t (set_derr e s) = lock_of t s.
Proof. by destruct t. Qed.

Lemma lock_held t session s : holds t session s → ∀ other,
  ofcds_lock t other s =
    Done (EXIT_FAILURE, set_derr (Some (set_sid (Some session) (nc_err_new NC_ERR_LOCK_DENIED))) s).
Proof. intros H other. unfold ofcds_lock. rewrite bind_gets. unfold holds in H. by rewrite H. Qed.

Lemma unlock_other t session s other : holds t session s → other ≠ session →
  ∃ e, ofcds_unlock t other s = Done (EXIT_FAILURE, set_derr (Some e) s).
Proof.
  intros H Hne. unfold ofcds_unlock. rewrite bind_gets. unfold holds in H. rewrite H. simpl.
  eexists. unfold mbind, M_bind. simpl. by rewrite bool_decide_eq_false_2.
Qed.

(** One request does not take a lock away from its owner. *)
Lemma handle_holds fuel r s x s' t session : handle fuel r s = Done (x, s') →
  r ≠ ReqUnlock t session → holds t session s → holds t session s'.
Proof.
  intros Hr Hne Hh. unfold holds in *.
  assert (locks_of s' = locks_of s → lock_of t s' = Some (Lock true (Some session))) as Hk.
  { intros H. by rewrite (lock_of_locks t s s' H). }
  destruct r as [t' other|t' other|t'|t'|t' c d|t' src c|]; simpl in Hr.
  - destruct (decide (t = t')) as [<-|Ht].
    + rewrite (lock_held t session s Hh other) in Hr. injection Hr as <- <-.
      by rewrite lock_of_err.
    + unfold ofcds_lock in Hr. rewrite bind_gets in Hr.
      destruct (lock_of t' s) as [l|]; [|by injection Hr as <- <-].
      destruct (locked l); injection Hr as <- <-; [by rewrite lock_of_err|by rewrite lock_of_set].
  - destruct (decide (t = t')) as [<-|Ht].
    + destruct (unlock_other t session s other Hh) as [e He]; [congruence|].
      rewrite He in Hr. injection Hr as <- <-. by rewrite lock_of_err.
    + unfold ofcds_unlock in Hr. rewrite bind_gets in Hr.
      destruct (lock_of t' s) as [l|]; [|by injection Hr as <- <-].
      destruct (locked l); [|injection Hr as <- <-; by rewrite lock_of_err].
      apply bind_Done in Hr as (o & s1 & H1 & Hr).
      assert (s1 = s) as -> by (destruct (sid l); [by injection H1|done]).
      case_bool_decide; injection Hr as <- <-; [by rewrite lock_of_set|by rewrite lock_of_err].
  - apply Hk. revert Hr. apply (keeps_bind locks_of); [apply keeps_locks_getconfig|].
    intros v. apply keeps_ret.
  - by apply Hk, (keeps_locks_deleteconfig _ _ _ _ Hr).
  - by apply Hk, (keeps_locks_editconfig _ _ _ _ _ _ _ Hr).
  - by apply Hk, (keeps_locks_copyconfig _ _ _ _ _ _ _ Hr).
  - by apply Hk, (keeps_locks_rollback _ _ _ _ Hr).
Qed.

Lemma serves_holds fuel rs s s' t session : serves fuel rs s s' →
  ReqUnlock t session ∉ rs → holds t session s → holds t session s'.
Proof.
  induction 1 as [|r rs s x s1 s2 Hr _ IH]; [done|]. intros Hn Hh.
  apply not_elem_of_cons in Hn as [Hn1 Hn2]. apply IH; [done|].
  eapply handle_holds; [exact Hr|congruence|done].
Qed.

(** ** Transactions *)
Definition open_of (s : dstate) : bool := txn_open (d_be s).

(** A computation that leaves no transaction open, from any state. *)
Definition closes {A} (m : M dstate A) : Prop := ∀ s a s', m s = Done (a, s') → open_of s' = false.

Lemma closes_bind {A C} (m : M dstate A) (k : A → M dstate C) :
  (∀ a, closes (k a)) → closes (m ≫= k).
Proof. intros Hk s a s' (b & s1 & _ & H2)%bind_Done. by eapply Hk. Qed.

Lemma closes_then {A C} (m : M dstate A) (k : A → M dstate C) :
  closes m → (∀ a, keeps open_of (k a)) → closes (m ≫= k).
Proof.
  intros Hm Hk s a s' (b & s1 & H1 & H2)%bind_Done. rewrite (Hk _ _ _ _ H2). by eapply Hm.
Qed.

Lemma closes_abort : closes (on_be txn_abort).
Proof.
  intros s a s'. unfold on_be. destruct (txn_abort (d_be s)) as [[[] b]| |] eqn:H; [|done..].
  intros [= <- <-]. by apply abort_open in H.
Qed.

Lemma closes_commit : closes (on_be_err txn_commit).
Proof.
  intros s a s'. unfold on_be_err.
  destruct (txn_commit (d_be s, d_err s)) as [[r [b e]]| |] eqn:H; [|done..].
  intros [= <- <-]. by apply commit_open in H.
Qed.

Lemma keeps_open_get : keeps open_of (on_be ofc_get_config_data).
Proof.
  intros s a s'. unfold on_be.
  destruct (ofc_get_config_data (d_be s)) as [[v b]| |] eqn:H; [|done..].
  intros [= <- <-]. by apply get_config_open in H.
Qed.

Lemma keeps_open_post root : keeps open_of (on_be_err (of_post_ports root)).
Proof.
  intros s a s'. unfold on_be_err.
  destruct (of_post_ports root (d_be s, d_err s)) as [[r [b e]]| |] eqn:H; [|done..].
  intros [= <- <-]. by apply post_open in H.
Qed.

Ltac closes_step :=
  first [ apply closes_abort | apply closes_commit
        | apply closes_then; [apply closes_abort|intros ?; apply keeps_ret]
        | apply closes_bind; intros ?
        | case_match ].

Lemma closes_cleanup : closes (error_cleanup NC_DATASTORE_RUNNING).
Proof. unfold error_cleanup. simpl. repeat closes_step. Qed.

Lemma closes_finish new cfgds cl : closes (edit_finish NC_DATASTORE_RUNNING new cfgds cl).
Proof.
  unfold edit_finish. simpl. apply closes_then; [apply closes_commit|].
  intros []; [apply keeps_open_post|apply keeps_ret].
Qed.

Lemma closes_crash {A} f : closes (crash (A := A) f).
Proof. done. Qed.
Lemma closes_nofuel {A} : closes (nofuel (A := A)).
Proof. done. Qed.

Lemma closes_apply fuel defop cl docs : closes (edit_apply fuel NC_DATASTORE_RUNNING defop cl docs).
Proof.
  unfold edit_apply.
  repeat first [ apply closes_cleanup | apply closes_finish | apply closes_crash
               | apply closes_nofuel | apply closes_bind; intros ? | case_match ].
Qed.

Lemma closes_target fuel defop cfg cl d :
  closes (edit_target fuel NC_DATASTORE_RUNNING defop cfg cl d).
Proof.
  unfold edit_target.
  repeat first [ apply closes_cleanup | apply closes_apply | apply closes_bind; intros ? | case_match ].
Qed.

Lemma keeps_open_edit fuel t defop new cfgds cfg : t ≠ NC_DATASTORE_RUNNING →
  keeps open_of (run_edit fuel t defop new cfgds cfg).
Proof.
  intros Ht s a s'. unfold run_edit. rewrite bool_decide_eq_false_2 by done.
  destruct (edit_operations fuel defop false _) as [[r e]| |] eqn:H; [|done..].
  apply keeps_be_operations in H. simpl in H.
  intros (u1 & s1 & Hm & Hr)%bind_Done. injection Hm as _ <-.
  assert (open_of s' = txn_open (e_be e)) as ->; [|unfold open_of; by rewrite H].
  apply bind_Done in Hr as (u2 & s2 & Hp & Hr). injection Hr as _ <-.
  assert (keeps open_of (if new then mret tt else put_doc t (Some (e_orig e)))) as Hk.
  { destruct new; [apply keeps_ret|]. apply keeps_put; intros ? []; done. }
  by rewrite (Hk _ _ _ Hp).
Qed.

Lemma keeps_open_target fuel t defop cfg cl d : t ≠ NC_DATASTORE_RUNNING →
  keeps open_of (edit_target fuel t defop cfg cl d).
Proof.
  intros Ht. unfold edit_target, edit_apply, edit_finish, error_cleanup, store_rollback, copy_doc,
    new_doc.
  repeat rewrite (bool_decide_eq_false_2 (t = _)) by done.
  repeat first [ apply keeps_open_edit; exact Ht | keeps_step ].
Qed.

(** Started without a transaction, a computation ends without one. *)
Definition no_leak {A} (m : M dstate A) : Prop := ∀ s a s',
  m s = Done (a, s') → open_of s = false → open_of s' = false.

Lemma no_leak_keeps {A} (m : M dstate A) : keeps open_of m → no_leak m.
Proof. intros H s a s' Hm <-. by apply H in Hm. Qed.
Lemma no_leak_closes {A} (m : M dstate A) : closes m → no_leak m.
Proof. intros H s a s' Hm _. by eapply H. Qed.
Lemma no_leak_bind {A C} (m : M dstate A) (k : A → M dstate C) :
  no_leak m → (∀ a, no_leak (k a)) → no_leak (m ≫= k).
Proof.
  intros Hm Hk s a s' (b & s1 & H1 & H2)%bind_Done Ho. eapply Hk; [exact H2|]. by eapply Hm.
Qed.

Lemma keeps_open_read v : keeps open_of (read_memory v).
Proof. unfold read_memory. keeps_all. Qed.
Lemma keeps_open_copy d : keeps open_of (copy_doc d).
Proof. unfold copy_doc. keeps_all. Qed.
Lemma keeps_open_fail e : keeps open_of (dfail e).
Proof. unfold dfail. keeps_all. Qed.
Lemma keeps_open_getconfig t : keeps open_of (ofcds_getconfig t).
Proof. unfold ofcds_getconfig. destruct t; first [apply keeps_open_get|keeps_all]. Qed.

Lemma no_leak_editconfig fuel t config defop : no_leak (ofcds_editconfig fuel t config defop).
Proof.
  unfold ofcds_editconfig. apply no_leak_bind; [apply no_leak_keeps, keeps_open_read|].
  intros [cfg|]; [|apply no_leak_keeps, keeps_open_fail].
  destruct (bad_edit_root cfg); [apply no_leak_keeps, keeps_open_fail|].
  destruct t.
  4:{ apply no_leak_closes. apply closes_bind. intros cl. apply closes_bind. intros [aux|].
      - apply closes_bind. intros d. apply closes_target.
      - apply closes_bind. intros ?. apply closes_cleanup. }
  1-3: apply no_leak_keeps; unfold error_cleanup; simpl; keeps_all.
  all: apply no_leak_keeps, keeps_bind; [apply keeps_gets|intros d; by apply keeps_open_target].
Qed.

Lemma no_leak_to_running fuel src : no_leak (copy_to_running fuel src).
Proof.
  unfold copy_to_running.
  apply no_leak_bind; [apply no_leak_keeps, keeps_open_getconfig|]. intros [v|];
    [|apply no_leak_keeps, keeps_ret].
  apply no_leak_closes. apply closes_bind. intros d. apply closes_bind. intros dst.
  apply closes_bind. intros rb. apply closes_bind. intros _. apply closes_bind. intros _.
  apply closes_bind. intros []; [apply closes_commit|].
  apply closes_then; [apply closes_abort|intros _; apply keeps_ret].
Qed.

Lemma no_leak_copyconfig fuel t source config : no_leak (ofcds_copyconfig fuel t source config).
Proof.
  unfold ofcds_copyconfig. apply no_leak_bind.
  - apply no_leak_keeps. unfold copy_source, ofcds_getconfig.
    repeat first [apply keeps_open_get|apply keeps_open_read|apply keeps_open_copy
                 |apply keeps_open_fail|keeps_step].
  - intros [[] src]; [|apply no_leak_keeps, keeps_ret].
    destruct t; try (apply no_leak_keeps, keeps_open_fail); [apply no_leak_to_running|..];
      apply no_leak_keeps; unfold store_copy, store_rollback; keeps_all.
Qed.

Lemma no_leak_rollback fuel : no_leak (ofcds_rollback fuel).
Proof.
  unfold ofcds_rollback. apply no_leak_bind; [apply no_leak_keeps, keeps_gets|]. intros t.
  case_match; [apply no_leak_keeps, keeps_ret|].
  do 4 (apply no_leak_bind; [apply no_leak_keeps; keeps_all|intros ?]).
  apply no_leak_bind; [apply no_leak_copyconfig|]. intros ret.
  apply no_leak_keeps. keeps_all.
Qed.

Lemma handle_no_leak fuel r : no_leak (handle fuel r).
Proof.
  destruct r; simpl.
  - apply no_leak_keeps. unfold ofcds_lock, dfail.
    repeat first [apply keeps_modify; intros []; destruct t; reflexivity|keeps_step].
  - apply no_leak_keeps. unfold ofcds_unlock, dfail.
    repeat first [apply keeps_deref|apply keeps_modify; intros []; destruct t; reflexivity|keeps_step].
  - apply no_leak_keeps, keeps_bind; [apply keeps_open_getconfig|intros ?; apply keeps_ret].
  - apply no_leak_keeps. unfold ofcds_deleteconfig, dfail, store_rollback. keeps_all.
  - apply no_leak_editconfig.
  - apply no_leak_copyconfig.
  - apply no_leak_rollback.
Qed.

Lemma serves_no_leak fuel rs s s' : serves fuel rs s s' → open_of s = false → open_of s' = false.
Proof.
  induction 1 as [|r rs s x s1 s2 Hr _ IH]; [done|]. intros Ho.
  by eapply IH, handle_no_leak.
Qed.

(** ** Rollback *)
Definition xml_target (t : NC_DATASTORE) : Prop :=
  t = NC_DATASTORE_STARTUP ∨ t = NC_DATASTORE_CANDIDATE.

(** The document of a local datastore. *)
Definition doc_in (t : NC_DATASTORE) (s : dstate) : option xmlNode :=
  match t with NC_DATASTORE_STARTUP => gds_startup s | _ => gds_cand s end.

(** Documents that survive printing: none at all, or a canonical one. *)
Definition printable (d : option xmlNode) : Prop :=
  match d with None => True | Some d => canonical d end.

(** What xmlCopyDoc() makes of a document, or of none. *)
Definition copy_of (d c : option xmlNode) : Prop :=
  ∃ k, c = (λ d, (xmlCopyDoc d k).1) <$> d.

Lemma copy_of_data d c : copy_of d c → data <$> c = data <$> d.
Proof. intros [k ->]. destruct d as [d|]; simpl; [|done]. by rewrite xmlCopyDoc_data. Qed.

Lemma copy_of_printable d c : copy_of d c → printable d → printable c.
Proof. intros [k ->]. destruct d; simpl; [apply canonical_copy|done]. Qed.

Lemma data_children_nil d d' : data d' = data d → children d = [] → children d' = [].
Proof. rewrite !data_eq. intros [= _ _ _ _ _ H] E. rewrite E in H. by destruct (children d'). Qed.

Lemma copy_of_empty d c : copy_of (Some d) c → children d = [] →
  ∃ d', c = Some d' ∧ children d' = [].
Proof.
  intros [k ->] Hd. eexists. split; [done|].
  by apply (data_children_nil d); [apply xmlCopyDoc_data|].
Qed.

Lemma read_memory_run v s : read_memory v s =
  match xmlReadMemory v (d_next s) with
  | Some (d, k) => Done (Some d, set_dnext k s)
  | None => Done (None, s)
  end.
Proof.
  unfold read_memory. rewrite bind_gets. by destruct (xmlReadMemory v (d_next s)) as [[d k]|].
Qed.

Lemma copy_source_config d s : printable d →
  ∃ d' s', copy_source NC_DATASTORE_CONFIG (Some (dump_opt d)) s = Done ((EXIT_SUCCESS, d'), s') ∧
    data <$> d' = data <$> d ∧ s' = set_dnext (d_next s') s.
Proof.
  intros Hp. unfold copy_source. cbv zeta. destruct d as [d|]; cbn [dump_opt].
  - rewrite bool_decide_eq_false_2 by apply dump_nonempty.
    destruct (read_dump d (d_next s) Hp) as (d' & k' & Hr & Hd).
    eexists (Some d'), (set_dnext k' s). split; [|split; [simpl; by rewrite Hd|done]].
    unfold mbind at 1, M_bind at 1. by rewrite read_memory_run, Hr.
  - rewrite bool_decide_eq_true_2 by done. exists None, s. split; [done|]. by destruct s.
Qed.

Lemma rollback_restores fuel s t :
  xml_target t → rollback_type s = t → printable (rollback_doc s) →
  ∃ s', ofcds_rollback fuel s = Done (EXIT_SUCCESS, s') ∧
    data <$> doc_in t s' = data <$> rollback_doc s ∧
    (∀ t', xml_target t' → t' ≠ t → doc_in t' s' = doc_in t' s) ∧
    d_be s' = d_be s ∧ locks_of s' = locks_of s.
Proof.
  intros Ht Hty Hp. unfold ofcds_rollback. rewrite bind_gets, Hty.
  rewrite bool_decide_eq_false_2 by (by destruct Ht as [-> | ->]).
  rewrite !bind_gets, !bind_modify.
  set (s0 := set_rollbacking true (set_derr None s)).
  destruct (copy_source_config (rollback_doc s) s0 Hp) as (d' & s1 & Hsrc & Hd & Hs1).
  assert (ofcds_copyconfig fuel t NC_DATASTORE_CONFIG (Some (dump_opt (rollback_doc s))) s0
    = Done (EXIT_SUCCESS, if bool_decide (t = NC_DATASTORE_STARTUP) then set_startup d' s1
                          else set_cand d' s1)) as Hc.
  { unfold ofcds_copyconfig. rewrite (bind_run _ _ _ _ _ Hsrc). rewrite Hs1.
    by destruct Ht as [-> | ->]. }
  rewrite (bind_run _ _ _ _ _ Hc), bind_modify, bind_gets, bind_modify.
  eexists. split; [reflexivity|]. rewrite Hs1.
  destruct Ht as [-> | ->]; simpl; (split; [done|]); (split; [|done]).
  - intros t' [-> | ->] H; done.
  - intros t' [-> | ->] H; done.
Qed.

(** The copy of an empty document cannot be rolled back to: an <edit-config> that
    removed the root element leaves an empty document, its printed form is not
    parsed back, and ofcds_rollback() fails and leaves the datastore as it is. *)
Theorem rollback_to_empty_fails fuel s d :
  xml_target (rollback_type s) → rollback_doc s = Some d → children d = [] →
  ofcds_rollback fuel s = Done (EXIT_FAILURE, set_rollbacking false s).
Proof.
  intros Ht Hd Hc. unfold ofcds_rollback. rewrite bind_gets.
  rewrite bool_decide_eq_false_2 by (destruct Ht as [-> | ->]; done).
  rewrite !bind_gets, !bind_modify, Hd. cbn [dump_opt].
  set (s0 := set_rollbacking true (set_derr None s)).
  assert (copy_source NC_DATASTORE_CONFIG (Some (xmlDocDumpMemory d)) s0
    = Done ((EXIT_FAILURE, None),
        set_derr (Some (set_badelem (Some "config") (nc_err_new NC_ERR_BAD_ELEM))) s0)) as Hs.
  { unfold copy_source. cbv zeta. rewrite bool_decide_eq_false_2 by apply dump_nonempty.
    unfold mbind at 1, M_bind at 1. rewrite read_memory_run, (read_dump_empty d (d_next s0) Hc).
    done. }
  assert (ofcds_copyconfig fuel (rollback_type s) NC_DATASTORE_CONFIG (Some (xmlDocDumpMemory d)) s0
    = Done (EXIT_FAILURE,
        set_derr (Some (set_badelem (Some "config") (nc_err_new NC_ERR_BAD_ELEM))) s0)) as Hcp.
  { unfold ofcds_copyconfig. by rewrite (bind_run _ _ _ _ _ Hs). }
  rewrite (bind_run _ _ _ _ _ Hcp), bind_modify, bind_gets, bind_modify. simpl.
  destruct s. done.
Qed.

(** An edit of a local datastore leaves a copy of the old document behind. *)
Lemma copy_doc_run d s : ∃ d' s', copy_doc d s = Done (d', s') ∧ copy_of d d' ∧
  s' = set_dnext (d_next s') s.
Proof.
  destruct d as [d|]; simpl.
  - eexists (Some _), _. unfold copy_doc. rewrite bind_gets, bind_modify. split; [reflexivity|].
    split; [by eexists|done].
  - exists None, s. split; [done|]. split; [by exists 0|]. by destruct s.
Qed.

Lemma edit_target_saves fuel t defop cfg cl d s x s' :
  edit_target fuel t defop cfg cl d s = Done (x, s') →
  copy_of d (rollback_doc s') ∧ rollback_type s' = t.
Proof.
  unfold edit_target. destruct (copy_doc_run d s) as (d' & s1 & Hc & Hd & Hs1).
  rewrite (bind_run _ _ _ _ _ Hc). unfold store_rollback. rewrite bind_modify.
  match goal with |- ?m ?s2 = _ → _ => assert (keeps saved_of m) as Hk end.
  { unfold error_cleanup. repeat first [apply keeps_saved_apply|keeps_step]. }
  intros H. apply Hk in H. unfold saved_of in H. simpl in H. injection H as -> -> _.
  done.
Qed.

Lemma editconfig_target fuel t config defop0 s cfg k :
  xml_target t → xmlReadMemory config (d_next s) = Some (cfg, k) → bad_edit_root cfg = false →
  ofcds_editconfig fuel t config defop0 s =
  edit_target fuel t (if bool_decide (defop0 = NC_EDIT_DEFOP_NOTSET) then NC_EDIT_DEFOP_MERGE
                      else defop0) cfg None (doc_in t s) (set_dnext k s).
Proof.
  intros Ht Hr Hb. unfold ofcds_editconfig.
  assert (read_memory config s = Done (Some cfg, set_dnext k s)) as Hread.
  { by rewrite read_memory_run, Hr. }
  rewrite (bind_run _ _ _ _ _ Hread), Hb. by destruct Ht as [-> | ->].
Qed.

(** ** Edits of the local datastores return *)

(** What an edit document must be like: well-formed, with legal operations, none
    of them inside another one of the same kind. *)
Definition edit_input (cfg : xmlNode) : Prop :=
  wf_edit cfg ∧ flat_ops cfg ∧ no_top_key cfg ∧ ops_legal cfg ∧
  Forall one_op (forest (children cfg)).

(** A well-formed configuration at addresses below [k], or none. *)
Definition doc_ok (fuel : nat) (k : ptr) (d : option xmlNode) : Prop :=
  match d with None => True | Some d => wf_doc d ∧ below k d ∧ length (ids d) < fuel end.

(** The result of an edit: a failure is reported, and has left the document
    alone or stopped at a delete without data. *)
Definition edit_outcome (t : NC_DATASTORE) (d : option xmlNode) (r : exit) (s' : dstate) : Prop :=
  (∀ d', doc_in t s' = Some d' → wf_doc d' ∧ below (d_next s') d') ∧
  (r = EXIT_FAILURE → is_Some (d_err s') ∧
     (doc_in t s' = d ∨ d_err s' = Some (nc_err_new NC_ERR_DATA_MISSING))).

Lemma doc_ok_mono fuel k k' d : doc_ok fuel k d → k ≤ k' → doc_ok fuel k' d.
Proof. destruct d; simpl; [|done]. intros (? & ? & ?) ?. eauto using below_mono. Qed.

Lemma edit_outcome_fail t d s fuel e : doc_ok fuel (d_next s) d → doc_in t s = d →
  edit_outcome t d EXIT_FAILURE (set_derr (Some e) s).
Proof.
  intros Hd Hdoc. split; [|intros _; split; [simpl; eauto|left; by destruct t]].
  intros d'. replace (doc_in t (set_derr (Some e) s)) with (doc_in t s) by (by destruct t).
  rewrite Hdoc. intros ->. split; apply Hd.
Qed.

Lemma put_same t d s : xml_target t → doc_in t s = d → put_doc t d s = Done (tt, s).
Proof. intros [-> | ->] <-; simpl; by destruct s. Qed.

Lemma run_check_xml t op v defop d cfg s :
  xml_target t → doc_in t s = d → op_string op = Some v → d_err s = None →
  ncdflt_get_basic_mode ≠ NCWD_MODE_ALL → ncdflt_get_basic_mode ≠ NCWD_MODE_TRIM →
  wf_doc cfg → ops_legal cfg →
  run_check t op defop (d, cfg) s = Done ((EXIT_SUCCESS, (d, cfg)), s) ∨
  ∃ e, run_check t op defop (d, cfg) s = Done ((EXIT_FAILURE, (d, cfg)), set_derr (Some e) s).
Proof.
  intros Ht Hd Hv He Hall Htrim Hwf Hleg. unfold run_check. rewrite He. cbn [fst snd].
  destruct (check_edit_ops_spec op v defop (CState d cfg None) Hv Hall Htrim Hwf Hleg eq_refl)
    as [[_ H]|[_ [e H]]]; rewrite H; simpl.
  - left. rewrite bind_modify. replace (set_derr None s) with s by (destruct s; simpl in *; by subst).
    by rewrite (bind_run _ _ _ _ _ (put_same t d s Ht Hd)).
  - right. exists e. rewrite bind_modify.
    rewrite (bind_run _ _ _ _ _ (put_same t d (set_derr (Some e) s) Ht ltac:(by destruct t))). done.
Qed.

Lemma cleanup_xml t s : xml_target t → error_cleanup t s = Done (EXIT_FAILURE, s).
Proof. intros [-> | ->]; done. Qed.

Lemma new_doc_run s : new_doc s =
  Done (XmlNode (d_next s) (XmlHdr XML_DOCUMENT_NODE None None [] [] None) [],
        set_dnext (S (d_next s)) s).
Proof. done. Qed.

Lemma new_doc_ok fuel k : 1 < fuel →
  doc_ok fuel (S k) (Some (XmlNode k (XmlHdr XML_DOCUMENT_NODE None None [] [] None) [])).
Proof.
  intros Hf. simpl. split_and!.
  - split_and!; [|done|constructor]. unfold ids. simpl. apply NoDup_singleton.
  - intros x. unfold ids. simpl. rewrite list_elem_of_singleton. lia.
  - done.
Qed.

(** The document edit_operations() starts from. *)
Lemma start_doc fuel d s : 1 < fuel → doc_ok fuel (d_next s) d →
  ∃ c s1, match d with Some d => mret d | None => new_doc end s = Done (c, s1) ∧
    doc_ok fuel (d_next s1) (Some c) ∧ s1 = set_dnext (d_next s1) s ∧ (∀ d0, d = Some d0 → c = d0).
Proof.
  intros Hf Hd. destruct d as [d|].
  - exists d, s. split; [done|]. split; [done|]. split; [by destruct s|]. by intros ? [= <-].
  - eexists _, _. rewrite new_doc_run. split; [reflexivity|].
    split; [by apply new_doc_ok|]. done.
Qed.

Lemma run_edit_xml fuel t defop new c cfg s :
  xml_target t → wf_doc c → below (d_next s) c → length (ids c) < fuel → tsize cfg < fuel →
  wf_edit cfg → flat_ops cfg → no_top_key cfg →
  ∃ r c' s', run_edit fuel t defop new c cfg s = Done ((r, c'), s') ∧
    wf_doc c' ∧ below (d_next s') c' ∧
    doc_in t s' = (if new then doc_in t s else Some c') ∧
    (r = EXIT_FAILURE → d_err s' = Some (nc_err_new NC_ERR_DATA_MISSING)).
Proof.
  intros Ht Hwf Hb Hf1 Hf2 He Hflat Hk. unfold run_edit.
  rewrite bool_decide_eq_false_2 by (by destruct Ht as [-> | ->]).
  set (e0 := EState c cfg (d_next s) (d_be s) (d_err s)).
  destruct (edit_operations_ok fuel defop e0) as (r & e & Hrun & (H1 & H2 & H3) & Hbe & Hr).
  { split; [split_and!; done|]. split; [done|]. split; [done|]. done. }
  rewrite Hrun, bind_modify. destruct new.
  - rewrite bind_ret. eexists r, _, _. split; [reflexivity|]. simpl.
    split; [done|]. split; [done|]. split; [by destruct t|]. intros ->. done.
  - destruct Ht as [-> | ->]; simpl; rewrite bind_modify; eexists r, _, _;
      (split; [reflexivity|]); simpl; (split; [done|]); (split; [done|]); (split; [done|]);
      intros ->; done.
Qed.

Lemma edit_apply_xml fuel t defop d cfg s :
  xml_target t → doc_in t s = d → doc_ok fuel (d_next s) d → edit_input cfg →
  1 < fuel → tsize cfg < fuel →
  ∃ r s', edit_apply fuel t defop None (d, cfg) s = Done (r, s') ∧ edit_outcome t d r s'.
Proof.
  intros Ht Hdoc Hd (He & Hflat & Hk & Hleg & Hone) Hf1 Hf2. unfold edit_apply.
  rewrite (bool_decide_eq_false_2 (t = _)) by (by destruct Ht as [-> | ->]).
  rewrite bind_ret. cbn [fst snd].
  destruct (compact_doc_spec cfg defop Hleg Hone) as (cfg' & Hc & _). rewrite Hc.
  destruct (fewer_ops_prepared _ _ (compact_fewer _ _ _ Hone Hleg Hc)) as (H1 & H2 & H3 & H4).
  destruct (start_doc fuel d s Hf1 Hd) as (c & s1 & Hst & (Hw1 & Hb1 & Hl1) & Hs1 & Hdc).
  rewrite (bind_run _ _ _ _ _ Hst).
  set (new := match d with None => true | Some _ => false end).
  destruct (run_edit_xml fuel t defop new c cfg' s1) as (r & c' & s2 & Hrun & Hwc & Hbc & Hdoc2 & Hr);
    auto; [lia|]. rewrite (bind_run _ _ _ _ _ Hrun).
  assert (doc_in t s1 = d) as Hdoc1 by (rewrite Hs1; destruct t; done).
  destruct r.
  - unfold edit_finish. rewrite (bool_decide_eq_false_2 (t = _)) by (by destruct Ht as [-> | ->]).
    assert (edit_outcome t d EXIT_SUCCESS s2) as Hout.
    { split; [|done]. intros d'. rewrite Hdoc2. unfold new. destruct d as [d|].
      - by intros [= <-].
      - by rewrite Hdoc1. }
    destruct new; [|by eauto]. destruct (children c'); [by eauto|].
    exists EXIT_SUCCESS. destruct Ht as [-> | ->]; simpl; rewrite bind_modify;
      (eexists; split; [reflexivity|]); (split; [|done]); simpl; by intros d' [= <-].
  - rewrite (cleanup_xml t s2 Ht). exists EXIT_FAILURE, s2. split; [done|].
    specialize (Hr eq_refl). split; [|intros _; rewrite Hr; eauto].
    intros d'. rewrite Hdoc2. unfold new. destruct d as [d|]; [by intros [= <-]|by rewrite Hdoc1].
Qed.

Lemma edit_target_xml fuel t defop d cfg s :
  ncdflt_get_basic_mode ≠ NCWD_MODE_ALL → ncdflt_get_basic_mode ≠ NCWD_MODE_TRIM →
  xml_target t → doc_in t s = d → doc_ok fuel (d_next s) d → edit_input cfg →
  1 < fuel → tsize cfg < fuel → d_err s = None →
  ∃ r s', edit_target fuel t defop cfg None d s = Done (r, s') ∧ edit_outcome t d r s'.
Proof.
  intros Hall Htrim Ht Hdoc Hd Hin Hf1 Hf2 Herr. unfold edit_target.
  destruct (copy_doc_run d s) as (d' & s1 & Hc & _ & Hs1).
  assert (d_next s ≤ d_next s1) as Hnext.
  { destruct d as [d|]; simpl in Hc; [|by injection Hc as _ <-].
    unfold copy_doc in Hc. rewrite bind_gets, bind_modify in Hc. injection Hc as _ <-. simpl.
    by destruct (xmlCopyDoc_fresh d (d_next s)) as (_ & ? & _); [apply Hd|]. }
  rewrite (bind_run _ _ _ _ _ Hc). unfold store_rollback. rewrite bind_modify.
  set (s2 := DState _ _ d' t _ _ _ _ _ _ _).
  assert (doc_in t s2 = d) as Hdoc2 by (unfold s2; rewrite Hs1; destruct t; done).
  assert (doc_ok fuel (d_next s2) d) as Hd2 by (by eapply doc_ok_mono).
  assert (d_err s2 = None) as Herr2 by (unfold s2; rewrite Hs1; done).
  pose proof Hin as ([Hwf _] & _ & _ & Hleg & _).
  destruct (check_keys (Some cfg)) as [[] e] eqn:Hkeys.
  2:{ assert (∃ e', e = Some e') as [e' ->].
      { unfold check_keys in Hkeys. repeat case_match; simplify_eq; eauto. }
      rewrite bind_modify, cleanup_xml by done. eexists _, _. split; [reflexivity|].
      by eapply edit_outcome_fail. }
  destruct (run_check_xml t NC_EDIT_OP_DELETE "delete" defop d cfg s2) as [H|[e1 H]]; auto;
    rewrite (bind_run _ _ _ _ _ H).
  2:{ rewrite cleanup_xml by done. eexists _, _. split; [reflexivity|]. by eapply edit_outcome_fail. }
  destruct (run_check_xml t NC_EDIT_OP_CREATE "create" defop d cfg s2) as [H'|[e1 H']]; auto;
    rewrite (bind_run _ _ _ _ _ H').
  2:{ rewrite cleanup_xml by done. eexists _, _. split; [reflexivity|]. by eapply edit_outcome_fail. }
  by apply edit_apply_xml.
Qed.
End facts.
