(* ===== verification/DatastoreClaims.v ===== *)
(** * What the datastore guarantees

    Locks, transactions, edits of the local datastores and rollback, as
    properties of runs of the callbacks of ofconfig-datastore.c. *)

From S2P Require Import Prelude.
From S2P Require Import Clrwspace.
From S2P Require Import Xml.
From S2P Require Import XmlFacts.
From S2P Require Import EditTree.
From S2P Require Import EditChecks.
From S2P Require Import EditCompact.
From S2P Require Import EditOps.
From S2P Require Import EditXml.
From S2P Require Import EditPrepared.
From S2P Require Import Datastore.
From S2P Require Import DatastoreFacts.
From S2P Require Import Samples.

Section claims.
Context {LX : LibXml} {LN : LibNetconf} {IO : XmlIO} {OB : OvsBackend} {OS : OvsStore}.

(** C4: a lock is exclusive: once a session holds the lock of a datastore, whatever
    requests any sessions make, as long as the owner does not unlock, the owner
    keeps it, every attempt to lock is denied with the owner's session id, and no
    other session can unlock. *)
Theorem lock_exclusive fuel t owner rs s s' :
  holds t owner s → serves fuel rs s s' → ReqUnlock t owner ∉ rs →
  holds t owner s' ∧
  (∀ session, ofcds_lock t session s' = Done (EXIT_FAILURE,
     set_derr (Some (set_sid (Some owner) (nc_err_new NC_ERR_LOCK_DENIED))) s')) ∧
  (∀ session, session ≠ owner →
     ∃ e, ofcds_unlock t session s' = Done (EXIT_FAILURE, set_derr (Some e) s')).
Proof.
  intros Hh Hs Hn. assert (holds t owner s') as Hh' by (by eapply serves_holds).
  split; [done|]. split; [by apply lock_held|]. intros session Hne. by eapply unlock_other.
Qed.

(** A datastore that is not locked can be locked, by any session, and unlocking by
    its owner gives back the state before. *)
Theorem lock_unlock t session s :
  lock_of t s = Some (Lock false None) →
  ∃ s1, ofcds_lock t session s = Done (EXIT_SUCCESS, s1) ∧ holds t session s1 ∧
    ofcds_unlock t session s1 = Done (EXIT_SUCCESS, s).
Proof.
  intros Hl. unfold ofcds_lock. rewrite bind_gets, Hl. cbn [locked]. rewrite bind_modify.
  eexists. split; [reflexivity|].
  assert (holds t session (set_lock t (Lock true (Some session)) s)) as Hh
    by (by destruct t).
  split; [done|]. unfold ofcds_unlock. rewrite bind_gets. unfold holds in Hh. rewrite Hh.
  cbn [locked sid deref]. rewrite bind_ret, bool_decide_eq_true_2, bind_modify by done.
  destruct s, t; simpl in *; simplify_eq; done.
Qed.

(** C14: no sequence of requests leaves an OVSDB transaction open: every edit, copy and
    rollback that returns has committed or aborted what it began. *)
Theorem transactions_closed fuel rs s s' :
  serves fuel rs s s' → txn_open (d_be s) = false → txn_open (d_be s') = false.
Proof. apply serves_no_leak. Qed.

(** C3: an <edit-config> of startup or candidate returns: for edit data with legal
    operations, none inside another of the same kind, and the with-defaults mode
    explicit, ofcds_editconfig() answers; a failure is reported in *error, and
    has left the datastore as it was unless a delete found its data gone; the
    document stays well-formed. *)
Theorem editconfig_local_returns fuel t config defop s cfg k :
  ncdflt_get_basic_mode ≠ NCWD_MODE_ALL → ncdflt_get_basic_mode ≠ NCWD_MODE_TRIM →
  xml_target t → xmlReadMemory config (d_next s) = Some (cfg, k) → bad_edit_root cfg = false →
  edit_input cfg → doc_ok fuel (d_next s) (doc_in t s) → 1 < fuel → tsize cfg < fuel →
  d_err s = None →
  ∃ r s', ofcds_editconfig fuel t config defop s = Done (r, s') ∧
    edit_outcome t (doc_in t s) r s'.
Proof.
  intros Hall Htrim Ht Hr Hb Hin Hd Hf1 Hf2 He.
  rewrite (editconfig_target fuel t config defop s cfg k Ht Hr Hb).
  destruct (read_fresh _ _ _ _ Hr) as (_ & Hk & _).
  apply edit_target_xml; try done. by eapply doc_ok_mono.
Qed.

(** C2: rollback undoes an edit: after any <edit-config> of startup or candidate that
    got past parsing, successful or not, when the datastore held no document
    before, or one that survives printing and parsing as documents sent by
    clients do, ofcds_rollback() succeeds and gives the datastore back the
    content it had, leaves the other one and the locks alone and does not touch
    OVSDB; when it held a document without root element, ofcds_rollback()
    fails and leaves everything as the edit left it. *)
Theorem edit_rollback fuel fuel' t config defop s cfg k r s1 :
  xml_target t → xmlReadMemory config (d_next s) = Some (cfg, k) → bad_edit_root cfg = false →
  ofcds_editconfig fuel t config defop s = Done (r, s1) →
  (printable (doc_in t s) → ∃ s2, ofcds_rollback fuel' s1 = Done (EXIT_SUCCESS, s2) ∧
     data <$> doc_in t s2 = data <$> doc_in t s ∧
     (∀ t', xml_target t' → t' ≠ t → doc_in t' s2 = doc_in t' s1) ∧
     d_be s2 = d_be s1 ∧ locks_of s2 = locks_of s) ∧
  (∀ d, doc_in t s = Some d → children d = [] →
     ofcds_rollback fuel' s1 = Done (EXIT_FAILURE, set_rollbacking false s1)).
Proof.
  intros Ht Hr Hb Hrun. pose proof Hrun as Hlocks%keeps_locks_editconfig.
  rewrite (editconfig_target fuel t config defop s cfg k Ht Hr Hb) in Hrun.
  apply edit_target_saves in Hrun as [Hd Hty]. split.
  - intros Hp. pose proof (copy_of_printable _ _ Hd Hp) as Hp1.
    destruct (rollback_restores fuel' s1 t Ht Hty Hp1) as (s2 & H1 & H2 & H3 & H4 & H5).
    exists s2. rewrite H2, (copy_of_data _ _ Hd). split_and!; [done..|congruence].
  - intros d Hdoc Hc. rewrite Hdoc in Hd. destruct (copy_of_empty _ _ Hd Hc) as (d' & Hd' & Hc').
    apply (rollback_to_empty_fails fuel' s1 d'); [by rewrite Hty|done|done].
Qed.

(** Rollback undoes a <delete-config>. *)
Theorem delete_rollback fuel t s :
  xml_target t → printable (doc_in t s) →
  ∃ s1 s2, ofcds_deleteconfig t s = Done (EXIT_SUCCESS, s1) ∧ doc_in t s1 = None ∧
    ofcds_rollback fuel s1 = Done (EXIT_SUCCESS, s2) ∧
    data <$> doc_in t s2 = data <$> doc_in t s.
Proof.
  intros Ht Hp.
  assert (∃ s1, ofcds_deleteconfig t s = Done (EXIT_SUCCESS, s1) ∧ doc_in t s1 = None ∧
    rollback_doc s1 = doc_in t s ∧ rollback_type s1 = t) as (s1 & H1 & H2 & H3 & H4).
  { destruct Ht as [-> | ->]; eexists; (split; [reflexivity|]); done. }
  destruct (rollback_restores fuel s1 t Ht H4) as (s2 & Hr & Hd & _); [by rewrite H3|].
  exists s1, s2. split; [done|]. split; [done|]. split; [done|]. by rewrite Hd, H3.
Qed.

(** C32: a <copy-config> between the local datastores, outside a rollback, succeeds,
    makes the target's content equal to the source's and keeps the source.  When
    the target held no document before, or one that survives printing and
    parsing, ofcds_rollback() then succeeds and restores it; when it held a
    document without root element, ofcds_rollback() fails and leaves the copy. *)
Theorem copy_local fuel fuel' t src s :
  xml_target t → xml_target src → t ≠ src → rollbacking s = false →
  ∃ s1, ofcds_copyconfig fuel t src None s = Done (EXIT_SUCCESS, s1) ∧
    data <$> doc_in t s1 = data <$> doc_in src s ∧ doc_in src s1 = doc_in src s ∧
    (printable (doc_in t s) → ∃ s2, ofcds_rollback fuel' s1 = Done (EXIT_SUCCESS, s2) ∧
       data <$> doc_in t s2 = data <$> doc_in t s ∧ doc_in src s2 = doc_in src s) ∧
    (∀ d, doc_in t s = Some d → children d = [] →
       ofcds_rollback fuel' s1 = Done (EXIT_FAILURE, s1)).
Proof.
  intros Ht Hsrc Hne Hrb. destruct (copy_doc_run (doc_in src s) s) as (c & s0 & Hc & Hd & Hs0).
  assert (∃ s1, ofcds_copyconfig fuel t src None s = Done (EXIT_SUCCESS, s1) ∧
    doc_in t s1 = c ∧ doc_in src s1 = doc_in src s ∧ rollback_doc s1 = doc_in t s ∧
    rollback_type s1 = t ∧ rollbacking s1 = false) as (s1 & H1 & H2 & H3 & H4 & H5 & H6).
  { assert (copy_source src None s = Done ((EXIT_SUCCESS, c), s0)) as Hcs.
    { destruct Hsrc as [-> | ->]; simpl; rewrite bind_gets;
        simpl in Hc; by rewrite (bind_run _ _ _ _ _ Hc). }
    unfold ofcds_copyconfig. rewrite (bind_run _ _ _ _ _ Hcs), Hs0.
    destruct Ht as [-> | ->], Hsrc as [-> | ->]; try done; unfold store_copy;
      rewrite !bind_gets; simpl; rewrite Hrb; unfold store_rollback;
      rewrite !bind_modify; eexists; (split; [reflexivity|]); done. }
  exists s1. rewrite H2. split_and!; [done|by apply copy_of_data|done|..].
  - intros Hp. destruct (rollback_restores fuel' s1 t Ht H5) as (s2 & Hr & Hd2 & Ho & _);
      [by rewrite H4|]. exists s2. rewrite Hd2, H4, (Ho src Hsrc ltac:(done)), H3. done.
  - intros d Hdoc Hempty. rewrite (rollback_to_empty_fails fuel' s1 d); [|by rewrite H5|by rewrite H4|done].
    destruct s1. simpl in *. by subst.
Qed.

(** A rollback of the running datastore while OVSDB gives no configuration frees a
    pointer that was never set: ofcds_copyconfig() fails without setting the
    error structure that ofcds_rollback() then releases. *)
Theorem rollback_frees_garbage fuel s d b :
  rollback_type s = NC_DATASTORE_RUNNING → rollback_doc s = d → printable d →
  ofc_get_config_data (d_be s) = Done (None, b) →
  ofcds_rollback fuel s = Crash BadFree.
Proof.
  intros Ht Hd Hp Hg. unfold ofcds_rollback. rewrite bind_gets, Ht, bool_decide_eq_false_2 by done.
  rewrite !bind_gets, !bind_modify, Hd.
  set (s0 := set_rollbacking true (set_derr None s)).
  destruct (copy_source_config d s0 Hp) as (d' & s1 & Hs & _ & Hs1).
  assert (∃ s2, ofcds_copyconfig fuel NC_DATASTORE_RUNNING NC_DATASTORE_CONFIG (Some (dump_opt d)) s0
    = Done (EXIT_FAILURE, s2) ∧ d_err s2 = None) as (s2 & Hc & He).
  { unfold ofcds_copyconfig. rewrite (bind_run _ _ _ _ _ Hs). unfold copy_to_running, ofcds_getconfig.
    assert (on_be ofc_get_config_data s1 = Done (None, set_dbe b s1)) as Hb.
    { unfold on_be. rewrite Hs1. simpl. by rewrite Hg. }
    rewrite (bind_run _ _ _ _ _ Hb). eexists. split; [reflexivity|]. rewrite Hs1. done. }
  rewrite (bind_run _ _ _ _ _ Hc), bind_modify, bind_gets, bind_modify.
  change (d_err (set_rollbacking false s2)) with (d_err s2). by rewrite He.
Qed.
End claims.

(** ** Instances *)

(** *** A parser and printer for two documents *)
Section dtree_ind.
Variable P : dtree → Prop.
Hypothesis step : ∀ t nm h a ct cs, Forall P cs → P (DTree t nm h a ct cs).
Fixpoint dtree_ind' (d : dtree) : P d :=
  match d with
  | DTree t nm h a ct cs => step t nm h a ct cs
      ((fix go l : Forall P l := match l with
        | [] => Forall_nil_2 P
        | c :: l' => Forall_cons_2 P c l' (dtree_ind' c) (go l')
        end) cs)
  end.
End dtree_ind.

Fixpoint dtree_eqb (x y : dtree) : bool :=
  match x, y with
  | DTree t nm h a ct cs, DTree t' nm' h' a' ct' cs' =>
      bool_decide (t = t') && bool_decide (nm = nm') && bool_decide (h = h')
      && bool_decide (a = a') && bool_decide (ct = ct')
      && (fix go l l' := match l, l' with
          | [], [] => true
          | c :: l, c' :: l' => dtree_eqb c c' && go l l'
          | _, _ => false
          end) cs cs'
  end.

Lemma dtree_eqb_eq x : ∀ y, dtree_eqb x y = true ↔ x = y.
Proof.
  induction x as [t nm h a ct cs IH] using dtree_ind'. intros [t' nm' h' a' ct' cs'].
  cbn [dtree_eqb]. rewrite !andb_true_iff, !bool_decide_eq_true.
  assert (∀ l l', Forall (λ x, ∀ y, dtree_eqb x y = true ↔ x = y) l →
    (fix go l l' := match l, l' with
       | [], [] => true
       | c :: l, c' :: l' => dtree_eqb c c' && go l l'
       | _, _ => false end) l l' = true ↔ l = l') as Hl.
  { induction l as [|c l IHl]; intros [|c' l'] HF; try done.
    apply Forall_cons in HF as [Hc HF]. rewrite andb_true_iff, Hc, IHl by done. naive_solver. }
  rewrite Hl by done. naive_solver.
Qed.

Definition edit_small : xmlNode := doc [el 1 "capable-switch" [
  el 2 "resources" [el 3 "port" [lf 4 "name" "eth0"; el_op 6 "requested-number" "delete" []]]]].

Definition sample_dump (d : xmlNode) : string :=
  if dtree_eqb (data d) (data conf) then "conf"
  else if dtree_eqb (data d) (data edit_small) then "edit" else "<?xml version='1.0'?>".
Definition sample_read (v : string) (k : ptr) : option (xmlNode * ptr) :=
  if bool_decide (v = "conf") then Some (relabel conf k)
  else if bool_decide (v = "edit") then Some (relabel edit_small k) else None.

Lemma relabel_wf d k : wf_doc d → wf_doc (relabel d k).1.
Proof.
  intros (_ & Ht & Hf). destruct (relabel_fresh d k) as (_ & Hnd & _). split_and!; [done|..].
  - pose proof (data_types _ _ (relabel_data d k)) as H. rewrite !subtree_eq, !fmap_cons in H.
    injection H as H _. congruence.
  - pose proof (data_types _ _ (relabel_data d k)) as H. rewrite !subtree_eq, !fmap_cons in H.
    injection H as _ H.
    rewrite <-(Forall_fmap ntype (λ t, t ≠ XML_DOCUMENT_NODE)) in *. by rewrite H.
Qed.

Lemma sample_read_fresh v k d k' : sample_read v k = Some (d, k') →
  wf_doc d ∧ k ≤ k' ∧ (∀ x, x ∈ ids d → k ≤ x < k') ∧
  (data d = data conf ∨ data d = data edit_small).
Proof.
  unfold sample_read.
  assert (∀ e, wf_doc e → Some (relabel e k) = Some (d, k') →
    wf_doc d ∧ k ≤ k' ∧ (∀ x, x ∈ ids d → k ≤ x < k') ∧ data d = data e) as Hgen.
  { intros e He H. destruct (relabel_fresh e k) as (H1 & H2 & H3).
    pose proof (relabel_wf e k He) as Hwf. pose proof (relabel_data e k) as Hd.
    apply (inj Some) in H. rewrite H in *. simpl in *. split_and!; [done|lia|done|done]. }
  repeat case_bool_decide; intros Heq; try discriminate Heq;
    apply Hgen in Heq as (? & ? & ? & ?); auto;
    apply wf_docb_ok; vm_compute; reflexivity.
Qed.

#[export] Program Instance sample_io : XmlIO := {|
  xmlReadMemory := sample_read;
  xmlDocDumpMemory := sample_dump;
  xmlCopyDoc := relabel;
  canonical d := data d = data conf ∨ data d = data edit_small
|}.
Next Obligation. apply sample_read_fresh. Qed.
Next Obligation.
  intros d k Hd. unfold sample_dump.
  destruct (dtree_eqb (data d) (data conf)) eqn:E1.
  { apply dtree_eqb_eq in E1. exists (relabel conf k).1, (relabel conf k).2.
    split; [by destruct (relabel conf k) eqn:E; unfold sample_read; rewrite <-E|].
    by rewrite relabel_data. }
  destruct (dtree_eqb (data d) (data edit_small)) eqn:E2.
  { apply dtree_eqb_eq in E2. exists (relabel edit_small k).1, (relabel edit_small k).2.
    split; [by destruct (relabel edit_small k) eqn:E; unfold sample_read; rewrite <-E|].
    by rewrite relabel_data. }
  destruct Hd as [Hd|Hd]; apply dtree_eqb_eq in Hd; congruence.
Qed.
Next Obligation.
  intros d k Hc. unfold sample_dump.
  destruct (dtree_eqb (data d) (data conf)) eqn:E1.
  { apply dtree_eqb_eq in E1. rewrite data_eq, Hc in E1. done. }
  destruct (dtree_eqb (data d) (data edit_small)) eqn:E2; [|done].
  apply dtree_eqb_eq in E2. rewrite data_eq, Hc in E2. done.
Qed.
Next Obligation. intros d. unfold sample_dump. by repeat case_match. Qed.
Next Obligation. intros d k [H|H]; rewrite relabel_data; auto. Qed.
Next Obligation. apply relabel_data. Qed.
Next Obligation.
  intros d k Hd. destruct (relabel_fresh d k) as (H1 & H2 & H3).
  split; [by apply relabel_wf|]. split; [lia|done].
Qed.

(** *** An OVSDB layer that records its calls *)
#[export] Program Instance log_store : @OvsStore log_backend := {|
  ofc_get_config_data b := Done (Some "conf", b);
  txn_init b := Done (tt, (true, b.2));
  txn_abort b := Done (tt, (false, b.2));
  txn_commit st := Done (EXIT_SUCCESS, ((false, st.1.2), st.2));
  of_post_ports _ st := Done (EXIT_SUCCESS, st);
  txn_open b := b.1
|}.
Next Obligation. by intros b v b' [= <- <-]. Qed.
Next Obligation. by intros b b' [= <-]. Qed.
Next Obligation. by intros b b' [= <-]. Qed.
Next Obligation. by intros b e r b' e' [= <- <- <-]. Qed.
Next Obligation. by intros b e r b' e' [= <- <- <-]. Qed.
Next Obligation. by intros root b e r b' e' [= <- <- <-]. Qed.

Definition unlocked : lock := Lock false None.
Definition ds0 : @dstate log_backend :=
  DState (Some conf) None None NC_DATASTORE_ERROR false unlocked unlocked unlocked 100 (false, []) None.
Definition ds_locked : @dstate log_backend :=
  set_lock NC_DATASTORE_STARTUP (Lock true (Some "1")) ds0.

Lemma lock_exclusive_witness :
  holds NC_DATASTORE_STARTUP "1" ds_locked ∧
  (∀ session, ofcds_lock NC_DATASTORE_STARTUP session ds_locked = Done (EXIT_FAILURE,
     set_derr (Some (set_sid (Some "1") (nc_err_new NC_ERR_LOCK_DENIED))) ds_locked)) ∧
  (∀ session, session ≠ "1" → ∃ e, ofcds_unlock NC_DATASTORE_STARTUP session ds_locked
     = Done (EXIT_FAILURE, set_derr (Some e) ds_locked)).
Proof.
  apply (lock_exclusive 10 NC_DATASTORE_STARTUP "1" [ReqGet NC_DATASTORE_STARTUP] ds_locked).
  - reflexivity.
  - eapply serves_cons; [vm_compute; reflexivity|apply serves_nil].
  - intros H. apply list_elem_of_singleton in H. discriminate.
Defined.

Lemma lock_unlock_witness : ∃ s1,
  ofcds_lock NC_DATASTORE_RUNNING "7" ds0 = Done (EXIT_SUCCESS, s1) ∧
  holds NC_DATASTORE_RUNNING "7" s1 ∧
  ofcds_unlock NC_DATASTORE_RUNNING "7" s1 = Done (EXIT_SUCCESS, ds0).
Proof. apply (lock_unlock NC_DATASTORE_RUNNING "7" ds0). reflexivity. Defined.

Lemma transactions_closed_witness : ∃ s',
  serves 40 [ReqEdit NC_DATASTORE_RUNNING "edit" NC_EDIT_DEFOP_MERGE] ds0 s' ∧
  txn_open (d_be s') = false.
Proof.
  destruct (handle 40 (ReqEdit NC_DATASTORE_RUNNING "edit" NC_EDIT_DEFOP_MERGE) ds0)
    as [[x s1]| |] eqn:E; [|vm_compute in E; discriminate..].
  assert (serves 40 [ReqEdit NC_DATASTORE_RUNNING "edit" NC_EDIT_DEFOP_MERGE] ds0 s1) as H.
  { eapply serves_cons; [exact E|apply serves_nil]. }
  exists s1. split; [exact H|]. apply (transactions_closed 40 _ _ _ H). reflexivity.
Defined.

(** The edit document as it is read from address 100 on. *)
Definition edit_read : xmlNode := (relabel edit_small 100).1.

Lemma edit_read_input : edit_input edit_read.
Proof.
  split_and!.
  - split; [apply wf_docb_ok; vm_compute; reflexivity|].
    repeat constructor; vm_compute; congruence.
  - apply flat_opsb_ok. vm_compute. reflexivity.
  - apply no_top_keyb_ok. vm_compute. reflexivity.
  - repeat constructor; vm_compute; discriminate.
  - repeat constructor; vm_compute; lia.
Defined.

Lemma editconfig_local_returns_witness : ∃ r s',
  ofcds_editconfig 40 NC_DATASTORE_STARTUP "edit" NC_EDIT_DEFOP_NOTSET ds0 = Done (r, s') ∧
  edit_outcome NC_DATASTORE_STARTUP (Some conf) r s'.
Proof.
  apply (editconfig_local_returns 40 NC_DATASTORE_STARTUP "edit" NC_EDIT_DEFOP_NOTSET ds0 edit_read
           (relabel edit_small 100).2).
  - discriminate.
  - discriminate.
  - left. reflexivity.
  - vm_compute. reflexivity.
  - vm_compute. reflexivity.
  - apply edit_read_input.
  - split; [apply wf_docb_ok; vm_compute; reflexivity|]. split; [|vm_compute; lia].
    intros x Hx. assert (x < 100) as H; [|exact H].
    revert x Hx. apply Forall_forall. apply (bool_decide_unpack _). vm_compute. exact I.
  - lia.
  - vm_compute. lia.
  - reflexivity.
Defined.

Lemma edit_rollback_witness : ∃ r s1 s2,
  ofcds_editconfig 40 NC_DATASTORE_STARTUP "edit" NC_EDIT_DEFOP_NOTSET ds0 = Done (r, s1) ∧
  ofcds_rollback 40 s1 = Done (EXIT_SUCCESS, s2) ∧
  data <$> doc_in NC_DATASTORE_STARTUP s2 = Some (data conf).
Proof.
  destruct (ofcds_editconfig 40 NC_DATASTORE_STARTUP "edit" NC_EDIT_DEFOP_NOTSET ds0)
    as [[r s1]| |] eqn:E; [|vm_compute in E; discriminate..].
  destruct (edit_rollback 40 40 NC_DATASTORE_STARTUP "edit" NC_EDIT_DEFOP_NOTSET ds0 edit_read
    (relabel edit_small 100).2 r s1) as [H _].
  - left. reflexivity.
  - vm_compute. reflexivity.
  - vm_compute. reflexivity.
  - exact E.
  - destruct H as (s2 & H1 & H2 & _); [left; reflexivity|].
    exists r, s1, s2. split; [reflexivity|]. split; [exact H1|exact H2].
Defined.

Lemma delete_rollback_witness : ∃ s1 s2,
  ofcds_deleteconfig NC_DATASTORE_STARTUP ds0 = Done (EXIT_SUCCESS, s1) ∧
  doc_in NC_DATASTORE_STARTUP s1 = None ∧
  ofcds_rollback 1 s1 = Done (EXIT_SUCCESS, s2) ∧
  data <$> doc_in NC_DATASTORE_STARTUP s2 = data <$> doc_in NC_DATASTORE_STARTUP ds0.
Proof.
  apply (delete_rollback 1 NC_DATASTORE_STARTUP ds0).
  - left. reflexivity.
  - left. reflexivity.
Defined.

Lemma copy_local_witness : ∃ s1 s2,
  ofcds_copyconfig 1 NC_DATASTORE_CANDIDATE NC_DATASTORE_STARTUP None ds0 = Done (EXIT_SUCCESS, s1) ∧
  data <$> doc_in NC_DATASTORE_CANDIDATE s1 = data <$> doc_in NC_DATASTORE_STARTUP ds0 ∧
  ofcds_rollback 1 s1 = Done (EXIT_SUCCESS, s2) ∧
  data <$> doc_in NC_DATASTORE_CANDIDATE s2 = data <$> doc_in NC_DATASTORE_CANDIDATE ds0.
Proof.
  destruct (copy_local 1 1 NC_DATASTORE_CANDIDATE NC_DATASTORE_STARTUP ds0)
    as (s1 & H1 & H2 & _ & H3 & _).
  - right. reflexivity.
  - left. reflexivity.
  - discriminate.
  - reflexivity.
  - destruct (H3 I) as (s2 & H4 & H5 & _).
    exists s1, s2. split; [exact H1|]. split; [exact H2|]. split; [exact H4|exact H5].
Defined.

Definition ds_empty : @dstate log_backend :=
  DState (Some conf) None (Some (doc [])) NC_DATASTORE_STARTUP false unlocked unlocked unlocked
    100 (false, []) None.

Lemma rollback_to_empty_fails_witness :
  ofcds_rollback 1 ds_empty = Done (EXIT_FAILURE, set_rollbacking false ds_empty).
Proof.
  apply (rollback_to_empty_fails 1 ds_empty (doc [])).
  - left. reflexivity.
  - reflexivity.
  - reflexivity.
Defined.

(** OVSDB is not reachable. *)
Program Definition dead_store : @OvsStore log_backend := {|
  ofc_get_config_data b := Done (None, b);
  txn_init := txn_init; txn_abort := txn_abort; txn_commit := txn_commit;
  of_post_ports := of_post_ports; txn_open := txn_open
|}.
Next Obligation. by intros b v b' [= <- <-]. Qed.
Next Obligation. apply init_open. Qed.
Next Obligation. apply abort_open. Qed.
Next Obligation. apply commit_open. Qed.
Next Obligation. apply commit_err. Qed.
Next Obligation. apply post_open. Qed.

Definition ds_running : @dstate log_backend :=
  DState None None (Some conf) NC_DATASTORE_RUNNING false unlocked unlocked unlocked
    100 (false, []) None.

Lemma rollback_frees_garbage_witness :
  @ofcds_rollback _ _ _ dead_store 1 ds_running = Crash BadFree.
Proof.
  eapply (@rollback_frees_garbage _ _ _ dead_store 1 ds_running (Some conf)).
  - reflexivity.
  - reflexivity.
  - left. reflexivity.
  - reflexivity.
Defined.
