(* ===== verification/OvsDevices.v ===== *)
(** * What ovs-data.c reaches beside the database

    Network devices through ioctl(), OpenFlow switches through their management
    sockets, the certificate files, and the static variables of ovs-data.c.
    Changes of these take effect at once: no OVSDB transaction covers them.

    The kernel, the switches and the file system decide what a request does;
    their answers are the classes [Kernel], [Vconn] and [Files]. *)

From S2P Require Import Prelude.

(** ** Data *)

(** struct ethtool_cmd: the members this code reads or writes. *)
Record ethtool_cmd := EthtoolCmd {
  ec_supported : Z; ec_advertising : Z; ec_lp_advertising : Z;   (* __u32 *)
  ec_speed : Z; ec_speed_hi : Z;                                 (* __u16 *)
  ec_duplex : Z; ec_port : Z; ec_autoneg : Z }.                  (* __u8 *)

Definition no_ethtool : ethtool_cmd := EthtoolCmd 0 0 0 0 0 0 0 0.
Definition set_advertising (v : Z) (c : ethtool_cmd) : ethtool_cmd :=
  EthtoolCmd (ec_supported c) v (ec_lp_advertising c) (ec_speed c) (ec_speed_hi c)
    (ec_duplex c) (ec_port c) (ec_autoneg c).
Definition set_duplex (v : Z) (c : ethtool_cmd) : ethtool_cmd :=
  EthtoolCmd (ec_supported c) (ec_advertising c) (ec_lp_advertising c) (ec_speed c)
    (ec_speed_hi c) v (ec_port c) (ec_autoneg c).

(** A network device: the driver ETHTOOL_GDRVINFO names, the 16 bit of
    ifr_flags, what ETHTOOL_GSET answers; None where it fails. *)
Record device := Device {
  dv_driver : option string; dv_flags : Z; dv_ethtool : option ethtool_cmd }.

(** struct ofputil_phy_port *)
Record phy_port := PhyPort {
  pp_name : string; pp_port_no : Z; pp_config : Z; pp_state : Z;
  pp_curr_speed : Z; pp_max_speed : Z }.

Record outside := Outside {
  x_devices : gmap string device;
  x_switches : gmap string (list phy_port);   (* by management socket *)
  x_calls : nat;                              (* OpenFlow calls made so far *)
  x_files : gmap string string;
  x_added_interface : bool;                   (* ovsdb_handler->added_interface *)
  x_cs_id : option string }.                  (* cs_id *)

Definition with_devices (f : gmap string device → gmap string device) (x : outside) : outside :=
  Outside (f (x_devices x)) (x_switches x) (x_calls x) (x_files x) (x_added_interface x) (x_cs_id x).
Definition with_switches (f : gmap string (list phy_port) → gmap string (list phy_port))
    (x : outside) : outside :=
  Outside (x_devices x) (f (x_switches x)) (x_calls x) (x_files x) (x_added_interface x) (x_cs_id x).
Definition count_call (x : outside) : outside :=
  Outside (x_devices x) (x_switches x) (S (x_calls x)) (x_files x) (x_added_interface x) (x_cs_id x).
Definition with_files (f : gmap string string → gmap string string) (x : outside) : outside :=
  Outside (x_devices x) (x_switches x) (x_calls x) (f (x_files x)) (x_added_interface x) (x_cs_id x).
Definition with_added (v : bool) (x : outside) : outside :=
  Outside (x_devices x) (x_switches x) (x_calls x) (x_files x) v (x_cs_id x).
Definition with_cs_id (v : option string) (x : outside) : outside :=
  Outside (x_devices x) (x_switches x) (x_calls x) (x_files x) (x_added_interface x) v.

Definition no_outside : outside := Outside ∅ ∅ 0 ∅ false None.

(** ** The services *)

(** What becomes of a device for which flags or settings are requested; None:
    the ioctl() fails. *)
Class Kernel := {
  kernel_flags : string → device → Z → option device;
  kernel_ethtool : string → device → ethtool_cmd → option device
}.

(** libopenvswitch.  The answers depend on how many calls were made before. *)
Class Vconn := {
  (* ovs_rundir() *)
  ovs_rundir : string;
  (* dp_parse_name(): the datapath's name *)
  dp_name_of : string → string;
  (* vconn_open(): errno; the connection is NULL unless it is 0 *)
  vconn_opens : nat → string → Z;
  (* vconn_connect_block(): errno *)
  vconn_connects : nat → string → Z;
  (* the switch behind a connection *)
  vconn_switch : string → string;
  (* ofputil_protocol_from_ofp_version(vconn_get_version()) is not 0 *)
  version_known : string → bool;
  (* vconn_transact() of the request for port descriptions: errno *)
  vconn_transacts : nat → string → Z;
  (* the answer is one to that request *)
  ports_described : nat → string → bool;
  (* vconn_transact_noreply() of a port modification: errno, or an answer,
     which reports an error *)
  port_mod_result : nat → string → Z * bool;
  (* what a port modification does to the ports: port number, config, mask *)
  port_mod : Z → Z → Z → list phy_port → list phy_port;
  (* ovs_strerror(), ofp_to_string() *)
  ovs_strerror : Z → string;
  ofp_to_string : list phy_port → string
}.

(** The file system. *)
Class Files := {
  (* OFC_DATADIR, set when the program is built *)
  ofc_datadir : string;
  (* creat(), open(), ftruncate() and read() of the whole file succeed *)
  file_creates : string → bool;
  file_opens : string → bool;
  file_truncates : string → bool;
  file_reads : string → bool;
  (* how many characters of a text write() takes, given the file's name and
     content: 0 when it fails *)
  file_takes : string → string → string → nat
}.
