(* ===== verification/Ovsdb.v ===== *)
(** * The OVSDB tables as the server sees them (ovs-data.c)

    The rows of the Open vSwitch database that ovs-data.c reads and writes
    within a transaction, the generic operations of the OVSDB IDL on them
    (iterate, insert, write a column, delete, follow a reference), and, as the
    class [OvsIdl], what the IDL library leaves open: the order in which rows
    are visited, how new rows are named, how set and map columns are
    normalised, and whether the structure of a deleted row can still be read.

    The state is the view the row structures give, which the IDL refreshes on
    each write of a column.  Where the code changes a structure without
    writing the column, the value last written has a field of its own
    ([c_target_set]). *)

From S2P Require Import Prelude.
From S2P Require Import Xml.
From S2P Require Import EditTree.
From S2P Require Import OvsDevices.

(** ** Rows *)
Definition uuid := positive.
Notation smap := (gmap string string).

Definition OFC_RESOURCE_ID : string := "ofc_resource_id".
Definition QOS_TYPE : string := "linux-hfsc".

Record queue := Queue { q_external_ids : smap; q_other_config : smap }.
(** key_queues[i], value_queues[i] for i < n_queues. *)
Record qos := Qos { qos_type : option string; qos_queues : list (Z * uuid) }.
Record port := Port {
  port_name : option string; port_qos : option uuid; port_interfaces : list uuid }.
Record interface := Interface {
  if_name : option string; if_type : option string; if_ofport_request : option Z;
  if_options : smap; if_external_ids : smap;
  if_ofport : option Z; if_admin_state : option string; if_link_state : option string;
  if_other_config : smap }.
Record flow_table := FlowTable {
  ft_name : option string; ft_external_ids : smap; ft_flow_limit : option Z }.
Record bridge := Bridge {
  br_name : option string; br_ports : list uuid; br_flow_tables : list (Z * uuid);
  br_controller : list uuid; br_other_config : smap; br_fail_mode : option string; br_datapath_id : option string }.
(** [c_target] is the string the structure points at, [c_target_set] the value
    ovsrec_controller_set_target was last called with in this transaction. *)
Record controller := Controller {
  c_target : option string; c_target_set : option string; c_local_ip : option string;
  c_connection_mode : option string; c_external_ids : smap; c_is_connected : bool }.
Record open_vswitch := OpenVswitch { ovs_bridges : list uuid; ovs_ssl : option uuid }.
Record ssl := Ssl {
  ssl_certificate : option string; ssl_private_key : option string; ssl_ca_cert : option string;
  ssl_external_ids : smap }.
(** Flow_Sample_Collector_Set *)
Record sample_set := SampleSet { fscs_id : Z }.

(** The rows that exist, in the order OVSREC_x_FOR_EACH visits them, and the
    rows deleted in this transaction. *)
Record table (A : Type) := Table { live : list (uuid * A); dead : list (uuid * A) }.
Arguments Table {_} _ _.
Arguments live {_} _.
Arguments dead {_} _.

Record ovsdb := Ovsdb {
  t_queue : table queue; t_qos : table qos; t_port : table port;
  t_interface : table interface; t_flow_table : table flow_table;
  t_bridge : table bridge; t_controller : table controller;
  t_open_vswitch : table open_vswitch; t_ssl : table ssl; t_sample_set : table sample_set;
  o_used : list uuid;           (* names given to rows so far *)
  o_err : option nc_err;        (* *e *)
  o_out : outside }.            (* everything beside the database *)

(** Each row type has its table. *)
Class Row A := {
  tab : ovsdb → table A;
  put_tab : table A → ovsdb → ovsdb;
  tab_put t s : tab (put_tab t s) = t;
  put_put t t' s : put_tab t (put_tab t' s) = put_tab t s;
  used_put t s : o_used (put_tab t s) = o_used s;
  err_put t s : o_err (put_tab t s) = o_err s;
  out_put t s : o_out (put_tab t s) = o_out s
}.

#[export] Program Instance row_queue : Row queue := {|
  tab := t_queue;
  put_tab t s := Ovsdb t (t_qos s) (t_port s) (t_interface s) (t_flow_table s)
    (t_bridge s) (t_controller s) (t_open_vswitch s) (t_ssl s)
    (t_sample_set s) (o_used s) (o_err s) (o_out s) |}.
Solve All Obligations with done.
#[export] Program Instance row_qos : Row qos := {|
  tab := t_qos;
  put_tab t s := Ovsdb (t_queue s) t (t_port s) (t_interface s) (t_flow_table s)
    (t_bridge s) (t_controller s) (t_open_vswitch s) (t_ssl s)
    (t_sample_set s) (o_used s) (o_err s) (o_out s) |}.
Solve All Obligations with done.
#[export] Program Instance row_port : Row port := {|
  tab := t_port;
  put_tab t s := Ovsdb (t_queue s) (t_qos s) t (t_interface s) (t_flow_table s)
    (t_bridge s) (t_controller s) (t_open_vswitch s) (t_ssl s)
    (t_sample_set s) (o_used s) (o_err s) (o_out s) |}.
Solve All Obligations with done.
#[export] Program Instance row_interface : Row interface := {|
  tab := t_interface;
  put_tab t s := Ovsdb (t_queue s) (t_qos s) (t_port s) t (t_flow_table s)
    (t_bridge s) (t_controller s) (t_open_vswitch s) (t_ssl s)
    (t_sample_set s) (o_used s) (o_err s) (o_out s) |}.
Solve All Obligations with done.
#[export] Program Instance row_flow_table : Row flow_table := {|
  tab := t_flow_table;
  put_tab t s := Ovsdb (t_queue s) (t_qos s) (t_port s) (t_interface s) t
    (t_bridge s) (t_controller s) (t_open_vswitch s) (t_ssl s)
    (t_sample_set s) (o_used s) (o_err s) (o_out s) |}.
Solve All Obligations with done.
#[export] Program Instance row_bridge : Row bridge := {|
  tab := t_bridge;
  put_tab t s := Ovsdb (t_queue s) (t_qos s) (t_port s) (t_interface s) (t_flow_table s)
    t (t_controller s) (t_open_vswitch s) (t_ssl s)
    (t_sample_set s) (o_used s) (o_err s) (o_out s) |}.
Solve All Obligations with done.
#[export] Program Instance row_controller : Row controller := {|
  tab := t_controller;
  put_tab t s := Ovsdb (t_queue s) (t_qos s) (t_port s) (t_interface s) (t_flow_table s)
    (t_bridge s) t (t_open_vswitch s) (t_ssl s)
    (t_sample_set s) (o_used s) (o_err s) (o_out s) |}.
Solve All Obligations with done.
#[export] Program Instance row_open_vswitch : Row open_vswitch := {|
  tab := t_open_vswitch;
  put_tab t s := Ovsdb (t_queue s) (t_qos s) (t_port s) (t_interface s) (t_flow_table s)
    (t_bridge s) (t_controller s) t (t_ssl s)
    (t_sample_set s) (o_used s) (o_err s) (o_out s) |}.
Solve All Obligations with done.

#[export] Program Instance row_ssl : Row ssl := {|
  tab := t_ssl;
  put_tab t s := Ovsdb (t_queue s) (t_qos s) (t_port s) (t_interface s) (t_flow_table s)
    (t_bridge s) (t_controller s) (t_open_vswitch s) t (t_sample_set s) (o_used s) (o_err s) (o_out s) |}.
Solve All Obligations with done.
#[export] Program Instance row_sample_set : Row sample_set := {|
  tab := t_sample_set;
  put_tab t s := Ovsdb (t_queue s) (t_qos s) (t_port s) (t_interface s) (t_flow_table s)
    (t_bridge s) (t_controller s) (t_open_vswitch s) (t_ssl s) t (o_used s) (o_err s) (o_out s) |}.
Solve All Obligations with done.

(** ** The IDL *)
Class OvsIdl := {
  (** A name for a new row. *)
  idl_uuid : list uuid → uuid;
  idl_uuid_fresh l : idl_uuid l ∉ l;
  (** Where iteration meets a new row. *)
  idl_place {A} : uuid * A → list (uuid * A) → list (uuid * A);
  idl_place_perm {A} (r : uuid * A) l : idl_place r l ≡ₚ r :: l;
  (** A set column holds each value once. *)
  idl_set : list uuid → list uuid;
  idl_set_elem l x : x ∈ idl_set l ↔ x ∈ l;
  idl_set_nodup l : NoDup (idl_set l);
  (** A map column holds each key once, with one of the values given for it. *)
  idl_map : list (Z * uuid) → list (Z * uuid);
  idl_map_sub l : idl_map l ⊆ l;
  idl_map_keys l k : k ∈ l.*1 → k ∈ (idl_map l).*1;
  idl_map_nodup l : NoDup (idl_map l).*1;
  (** A deleted row may be freed. *)
  idl_keeps : uuid → bool
}.

Definition assoc {A} (u : uuid) (l : list (uuid * A)) : option A :=
  snd <$> find_first (λ r, bool_decide (r.1 = u)) l.
Definition assoc_alter {A} (u : uuid) (f : A → A) (l : list (uuid * A)) : list (uuid * A) :=
  (λ r, if bool_decide (r.1 = u) then (r.1, f r.2) else r) <$> l.
Definition assoc_remove {A} (u : uuid) (l : list (uuid * A)) : list (uuid * A) :=
  filter (λ r, r.1 ≠ u) l.

Definition set_oerr (e : option nc_err) (s : ovsdb) : ovsdb :=
  Ovsdb (t_queue s) (t_qos s) (t_port s) (t_interface s) (t_flow_table s)
    (t_bridge s) (t_controller s) (t_open_vswitch s) (t_ssl s)
    (t_sample_set s) (o_used s) e (o_out s).
Definition use_uuid (u : uuid) (s : ovsdb) : ovsdb :=
  Ovsdb (t_queue s) (t_qos s) (t_port s) (t_interface s) (t_flow_table s)
    (t_bridge s) (t_controller s) (t_open_vswitch s) (t_ssl s)
    (t_sample_set s) (u :: o_used s) (o_err s) (o_out s).

(** A change of what lies beside the database. *)
Definition with_out (f : outside → outside) (s : ovsdb) : ovsdb :=
  Ovsdb (t_queue s) (t_qos s) (t_port s) (t_interface s) (t_flow_table s)
    (t_bridge s) (t_controller s) (t_open_vswitch s) (t_ssl s)
    (t_sample_set s) (o_used s) (o_err s) (f (o_out s)).

(** *e = err; return EXIT_FAILURE; *)
Definition reject (e : nc_err) : M ovsdb exit :=
  _ ← modify (set_oerr (Some e)); mret EXIT_FAILURE.
Definition invalid_input : M ovsdb exit := reject (nc_err_new NC_ERR_OP_FAILED).
Definition bad_elem (elem msg : string) : nc_err :=
  set_msg msg (set_badelem (Some elem) (nc_err_new NC_ERR_BAD_ELEM)).
Definition op_failed (msg : string) : nc_err := set_msg msg (nc_err_new NC_ERR_OP_FAILED).

(** if (m) return EXIT_FAILURE; k *)
Definition if_ok (m k : M ovsdb exit) : M ovsdb exit :=
  r ← m; match r with EXIT_SUCCESS => k | EXIT_FAILURE => mret EXIT_FAILURE end.

Section idl.
Context {OI : OvsIdl}.

Definition rows {A} `{Row A} (s : ovsdb) : list (uuid * A) := live (tab s).

(** OVSREC_x_FOR_EACH(row) if (P) break; *)
Definition find_row {A} `{Row A} (P : A → bool) : M ovsdb (option (uuid * A)) :=
  gets (λ s, find_first (λ r, P r.2) (rows s)).

(** The structure a row pointer leads to. *)
Definition row {A} `{Row A} (u : uuid) : M ovsdb A :=
  t ← gets tab;
  match assoc u (live t), assoc u (dead t) with
  | Some a, _ => mret a
  | None, Some a => if idl_keeps u then mret a else crash UseAfterFree
  | None, None => crash UseAfterFree
  end.

(** A change of the row's structure, or ovsrec_x_set_column. *)
Definition row_write {A} `{Row A} (u : uuid) (f : A → A) : M ovsdb unit :=
  t ← gets tab;
  match assoc u (live t) with
  | Some _ => modify (put_tab (Table (assoc_alter u f (live t)) (dead t)))
  | None => crash UseAfterFree
  end.

(** ovsrec_x_insert *)
Definition row_insert {A} `{Row A} (a : A) : M ovsdb uuid :=
  u ← gets (λ s, idl_uuid (o_used s));
  t ← gets tab;
  _ ← modify (put_tab (Table (idl_place (u, a) (live t)) (dead t)));
  _ ← modify (use_uuid u);
  mret u.

(** ovsrec_x_delete *)
Definition row_delete {A} `{Row A} (u : uuid) : M ovsdb unit :=
  t ← gets tab;
  match assoc u (live t) with
  | Some a => modify (put_tab (Table (assoc_remove u (live t)) ((u, a) :: dead t)))
  | None => crash UseAfterFree
  end.

(** The row structures show references to existing rows only: the pointers
    a set or map column yields once it has been written. *)
Definition exists_row {A} `{Row A} (s : ovsdb) (u : uuid) : bool :=
  bool_decide (is_Some (assoc u (rows s))).
Definition set_column {A} `{Row A} (l : list uuid) (s : ovsdb) : list uuid :=
  filter (λ u, exists_row s u = true) (idl_set l).
Definition map_column {A} `{Row A} (l : list (Z * uuid)) (s : ovsdb) : list (Z * uuid) :=
  filter (λ kv, exists_row s kv.2 = true) (idl_map l).

End idl.

(** ** sscanf(s, "%" SCNi64, &v)

    Whitespace is skipped; a sign; 0x and digits, 0 and octal digits, or
    decimal digits; a value out of range gives the nearest int64_t. *)
Definition digit_val (c : ascii) : option Z :=
  let n := Z.of_N (N_of_ascii c) in
  (if (48 <=? n) && (n <=? 57) then Some (n - 48)
   else if (97 <=? n) && (n <=? 102) then Some (n - 87)
   else if (65 <=? n) && (n <=? 70) then Some (n - 55)
   else None)%Z.

Fixpoint read_digits (base : Z) (acc : option Z) (l : list ascii) : option Z :=
  match l with
  | [] => acc
  | c :: l' =>
      match digit_val c with
      | Some d => if (d <? base)%Z then read_digits base (Some (default 0 acc * base + d)%Z) l'
                  else acc
      | None => acc
      end
  end.

Fixpoint skip_spaces (l : list ascii) : list ascii :=
  match l with
  | c :: l' => if isspace c then skip_spaces l' else l
  | [] => []
  end.

Definition read_unsigned (l : list ascii) : option Z :=
  match l with
  | "0"%char :: c :: l' =>
      if bool_decide (c = "x"%char ∨ c = "X"%char) then read_digits 16 None l'
      else read_digits 8 None l
  | _ => read_digits (if bool_decide (head l = Some "0"%char) then 8 else 10) None l
  end.

Definition INT64_MAX : Z := 2 ^ 63 - 1.
Definition INT64_MIN : Z := - 2 ^ 63.
Definition clamp64 (v : Z) : Z := Z.max INT64_MIN (Z.min v INT64_MAX).

Definition scan_i64 (s : string) : option Z :=
  match skip_spaces (String.list_ascii_of_string s) with
  | "-"%char :: l => (λ v, clamp64 (- v)%Z) <$> read_unsigned l
  | "+"%char :: l => clamp64 <$> read_unsigned l
  | l => clamp64 <$> read_unsigned l
  end.

Lemma clamp64_range v : (INT64_MIN ≤ clamp64 v ≤ INT64_MAX)%Z.
Proof. unfold clamp64, INT64_MIN, INT64_MAX. lia. Qed.

Lemma scan_i64_range s v : scan_i64 s = Some v → (INT64_MIN ≤ v ≤ INT64_MAX)%Z.
Proof.
  unfold scan_i64.
  destruct (skip_spaces _) as [|c l]; [intros (w & _ & ->)%fmap_Some; apply clamp64_range|].
  repeat case_match; intros (w & _ & ->)%fmap_Some; apply clamp64_range.
Qed.

Example scan_decimal : scan_i64 " 12 apples" = Some 12%Z.
Proof. reflexivity. Qed.
Example scan_octal : scan_i64 "-017" = Some (-15)%Z.
Proof. reflexivity. Qed.
Example scan_hex : scan_i64 "0x1Fg" = Some 31%Z.
Proof. reflexivity. Qed.
Example scan_zero : scan_i64 "0" = Some 0%Z.
Proof. reflexivity. Qed.
Example scan_fails : scan_i64 "x1" = None.
Proof. reflexivity. Qed.
