(* ===== verification/OvsQueues.v ===== *)
(** * Queues and QoS records (ovs-data.c)

    A queue of the configuration is a row of the Queue table with its
    resource-id and id in external_ids.  Its link to a port is an entry of the
    queues column of the port's QoS row: the key is the queue's id, the value
    the Queue row. *)

From S2P Require Import Prelude.
From S2P Require Import Xml.
From S2P Require Import EditTree.
From S2P Require Import Ovsdb.

Section queues.
Context {OI : OvsIdl}.

Definition with_q_ext (f : smap → smap) (q : queue) : queue :=
  Queue (f (q_external_ids q)) (q_other_config q).
Definition with_q_other (f : smap → smap) (q : queue) : queue :=
  Queue (q_external_ids q) (f (q_other_config q)).
Definition with_qos_queues (l : list (Z * uuid)) (q : qos) : qos := Qos (qos_type q) l.
Definition with_port_qos (o : option uuid) (p : port) : port := Port (port_name p) o (port_interfaces p).

(** aux = smap_get(&queue->external_ids, OFC_RESOURCE_ID); aux && !strcmp(aux, rid) *)
Definition has_rid (rid : string) (q : queue) : bool :=
  bool_decide (q_external_ids q !! OFC_RESOURCE_ID = Some rid).

(** ovsrec_qos_set_queues *)
Definition set_queues (qs : uuid) (l : list (Z * uuid)) : M ovsdb unit :=
  l' ← gets (map_column (A := queue) l);
  row_write qs (with_qos_queues l').

(** for (i = 0; i < qos->n_queues; i++) if (the queue has the resource-id) break; *)
Fixpoint find_link (rid : string) (i : nat) (l : list (Z * uuid)) : M ovsdb (option nat) :=
  match l with
  | [] => mret None
  | (_, u) :: l' =>
      q ← row u;
      if has_rid rid q then mret (Some i) else find_link rid (S i) l'
  end.

Definition find_queue (resource_id : option string) : M ovsdb (option (uuid * queue)) :=
  match resource_id with
  | None => mret None
  | Some rid => find_row (has_rid rid)
  end.

(** The first port with a link to the queue, its qos and the index of the link. *)
Fixpoint find_port_link (rid : string) (l : list (uuid * port))
  : M ovsdb (option (uuid * uuid * nat)) :=
  match l with
  | [] => mret None
  | (p, pr) :: l' =>
      match port_qos pr with
      | None => find_port_link rid l'
      | Some qs =>
          q ← row (A := qos) qs;
          i ← find_link rid 0 (qos_queues q);
          match i with
          | Some i => mret (Some (p, qs, i))
          | None => find_port_link rid l'
          end
      end
  end.

Definition find_queue_port (rid : string) : M ovsdb (option uuid) :=
  ps ← gets rows;
  r ← find_port_link rid ps;
  mret ((λ x, x.1.1) <$> r).

Definition invalid_id : nc_err := bad_elem "id" "Invalid queue's id value.".

Definition txn_add_queue_port (rid port_nm : option string) : M ovsdb exit :=
  match rid, port_nm with
  | Some rid, Some nm =>
      q ← find_queue (Some rid);
      match q with
      | None => reject (op_failed "Queue to link with port not found.")
      | Some (qu, qr) =>
          match q_external_ids qr !! "ofc_id" with
          | None => reject (op_failed "Internal inconsistency of the queue records.")
          | Some qid_s =>
              p ← find_row (λ p, xmlStrEqual (Some nm) (port_name p));
              match p with
              | None => reject (op_failed "Port to link with queue not found.")
              | Some (pu, pr) =>
                  match scan_i64 qid_s with
                  | None => reject invalid_id
                  | Some qid =>
                      match port_qos pr with
                      | None =>
                          qs ← row_insert (Qos None []);
                          _ ← row_write qs (λ q, Qos (Some QOS_TYPE) (qos_queues q));
                          _ ← set_queues qs [(qid, qu)];
                          _ ← row_write pu (with_port_qos (Some qs));
                          mret EXIT_SUCCESS
                      | Some qs =>
                          qr ← row (A := qos) qs;
                          _ ← set_queues qs (qos_queues qr ++ [(qid, qu)]);
                          mret EXIT_SUCCESS
                      end
                  end
              end
          end
      end
  | _, _ => invalid_input
  end.

(** The first QoS with a link to the queue, and the index of the link. *)
Fixpoint find_qos_link (rid : string) (l : list (uuid * qos)) : M ovsdb (option (uuid * nat)) :=
  match l with
  | [] => mret None
  | (qs, q) :: l' =>
      i ← find_link rid 0 (qos_queues q);
      match i with
      | Some i => mret (Some (qs, i))
      | None => find_qos_link rid l'
      end
  end.

(** qos->key_queues[i] = qid *)
Definition set_key (i : nat) (qid : Z) (l : list (Z * uuid)) : list (Z * uuid) :=
  alter (λ kv, (qid, kv.2)) i l.

Definition txn_mod_queue_id (rid qid_s : option string) : M ovsdb exit :=
  match rid, qid_s with
  | Some rid, Some qid_s =>
      match scan_i64 qid_s with
      | None => reject invalid_id
      | Some qid =>
          q ← find_queue (Some rid);
          match q with
          | None => reject (op_failed "Queue to link with port not found.")
          | Some (qu, _) =>
              qoss ← gets (rows (A := qos));
              l ← find_qos_link rid qoss;
              _ ← match l with
                  | None => mret tt
                  | Some (qs, i) =>
                      qr ← row (A := qos) qs;
                      set_queues qs (set_key i qid (qos_queues qr))
                  end;
              _ ← row_write qu (with_q_ext <["ofc_id" := qid_s]>);
              mret EXIT_SUCCESS
          end
      end
  | _, _ => invalid_input
  end.

(** The result is the new value of *qos. *)
Definition txn_del_qos_queue (qs : uuid) (i : nat) : M ovsdb (option uuid * exit) :=
  qr ← row (A := qos) qs;
  if bool_decide (length (qos_queues qr) = 1) then
    _ ← row_delete (A := qos) qs;
    mret (None, EXIT_SUCCESS)
  else
    _ ← set_queues qs (delete i (qos_queues qr));
    mret (Some qs, EXIT_SUCCESS).

Definition txn_del_queue_port (rid : option string) : M ovsdb exit :=
  match rid with
  | None => invalid_input
  | Some rid =>
      ps ← gets rows;
      l ← find_port_link rid ps;
      match l with
      | None => reject (nc_err_new NC_ERR_OP_FAILED)
      | Some (pu, qs, i) =>
          '(qs', ret) ← txn_del_qos_queue qs i;
          _ ← match qs' with
              | None => row_write pu (with_port_qos None)
              | Some _ => mret tt
              end;
          mret ret
      end
  end.

Definition txn_mod_queue_options (rid opt : option string) (edit : option xmlNode)
  : M ovsdb exit :=
  match rid, opt with
  | Some rid, Some opt =>
      q ← find_queue (Some rid);
      match q with
      | None => reject (op_failed "Queue to set properties not found")
      | Some (qu, _) =>
          match edit with
          | Some node =>
              match child_content node with
              | None => reject (op_failed "Missing value of the queue property")
              | Some value =>
                  _ ← row_write qu (with_q_other <[opt := value]>);
                  mret EXIT_SUCCESS
              end
          | None =>
              _ ← row_write qu (with_q_other (delete opt));
              mret EXIT_SUCCESS
          end
      end
  | _, _ => invalid_input
  end.

(** What the loop over the children of the queue element collects. *)
Record queue_input := QueueInput {
  qi_rid : option string; qi_id : option string; qi_port : option string;
  qi_prop : option xmlNode }.

Definition queue_field (i : queue_input) (aux : xmlNode) : queue_input :=
  if negb (bool_decide (ntype aux = XML_ELEMENT_NODE)) then i
  else if name_is aux "resource-id" then
    QueueInput (child_content aux) (qi_id i) (qi_port i) (qi_prop i)
  else if name_is aux "id" then
    QueueInput (qi_rid i) (child_content aux) (qi_port i) (qi_prop i)
  else if name_is aux "port" then
    QueueInput (qi_rid i) (qi_id i) (child_content aux) (qi_prop i)
  else if name_is aux "properties" then
    QueueInput (qi_rid i) (qi_id i) (qi_port i) (Some aux)
  else i.

Fixpoint add_queue_options (rid : option string) (l : list xmlNode) : M ovsdb exit :=
  match l with
  | [] => mret EXIT_SUCCESS
  | aux :: l' =>
      if_ok (txn_mod_queue_options rid (name aux) (Some aux)) (add_queue_options rid l')
  end.

Definition txn_add_queue (node : option xmlNode) : M ovsdb exit :=
  match node with
  | None => invalid_input
  | Some node =>
      let inp := foldl queue_field (QueueInput None None None None) (children node) in
      match qi_rid inp, qi_id inp with
      | Some rid, Some id_s =>
          qu ← row_insert (Queue ∅ ∅);
          _ ← row_write qu (with_q_ext (λ m,
                match m !! OFC_RESOURCE_ID with
                | Some _ => m
                | None => <[OFC_RESOURCE_ID := rid]> m
                end));
          if_ok (txn_mod_queue_id (Some rid) (Some id_s))
          (if_ok (match qi_port inp with
                  | Some p => txn_add_queue_port (Some rid) (Some p)
                  | None => mret EXIT_SUCCESS
                  end)
          (if_ok (match qi_prop inp with
                  | Some prop => add_queue_options (Some rid) (children prop)
                  | None => mret EXIT_SUCCESS
                  end)
          (_ ← row_write qu (with_q_other id); mret EXIT_SUCCESS)))
      | None, _ => reject (bad_elem "queue" "The list element misses key.")
      | Some _, None => reject (bad_elem "queue" "Mandatory gueue id is missing.")
      end
  end.

(** The search for a link in QoS records of txn_del_queue. *)
Definition del_unported_link (rid : string) : M ovsdb exit :=
  qoss ← gets (rows (A := qos));
  l ← find_qos_link rid qoss;
  match l with
  | None => mret EXIT_SUCCESS
  | Some (qs, i) => '(_, ret) ← txn_del_qos_queue qs i; mret ret
  end.

Definition txn_del_queue (rid : option string) : M ovsdb exit :=
  match rid with
  | None => invalid_input
  | Some rid =>
      p ← find_queue_port rid;
      if_ok (match p with
             | Some _ => txn_del_queue_port (Some rid)
             | None => del_unported_link rid
             end)
      (q ← find_queue (Some rid);
       match q with
       | None => reject (bad_elem "resource-id" "Queue does not exist in OVSDB")
       | Some (qu, _) => _ ← row_delete (A := queue) qu; mret EXIT_SUCCESS
       end)
  end.

(** 0: linked, 1: invalid parameter or missing object, 2: no link between the
    queue and the bridge's ports. *)
Fixpoint port_in_bridge (nm : option string) (l : list uuid) : M ovsdb Z :=
  match l with
  | [] => mret 2%Z
  | u :: l' =>
      p ← row (A := port) u;
      match port_name p, nm with
      | Some a, Some b => if bool_decide (a = b) then mret 0%Z else port_in_bridge nm l'
      | _, _ => crash NullDeref
      end
  end.

Definition ofc_check_bridge_queue (br_nm queue_rid : option string) : M ovsdb Z :=
  match br_nm, queue_rid with
  | Some nm, Some rid =>
      q ← find_queue (Some rid);
      match q with
      | None => mret 1%Z
      | Some _ =>
          p ← find_queue_port rid;
          match p with
          | None => mret 2%Z
          | Some pu =>
              b ← find_row (λ b, xmlStrEqual (Some nm) (br_name b));
              match b with
              | None => mret 1%Z
              | Some (_, br) =>
                  pr ← row (A := port) pu;
                  port_in_bridge (port_name pr) (br_ports br)
              end
          end
      end
  | _, _ => mret 1%Z
  end.

End queues.
