(* ===== verification/OvsBridges.v ===== *)
(** * Flow tables, ports and bridges (ovs-data.c)

    The operations on the Flow_Table rows, on the ports and flow_tables
    columns of a bridge, on its datapath-id and fail mode, and the removal of
    ports and bridges. *)

From S2P Require Import Prelude.
From S2P Require Import Xml.
From S2P Require Import EditTree.
From S2P Require Import Ovsdb.

Section bridges.
Context {LX : LibXml} {OI : OvsIdl}.

Definition with_ft_name (v : option string) (f : flow_table) : flow_table :=
  FlowTable v (ft_external_ids f) (ft_flow_limit f).
Definition with_ft_ext (g : smap → smap) (f : flow_table) : flow_table :=
  FlowTable (ft_name f) (g (ft_external_ids f)) (ft_flow_limit f).
Definition with_br_name (v : option string) (b : bridge) : bridge :=
  Bridge v (br_ports b) (br_flow_tables b) (br_controller b) (br_other_config b) (br_fail_mode b)
    (br_datapath_id b).
Definition with_br_ports (l : list uuid) (b : bridge) : bridge :=
  Bridge (br_name b) l (br_flow_tables b) (br_controller b) (br_other_config b) (br_fail_mode b)
    (br_datapath_id b).
Definition with_br_flow_tables (l : list (Z * uuid)) (b : bridge) : bridge :=
  Bridge (br_name b) (br_ports b) l (br_controller b) (br_other_config b) (br_fail_mode b)
    (br_datapath_id b).
Definition with_br_other (f : smap → smap) (b : bridge) : bridge :=
  Bridge (br_name b) (br_ports b) (br_flow_tables b) (br_controller b)
    (f (br_other_config b)) (br_fail_mode b)
    (br_datapath_id b).
Definition with_br_fail_mode (v : option string) (b : bridge) : bridge :=
  Bridge (br_name b) (br_ports b) (br_flow_tables b) (br_controller b) (br_other_config b) v
    (br_datapath_id b).

(** ** Flow tables *)

Definition table_id_of (ft : flow_table) : option string := ft_external_ids ft !! "table_id".

(** tid_s && xmlStrEqual(table_id, tid_s) *)
Definition has_table_id (tid : string) (ft : flow_table) : bool :=
  bool_decide (table_id_of ft = Some tid).

Record ft_input := FtInput {
  fi_tid : option string; fi_rid : option string; fi_name : option string }.

(** The loop over the children of the flow-table element; None after an error. *)
Fixpoint flow_table_fields (i : ft_input) (l : list xmlNode) : M ovsdb (option ft_input) :=
  match l with
  | [] => mret (Some i)
  | aux :: l' =>
      if negb (bool_decide (ntype aux = XML_ELEMENT_NODE)) then flow_table_fields i l'
      else if name_is aux "table-id" then
        tid_s ← deref NullDeref (child_content aux);
        match scan_i64 tid_s with
        | None => _ ← reject (bad_elem "table_id" "Invalid value."); mret None
        | Some _ => flow_table_fields (FtInput (Some tid_s) (fi_rid i) (fi_name i)) l'
        end
      else if name_is aux "resource-id" then
        flow_table_fields (FtInput (fi_tid i) (child_content aux) (fi_name i)) l'
      else if name_is aux "name" then
        flow_table_fields (FtInput (fi_tid i) (fi_rid i) (child_content aux)) l'
      else flow_table_fields i l'
  end.

Definition txn_add_flow_table (node : option xmlNode) : M ovsdb exit :=
  match node with
  | None => invalid_input
  | Some node =>
      inp ← flow_table_fields (FtInput None None None) (children node);
      match inp with
      | None => mret EXIT_FAILURE
      | Some inp =>
          match fi_tid inp with
          | None => reject (bad_elem "flow-table" "The list element misses key.")
          | Some tid_s =>
              ft ← row_insert (FlowTable None ∅ None);
              _ ← row_write ft (with_ft_ext (λ m,
                    let m := <["table_id" := tid_s]> m in
                    match fi_rid inp with
                    | Some rid => <[OFC_RESOURCE_ID := rid]> m
                    | None => m
                    end));
              _ ← match fi_name inp with
                  | Some nm => row_write ft (with_ft_name (Some nm))
                  | None => mret tt
                  end;
              mret EXIT_SUCCESS
          end
      end
  end.

Definition find_flowtable (table_id : option string) : M ovsdb (option (uuid * flow_table)) :=
  match table_id with
  | None => mret None
  | Some tid => find_row (has_table_id tid)
  end.

Definition no_flow_table : nc_err := bad_elem "table-id" "Flow table does not exist in OVSDB".

Definition txn_mod_flowtable_name (table_id : option string) (node : option xmlNode)
  : M ovsdb exit :=
  match table_id with
  | None => invalid_input
  | Some tid =>
      ft ← find_flowtable (Some tid);
      match ft with
      | None => reject no_flow_table
      | Some (u, _) =>
          _ ← match node with
              | Some n => row_write u (with_ft_name (xmlNodeGetContent n))
              | None => row_write u (with_ft_name (Some EmptyString))
              end;
          mret EXIT_SUCCESS
      end
  end.

Definition txn_mod_flowtable_resid (table_id : option string) (node : option xmlNode)
  : M ovsdb exit :=
  match table_id with
  | None => invalid_input
  | Some tid =>
      ft ← find_flowtable (Some tid);
      match ft with
      | None => reject no_flow_table
      | Some (u, _) =>
          _ ← match node with
              | Some n =>
                  (* smap_replace() copies the value *)
                  value ← deref NullDeref (child_content n);
                  row_write u (with_ft_ext <[OFC_RESOURCE_ID := value]>)
              | None => row_write u (with_ft_ext (delete OFC_RESOURCE_ID))
              end;
          mret EXIT_SUCCESS
      end
  end.

Definition txn_del_flow_table (table_id : option string) : M ovsdb exit :=
  match table_id with
  | None => invalid_input
  | Some tid =>
      ft ← find_row (has_table_id tid);
      match ft with
      | Some (u, _) => _ ← row_delete (A := flow_table) u; mret EXIT_SUCCESS
      | None => reject (bad_elem "table_id" "Flow-table does not exist in OVSDB")
      end
  end.

(** ** Bridges *)

(** OVSREC_BRIDGE_FOR_EACH(bridge) if (xmlStrEqual(br_name, bridge->name)) break; *)
Definition find_bridge (nm : string) : M ovsdb (option (uuid * bridge)) :=
  find_row (λ b, xmlStrEqual (Some nm) (br_name b)).
Definition no_switch : nc_err := bad_elem "id" "Logical-switch does not exist in OVSDB".
Definition no_bridge : nc_err := bad_elem "id" "Bridge does not exist in OVSDB".
Definition no_logical_switch : nc_err := bad_elem "id" "Logical switch does not exist in OVSDB".

(** ovsrec_bridge_set_ports, ovsrec_bridge_set_flow_tables *)
Definition set_ports (b : uuid) (l : list uuid) : M ovsdb unit :=
  l' ← gets (set_column (A := port) l); row_write b (with_br_ports l').
Definition set_flow_tables (b : uuid) (l : list (Z * uuid)) : M ovsdb unit :=
  l' ← gets (map_column (A := flow_table) l); row_write b (with_br_flow_tables l').

(** The entries that are not the one to remove, copied into an array of n
    entries: None when they do not fit. *)
Fixpoint keep_others {B} (differs : B → M ovsdb bool) (n : nat) (acc l : list B)
  : M ovsdb (option (list B)) :=
  match l with
  | [] => mret (Some acc)
  | x :: l' =>
      d ← differs x;
      if (d : bool) then
        if bool_decide (length acc = n) then mret None
        else keep_others differs n (acc ++ [x]) l'
      else keep_others differs n acc l'
  end.

(** Passing an array of n entries of which only those in l were written. *)
Definition filled {B} (n : nat) (l : list B) : M ovsdb (list B) :=
  if bool_decide (length l = n) then mret l else crash Uninitialised.

Definition port_differs (nm : string) (u : uuid) : M ovsdb bool :=
  p ← row (A := port) u; mret (negb (xmlStrEqual (Some nm) (port_name p))).

Definition txn_del_bridge_port (br_nm port_nm : option string) : M ovsdb exit :=
  match port_nm, br_nm with
  | Some nm, Some br =>
      b ← find_bridge br;
      match b with
      | None => reject no_switch
      | Some (bu, b) =>
          match br_ports b with
          | [] => mret EXIT_SUCCESS
          | [p] =>
              d ← port_differs nm p;
              if (d : bool) then mret EXIT_SUCCESS else _ ← set_ports bu []; mret EXIT_SUCCESS
          | ps =>
              l ← keep_others (port_differs nm) (length ps - 1) [] ps;
              match l with
              | None => mret EXIT_SUCCESS
              | Some l =>
                  l ← filled (length ps - 1) l;
                  _ ← set_ports bu l;
                  mret EXIT_SUCCESS
              end
          end
      end
  | _, _ => invalid_input
  end.

Definition txn_add_bridge_port (br_nm port_nm : option string) : M ovsdb exit :=
  match port_nm, br_nm with
  | Some nm, Some br =>
      b ← find_bridge br;
      p ← find_row (λ p, xmlStrEqual (Some nm) (port_name p));
      match p, b with
      | None, _ => reject (bad_elem "port" "Invalid port leafref")
      | Some _, None => reject no_logical_switch
      | Some (pu, _), Some (bu, b) =>
          _ ← set_ports bu (br_ports b ++ [pu]);
          mret EXIT_SUCCESS
      end
  | _, _ => invalid_input
  end.

(** A flow table of the bridge: None when it has no table-id. *)
Fixpoint keep_other_tables (tid : string) (n : nat) (acc l : list (Z * uuid))
  : M ovsdb (option (option (list (Z * uuid)))) :=
  match l with
  | [] => mret (Some (Some acc))
  | (k, u) :: l' =>
      ft ← row (A := flow_table) u;
      match table_id_of ft with
      | None => mret None
      | Some tid_s =>
          if bool_decide (tid = tid_s) then keep_other_tables tid n acc l'
          else if bool_decide (length acc = n) then mret (Some None)
          else keep_other_tables tid n (acc ++ [(k, u)]) l'
      end
  end.

Definition unnamed_table : nc_err := op_failed "Flow-table with no table-id found in OVSDB".

Definition txn_del_bridge_flowtable (br_nm table_id : option string) : M ovsdb exit :=
  match table_id, br_nm with
  | Some tid, Some br =>
      b ← find_bridge br;
      match b with
      | None => reject no_switch
      | Some (bu, b) =>
          match br_flow_tables b with
          | [] => mret EXIT_SUCCESS
          | [(_, u)] =>
              ft ← row (A := flow_table) u;
              match table_id_of ft with
              | None => reject unnamed_table
              | Some tid_s =>
                  if bool_decide (tid = tid_s) then _ ← set_flow_tables bu []; mret EXIT_SUCCESS
                  else mret EXIT_SUCCESS
              end
          | fts =>
              l ← keep_other_tables tid (length fts - 1) [] fts;
              match l with
              | None => reject unnamed_table
              | Some None => mret EXIT_SUCCESS
              | Some (Some l) =>
                  l ← filled (length fts - 1) l;
                  _ ← set_flow_tables bu l;
                  mret EXIT_SUCCESS
              end
          end
      end
  | _, _ => invalid_input
  end.

(** tid keeps its initial 0 when sscanf() does not convert. *)
Definition table_key (tid_s : string) : Z := default 0%Z (scan_i64 tid_s).

Definition txn_bridge_insert_flowtable (bu : uuid) (ft : option uuid) : M ovsdb exit :=
  match ft with
  | None => invalid_input
  | Some fu =>
      f ← row (A := flow_table) fu;
      match table_id_of f with
      | None => reject (op_failed "Invalid flow table record, internal error")
      | Some tid_s =>
          b ← row (A := bridge) bu;
          _ ← set_flow_tables bu (br_flow_tables b ++ [(table_key tid_s, fu)]);
          mret EXIT_SUCCESS
      end
  end.

Definition txn_add_bridge_flowtable (br_nm table_id : option string) : M ovsdb exit :=
  match table_id, br_nm with
  | Some tid, Some br =>
      b ← find_bridge br;
      f ← find_row (has_table_id tid);
      match f, b with
      | None, _ => reject (bad_elem "flow-table" "Invalid flow-table leafref")
      | Some _, None => reject no_logical_switch
      | Some (fu, _), Some (bu, b) =>
          _ ← set_flow_tables bu (br_flow_tables b ++ [(table_key tid, fu)]);
          mret EXIT_SUCCESS
      end
  | _, _ => invalid_input
  end.

(** ** datapath-id *)

(** while (j < xmlStrlen(value) && value[j] == ':') j++; *)
Fixpoint skip_colons (l : list ascii) : list ascii :=
  match l with
  | ":"%char :: l' => skip_colons l'
  | _ => l
  end.

(** for (i = j = 0; i < 17; i++, j++) { skip colons; dp[i] = value[j]; }
    The list is value + j with its terminating NUL. *)
Fixpoint copy_digits (n : nat) (l : list ascii) : option (list ascii) :=
  match n with
  | 0 => Some []
  | S n' =>
      match skip_colons l with
      | [] => None
      | c :: l' => (c ::.) <$> copy_digits n' l'
      end
  end.

(** The string dp holds; reading it must stop within its 17 bytes. *)
Definition read_dp (dp : list ascii) : option string :=
  if bool_decide (NUL ∈ dp) then Some (cstr dp) else None.

Definition datapath_of (value : string) : option string := copy_digits 17 (cbuf value) ≫= read_dp.

Definition txn_mod_bridge_datapath (br_nm value : option string) : M ovsdb exit :=
  match br_nm with
  | None => invalid_input
  | Some br =>
      b ← find_bridge br;
      match b with
      | None => reject no_bridge
      | Some (bu, _) =>
          match value with
          | Some v =>
              if negb (bool_decide (String.length v = 23)) then
                reject (bad_elem "datapath-id" "Invalid value to set")
              else
                dp ← deref OutOfBounds (datapath_of v);
                _ ← row_write bu (with_br_other <["datapath-id" := dp]>);
                mret EXIT_SUCCESS
          | None =>
              _ ← row_write bu (with_br_other (delete "datapath-id"));
              mret EXIT_SUCCESS
          end
      end
  end.

Definition txn_mod_bridge_failmode (br_nm value : option string) : M ovsdb exit :=
  match br_nm with
  | None => invalid_input
  | Some br =>
      b ← find_bridge br;
      match b with
      | None => reject no_bridge
      | Some (bu, _) =>
          _ ← row_write bu (with_br_fail_mode (Some
                (if xmlStrEqual value (Some "failStandaloneMode") then "standalone"
                 else "secure")));
          mret EXIT_SUCCESS
      end
  end.

(** ** Removing bridges and ports *)

(** ovsrec_open_vswitch_first, or a new row *)
Definition first_ovs : M ovsdb uuid :=
  o ← find_row (A := open_vswitch) (λ _, true);
  match o with
  | Some (u, _) => mret u
  | None => row_insert (OpenVswitch [] None)
  end.

Definition bridge_differs (nm : string) (u : uuid) : M ovsdb bool :=
  b ← row (A := bridge) u; mret (negb (xmlStrEqual (Some nm) (br_name b))).

(** The last bridge of the list with the name. *)
Fixpoint last_named (nm : string) (found : option uuid) (l : list uuid) : M ovsdb (option uuid) :=
  match l with
  | [] => mret found
  | u :: l' =>
      d ← bridge_differs nm u;
      last_named nm (if (d : bool) then found else Some u) l'
  end.

Definition set_bridges (o : uuid) (l : list uuid) : M ovsdb unit :=
  l' ← gets (set_column (A := bridge) l); row_write o (λ ov, OpenVswitch l' (ovs_ssl ov)).

Definition txn_del_bridge (br_nm : option string) : M ovsdb exit :=
  match br_nm with
  | None => invalid_input
  | Some nm =>
      ou ← first_ovs;
      o ← row (A := open_vswitch) ou;
      let bs := ovs_bridges o in
      l ← keep_others (bridge_differs nm) (length bs - 1) [] bs;
      match l with
      | None => reject (bad_elem "name" "switch to remove not found")
      | Some l =>
          b ← last_named nm None bs;
          match b with
          | None => mret EXIT_SUCCESS
          | Some bu =>
              l ← filled (length bs - 1) l;
              _ ← set_bridges ou l;
              _ ← row_delete (A := bridge) bu;
              mret EXIT_SUCCESS
          end
      end
  end.

Definition txn_del_port (port_nm : option string) : M ovsdb exit :=
  match port_nm with
  | None => invalid_input
  | Some nm =>
      p ← find_row (λ p, xmlStrEqual (Some nm) (port_name p));
      i ← find_row (λ i, xmlStrEqual (Some nm) (if_name i));
      match i, p with
      | Some (iu, _), Some (pu, _) =>
          _ ← row_delete (A := port) pu;
          _ ← row_delete (A := interface) iu;
          mret EXIT_SUCCESS
      | _, _ => reject (bad_elem "name" "Port does not exist in OVSDB")
      end
  end.

End bridges.
