(* ===== verification/OvsControllers.v ===== *)
(** * Controllers (ovs-data.c)

    A controller of the configuration is a Controller row whose target column
    reads protocol:address[:port]; txn_add_contr and txn_mod_contr_target
    write it, parse_target_to_addr takes it apart again for get-config.  Also
    the creation of a bridge, which creates its controllers. *)

From S2P Require Import Prelude.
From S2P Require Import Xml.
From S2P Require Import EditTree.
From S2P Require Import Ovsdb.
From S2P Require Import OvsBridges.

Section controllers.
Context {LX : LibXml} {OI : OvsIdl}.

Definition with_c_ext (f : smap → smap) (c : controller) : controller :=
  Controller (c_target c) (c_target_set c) (c_local_ip c) (c_connection_mode c)
    (f (c_external_ids c)) (c_is_connected c).
Definition with_c_lip (v : option string) (c : controller) : controller :=
  Controller (c_target c) (c_target_set c) v (c_connection_mode c) (c_external_ids c)
    (c_is_connected c).
(** A change of the string contr->target points at. *)
Definition poke_target (v : string) (c : controller) : controller :=
  Controller (Some v) (c_target_set c) (c_local_ip c) (c_connection_mode c) (c_external_ids c)
    (c_is_connected c).
(** ovsrec_controller_set_target *)
Definition set_target (v : string) (c : controller) : controller :=
  Controller (Some v) (Some v) (c_local_ip c) (c_connection_mode c) (c_external_ids c)
    (c_is_connected c).
Definition with_br_controller (l : list uuid) (b : bridge) : bridge :=
  Bridge (br_name b) (br_ports b) (br_flow_tables b) l (br_other_config b) (br_fail_mode b)
    (br_datapath_id b).

(** OVSREC_CONTROLLER_FOR_EACH(contr) if (its ofconfig-id is contr_id) break; *)
Definition has_contr_id (id : string) (c : controller) : bool :=
  bool_decide (c_external_ids c !! "ofconfig-id" = Some id).
Definition find_contr (id : string) : M ovsdb (option (uuid * controller)) :=
  find_row (has_contr_id id).
Definition no_contr : nc_err := bad_elem "id" "Controller does not exist in OVSDB".

(** ovsrec_bridge_set_controller *)
Definition set_controller (b : uuid) (l : list uuid) : M ovsdb unit :=
  l' ← gets (set_column (A := controller) l); row_write b (with_br_controller l').

Definition txn_mod_contr_lip (contr_id value : option string) : M ovsdb exit :=
  match contr_id with
  | None => invalid_input
  | Some id =>
      c ← find_contr id;
      match c with
      | None => reject no_contr
      | Some (u, _) => _ ← row_write u (with_c_lip value); mret EXIT_SUCCESS
      end
  end.

Record contr_input := ContrInput {
  ci_proto : string; ci_ip : option string; ci_port : option string }.

(** aux->children->content *)
Definition must_content (aux : xmlNode) : M ovsdb (option string) :=
  c ← deref NullDeref (first_child aux); mret (content c).

(** The loop over the children of the controller element. *)
Fixpoint contr_fields (u : uuid) (i : contr_input) (l : list xmlNode) : M ovsdb contr_input :=
  match l with
  | [] => mret i
  | aux :: l' =>
      if negb (bool_decide (ntype aux = XML_ELEMENT_NODE)) then contr_fields u i l'
      else if name_is aux "id" then
        v ← must_content aux;
        v ← deref NullDeref v;
        _ ← row_write u (with_c_ext <["ofconfig-id" := v]>);
        contr_fields u i l'
      else if name_is aux "ip-address" then
        v ← must_content aux; contr_fields u (ContrInput (ci_proto i) v (ci_port i)) l'
      else if name_is aux "port" then
        v ← must_content aux; contr_fields u (ContrInput (ci_proto i) (ci_ip i) v) l'
      else if name_is aux "protocol" then
        v ← must_content aux;
        contr_fields u (if xmlStrEqual v (Some "tcp")
                        then ContrInput "tcp" (ci_ip i) (ci_port i) else i) l'
      else if name_is aux "local-ip-address" then
        v ← must_content aux;
        _ ← row_write u (with_c_lip v);
        contr_fields u i l'
      else contr_fields u i l'
  end.

(** asprintf(&target, "%s:%s%s%s", proto, ip, port ? ":" : "", port ? port : "") *)
Definition make_target (proto ip : string) (port : option string) : string :=
  proto +:+ ":" +:+ ip +:+ match port with Some p => ":" +:+ p | None => EmptyString end.

Definition txn_add_contr (node : option xmlNode) (br_nm : option string) : M ovsdb exit :=
  match br_nm, node with
  | Some br, Some node =>
      u ← row_insert (Controller None None None None ∅ false);
      _ ← row_write u (λ c, Controller (c_target c) (c_target_set c) (c_local_ip c)
                              (Some "in-band") (c_external_ids c) (c_is_connected c));
      i ← contr_fields u (ContrInput "ssl" None None) (children node);
      match ci_ip i with
      | None => reject (set_badelem (Some "ip-address") (nc_err_new NC_ERR_MISSING_ELEM))
      | Some ip =>
          _ ← row_write u (set_target (make_target (ci_proto i) ip (ci_port i)));
          b ← find_bridge br;
          match b with
          | None => reject no_bridge
          | Some (bu, b) =>
              _ ← set_controller bu (br_controller b ++ [u]);
              mret EXIT_SUCCESS
          end
      end
  | _, _ => invalid_input
  end.

Definition unconnected : nc_err :=
  op_failed "Controller to delete is not connected with the specified bridge".

Definition txn_del_contr (contr_id br_nm : option string) : M ovsdb exit :=
  match contr_id, br_nm with
  | Some id, Some br =>
      c ← find_contr id;
      match c with
      | None => reject no_contr
      | Some (cu, _) =>
          b ← find_bridge br;
          match b with
          | None => reject no_bridge
          | Some (bu, b) =>
              let cs := br_controller b in
              match cs with
              | [] => reject unconnected
              | _ =>
                  contrs ← match cs with
                           | [_] => mret (Some [])
                           | _ => keep_others (λ u, mret (bool_decide (u ≠ cu)))
                                    (length cs - 1) [] cs
                           end;
                  match contrs with
                  | None => reject unconnected
                  | Some l =>
                      l ← filled (length cs - 1) l;
                      _ ← set_controller bu l;
                      _ ← row_delete (A := controller) cu;
                      mret EXIT_SUCCESS
                  end
              end
          end
      end
  | _, _ => invalid_input
  end.

(** index(s, ':'): the characters before the first colon and after it. *)
Fixpoint split_colon (l : list ascii) : option (list ascii * list ascii) :=
  match l with
  | [] => None
  | c :: l' => if bool_decide (c = ":"%char) then Some ([], l')
               else (λ r, (c :: r.1, r.2)) <$> split_colon l'
  end.

Notation chars := String.list_ascii_of_string.
Notation str := String.string_of_list_ascii.

(** memcpy(aux, target, 3) into the string aux of more than 3 characters;
    None when target occupies fewer than 3 bytes. *)
Definition copy_proto (target aux : string) : option string :=
  if bool_decide (2 ≤ String.length target) then
    Some (cstr (take 3 (cbuf target) ++ drop 3 (cbuf aux)))
  else None.

(** target[0..2] = proto; None when that leaves the string. *)
Definition poke_proto (proto target : string) : option string :=
  if bool_decide (3 ≤ String.length target) then Some (str (chars proto ++ drop 3 (chars target)))
  else None.

(** The "port" branch: contr->target afterwards, and the value set, if any. *)
Definition mod_port (target : string) (value : option string) : option (string * option string) :=
  '(proto, rest) ← split_colon (chars target);
  let hidden := match split_colon rest with
                | Some (ip, _) => str (proto ++ ":"%char :: ip)
                | None => target
                end in
  Some (hidden, (λ v, hidden +:+ ":" +:+ v) <$> value).

(** The "ip-address" branch: the value to set. *)
Definition mod_ip (target value : string) : outcome string :=
  match split_colon (chars target) with
  | None => Crash NullDeref
  | Some (_, rest) =>
      let aux := match split_colon rest with
                 | Some (_, port) => "xxx:" +:+ value +:+ ":" +:+ str port
                 | None => "xxx:" +:+ value
                 end in
      match copy_proto target aux with
      | Some t => Done t
      | None => Crash OutOfBounds
      end
  end.

Definition txn_mod_contr_target (contr_id nm value : option string) : M ovsdb exit :=
  match contr_id, nm with
  | Some id, Some nm =>
      c ← find_contr id;
      match c with
      | None => reject no_contr
      | Some (u, c) =>
          target ← match c_target c with
                   | Some t => mret t
                   | None => _ ← row_write u (set_target "ssl:"); mret "ssl:"
                   end;
          if bool_decide (nm = "port") then
            '(hidden, new) ← deref NullDeref (mod_port target value);
            _ ← row_write u (poke_target hidden);
            _ ← match new with
                | Some t => row_write u (set_target t)
                | None => mret tt
                end;
            mret EXIT_SUCCESS
          else if bool_decide (nm = "protocol") then
            t ← deref OutOfBounds
                  (poke_proto (if xmlStrEqual value (Some "tcp") then "tcp" else "ssl") target);
            _ ← row_write u (poke_target t);
            mret EXIT_SUCCESS
          else if bool_decide (nm = "ip-address") then
            match value with
            | Some v =>
                match mod_ip target v with
                | Done t => _ ← row_write u (set_target t); mret EXIT_SUCCESS
                | Crash f => crash f
                | NoFuel => nofuel
                end
            | None => mret EXIT_SUCCESS
            end
          else mret EXIT_SUCCESS
      end
  | _, _ => invalid_input
  end.

(** ** Reading a target back *)

(** The characters before the first c and after it. *)
Fixpoint split_at (c : ascii) (l : list ascii) : option (list ascii * list ascii) :=
  match l with
  | [] => None
  | x :: l' => if bool_decide (x = c) then Some ([], l')
               else (λ r, (x :: r.1, r.2)) <$> split_at c l'
  end.

(** protocol, address and port of a target; None when the code passes NULL to
    strchr(). *)
Definition parse_target_to_addr (t : option string)
  : option (option string * option string * option string) :=
  match t with
  | None => Some (None, None, None)
  | Some t =>
      '(proto, rest) ← split_at ":" (chars t);
      let '(address, port) :=
        if bool_decide (is_Some (split_at "[" rest)) then
          match split_at "]" (tail rest) with
          | Some (a, ":"%char :: p) => (a, Some p)
          | Some (a, _) => (a, None)
          | None => (tail rest, None)
          end
        else
          match split_at ":" rest with
          | Some (a, p) => (a, Some p)
          | None => (rest, None)
          end in
      let protocol := if bool_decide (str proto = "ssl") then "tls" else str proto in
      Some (Some protocol, Some (str address), str <$> port)
  end.

(** ** Creating a bridge *)

Definition txn_ovs_insert_bridge (ou bu : uuid) : M ovsdb exit :=
  o ← row (A := open_vswitch) ou;
  _ ← set_bridges ou (ovs_bridges o ++ [bu]);
  mret EXIT_SUCCESS.

Definition txn_bridge_insert_port (bu : uuid) (p : option uuid) : M ovsdb exit :=
  match p with
  | None => invalid_input
  | Some pu =>
      b ← row (A := bridge) bu;
      _ ← set_ports bu (br_ports b ++ [pu]);
      mret EXIT_SUCCESS
  end.

(** The leaves of the bridge's resources element. *)
Fixpoint add_bridge_resources (bu : uuid) (l : list xmlNode) : M ovsdb exit :=
  match l with
  | [] => mret EXIT_SUCCESS
  | leaf :: l' =>
      let xmlval := child_content leaf in
      if name_is leaf "port" then
        p ← match xmlval with
            | Some v => find_row (A := port) (λ p, xmlStrEqual (Some v) (port_name p))
            | None => mret None
            end;
        match p with
        | None => reject (bad_elem "port" "Invalid port leafref in switch.")
        | Some (pu, _) =>
            if_ok (txn_bridge_insert_port bu (Some pu)) (add_bridge_resources bu l')
        end
      else if name_is leaf "flow-table" then
        ft ← find_flowtable xmlval;
        match ft with
        | None => reject (bad_elem "flow-table" "Invalid flow-table leafref in switch.")
        | Some (fu, _) =>
            if_ok (txn_bridge_insert_flowtable bu (Some fu)) (add_bridge_resources bu l')
        end
      else add_bridge_resources bu l'
  end.

Fixpoint add_bridge_contrs (nm : string) (l : list xmlNode) : M ovsdb exit :=
  match l with
  | [] => mret EXIT_SUCCESS
  | leaf :: l' => if_ok (txn_add_contr (Some leaf) (Some nm)) (add_bridge_contrs nm l')
  end.

(** The loop over the children of the switch element; the flag tells whether
    lost-connection-behavior was met. *)
Fixpoint add_bridge_fields (bu : uuid) (nm : string) (failmode_flag : bool) (l : list xmlNode)
  : M ovsdb exit :=
  match l with
  | [] => if failmode_flag then mret EXIT_SUCCESS
          else txn_mod_bridge_failmode (Some nm) None
  | aux :: l' =>
      if negb (bool_decide (ntype aux = XML_ELEMENT_NODE)) then
        add_bridge_fields bu nm failmode_flag l'
      else if name_is aux "datapath-id" then
        if_ok (txn_mod_bridge_datapath (Some nm) (child_content aux))
          (add_bridge_fields bu nm failmode_flag l')
      else if name_is aux "resources" then
        if_ok (add_bridge_resources bu (children aux)) (add_bridge_fields bu nm failmode_flag l')
      else if name_is aux "controllers" then
        if_ok (add_bridge_contrs nm (children aux)) (add_bridge_fields bu nm failmode_flag l')
      else if name_is aux "lost-connection-behavior" then
        v ← must_content aux;
        if_ok (txn_mod_bridge_failmode (Some nm) v) (add_bridge_fields bu nm true l')
      else add_bridge_fields bu nm failmode_flag l'
  end.

Definition txn_add_bridge (node : option xmlNode) : M ovsdb exit :=
  match node with
  | None => invalid_input
  | Some node =>
      let bridge_id :=
        find_first (λ aux, bool_decide (ntype aux = XML_ELEMENT_NODE) && name_is aux "id")
          (children node) ≫= child_content in
      b ← find_row (λ b, xmlStrEqual bridge_id (br_name b));
      match b with
      | Some _ => reject (bad_elem "id" "Bridge already exists in OVSDB")
      | None =>
          ou ← first_ovs;
          bu ← row_insert (Bridge None [] [] [] ∅ None None);
          if_ok (txn_ovs_insert_bridge ou bu)
          ( (* a required string column *)
           nm ← deref NullDeref bridge_id;
           _ ← row_write bu (with_br_name (Some nm));
           add_bridge_fields bu nm false (children node))
      end
  end.

End controllers.
