(* ===== verification/OvsPorts.v ===== *)
(** * Ports, their features and tunnels (ovs-data.c)

    A port of the configuration is a Port row with one Interface row of the
    same name.  The requested number and the tunnel are columns of the
    interface; the administrative state and the advertised features belong to
    the network device and are read and written with ioctl(). *)

From S2P Require Import Prelude.
From S2P Require Import Xml.
From S2P Require Import EditTree.
From S2P Require Import OvsDevices.
From S2P Require Import Ovsdb.
From S2P Require Import OvsControllers.

(** ** Feature bits (linux/ethtool.h) and their names *)
Definition ADVERTISED_Autoneg : Z := 2 ^ 6.
Definition ADVERTISED_Pause : Z := 2 ^ 13.
Definition ADVERTISED_Asym_Pause : Z := 2 ^ 14.

Definition rates : list (Z * string) := [
  (2 ^ 0, "10Mb-HD"); (2 ^ 1, "10Mb-FD"); (2 ^ 2, "100Mb-HD"); (2 ^ 3, "100Mb-FD");
  (2 ^ 4, "1Gb-HD"); (2 ^ 5, "1Gb-FD"); (2 ^ 17, "1Gb-FD");
  (2 ^ 12, "10Gb"); (2 ^ 18, "10Gb"); (2 ^ 19, "10Gb");
  (2 ^ 23, "40Gb"); (2 ^ 24, "40Gb"); (2 ^ 25, "40Gb"); (2 ^ 26, "40Gb")]%Z.
Definition medium : list (Z * string) := [(2 ^ 7, "copper"); (2 ^ 10, "fiber")]%Z.

(** The value of the first entry with the name; 0 when there is none. *)
Definition bit_named (nm : option string) (l : list (Z * string)) : Z :=
  default 0%Z (fst <$> find_first (λ b, xmlStrEqual nm (Some b.2)) l).

(** The __u32 mask without some bits. *)
Definition clear_bits (m bits : Z) : Z := Z.land m (Z.lxor (2 ^ 32 - 1) bits).

Section ports.
Context {LX : LibXml} {OI : OvsIdl} {KE : Kernel}.

(** ** Devices *)
Definition IFF_UP : Z := 1.
Definition gets_out {A} (f : outside → A) : M ovsdb A := gets (λ s, f (o_out s)).

(** strncpy() into ifr_name: the kernel reads up to 15 characters. *)
Definition ifr_name (ifname : option string) : M ovsdb string :=
  nm ← deref NullDeref ifname; mret (String.substring 0 15 nm).

(** A short converted to unsigned int and back. *)
Definition short_to_uint (v : Z) : Z :=
  (if v mod 2 ^ 16 <? 2 ^ 15 then v mod 2 ^ 16 else v mod 2 ^ 16 + (2 ^ 32 - 2 ^ 16))%Z.

Definition dev_get_flags (ifname : option string) : M ovsdb Z :=
  nm ← ifr_name ifname;
  devs ← gets_out x_devices;
  mret (match devs !! nm with Some d => short_to_uint (dv_flags d) | None => 0%Z end).

Definition dev_set_flags (ifname : option string) (flags : Z) : M ovsdb exit :=
  nm ← ifr_name ifname;
  devs ← gets_out x_devices;
  match devs !! nm ≫= (λ d, kernel_flags nm d (flags mod 2 ^ 16)%Z) with
  | Some d => _ ← modify (with_out (with_devices <[nm := d]>)); mret EXIT_SUCCESS
  | None => mret EXIT_FAILURE
  end.

Definition dev_is_system (ifname : option string) : M ovsdb bool :=
  nm ← ifr_name ifname;
  devs ← gets_out x_devices;
  mret (match devs !! nm ≫= dv_driver with
        | Some driver => negb (bool_decide (driver = "openvswitch"))
        | None => false
        end).

(** The structure is zeroed first; the result of the ioctl() is not looked at. *)
Definition dev_get_ethtool (ifname : option string) : M ovsdb ethtool_cmd :=
  nm ← ifr_name ifname;
  devs ← gets_out x_devices;
  mret (default no_ethtool (devs !! nm ≫= dv_ethtool)).

Definition dev_set_ethtool (ifname : option string) (ecmd : ethtool_cmd) : M ovsdb Z :=
  nm ← ifr_name ifname;
  devs ← gets_out x_devices;
  match devs !! nm ≫= (λ d, kernel_ethtool nm d ecmd) with
  | Some d => _ ← modify (with_out (with_devices <[nm := d]>)); mret 0%Z
  | None => mret (-1)%Z
  end.

(** ** Columns of an interface *)
Definition with_if_name (v : option string) (i : interface) : interface :=
  Interface v (if_type i) (if_ofport_request i) (if_options i) (if_external_ids i)
    (if_ofport i) (if_admin_state i) (if_link_state i) (if_other_config i).
Definition with_if_type (v : option string) (i : interface) : interface :=
  Interface (if_name i) v (if_ofport_request i) (if_options i) (if_external_ids i)
    (if_ofport i) (if_admin_state i) (if_link_state i) (if_other_config i).
Definition with_if_request (v : option Z) (i : interface) : interface :=
  Interface (if_name i) (if_type i) v (if_options i) (if_external_ids i)
    (if_ofport i) (if_admin_state i) (if_link_state i) (if_other_config i).
Definition with_if_options (f : smap → smap) (i : interface) : interface :=
  Interface (if_name i) (if_type i) (if_ofport_request i) (f (if_options i)) (if_external_ids i)
    (if_ofport i) (if_admin_state i) (if_link_state i) (if_other_config i).
Definition with_if_ext (f : smap → smap) (i : interface) : interface :=
  Interface (if_name i) (if_type i) (if_ofport_request i) (if_options i) (f (if_external_ids i))
    (if_ofport i) (if_admin_state i) (if_link_state i) (if_other_config i).
Definition with_port_name (v : option string) (p : port) : port :=
  Port v (port_qos p) (port_interfaces p).
Definition with_port_interfaces (l : list uuid) (p : port) : port :=
  Port (port_name p) (port_qos p) l.

Definition no_port : nc_err := bad_elem "name" "Port does not exist in OVSDB".

(** OVSREC_INTERFACE_FOR_EACH(iface) if (xmlStrEqual(port_name, iface->name)) break; *)
Definition find_interface (nm : option string) : M ovsdb (option (uuid * interface)) :=
  find_row (λ i, xmlStrEqual nm (if_name i)).

(** strtol(value, NULL, 10): no digits give 0. *)
Definition strtol10 (value : string) : Z :=
  match skip_spaces (String.list_ascii_of_string value) with
  | "-"%char :: l => clamp64 (- default 0 (read_digits 10 None l))%Z
  | "+"%char :: l => clamp64 (default 0%Z (read_digits 10 None l))
  | l => clamp64 (default 0%Z (read_digits 10 None l))
  end.

Definition txn_mod_port_reqnumber (port_nm value : option string) : M ovsdb exit :=
  match port_nm with
  | None => invalid_input
  | Some _ =>
      i ← find_interface port_nm;
      match i with
      | Some (iu, _) => _ ← row_write iu (with_if_request (strtol10 <$> value)); mret EXIT_SUCCESS
      | None => reject no_port
      end
  end.

(** ** Administrative state *)
Definition not_affected : nc_err :=
  op_failed "Interface admin state not set to the requested value.".

(** The test at the end. *)
Definition check_flags (port_nm : option string) (req : bool) : M ovsdb exit :=
  flags ← dev_get_flags port_nm;
  let up := negb (Z.land flags IFF_UP =? 0)%Z in
  if (req && negb up) || (negb req && up) then reject not_affected else mret EXIT_SUCCESS.

Definition txn_mod_port_admin_state (port_nm value : option string) : M ovsdb exit :=
  match port_nm with
  | None => invalid_input
  | Some _ =>
      match value with
      | None =>
          flags ← dev_get_flags port_nm;
          (* flags && IFF_UP *)
          if negb (flags =? 0)%Z && negb (IFF_UP =? 0)%Z then mret EXIT_SUCCESS
          else _ ← dev_set_flags port_nm (Z.lor flags IFF_UP); check_flags port_nm true
      | Some v =>
          if bool_decide (v = "up") then
            flags ← dev_get_flags port_nm;
            _ ← dev_set_flags port_nm (Z.lor flags IFF_UP);
            check_flags port_nm true
          else if bool_decide (v = "down") then
            flags ← dev_get_flags port_nm;
            _ ← dev_set_flags port_nm (clear_bits flags IFF_UP);
            check_flags port_nm false
          else reject (bad_elem "admin-state" "Invalid value to set.")
      end
  end.

(** ** Tunnels *)

(** if (!strcmp(ifc->name, port_name)) break; *)
Fixpoint find_named (nm : string) (l : list (uuid * interface)) : M ovsdb (option (uuid * interface)) :=
  match l with
  | [] => mret None
  | (u, i) :: l' =>
      n ← deref NullDeref (if_name i);
      if bool_decide (n = nm) then mret (Some (u, i)) else find_named nm l'
  end.

(** The option an element of the tunnel sets when the tunnel is added. *)
Definition tunnel_option (nm : option string) : option string :=
  if xmlStrEqual nm (Some "local-endpoint-ipv4-adress") then Some "local_ip"
  else if xmlStrEqual nm (Some "remote-endpoint-ipv4-adress") then Some "remote_ip"
  else if xmlStrEqual nm (Some "key") || xmlStrEqual nm (Some "vni") then Some "key"
  else None.

(** smap_add_once(&ifc->options, option, value): a new key is copied with its value. *)
Fixpoint add_tunnel_options (u : uuid) (l : list xmlNode) : M ovsdb unit :=
  match l with
  | [] => mret tt
  | iter :: l' =>
      if negb (bool_decide (ntype iter = XML_ELEMENT_NODE)) then add_tunnel_options u l'
      else match tunnel_option (name iter) with
           | None => add_tunnel_options u l'
           | Some opt =>
               i ← row (A := interface) u;
               _ ← match if_options i !! opt with
                   | Some _ => mret tt
                   | None => v ← deref NullDeref (child_content iter);
                             row_write u (with_if_options <[opt := v]>)
                   end;
               add_tunnel_options u l'
           end
  end.

Definition txn_add_port_tunnel (port_nm : option string) (tunnel_node : option xmlNode) : M ovsdb exit :=
  match port_nm, tunnel_node with
  | Some nm, Some node =>
      ifs ← gets rows;
      i ← find_named nm ifs;
      match i with
      | None => reject no_port
      | Some (u, _) =>
          _ ← add_tunnel_options u (children node);
          _ ← row_write u (with_if_type (Some (if name_is node "vxlan-tunnel" then "vxlan" else "gre")));
          t ← deref NullDeref (name node);
          _ ← row_write u (with_if_ext <["tunnel_type" := t]>);
          mret EXIT_SUCCESS
      end
  | _, _ => invalid_input
  end.

(** The option an element of the tunnel stands for when it is edited. *)
Definition tunnel_mod_option (nm : option string) : option string :=
  match tunnel_option nm with
  | Some o => Some o
  | None => if xmlStrEqual nm (Some "checksum-present") then Some "csum" else None
  end.

Definition txn_mod_port_tunnel_opt (port_nm node_nm value : option string) : M ovsdb exit :=
  match node_nm with
  | None => reject (nc_err_new NC_ERR_BAD_ELEM)
  | Some _ =>
      match tunnel_mod_option node_nm with
      | None => reject (set_badelem node_nm (nc_err_new NC_ERR_BAD_ELEM))
      | Some key =>
          i ← find_interface port_nm;
          match i with
          | None => reject (nc_err_new NC_ERR_DATA_MISSING)
          | Some (u, _) =>
              _ ← row_write u (with_if_options (match value with
                                                | Some v => <[key := v]>
                                                | None => delete key
                                                end));
              mret EXIT_SUCCESS
          end
      end
  end.

(** "system" for devices of the kernel, "internal" for those of Open vSwitch. *)
Definition detect_type (u : uuid) (port_nm : option string) : M ovsdb unit :=
  sys ← dev_is_system port_nm;
  row_write u (with_if_type (Some (if sys : bool then "system" else "internal"))).

Definition txn_del_port_tunnel (port_nm : option string) : M ovsdb exit :=
  i ← find_interface port_nm;
  match i with
  | None => reject (bad_elem "name" "Port not found in OVSDB.")
  | Some (u, _) =>
      _ ← row_write u (with_if_options (λ m, delete "key" (delete "remote_ip" (delete "local_ip" m))));
      _ ← row_write u (with_if_ext (delete "tunnel_type"));
      _ ← detect_type u port_nm;
      mret EXIT_SUCCESS
  end.

(** ** Advertised features *)

(** aux2->children->content of the elements looked at only. *)
Definition feature_value (n : xmlNode) : M ovsdb (option string) := must_content n.

(** One child of <advertised> of a new port. *)
Definition new_feature (adv : Z) (n : xmlNode) : M ovsdb Z :=
  if name_is n "rate" then v ← feature_value n; mret (Z.lor adv (bit_named v rates))
  else if name_is n "medium" then v ← feature_value n; mret (Z.lor adv (bit_named v medium))
  else if name_is n "auto-negotiate" then
    v ← feature_value n;
    mret (if xmlStrEqual v (Some "false") then clear_bits adv ADVERTISED_Autoneg else adv)
  else if name_is n "pause" then
    v ← feature_value n;
    mret (if xmlStrEqual v (Some "symetric") then Z.lor adv ADVERTISED_Pause
          else if xmlStrEqual v (Some "asymetric") then Z.lor adv ADVERTISED_Asym_Pause
          else adv)
  else mret adv.

Fixpoint new_features (adv : Z) (l : list xmlNode) : M ovsdb Z :=
  match l with
  | [] => mret adv
  | n :: l' =>
      if negb (bool_decide (ntype n = XML_ELEMENT_NODE)) then new_features adv l'
      else adv ← new_feature adv n; new_features adv l'
  end.

(** The branch for <features>: port_name is used although only the branch for
    tunnels sets it. *)
Definition add_port_features (pn : option (option string)) (iu : uuid) (aux : xmlNode) : M ovsdb unit :=
  match go2node aux "advertised" with
  | None => mret tt
  | Some advert =>
      port_nm ← deref Uninitialised pn;
      sys ← dev_is_system port_nm;
      if negb sys then mret tt
      else
        i ← row (A := interface) iu;
        ecmd ← dev_get_ethtool (if_name i);
        adv ← new_features ADVERTISED_Autoneg (children advert);
        _ ← dev_set_ethtool (if_name i) (set_advertising adv ecmd);
        mret tt
  end.

Definition quoted (s : string) : string :=
  String (Ascii.ascii_of_nat 34) (s +:+ String (Ascii.ascii_of_nat 34) "").
Definition multiple_tunnels (nm : option string) : nc_err :=
  set_msg ("Multiple branches of the " +:+ quoted "tunnel-type" +:+ " choice.")
    (set_badelem nm (nc_err_new NC_ERR_BAD_ELEM)).

Definition is_tunnel (n : xmlNode) : bool :=
  name_is n "ipgre-tunnel" || name_is n "vxlan-tunnel" || name_is n "tunnel".

(** The loop over the children; [pn] is the variable port_name, not written
    before the first tunnel.  None: return EXIT_FAILURE. *)
Fixpoint add_port_fields (node : xmlNode) (pu iu : uuid) (pn : option (option string)) (tunnel : bool)
    (l : list xmlNode) : M ovsdb (option bool) :=
  match l with
  | [] => mret (Some tunnel)
  | aux :: l' =>
      if negb (bool_decide (ntype aux = XML_ELEMENT_NODE)) then
        add_port_fields node pu iu pn tunnel l'
      else if name_is aux "name" then
        match child_content aux with
        | Some v =>
            _ ← row_write iu (with_if_name (Some v));
            _ ← row_write pu (with_port_name (Some v));
            add_port_fields node pu iu pn tunnel l'
        | None => _ ← reject (bad_elem "name" "Invalid name of the port."); mret None
        end
      else if name_is aux "requested-number" then
        i ← row (A := interface) iu;
        r ← txn_mod_port_reqnumber (if_name i) (child_content aux);
        match r with
        | EXIT_SUCCESS => add_port_fields node pu iu pn tunnel l'
        | EXIT_FAILURE => mret None
        end
      else if name_is aux "configuration" then
        _ ← modify (with_out (with_added true));
        add_port_fields node pu iu pn tunnel l'
      else if is_tunnel aux then
        if tunnel then _ ← reject (multiple_tunnels (name aux)); mret None
        else
          let port_nm := get_key node "name" in
          r ← txn_add_port_tunnel port_nm (Some aux);
          match r with
          | EXIT_SUCCESS => add_port_fields node pu iu (Some port_nm) true l'
          | EXIT_FAILURE => mret None
          end
      else if name_is aux "features" then
        _ ← add_port_features pn iu aux;
        add_port_fields node pu iu pn tunnel l'
      else add_port_fields node pu iu pn tunnel l'
  end.

Definition txn_add_port (node : option xmlNode) : M ovsdb exit :=
  match node with
  | None => invalid_input
  | Some node =>
      pu ← row_insert (Port None None []);
      iu ← row_insert (Interface None None None ∅ ∅ None None None ∅);
      _ ← row_write pu (with_port_interfaces [iu]);
      tunnel ← add_port_fields node pu iu None false (children node);
      match tunnel with
      | None => mret EXIT_FAILURE
      | Some tunnel =>
          _ ← (if tunnel : bool then mret tt
               else p ← row (A := port) pu; detect_type iu (port_name p));
          _ ← modify (with_out (with_added true));
          mret EXIT_SUCCESS
      end
  end.

Definition no_features : nc_err :=
  op_failed "Unable to set advertised values on this type of interface".

(** The element a client adds to <advertised> of a port. *)
Definition add_advert (adv : Z) (n : xmlNode) : M ovsdb Z :=
  if name_is n "rate" then v ← feature_value n; mret (Z.lor adv (bit_named v rates))
  else if name_is n "medium" then v ← feature_value n; mret (Z.lor adv (bit_named v medium))
  else if name_is n "auto-negotiate" then
    v ← feature_value n;
    mret (if xmlStrEqual v (Some "false") then clear_bits adv ADVERTISED_Autoneg
          else if xmlStrEqual v (Some "true") then Z.lor adv ADVERTISED_Autoneg
          else adv)
  else if name_is n "pause" then
    v ← feature_value n;
    mret (if xmlStrEqual v (Some "asymetric") then
            Z.lor (clear_bits adv ADVERTISED_Pause) ADVERTISED_Asym_Pause
          else if xmlStrEqual v (Some "symetric") then
            Z.lor (clear_bits adv ADVERTISED_Asym_Pause) ADVERTISED_Pause
          else adv)
  else mret adv.

(** The element a client removes. *)
Definition del_advert (adv : Z) (n : xmlNode) : M ovsdb Z :=
  if name_is n "rate" then v ← feature_value n; mret (clear_bits adv (bit_named v rates))
  else if name_is n "medium" then v ← feature_value n; mret (clear_bits adv (bit_named v medium))
  else if name_is n "auto-negotiate" then mret (Z.lor adv ADVERTISED_Autoneg)
  else if name_is n "pause" then
    mret (clear_bits (clear_bits adv ADVERTISED_Pause) ADVERTISED_Asym_Pause)
  else mret adv.

(** What txn_add_port_advert and txn_del_port_advert share. *)
Definition mod_advert (change : Z → xmlNode → M ovsdb Z) (port_nm : option string)
    (node : option xmlNode) : M ovsdb exit :=
  match port_nm, node with
  | Some _, Some n =>
      sys ← dev_is_system port_nm;
      if negb sys then reject no_features
      else
        ecmd ← dev_get_ethtool port_nm;
        adv ← change (ec_advertising ecmd) n;
        _ ← dev_set_ethtool port_nm (set_advertising adv ecmd);
        mret EXIT_SUCCESS
  | _, _ => invalid_input
  end.
Definition txn_add_port_advert := mod_advert add_advert.
Definition txn_del_port_advert := mod_advert del_advert.

End ports.
