(* ===== verification/OvsOpenFlow.v ===== *)
(** * Port configuration through OpenFlow (ovs-data.c)

    no-receive, no-forward, no-packet-in and the administrative state of
    internal ports are configuration bits of the switch, which the server reads
    and writes over the bridge's management socket.  Ports created by an edit
    are configured by of_post_ports() after the commit. *)

From S2P Require Import Prelude.
From S2P Require Import Xml.
From S2P Require Import EditTree.
From S2P Require Import OvsDevices.
From S2P Require Import Ovsdb.
From S2P Require Import OvsPorts.

(** enum ofputil_port_config, enum ofputil_port_state *)
Definition OFPUTIL_PC_PORT_DOWN : Z := 2 ^ 0.
Definition OFPUTIL_PC_NO_RECV : Z := 2 ^ 2.
Definition OFPUTIL_PC_NO_FWD : Z := 2 ^ 5.
Definition OFPUTIL_PC_NO_PACKET_IN : Z := 2 ^ 6.
Definition OFPUTIL_PS_LIVE : Z := 2 ^ 2.

(** XPath of of_post_ports(): "//ofc:port/ofc:configuration/..", the elements
    port of the of-config namespace with a child configuration of it. *)
Definition OFC_NS : string := "urn:onf:config:yang".
Definition in_ofc (nm : string) (n : xmlNode) : bool :=
  is_element n && name_is n nm && bool_decide ((ns n ≫= ns_href) = Some OFC_NS).
Definition configured_ports (cfg : xmlNode) : list xmlNode :=
  filter (λ n, in_ofc "port" n && existsb (in_ofc "configuration") (children n) = true) (subtree cfg).
Class PortXpath := {
  (* xmlXPathNewContext, xmlXPathRegisterNs and xmlXPathEvalExpression on the
     document of the node; None: one of them failed *)
  xpath_ports : xmlNode → option (list xmlNode);
  xpath_ports_spec cfg l : xpath_ports cfg = Some l → l = configured_ports cfg
}.

Section openflow.
Context {LX : LibXml} {OI : OvsIdl} {KE : Kernel} {VC : Vconn} {XP : PortXpath}.

(** The call number and the state of the switches. *)
Definition of_call {A} (f : nat → A) : M ovsdb A :=
  n ← gets_out x_calls; _ ← modify (with_out count_call); mret (f n).

(** vconn_open(): *vconnp is the connection or NULL. *)
Definition vconn_open (vconn_name : string) : M ovsdb (Z * option string) :=
  error ← of_call (λ n, vconn_opens n vconn_name);
  mret (error, if (error =? 0)%Z then Some vconn_name else None).

Definition of_open_vconn_socket (nm : string) : M ovsdb (Z * option string) :=
  vconn_open ("unix:" +:+ nm).

(** The sockets in the order they are tried; None: none could be opened. *)
Fixpoint open_first (l : list string) : M ovsdb (option string) :=
  match l with
  | [] => mret None
  | nm :: l' =>
      '(error, v) ← of_open_vconn_socket nm;
      if (error =? 0)%Z then mret v else open_first l'
  end.

(** One pass through the do-while loop up to vconn_connect_block(): the
    connection opened, and whether it is connected. *)
Definition open_once (nm bridge_path sock_name : string) : M ovsdb (option string * bool) :=
  let has_colon := bool_decide (":"%char ∈ String.list_ascii_of_string nm) in
  v ← (if has_colon then '(_, v) ← vconn_open nm;
         v ← deref NullDeref v;    (* vconn_get_name(NULL) *)
         mret (Some v)
       else open_first [nm; bridge_path; sock_name]);
  match v with
  | None => mret (None, false)
  | Some c => error ← of_call (λ n, vconn_connects n c); mret (Some c, (error =? 0)%Z)
  end.

(** The loop, with max_try tries left: a failed connection is closed before
    the next try, but not after the last one. *)
Fixpoint open_loop (max_try : nat) (nm bridge_path sock_name : string) : M ovsdb (option string * bool) :=
  match max_try with
  | O => mret (None, false)
  | S n =>
      '(v, connected) ← open_once nm bridge_path sock_name;
      if (connected : bool) then mret (v, true)
      else match n with
           | O => mret (v, false)
           | S _ => open_loop n nm bridge_path sock_name
           end
  end.

(** The result and *vconnp. *)
Definition of_open_vconn (nm : string) : M ovsdb (bool * option string) :=
  let bridge_path := ovs_rundir +:+ "/" +:+ nm +:+ ".mgmt" in
  let sock_name := ovs_rundir +:+ "/" +:+ dp_name_of nm +:+ ".mgmt" in
  '(v, connected) ← open_loop 30 nm bridge_path sock_name;
  match v with
  | Some c => mret ((connected : bool) && version_known c, Some c)
  | None => mret (false, None)
  end.

(** The reply to the request for port descriptions: its ports, if it is one. *)
Definition of_get_ports (vconnp : option string) : M ovsdb (option (option (list phy_port))) :=
  match vconnp with
  | None => mret None
  | Some c =>
      n ← of_call id;
      if (vconn_transacts n c =? 0)%Z then
        sw ← gets_out x_switches;
        mret (Some (if ports_described n c then Some (default [] (sw !! vconn_switch c)) else None))
      else crash NullDeref       (* ofputil_switch_features_has_ports(NULL) *)
  end.

(** while (!ofputil_pull_phy_port(...)) if (pp.name is name) break; *)
Definition pull_port (nm : string) (l : list phy_port) : option phy_port :=
  find_first (λ pp, bool_decide (pp_name pp = nm)) l.

Definition of_get_port_byname (reply : option (option (list phy_port))) (nm : option string)
  : M ovsdb (option phy_port) :=
  match reply with
  | Some (Some ((_ :: _) as l)) => nm ← deref NullDeref nm; mret (pull_port nm l)
  | _ => mret None
  end.

Definition of_mod_port_cfg_internal (c : string) (port_nm : string) (bit : Z) (value : bool)
  : M ovsdb exit :=
  reply ← of_get_ports (Some c);
  match reply with
  | None => reject (set_msg "No port found via OpenFlow." (nc_err_new NC_ERR_DATA_MISSING))
  | Some None => reject (op_failed "Unexpected response via OpenFlow.")
  | Some (Some l) =>
      match pull_port port_nm l with
      | None => reject (op_failed "Modification of unknown port.")
      | Some pp =>
          '(ret, mod_reply) ← of_call (λ n, port_mod_result n c);
          if negb (ret =? 0)%Z then reject (op_failed (ovs_strerror ret))
          else if (mod_reply : bool) then reject (op_failed (ofp_to_string l))
          else
            _ ← modify (with_out (with_switches
                  (alter (port_mod (pp_port_no pp) (if value then bit else 0%Z) bit) (vconn_switch c))));
            mret EXIT_SUCCESS
      end
  end.

(** The first bridge one of whose ports has an interface of the name. *)
Fixpoint has_interface (nm : option string) (l : list uuid) : M ovsdb bool :=
  match l with
  | [] => mret false
  | iu :: l' =>
      i ← row (A := interface) iu;
      n ← deref NullDeref (if_name i);
      p ← deref NullDeref nm;
      if bool_decide (n = p) then mret true else has_interface nm l'
  end.
Fixpoint has_port_interface (nm : option string) (l : list uuid) : M ovsdb bool :=
  match l with
  | [] => mret false
  | pu :: l' =>
      p ← row (A := port) pu;
      found ← has_interface nm (port_interfaces p);
      if (found : bool) then mret true else has_port_interface nm l'
  end.
Fixpoint bridge_with_port (nm : option string) (l : list (uuid * bridge)) : M ovsdb (option string) :=
  match l with
  | [] => mret None
  | (_, b) :: l' =>
      found ← has_port_interface nm (br_ports b);
      if (found : bool) then mret (br_name b) else bridge_with_port nm l'
  end.
Definition find_bridge_with_port (port_nm : option string) : M ovsdb (option string) :=
  bs ← gets rows; bridge_with_port port_nm bs.

(** The bit of an element; None: an unknown element. *)
Definition config_bit (node_nm : option string) : option Z :=
  if xmlStrEqual node_nm (Some "no-receive") then Some OFPUTIL_PC_NO_RECV
  else if xmlStrEqual node_nm (Some "no-forward") then Some OFPUTIL_PC_NO_FWD
  else if xmlStrEqual node_nm (Some "no-packet-in") then Some OFPUTIL_PC_NO_PACKET_IN
  else if xmlStrEqual node_nm (Some "admin-state") then Some OFPUTIL_PC_PORT_DOWN
  else None.

(** val: 0, 1 or -1. *)
Definition config_value (bit : Z) (value : option string) : option bool :=
  let '(off, on) := if (bit =? OFPUTIL_PC_PORT_DOWN)%Z then ("up", "down") else ("false", "true") in
  match value with
  | None => Some false
  | Some v => if bool_decide (v = off) then Some false
              else if bool_decide (v = on) then Some true else None
  end.

Definition of_mod_port_cfg (port_nm node_nm value : option string) : M ovsdb exit :=
  br ← find_bridge_with_port port_nm;
  match br with
  | None => reject (op_failed "The bridge with the port being modified not found.")
  | Some br =>
      match config_bit node_nm with
      | None => reject (set_msg "Invalid element name." (set_badelem node_nm (nc_err_new NC_ERR_BAD_ELEM)))
      | Some bit =>
          sys ← (if xmlStrEqual node_nm (Some "admin-state") then dev_is_system port_nm else mret false);
          if (sys : bool) then txn_mod_port_admin_state port_nm value
          else match config_value bit value with
               | None => reject (set_msg "Invalid element value."
                                   (set_badelem node_nm (nc_err_new NC_ERR_BAD_ELEM)))
               | Some val =>
                   '(ok, v) ← of_open_vconn br;
                   match v with
                   | Some c =>
                       if negb ok then reject (op_failed "Unable to connect to the bridge via openFlow.")
                       else p ← deref NullDeref port_nm; of_mod_port_cfg_internal c p bit val
                   | None => reject (op_failed "Unable to connect to the bridge via openFlow.")
                   end
               end
      end
  end.

(** The children of one <configuration>, whatever kind of node they are. *)
Fixpoint post_settings (port_nm : option string) (l : list xmlNode) : M ovsdb exit :=
  match l with
  | [] => mret EXIT_SUCCESS
  | aux :: l' =>
      r ← of_mod_port_cfg port_nm (name aux) (child_content aux);
      match r with
      | EXIT_SUCCESS => post_settings port_nm l'
      | EXIT_FAILURE => mret EXIT_FAILURE
      end
  end.
Fixpoint post_ports (l : list xmlNode) : M ovsdb exit :=
  match l with
  | [] => mret EXIT_SUCCESS
  | port :: l' =>
      match go2node port "configuration" with
      | None => post_ports l'
      | Some aux =>
          r ← post_settings (get_key port "name") (children aux);
          match r with
          | EXIT_SUCCESS => post_ports l'
          | EXIT_FAILURE => mret EXIT_FAILURE
          end
      end
  end.

Definition of_post_ports (cfg : option xmlNode) : M ovsdb exit :=
  added ← gets_out x_added_interface;
  match cfg with
  | None => mret EXIT_SUCCESS
  | Some root =>
      if negb added then mret EXIT_SUCCESS
      else match xpath_ports root with
           | None => mret EXIT_FAILURE
           | Some ports => post_ports ports
           end
  end.

End openflow.
