(* ===== verification/OvsCerts.v ===== *)
(** * Certificates (ovs-data.c)

    The owned certificate with its private key and the external certificate
    share the one row of the SSL table.  The row holds names of files; the
    certificates themselves are PEM files, which txn_add_*, txn_mod_* write and
    get_*_certificates_config read back between the PEM markers. *)

From S2P Require Import Prelude.
From S2P Require Import Xml.
From S2P Require Import EditTree.
From S2P Require Import OvsDevices.
From S2P Require Import Ovsdb.
From S2P Require Import OvsBridges.
From S2P Require Import OvsPorts.

Definition OFC_RESID_OWN : string := "ofc_resource_id_own".
Definition OFC_RESID_EXT : string := "ofc_resource_id_ext".

(** ** Text *)
Definition nl : string := String (Ascii.ascii_of_nat 10) "".
Definition cert_begin : string := "-----BEGIN CERTIFICATE-----" +:+ nl.
Definition cert_end : string := nl +:+ "-----END CERTIFICATE-----".
Definition key_begin (t : string) : string := "-----BEGIN " +:+ t +:+ " PRIVATE KEY-----" +:+ nl.
Definition key_end (t : string) : string := nl +:+ "-----END " +:+ t +:+ " PRIVATE KEY-----".

(** The file as it is read: a buffer with a terminating NUL. *)
Definition buffer := list ascii.
(** strstr(pem, needle) - pem *)
Definition strstr (pem : buffer) (needle : string) : option nat := String.index 0 needle (cstr pem).
(** pem[i] = NUL *)
Definition terminate (i : nat) (pem : buffer) : buffer := <[i := NUL]> pem.
(** The string at pem + i. *)
Definition str_at (i : nat) (pem : buffer) : string := cstr (drop i pem).

(** ds_put_format(..., "%s", s); glibc prints NULL as (null). *)
Definition fmt_s (s : option string) : string := default "(null)" s.
(** string.length ? ds_steal_cstr(&string) : NULL *)
Definition steal (s : string) : option string :=
  match s with EmptyString => None | _ => Some s end.

Section certs.
Context {LX : LibXml} {OI : OvsIdl} {FS : Files}.

(** ** Files *)
Definition write_file (file text : string) : M ovsdb nat :=
  files ← gets_out x_files;
  let old := default "" (files !! file) in
  let n := Nat.min (file_takes file old text) (String.length text) in
  _ ← modify (with_out (with_files <[file := old +:+ String.substring 0 n text]>));
  mret n.

(** write() at an offset of the file. *)
Definition write_at (file : string) (off : nat) (text : string) : M ovsdb nat :=
  files ← gets_out x_files;
  let old := default "" (files !! file) in
  let n := Nat.min (file_takes file old text) (String.length text) in
  _ ← modify (with_out (with_files <[file := String.substring 0 off old
        +:+ String.substring 0 n text
        +:+ String.substring (off + n) (String.length old - (off + n)) old]>));
  mret n.

(** creat() *)
Definition creat (file : string) : M ovsdb bool :=
  if file_creates file then _ ← modify (with_out (with_files <[file := ""]>)); mret true
  else mret false.

Definition unlink (file : string) : M ovsdb unit := modify (with_out (with_files (delete file))).

(** open(), lseek(), malloc(), read(): None when one of them failed. *)
Definition read_file (file : option string) : M ovsdb (option buffer) :=
  files ← gets_out x_files;
  mret (file ← file;
        text ← files !! file;
        if file_opens file && file_reads file then Some (cbuf text) else None).

(** ** Columns of the SSL row *)
Definition with_certificate (v : option string) (s : ssl) : ssl :=
  Ssl v (ssl_private_key s) (ssl_ca_cert s) (ssl_external_ids s).
Definition with_private_key (v : option string) (s : ssl) : ssl :=
  Ssl (ssl_certificate s) v (ssl_ca_cert s) (ssl_external_ids s).
Definition with_ca_cert (v : option string) (s : ssl) : ssl :=
  Ssl (ssl_certificate s) (ssl_private_key s) v (ssl_external_ids s).
Definition with_ssl_ext (f : smap → smap) (s : ssl) : ssl :=
  Ssl (ssl_certificate s) (ssl_private_key s) (ssl_ca_cert s) (f (ssl_external_ids s)).
(** ovsrec_open_vswitch_set_ssl *)
Definition set_ovs_ssl (v : option uuid) (o : open_vswitch) : open_vswitch :=
  OpenVswitch (ovs_bridges o) v.

Definition first_ssl : M ovsdb (option (uuid * ssl)) := gets (λ s, head (rows s)).

Definition no_ssl (type : string) : nc_err :=
  bad_elem "resource_id"
    (if negb (bool_decide (type = OFC_RESID_OWN))
     then "Could not find owned-certificate with the specified resource-id"
     else "Could not find external-certificate with the specified resource-id").

Definition find_ssl (type : string) (resource_id : option string) : M ovsdb (option (uuid * ssl)) :=
  match resource_id with
  | None => mret None
  | Some _ =>
      r ← find_row (λ s, xmlStrEqual resource_id (ssl_external_ids s !! type));
      match r with
      | Some _ => mret r
      | None => _ ← reject (no_ssl type); mret None
      end
  end.

Definition cert_file : string := ofc_datadir +:+ "/cert.pem".
Definition key_file : string := ofc_datadir +:+ "/key.pem".
Definition ca_file : string := ofc_datadir +:+ "/ca_cert.pem".

Definition write_cert (cert file : string) : M ovsdb exit :=
  ok ← creat file;
  if negb ok then invalid_input
  else
    _ ← write_file file cert_begin;
    _ ← write_file file cert;
    ret ← write_file file cert_end;
    if (ret <? 26)%nat then invalid_input else mret EXIT_SUCCESS.

(** The private key written by txn_add_owned_certificate. *)
Definition write_key (key_type key_data : string) : M ovsdb exit :=
  ok ← creat key_file;
  if negb ok then invalid_input
  else
    _ ← write_file key_file "-----BEGIN ";
    _ ← write_file key_file key_type;
    _ ← write_file key_file (" PRIVATE KEY-----" +:+ nl);
    _ ← write_file key_file key_data;
    _ ← write_file key_file (nl +:+ "-----END ");
    _ ← write_file key_file key_type;
    ret ← write_file key_file " PRIVATE KEY-----";
    if (ret <? 17)%nat then invalid_input else mret EXIT_SUCCESS.

(** ** Adding *)
Record cert_input := CertInput {
  in_resid : option string; in_cert : option string;
  in_key_type : option string; in_key_data : option string }.

(** The children of <private-key>. *)
Definition key_field (i : cert_input) (leaf : xmlNode) : cert_input :=
  if name_is leaf "key-type" then
    CertInput (in_resid i) (in_cert i) (child_content leaf) (in_key_data i)
  else if name_is leaf "key-data" then
    CertInput (in_resid i) (in_cert i) (in_key_type i) (child_content leaf)
  else i.

Definition owned_field (i : cert_input) (aux : xmlNode) : cert_input :=
  if negb (is_element aux) then i
  else if bool_decide (in_resid i = None) && name_is aux "resource-id" then
    CertInput (child_content aux) (in_cert i) (in_key_type i) (in_key_data i)
  else if name_is aux "certificate" then
    CertInput (in_resid i) (child_content aux) (in_key_type i) (in_key_data i)
  else if name_is aux "private-key" then fold_left key_field (children aux) i
  else i.

Definition external_field (i : cert_input) (aux : xmlNode) : cert_input :=
  if negb (is_element aux) then i
  else if bool_decide (in_resid i = None) && name_is aux "resource-id" then
    CertInput (child_content aux) (in_cert i) (in_key_type i) (in_key_data i)
  else if name_is aux "certificate" then
    CertInput (in_resid i) (child_content aux) (in_key_type i) (in_key_data i)
  else i.

Definition missing (elem : string) : nc_err :=
  set_badelem (Some elem) (nc_err_new NC_ERR_MISSING_ELEM).

(** The row to use and the key of the new certificate, when the code has read
    it: the existing row, unless it holds another certificate of this kind. *)
Definition cert_row (type msg : string) (node : xmlNode) : M ovsdb (option (uuid * option string)) :=
  r ← first_ssl;
  match r with
  | None => u ← row_insert (Ssl None None None ∅); mret (Some (u, None))
  | Some (u, s) =>
      match get_key node "resource-id" with
      | None => _ ← reject (missing "resource-id"); mret None
      | Some new_resid =>
          match ssl_external_ids s !! type with
          | Some resid =>
              if bool_decide (resid = new_resid) then mret (Some (u, Some new_resid))
              else _ ← reject (op_failed msg); mret None
          | None => mret (Some (u, Some new_resid))
          end
      end
  end.

(** The Open_vSwitch row refers to the SSL row. *)
Definition link_ssl (u : uuid) : M ovsdb unit :=
  ou ← first_ovs; row_write ou (set_ovs_ssl (Some u)).

Definition txn_add_owned_certificate (node : option xmlNode) : M ovsdb exit :=
  match node with
  | None => invalid_input
  | Some node =>
      r ← cert_row OFC_RESID_OWN "OVS allows to use only a single owned certificate" node;
      match r with
      | None => mret EXIT_FAILURE
      | Some (u, new_resid) =>
          let i := fold_left owned_field (children node) (CertInput new_resid None None None) in
          match in_resid i, in_cert i, in_key_type i, in_key_data i with
          | None, _, _, _ => reject (missing "resource-id")
          | _, None, _, _ => reject (missing "certificate")
          | _, _, None, _ => reject (missing "key-type")
          | _, _, _, None => reject (missing "key-data")
          | Some resid, Some cert, Some key_type, Some key_data =>
              if_ok (write_cert cert cert_file)
              (_ ← row_write u (with_certificate (Some cert_file));
               if_ok (write_key key_type key_data)
               (_ ← row_write u (with_private_key (Some key_file));
                _ ← row_write u (with_ssl_ext <[OFC_RESID_OWN := resid]>);
                _ ← link_ssl u;
                mret EXIT_SUCCESS))
          end
      end
  end.

Definition txn_add_external_certificate (node : option xmlNode) : M ovsdb exit :=
  match node with
  | None => invalid_input
  | Some node =>
      r ← cert_row OFC_RESID_EXT "OVS allows to use only a single external certificate" node;
      match r with
      | None => mret EXIT_FAILURE
      | Some (u, new_resid) =>
          let i := fold_left external_field (children node) (CertInput new_resid None None None) in
          match in_resid i, in_cert i with
          | None, _ => reject (missing "resource-id")
          | _, None => reject (missing "certificate")
          | Some resid, Some cert =>
              if_ok (write_cert cert ca_file)
              (_ ← row_write u (with_ca_cert (Some ca_file));
               _ ← row_write u (with_ssl_ext <[OFC_RESID_EXT := resid]>);
               _ ← link_ssl u;
               mret EXIT_SUCCESS)
          end
      end
  end.

(** ** Changing *)
(** Removing the owned certificate clears the column of the external one. *)
Definition txn_mod_own_cert_certificate (resid : option string) (node : option xmlNode) : M ovsdb exit :=
  match resid with
  | None => invalid_input
  | Some _ =>
      s ← find_ssl OFC_RESID_OWN resid;
      match s with
      | None => mret EXIT_FAILURE
      | Some (u, _) =>
          match node with
          | None =>
              _ ← unlink cert_file;
              _ ← row_write u (with_ca_cert (Some ""));
              mret EXIT_SUCCESS
          | Some node =>
              match child_content node with
              | None => reject (bad_elem "certificate" "No data in owned-certificate")
              | Some cert =>
                  if_ok (write_cert cert cert_file)
                  (_ ← row_write u (with_certificate (Some cert_file)); mret EXIT_SUCCESS)
              end
          end
      end
  end.

Definition txn_mod_ext_cert_certificate (resid : option string) (node : option xmlNode) : M ovsdb exit :=
  match resid with
  | None => invalid_input
  | Some _ =>
      s ← find_ssl OFC_RESID_EXT resid;
      match s with
      | None => mret EXIT_FAILURE
      | Some (u, _) =>
          match node with
          | None =>
              _ ← unlink ca_file;
              _ ← row_write u (with_ca_cert (Some ""));
              mret EXIT_SUCCESS
          | Some node =>
              match child_content node with
              | None => reject (bad_elem "certificate" "No data in external-certificate")
              | Some cert =>
                  if_ok (write_cert cert ca_file)
                  (_ ← row_write u (with_ca_cert (Some ca_file)); mret EXIT_SUCCESS)
              end
          end
      end
  end.

(** The positions of the key's markers: the end marker is the one of the type
    of the begin marker. *)
Definition key_markers (pem : buffer) : option (nat * nat) :=
  match strstr pem (key_begin "RSA") with
  | Some s => (λ e, (s, e)) <$> strstr pem (key_end "RSA")
  | None => s ← strstr pem (key_begin "DSA"); (λ e, (s, e)) <$> strstr pem (key_end "DSA")
  end.

(** The content of the file and the markers; None: return -1. *)
Definition parse_pem (file : option string) : M ovsdb (option (buffer * nat * nat)) :=
  pem ← read_file file;
  match pem with
  | None => _ ← invalid_input; mret None
  | Some pem =>
      match key_markers pem with
      | None => _ ← invalid_input; mret None
      | Some (s, e) => mret (Some (pem, s, e))
      end
  end.

(** The error for empty content is set, but the function goes on with NULL. *)
Definition note_empty (v : option string) (elem msg : string) : M ovsdb unit :=
  match v with
  | None => modify (set_oerr (Some (bad_elem elem msg)))
  | Some _ => mret tt
  end.

Definition txn_mod_own_cert_key_type (res_id : option string) (node : option xmlNode) : M ovsdb exit :=
  match res_id, node with
  | None, _ => invalid_input
  | _, None => mret EXIT_SUCCESS
  | Some _, Some node =>
      let type := child_content node in
      _ ← note_empty type "key-type" "No data in owned-certificate's private-key type";
      s ← find_ssl OFC_RESID_OWN res_id;
      match s with
      | None => mret EXIT_FAILURE
      | Some (_, ssl) =>
          p ← parse_pem (ssl_private_key ssl);
          match p, ssl_private_key ssl with
          | Some (_, pem_start, pem_end), Some file =>
              let text := default "" type in
              n ← write_at file (pem_start + 11) text;
              if (n <? String.length text)%nat then invalid_input
              else
                n ← write_at file (pem_end + 10) text;
                if (n <? String.length text)%nat then invalid_input else mret EXIT_SUCCESS
          | _, _ => mret EXIT_FAILURE
          end
      end
  end.

Definition txn_mod_own_cert_key_data (res_id : option string) (node : option xmlNode) : M ovsdb exit :=
  match res_id, node with
  | None, _ => invalid_input
  | _, None => mret EXIT_SUCCESS
  | Some _, Some node =>
      let data := child_content node in
      _ ← note_empty data "key-data" "No data in owned-certificate's private-key data";
      s ← find_ssl OFC_RESID_OWN res_id;
      match s with
      | None => mret EXIT_FAILURE
      | Some (_, ssl) =>
          p ← parse_pem (ssl_private_key ssl);
          match p, ssl_private_key ssl with
          | Some (pem, pem_start, pem_end), Some file =>
              if negb (file_truncates file) then invalid_input
              else
                let text := cstr pem in
                _ ← modify (with_out (with_files <[file := ""]>));
                _ ← write_file file (String.substring pem_start 32 text);
                _ ← write_file file (default "" data);
                n ← write_file file (String.substring pem_end 30 text);
                if (n <? 30)%nat then invalid_input else mret EXIT_SUCCESS
          | _, _ => mret EXIT_FAILURE
          end
      end
  end.

(** ** Deleting *)
Definition corrupted : nc_err := op_failed "OVSDB content is corrupted".

(** When the row holds no certificate of the other kind, it is deleted. *)
Definition drop_ssl (u : uuid) : M ovsdb exit :=
  os ← gets (λ s, head (rows (A := open_vswitch) s));
  match os with
  | None => reject corrupted
  | Some (ou, _) =>
      _ ← row_write ou (set_ovs_ssl None);
      _ ← row_delete (A := ssl) u;
      mret EXIT_SUCCESS
  end.

Definition no_resid (msg : string) : nc_err := set_msg msg (missing "resource_id").

Definition txn_del_owned_certificate (node : option xmlNode) : M ovsdb exit :=
  match node with
  | None => invalid_input
  | Some node =>
      match get_key node "resource-id" with
      | None => reject (no_resid "owned-certificate has no resource-id specified")
      | Some resid =>
          s ← find_ssl OFC_RESID_OWN (Some resid);
          match s with
          | None => mret EXIT_FAILURE
          | Some (u, ssl) =>
              match ssl_external_ids ssl !! OFC_RESID_EXT with
              | None => drop_ssl u
              | Some _ =>
                  _ ← unlink cert_file;
                  _ ← row_write u (with_certificate (Some ""));
                  _ ← unlink key_file;
                  _ ← row_write u (with_private_key (Some ""));
                  _ ← row_write u (with_ssl_ext (delete OFC_RESID_OWN));
                  mret EXIT_SUCCESS
              end
          end
      end
  end.

Definition txn_del_external_certificate (node : option xmlNode) : M ovsdb exit :=
  match node with
  | None => invalid_input
  | Some node =>
      match get_key node "resource-id" with
      | None => reject (no_resid "external-certificate has no resource-id specified")
      | Some resid =>
          s ← find_ssl OFC_RESID_EXT (Some resid);
          match s with
          | None => mret EXIT_FAILURE
          | Some (u, ssl) =>
              match ssl_external_ids ssl !! OFC_RESID_OWN with
              | None => drop_ssl u
              | Some _ =>
                  _ ← unlink ca_file;
                  _ ← row_write u (with_ca_cert (Some ""));
                  _ ← row_write u (with_ssl_ext (delete OFC_RESID_EXT));
                  mret EXIT_SUCCESS
              end
          end
      end
  end.

(** ** As XML *)

(** The text between the markers of the certificate in a file. *)
Definition cert_text (pem : buffer) : option string :=
  s ← strstr pem cert_begin;
  e ← strstr pem cert_end;
  Some (str_at (s + 28) (terminate e pem)).

(** The type and the text of the key. *)
Definition key_text (pem : buffer) : option (string * string) :=
  '(s, e) ← key_markers pem;
  let pem := terminate (e + 13) (terminate e pem) in
  Some (str_at (e + 10) pem, str_at (s + 32) pem).

Definition get_owned_certificates_config : M ovsdb (option string) :=
  s ← first_ssl;
  match s with
  | Some (_, ssl) =>
      match ssl_certificate ssl, ssl_private_key ssl with
      | Some cfile, Some kfile =>
          match ssl_external_ids ssl !! OFC_RESID_OWN with
          | None => mret None
          | Some resid =>
              pem ← read_file (Some cfile);
              match pem ≫= cert_text with
              | None => mret None
              | Some cert =>
                  pem ← read_file (Some kfile);
                  match pem ≫= key_text with
                  | None => mret None
                  | Some (key_type, key_data) =>
                      mret (steal ("<owned-certificate><resource-id>" +:+ resid +:+ "</resource-id>"
                        +:+ "<certificate>" +:+ cert +:+ "</certificate>"
                        +:+ "<private-key>"
                        +:+ "<key-type>" +:+ key_type +:+ "</key-type>"
                        +:+ "<key-data>" +:+ key_data +:+ "</key-data>"
                        +:+ "</private-key>" +:+ "</owned-certificate>"))
                  end
              end
          end
      | _, _ => mret None
      end
  | None => mret None
  end.

Definition get_external_certificates_config : M ovsdb (option string) :=
  s ← first_ssl;
  match s with
  | Some (_, ssl) =>
      match ssl_ca_cert ssl with
      | Some file =>
          match ssl_external_ids ssl !! OFC_RESID_EXT with
          | None => mret None
          | Some resid =>
              pem ← read_file (Some file);
              match pem ≫= cert_text with
              | None => mret None
              | Some cert =>
                  mret (steal ("<external-certificate><resource-id>" +:+ resid +:+ "</resource-id>"
                    +:+ "<certificate>" +:+ cert +:+ "</certificate>" +:+ "</external-certificate>"))
              end
          end
      | None => mret None
      end
  | None => mret None
  end.

End certs.
