(* ===== verification/OvsConfig.v ===== *)
(** * Configuration and state as XML text (ovs-data.c)

    ofc_get_config_data() and ofc_get_state_data() print the rows of the
    database, the state of devices and switches and the certificates as XML.
    The text is put together with format strings; values are inserted as they
    are, without escaping. *)

From stdpp Require Import pretty.
From S2P Require Import Prelude.
From S2P Require Import Xml.
From S2P Require Import OvsDevices.
From S2P Require Import Ovsdb.
From S2P Require Import OvsQueues.
From S2P Require Import OvsControllers.
From S2P Require Import OvsPorts.
From S2P Require Import OvsOpenFlow.
From S2P Require Import OvsCerts.

Section config.
Context {LX : LibXml} {OI : OvsIdl} {KE : Kernel} {VC : Vconn} {FS : Files}.

(** for (...) ds_put_format(...); *)
Fixpoint put_all {A} (f : A → M ovsdb string) (l : list A) : M ovsdb string :=
  match l with
  | [] => mret ""
  | x :: l' => s ← f x; r ← put_all f l'; mret (s +:+ r)
  end.

(** %PRIi64 and %ld; %PRIu64 of an int64_t *)
Definition fmt_i (v : Z) : string := pretty v.
Definition fmt_u64 (v : Z) : string := pretty (v mod 2 ^ 64)%Z.
Definition fmt_u32 (v : Z) : string := pretty (v mod 2 ^ 32)%Z.

(** The text of an optional part. *)
Definition opt_text {A} (f : A → string) (o : option A) : string :=
  match o with Some a => f a | None => "" end.

Definition ofc_get_switchid : M ovsdb (option string) := gets_out x_cs_id.

Definition ofc_set_switchid (node : option xmlNode) : M ovsdb exit :=
  match node with
  | None => _ ← modify (with_out (with_cs_id None)); mret EXIT_SUCCESS
  | Some node =>
      match first_child node with
      | Some c =>
          if negb (bool_decide (ntype c = XML_TEXT_NODE)) then mret EXIT_FAILURE
          else match content c with
               | None => mret EXIT_FAILURE
               | Some id => _ ← modify (with_out (with_cs_id (Some id))); mret EXIT_SUCCESS
               end
      | None => mret EXIT_FAILURE
      end
  end.

Definition find_and_append_smap_val (s : smap) (key elem : string) : string :=
  opt_text (λ value, "<" +:+ elem +:+ ">" +:+ value +:+ "</" +:+ elem +:+ ">") (s !! key).

(** ** Flow tables *)

(** The key a bridge links the flow table with. *)
Fixpoint linked_key (ft : uuid) (l : list (Z * uuid)) : M ovsdb (option Z) :=
  match l with
  | [] => mret None
  | (k, u) :: l' =>
      _ ← row (A := flow_table) u;
      if bool_decide (u = ft) then mret (Some k) else linked_key ft l'
  end.
Fixpoint find_key (ft : uuid) (l : list (uuid * bridge)) : M ovsdb (option Z) :=
  match l with
  | [] => mret None
  | (_, b) :: l' =>
      k ← linked_key ft (br_flow_tables b);
      match k with Some k => mret (Some k) | None => find_key ft l' end
  end.
Definition find_flowtable_id (ft : uuid) : M ovsdb (option Z) :=
  bs ← gets rows; find_key ft bs.

Definition flow_table_config (r : uuid * flow_table) : M ovsdb string :=
  let resource_id := ft_external_ids r.2 !! OFC_RESOURCE_ID in
  table_id ← find_flowtable_id r.1;
  mret (match table_id with
        | None => ""
        | Some table_id =>
            "<flow-table><table-id>" +:+ fmt_i table_id +:+ "</table-id>"
            +:+ (match resource_id with
                 | Some rid => if bool_decide (rid = "") then ""
                               else "<resource-id>" +:+ rid +:+ "</resource-id>"
                 | None => ""
                 end)
            +:+ opt_text (λ nm, "<name>" +:+ nm +:+ "</name>") (ft_name r.2)
            +:+ "</flow-table>"
        end).

Definition get_flow_tables_config : M ovsdb (option string) :=
  l ← gets rows; s ← put_all flow_table_config l; mret (steal s).

(** ** Queues *)
Definition queue_properties (m : smap) : string :=
  find_and_append_smap_val m "min-rate" "min-rate"
  +:+ find_and_append_smap_val m "max-rate" "max-rate"
  +:+ find_and_append_smap_val m "experimenter-id" "experimenter-id"
  +:+ find_and_append_smap_val m "experimenter-data" "experimenter-data".

Definition queue_config (r : uuid * queue) : M ovsdb string :=
  match q_external_ids r.2 !! OFC_RESOURCE_ID with
  | None => mret ""
  | Some rid =>
      if bool_decide (rid = "") then mret ""
      else
        p ← find_queue_port rid;
        port ← match p with
               | Some pu => p ← row (A := port) pu; mret ("<port>" +:+ fmt_s (port_name p) +:+ "</port>")
               | None => mret ""
               end;
        let aux := queue_properties (q_other_config r.2) in
        mret ("<queue><resource-id>" +:+ rid +:+ "</resource-id>"
              +:+ opt_text (λ i, "<id>" +:+ i +:+ "</id>") (q_external_ids r.2 !! "ofc_id")
              +:+ port
              +:+ (if bool_decide (aux = "") then "</queue>"
                   else "<properties>" +:+ aux +:+ "</properties></queue>"))
  end.

Definition get_queues_config : M ovsdb (option string) :=
  l ← gets rows; s ← put_all queue_config l; mret (steal s).

(** ** Ports *)
Definition has_bit (mask bit : Z) : bool := negb (Z.land mask bit =? 0)%Z.

Definition dump_bits (tag : string) (mask : Z) (l : list (Z * string)) : string :=
  String.concat "" ((λ b, if has_bit mask b.1
    then "<" +:+ tag +:+ ">" +:+ b.2 +:+ "</" +:+ tag +:+ ">" else "") <$> l).

Definition pause_text (mask : Z) : string :=
  if has_bit mask ADVERTISED_Asym_Pause then "<pause>asymmetric</pause>"
  else if has_bit mask ADVERTISED_Pause then "<pause>symmetric</pause>"
  else "<pause>unsupported</pause>".

Definition dump_port_features (mask : Z) : string :=
  dump_bits "rate" mask rates
  +:+ "<auto-negotiate>" +:+ (if has_bit mask ADVERTISED_Autoneg then "true" else "false")
  +:+ "</auto-negotiate>"
  +:+ dump_bits "medium" mask medium
  +:+ pause_text mask.

(** OFC_PORT_CONF_BIT *)
Definition conf_bit (conf bit : Z) : string := if has_bit conf bit then "true" else "false".

Definition port_configuration (of_port : option phy_port) (admin_state : option string) : string :=
  match of_port with
  | Some pp =>
      let c := pp_config pp in
      "<configuration>"
      +:+ "<admin-state>" +:+ (if has_bit c OFPUTIL_PC_PORT_DOWN then "down" else "up") +:+ "</admin-state>"
      +:+ "<no-receive>" +:+ conf_bit c OFPUTIL_PC_NO_RECV +:+ "</no-receive>"
      +:+ "<no-forward>" +:+ conf_bit c OFPUTIL_PC_NO_FWD +:+ "</no-forward>"
      +:+ "<no-packet-in>" +:+ conf_bit c OFPUTIL_PC_NO_PACKET_IN +:+ "</no-packet-in>"
      +:+ "</configuration>"
  | None =>
      opt_text (λ st, "<configuration>" +:+ "<admin-state>" +:+ st +:+ "</admin-state>"
                      +:+ "</configuration>") admin_state
  end.

Definition tunnel_config (i : interface) : string :=
  opt_text (λ tunnel_type,
    "<" +:+ tunnel_type +:+ ">"
    +:+ find_and_append_smap_val (if_options i) "local_ip" "local-endpoint-ipv4-adress"
    +:+ find_and_append_smap_val (if_options i) "remote_ip" "remote-endpoint-ipv4-adress"
    +:+ (if bool_decide (tunnel_type = "ipgre-tunnel") then
           find_and_append_smap_val (if_options i) "csum" "checksum-present"
           +:+ find_and_append_smap_val (if_options i) "key" "key"
         else if bool_decide (tunnel_type = "vxlan-tunnel") then
           find_and_append_smap_val (if_options i) "key" "vni"
         else "")
    +:+ "</" +:+ tunnel_type +:+ ">") (if_external_ids i !! "tunnel_type").

(** One interface of one port. *)
Definition port_config (of_ports : option (option (list phy_port))) (iu : uuid) : M ovsdb string :=
  i ← row (A := interface) iu;
  of_port ← of_get_port_byname of_ports (if_name i);
  sys ← dev_is_system (if_name i);
  features ← (if sys : bool then
                ecmd ← dev_get_ethtool (if_name i);
                mret ("<features><advertised>" +:+ dump_port_features (ec_advertising ecmd)
                      +:+ "</advertised></features>")
              else mret "");
  mret ("<port>" +:+ "<name>" +:+ fmt_s (if_name i) +:+ "</name>"
        +:+ opt_text (λ n, "<requested-number>" +:+ fmt_u64 n +:+ "</requested-number>") (if_ofport_request i)
        +:+ port_configuration of_port (if_admin_state i)
        +:+ features
        +:+ tunnel_config i
        +:+ "</port>").

(** The interfaces of the bridge's ports, with what the switch says of them. *)
Definition each_interface (f : option (option (list phy_port)) → uuid → M ovsdb string) (b : bridge)
  : M ovsdb (option string) :=
  nm ← deref NullDeref (br_name b);
  '(ok, v) ← of_open_vconn nm;
  of_ports ← (if ok : bool then of_get_ports v else mret None);
  s ← put_all (λ pu, p ← row (A := port) pu; put_all (f of_ports) (port_interfaces p)) (br_ports b);
  mret (steal s).

Definition get_ports_config : bridge → M ovsdb (option string) := each_interface port_config.

(** ** Controllers and bridges *)
Definition controller_config (cu : uuid) : M ovsdb string :=
  c ← row (A := controller) cu;
  target ← deref NullDeref (c_target c);
  '(protocol, address, port) ← deref NullDeref (parse_target_to_addr (Some target));
  mret ("<controller><id>" +:+ fmt_s (c_external_ids c !! "ofconfig-id") +:+ "</id>"
        +:+ "<ip-address>" +:+ fmt_s address +:+ "</ip-address>"
        +:+ opt_text (λ p, "<port>" +:+ p +:+ "</port>") port
        +:+ opt_text (λ l, "<local-ip-address>" +:+ l +:+ "</local-ip-address>") (c_local_ip c)
        +:+ opt_text (λ p, "<protocol>" +:+ p +:+ "</protocol>") protocol
        +:+ "</controller>").

Definition controllers_text (f : uuid → M ovsdb string) (l : list uuid) : M ovsdb string :=
  match l with
  | [] => mret ""
  | _ => s ← put_all f l; mret ("<controllers>" +:+ s +:+ "</controllers>")
  end.

(** The loop that puts a colon after every second of 16 digits: j counts the
    characters written, i those read; a read behind the NUL is out of bounds. *)
Fixpoint dpid_chars (n j i : nat) (datapath_id : list ascii) : option (list ascii) :=
  match n with
  | O => Some []
  | S n' =>
      if (j mod 3 =? 0)%nat then (λ l, ":"%char :: l) <$> dpid_chars n' (S j) i datapath_id
      else c ← datapath_id !! i; (λ l, c :: l) <$> dpid_chars n' (S j) (S i) datapath_id
  end.
Definition dpid_text (datapath_id : string) : option string :=
  (λ l, cstr (l ++ [NUL])) <$> dpid_chars 23 1 0 (cbuf datapath_id).

Definition datapath_config (datapath_id : option string) : M ovsdb string :=
  match datapath_id with
  | None => mret ""
  | Some dp => dpid ← deref OutOfBounds (dpid_text dp);
               mret ("<datapath-id>" +:+ dpid +:+ "</datapath-id>")
  end.

Definition failmode_config (fail_mode : option string) : string :=
  opt_text (λ m, if bool_decide (m = "standalone")
    then "<lost-connection-behavior>failStandaloneMode</lost-connection-behavior>"
    else "<lost-connection-behavior>failSecureMode</lost-connection-behavior>") fail_mode.

(** The queues of a port's QoS record. *)
Definition port_queues (pu : uuid) : M ovsdb string :=
  p ← row (A := port) pu;
  match port_qos p with
  | None => mret ""
  | Some qs =>
      q ← row (A := qos) qs;
      put_all (λ kv, q ← row (A := queue) kv.2;
                     mret (opt_text (λ resid, "<queue>" +:+ resid +:+ "</queue>")
                             (q_external_ids q !! OFC_RESOURCE_ID))) (qos_queues q)
  end.

Definition bridge_resources (b : bridge) (cert_resid : option string) : M ovsdb string :=
  ports ← put_all (λ pu, p ← row (A := port) pu;
                         mret ("<port>" +:+ fmt_s (port_name p) +:+ "</port>")) (br_ports b);
  let tables := String.concat "" ((λ kv, "<flow-table>" +:+ fmt_i kv.1 +:+ "</flow-table>") <$>
                  br_flow_tables b) in
  queues ← put_all port_queues (br_ports b);
  mret (ports +:+ tables +:+ queues
        +:+ opt_text (λ r, "<certificate>" +:+ r +:+ "</certificate>") cert_resid).

Definition bridge_config (cert_resid : option string) (r : uuid * bridge) : M ovsdb string :=
  let b := r.2 in
  datapath ← datapath_config (br_datapath_id b);
  controllers ← controllers_text controller_config (br_controller b);
  aux ← bridge_resources b cert_resid;
  mret ("<switch>" +:+ "<id>" +:+ fmt_s (br_name b) +:+ "</id>"
        +:+ datapath +:+ failmode_config (br_fail_mode b) +:+ controllers
        +:+ (if bool_decide (aux = "") then "</switch>"
             else "<resources>" +:+ aux +:+ "</resources></switch>")).

(** The resource-id of the owned certificate. *)
Definition cert_info : M ovsdb (option string) :=
  os ← gets (λ s, head (rows (A := open_vswitch) s));
  match (os : option (uuid * open_vswitch)) with
  | Some (_, o) =>
      match ovs_ssl o with
      | Some su => s ← row (A := ssl) su; mret (ssl_external_ids s !! OFC_RESID_OWN)
      | None => mret None
      end
  | None => mret None
  end.

Definition get_bridges_config : M ovsdb (option string) :=
  cert_resid ← cert_info;
  l ← gets rows; s ← put_all (bridge_config cert_resid) l; mret (steal s).

(** ** State *)
Definition flow_table_state (ft : flow_table) : string :=
  match ft_flow_limit ft, ft_external_ids ft !! "table_id" with
  | Some limit, Some tid =>
      "<flow-table><table-id>" +:+ tid +:+ "</table-id>"
      +:+ "<max-entries>" +:+ fmt_i limit +:+ "</max-entries></flow-table>"
  | _, _ => ""
  end.
Definition get_flow_tables_state : M ovsdb (option string) :=
  l ← gets rows; mret (steal (String.concat "" ((λ r, flow_table_state r.2) <$> l))).

(** The rate, and the member duplex afterwards. *)
Definition rate_text (ecmd : ethtool_cmd) : string * Z :=
  let speed := Z.lor (Z.shiftl (ec_speed_hi ecmd) 16) (ec_speed ecmd) in
  let '(rate, duplex) :=
    (if speed =? 10 then ("<rate>10Mb", ec_duplex ecmd)
     else if speed =? 100 then ("<rate>100Mb", ec_duplex ecmd)
     else if speed =? 1000 then ("<rate>1Gb", ec_duplex ecmd)
     else if speed =? 10000 then ("<rate>10Gb", 2)
     else if speed =? 40000 then ("<rate>40Gb", 2)
     else ("<rate>other", 255))%Z in
  (rate +:+ (if duplex =? 0 then "-HD</rate>" else if duplex =? 1 then "-FD</rate>" else "</rate>")%Z,
   duplex).

Definition medium_text (port : Z) : string :=
  (if port =? 0 then "<medium>copper</medium>"
   else if port =? 3 then "<medium>fiber</medium>" else "")%Z.

Definition features_state (ecmd : ethtool_cmd) : string :=
  "<features><current>" +:+ (rate_text ecmd).1
  +:+ "<auto-negotiate>" +:+ (if (ec_autoneg ecmd =? 0)%Z then "false" else "true") +:+ "</auto-negotiate>"
  +:+ medium_text (ec_port ecmd)
  +:+ pause_text (ec_advertising ecmd)
  +:+ "</current><supported>" +:+ dump_port_features (ec_supported ecmd)
  +:+ "</supported><advertised-peer>" +:+ dump_port_features (ec_lp_advertising ecmd)
  +:+ "</advertised-peer></features>".

Definition port_status (i : interface) (of_port : option phy_port) : string :=
  let aux :=
    opt_text (λ l, "<oper-state>" +:+ l +:+ "</oper-state>") (if_link_state i)
    +:+ find_and_append_smap_val (if_other_config i) "stp_state" "blocked"
    +:+ opt_text (λ pp, "<live>" +:+ conf_bit (pp_state pp) OFPUTIL_PS_LIVE +:+ "</live>") of_port in
  if bool_decide (aux = "") then "" else "<state>" +:+ aux +:+ "</state>".

Definition port_state (of_ports : option (option (list phy_port))) (iu : uuid) : M ovsdb string :=
  i ← row (A := interface) iu;
  of_port ← of_get_port_byname of_ports (if_name i);
  sys ← dev_is_system (if_name i);
  ecmd ← (if sys : bool then dev_get_ethtool (if_name i) else mret no_ethtool);
  mret ("<port>" +:+ "<name>" +:+ fmt_s (if_name i) +:+ "</name>"
        +:+ opt_text (λ n, "<number>" +:+ fmt_u64 n +:+ "</number>") (if_ofport i)
        +:+ port_status i of_port
        +:+ features_state ecmd
        +:+ opt_text (λ pp, if ((rate_text ecmd).2 =? 255)%Z
              then "<current-rate>" +:+ fmt_u32 (pp_curr_speed pp) +:+ "</current-rate>"
                   +:+ "<max-rate>" +:+ fmt_u32 (pp_max_speed pp) +:+ "</max-rate>"
              else "") of_port
        +:+ "</port>").

Definition get_ports_state : bridge → M ovsdb (option string) := each_interface port_state.

Definition controller_state (cu : uuid) : M ovsdb string :=
  c ← row (A := controller) cu;
  mret (opt_text (λ val,
    "<controller><id>" +:+ val +:+ "</id><state>"
    +:+ (if c_is_connected c then "<connection-state>up</connection-state>"
         else "<connection-state>down</connection-state>")
    +:+ "</state></controller>") (c_external_ids c !! "ofconfig-id")).

Definition bridge_capabilities : string :=
  "<capabilities>"
  +:+ "<max-buffered-packets>256</max-buffered-packets>"
  +:+ "<max-tables>255</max-tables>"
  +:+ "<max-ports>255</max-ports>"
  +:+ "<flow-statistics>true</flow-statistics>"
  +:+ "<table-statistics>true</table-statistics>"
  +:+ "<port-statistics>true</port-statistics>"
  +:+ "<group-statistics>true</group-statistics>"
  +:+ "<queue-statistics>true</queue-statistics>"
  +:+ "<reassemble-ip-fragments>true</reassemble-ip-fragments>"
  +:+ "<block-looping-ports>true</block-looping-ports>"
  +:+ "<reserved-port-types><type>all</type>"
  +:+ "<type>controller</type><type>table</type>"
  +:+ "<type>inport</type><type>any</type><type>normal</type>"
  +:+ "<type>flood</type></reserved-port-types>"
  +:+ "<group-types><type>all</type>"
  +:+ "<type>select</type><type>indirect</type>"
  +:+ "<type>fast-failover</type></group-types>"
  +:+ "<group-capabilities>"
  +:+ "<capability>select-weight</capability>"
  +:+ "<capability>select-liveness</capability>"
  +:+ "<capability>chaining-check</capability>"
  +:+ "</group-capabilities>"
  +:+ "<action-types><type>set-mpls-ttl</type>"
  +:+ "<type>dec-mpls-ttl</type><type>push-vlan</type>"
  +:+ "<type>pop-vlan</type><type>push-mpls</type>"
  +:+ "<type>pop-mpls</type><type>set-queue</type>"
  +:+ "<type>group</type><type>set-nw-ttl</type>"
  +:+ "<type>dec-nw-ttl</type><type>set-field</type>"
  +:+ "</action-types>"
  +:+ "<instruction-types><type>apply-actions</type>"
  +:+ "<type>clear-actions</type><type>write-actions</type>"
  +:+ "<type>write-metadata</type><type>goto-table</type>"
  +:+ "</instruction-types></capabilities>".

Definition bridge_state (r : uuid * bridge) : M ovsdb string :=
  controllers ← controllers_text controller_state (br_controller r.2);
  mret ("<switch><id>" +:+ fmt_s (br_name r.2) +:+ "</id>" +:+ bridge_capabilities
        +:+ controllers +:+ "</switch>").

Definition get_bridges_state : M ovsdb (option string) :=
  l ← gets rows; s ← put_all bridge_state l; mret (steal s).

(** ** The documents *)
Definition quote : string := String (Ascii.ascii_of_nat 34) "".
Definition xml_decl : string := "<?xml version=" +:+ quote +:+ "1.0" +:+ quote +:+ "?>".
Definition envelope : string :=
  "<capable-switch xmlns=" +:+ quote +:+ "urn:onf:config:yang" +:+ quote +:+ ">".

(** The ports of all bridges. *)
Definition all_ports (f : bridge → M ovsdb (option string)) : M ovsdb string :=
  l ← gets rows;
  put_all (λ r, ports ← f r.2; mret (default "" ports)) l.

Definition config_data (id : string) : M ovsdb string :=
  ports_ds ← all_ports get_ports_config;
  let ports := steal ports_ds in
  queues ← get_queues_config;
  owned_cert ← get_owned_certificates_config;
  external_cert ← get_external_certificates_config;
  flow_tables ← get_flow_tables_config;
  bridges ← get_bridges_config;
  mret (xml_decl +:+ envelope +:+ "<id>" +:+ id +:+ "</id>"
        +:+ (match ports, queues, owned_cert, external_cert, flow_tables with
             | None, None, None, None, None => ""
             | _, _, _, _, _ =>
                 "<resources>" +:+ default "" ports +:+ default "" queues +:+ default "" owned_cert
                 +:+ default "" external_cert +:+ default "" flow_tables +:+ "</resources>"
             end)
        +:+ opt_text (λ b, "<logical-switches>" +:+ b +:+ "</logical-switches>") bridges
        +:+ "</capable-switch>").

Definition state_data : M ovsdb string :=
  ports_ds ← all_ports get_ports_state;
  let ports := steal ports_ds in
  flow_tables ← get_flow_tables_state;
  bridges ← get_bridges_state;
  mret (xml_decl +:+ envelope +:+ "<config-version>1.2</config-version>"
        +:+ (match ports, flow_tables with
             | None, None => ""
             | _, _ => "<resources>" +:+ default "" ports +:+ default "" flow_tables +:+ "</resources>"
             end)
        +:+ opt_text (λ b, "<logical-switches>" +:+ b +:+ "</logical-switches>") bridges
        +:+ "</capable-switch>").

(** After ofc_update(), with the database connected: without an id there are no data. *)
Definition ofc_get_config_data : M ovsdb string :=
  id ← ofc_get_switchid;
  match id with None => mret "" | Some id => config_data id end.
Definition ofc_get_state_data : M ovsdb string :=
  id ← ofc_get_switchid;
  match id with None => mret "" | Some _ => state_data end.

End config.
