(* ===== verification/OvsFacts.v ===== *)
(** * Facts on the OVSDB tables

    Association lists keyed by uuid, set and map columns, what the generic row
    operations do, and the Hoare-style rules the proofs about ovs-data.c use:
    [returns Q m s] says that the code returns from s and leaves a result that
    satisfies Q. *)

From S2P Require Import Prelude.
From S2P Require Import Xml.
From S2P Require Import EditTree.
From S2P Require Import Ovsdb.

(** ** Code that returns *)
Definition returns {S A} (Q : A → S → Prop) (m : M S A) (s : S) : Prop :=
  ∃ a s', m s = Done (a, s') ∧ Q a s'.

Section returns.
Context {S A B : Type}.
Implicit Types (Q : B → S → Prop).

Lemma returns_bind (P : A → S → Prop) Q (m : M S A) (k : A → M S B) s :
  returns P m s → (∀ a s', P a s' → returns Q (k a) s') → returns Q (m ≫= k) s.
Proof.
  intros (a & s1 & H1 & HP) Hk. destruct (Hk a s1 HP) as (b & s2 & H2 & HQ).
  exists b, s2. split; [|done]. by rewrite (bind_run _ _ _ _ _ H1).
Qed.
Lemma returns_ret Q b s : Q b s → returns Q (mret b) s.
Proof. intros H. by exists b, s. Qed.
Lemma returns_gets (f : S → A) Q (k : A → M S B) s :
  returns Q (k (f s)) s → returns Q (gets f ≫= k) s.
Proof. done. Qed.
Lemma returns_modify (f : S → S) Q (k : unit → M S B) s :
  returns Q (k tt) (f s) → returns Q (modify f ≫= k) s.
Proof. done. Qed.
Lemma returns_mono (P Q : B → S → Prop) m s :
  returns P m s → (∀ b s', P b s' → Q b s') → returns Q m s.
Proof. intros (b & s' & H & HP) HQ. exists b, s'. auto. Qed.
Lemma returns_run Q (m : M S B) s b s' : m s = Done (b, s') → returns Q m s → Q b s'.
Proof. intros H (b1 & s1 & H1 & HQ). congruence. Qed.
End returns.

(** ** Association lists *)
Lemma nodup_key_unique {K A} (l : list (K * A)) k a b :
  NoDup l.*1 → (k, a) ∈ l → (k, b) ∈ l → a = b.
Proof.
  induction l as [|[k' c] l IH]; [set_solver|].
  rewrite fmap_cons, NoDup_cons, list_elem_of_fmap, !elem_of_cons.
  intros [Hk Hn] [Ha|Ha] [Hb|Hb]; simplify_eq/=; [done| | |by apply IH];
    destruct Hk; [by exists (k', b)|by exists (k', a)].
Qed.

Section assoc.
Context {A : Type}.
Implicit Types (l : list (uuid * A)).

Lemma assoc_Some_elem u a l : assoc u l = Some a → (u, a) ∈ l.
Proof.
  unfold assoc. destruct (find_first _ _) as [[u' a']|] eqn:E; [|done].
  intros [= ->]. apply find_first_Some in E as [H E%bool_decide_eq_true]. simpl in E. by subst.
Qed.
Lemma assoc_None u l : assoc u l = None ↔ u ∉ l.*1.
Proof.
  unfold assoc. rewrite fmap_None, find_first_None, list_elem_of_fmap. split.
  - intros H ([u' a] & -> & Hx). specialize (H _ Hx). by rewrite bool_decide_eq_false in H.
  - intros H x Hx. rewrite bool_decide_eq_false. intros <-. eauto.
Qed.
Lemma elem_assoc u a l : NoDup l.*1 → (u, a) ∈ l → assoc u l = Some a.
Proof.
  intros Hn Hx. destruct (assoc u l) as [b|] eqn:E.
  - apply assoc_Some_elem in E. f_equal. by eapply nodup_key_unique.
  - apply assoc_None in E. destruct E. apply list_elem_of_fmap. by exists (u, a).
Qed.
Lemma assoc_is_Some u l : is_Some (assoc u l) ↔ u ∈ l.*1.
Proof.
  destruct (assoc u l) as [a|] eqn:E.
  - split; [|eauto]. intros _. apply assoc_Some_elem in E. apply list_elem_of_fmap. by exists (u, a).
  - apply assoc_None in E. split; [|done]. by intros [? ?].
Qed.

Lemma assoc_alter_keys u f l : (assoc_alter u f l).*1 = l.*1.
Proof.
  unfold assoc_alter. rewrite <-list_fmap_compose. apply list_fmap_ext.
  intros i [v a] _. simpl. by case_bool_decide.
Qed.
Lemma elem_alter u f l v b : (v, b) ∈ assoc_alter u f l ↔
  ∃ a, (v, a) ∈ l ∧ b = if bool_decide (v = u) then f a else a.
Proof.
  unfold assoc_alter. rewrite list_elem_of_fmap. split.
  - intros ([w a] & Hb & Hin). simpl in Hb. case_bool_decide; simplify_eq;
      exists a; (split; [done|]).
    + by rewrite bool_decide_eq_true_2.
    + by rewrite bool_decide_eq_false_2.
  - intros (a & Hin & ->). exists (v, a). simpl. by case_bool_decide.
Qed.
Lemma elem_remove u l r : r ∈ assoc_remove u l ↔ r ∈ l ∧ r.1 ≠ u.
Proof. unfold assoc_remove. rewrite list_elem_of_filter. tauto. Qed.
Lemma assoc_remove_nodup u l : NoDup l.*1 → NoDup (assoc_remove u l).*1.
Proof.
  unfold assoc_remove. induction l as [|[v a] l IH]; [done|].
  rewrite fmap_cons, NoDup_cons. intros [Hv Hn]. rewrite filter_cons.
  case_decide; [|by apply IH]. rewrite fmap_cons, NoDup_cons. split; [|by apply IH].
  contradict Hv. apply list_elem_of_fmap in Hv as ([w b] & -> & Hw).
  apply list_elem_of_filter in Hw as [_ Hw]. apply list_elem_of_fmap. by exists (w, b).
Qed.
Lemma find_first_elem (P : A → bool) l u a :
  find_first (λ r, P r.2) l = Some (u, a) → (u, a) ∈ l ∧ P a = true.
Proof. intros H. by apply find_first_Some in H. Qed.
Lemma find_first_missing (P : A → bool) l u a :
  find_first (λ r, P r.2) l = None → (u, a) ∈ l → P a = false.
Proof. rewrite find_first_None. intros H Hin. by apply (H (u, a)). Qed.
End assoc.

(** ** Finding a row after a write *)
Lemma find_first_alter {A} (P : A → bool) (f : A → A) u (l : list (uuid * A)) :
  (∀ a, P (f a) = P a) →
  find_first (λ r, P r.2) (assoc_alter u f l) =
  (λ r, if bool_decide (r.1 = u) then (r.1, f r.2) else r) <$> find_first (λ r, P r.2) l.
Proof.
  intros HP. induction l as [|[v a] l IH]; [done|].
  cbn -[bool_decide]. case_bool_decide as Hd; cbn -[bool_decide]; rewrite ?HP.
  - destruct (P a); [cbn -[bool_decide]; by rewrite bool_decide_eq_true_2|exact IH].
  - destruct (P a); [cbn -[bool_decide]; by rewrite bool_decide_eq_false_2|exact IH].
Qed.

(** ** Columns and row operations *)
Section idl.
Context {OI : OvsIdl}.

Lemma exists_row_spec {A} `{Row A} s u : exists_row s u = true ↔ u ∈ (rows s).*1.
Proof. unfold exists_row. by rewrite bool_decide_eq_true, assoc_is_Some. Qed.

Section columns.
Context {A : Type} `{Row A}.

Lemma set_column_elem l s u : u ∈ set_column l s ↔ u ∈ l ∧ u ∈ (rows s).*1.
Proof. unfold set_column. rewrite list_elem_of_filter, exists_row_spec, idl_set_elem. tauto. Qed.
Lemma set_column_nodup l s : NoDup (set_column l s).
Proof. apply NoDup_filter, idl_set_nodup. Qed.
Lemma set_column_all l s : NoDup l → (∀ u, u ∈ l → u ∈ (rows s).*1) → set_column l s ≡ₚ l.
Proof.
  intros Hn Hl. apply NoDup_Permutation; [apply set_column_nodup|done|].
  intros u. rewrite set_column_elem. naive_solver.
Qed.

Lemma map_column_elem l s kv : kv ∈ map_column l s → kv ∈ l ∧ kv.2 ∈ (rows s).*1.
Proof.
  unfold map_column. rewrite list_elem_of_filter, exists_row_spec. intros [? Hk].
  split; [|done]. by apply idl_map_sub.
Qed.
Lemma map_column_nodup l s : NoDup (map_column l s).*1.
Proof.
  unfold map_column. pose proof (idl_map_nodup l) as Hn. revert Hn.
  generalize (idl_map l). intros m. induction m as [|[k u] m IH]; [done|].
  rewrite fmap_cons, NoDup_cons. intros [Hk Hn]. rewrite filter_cons.
  case_decide; [|by apply IH]. rewrite fmap_cons, NoDup_cons. split; [|by apply IH].
  contradict Hk. apply list_elem_of_fmap in Hk as ([k' v] & -> & Hv).
  apply list_elem_of_filter in Hv as [_ Hv]. apply list_elem_of_fmap. by exists (k', v).
Qed.
Lemma idl_map_elem l kv : NoDup l.*1 → kv ∈ idl_map l ↔ kv ∈ l.
Proof.
  intros Hn. split; [apply idl_map_sub|]. destruct kv as [k u]. intros Hin.
  assert (k ∈ (idl_map l).*1) as Hk.
  { apply idl_map_keys, list_elem_of_fmap. by exists (k, u). }
  apply list_elem_of_fmap in Hk as ([k' v] & Ek & Hv). simpl in Ek. subst k'.
  apply (idl_map_sub l) in Hv as Hv'.
  by rewrite (nodup_key_unique l k u v Hn Hin Hv').
Qed.
Lemma map_column_all l s :
  NoDup l.*1 → (∀ kv, kv ∈ l → kv.2 ∈ (rows s).*1) → map_column l s ≡ₚ l.
Proof.
  intros Hn Hl. apply NoDup_Permutation.
  - eapply NoDup_fmap_1, map_column_nodup.
  - by eapply NoDup_fmap_1.
  - intros kv. split; [by intros [? _]%map_column_elem|].
    intros Hkv. unfold map_column. rewrite list_elem_of_filter, exists_row_spec, idl_map_elem; auto.
Qed.
End columns.

(** The state after each operation. *)
Definition written {A} `{Row A} (u : uuid) (f : A → A) (s : ovsdb) : ovsdb :=
  put_tab (Table (assoc_alter u f (rows s)) (dead (tab s))) s.
Definition inserted {A} `{Row A} (a : A) (s : ovsdb) : ovsdb :=
  let u := idl_uuid (o_used s) in
  use_uuid u (put_tab (Table (idl_place (u, a) (rows s)) (dead (tab s))) s).
Definition deleted {A} `{Row A} (u : uuid) (a : A) (s : ovsdb) : ovsdb :=
  put_tab (Table (assoc_remove u (rows s)) ((u, a) :: dead (tab s))) s.

Section run.
Context {A : Type} `{Row A}.

Lemma row_live u a s : assoc u (rows s) = Some a → row u s = Done (a, s).
Proof. unfold row, rows. intros E. rewrite bind_gets. by rewrite E. Qed.
Lemma row_write_live u f s : u ∈ (rows s).*1 → row_write u f s = Done (tt, written u f s).
Proof.
  intros [a E]%assoc_is_Some. unfold row_write. rewrite bind_gets. unfold rows in E. by rewrite E.
Qed.
Lemma row_delete_live u a s :
  assoc u (rows s) = Some a → row_delete (A := A) u s = Done (tt, deleted u a s).
Proof. intros E. unfold row_delete. rewrite bind_gets. unfold rows in E. by rewrite E. Qed.
Lemma row_insert_run a s : row_insert a s = Done (idl_uuid (o_used s), inserted a s).
Proof. done. Qed.

Lemma rows_written u f s : rows (A := A) (written u f s) = assoc_alter u f (rows s).
Proof. unfold rows at 1, written. by rewrite tab_put. Qed.
Lemma rows_deleted u a s : rows (A := A) (deleted u a s) = assoc_remove u (rows s).
Proof. unfold rows at 1, deleted. by rewrite tab_put. Qed.
Lemma keys_written u f s : (rows (A := A) (written u f s)).*1 = (rows s).*1.
Proof. by rewrite rows_written, assoc_alter_keys. Qed.
(** Rules for [returns]. *)
Context {B : Type} (Q : B → ovsdb → Prop).
Lemma returns_row u a k s : NoDup (rows (A := A) s).*1 → (u, a) ∈ rows s →
  returns Q (k a) s → returns Q (row u ≫= k) s.
Proof.
  intros Hn Hu (b & s' & Hk & HQ). exists b, s'.
  by rewrite (bind_run _ _ _ _ _ (row_live _ _ _ (elem_assoc _ _ _ Hn Hu))).
Qed.
Lemma returns_write u f k s : u ∈ (rows (A := A) s).*1 →
  returns Q (k tt) (written u f s) → returns Q (row_write u f ≫= k) s.
Proof.
  intros Hu (b & s' & Hk & HQ). exists b, s'.
  by rewrite (bind_run _ _ _ _ _ (row_write_live _ _ _ Hu)).
Qed.
Lemma returns_delete u a k s : NoDup (rows (A := A) s).*1 → (u, a) ∈ rows s →
  returns Q (k tt) (deleted u a s) → returns Q (row_delete (A := A) u ≫= k) s.
Proof.
  intros Hn Hu (b & s' & Hk & HQ). exists b, s'.
  by rewrite (bind_run _ _ _ _ _ (row_delete_live _ _ _ (elem_assoc _ _ _ Hn Hu))).
Qed.
Lemma returns_insert a k s :
  returns Q (k (idl_uuid (o_used s))) (inserted a s) → returns Q (row_insert a ≫= k) s.
Proof. done. Qed.
End run.

End idl.
