(* ===== verification/OvsQueueFacts.v ===== *)
(** * Queue links: invariant and search loops

    [queue_ok] is what the queue operations of ovs-data.c rely on and keep:
    references lead to rows that exist, no QoS row belongs to two ports, a
    resource-id names one queue, a queue of the configuration is linked once
    and under its id.  [link] is the relation the configuration sees. *)

From S2P Require Import Prelude.
From S2P Require Import Xml.
From S2P Require Import EditTree.
From S2P Require Import Ovsdb.
From S2P Require Import OvsFacts.
From S2P Require Import OvsQueues.

Definition managed (q : queue) : Prop := is_Some (q_external_ids q !! OFC_RESOURCE_ID).
Definition queue_id (q : queue) : option Z := q_external_ids q !! "ofc_id" ≫= scan_i64.

Lemma has_rid_spec rid q : has_rid rid q = true ↔ q_external_ids q !! OFC_RESOURCE_ID = Some rid.
Proof. apply bool_decide_eq_true. Qed.
Lemma has_rid_managed rid q : has_rid rid q = true → managed q.
Proof. rewrite has_rid_spec. unfold managed. intros ->. eauto. Qed.

Record queue_ok (s : ovsdb) : Prop := {
  ok_queues : NoDup (rows (A := queue) s).*1;
  ok_qoss : NoDup (rows (A := qos) s).*1;
  ok_ports : NoDup (rows (A := port) s).*1;
  ok_used u : u ∈ (rows (A := queue) s).*1 ∨ u ∈ (rows (A := qos) s).*1 → u ∈ o_used s;
  ok_rid u q u' q' rid : (u, q) ∈ rows s → (u', q') ∈ rows s →
    has_rid rid q = true → has_rid rid q' = true → u = u';
  ok_port p pr qs : (p, pr) ∈ rows s → port_qos pr = Some qs → qs ∈ (rows (A := qos) s).*1;
  ok_owner p pr p' pr' qs : (p, pr) ∈ rows s → (p', pr') ∈ rows s →
    port_qos pr = Some qs → port_qos pr' = Some qs → p = p';
  ok_keys qs q : (qs, q) ∈ rows s → NoDup (qos_queues q).*1;
  ok_link qs q k u : (qs, q) ∈ rows s → (k, u) ∈ qos_queues q →
    ∃ qr, (u, qr) ∈ rows s ∧ (managed qr → queue_id qr = Some k);
  ok_once qs q k qs' q' k' u qr : (u, qr) ∈ rows s → managed qr →
    (qs, q) ∈ rows s → (k, u) ∈ qos_queues q →
    (qs', q') ∈ rows s → (k', u) ∈ qos_queues q' → qs = qs'
}.

(** The port p sends queue u under the key k. *)
Definition link (s : ovsdb) (p : uuid) (k : Z) (u : uuid) : Prop :=
  ∃ pr qs q, (p, pr) ∈ rows s ∧ port_qos pr = Some qs ∧ (qs, q) ∈ rows s ∧
             (k, u) ∈ qos_queues q.

Lemma elem_keys {A} (u : uuid) (a : A) l : (u, a) ∈ l → u ∈ l.*1.
Proof. intros H. apply list_elem_of_fmap. by exists (u, a). Qed.
Lemma keys_elem {A} (u : uuid) (l : list (uuid * A)) : u ∈ l.*1 → ∃ a, (u, a) ∈ l.
Proof. intros ([v a] & -> & H)%list_elem_of_fmap. eauto. Qed.

Create HintDb ovs.
#[export] Hint Resolve elem_keys ok_queues ok_qoss ok_ports elem_assoc : ovs.

Section facts.
Context {OI : OvsIdl}.

Lemma live_lookup {A} `{Row A} u (a : A) s :
  NoDup (rows (A := A) s).*1 → (u, a) ∈ rows s → assoc u (rows s) = Some a.
Proof. apply elem_assoc. Qed.

(** ** Search loops *)
Section search.
Context (s : ovsdb) (Hok : queue_ok s) (rid : string).

(** No entry of the list is a queue with the resource-id. *)
Definition unlinked (l : list (Z * uuid)) : Prop :=
  ∀ k u q, (k, u) ∈ l → (u, q) ∈ rows s → has_rid rid q = false.
Definition link_at (l : list (Z * uuid)) (i : nat) : Prop :=
  ∃ k u q, l !! i = Some (k, u) ∧ (u, q) ∈ rows s ∧ has_rid rid q = true.

Lemma find_link_spec l i :
  (∀ k u, (k, u) ∈ l → u ∈ (rows (A := queue) s).*1) →
  returns (λ o s', s' = s ∧ match o with
    | None => unlinked l
    | Some j => i ≤ j ∧ link_at l (j - i)
    end) (find_link rid i l) s.
Proof using Hok.
  revert i. induction l as [|[k u] l IH]; intros i Hl; cbn [find_link].
  { apply returns_ret. split; [done|]. intros ???. set_solver. }
  destruct (keys_elem u (rows (A := queue) s)) as [q Hq]; [apply (Hl k); set_solver|].
  eapply returns_row; [apply Hok|done|]. destruct (has_rid rid q) eqn:Er.
  { apply returns_ret. split; [done|]. split; [done|]. rewrite Nat.sub_diag.
    by exists k, u, q. }
  eapply returns_mono; [apply (IH (S i)); intros k' ??; apply (Hl k'); set_solver|].
  intros [j|] s' [-> Ho]; (split; [done|]).
  - destruct Ho as (Hj & k' & u' & q' & Ho). split; [lia|]. exists k', u', q'.
    by replace (j - i) with (S (j - S i)) by lia.
  - intros k' u' q' [[= -> ->]|Hin]%elem_of_cons Hu; [|by eapply Ho].
    by rewrite (nodup_key_unique _ u q' q (ok_queues s Hok) Hu Hq).
Qed.

Lemma link_live qs q : (qs, q) ∈ rows s →
  ∀ k u, (k, u) ∈ qos_queues q → u ∈ (rows (A := queue) s).*1.
Proof using Hok. intros Hq k u Hu. destruct (ok_link s Hok qs q k u Hq Hu) as (? & ? & _); eauto with ovs. Qed.

Lemma find_qos_link_spec l : l ⊆ rows s →
  returns (λ o s', s' = s ∧ match o with
    | None => ∀ qs q, (qs, q) ∈ l → unlinked (qos_queues q)
    | Some (qs, i) => ∃ q, (qs, q) ∈ rows s ∧ link_at (qos_queues q) i
    end) (find_qos_link rid l) s.
Proof using Hok.
  induction l as [|[qs q] l IH]; intros Hl; cbn [find_qos_link].
  { apply returns_ret. split; [done|]. intros ??. set_solver. }
  assert ((qs, q) ∈ rows s) as Hq by (apply Hl; set_solver).
  eapply returns_bind; [by eapply find_link_spec, link_live|].
  intros [j|] ? [-> Ho]; cbn beta iota.
  { apply returns_ret. split; [done|]. exists q. split; [done|].
    destruct Ho as [_ Ho]. by rewrite Nat.sub_0_r in Ho. }
  eapply returns_mono; [apply IH; set_solver|].
  intros [[qs' i]|] s' [-> Ho']; (split; [done|]); [done|].
  intros qs' q' [[= -> ->]|Hin]%elem_of_cons; [done|by eapply Ho'].
Qed.

Lemma find_port_link_spec l : l ⊆ rows s →
  returns (λ o s', s' = s ∧ match o with
    | None => ∀ p pr qs q, (p, pr) ∈ l → port_qos pr = Some qs → (qs, q) ∈ rows s →
                unlinked (qos_queues q)
    | Some (p, qs, i) => ∃ pr q, (p, pr) ∈ rows s ∧ port_qos pr = Some qs ∧
                           (qs, q) ∈ rows s ∧ link_at (qos_queues q) i
    end) (find_port_link rid l) s.
Proof using Hok.
  induction l as [|[p pr] l IH]; intros Hl; cbn [find_port_link].
  { apply returns_ret. split; [done|]. intros ????. set_solver. }
  assert ((p, pr) ∈ rows s) as Hp by (apply Hl; set_solver).
  assert (l ⊆ rows s) as Hl' by set_solver. specialize (IH Hl').
  destruct (port_qos pr) as [qs|] eqn:Eq.
  2: { eapply returns_mono; [exact IH|]. intros [[[? ?] ?]|] s' [-> Ho]; (split; [done|]); [done|].
       intros p' pr' qs' q' [[= -> ->]|Hin]%elem_of_cons; [congruence|by eapply Ho]. }
  destruct (keys_elem _ _ (ok_port s Hok _ _ _ Hp Eq)) as [q Hq].
  eapply returns_row; [apply Hok|done|]. eapply returns_bind; [by eapply find_link_spec, link_live|].
  intros [j|] ? [-> Ho]; cbn beta iota.
  { apply returns_ret. split; [done|]. exists pr, q. destruct Ho as [_ Ho].
    by rewrite Nat.sub_0_r in Ho. }
  eapply returns_mono; [exact IH|].
  intros [[[? ?] ?]|] s' [-> Ho']; (split; [done|]); [done|].
  intros p' pr' qs' q' [[= -> ->]|Hin]%elem_of_cons E Hq'; [|by eapply Ho'].
  assert (qs' = qs) as -> by congruence.
  by rewrite (nodup_key_unique _ qs q' q (ok_qoss s Hok) Hq' Hq).
Qed.

(** find_queue and loops that look for a row by one of its fields. *)
Lemma find_queue_spec :
  returns (λ o s', s' = s ∧ match o with
    | None => ∀ u q, (u, q) ∈ rows s → has_rid rid q = false
    | Some (u, q) => (u, q) ∈ rows s ∧ has_rid rid q = true
    end) (find_queue (Some rid)) s.
Proof.
  unfold find_queue, find_row. eexists _, s. split; [done|]. split; [done|].
  destruct (find_first _ _) as [[u q]|] eqn:E.
  - by apply find_first_elem in E.
  - intros u q. by eapply find_first_missing.
Qed.
End search.

Lemma find_row_spec {A} `{Row A} (P : A → bool) s :
  returns (λ o s', s' = s ∧ match o with
    | None => ∀ u a, (u, a) ∈ rows s → P a = false
    | Some (u, a) => (u, a) ∈ rows s ∧ P a = true
    end) (find_row P) s.
Proof.
  unfold find_row. eexists _, s. split; [done|]. split; [done|].
  destruct (find_first _ _) as [[u q]|] eqn:E.
  - by apply find_first_elem in E.
  - intros u q. by eapply find_first_missing.
Qed.

(** ** Steps that keep the invariant *)

Lemma queue_ok_err e s : queue_ok s → queue_ok (set_oerr e s).
Proof. intros []. by constructor. Qed.

(** The result of an operation: the invariant holds; it did P, or it failed
    for the reason F and left an error in *e. *)
Definition fine (P : ovsdb → Prop) (F : Prop) (r : exit) (s' : ovsdb) : Prop :=
  queue_ok s' ∧
  match r with EXIT_SUCCESS => P s' | EXIT_FAILURE => is_Some (o_err s') ∧ F end.

Lemma reject_fine P (F : Prop) e s : queue_ok s → F → returns (fine P F) (reject e) s.
Proof.
  intros H HF. exists EXIT_FAILURE, (set_oerr (Some e) s). split; [done|].
  split; [by apply queue_ok_err|]. simpl. eauto.
Qed.

(** A change of queues that keeps resource-ids and ids. *)
Lemma queue_ok_write_queue qu f s : queue_ok s →
  (∀ q, (qu, q) ∈ rows s → q_external_ids (f q) = q_external_ids q) →
  queue_ok (written qu f s).
Proof.
  intros H Hf.
  assert (∀ v b, (v, b) ∈ rows (A := queue) (written qu f s) →
    ∃ a, (v, a) ∈ rows s ∧ q_external_ids b = q_external_ids a) as Hback.
  { intros v b. rewrite rows_written, elem_alter. intros (a & Ha & ->). exists a. split; [done|].
    case_bool_decide; [|done]. subst. by apply Hf. }
  constructor; try apply H.
  - rewrite keys_written. apply (ok_queues s H).
  - intros u. rewrite keys_written. apply (ok_used s H).
  - intros u q u' q' rid (a & Ha & E)%Hback (a' & Ha' & E')%Hback.
    rewrite !has_rid_spec, E, E', <-!has_rid_spec. by apply (ok_rid s H u a u' a').
  - intros qs q k u Hq Hu. destruct (ok_link s H qs q k u Hq Hu) as (qr & Hqr & Hm).
    exists (if bool_decide (u = qu) then f qr else qr). split.
    + rewrite rows_written, elem_alter. eauto.
    + case_bool_decide; [|done]. subst. unfold managed, queue_id. by rewrite (Hf qr).
  - intros qs q k qs' q' k' u qr (a & Ha & E)%Hback Hm. unfold managed in Hm. rewrite E in Hm.
    by apply (ok_once s H qs q k qs' q' k' u a).
Qed.

(** The entries name rows and agree with the ids of managed queues, which are
    linked to no other QoS. *)
Definition entries_ok (s : ovsdb) (qs : uuid) (l : list (Z * uuid)) : Prop :=
  NoDup l.*1 ∧
  ∀ k u, (k, u) ∈ l → ∃ qr, (u, qr) ∈ rows s ∧
    (managed qr → queue_id qr = Some k ∧
       ∀ qs' q' k', (qs', q') ∈ rows s → (k', u) ∈ qos_queues q' → qs' = qs).

Lemma entries_ok_self s qs q : queue_ok s → (qs, q) ∈ rows s → entries_ok s qs (qos_queues q).
Proof.
  intros H Hq. split; [by eapply ok_keys|]. intros k u Hu.
  destruct (ok_link s H qs q k u Hq Hu) as (qr & Hqr & Hid). exists qr. split; [done|].
  intros Hm. split; [by apply Hid|]. intros qs' q' k' Hq' Hu'.
  by apply (ok_once s H qs' q' k' qs q k u qr).
Qed.

Lemma entries_ok_sub s qs l l' :
  entries_ok s qs l → l' ⊆ l → NoDup l'.*1 → entries_ok s qs l'.
Proof. intros [_ Hl] Hs Hn. split; [done|]. intros k u Hu. apply Hl, Hs, Hu. Qed.

Lemma entries_ok_column s s' qs l :
  (∃ l0, NoDup l0.*1 ∧ l ⊆ l0 ∧ entries_ok s qs l0) ∨
  (∀ l0, l0 ⊆ l → NoDup l0.*1 → entries_ok s qs l0) →
  entries_ok s qs (map_column (A := queue) l s').
Proof.
  intros [(l0 & _ & Hs & H0)|H].
  - eapply entries_ok_sub; [exact H0| |apply map_column_nodup].
    intros kv Hkv. by apply map_column_elem in Hkv as [?%Hs _].
  - apply H; [|apply map_column_nodup]. intros kv Hkv. by apply map_column_elem in Hkv as [? _].
Qed.

Lemma queue_ok_write_qos qs f l s : queue_ok s →
  (∀ q, (qs, q) ∈ rows s → qos_queues (f q) = l) → entries_ok s qs l →
  queue_ok (written qs f s).
Proof.
  intros H Hf [Hn Hl].
  assert (∀ v b, (v, b) ∈ rows (A := qos) (written qs f s) →
    (∃ a : qos, v = qs ∧ (v, a) ∈ rows s ∧ qos_queues b = l) ∨ (v ≠ qs ∧ (v, b) ∈ rows s)) as Hback.
  { intros v b. rewrite rows_written, elem_alter. intros (a & Ha & ->).
    case_bool_decide; [left; subst; exists a; auto|by right]. }
  constructor; try apply H.
  - rewrite keys_written. apply (ok_qoss s H).
  - intros u. rewrite keys_written. apply (ok_used s H).
  - intros p pr qs'. rewrite keys_written. apply (ok_port s H).
  - intros v b [(a & -> & _ & ->)|[_ Hb]]%Hback; [done|]. by apply (ok_keys s H v).
  - intros v b k u [(a & -> & _ & ->)|[_ Hb]]%Hback Hu; [|by eapply (ok_link s H)].
    destruct (Hl k u Hu) as (qr & Hqr & Hm). exists qr. split; [done|]. intros ?. by apply Hm.
  - intros v b k v' b' k' u qr Hqr Hm [(a & -> & _ & E)|[Hv Hb]]%Hback Hu
      [(a' & -> & _ & E')|[Hv' Hb']]%Hback Hu'; [done| | |].
    + rewrite E in Hu. destruct (Hl k u Hu) as (qr' & Hqr' & Hm').
      rewrite (nodup_key_unique _ _ _ _ (ok_queues s H) Hqr Hqr') in Hm.
      symmetry. by eapply (proj2 (Hm' Hm)).
    + rewrite E' in Hu'. destruct (Hl k' u Hu') as (qr' & Hqr' & Hm').
      rewrite (nodup_key_unique _ _ _ _ (ok_queues s H) Hqr Hqr') in Hm.
      by eapply (proj2 (Hm' Hm)).
    + by apply (ok_once s H v b k v' b' k' u qr).
Qed.

Lemma queue_ok_set_queues qs l s : queue_ok s → entries_ok s qs l →
  queue_ok (written qs (with_qos_queues l) s).
Proof. intros H Hl. by apply (queue_ok_write_qos qs _ l). Qed.

Definition in_no_qos (s : ovsdb) (u : uuid) : Prop :=
  ∀ qs q k, (qs, q) ∈ rows s → (k, u) ∉ qos_queues q.

(** A change of a queue that no QoS refers to. *)
Lemma queue_ok_write_unlinked qu f s : queue_ok s → in_no_qos s qu →
  (∀ q rid u' q', (qu, q) ∈ rows s → has_rid rid (f q) = true →
     (u', q') ∈ rows s → has_rid rid q' = true → u' = qu) →
  queue_ok (written qu f s).
Proof.
  intros H Hno Hf.
  assert (∀ v b, (v, b) ∈ rows (A := queue) (written qu f s) →
    (∃ a, v = qu ∧ (v, a) ∈ rows s ∧ b = f a) ∨ (v ≠ qu ∧ (v, b) ∈ rows s)) as Hback.
  { intros v b. rewrite rows_written, elem_alter. intros (a & Ha & ->).
    case_bool_decide; [left; subst; exists a; auto|by right]. }
  constructor; try apply H.
  - rewrite keys_written. apply (ok_queues s H).
  - intros u. rewrite keys_written. apply (ok_used s H).
  - intros u q u' q' rid [(a & -> & Ha & ->)|[Hu Hq]]%Hback
      [(a' & -> & Ha' & ->)|[Hu' Hq']]%Hback Hr Hr'; [done| | |].
    + symmetry. by eapply Hf.
    + by eapply Hf.
    + by apply (ok_rid s H u q u' q' rid).
  - intros qs q k u Hq Hu. destruct (ok_link s H qs q k u Hq Hu) as (qr & Hqr & Hm).
    exists qr. split; [|done]. rewrite rows_written, elem_alter. exists qr. split; [done|].
    rewrite bool_decide_eq_false_2; [done|]. intros ->. by apply (Hno qs q k).
  - intros qs q k qs' q' k' u qr [(a & -> & _ & _)|[_ Hqr]]%Hback Hm Hq Hu;
      [by destruct (Hno qs q k)|]. by apply (ok_once s H qs q k qs' q' k' u qr).
Qed.

Lemma queue_ok_insert_queue s : queue_ok s → queue_ok (inserted (Queue ∅ ∅) s).
Proof.
  intros H. set (u0 := idl_uuid (o_used s)).
  assert (u0 ∉ o_used s) as Hfresh by apply idl_uuid_fresh.
  assert (rows (A := queue) (inserted (Queue ∅ ∅) s) ≡ₚ (u0, Queue ∅ ∅) :: rows s) as HP
    by apply idl_place_perm.
  assert (u0 ∉ (rows (A := queue) s).*1) as Hnew.
  { intros Hin. apply Hfresh, (ok_used s H). by left. }
  constructor; try apply H.
  - rewrite HP. rewrite fmap_cons, NoDup_cons. split; [done|apply (ok_queues s H)].
  - intros u. rewrite HP. cbn. rewrite !elem_of_cons. intros [[->|Hu]|Hu]; [by left| |];
      right; apply (ok_used s H); [by left|by right].
  - intros u q u' q' rid. rewrite HP, !elem_of_cons.
    intros [[= -> ->]|Hu] [[= -> ->]|Hu']; [done|done|done|]. by apply (ok_rid s H u q u' q' rid).
  - intros qs q k u Hq Hu. destruct (ok_link s H qs q k u Hq Hu) as (qr & Hqr & Hm).
    exists qr. rewrite HP, elem_of_cons. by split; [right|].
  - intros qs q k qs' q' k' u qr. rewrite HP, elem_of_cons. intros [[= -> ->]|Hqr].
    + intros [v Hm]. discriminate Hm.
    + by apply (ok_once s H qs q k qs' q' k' u qr).
Qed.

Lemma queue_ok_insert_qos s : queue_ok s → queue_ok (inserted (Qos None []) s).
Proof.
  intros H. set (u0 := idl_uuid (o_used s)).
  assert (u0 ∉ o_used s) as Hfresh by apply idl_uuid_fresh.
  assert (rows (A := qos) (inserted (Qos None []) s) ≡ₚ (u0, Qos None []) :: rows s) as HP
    by apply idl_place_perm.
  assert (u0 ∉ (rows (A := qos) s).*1) as Hnew.
  { intros Hin. apply Hfresh, (ok_used s H). by right. }
  constructor; try apply H.
  - rewrite HP. rewrite fmap_cons, NoDup_cons. split; [done|apply (ok_qoss s H)].
  - intros u. rewrite HP. cbn. rewrite !elem_of_cons. intros [Hu|[->|Hu]]; [|by left|];
      right; apply (ok_used s H); [by left|by right].
  - intros p pr qs Hp E. rewrite HP. right. by apply (ok_port s H p pr).
  - intros qs q. rewrite HP, elem_of_cons. intros [[= -> ->]|Hq]; [constructor|].
    by apply (ok_keys s H qs).
  - intros qs q k u. rewrite HP, elem_of_cons. intros [[= -> ->]|Hq]; [by intros ?%elem_of_nil|].
    by apply (ok_link s H qs).
  - intros qs q k qs' q' k' u qr Hqr Hm. rewrite HP, !elem_of_cons.
    intros [[= -> ->]|Hq] Hu; [by apply elem_of_nil in Hu|].
    intros [[= -> ->]|Hq'] Hu'; [by apply elem_of_nil in Hu'|].
    by apply (ok_once s H qs q k qs' q' k' u qr).
Qed.

Lemma queue_ok_delete_queue qu a s : queue_ok s → in_no_qos s qu → queue_ok (deleted (A := queue) qu a s).
Proof.
  intros H Hno.
  assert (∀ v b, (v, b) ∈ rows (A := queue) (deleted qu a s) ↔ (v, b) ∈ rows s ∧ v ≠ qu) as Hback.
  { intros v b. by rewrite rows_deleted, elem_remove. }
  constructor; try apply H.
  - rewrite rows_deleted. apply assoc_remove_nodup, (ok_queues s H).
  - intros u [(b & [Hb _]%Hback)%keys_elem|Hu]; apply (ok_used s H); eauto with ovs.
  - intros u q u' q' rid [Hu _]%Hback [Hu' _]%Hback. by apply (ok_rid s H u q u' q' rid).
  - intros qs q k u Hq Hu. destruct (ok_link s H qs q k u Hq Hu) as (qr & Hqr & Hm).
    exists qr. rewrite Hback. split_and!; [done| |done]. intros ->. by apply (Hno qs q k).
  - intros qs q k qs' q' k' u qr [Hqr _]%Hback. by apply (ok_once s H qs q k qs' q' k' u qr).
Qed.

Lemma queue_ok_delete_qos qs a s : queue_ok s →
  (∀ p pr, (p, pr) ∈ rows s → port_qos pr ≠ Some qs) → queue_ok (deleted (A := qos) qs a s).
Proof.
  intros H Hno.
  assert (∀ v b, (v, b) ∈ rows (A := qos) (deleted qs a s) ↔ (v, b) ∈ rows s ∧ v ≠ qs) as Hback.
  { intros v b. by rewrite rows_deleted, elem_remove. }
  constructor; try apply H.
  - rewrite rows_deleted. apply assoc_remove_nodup, (ok_qoss s H).
  - intros u [Hu|(b & [Hb _]%Hback)%keys_elem]; apply (ok_used s H); eauto with ovs.
  - intros p pr qs' Hp E. destruct (keys_elem _ _ (ok_port s H p pr qs' Hp E)) as [b Hb].
    apply (elem_keys qs' b), Hback. split; [done|]. intros ->. by apply (Hno p pr).
  - intros v q [Hq _]%Hback. by apply (ok_keys s H v).
  - intros v q k u [Hq _]%Hback. by apply (ok_link s H v).
  - intros v q k v' q' k' u qr Hqr Hm [Hq _]%Hback Hu [Hq' _]%Hback.
    by apply (ok_once s H v q k v' q' k' u qr).
Qed.

(** Giving a port no QoS, or one that no other port has. *)
Lemma queue_ok_write_port pu o s : queue_ok s →
  (∀ qs, o = Some qs → qs ∈ (rows (A := qos) s).*1 ∧
     ∀ p pr, (p, pr) ∈ rows s → p ≠ pu → port_qos pr ≠ Some qs) →
  queue_ok (written pu (with_port_qos o) s).
Proof.
  intros H Ho.
  assert (∀ v b, (v, b) ∈ rows (A := port) (written pu (with_port_qos o) s) →
    (v = pu ∧ port_qos b = o) ∨ (v ≠ pu ∧ (v, b) ∈ rows s)) as Hback.
  { intros v b. rewrite rows_written, elem_alter. intros (a & Ha & ->).
    case_bool_decide; [by left|by right]. }
  constructor; try apply H.
  - rewrite keys_written. apply (ok_ports s H).
  - intros p pr qs [[-> E]|[Hp Hin]]%Hback Eq; [|by eapply (ok_port s H)].
    apply Ho. congruence.
  - intros p pr p' pr' qs [[-> E]|[Hp Hin]]%Hback [[-> E']|[Hp' Hin']]%Hback Eq Eq'; [done| | |].
    + destruct (Ho qs) as [_ Hx]; [congruence|]. by destruct (Hx p' pr').
    + destruct (Ho qs) as [_ Hx]; [congruence|]. by destruct (Hx p pr).
    + by apply (ok_owner s H p pr p' pr' qs).
Qed.

End facts.
