(* ===== verification/OvsQueueSpecs.v ===== *)
(** * What the queue operations do

    One specification per operation of OvsQueues.v: from a state with
    [queue_ok] it returns, keeps [queue_ok], leaves an error in *e when it
    fails, and changes the links as described. *)

From S2P Require Import Prelude.
From S2P Require Import Xml.
From S2P Require Import EditTree.
From S2P Require Import Ovsdb.
From S2P Require Import OvsFacts.
From S2P Require Import OvsQueues.
From S2P Require Import OvsQueueFacts.

Section specs.
Context {OI : OvsIdl}.

(** ** Links after a step *)

Lemma link_write_qos s qs f l p k u : qs ∈ (rows (A := qos) s).*1 →
  (∀ q, (qs, q) ∈ rows s → qos_queues (f q) = l) →
  link (written qs f s) p k u ↔
  ∃ pr qs', (p, pr) ∈ rows s ∧ port_qos pr = Some qs' ∧
    ((qs' = qs ∧ (k, u) ∈ l) ∨ (qs' ≠ qs ∧ ∃ q, (qs', q) ∈ rows s ∧ (k, u) ∈ qos_queues q)).
Proof.
  intros Hqs Hf. unfold link. split.
  - intros (pr & qs' & q & Hp & E & Hq & Hu). rewrite rows_written, elem_alter in Hq.
    destruct Hq as (a & Ha & ->). exists pr, qs'. split_and!; [done|done|].
    case_bool_decide; [left; subst; by rewrite (Hf a Ha) in Hu|right]. eauto.
  - intros (pr & qs' & Hp & E & [[-> Hu]|[Hd Hu]]).
    + destruct (keys_elem _ _ Hqs) as [a Ha]. exists pr, qs, (f a).
      split_and!; [done|done| |by rewrite (Hf a Ha)].
      rewrite rows_written, elem_alter. exists a. by rewrite bool_decide_eq_true_2.
    + destruct Hu as (q & Hq & Hu). exists pr, qs', q. split_and!; [done|done| |done].
      rewrite rows_written, elem_alter. exists q. by rewrite bool_decide_eq_false_2.
Qed.

Lemma link_set_queues s qs l p k u : qs ∈ (rows (A := qos) s).*1 →
  link (written qs (with_qos_queues l) s) p k u ↔
  ∃ pr qs', (p, pr) ∈ rows s ∧ port_qos pr = Some qs' ∧
    ((qs' = qs ∧ (k, u) ∈ l) ∨ (qs' ≠ qs ∧ ∃ q, (qs', q) ∈ rows s ∧ (k, u) ∈ qos_queues q)).
Proof. intros Hqs. by apply link_write_qos. Qed.

Lemma link_same_qos s p pr qs q k u : queue_ok s → (p, pr) ∈ rows s →
  port_qos pr = Some qs → (qs, q) ∈ rows s → link s p k u ↔ (k, u) ∈ qos_queues q.
Proof.
  intros H Hp E Hq. split; [|by exists pr, qs, q].
  intros (pr' & qs' & q' & Hp' & E' & Hq' & Hu).
  rewrite (nodup_key_unique _ _ _ _ (ok_ports s H) Hp' Hp) in E'.
  assert (qs' = qs) as -> by congruence.
  by rewrite (nodup_key_unique _ _ _ _ (ok_qoss s H) Hq' Hq) in Hu.
Qed.

Definition adds_link (s s' : ovsdb) (pu : uuid) (k : Z) (qu : uuid) : Prop :=
  ∀ p k' u, link s' p k' u ↔ link s p k' u ∨ (p = pu ∧ k' = k ∧ u = qu).
Definition drops_links (s s' : ovsdb) (qu : uuid) : Prop :=
  ∀ p k u, link s' p k u ↔ link s p k u ∧ u ≠ qu.
Definition rekeys (s s' : ovsdb) (k : Z) (qu : uuid) : Prop :=
  ∀ p k' u, link s' p k' u ↔
    (link s p k' u ∧ u ≠ qu) ∨ (∃ k0, link s p k0 qu ∧ k' = k ∧ u = qu).

(** ** txn_add_queue_port *)
Section add_queue_port.
Context (s : ovsdb) (H : queue_ok s) (qu : uuid) (q : queue) (k : Z).
Context (Hqu : (qu, q) ∈ rows s) (Hk : queue_id q = Some k) (Hfree : in_no_qos s qu).

Lemma entries_ok_new qs l : entries_ok s qs l → k ∉ l.*1 → entries_ok s qs (l ++ [(k, qu)]).
Proof using All.
  intros [Hn Hl] Hkl. split.
  - rewrite fmap_app, NoDup_app. split_and!; [done| |apply NoDup_singleton].
    intros x Hx ->%list_elem_of_singleton. done.
  - intros k' u [Hu|[= -> ->]%list_elem_of_singleton]%elem_of_app; [by apply Hl|].
    exists q. split; [done|]. intros _. split; [done|]. intros qs' q' k' Hq Hu.
    by destruct (Hfree qs' q' k').
Qed.

(** The column keeps one entry per key, whatever it is given. *)
Lemma entries_ok_added qs q0 s0 : (qs, q0) ∈ rows s →
  entries_ok s qs (map_column (A := queue) (qos_queues q0 ++ [(k, qu)]) s0).
Proof using All.
  intros Hq. split; [apply map_column_nodup|].
  intros k' u [Hu _]%map_column_elem. destruct (entries_ok_self s qs q0 H Hq) as [_ Hl].
  apply elem_of_app in Hu as [Hu|[= -> ->]%list_elem_of_singleton]; [by apply Hl|].
  exists q. split; [done|]. intros _. split; [done|]. intros qs' q' k' Hq' Hu.
  by destruct (Hfree qs' q' k').
Qed.

Lemma add_link_existing pu pr qs q0 : (pu, pr) ∈ rows s → port_qos pr = Some qs →
  (qs, q0) ∈ rows s →
  let s' := written qs (with_qos_queues (map_column (A := queue) (qos_queues q0 ++ [(k, qu)]) s)) s in
  queue_ok s' ∧ ((∀ u, ¬ link s pu k u) → adds_link s s' pu k qu).
Proof using All.
  intros Hp E Hq s'. split.
  { apply queue_ok_set_queues; [done|]. by eapply entries_ok_added. }
  intros Hno p k' u. unfold s'. rewrite link_set_queues by eauto with ovs.
  assert (map_column (A := queue) (qos_queues q0 ++ [(k, qu)]) s ≡ₚ qos_queues q0 ++ [(k, qu)]) as HP.
  { apply map_column_all.
    - apply (entries_ok_new qs); [by apply entries_ok_self|].
      intros ([k0 u0] & -> & Hu0)%list_elem_of_fmap. apply (Hno u0).
      by eapply (link_same_qos s pu pr qs q0).
    - intros [k0 u0] [Hu|[= -> ->]%list_elem_of_singleton]%elem_of_app; [|eauto with ovs].
      by eapply link_live. }
  setoid_rewrite HP. split.
  - intros (pr' & qs' & Hp' & E' & [[-> Hu]|[Hd Hu]]).
    + assert (p = pu) as -> by by eapply (ok_owner s H).
      apply elem_of_app in Hu as [Hu|[= -> ->]%list_elem_of_singleton]; [|by right].
      left. by eapply (link_same_qos s pu pr qs q0).
    + left. destruct Hu as (q1 & ? & ?). by exists pr', qs', q1.
  - intros [(pr' & qs' & q1 & Hp' & E' & Hq1 & Hu)|(-> & -> & ->)].
    + exists pr', qs'. split_and!; [done|done|].
      destruct (decide (qs' = qs)) as [->|]; [left; split; [done|]|right; eauto]. apply elem_of_app. left.
      by rewrite (nodup_key_unique _ _ _ _ (ok_qoss s H) Hq1 Hq) in Hu.
    + exists pr, qs. split_and!; [done|done|]. left. split; [done|].
      apply elem_of_app. right. by apply list_elem_of_singleton.
Qed.

(** The port gets a QoS of its own. *)
Definition new_qos_state (pu : uuid) : ovsdb :=
  let qs := idl_uuid (o_used s) in
  let s1 := written qs (λ q, Qos (Some QOS_TYPE) (qos_queues q)) (inserted (Qos None []) s) in
  written pu (with_port_qos (Some qs))
    (written qs (with_qos_queues (map_column (A := queue) [(k, qu)] s1)) s1).

Lemma new_qos_rows pu :
  let qs := idl_uuid (o_used s) in
  ∀ v b, (v, b) ∈ rows (A := qos) (new_qos_state pu) ↔
    (v = qs ∧ qos_type b = Some QOS_TYPE ∧
     qos_queues b = map_column (A := queue) [(k, qu)] s) ∨ (v ≠ qs ∧ (v, b) ∈ rows s).
Proof using H.
  intros qs v b.
  assert (qs ∉ (rows (A := qos) s).*1) as Hnew.
  { intros Hin. eapply (idl_uuid_fresh (o_used s)), (ok_used s H). by right. }
  change (rows (A := qos) (new_qos_state pu)) with
    (assoc_alter qs (with_qos_queues (map_column (A := queue) [(k, qu)] s))
      (assoc_alter qs (λ q, Qos (Some QOS_TYPE) (qos_queues q))
        (idl_place (qs, Qos None []) (rows (A := qos) s)))).
  rewrite elem_alter. setoid_rewrite elem_alter. setoid_rewrite idl_place_perm.
  setoid_rewrite elem_of_cons. split.
  - intros (a & (a' & [[= -> ->]|Ha] & ->) & ->).
    + left. by repeat case_bool_decide.
    + right. assert (v ≠ qs) by (intros ->; eauto with ovs). by repeat case_bool_decide.
  - intros [(-> & Ht & Hb)|[Hv Hb]].
    + exists (Qos (Some QOS_TYPE) []). split.
      * exists (Qos None []). split; [by left|]. by rewrite bool_decide_eq_true_2.
      * rewrite bool_decide_eq_true_2 by done. destruct b. simpl in *. by subst.
    + exists b. rewrite bool_decide_eq_false_2 by done. split; [|done].
      exists b. split; [by right|done].
Qed.

Lemma single_column s0 : map_column (A := queue) [(k, qu)] s0 ⊆ [(k, qu)].
Proof. intros kv Hkv. by apply map_column_elem in Hkv as [? _]. Qed.

Lemma add_link_new pu pr : (pu, pr) ∈ rows s → port_qos pr = None →
  queue_ok (new_qos_state pu) ∧ adds_link s (new_qos_state pu) pu k qu.
Proof using All.
  intros Hp E. set (qs := idl_uuid (o_used s)).
  assert (qs ∉ (rows (A := qos) s).*1) as Hnew.
  { intros Hin. eapply (idl_uuid_fresh (o_used s)), (ok_used s H). by right. }
  assert (∀ p pr, (p, pr) ∈ rows s → port_qos pr ≠ Some qs) as Hport.
  { intros p' pr' Hp' E'. by apply Hnew, (ok_port s H p' pr'). }
  assert (entries_ok s qs []) as Hnil by (split; [constructor|intros ?? []%elem_of_nil]).
  assert (queue_ok (written qs (λ q, Qos (Some QOS_TYPE) (qos_queues q))
            (inserted (Qos None []) s))) as H1.
  { apply (queue_ok_write_qos qs _ []); [by apply queue_ok_insert_qos| |].
    - intros q0. change (rows (inserted (Qos None []) s)) with
        (idl_place (qs, Qos None []) (rows (A := qos) s)).
      rewrite idl_place_perm, elem_of_cons. intros [[= ->]|Hq0]; [done|].
      destruct Hnew. eauto with ovs.
    - split; [constructor|intros ?? []%elem_of_nil]. }
  assert (queue_ok (new_qos_state pu)) as H2.
  { apply queue_ok_write_port; [apply (queue_ok_set_queues qs _ _ H1)|].
    - split; [apply map_column_nodup|]. intros k' u' Hu'%single_column.
      apply list_elem_of_singleton in Hu' as [= -> ->].
      exists q. split; [done|]. intros _. split; [done|]. intros qs' q' k' Hq' Hu'.
      rewrite rows_written, elem_alter in Hq'. destruct Hq' as (a & Ha & ->).
      change (rows (inserted (Qos None []) s)) with
        (idl_place (qs, Qos None []) (rows (A := qos) s)) in Ha.
      rewrite idl_place_perm, elem_of_cons in Ha. destruct Ha as [[= -> ->]|Ha]; [done|].
      destruct (Hfree qs' a k'); [done|]. by case_bool_decide.
    - intros qs' [= <-]. rewrite !keys_written. split; [|intros; by apply Hport with p].
      change (rows (inserted (Qos None []) s)) with
        (idl_place (qs, Qos None []) (rows (A := qos) s)).
      rewrite idl_place_perm. by left. }
  split; [done|]. intros p k' u.
  assert (map_column (A := queue) [(k, qu)] s ≡ₚ [(k, qu)]) as HP.
  { apply map_column_all; [apply NoDup_singleton|].
    intros kv ->%list_elem_of_singleton. eauto with ovs. }
  unfold link. setoid_rewrite (new_qos_rows pu). fold qs.
  change (rows (A := port) (new_qos_state pu)) with
    (assoc_alter pu (with_port_qos (Some qs)) (rows (A := port) s)).
  setoid_rewrite elem_alter. split.
  - intros (pr' & qs' & b & (a & Ha & ->) & E' & Hb & Hu). case_bool_decide as Hd.
    + subst p. injection E' as <-. destruct Hb as [(_ & _ & Hb)|[? _]]; [|done].
      rewrite Hb, HP in Hu. apply list_elem_of_singleton in Hu as [= -> ->]. by right.
    + left. destruct Hb as [(-> & _)|[_ Hb]]; [by destruct (Hport p a)|]. by exists a, qs', b.
  - intros [(pr' & qs' & b & Hp' & E' & Hb & Hu)|(-> & -> & ->)].
    + exists pr', qs', b. split_and!; [|done| |done].
      * exists pr'. split; [done|]. case_bool_decide; [|done]. subst.
        by rewrite (nodup_key_unique _ _ _ _ (ok_ports s H) Hp' Hp), E in E'.
      * right. split; [|done]. intros ->. eauto with ovs.
    + exists (with_port_qos (Some qs) pr), qs, (Qos (Some QOS_TYPE) (map_column (A := queue) [(k, qu)] s)).
      split_and!; [|done|by left|].
      * exists pr. by rewrite bool_decide_eq_true_2.
      * cbn [qos_queues]. rewrite HP. by apply list_elem_of_singleton.
Qed.
End add_queue_port.

(** No QoS refers to the queue with the resource-id. *)
Definition rid_unlinked (s : ovsdb) (rid : string) : Prop :=
  ∀ qu q, (qu, q) ∈ rows s → has_rid rid q = true → in_no_qos s qu.

(** The queue exists, has an id, and the port exists. *)
Definition linkable (s : ovsdb) (rid nm : string) : Prop :=
  ∃ qu q k pu pr, (qu, q) ∈ rows s ∧ has_rid rid q = true ∧ queue_id q = Some k ∧
    (pu, pr) ∈ rows s ∧ port_name pr = Some nm.

Lemma txn_add_queue_port_spec s rid nm : queue_ok s → rid_unlinked s rid →
  returns (fine (λ s', ∃ qu q k pu pr,
      (qu, q) ∈ rows s ∧ has_rid rid q = true ∧ queue_id q = Some k ∧
      (pu, pr) ∈ rows s ∧ port_name pr = Some nm ∧
      rows (A := queue) s' = rows s ∧
      ((∀ u, ¬ link s pu k u) → adds_link s s' pu k qu)) (¬ linkable s rid nm))
    (txn_add_queue_port (Some rid) (Some nm)) s.
Proof.
  intros H Hno. unfold txn_add_queue_port.
  eapply returns_bind; [apply find_queue_spec|].
  intros [[qu q]|] ? [-> Hq]; cbn beta iota.
  2: { apply reject_fine; [done|]. intros (u & q1 & k & _ & _ & Hu & Hr & _).
       by rewrite (Hq u q1 Hu) in Hr. }
  destruct Hq as [Hqu Hr].
  assert (∀ u q1, (u, q1) ∈ rows s → has_rid rid q1 = true → q1 = q) as Huniq.
  { intros u q1 Hu Hr1. assert (u = qu) as -> by by apply (ok_rid s H u q1 qu q rid).
    by apply (nodup_key_unique _ qu _ _ (ok_queues s H)). }
  destruct (q_external_ids q !! "ofc_id") as [qid_s|] eqn:Eid.
  2: { apply reject_fine; [done|]. intros (u & q1 & k & _ & _ & Hu & Hr1 & Hk & _).
       rewrite (Huniq u q1) in Hk by done. unfold queue_id in Hk. by rewrite Eid in Hk. }
  eapply returns_bind; [apply find_row_spec|].
  intros [[pu pr]|] ? [-> Hp]; cbn beta iota.
  2: { apply reject_fine; [done|]. intros (_ & _ & _ & p1 & pr1 & _ & _ & _ & Hp1 & Hnm1).
       specialize (Hp p1 pr1 Hp1). apply bool_decide_eq_false in Hp. congruence. }
  destruct Hp as [Hp Hnm]. apply bool_decide_eq_true in Hnm.
  destruct (scan_i64 qid_s) as [k|] eqn:Ek.
  2: { apply reject_fine; [done|]. intros (u & q1 & k & _ & _ & Hu & Hr1 & Hk & _).
       rewrite (Huniq u q1) in Hk by done. unfold queue_id in Hk. rewrite Eid in Hk. cbn in Hk.
       congruence. }
  assert (queue_id q = Some k) as Hk by (unfold queue_id; rewrite Eid; exact Ek).
  specialize (Hno qu q Hqu Hr).
  destruct (port_qos pr) as [qs|] eqn:Eq.
  - destruct (keys_elem _ _ (ok_port s H _ _ _ Hp Eq)) as [q0 Hq0].
    eapply returns_row; [apply H|done|]. unfold set_queues.
    eexists EXIT_SUCCESS, _. split.
    { erewrite bind_run; [done|]. rewrite bind_gets. apply row_write_live. eauto with ovs. }
    destruct (add_link_existing s H qu q k Hqu Hk Hno pu pr qs q0 Hp Eq Hq0) as [H1 H2].
    split; [exact H1|]. by exists qu, q, k, pu, pr.
  - apply returns_insert. unfold set_queues.
    assert (∀ f s', (idl_uuid (o_used s)) ∈ (rows (A := qos) s').*1 →
      (idl_uuid (o_used s)) ∈ (rows (A := qos) (written (A := qos) (idl_uuid (o_used s)) f s')).*1) as Hw.
    { intros f s'. by rewrite keys_written. }
    assert (idl_uuid (o_used s) ∈ (rows (A := qos) (inserted (Qos None []) s)).*1) as Hin.
    { change (rows (inserted (Qos None []) s)) with
        (idl_place (idl_uuid (o_used s), Qos None []) (rows (A := qos) s)).
      rewrite idl_place_perm. by left. }
    apply returns_write; [exact Hin|]. eexists EXIT_SUCCESS, (new_qos_state s qu k pu). split.
    { erewrite bind_run.
      2: { rewrite bind_gets. apply row_write_live. apply Hw, Hin. }
      erewrite bind_run; [done|]. apply row_write_live. exact (elem_keys _ _ _ Hp). }
    destruct (add_link_new s H qu q k Hqu Hk Hno pu pr Hp Eq) as [H1 H2].
    split; [exact H1|]. by exists qu, q, k, pu, pr.
Qed.

(** ** txn_mod_queue_options *)

(** The queue rows without their other_config. *)
Definition ext_rows (s : ovsdb) : list (uuid * smap) :=
  (λ r, (r.1, q_external_ids r.2)) <$> rows (A := queue) s.

Lemma ext_rows_write qu f s : (∀ q, q_external_ids (f q) = q_external_ids q) →
  ext_rows (written qu f s) = ext_rows s.
Proof.
  intros Hf. unfold ext_rows. rewrite rows_written. unfold assoc_alter.
  rewrite <-list_fmap_compose. apply list_fmap_ext. intros _ [v q] _. cbn.
  case_bool_decide; cbn; by rewrite ?Hf.
Qed.
Lemma ext_rows_elem s u m : (u, m) ∈ ext_rows s ↔ ∃ q, (u, q) ∈ rows s ∧ q_external_ids q = m.
Proof.
  unfold ext_rows. rewrite list_elem_of_fmap. split.
  - intros ([v q] & [= -> ->] & H). by exists q.
  - intros (q & H & <-). by exists (u, q).
Qed.

Lemma txn_mod_queue_options_spec s rid opt edit : queue_ok s →
  returns (fine (λ s', (∀ p k u, link s' p k u ↔ link s p k u) ∧ ext_rows s' = ext_rows s) True)
    (txn_mod_queue_options (Some rid) opt edit) s.
Proof.
  intros H. unfold txn_mod_queue_options. destruct opt as [opt|]; [|by apply reject_fine].
  eapply returns_bind; [apply find_queue_spec|].
  intros [[qu q]|] ? [-> Hq]; cbn beta iota; [|by apply reject_fine]. destruct Hq as [Hqu Hr].
  assert (∀ g, returns (fine (λ s',
      (∀ p k u, link s' p k u ↔ link s p k u) ∧ ext_rows s' = ext_rows s) True)
    (_ ← row_write qu (with_q_other g); mret EXIT_SUCCESS) s) as Hw.
  { intros g. apply returns_write; [eauto with ovs|]. apply returns_ret.
    split; [by apply queue_ok_write_queue|]. split; [done|by apply ext_rows_write]. }
  destruct edit as [node|]; [|apply Hw].
  destruct (child_content node); [apply Hw|by apply reject_fine].
Qed.

(** ** Removing a link *)
Lemma delete_key_nodup {A B} (l : list (A * B)) i : NoDup l.*1 → NoDup (delete i l).*1.
Proof.
  revert i. induction l as [|[a b] l IH]; intros [|i]; cbn; [done|done| |].
  - by intros [_ ?]%NoDup_cons.
  - intros [Ha Hn]%NoDup_cons. apply NoDup_cons. split; [|by apply IH].
    contradict Ha. apply list_elem_of_fmap in Ha as (x & -> & Hx).
    apply list_elem_of_fmap. exists x. split; [done|]. by eapply list_elem_of_delete_inv.
Qed.

Lemma nodup_filter_keys {A B} (P : A * B → Prop) `{∀ x, Decision (P x)} (l : list (A * B)) :
  NoDup l.*1 → NoDup (filter P l).*1.
Proof.
  induction l as [|x l IH]; [done|]. rewrite fmap_cons, NoDup_cons. intros [Hx Hn].
  rewrite filter_cons. case_decide; [|by apply IH]. rewrite fmap_cons, NoDup_cons.
  split; [|by apply IH]. contradict Hx. apply list_elem_of_fmap in Hx as (y & -> & Hy).
  apply list_elem_of_filter in Hy as [_ Hy]. apply list_elem_of_fmap. eauto.
Qed.

Lemma set_key_nodup (l : list (Z * uuid)) i k k0 u0 : NoDup l.*1 → l !! i = Some (k0, u0) →
  (∀ u, (k, u) ∈ l → u = u0) → (∀ k', (k', u0) ∈ l → k' = k0) → NoDup (set_key i k l).*1.
Proof.
  intros Hn Hi Hk Hu. apply NoDup_alt. intros a b x.
  rewrite !list_lookup_fmap. unfold set_key.
  destruct (decide (a = i)) as [->|Ha], (decide (b = i)) as [->|Hb]; [done| | |].
  - rewrite list_lookup_alter_eq, Hi, list_lookup_alter_ne by done. intros Ex Eb.
    destruct (l !! b) as [[k1 u1]|] eqn:E; [|discriminate Eb]. injection Ex as <-. injection Eb as ->.
    assert (u1 = u0) as -> by (apply Hk; by eapply list_elem_of_lookup_2).
    rewrite (Hu k) in E by (by eapply list_elem_of_lookup_2).
    apply (proj1 (NoDup_alt _) Hn i b k0); rewrite list_lookup_fmap; [by rewrite Hi|by rewrite E].
  - rewrite list_lookup_alter_ne, list_lookup_alter_eq, Hi by done. intros Ea Ex.
    destruct (l !! a) as [[k1 u1]|] eqn:E; [|discriminate Ea]. injection Ex as <-. injection Ea as ->.
    assert (u1 = u0) as -> by (apply Hk; by eapply list_elem_of_lookup_2).
    rewrite (Hu k) in E by (by eapply list_elem_of_lookup_2).
    apply (proj1 (NoDup_alt _) Hn a i k0); rewrite list_lookup_fmap; [by rewrite E|by rewrite Hi].
  - rewrite !list_lookup_alter_ne by done. rewrite <-!list_lookup_fmap.
    by apply (proj1 (NoDup_alt _) Hn).
Qed.

(** ** txn_mod_queue_id *)
Section mod_queue_id.
Context (s : ovsdb) (H : queue_ok s) (rid : string) (qu : uuid) (q : queue).
Context (Hqu : (qu, q) ∈ rows s) (Hr : has_rid rid q = true).
Context (id_s : string) (k : Z) (Hk : scan_i64 id_s = Some k).

Definition set_id : queue → queue := with_q_ext <["ofc_id" := id_s]>.

Lemma set_id_rid r q0 : has_rid r (set_id q0) = has_rid r q0.
Proof. unfold has_rid, set_id. cbn. by rewrite lookup_insert_ne. Qed.
Lemma set_id_id q0 : queue_id (set_id q0) = Some k.
Proof using Hk. unfold queue_id, set_id. cbn. by rewrite lookup_insert_eq. Qed.

Lemma rid_is_qu u q0 : (u, q0) ∈ rows s → has_rid rid q0 = true → u = qu.
Proof using All. intros Hu Hr0. by apply (ok_rid s H u q0 qu q rid). Qed.

(** Every queue row of the new state, from its old row. *)
Lemma set_id_rows s1 v b : (v, b) ∈ rows (A := queue) (written qu set_id s1) ↔
  ∃ a, (v, a) ∈ rows s1 ∧ b = if bool_decide (v = qu) then set_id a else a.
Proof. by rewrite rows_written, elem_alter. Qed.

Lemma set_id_unlinked s1 : queue_ok s1 → rows (A := queue) s1 = rows s → in_no_qos s1 qu →
  queue_ok (written qu set_id s1).
Proof using All.
  intros H1 E Hno. apply queue_ok_write_unlinked; [done|done|].
  intros q0 r u' q' Hq0. rewrite set_id_rid. intros Hr0 Hu' Hr'.
  symmetry. by apply (ok_rid s1 H1 qu q0 u' q' r).
Qed.

Context (qs : uuid) (qr : qos) (i : nat) (k0 : Z).
Context (Hqs : (qs, qr) ∈ rows s) (Hi : qos_queues qr !! i = Some (k0, qu)).

Lemma qu_key k' : (k', qu) ∈ qos_queues qr → k' = k0.
Proof using H Hqu Hr Hqs Hi.
  intros Hin.
  destruct (ok_link s H qs qr k' qu Hqs Hin) as (q1 & Hq1 & Hid1).
  destruct (ok_link s H qs qr k0 qu Hqs) as (q2 & Hq2 & Hid2); [by eapply list_elem_of_lookup_2|].
  rewrite (nodup_key_unique _ _ _ _ (ok_queues s H) Hq1 Hqu) in Hid1.
  rewrite (nodup_key_unique _ _ _ _ (ok_queues s H) Hq2 Hqu) in Hid2.
  pose proof (has_rid_managed _ _ Hr) as Hm. specialize (Hid1 Hm). specialize (Hid2 Hm).
  congruence.
Qed.

Lemma elem_set_key k' u : (k', u) ∈ set_key i k (qos_queues qr) ↔
  (u ≠ qu ∧ (k', u) ∈ qos_queues qr) ∨ (u = qu ∧ k' = k).
Proof using All.
  unfold set_key. rewrite !list_elem_of_lookup. split.
  - intros (j & Hj). destruct (decide (j = i)) as [->|Hne].
    + rewrite list_lookup_alter_eq, Hi in Hj. injection Hj as <- <-. by right.
    + rewrite list_lookup_alter_ne in Hj by done. left. split; [|by exists j]. intros ->.
      rewrite (qu_key k') in Hj by (by eapply list_elem_of_lookup_2).
      apply Hne, (proj1 (NoDup_alt _) (ok_keys s H qs qr Hqs) j i k0);
        rewrite list_lookup_fmap; [by rewrite Hj|by rewrite Hi].
  - intros [[Hu (j & Hj)]|[-> ->]].
    + exists j. rewrite list_lookup_alter_ne; [done|]. intros ->. congruence.
    + exists i. by rewrite list_lookup_alter_eq, Hi.
Qed.

Definition rekeyed : ovsdb :=
  written qu set_id
    (written qs (with_qos_queues (map_column (A := queue) (set_key i k (qos_queues qr)) s)) s).

Definition without_qu : list (Z * uuid) := filter (λ kv, kv.2 ≠ qu) (qos_queues qr).
Definition stepped : ovsdb := written qu set_id (written qs (with_qos_queues without_qu) s).

Lemma alter_queues_twice l l' (m : list (uuid * qos)) :
  assoc_alter qs (with_qos_queues l) (assoc_alter qs (with_qos_queues l') m) =
  assoc_alter qs (with_qos_queues l) m.
Proof.
  unfold assoc_alter. rewrite <-list_fmap_compose. apply list_fmap_ext.
  intros _ [v b] _. cbn. by repeat (case_bool_decide; cbn).
Qed.

Lemma rekeyed_stepped : rekeyed =
  written qs (with_qos_queues (map_column (A := queue) (set_key i k (qos_queues qr)) s)) stepped.
Proof.
  unfold rekeyed, stepped, written. cbn -[assoc_alter]. unfold rows. cbn -[assoc_alter].
  by rewrite alter_queues_twice.
Qed.

Lemma without_qu_ok : entries_ok s qs without_qu.
Proof using H Hqs.
  apply (entries_ok_sub _ _ (qos_queues qr)); [by apply entries_ok_self| |].
  - intros kv Hkv. by apply list_elem_of_filter in Hkv as [_ ?].
  - apply (nodup_filter_keys _ _), (ok_keys s H qs qr Hqs).
Qed.

Lemma stepped_no_qos : in_no_qos (written qs (with_qos_queues without_qu) s) qu.
Proof using All.
  intros qs' q' k'. rewrite rows_written, elem_alter. intros (a & Ha & ->) Hin.
  case_bool_decide as Hd.
  - cbn in Hin. apply list_elem_of_filter in Hin as [Hin _]. done.
  - apply Hd. apply (ok_once s H qs' a k' qs qr k0 qu q Hqu); [by eapply has_rid_managed|done|done|done|].
    by eapply list_elem_of_lookup_2.
Qed.

Lemma rekeyed_ok : queue_ok rekeyed.
Proof using All.
  pose proof (queue_ok_set_queues qs _ s H without_qu_ok) as H1.
  pose proof (set_id_unlinked _ H1 eq_refl stepped_no_qos) as H2.
  rewrite rekeyed_stepped. apply queue_ok_set_queues; [exact H2|].
  split; [apply map_column_nodup|]. intros k' u [Hu%elem_set_key _]%map_column_elem.
  destruct Hu as [[Hne Hu]|[-> ->]].
  - destruct (entries_ok_self s qs qr H Hqs) as [_ Hl].
    destruct (Hl k' u Hu) as (q1 & Hq1 & Hm). exists q1. split.
    + apply set_id_rows. exists q1. by rewrite bool_decide_eq_false_2.
    + intros Hm1. destruct (Hm Hm1) as [? Honce]. split; [done|].
      intros qs' q' k1 Hq'. change (rows stepped) with
        (rows (A := qos) (written qs (with_qos_queues without_qu) s)) in Hq'.
      rewrite rows_written, elem_alter in Hq'. destruct Hq' as (a & Ha & ->).
      case_bool_decide; [done|]. by apply Honce.
  - exists (set_id q). split.
    + apply set_id_rows. exists q. by rewrite bool_decide_eq_true_2.
    + intros _. split; [apply set_id_id|]. intros qs' q' k1 Hq' Hin.
      by destruct (stepped_no_qos qs' q' k1).
Qed.

Lemma rekeyed_links : (∀ p k1 u, link s p k1 qu → link s p k u → u = qu) →
  rekeys s rekeyed k qu.
Proof using All.
  intros Hfree p k' u.
  change (link rekeyed p k' u) with (link (written qs (with_qos_queues
    (map_column (A := queue) (set_key i k (qos_queues qr)) s)) s) p k' u).
  rewrite link_set_queues by eauto with ovs.
  assert (∀ p k1, link s p k1 qu → ∃ pr, (p, pr) ∈ rows s ∧ port_qos pr = Some qs) as Hown.
  { intros p1 k1 (pr & qs' & q' & Hp & E & Hq' & Hin). exists pr. split; [done|].
    by rewrite (ok_once s H qs qr k0 qs' q' k1 qu q Hqu (has_rid_managed _ _ Hr) Hqs
      (list_elem_of_lookup_2 _ _ _ Hi) Hq' Hin). }
  assert (∀ p pr, (p, pr) ∈ rows s → port_qos pr = Some qs →
    ∀ k' u, (k', u) ∈ map_column (A := queue) (set_key i k (qos_queues qr)) s ↔
            (k', u) ∈ set_key i k (qos_queues qr)) as Hcol.
  { intros p1 pr1 Hp1 E1 k1 u1. rewrite map_column_all; [done| |].
    - apply (set_key_nodup _ _ _ k0 qu); [apply (ok_keys s H qs qr Hqs)|done| |apply qu_key].
      intros u2 Hu2. apply (Hfree p1 k0); [by exists pr1, qs, qr; eauto using list_elem_of_lookup_2|].
      by exists pr1, qs, qr.
    - intros [k2 u2] [[_ Hin]|[-> _]]%elem_set_key; [by eapply link_live|eauto with ovs]. }
  split.
  - intros (pr & qs' & Hp & E & [[-> Hu]|[Hd (q1 & Hq1 & Hu)]]).
    + apply (Hcol p pr Hp E), elem_set_key in Hu as [[? ?]|[-> ->]].
      * left. split; [by exists pr, qs, qr|done].
      * right. exists k0. split; [|done]. exists pr, qs, qr. eauto using list_elem_of_lookup_2.
    + left. split; [by exists pr, qs', q1|]. intros ->. apply Hd.
      by apply (ok_once s H qs' q1 k' qs qr k0 qu q Hqu (has_rid_managed _ _ Hr) Hq1 Hu Hqs),
        (list_elem_of_lookup_2 _ i).
  - intros [[(pr & qs' & q1 & Hp & E & Hq1 & Hu) Hne]|(k1 & Hl & -> & ->)].
    + exists pr, qs'. split_and!; [done|done|].
      destruct (decide (qs' = qs)) as [->|]; [left; split; [done|]|right; eauto].
      apply (Hcol p pr Hp E), elem_set_key. left. split; [done|].
      by rewrite <-(nodup_key_unique _ _ _ _ (ok_qoss s H) Hq1 Hqs).
    + destruct (Hown p k1 Hl) as (pr & Hp & E). exists pr, qs. split_and!; [done|done|].
      left. split; [done|]. apply (Hcol p pr Hp E), elem_set_key. by right.
Qed.

(** ** Unlinking the queue *)

(** The queue has lost its links; the others and all queue rows are as before. *)
Definition unlinks (s' : ovsdb) : Prop :=
  queue_ok s' ∧ drops_links s s' qu ∧ in_no_qos s' qu ∧
  rows (A := queue) s' = rows (A := queue) s.

Lemma elem_delete_link k' u :
  (k', u) ∈ delete i (qos_queues qr) ↔ (k', u) ∈ qos_queues qr ∧ u ≠ qu.
Proof using H Hqu Hr Hqs Hi.
  pose proof (ok_keys s H qs qr Hqs) as Hn.
  rewrite (delete_Permutation _ _ _ Hi) in Hn. cbn in Hn. apply NoDup_cons in Hn as [Hk0 Hn].
  rewrite (delete_Permutation _ _ _ Hi) at 2. rewrite elem_of_cons. split.
  - intros Hin. split; [by right|]. intros ->. apply Hk0.
    rewrite <-(qu_key k') by by eapply list_elem_of_delete_inv.
    apply list_elem_of_fmap. by exists (k', qu).
  - by intros [[[= -> ->]|Hin] Hne].
Qed.

Lemma other_qos_without_qu qs' q' k' :
  (qs', q') ∈ rows s → qs' ≠ qs → (k', qu) ∉ qos_queues q'.
Proof using H Hqu Hr Hqs Hi.
  intros Hq' Hne Hin. apply Hne.
  apply (ok_once s H qs' q' k' qs qr k0 qu q Hqu (has_rid_managed _ _ Hr) Hq' Hin Hqs).
  by eapply list_elem_of_lookup_2.
Qed.

Lemma unlink_entry : unlinks
  (written qs (with_qos_queues (map_column (A := queue) (delete i (qos_queues qr)) s)) s).
Proof using H Hqu Hr Hqs Hi.
  assert (map_column (A := queue) (delete i (qos_queues qr)) s ≡ₚ delete i (qos_queues qr)) as HP.
  { apply map_column_all; [apply delete_key_nodup, (ok_keys s H qs qr Hqs)|].
    intros [k1 u1] [Hin _]%elem_delete_link. by eapply link_live. }
  split_and!; [| | |done].
  - apply queue_ok_set_queues; [done|].
    apply (entries_ok_sub _ _ (qos_queues qr)); [by apply entries_ok_self| |apply map_column_nodup].
    intros [k1 u1]. rewrite HP. by intros [? _]%elem_delete_link.
  - intros p k' u. rewrite link_set_queues by eauto with ovs. setoid_rewrite HP.
    setoid_rewrite elem_delete_link. split.
    + intros (pr & qs' & Hp & E & [(-> & Hu & Hne)|(Hd & q1 & Hq1 & Hu)]).
      * split; [by exists pr, qs, qr|done].
      * split; [by exists pr, qs', q1|]. intros ->. by eapply other_qos_without_qu.
    + intros [(pr & qs' & q1 & Hp & E & Hq1 & Hu) Hne]. exists pr, qs'. split_and!; [done|done|].
      destruct (decide (qs' = qs)) as [->|]; [left|right; eauto].
      by rewrite <-(nodup_key_unique _ _ _ _ (ok_qoss s H) Hq1 Hqs).
  - intros qs' q' k'. rewrite rows_written, elem_alter. intros (a & Ha & ->).
    case_bool_decide as Hd; [|by eapply other_qos_without_qu].
    cbn. rewrite HP. by intros [_ ?]%elem_delete_link.
Qed.

Context (Hone : length (qos_queues qr) = 1).

Lemma only_entry : qos_queues qr = [(k0, qu)].
Proof using Hone Hi.
  destruct (qos_queues qr) as [|e [|? ?]]; [done| |done]. destruct i; [|done]. by injection Hi as ->.
Qed.

Lemma deleted_qos_rows v b :
  (v, b) ∈ rows (A := qos) (deleted qs qr s) ↔ (v, b) ∈ rows s ∧ v ≠ qs.
Proof. by rewrite rows_deleted, elem_remove. Qed.

Lemma unlink_unported : (∀ p pr, (p, pr) ∈ rows s → port_qos pr ≠ Some qs) →
  unlinks (deleted (A := qos) qs qr s).
Proof using H Hqu Hr Hqs Hi Hone.
  intros Hno. split_and!; [by apply queue_ok_delete_qos| | |done].
  - intros p k' u. unfold link. setoid_rewrite deleted_qos_rows. split.
    + intros (pr & qs' & q1 & Hp & E & [Hq1 Hne] & Hu). split; [by exists pr, qs', q1|].
      intros ->. by eapply other_qos_without_qu.
    + intros [(pr & qs' & q1 & Hp & E & Hq1 & Hu) _]. exists pr, qs', q1.
      split_and!; try done. intros ->. by apply (Hno p pr).
  - intros qs' q' k' [Hq' Hne]%deleted_qos_rows. by eapply other_qos_without_qu.
Qed.

Lemma unlink_last pu pr : (pu, pr) ∈ rows s → port_qos pr = Some qs →
  unlinks (written pu (with_port_qos None) (deleted (A := qos) qs qr s)).
Proof using H Hqu Hr Hqs Hi Hone.
  intros Hp E.
  change (written pu (with_port_qos None) (deleted (A := qos) qs qr s))
    with (deleted (A := qos) qs qr (written pu (with_port_qos None) s)).
  assert (∀ p b, (p, b) ∈ rows (A := port) (written pu (with_port_qos None) s) ↔
    (p = pu ∧ b = with_port_qos None pr) ∨ (p ≠ pu ∧ (p, b) ∈ rows s)) as Hrows.
  { intros p b. rewrite rows_written, elem_alter. split.
    - intros (a & Ha & ->). case_bool_decide as Hd; [left|by right]. subst.
      by rewrite (nodup_key_unique _ _ _ _ (ok_ports s H) Ha Hp).
    - intros [[-> ->]|[Hne Hb]]; [exists pr; by rewrite bool_decide_eq_true_2|].
      exists b. by rewrite bool_decide_eq_false_2. }
  split_and!; [| | |done].
  - apply queue_ok_delete_qos; [by apply queue_ok_write_port|].
    intros p b [[-> ->]|[Hne Hb]]%Hrows; [done|]. intros E'. apply Hne.
    by apply (ok_owner s H p b pu pr qs).
  - intros p k' u. unfold link.
    change (rows (A := port) (deleted (A := qos) qs qr (written pu (with_port_qos None) s)))
      with (rows (A := port) (written pu (with_port_qos None) s)).
    setoid_rewrite Hrows. setoid_rewrite deleted_qos_rows. split.
    + intros (pr' & qs' & q1 & [[-> ->]|[Hne Hp']] & E' & [Hq1 Hnq] & Hu); [done|].
      split; [by exists pr', qs', q1|]. intros ->. by eapply other_qos_without_qu.
    + intros [(pr' & qs' & q1 & Hp' & E' & Hq1 & Hu) Hne]. exists pr', qs', q1.
      assert (qs' ≠ qs) as Hnq.
      { intros ->. rewrite (nodup_key_unique _ _ _ _ (ok_qoss s H) Hq1 Hqs), only_entry in Hu.
        apply list_elem_of_singleton in Hu as [= -> ->]. done. }
      split_and!; try done. right. split; [|done]. intros ->.
      rewrite (nodup_key_unique _ _ _ _ (ok_ports s H) Hp' Hp) in E'. congruence.
  - intros qs' q' k' [Hq' Hne]%deleted_qos_rows. by eapply other_qos_without_qu.
Qed.
End mod_queue_id.

(** ** The operations *)

Definition no_queue (s : ovsdb) (rid : string) : Prop :=
  ∀ u q, (u, q) ∈ rows s → has_rid rid q = false.

Lemma txn_mod_queue_id_spec s rid id_s : queue_ok s →
  returns (fine (λ s', ∃ qu q k, (qu, q) ∈ rows s ∧ has_rid rid q = true ∧
      scan_i64 id_s = Some k ∧ rows (A := queue) s' = assoc_alter qu (set_id id_s) (rows s) ∧
      (in_no_qos s qu → in_no_qos s' qu) ∧
      ((∀ p k1 u, link s p k1 qu → link s p k u → u = qu) → rekeys s s' k qu))
      (scan_i64 id_s = None ∨ no_queue s rid))
    (txn_mod_queue_id (Some rid) (Some id_s)) s.
Proof.
  intros H. unfold txn_mod_queue_id.
  destruct (scan_i64 id_s) as [k|] eqn:Hk; [|by apply reject_fine; [|left]].
  eapply returns_bind; [apply find_queue_spec|].
  intros [[qu q]|] ? [-> Hq]; cbn beta iota; [|by apply reject_fine; [|right]].
  destruct Hq as [Hqu Hr].
  apply returns_gets. eapply returns_bind; [by apply (find_qos_link_spec s H rid)|].
  intros [[qs i]|] ? [-> Hl]; cbn beta iota.
  - destruct Hl as (qr & Hqs & k0 & u0 & q0 & Hi & Hu0 & Hr0).
    assert (u0 = qu) as -> by by apply (ok_rid s H u0 q0 qu q rid).
    unfold set_queues.
    eexists EXIT_SUCCESS, (rekeyed s qu id_s k qs qr i). split.
    { erewrite bind_run.
      2: { erewrite bind_run.
           2: { apply row_live, elem_assoc; [apply H|exact Hqs]. }
           rewrite bind_gets. apply row_write_live. eauto with ovs. }
      erewrite bind_run; [done|]. apply row_write_live. exact (elem_keys _ _ _ Hqu). }
    split; [by eapply rekeyed_ok|]. exists qu, q, k. split_and!; try done.
    + intros Hno. destruct (Hno qs qr k0 Hqs). by eapply list_elem_of_lookup_2.
    + by eapply rekeyed_links.
  - apply (returns_bind (λ _ s', s' = s)); [by apply returns_ret|]. intros _ ? ->.
    assert (in_no_qos s qu) as Hno.
    { intros qs qr k1 Hqs Hin. by rewrite (Hl qs qr Hqs k1 qu q Hin Hqu) in Hr. }
    apply returns_write; [eauto with ovs|]. apply returns_ret. split.
    { by apply (set_id_unlinked s H rid qu q Hqu Hr id_s k Hk s). }
    exists qu, q, k. split_and!; try done.
    intros _ p k' u. change (link (written qu _ s) p k' u) with (link s p k' u).
    assert (∀ k, ¬ link s p k qu) as Hnl.
    { intros k1 (pr & qs & qr & _ & _ & Hqs & Hin). by apply (Hno qs qr k1). }
    split; [intros Hu; left; split; [done|]; intros ->; by apply (Hnl k')|].
    intros [[? _]|(k1 & Hu & _)]; [done|by apply Hnl in Hu].
Qed.

Lemma txn_del_qos_queue_run s qs qr i : queue_ok s → (qs, qr) ∈ rows s →
  txn_del_qos_queue qs i s =
    if bool_decide (length (qos_queues qr) = 1) then Done ((None, EXIT_SUCCESS), deleted qs qr s)
    else Done ((Some qs, EXIT_SUCCESS), written qs (with_qos_queues
           (map_column (A := queue) (delete i (qos_queues qr)) s)) s).
Proof.
  intros H Hqs. pose proof (elem_assoc _ _ _ (ok_qoss s H) Hqs) as E.
  unfold txn_del_qos_queue, set_queues. erewrite bind_run by by apply row_live.
  case_bool_decide.
  - by erewrite bind_run by by apply row_delete_live.
  - erewrite bind_run; [done|]. rewrite bind_gets. apply row_write_live. eauto with ovs.
Qed.

(** A queue of the configuration that some port sends. *)
Definition ported (s : ovsdb) (rid : string) : Prop :=
  ∃ p k u q, link s p k u ∧ (u, q) ∈ rows s ∧ has_rid rid q = true.

Lemma txn_del_queue_port_spec s rid : queue_ok s →
  returns (λ r s', queue_ok s' ∧ match r with
      | EXIT_SUCCESS => ∃ qu q, (qu, q) ∈ rows s ∧ has_rid rid q = true ∧ unlinks s qu s'
      | EXIT_FAILURE => is_Some (o_err s') ∧ ¬ ported s rid
      end) (txn_del_queue_port (Some rid)) s.
Proof.
  intros H. unfold txn_del_queue_port. apply returns_gets.
  eapply returns_bind; [by apply (find_port_link_spec s H rid)|].
  intros [[[pu qs] i]|] ? [-> Hl]; cbn beta iota.
  - destruct Hl as (pr & qr & Hp & E & Hqs & k0 & qu & q & Hi & Hqu & Hr).
    pose proof (txn_del_qos_queue_run s qs qr i H Hqs) as Hrun. case_bool_decide as Hlen.
    + eexists EXIT_SUCCESS, _. split.
      { erewrite bind_run by exact Hrun. cbn beta iota.
        erewrite bind_run; [done|]. apply row_write_live. exact (elem_keys _ _ _ Hp). }
      pose proof (unlink_last s H rid qu q Hqu Hr qs qr i k0 Hqs Hi Hlen pu pr Hp E) as Hun.
      split; [apply Hun|by exists qu, q].
    + eexists EXIT_SUCCESS, _. split; [by erewrite bind_run by exact Hrun|].
      pose proof (unlink_entry s H rid qu q Hqu Hr qs qr i k0 Hqs Hi) as Hun.
      split; [apply Hun|by exists qu, q].
  - exists EXIT_FAILURE, (set_oerr (Some (nc_err_new NC_ERR_OP_FAILED)) s). split; [done|].
    split; [by apply queue_ok_err|]. split; [by eexists|].
    intros (p & k & u & q & (pr & qs & qr & Hp & E & Hqs & Hin) & Hu & Hr).
    by rewrite (Hl p pr qs qr Hp E Hqs k u q Hin Hu) in Hr.
Qed.

Lemma find_queue_port_spec s rid : queue_ok s →
  returns (λ o s', s' = s ∧ match o with
      | Some p => ∃ k u q, link s p k u ∧ (u, q) ∈ rows s ∧ has_rid rid q = true
      | None => ¬ ported s rid
      end) (find_queue_port rid) s.
Proof.
  intros H. unfold find_queue_port. apply returns_gets.
  eapply returns_bind; [by apply (find_port_link_spec s H rid)|].
  intros [[[pu qs] i]|] ? [-> Hl]; cbn beta iota; apply returns_ret; (split; [done|]).
  - destruct Hl as (pr & qr & Hp & E & Hqs & k0 & qu & q & Hi & Hqu & Hr).
    exists k0, qu, q. split_and!; [|done|done]. exists pr, qs, qr.
    split_and!; [done|done|done|by eapply list_elem_of_lookup_2].
  - intros (p & k & u & q & (pr & qs & qr & Hp & E & Hqs & Hin) & Hu & Hr).
    by rewrite (Hl p pr qs qr Hp E Hqs k u q Hin Hu) in Hr.
Qed.

Lemma del_unported_link_spec s rid : queue_ok s → ¬ ported s rid →
  returns (λ r s', r = EXIT_SUCCESS ∧
      ((s' = s ∧ rid_unlinked s rid) ∨
       ∃ qu q, (qu, q) ∈ rows s ∧ has_rid rid q = true ∧ unlinks s qu s'))
    (del_unported_link rid) s.
Proof.
  intros H Hnp. unfold del_unported_link. apply returns_gets.
  eapply returns_bind; [by apply (find_qos_link_spec s H rid)|].
  intros [[qs i]|] ? [-> Hl]; cbn beta iota.
  - destruct Hl as (qr & Hqs & k0 & qu & q & Hi & Hqu & Hr).
    pose proof (txn_del_qos_queue_run s qs qr i H Hqs) as Hrun.
    assert (∀ p pr, (p, pr) ∈ rows s → port_qos pr ≠ Some qs) as Hno.
    { intros p pr Hp E. apply Hnp. exists p, k0, qu, q. split_and!; [|done|done].
      exists pr, qs, qr. split_and!; [done|done|done|by eapply list_elem_of_lookup_2]. }
    case_bool_decide as Hlen; eexists EXIT_SUCCESS, _;
      (split; [by erewrite bind_run by exact Hrun|]); (split; [done|]); right; exists qu, q;
      (split_and!; [done|done|]).
    + by apply (unlink_unported s H rid qu q Hqu Hr qs qr i k0 Hqs Hi Hlen).
    + by apply (unlink_entry s H rid qu q Hqu Hr qs qr i k0 Hqs Hi).
  - apply returns_ret. split; [done|]. left. split; [done|].
    intros qu q Hqu Hr qs qr k Hqs Hin. by rewrite (Hl qs qr Hqs k qu q Hin Hqu) in Hr.
Qed.

Lemma delete_unlinked s s1 rid : queue_ok s →
  (s1 = s ∧ rid_unlinked s rid) ∨
    (∃ qu q, (qu, q) ∈ rows s ∧ has_rid rid q = true ∧ unlinks s qu s1) →
  returns (fine (λ s', ∃ qu q, (qu, q) ∈ rows s ∧ has_rid rid q = true ∧
      in_no_qos s' qu ∧ drops_links s s' qu ∧
      ∀ u (q' : queue), (u, q') ∈ rows s' ↔ (u, q') ∈ rows s ∧ u ≠ qu) (no_queue s rid))
    (q ← find_queue (Some rid);
     match q with
     | None => reject (bad_elem "resource-id" "Queue does not exist in OVSDB")
     | Some (qu, _) => _ ← row_delete (A := queue) qu; mret EXIT_SUCCESS
     end) s1.
Proof.
  intros H Hun.
  assert (queue_ok s1 ∧ rows (A := queue) s1 = rows s) as [H1 Hrows].
  { destruct Hun as [[-> _]|(qu & q & _ & _ & H1 & _ & _ & ?)]; done. }
  eapply returns_bind; [apply find_queue_spec|].
  intros [[qu q]|] ? [-> Hq]; cbn beta iota.
  2: { apply reject_fine; [done|]. unfold no_queue. by rewrite <-Hrows. }
  destruct Hq as [Hqu Hr].
  assert (in_no_qos s1 qu ∧ drops_links s s1 qu) as [Hno Hdrop].
  { destruct Hun as [[-> Hno]|(qu' & q' & Hqu' & Hr' & _ & Hd & Hno & _)].
    - assert (in_no_qos s qu) as Hnq by by eapply Hno. split; [done|].
      intros p k u. split; [|by intros [? _]]. intros Hl. split; [done|]. intros ->.
      destruct Hl as (pr & qs & qr & _ & _ & Hqs & Hin). by apply (Hnq qs qr k).
    - rewrite Hrows in Hqu. by rewrite (ok_rid s H qu q qu' q' rid). }
  eapply returns_delete; [apply H1|done|]. apply returns_ret. split.
  { by apply queue_ok_delete_queue. }
  exists qu, q. rewrite <-Hrows. split_and!; try done.
  intros u q'. by rewrite rows_deleted, elem_remove.
Qed.

Lemma txn_del_queue_spec s rid : queue_ok s →
  returns (fine (λ s', ∃ qu q, (qu, q) ∈ rows s ∧ has_rid rid q = true ∧
      in_no_qos s' qu ∧ drops_links s s' qu ∧
      ∀ u (q' : queue), (u, q') ∈ rows s' ↔ (u, q') ∈ rows s ∧ u ≠ qu) (no_queue s rid))
    (txn_del_queue (Some rid)) s.
Proof.
  intros H. unfold txn_del_queue.
  eapply returns_bind; [by apply find_queue_port_spec|].
  intros [p|] ? [-> Hp]; cbn beta iota; unfold if_ok.
  - eapply returns_bind; [by apply txn_del_queue_port_spec|].
    intros [|] s1 [H1 Hs1]; cbn beta iota.
    + apply delete_unlinked; [done|]. by right.
    + apply returns_ret. destruct Hs1 as [? []].
      by destruct Hp as (k & u & q & ?); exists p, k, u, q.
  - eapply returns_bind; [by apply del_unported_link_spec|].
    intros r s1 [-> Hs1]. by apply delete_unlinked.
Qed.

(** ** txn_add_queue *)

Lemma add_queue_options_spec rid l s : queue_ok s →
  returns (fine (λ s', ext_rows s' = ext_rows s) True) (add_queue_options (Some rid) l) s.
Proof.
  revert s. induction l as [|aux l IH]; intros s H; cbn [add_queue_options].
  { apply returns_ret. by split. }
  unfold if_ok. eapply returns_bind; [by apply txn_mod_queue_options_spec|].
  intros [|] s1 [H1 Hs1]; cbn beta iota; [|by apply returns_ret].
  eapply returns_mono; [by apply IH|]. intros [|] s2 [H2 Hs2]; (split; [done|]); [|done].
  destruct Hs1 as [_ <-]. exact Hs2.
Qed.

(** The new row with its resource-id. *)
Lemma queue_ok_new rid s : queue_ok s →
  (∀ u q, (u, q) ∈ rows s → has_rid rid q = false) →
  let qu := idl_uuid (o_used s) in
  let f := with_q_ext (λ m, match m !! OFC_RESOURCE_ID with
                            | Some _ => m
                            | None => <[OFC_RESOURCE_ID := rid]> m
                            end) in
  let s2 := written qu f (inserted (Queue ∅ ∅) s) in
  queue_ok s2 ∧ in_no_qos s2 qu ∧ (qu, Queue {[OFC_RESOURCE_ID := rid]} ∅) ∈ rows s2 ∧
  qu ∉ (rows (A := queue) s).*1.
Proof.
  intros H Hrid qu f s2.
  assert (qu ∉ o_used s) as Hfresh by apply idl_uuid_fresh.
  assert (qu ∉ (rows (A := queue) s).*1) as Hnew.
  { intros Hin. apply Hfresh, (ok_used s H). by left. }
  assert (rows (A := queue) (inserted (Queue ∅ ∅) s) ≡ₚ (qu, Queue ∅ ∅) :: rows s) as HP
    by apply idl_place_perm.
  assert (in_no_qos s qu) as Hno.
  { intros qs q k Hqs Hin. apply Hnew. by eapply (link_live s H qs q Hqs k). }
  split_and!; [|exact Hno| |done].
  - apply queue_ok_write_unlinked; [by apply queue_ok_insert_queue|exact Hno|].
    intros q r u' q'. rewrite HP, !elem_of_cons. intros [[= ->]|Hq]; [|by destruct Hnew; eauto with ovs].
    intros Hr [[= -> ->]|Hu'] Hr'; [done|].
    apply has_rid_spec in Hr. assert (Some rid = Some r) as [= <-] by exact Hr.
    by rewrite (Hrid u' q') in Hr'.
  - unfold s2. rewrite rows_written, elem_alter. exists (Queue ∅ ∅).
    split; [rewrite HP; by left|]. by rewrite bool_decide_eq_true_2.
Qed.

Lemma txn_add_queue_spec s node rid :
  queue_ok s → qi_rid (foldl queue_field (QueueInput None None None None) (children node)) = Some rid →
  (∀ u q, (u, q) ∈ rows s → has_rid rid q = false) →
  returns (fine (λ s', ∃ qu q id_s k, (qu, q) ∈ rows s' ∧ qu ∉ (rows (A := queue) s).*1 ∧
      has_rid rid q = true ∧ queue_id q = Some k ∧ scan_i64 id_s = Some k ∧
      qi_id (foldl queue_field (QueueInput None None None None) (children node)) = Some id_s) True)
    (txn_add_queue (Some node)) s.
Proof.
  intros H Erid Hrid. unfold txn_add_queue. cbv zeta. rewrite Erid.
  set (inp := foldl _ _ _) in *. destruct (qi_id inp) as [id_s|] eqn:Eid; [|by apply reject_fine].
  destruct (queue_ok_new rid s H Hrid) as (H2 & Hno2 & Hin2 & Hnew).
  set (qu := idl_uuid (o_used s)) in *.
  apply returns_insert, returns_write.
  { apply (elem_keys _ (Queue ∅ ∅)). unfold inserted. cbn. rewrite idl_place_perm. by left. }
  fold qu. set (s2 := written qu _ _) in *. unfold if_ok.
  assert (has_rid rid (Queue {[OFC_RESOURCE_ID := rid]} ∅) = true) as Hr2.
  { by apply has_rid_spec. }
  eapply returns_bind; [by apply txn_mod_queue_id_spec|].
  intros [|] s3 [H3 Hs3]; cbn beta iota; [|by apply returns_ret; destruct Hs3].
  destruct Hs3 as (qu' & q' & k & Hq' & Hr' & Hk & Hrows3 & Hno3 & _).
  assert (qu' = qu) as -> by by eapply (ok_rid s2 H2 _ q' _ _ rid).
  assert ((qu, <["ofc_id" := id_s]> {[OFC_RESOURCE_ID := rid]}) ∈ ext_rows s3) as Hext3.
  { apply ext_rows_elem. eexists. split; [rewrite Hrows3; apply elem_alter; eexists; split; [exact Hin2|done]|].
    by rewrite bool_decide_eq_true_2. }
  assert (∀ s', queue_ok s' → (qu, <["ofc_id" := id_s]> {[OFC_RESOURCE_ID := rid]}) ∈ ext_rows s' →
    ∃ qu q id1 k, (qu, q) ∈ rows s' ∧ qu ∉ (rows (A := queue) s).*1 ∧
      has_rid rid q = true ∧ queue_id q = Some k ∧ scan_i64 id1 = Some k ∧
      Some id_s = Some id1) as Hfin.
  { intros s' _ (q1 & Hq1 & E1)%ext_rows_elem. exists qu, q1, id_s, k. split_and!; try done.
    - apply has_rid_spec. by rewrite E1, lookup_insert_ne.
    - unfold queue_id. by rewrite E1, lookup_insert_eq. }
  assert (rid_unlinked s3 rid) as Hun3.
  { intros v q3 Hv Hr3. assert (v = qu) as ->; [|by apply Hno3].
    apply ext_rows_elem in Hext3 as (q1 & Hq1 & E1). eapply (ok_rid s3 H3 v q3 qu q1 rid); try done.
    apply has_rid_spec. by rewrite E1, lookup_insert_ne. }
  eapply (returns_bind (fine (λ s4, ext_rows s4 = ext_rows s3) True)).
  { destruct (qi_port inp) as [p|]; [|by apply returns_ret].
    eapply returns_mono; [by apply txn_add_queue_port_spec|].
    intros [|] s4 [H4 Hs4]; (split; [done|]); [|by destruct Hs4].
    destruct Hs4 as (? & ? & ? & ? & ? & _ & _ & _ & _ & _ & E4 & _).
    change (ext_rows s4 = ext_rows s3). unfold ext_rows. by rewrite E4. }
  intros [|] s4 [H4 E4]; cbn beta iota; [|by apply returns_ret].
  eapply (returns_bind (fine (λ s5, ext_rows s5 = ext_rows s3) True)).
  { destruct (qi_prop inp) as [prop|]; [|by apply returns_ret]. rewrite <-E4.
    by apply add_queue_options_spec. }
  intros [|] s5 [H5 E5]; cbn beta iota; [|by apply returns_ret].
  assert ((qu, <["ofc_id" := id_s]> {[OFC_RESOURCE_ID := rid]}) ∈ ext_rows s5) as Hext5
    by by rewrite E5.
  apply ext_rows_elem in Hext5 as Hq5. destruct Hq5 as (q5 & Hq5 & _).
  apply returns_write; [eauto with ovs|]. apply returns_ret.
  assert (queue_ok (written qu (with_q_other id) s5)) as H6 by by apply queue_ok_write_queue.
  split; [done|]. apply Hfin; [done|]. by rewrite ext_rows_write.
Qed.

(** ** ofc_check_bridge_queue *)

(** Ports have names, and bridges refer to ports. *)
Definition bridges_named (s : ovsdb) : Prop :=
  (∀ p (pr : port), (p, pr) ∈ rows s → is_Some (port_name pr)) ∧
  (∀ b (br : bridge), (b, br) ∈ rows s → Forall (λ p, p ∈ (rows (A := port) s).*1) (br_ports br)).

Lemma port_in_bridge_spec nm l s : queue_ok s → bridges_named s →
  Forall (λ p, p ∈ (rows (A := port) s).*1) l →
  returns (λ _ s', s' = s) (port_in_bridge (Some nm) l) s.
Proof.
  intros H [Hn _]. induction l as [|p l IH]; cbn [port_in_bridge]; [intros _; by apply returns_ret|].
  intros [Hp Hl]%Forall_cons. destruct (keys_elem _ _ Hp) as [pr Hpr].
  eapply returns_row; [apply H|done|]. destruct (Hn p pr Hpr) as [a ->].
  case_bool_decide; [by apply returns_ret|by apply IH].
Qed.

Lemma ofc_check_bridge_queue_spec s br rid : queue_ok s → bridges_named s →
  returns (λ _ s', s' = s) (ofc_check_bridge_queue br rid) s.
Proof.
  intros H Hb. unfold ofc_check_bridge_queue. destruct br as [nm|], rid as [rid|]; try by apply returns_ret.
  eapply returns_bind; [apply find_queue_spec|]. intros [[qu q]|] ? [-> _]; [|by apply returns_ret].
  eapply returns_bind; [by apply find_queue_port_spec|]. intros [pu|] ? [-> Hpu]; [|by apply returns_ret].
  destruct Hpu as (k & u & q' & (pr & qs & qr & Hp & _) & _).
  eapply returns_bind; [apply (find_row_spec (A := bridge))|].
  intros [[b br]|] ? [-> Hbr]; [|by apply returns_ret].
  eapply returns_row; [apply H|exact Hp|]. destruct (proj1 Hb pu pr Hp) as [a ->].
  apply port_in_bridge_spec; [done|done|]. apply (proj2 Hb b br), Hbr.
Qed.

End specs.
