(* ===== verification/OvsBridgeFacts.v ===== *)
(** * Facts on bridges and controllers

    The copy loops that drop an entry of a column, finding a row again after a
    write, the datapath-id conversion and the shape of controller targets. *)

From S2P Require Import Prelude.
From S2P Require Import Xml.
From S2P Require Import EditTree.
From S2P Require Import Ovsdb.
From S2P Require Import OvsFacts.
From S2P Require Import OvsBridges.
From S2P Require Import OvsControllers.

Section facts.
Context {LX : LibXml} {OI : OvsIdl}.

Lemma find_row_run {A} `{Row A} (P : A → bool) s r :
  find_first (λ r, P r.2) (rows s) = r → find_row P s = Done (r, s).
Proof. by intros <-. Qed.

(** ** The copy loop *)
Lemma keep_others_run {B} (differs : B → M ovsdb bool) (d : B → bool) n acc l s :
  (∀ x, x ∈ l → differs x s = Done (d x, s)) → length acc ≤ n →
  keep_others differs n acc l s =
  Done (let r := acc ++ filter (λ x, d x = true) l in
        if bool_decide (length r ≤ n) then Some r else None, s).
Proof.
  revert acc. induction l as [|x l IH]; intros acc Hd Hn; cbn [keep_others].
  { cbn. rewrite app_nil_r, bool_decide_eq_true_2 by done. done. }
  erewrite bind_run by (apply Hd; by left). rewrite filter_cons.
  destruct (d x) eqn:E.
  - rewrite decide_True by done. case_bool_decide as Hlen.
    + rewrite bool_decide_eq_false_2; [done|]. rewrite length_app. cbn. lia.
    + rewrite IH; [|intros y Hy; apply Hd; by right|rewrite length_app; cbn; lia].
      by rewrite <-app_assoc.
  - rewrite decide_False by done. apply IH; [|done]. intros y Hy. apply Hd. by right.
Qed.

(** ** Ports of a bridge *)
Definition named_port (nm : string) (p : port) : bool := xmlStrEqual (Some nm) (port_name p).
Definition named_bridge (nm : string) (b : bridge) : bool := xmlStrEqual (Some nm) (br_name b).

(** The bridge with the name, if any, and its ports. *)
Definition the_bridge (s : ovsdb) (nm : string) : option (uuid * bridge) :=
  find_first (λ r, named_bridge nm r.2) (rows s).
Definition ports_of (s : ovsdb) (nm : string) : option (list uuid) :=
  br_ports ∘ snd <$> the_bridge s nm.

Lemma the_bridge_elem s nm bu b : the_bridge s nm = Some (bu, b) → (bu, b) ∈ rows s.
Proof. intros H. by apply find_first_elem in H as [? _]. Qed.

Lemma find_bridge_run s nm r : the_bridge s nm = r → find_bridge nm s = Done (r, s).
Proof. intros <-. done. Qed.

Lemma the_bridge_written s nm bu b f : the_bridge s nm = Some (bu, b) →
  (∀ b, br_name (f b) = br_name b) → the_bridge (written bu f s) nm = Some (bu, f b).
Proof.
  intros Hb Hf. unfold the_bridge. rewrite rows_written.
  rewrite (find_first_alter (named_bridge nm)) by (intros a; unfold named_bridge; by rewrite Hf).
  fold (the_bridge s nm). rewrite Hb. cbn -[bool_decide]. by rewrite bool_decide_eq_true_2.
Qed.

Lemma set_ports_run s bu l : bu ∈ (rows (A := bridge) s).*1 →
  set_ports bu l s = Done (tt, written bu (with_br_ports (set_column (A := port) l s)) s).
Proof. intros Hb. unfold set_ports. rewrite bind_gets. by apply row_write_live. Qed.

(** The ports are rows, and the one with the name, if any, is pu. *)
Definition ports_ok (s : ovsdb) (nm : string) (pu : uuid) (l : list uuid) : Prop :=
  NoDup l ∧ ∀ p, p ∈ l → ∃ pr, (p, pr) ∈ rows s ∧ (named_port nm pr = true ↔ p = pu).

Section del_port.
Context (s : ovsdb) (nm : string) (pu : uuid) (l : list uuid).
Context (Hn : NoDup (rows (A := port) s).*1) (Hl : ports_ok s nm pu l).

Lemma port_differs_run p : p ∈ l → port_differs nm p s = Done (bool_decide (p ≠ pu), s).
Proof using All.
  intros Hp. destruct Hl as [_ Hl']. destruct (Hl' p Hp) as (pr & Hpr & Hnm).
  unfold port_differs. erewrite bind_run by (apply row_live, elem_assoc; done).
  fold (named_port nm pr). destruct (named_port nm pr) eqn:E; (rewrite E || idtac); cbn.
  - rewrite bool_decide_eq_false_2; [done|]. rewrite <-Hnm. tauto.
  - rewrite bool_decide_eq_true_2; [done|]. rewrite <-Hnm. congruence.
Qed.

Definition without_pu : list uuid := filter (λ p, bool_decide (p ≠ pu) = true) l.

Lemma without_pu_elem p : p ∈ without_pu ↔ p ∈ l ∧ p ≠ pu.
Proof. unfold without_pu. rewrite list_elem_of_filter, bool_decide_eq_true. tauto. Qed.

Lemma without_pu_length : length without_pu = length l - (if bool_decide (pu ∈ l) then 1 else 0).
Proof using Hl.
  destruct Hl as [Hnd _]. case_bool_decide as Hin.
  - assert (l ≡ₚ pu :: without_pu) as HP.
    { apply NoDup_Permutation; [done| |].
      - apply NoDup_cons. split; [rewrite without_pu_elem; tauto|by apply NoDup_filter].
      - intros x. rewrite elem_of_cons, without_pu_elem. destruct (decide (x = pu)); naive_solver. }
    apply Permutation_length in HP. cbn in HP. lia.
  - assert (without_pu = l) as ->; [|lia]. unfold without_pu.
    apply filter_keeps_all. intros x Hx. apply bool_decide_eq_true. congruence.
Qed.

Lemma live_without_pu : set_column (A := port) without_pu s ≡ₚ without_pu.
Proof using Hl.
  destruct Hl as [Hnd Hl']. apply set_column_all; [by apply NoDup_filter|].
  intros p [Hp _]%without_pu_elem. destruct (Hl' p Hp) as (pr & Hpr & _).
  apply list_elem_of_fmap. by exists (p, pr).
Qed.
End del_port.

Lemma txn_del_bridge_port_spec s br nm bu b pu :
  NoDup (rows (A := port) s).*1 → the_bridge s br = Some (bu, b) →
  ports_ok s nm pu (br_ports b) →
  ∃ s', txn_del_bridge_port (Some br) (Some nm) s = Done (EXIT_SUCCESS, s') ∧
    (∃ l, ports_of s' br = Some l ∧ l ≡ₚ without_pu pu (br_ports b)) ∧
    (s' = s ∨ ∃ l, s' = written bu (with_br_ports l) s).
Proof.
  intros Hn Hb Hl. pose proof (the_bridge_elem _ _ _ _ Hb) as Hbu.
  assert (bu ∈ (rows (A := bridge) s).*1) as Hkey by (apply list_elem_of_fmap; by exists (bu, b)).
  assert (∀ s' l, s' = written bu (with_br_ports l) s → ports_of s' br = Some l) as Hports.
  { intros s' l ->. unfold ports_of. by erewrite the_bridge_written. }
  pose proof (live_without_pu s nm pu _ Hl) as Hlive.
  pose proof (without_pu_length s nm pu _ Hl) as Hlen.
  pose proof (port_differs_run s nm pu _ Hn Hl) as Hdiff.
  assert (ports_of s br = Some (br_ports b)) as Hself by (unfold ports_of; by rewrite Hb).
  unfold txn_del_bridge_port. erewrite bind_run by by apply find_bridge_run.
  cbv beta iota. destruct (br_ports b) as [|p [|p2 ps]] eqn:Eps.
  - exists s. split; [done|]. split; [|by left]. exists []. by rewrite Hself.
  - erewrite bind_run by (apply Hdiff; by left). destruct (decide (p = pu)) as [->|Hd].
    + rewrite bool_decide_eq_false_2 by tauto.
      erewrite bind_run by by apply set_ports_run. eexists. split; [done|].
      split; [|right; by eexists]. eexists. split; [by apply Hports|].
      unfold without_pu. rewrite filter_cons, decide_False; [|rewrite bool_decide_eq_true; tauto].
      by apply (set_column_all [] s); [constructor|intros u ?%elem_of_nil].
    + rewrite bool_decide_eq_true_2 by done.
      exists s. split; [reflexivity|]. split; [|by left]. exists [p]. split; [by rewrite Hself|].
      unfold without_pu. rewrite filter_cons, decide_True; [done|]. by apply bool_decide_eq_true.
  - set (l := p :: p2 :: ps) in *. unfold l at 1.
    erewrite bind_run by (apply (keep_others_run _ (λ p, bool_decide (p ≠ pu))); [exact Hdiff|cbn; lia]).
    cbv zeta. rewrite app_nil_l. fold (without_pu pu l).
    destruct (decide (pu ∈ l)) as [Hin|Hin];
      [rewrite (bool_decide_eq_true_2 (pu ∈ l)) in Hlen by done
      |rewrite (bool_decide_eq_false_2 (pu ∈ l)) in Hlen by done].
    + rewrite bool_decide_eq_true_2 by lia.
      assert (length l ≠ 0) by done.
      unfold filled. rewrite (bool_decide_eq_true_2 (length (without_pu pu l) = length l - 1)) by lia. rewrite bind_ret.
      erewrite bind_run by by apply set_ports_run. eexists. split; [done|].
      split; [|right; by eexists]. eexists. split; [by apply Hports|done].
    + assert (length l ≠ 0) by done. rewrite bool_decide_eq_false_2 by lia.
      exists s. split; [done|]. split; [|by left]. exists l. split; [by rewrite Hself|].
      unfold without_pu. rewrite filter_keeps_all; [done|].
      intros x Hx. apply bool_decide_eq_true. congruence.
Qed.

Lemma txn_add_bridge_port_spec s br nm bu b pu pr :
  the_bridge s br = Some (bu, b) → find_first (λ r, named_port nm r.2) (rows s) = Some (pu, pr) →
  ∃ s', txn_add_bridge_port (Some br) (Some nm) s = Done (EXIT_SUCCESS, s') ∧
    s' = written bu (with_br_ports (set_column (A := port) (br_ports b ++ [pu]) s)) s.
Proof.
  intros Hb Hp. pose proof (the_bridge_elem _ _ _ _ Hb) as Hbu.
  unfold txn_add_bridge_port. erewrite bind_run by by apply find_bridge_run.
  erewrite bind_run by by apply find_row_run. cbv beta iota.
  erewrite bind_run; [by eexists|]. apply set_ports_run.
  apply list_elem_of_fmap. by exists (bu, b).
Qed.

End facts.
