(* ===== verification/OvsTextFacts.v ===== *)
(** * Facts on the strings of ovs-data.c

    The datapath-id conversion loop, and targets: how the string is put
    together, edited in place and taken apart. *)

From S2P Require Import Prelude.
From S2P Require Import Xml.
From S2P Require Import EditTree.
From S2P Require Import Ovsdb.
From S2P Require Import OvsFacts.
From S2P Require Import OvsBridges.
From S2P Require Import OvsControllers.

Notation chars := String.list_ascii_of_string.
Notation str := String.string_of_list_ascii.

Lemma chars_app a b : chars (a +:+ b) = chars a ++ chars b.
Proof.
  induction a as [|c a IH]; [done|].
  change (c :: chars (a +:+ b) = c :: chars a ++ chars b). by rewrite IH.
Qed.
Lemma str_chars s : str (chars s) = s.
Proof. apply String.string_of_list_ascii_of_string. Qed.
Lemma chars_str l : chars (str l) = l.
Proof. apply String.list_ascii_of_string_of_list_ascii. Qed.
Lemma str_app a b : str (a ++ b) = str a +:+ str b.
Proof. rewrite <-(str_chars (str a +:+ str b)), chars_app, !chars_str. done. Qed.
Lemma length_chars s : length (chars s) = String.length s.
Proof. induction s as [|c s IH]; [done|]. cbn. by rewrite IH. Qed.

(** ** datapath-id *)
Definition colon : ascii := ":".
Definition digits (l : list ascii) : list ascii := filter (λ c, c ≠ colon) l.

Lemma skip_colons_digits l : nonul l →
  match skip_colons (l ++ [NUL]) with
  | [] => False
  | c :: l' => (c = NUL ∧ l' = [] ∧ digits l = []) ∨
               (∃ m, c ≠ colon ∧ l' = m ++ [NUL] ∧ nonul m ∧ digits l = c :: digits m)
  end.
Proof.
  unfold digits. induction 1 as [|c l Hc Hl IH]; [by left|]. cbn [app].
  rewrite filter_cons. destruct (decide (c = colon)) as [->|Hne].
  - rewrite decide_False by tauto. exact IH.
  - rewrite decide_True by done.
    assert (skip_colons (c :: l ++ [NUL]) = c :: l ++ [NUL]) as ->.
    { destruct c as [[] [] [] [] [] [] [] []]; try reflexivity. by destruct Hne. }
    right. by exists l.
Qed.

Lemma copy_digits_spec n l : nonul l →
  copy_digits n (l ++ [NUL]) =
  if bool_decide (n ≤ length (digits l)) then Some (take n (digits l))
  else if bool_decide (n = S (length (digits l))) then Some (digits l ++ [NUL])
  else None.
Proof.
  revert l. induction n as [|n IH]; intros l Hl; [done|]. cbn [copy_digits].
  pose proof (skip_colons_digits l Hl) as Hsk.
  destruct (skip_colons (l ++ [NUL])) as [|c l']; [done|].
  destruct Hsk as [(-> & -> & Hd)|(m & Hc & -> & Hm & Hd)]; rewrite Hd; cbn [length].
  - rewrite bool_decide_eq_false_2 by lia. destruct n as [|n]; [done|].
    by rewrite bool_decide_eq_false_2 by lia.
  - rewrite (IH m Hm). cbn [take app].
    destruct (decide (n ≤ length (digits m))) as [Hle|Hle].
    { by rewrite !bool_decide_eq_true_2 by lia. }
    rewrite !(bool_decide_eq_false_2 (_ ≤ _)) by lia.
    destruct (decide (n = S (length (digits m)))) as [->|Hne].
    { by rewrite !bool_decide_eq_true_2 by lia. }
    by rewrite !bool_decide_eq_false_2 by lia.
Qed.

Lemma digits_nonul l : nonul l → nonul (digits l).
Proof.
  unfold nonul, digits. rewrite !Forall_forall. intros H x [_ Hx]%list_elem_of_filter. by apply H.
Qed.

(** The conversion stays within its buffers exactly for 16 digits. *)
Lemma datapath_of_spec v : nonul (chars v) →
  datapath_of v = if bool_decide (length (digits (chars v)) = 16)
                  then Some (str (digits (chars v))) else None.
Proof.
  intros Hv. unfold datapath_of, cbuf. rewrite copy_digits_spec by done.
  pose proof (digits_nonul _ Hv) as Hd. set (d := digits (chars v)) in *.
  destruct (decide (17 ≤ length d)) as [Hle|Hle].
  - rewrite (bool_decide_eq_true_2 (17 ≤ _)), (bool_decide_eq_false_2 (_ = 16)) by lia.
    cbn. unfold read_dp. rewrite bool_decide_eq_false_2; [done|]. intros Hin.
    eapply Forall_forall in Hd; [by apply Hd|]. by eapply subseteq_take.
  - rewrite (bool_decide_eq_false_2 (17 ≤ _)) by lia.
    destruct (decide (length d = 16)) as [He|He].
    + rewrite !bool_decide_eq_true_2 by lia. cbn. unfold read_dp.
      rewrite bool_decide_eq_true_2 by set_solver. f_equal. by apply cstr_app.
    + by rewrite !bool_decide_eq_false_2 by lia.
Qed.

(** ** Targets *)
Lemma split_at_app c a b : c ∉ a → split_at c (a ++ c :: b) = Some (a, b).
Proof.
  induction a as [|x a IH]; intros Ha; cbn; [by rewrite bool_decide_eq_true_2|].
  rewrite bool_decide_eq_false_2 by set_solver. by rewrite IH by set_solver.
Qed.
Lemma split_at_none c a : c ∉ a → split_at c a = None.
Proof.
  induction a as [|x a IH]; intros Ha; [done|]. cbn.
  rewrite bool_decide_eq_false_2 by set_solver. by rewrite IH by set_solver.
Qed.
Lemma split_colon_at l : split_colon l = split_at colon l.
Proof. induction l as [|x l IH]; [done|]. cbn. by rewrite IH. Qed.

Definition port_part (port : option string) : list ascii :=
  match port with Some p => colon :: chars p | None => [] end.

Lemma chars_target proto ip port :
  chars (make_target proto ip port) = chars proto ++ colon :: chars ip ++ port_part port.
Proof.
  unfold make_target. rewrite !chars_app. cbn [chars app]. f_equal. f_equal. f_equal.
  destruct port as [p|]; [|done]. by rewrite chars_app.
Qed.

(** An address without a colon or a bracket, such as an IPv4 address. *)
Definition plain (s : string) : Prop := colon ∉ chars s ∧ "["%char ∉ chars s.

Lemma split_target proto ip port : colon ∉ chars proto →
  split_colon (chars (make_target proto ip port)) = Some (chars proto, chars ip ++ port_part port).
Proof. intros H. rewrite split_colon_at, chars_target. by apply split_at_app. Qed.
Lemma split_rest ip port : colon ∉ chars ip →
  split_colon (chars ip ++ port_part port) = (λ p, (chars ip, chars p)) <$> port.
Proof.
  intros H. rewrite split_colon_at. destruct port as [p|]; cbn.
  - by apply split_at_app.
  - rewrite app_nil_r. by apply split_at_none.
Qed.

Lemma target_str proto ip port :
  str (chars proto ++ colon :: chars ip ++ port_part port) = make_target proto ip port.
Proof. by rewrite <-chars_target, str_chars. Qed.

Lemma mod_port_spec proto ip port value : colon ∉ chars proto → colon ∉ chars ip →
  mod_port (make_target proto ip port) value =
  Some (make_target proto ip None, (λ v, make_target proto ip (Some v)) <$> value).
Proof.
  intros Hp Hi. unfold mod_port. rewrite split_target by done. unfold mbind, option_bind. cbv beta iota.
  rewrite split_rest by done.
  assert (match (λ p, (chars ip, chars p)) <$> port with
          | Some (ip, _) => str (chars proto ++ ":"%char :: ip)
          | None => make_target proto ip port
          end = make_target proto ip None) as ->.
  { destruct port as [p|]; [|done]. cbn beta iota.
    rewrite <-(target_str proto ip None). cbn [port_part]. by rewrite app_nil_r. }
  cbv zeta. do 2 f_equal. destruct value as [v|]; [|done]. cbn. f_equal.
  rewrite <-(str_chars (make_target proto ip (Some v))), chars_target, <-(str_chars (_ +:+ _)).
  f_equal. rewrite !chars_app, chars_target. cbn. rewrite app_nil_r. by rewrite <-app_assoc.
Qed.

Lemma mod_ip_spec proto ip port v : String.length proto = 3 → colon ∉ chars proto →
  nonul (chars proto) → nonul (chars v) → nonul (port_part port) → colon ∉ chars ip →
  mod_ip (make_target proto ip port) v = Done (make_target proto v port).
Proof.
  intros Hlen Hp Hnp Hnv Hnq Hi. unfold mod_ip. rewrite split_target by done. cbn beta iota.
  rewrite split_rest by done.
  set (aux := match _ <$> port with Some _ => _ | None => _ end).
  assert (chars aux = chars "xxx:" ++ chars v ++ port_part port) as Ea.
  { unfold aux. destruct port as [q|]; cbn -[chars].
    - by rewrite !chars_app, chars_str.
    - by rewrite chars_app, app_nil_r. }
  unfold copy_proto. rewrite bool_decide_eq_true_2.
  2: { rewrite <-length_chars, chars_target, length_app, length_chars, Hlen. lia. }
  unfold cbuf. rewrite chars_target, Ea. rewrite <-!app_assoc.
  rewrite <-length_chars in Hlen. rewrite take_app_le, take_ge by lia.
  change (drop 3 (chars "xxx:" ++ chars v ++ port_part port ++ [NUL]))
    with (colon :: chars v ++ port_part port ++ [NUL]).
  f_equal. replace (chars proto ++ colon :: chars v ++ port_part port ++ [NUL])
    with ((chars proto ++ colon :: chars v ++ port_part port) ++ NUL :: [])
    by (by rewrite <-!app_assoc; cbn; rewrite <-!app_assoc).
  rewrite cstr_app; [apply target_str|].
  unfold nonul in *. rewrite Forall_app, Forall_cons, Forall_app. by split_and!.
Qed.

Lemma poke_proto_spec new proto ip port : String.length proto = 3 →
  poke_proto new (make_target proto ip port) = Some (make_target new ip port).
Proof.
  intros Hlen. unfold poke_proto. rewrite <-length_chars in *. rewrite chars_target.
  rewrite bool_decide_eq_true_2 by (rewrite length_app; lia).
  rewrite drop_app_le, drop_ge, app_nil_l by lia. by rewrite target_str.
Qed.

Lemma parse_target_spec proto ip port : colon ∉ chars proto → plain ip →
  "["%char ∉ port_part port →
  parse_target_to_addr (Some (make_target proto ip port)) =
  Some (Some (if bool_decide (proto = "ssl") then "tls" else proto), Some ip, port).
Proof.
  intros Hp [Hc Hb] Hq. unfold parse_target_to_addr. fold colon.
  rewrite chars_target, split_at_app by done. unfold mbind, option_bind. cbv beta iota.
  rewrite bool_decide_eq_false_2.
  2: { rewrite split_at_none; [by intros [? ?]|]. rewrite elem_of_app. tauto. }
  rewrite <-split_colon_at, split_rest by done.
  destruct port as [p|]; cbn -[bool_decide]; rewrite ?app_nil_r, !str_chars; done.
Qed.
