(* ===== verification/OvsLayer.v ===== *)
(** * The OVSDB layer behind edit-config

    [ovs_exec] maps the calls edit-config.c makes to the operations of
    OvsQueues.v, OvsBridges.v, OvsControllers.v, OvsPorts.v, OvsOpenFlow.v and
    OvsCerts.v.  txn_del_all(), which commits, works on the state of OvsTxn.v
    and is a parameter here.  Every operation that can report an error leaves
    one in *e when it fails, so that the layer is an instance of [OvsBackend],
    the interface the theorems on edit-config assume. *)

From S2P Require Import Prelude.
From S2P Require Import Xml.
From S2P Require Import XmlFacts.
From S2P Require Import EditTree.
From S2P Require Import EditChecks.
From S2P Require Import EditCompact.
From S2P Require Import EditOps.
From S2P Require Import Ovsdb.
From S2P Require Import OvsFacts.
From S2P Require Import OvsQueues.
From S2P Require Import OvsBridges.
From S2P Require Import OvsControllers.
From S2P Require Import OvsDevices.
From S2P Require Import OvsPorts.
From S2P Require Import OvsOpenFlow.
From S2P Require Import OvsCerts.
From S2P Require Import OvsConfig.

(** A failure leaves an error in *e. *)
Definition sets_err (m : M ovsdb exit) : Prop :=
  ∀ s s', m s = Done (EXIT_FAILURE, s') → is_Some (o_err s').

Lemma sets_err_reject e : sets_err (reject e).
Proof. intros s s' [= <-]. by eexists. Qed.
Lemma sets_err_success : sets_err (mret EXIT_SUCCESS).
Proof. done. Qed.
Lemma sets_err_crash f : sets_err (crash f).
Proof. done. Qed.
Lemma sets_err_nofuel : sets_err nofuel.
Proof. done. Qed.
Lemma sets_err_bind {A} (m : M ovsdb A) k : (∀ a, sets_err (k a)) → sets_err (m ≫= k).
Proof. intros Hk s s' (a & s1 & _ & H)%bind_Done. by apply (Hk a s1). Qed.
Lemma sets_err_if_ok m k : sets_err m → sets_err k → sets_err (if_ok m k).
Proof.
  intros Hm Hk s s' (r & s1 & H1 & H)%bind_Done. destruct r; [by apply (Hk s1)|].
  injection H as <-. by apply (Hm s).
Qed.

Create HintDb errs.
#[export] Hint Resolve sets_err_reject sets_err_success sets_err_crash sets_err_nofuel
  sets_err_if_ok : errs.

(** Walk through an operation to its return statements. *)
Ltac solve_err :=
  repeat first
    [ solve [auto with errs]
    | apply sets_err_if_ok
    | apply sets_err_bind; intros ?
    | progress cbv beta iota zeta
    | case_match ].

Section layer.
Context {LX : LibXml} {OI : OvsIdl} {KE : Kernel} {VC : Vconn} {FS : Files}.

(** ** Failures of the operations *)
Lemma err_invalid : sets_err invalid_input.
Proof. apply sets_err_reject. Qed.
#[local] Hint Resolve err_invalid : errs.

Lemma err_add_queue_port rid nm : sets_err (txn_add_queue_port rid nm).
Proof. unfold txn_add_queue_port. solve_err. Qed.
Lemma err_mod_queue_id rid i : sets_err (txn_mod_queue_id rid i).
Proof. unfold txn_mod_queue_id. solve_err. Qed.
Lemma err_mod_queue_options rid o n : sets_err (txn_mod_queue_options rid o n).
Proof. unfold txn_mod_queue_options. solve_err. Qed.
Lemma del_qos_queue_success qs i s o r s' :
  txn_del_qos_queue qs i s = Done ((o, r), s') → r = EXIT_SUCCESS.
Proof.
  unfold txn_del_qos_queue. intros (q & s1 & _ & H)%bind_Done.
  case_bool_decide; apply bind_Done in H as (a & s2 & _ & H); by injection H as <- <- <-.
Qed.
Lemma err_del_qos_queue qs i (k : option uuid → exit → M ovsdb exit) :
  (∀ o, sets_err (k o EXIT_SUCCESS)) →
  sets_err ('(o, r) ← txn_del_qos_queue qs i; k o r).
Proof.
  intros Hk s s' ([o r] & s1 & H1 & H)%bind_Done.
  apply del_qos_queue_success in H1 as ->. by apply (Hk o s1).
Qed.
Lemma err_del_queue_port rid : sets_err (txn_del_queue_port rid).
Proof.
  unfold txn_del_queue_port. destruct rid as [rid|]; [|apply err_invalid].
  do 2 (apply sets_err_bind; intros ?). case_match; [|auto with errs].
  do 2 case_match.
  apply (err_del_qos_queue _ _ (λ o r, _ ← _; mret r)). intros o. solve_err.
Qed.
Lemma err_del_unported rid : sets_err (del_unported_link rid).
Proof.
  unfold del_unported_link. do 2 (apply sets_err_bind; intros ?).
  case_match; [|auto with errs]. case_match.
  apply (err_del_qos_queue _ _ (λ _ r, mret r)). intros o. solve_err.
Qed.
#[local] Hint Resolve err_add_queue_port err_mod_queue_id err_mod_queue_options
  err_del_queue_port err_del_unported : errs.
Lemma err_add_queue_options rid l : sets_err (add_queue_options rid l).
Proof. induction l; cbn [add_queue_options]; solve_err. Qed.
#[local] Hint Resolve err_add_queue_options : errs.
Lemma err_add_queue n : sets_err (txn_add_queue n).
Proof. unfold txn_add_queue. solve_err. Qed.
Lemma err_del_queue rid : sets_err (txn_del_queue rid).
Proof. unfold txn_del_queue. solve_err. Qed.

Lemma flow_table_fields_err l i s s' :
  flow_table_fields i l s = Done (None, s') → is_Some (o_err s').
Proof.
  revert i s. induction l as [|aux l IH]; intros i s; cbn [flow_table_fields]; [done|].
  case_match; [by apply IH|]. case_match.
  { intros (t & s1 & _ & H1)%bind_Done. destruct (scan_i64 t); [by apply IH in H1|].
    injection H1 as <-. by eexists. }
  case_match; [by apply IH|]. case_match; by apply IH.
Qed.
Lemma err_add_flow_table n : sets_err (txn_add_flow_table n).
Proof.
  unfold txn_add_flow_table. destruct n as [n|]; [|apply err_invalid].
  intros s s' (inp & s1 & H1 & H)%bind_Done. destruct inp as [inp|].
  - revert s1 s' H1 H. intros s1 s' _. revert s1 s'. fold (sets_err (
      match fi_tid inp with
      | None => reject (bad_elem "flow-table" "The list element misses key.")
      | Some tid_s =>
          ft ← row_insert (FlowTable None ∅ None);
          _ ← row_write ft (with_ft_ext (λ m,
                let m := <["table_id" := tid_s]> m in
                match fi_rid inp with
                | Some rid => <[OFC_RESOURCE_ID := rid]> m
                | None => m
                end));
          _ ← match fi_name inp with
              | Some nm => row_write ft (with_ft_name (Some nm))
              | None => mret tt
              end;
          mret EXIT_SUCCESS
      end)). solve_err.
  - injection H as <-. by eapply flow_table_fields_err.
Qed.
Lemma err_mod_flowtable_name t n : sets_err (txn_mod_flowtable_name t n).
Proof. unfold txn_mod_flowtable_name. solve_err. Qed.
Lemma err_mod_flowtable_resid t n : sets_err (txn_mod_flowtable_resid t n).
Proof. unfold txn_mod_flowtable_resid. solve_err. Qed.
Lemma err_del_flow_table t : sets_err (txn_del_flow_table t).
Proof. unfold txn_del_flow_table. solve_err. Qed.
Lemma err_del_bridge_port b p : sets_err (txn_del_bridge_port b p).
Proof. unfold txn_del_bridge_port. solve_err. Qed.
Lemma err_add_bridge_port b p : sets_err (txn_add_bridge_port b p).
Proof. unfold txn_add_bridge_port. solve_err. Qed.
Lemma err_del_bridge_flowtable b t : sets_err (txn_del_bridge_flowtable b t).
Proof. unfold txn_del_bridge_flowtable. solve_err. Qed.
Lemma err_bridge_insert_flowtable b f : sets_err (txn_bridge_insert_flowtable b f).
Proof. unfold txn_bridge_insert_flowtable. solve_err. Qed.
Lemma err_add_bridge_flowtable b t : sets_err (txn_add_bridge_flowtable b t).
Proof. unfold txn_add_bridge_flowtable. solve_err. Qed.
Lemma err_mod_bridge_datapath b v : sets_err (txn_mod_bridge_datapath b v).
Proof. unfold txn_mod_bridge_datapath. solve_err. Qed.
Lemma err_mod_bridge_failmode b v : sets_err (txn_mod_bridge_failmode b v).
Proof. unfold txn_mod_bridge_failmode. solve_err. Qed.
Lemma err_del_bridge b : sets_err (txn_del_bridge b).
Proof. unfold txn_del_bridge. solve_err. Qed.
Lemma err_del_port p : sets_err (txn_del_port p).
Proof. unfold txn_del_port. solve_err. Qed.
Lemma err_mod_contr_lip c v : sets_err (txn_mod_contr_lip c v).
Proof. unfold txn_mod_contr_lip. solve_err. Qed.
Lemma err_add_contr n b : sets_err (txn_add_contr n b).
Proof. unfold txn_add_contr. solve_err. Qed.
Lemma err_del_contr c b : sets_err (txn_del_contr c b).
Proof. unfold txn_del_contr. solve_err. Qed.
Lemma err_mod_contr_target c n v : sets_err (txn_mod_contr_target c n v).
Proof. unfold txn_mod_contr_target. solve_err. Qed.
Lemma err_ovs_insert_bridge o b : sets_err (txn_ovs_insert_bridge o b).
Proof. unfold txn_ovs_insert_bridge. solve_err. Qed.
Lemma err_bridge_insert_port b p : sets_err (txn_bridge_insert_port b p).
Proof. unfold txn_bridge_insert_port. solve_err. Qed.
#[local] Hint Resolve err_bridge_insert_flowtable err_bridge_insert_port err_add_contr
  err_mod_bridge_datapath err_mod_bridge_failmode err_ovs_insert_bridge : errs.
Lemma err_add_bridge_resources b l : sets_err (add_bridge_resources b l).
Proof. induction l; cbn [add_bridge_resources]; solve_err. Qed.
Lemma err_add_bridge_contrs b l : sets_err (add_bridge_contrs b l).
Proof. induction l; cbn [add_bridge_contrs]; solve_err. Qed.
#[local] Hint Resolve err_add_bridge_resources err_add_bridge_contrs : errs.
Lemma err_add_bridge_fields b nm f l : sets_err (add_bridge_fields b nm f l).
Proof. revert f. induction l; intros f; cbn [add_bridge_fields]; solve_err. Qed.
#[local] Hint Resolve err_add_bridge_fields : errs.
Lemma err_add_bridge n : sets_err (txn_add_bridge n).
Proof. unfold txn_add_bridge. solve_err. Qed.

(** *** Ports *)
Lemma err_check_flags p r : sets_err (check_flags p r).
Proof. unfold check_flags. solve_err. Qed.
#[local] Hint Resolve err_check_flags : errs.
Lemma err_mod_port_admin_state p v : sets_err (txn_mod_port_admin_state p v).
Proof. unfold txn_mod_port_admin_state. solve_err. Qed.
Lemma err_mod_port_reqnumber p v : sets_err (txn_mod_port_reqnumber p v).
Proof. unfold txn_mod_port_reqnumber. solve_err. Qed.
Lemma err_add_port_tunnel p n : sets_err (txn_add_port_tunnel p n).
Proof. unfold txn_add_port_tunnel. solve_err. Qed.
Lemma err_del_port_tunnel p : sets_err (txn_del_port_tunnel p).
Proof. unfold txn_del_port_tunnel. solve_err. Qed.
Lemma err_mod_port_tunnel_opt p n v : sets_err (txn_mod_port_tunnel_opt p n v).
Proof. unfold txn_mod_port_tunnel_opt. solve_err. Qed.
Lemma err_mod_advert f p n : sets_err (mod_advert f p n).
Proof. unfold mod_advert. solve_err. Qed.
Lemma err_add_port_advert p n : sets_err (txn_add_port_advert p n).
Proof. apply err_mod_advert. Qed.
Lemma err_del_port_advert p n : sets_err (txn_del_port_advert p n).
Proof. apply err_mod_advert. Qed.
#[local] Hint Resolve err_mod_port_admin_state : errs.

Lemma add_port_fields_err node pu iu pn t l s s' :
  add_port_fields node pu iu pn t l s = Done (None, s') → is_Some (o_err s').
Proof.
  revert pn t s. induction l as [|aux l IH]; intros pn t s; cbn [add_port_fields]; [done|].
  case_match; [by apply IH|]. case_match.
  { case_match.
    - intros (? & s1 & _ & (? & s2 & _ & E)%bind_Done)%bind_Done. by apply IH in E.
    - intros (? & s1 & E1 & E)%bind_Done. injection E as <-.
      injection E1 as <- <-. by eexists. }
  case_match.
  { intros (? & s1 & _ & (r & s2 & E2 & E)%bind_Done)%bind_Done.
    destruct r; [by apply IH in E|]. injection E as <-. by eapply err_mod_port_reqnumber. }
  case_match. { rewrite bind_modify. apply IH. }
  case_match.
  { destruct t.
    - intros (? & s1 & E1 & E)%bind_Done. injection E as <-. injection E1 as <- <-. by eexists.
    - intros (r & s1 & E1 & E)%bind_Done. destruct r; [by apply IH in E|].
      injection E as <-. by eapply err_add_port_tunnel. }
  case_match. { intros (? & s1 & _ & E)%bind_Done. by apply IH in E. }
  by apply IH.
Qed.
Lemma err_add_port n : sets_err (txn_add_port n).
Proof.
  unfold txn_add_port. destruct n as [n|]; [|apply err_invalid]. do 3 (apply sets_err_bind; intros ?).
  intros s s' (t & s1 & H1 & H)%bind_Done. destruct t as [t|].
  - by apply bind_Done in H as (? & s2 & _ & (? & s3 & _ & H)%bind_Done).
  - injection H as <-. by eapply add_port_fields_err.
Qed.

(** *** OpenFlow *)
Lemma err_mod_port_cfg_internal c p b v : sets_err (of_mod_port_cfg_internal c p b v).
Proof. unfold of_mod_port_cfg_internal. solve_err. Qed.
#[local] Hint Resolve err_mod_port_cfg_internal : errs.
Lemma err_mod_port_cfg p n v : sets_err (of_mod_port_cfg p n v).
Proof. unfold of_mod_port_cfg. solve_err. Qed.

(** *** Certificates *)
Lemma err_write_cert c f : sets_err (write_cert c f).
Proof. unfold write_cert. solve_err. Qed.
Lemma err_write_key t d : sets_err (write_key t d).
Proof. unfold write_key. solve_err. Qed.
Lemma err_drop_ssl u : sets_err (drop_ssl u).
Proof. unfold drop_ssl. solve_err. Qed.
#[local] Hint Resolve err_write_cert err_write_key err_drop_ssl : errs.

(** m sets an error whenever it yields None. *)
Definition none_err {A} (m : M ovsdb (option A)) : Prop :=
  ∀ s s', m s = Done (None, s') → is_Some (o_err s').
Lemma err_some {A} (m : M ovsdb (option A)) k :
  none_err m → (∀ a, sets_err (k a)) →
  sets_err (o ← m; match o with Some a => k a | None => mret EXIT_FAILURE end).
Proof.
  intros Hm Hk s s' (o & s1 & H1 & H)%bind_Done. destruct o; [by eapply Hk|].
  injection H as <-. by eapply Hm.
Qed.
Lemma none_reject {A} e : none_err (_ ← reject e; mret (A := option A) None).
Proof. intros s s' (? & s1 & [= <- <-] & [= <-])%bind_Done. by eexists. Qed.
Lemma none_some {A} (m : M ovsdb A) : none_err (a ← m; mret (Some a)).
Proof. by intros s s' (? & s1 & _ & ?)%bind_Done. Qed.
Lemma none_bind {A B} (m : M ovsdb B) (k : B → M ovsdb (option A)) :
  (∀ b, none_err (k b)) → none_err (m ≫= k).
Proof. intros Hk s s' (b & s1 & _ & H)%bind_Done. by eapply Hk. Qed.

Lemma err_find_ssl t rid : none_err (find_ssl t (Some rid)).
Proof.
  unfold find_ssl. apply none_bind. intros [r|]; [done|]. apply none_reject.
Qed.
Lemma err_cert_row t msg n : none_err (cert_row t msg n).
Proof.
  unfold cert_row. apply none_bind. intros [[u s]|].
  - case_match; [|apply none_reject]. case_match; [|done]. case_bool_decide; [done|apply none_reject].
  - apply none_bind. done.
Qed.
Lemma err_parse_pem f : none_err (parse_pem f).
Proof.
  unfold parse_pem. apply none_bind. intros [pem|]; [|apply none_reject].
  destruct (key_markers pem) as [[? ?]|]; [done|apply none_reject].
Qed.
#[local] Hint Resolve err_find_ssl err_cert_row err_parse_pem : errs.

Lemma err_add_owned n : sets_err (txn_add_owned_certificate n).
Proof.
  unfold txn_add_owned_certificate. destruct n; [|apply err_invalid].
  apply (err_some _ (λ r : uuid * option string, _)); [apply err_cert_row|]. intros [u rid]. solve_err.
Qed.
Lemma err_add_external n : sets_err (txn_add_external_certificate n).
Proof.
  unfold txn_add_external_certificate. destruct n; [|apply err_invalid].
  apply (err_some _ (λ r : uuid * option string, _)); [apply err_cert_row|]. intros [u rid]. solve_err.
Qed.
Lemma err_mod_own rid n : sets_err (txn_mod_own_cert_certificate rid n).
Proof.
  unfold txn_mod_own_cert_certificate. destruct rid; [|apply err_invalid].
  apply (err_some _ (λ r : uuid * ssl, _)); [apply err_find_ssl|]. intros [u sl]. solve_err.
Qed.
Lemma err_mod_ext rid n : sets_err (txn_mod_ext_cert_certificate rid n).
Proof.
  unfold txn_mod_ext_cert_certificate. destruct rid; [|apply err_invalid].
  apply (err_some _ (λ r : uuid * ssl, _)); [apply err_find_ssl|]. intros [u sl]. solve_err.
Qed.
Lemma parse_pem_some f s p s' : parse_pem f s = Done (Some p, s') → is_Some f.
Proof.
  unfold parse_pem. intros (o & s1 & H1 & H)%bind_Done. destruct f; [by eexists|].
  injection H1 as <- <-. simpl in H. apply bind_Done in H as (? & ? & _ & H). done.
Qed.
Lemma err_with_pem f (K : option (buffer * nat * nat) → M ovsdb exit) :
  K None = mret EXIT_FAILURE → (∀ p file, f = Some file → sets_err (K (Some p))) →
  sets_err (parse_pem f ≫= K).
Proof.
  intros HN HS s s' (p & s1 & H1 & H)%bind_Done. destruct p as [p|].
  - pose proof (parse_pem_some _ _ _ _ H1) as [file ->]. by eapply HS.
  - rewrite HN in H. injection H as <-. by eapply err_parse_pem.
Qed.
Lemma err_key_type rid n : sets_err (txn_mod_own_cert_key_type rid n).
Proof.
  unfold txn_mod_own_cert_key_type. destruct rid, n; try done; try apply err_invalid.
  apply sets_err_bind. intros _.
  apply (err_some _ (λ r : uuid * ssl, _)); [apply err_find_ssl|]. intros [u sl].
  apply err_with_pem; [done|]. intros [[? ?] ?] file ->. solve_err.
Qed.
Lemma err_key_data rid n : sets_err (txn_mod_own_cert_key_data rid n).
Proof.
  unfold txn_mod_own_cert_key_data. destruct rid, n; try done; try apply err_invalid.
  apply sets_err_bind. intros _.
  apply (err_some _ (λ r : uuid * ssl, _)); [apply err_find_ssl|]. intros [u sl].
  apply err_with_pem; [done|]. intros [[? ?] ?] file ->. solve_err.
Qed.
Lemma err_del_owned n : sets_err (txn_del_owned_certificate n).
Proof.
  unfold txn_del_owned_certificate. destruct n; [|apply err_invalid]. case_match; [|auto with errs].
  apply (err_some _ (λ r : uuid * ssl, _)); [apply err_find_ssl|]. intros [u sl]. solve_err.
Qed.
Lemma err_del_external n : sets_err (txn_del_external_certificate n).
Proof.
  unfold txn_del_external_certificate. destruct n; [|apply err_invalid]. case_match; [|auto with errs].
  apply (err_some _ (λ r : uuid * ssl, _)); [apply err_find_ssl|]. intros [u sl]. solve_err.
Qed.

(** ** The layer *)
(** txn_del_all() *)
Context (del_all : M ovsdb Z).

Definition code_of (m : M ovsdb exit) : M ovsdb Z :=
  r ← m; mret (match r with EXIT_SUCCESS => 0 | EXIT_FAILURE => 1 end)%Z.

Definition ovs_exec (op : txn_op) : M ovsdb Z :=
  match op with
  | OfcCheckBridgeQueue br rid => ofc_check_bridge_queue br rid
  | TxnDelPort p => code_of (txn_del_port p)
  | TxnAddQueue n => code_of (txn_add_queue (Some n))
  | TxnDelQueue rid => code_of (txn_del_queue rid)
  | TxnAddQueuePort rid p => code_of (txn_add_queue_port rid p)
  | TxnDelQueuePort rid => code_of (txn_del_queue_port rid)
  | TxnModQueueId rid i => code_of (txn_mod_queue_id rid i)
  | TxnModQueueOptions rid o n => code_of (txn_mod_queue_options rid o n)
  | TxnAddFlowTable n => code_of (txn_add_flow_table (Some n))
  | TxnDelFlowTable t => code_of (txn_del_flow_table t)
  | TxnModFlowtableName t n => code_of (txn_mod_flowtable_name t n)
  | TxnModFlowtableResid t n => code_of (txn_mod_flowtable_resid t n)
  | TxnAddBridge n => code_of (txn_add_bridge (Some n))
  | TxnDelBridge b => code_of (txn_del_bridge b)
  | TxnAddBridgePort b p => code_of (txn_add_bridge_port b p)
  | TxnDelBridgePort b p => code_of (txn_del_bridge_port b p)
  | TxnAddBridgeFlowtable b t => code_of (txn_add_bridge_flowtable b t)
  | TxnDelBridgeFlowtable b t => code_of (txn_del_bridge_flowtable b t)
  | TxnModBridgeDatapath b v => code_of (txn_mod_bridge_datapath b v)
  | TxnModBridgeFailmode b v => code_of (txn_mod_bridge_failmode b v)
  | TxnAddContr n b => code_of (txn_add_contr (Some n) b)
  | TxnDelContr i b => code_of (txn_del_contr i b)
  | TxnModContrLip i v => code_of (txn_mod_contr_lip i v)
  | TxnModContrTarget i n v => code_of (txn_mod_contr_target i n v)
  | OfcSetSwitchid n => code_of (ofc_set_switchid n)
  | OfModPortCfg p n v => code_of (of_mod_port_cfg p n v)
  | TxnAddPort n => code_of (txn_add_port (Some n))
  | TxnModPortReqnumber p v => code_of (txn_mod_port_reqnumber p v)
  | TxnAddPortAdvert p n => code_of (txn_add_port_advert p (Some n))
  | TxnDelPortAdvert p n => code_of (txn_del_port_advert p (Some n))
  | TxnAddPortTunnel p n => code_of (txn_add_port_tunnel p (Some n))
  | TxnDelPortTunnel p _ => code_of (txn_del_port_tunnel p)
  | TxnModPortTunnelOpt p n v => code_of (txn_mod_port_tunnel_opt p n v)
  | TxnAddOwnedCertificate n => code_of (txn_add_owned_certificate (Some n))
  | TxnDelOwnedCertificate n => code_of (txn_del_owned_certificate (Some n))
  | TxnAddExternalCertificate n => code_of (txn_add_external_certificate (Some n))
  | TxnDelExternalCertificate n => code_of (txn_del_external_certificate (Some n))
  | TxnModOwnCertCertificate r n => code_of (txn_mod_own_cert_certificate r n)
  | TxnModOwnCertKeyType r n => code_of (txn_mod_own_cert_key_type r n)
  | TxnModOwnCertKeyData r n => code_of (txn_mod_own_cert_key_data r n)
  | TxnModExtCertCertificate r n => code_of (txn_mod_ext_cert_certificate r n)
  | TxnDelAll => del_all
  end.

Lemma code_of_err m s r s' : sets_err m → code_of m s = Done (r, s') → r ≠ 0%Z → is_Some (o_err s').
Proof.
  intros Hm (x & s1 & H1 & H)%bind_Done Hr. injection H as <- <-. destruct x; [done|]. by eapply Hm.
Qed.

Hypothesis del_all_err : ∀ s r s', del_all s = Done (r, s') → r ≠ 0%Z → is_Some (o_err s').

Lemma ovs_exec_err op s r s' : ovs_exec op s = Done (r, s') → r ≠ 0%Z →
  reports_error op = true → is_Some (o_err s').
Proof using del_all_err.
  intros H Hr Hop. destruct op; try done; cbn [ovs_exec] in H;
    first [by eapply del_all_err | idtac];
    (eapply code_of_err; [|exact H|exact Hr]);
    auto using err_del_port, err_add_queue, err_del_queue, err_add_flow_table,
      err_del_flow_table, err_mod_flowtable_name, err_mod_flowtable_resid, err_add_bridge,
      err_del_bridge, err_add_bridge_port, err_del_bridge_port, err_add_bridge_flowtable,
      err_del_bridge_flowtable, err_mod_bridge_datapath, err_mod_bridge_failmode, err_add_contr,
      err_del_contr, err_mod_contr_lip, err_mod_contr_target, err_mod_port_cfg, err_add_port,
      err_mod_port_reqnumber, err_add_port_advert, err_del_port_advert, err_add_port_tunnel, err_del_port_tunnel,
      err_mod_port_tunnel_opt, err_add_owned, err_del_owned, err_add_external, err_del_external,
      err_mod_own, err_mod_ext, err_key_type, err_key_data with errs.
Qed.

#[export] Program Instance ovsdb_backend : OvsBackend := {|
  be := ovsdb;
  be_exec op st :=
    match ovs_exec op (set_oerr st.2 st.1) with
    | Done (r, s') => Done (r, (s', o_err s'))
    | Crash f => Crash f
    | NoFuel => NoFuel
    end |}.
Next Obligation.
  intros op b e r b' e' H Hr Hop. cbn in H.
  destruct (ovs_exec op (set_oerr e b)) as [[r1 s1]| |] eqn:E; [|done|done].
  injection H as <- <- <-. by eapply ovs_exec_err.
Qed.

End layer.
