(* ===== verification/XmlText.v ===== *)
(** * Well-formed XML text

    A scanner for the XML the server prints: elements, attributes in double
    quotes, character data without markup.  It keeps the names of the open
    elements on a stack; a document is one element after the XML declaration.
    [balanced] text can stand inside any element. *)

From stdpp Require Import pretty.
From S2P Require Import Prelude.

(** ** Characters *)
Definition code (c : ascii) : N := N_of_ascii c.
Definition is_letter (c : ascii) : bool :=
  let n := code c in
  ((65 <=? n) && (n <=? 90) || (97 <=? n) && (n <=? 122) || (n =? 95))%N.
(** Letters, digits, hyphen, full stop. *)
Definition is_name_char (c : ascii) : bool :=
  let n := code c in
  is_letter c || ((48 <=? n) && (n <=? 57) || (n =? 45) || (n =? 46))%N.
Definition LT : ascii := "<"%char.
Definition GT : ascii := ">"%char.
Definition AMP : ascii := "&"%char.
Definition QUOT : ascii := Ascii.ascii_of_nat 34.

(** ** The scanner *)
Inductive mode :=
| Data                       (* character data *)
| Less                       (* after < *)
| Opening (nm : string)      (* in the name of a start tag *)
| Attrs (nm : string)        (* after a space in a start tag *)
| AttrName (nm : string)     (* in the name of an attribute *)
| AttrEq (nm : string)       (* after = *)
| AttrValue (nm : string)    (* in a value *)
| AttrEnd (nm : string)      (* after a value *)
| Closing (nm : string)      (* in the name of an end tag *)
| Finished.                  (* after the end tag of the root *)

Definition xstate : Type := list string * mode.

Definition snoc (s : string) (c : ascii) : string := s +:+ String c "".

Definition step (q : xstate) (c : ascii) : option xstate :=
  let '(st, m) := q in
  match m with
  | Data =>
      if Ascii.eqb c LT then Some (st, Less)
      else if Ascii.eqb c AMP then None
      else match st with [] => None | _ => Some (st, Data) end
  | Less =>
      if Ascii.eqb c "/" then match st with [] => None | _ => Some (st, Closing "") end
      else if is_letter c then Some (st, Opening (String c "")) else None
  | Opening nm =>
      if Ascii.eqb c GT then Some (nm :: st, Data)
      else if Ascii.eqb c " " then Some (st, Attrs nm)
      else if is_name_char c then Some (st, Opening (snoc nm c)) else None
  | Attrs nm => if is_letter c then Some (st, AttrName nm) else None
  | AttrName nm =>
      if Ascii.eqb c "=" then Some (st, AttrEq nm)
      else if is_name_char c then Some (st, AttrName nm) else None
  | AttrEq nm => if Ascii.eqb c QUOT then Some (st, AttrValue nm) else None
  | AttrValue nm =>
      if Ascii.eqb c QUOT then Some (st, AttrEnd nm)
      else if Ascii.eqb c LT || Ascii.eqb c AMP then None else Some (st, AttrValue nm)
  | AttrEnd nm =>
      if Ascii.eqb c GT then Some (nm :: st, Data)
      else if Ascii.eqb c " " then Some (st, Attrs nm) else None
  | Closing nm =>
      if Ascii.eqb c GT then
        match st with
        | top :: st' => if String.eqb top nm
                        then Some (st', match st' with [] => Finished | _ => Data end) else None
        | [] => None
        end
      else if is_name_char c then Some (st, Closing (snoc nm c)) else None
  | Finished => None
  end.

Fixpoint run (q : xstate) (s : string) : option xstate :=
  match s with
  | EmptyString => Some q
  | String c s' => match step q c with Some q' => run q' s' | None => None end
  end.

(** One element. *)
Definition element (s : string) : bool :=
  match run ([], Data) s with Some ([], Finished) => true | _ => false end.

(** Text that leaves the open elements as they are. *)
Definition balanced (s : string) : Prop :=
  ∀ e st, run (e :: st, Data) s = Some (e :: st, Data).

(** Character data without markup. *)
Definition plain (c : ascii) : bool := negb (Ascii.eqb c LT) && negb (Ascii.eqb c AMP).
Fixpoint clean (s : string) : bool :=
  match s with EmptyString => true | String c s' => plain c && clean s' end.

(** A name. *)
Fixpoint name_chars (s : string) : bool :=
  match s with EmptyString => true | String c s' => is_name_char c && name_chars s' end.
Definition is_name (s : string) : bool :=
  match s with EmptyString => false | String c s' => is_letter c && name_chars s' end.

(** ** Facts *)
#[local] Arguments String.append : simpl nomatch.

Lemma str_app_nil (s : string) : s +:+ "" = s.
Proof. induction s as [|c s IH]; [done|]. exact (f_equal (String c) IH). Qed.
Lemma str_app_assoc (a b c : string) : (a +:+ b) +:+ c = a +:+ b +:+ c.
Proof. induction a as [|x a IH]; [done|]. exact (f_equal (String x) IH). Qed.

Lemma run_app q a b : run q (a +:+ b) = run q a ≫= λ q', run q' b.
Proof.
  revert q. induction a as [|c a IH]; intros q; [done|]. cbn.
  destruct (step q c) as [q'|]; [apply IH|done].
Qed.

Lemma run_two q a q' b : run q a = Some q' → run q (a +:+ b) = run q' b.
Proof. intros H. by rewrite run_app, H. Qed.

Lemma balanced_nil : balanced "".
Proof. done. Qed.
Lemma balanced_app a b : balanced a → balanced b → balanced (a +:+ b).
Proof. intros Ha Hb e st. rewrite (run_two _ _ _ _ (Ha e st)). apply Hb. Qed.
Lemma balanced_concat l : Forall balanced l → balanced (String.concat "" l).
Proof.
  induction 1 as [|a l Ha Hl IH]; [done|].
  destruct l as [|b l]; [done|]. change (balanced (a +:+ "" +:+ String.concat "" (b :: l))).
  by repeat apply balanced_app.
Qed.
Lemma balanced_clean s : clean s = true → balanced s.
Proof.
  intros H e st. induction s as [|c s IH]; [done|]. cbn in H. apply andb_true_iff in H as [Hc H].
  unfold plain in Hc. apply andb_true_iff in Hc as [H1 H2]. apply negb_true_iff in H1, H2.
  cbn. rewrite H1, H2. by apply IH.
Qed.

(** *** Names *)
Lemma name_not_special c : is_name_char c = true →
  Ascii.eqb c GT = false ∧ Ascii.eqb c " " = false ∧ Ascii.eqb c "/" = false ∧ plain c = true.
Proof. destruct c as [[] [] [] [] [] [] [] []]; by vm_compute. Qed.
Lemma letter_name c : is_letter c = true → is_name_char c = true.
Proof. unfold is_name_char. by intros ->. Qed.

Lemma run_opening st nm s : name_chars s = true →
  run (st, Opening nm) (s +:+ ">") = Some ((nm +:+ s) :: st, Data).
Proof.
  revert nm. induction s as [|c s IH]; intros nm H; [by rewrite str_app_nil|]. cbn.
  apply andb_true_iff in H as [Hc H]. pose proof (name_not_special c Hc) as (H1 & H2 & _ & _).
  rewrite H1, H2, Hc. rewrite (IH _ H). unfold snoc. by rewrite str_app_assoc.
Qed.
Lemma run_closing top st nm s : name_chars s = true → top = nm +:+ s →
  run (top :: st, Closing nm) (s +:+ ">") = Some (st, match st with [] => Finished | _ => Data end).
Proof.
  revert nm. induction s as [|c s IH]; intros nm H Ht.
  - rewrite str_app_nil in Ht. subst top. cbn. by rewrite String.eqb_refl.
  - cbn in H |- *. apply andb_true_iff in H as [Hc H]. pose proof (name_not_special c Hc) as (H1 & _).
    rewrite H1, Hc. apply (IH _ H). subst top. unfold snoc. by rewrite str_app_assoc.
Qed.

Lemma run_open e st nm : is_name nm = true →
  run (e :: st, Data) ("<" +:+ nm +:+ ">") = Some (nm :: e :: st, Data).
Proof.
  destruct nm as [|c nm]; [done|]. intros H. unfold is_name in H. apply andb_true_iff in H as [Hc H].
  pose proof (name_not_special c (letter_name c Hc)) as (_ & _ & H3 & _).
  cbn. rewrite H3, Hc. rewrite run_opening by done. done.
Qed.
Lemma run_close e st nm : is_name nm = true →
  run (nm :: e :: st, Data) ("</" +:+ nm +:+ ">") = Some (e :: st, Data).
Proof.
  intros H. cbn. refine (run_closing nm (e :: st) "" nm _ eq_refl).
  destruct nm as [|c nm]; [done|]. cbn in *. apply andb_true_iff in H as [Hc H].
  by rewrite (letter_name c Hc).
Qed.

(** An element around balanced text. *)
Lemma balanced_elem nm s : is_name nm = true → balanced s →
  balanced ("<" +:+ nm +:+ ">" +:+ s +:+ "</" +:+ nm +:+ ">").
Proof.
  intros Hn Hs e st.
  replace ("<" +:+ nm +:+ ">" +:+ s +:+ "</" +:+ nm +:+ ">")
    with (("<" +:+ nm +:+ ">") +:+ s +:+ ("</" +:+ nm +:+ ">")) by (by rewrite !str_app_assoc).
  rewrite (run_two _ _ _ _ (run_open e st nm Hn)), (run_two _ _ _ _ (Hs nm (e :: st))).
  by apply run_close.
Qed.

(** *** Clean strings *)
Lemma clean_app a b : clean (a +:+ b) = clean a && clean b.
Proof. induction a as [|c a IH]; [done|]. cbn. by rewrite IH, andb_assoc. Qed.
Lemma clean_name s : is_name s = true → clean s = true.
Proof.
  assert (∀ s, name_chars s = true → clean s = true) as Hn.
  { intros t. induction t as [|c t IH]; [done|]. cbn. intros [Hc H]%andb_true_iff.
    rewrite IH by done. by destruct (name_not_special c Hc) as (_ & _ & _ & ->). }
  destruct s as [|c s]; [done|]. cbn. intros [Hc H]%andb_true_iff. apply Hn in H as ->.
  by destruct (name_not_special c (letter_name c Hc)) as (_ & _ & _ & ->).
Qed.

Lemma clean_digit n : clean (String (pretty_N_char n) "") = true.
Proof. unfold pretty_N_char. by repeat case_match. Qed.
Lemma clean_pretty_N_go n s : clean s = true → clean (pretty_N_go n s) = true.
Proof.
  revert s. induction (N.lt_wf_0 n) as [n _ IH]. intros s Hs.
  destruct (decide (n = 0)%N) as [->|Hn]; [by rewrite pretty_N_go_0|].
  rewrite pretty_N_go_step by lia. apply IH; [apply N.div_lt; lia|].
  pose proof (clean_digit (n `mod` 10)) as Hd. cbn in Hd |- *. rewrite andb_true_r in Hd.
  by rewrite Hd, Hs.
Qed.
Lemma clean_pretty_Z (z : Z) : clean (pretty z) = true.
Proof.
  assert (∀ n : N, clean (pretty n) = true) as Hn.
  { intros n. unfold pretty, pretty_N. case_decide; [done|]. by apply clean_pretty_N_go. }
  destruct z as [|p|p]; [done|apply (Hn (N.pos p))|]. change (clean ("-" +:+ pretty (N.pos p)) = true).
  rewrite clean_app. by rewrite Hn.
Qed.

Create HintDb xml.
#[export] Hint Resolve balanced_nil balanced_app balanced_clean balanced_elem clean_pretty_Z : xml.

(** Run the scanner over a concatenation of literals and balanced parts. *)
Ltac scan_part a :=
  first [ solve [auto with xml] | apply balanced_clean; solve [auto with xml] ].
Ltac scan_step :=
  lazymatch goal with
  | |- run ?q (?a +:+ ?b) = _ =>
      lazymatch a with
      | String _ _ =>
          let q' := eval vm_compute in (run q a) in
          lazymatch q' with
          | Some ?r => rewrite (run_two q a r b) by (vm_compute; reflexivity)
          end
      | _ =>
          let H := fresh in
          assert (balanced a) as H by scan_part a;
          rewrite (run_two _ _ _ b (H _ _)); clear H
      end
  | |- run ?q (String _ _) = _ => vm_compute; reflexivity
  | |- run ?q ?a = _ =>
      let H := fresh in assert (balanced a) as H by scan_part a; apply H
  end.
Ltac scan := let e := fresh "e" in let st := fresh "st" in intros e st; repeat scan_step.
