(* ===== verification/ConfigFacts.v ===== *)
(** * The printed configuration is well-formed

    When the references of the database lead to rows and the values printed
    hold no markup, ofc_get_config_data() and ofc_get_state_data() return
    well-formed documents.  The functions change nothing but the number of
    OpenFlow calls made, so that all of them run on one database. *)

From stdpp Require Import pretty.
From S2P Require Import Prelude.
From S2P Require Import Xml.
From S2P Require Import OvsDevices.
From S2P Require Import Ovsdb.
From S2P Require Import OvsFacts.
From S2P Require Import OvsQueues.
From S2P Require Import OvsControllers.
From S2P Require Import OvsPorts.
From S2P Require Import OvsOpenFlow.
From S2P Require Import OvsCerts.
From S2P Require Import OvsConfig.
From S2P Require Import OvsTextFacts.
From S2P Require Import XmlText.

(** ** Clean values *)
Definition oclean (o : option string) : Prop := ∀ v, o = Some v → clean v = true.
Definition mclean (m : smap) : Prop := ∀ k v, m !! k = Some v → clean v = true.

Lemma clean_fmt_s o : oclean o → clean (fmt_s o) = true.
Proof. intros H. destruct o; [by apply H|done]. Qed.
Lemma clean_fmt_i z : clean (fmt_i z) = true.
Proof. apply clean_pretty_Z. Qed.
Lemma clean_fmt_u64 z : clean (fmt_u64 z) = true.
Proof. apply clean_pretty_Z. Qed.
Lemma clean_fmt_u32 z : clean (fmt_u32 z) = true.
Proof. apply clean_pretty_Z. Qed.
#[export] Hint Resolve clean_fmt_s clean_fmt_i clean_fmt_u64 clean_fmt_u32 : xml.
#[export] Hint Extern 1 (clean ?v = true) =>
  match goal with
  | H : oclean (Some v) |- _ => exact (H v eq_refl)
  | H : oclean ?o, E : ?o = Some v |- _ => exact (H v E)
  | H : mclean ?m, E : ?m !! _ = Some v |- _ => exact (H _ v E)
  end : xml.

(** Characters of a buffer: none is markup. *)
Definition pure (l : list ascii) : Prop := Forall (λ c, c = NUL ∨ plain c = true) l.

Lemma clean_chars s : clean s = true ↔ Forall (λ c, plain c = true) (String.list_ascii_of_string s).
Proof.
  induction s as [|c s IH]; cbn; [by split|]. by rewrite andb_true_iff, IH, Forall_cons.
Qed.
Lemma clean_str l : clean (String.string_of_list_ascii l) = true ↔ Forall (λ c, plain c = true) l.
Proof. by rewrite clean_chars, String.list_ascii_of_string_of_list_ascii. Qed.
Lemma clean_cstr l : pure l → clean (cstr l) = true.
Proof.
  induction 1 as [|c l Hc _ IH]; [done|]. cbn. case_bool_decide; [done|]. cbn. rewrite IH.
  by destruct Hc as [-> | ->].
Qed.
Lemma pure_cbuf s : clean s = true → pure (cbuf s).
Proof.
  rewrite clean_chars. intros H. unfold cbuf. apply Forall_app. split; [|by repeat constructor].
  eapply Forall_impl; [exact H|]. auto.
Qed.
Lemma pure_terminate i l : pure l → pure (terminate i l).
Proof. intros H. apply Forall_insert; auto. Qed.
Lemma clean_str_at i l : pure l → clean (str_at i l) = true.
Proof. intros H. apply clean_cstr. by apply Forall_drop. Qed.

(** ** Text *)
Lemma balanced_opt {A} (f : A → string) o : (∀ a, o = Some a → balanced (f a)) → balanced (opt_text f o).
Proof. intros H. destruct o; [by apply H|done]. Qed.
Lemma balanced_smap m key elem : mclean m → is_name elem = true →
  balanced (find_and_append_smap_val m key elem).
Proof.
  intros Hm He. apply balanced_opt. intros v Hv. apply balanced_elem; [done|].
  apply balanced_clean. by apply (Hm key).
Qed.
Lemma balanced_steal s : balanced s → balanced (default "" (steal s)).
Proof. by destruct s. Qed.
Lemma balanced_if (b : bool) x y : balanced x → balanced y → balanced (if b then x else y).
Proof. by destruct b. Qed.
#[export] Hint Resolve balanced_opt balanced_steal balanced_if clean_str_at pure_cbuf pure_terminate : xml.
#[export] Hint Extern 1 (balanced (find_and_append_smap_val _ _ _)) =>
  apply balanced_smap; [solve [eauto with xml]|reflexivity] : xml.

Lemma balanced_const s : (∀ e st, run (e :: st, Data) s = Some (e :: st, Data)) → balanced s.
Proof. done. Qed.

Lemma balanced_bits tag mask l : is_name tag = true → Forall (λ b, clean b.2 = true) l →
  balanced (dump_bits tag mask l).
Proof.
  intros Ht Hl. apply balanced_concat, Forall_fmap. eapply Forall_impl; [exact Hl|].
  intros b Hb. simpl. apply balanced_if; [|done]. apply balanced_elem; [done|]. by apply balanced_clean.
Qed.
Lemma balanced_rates mask : balanced (dump_bits "rate" mask rates).
Proof. apply balanced_bits; [done|]. by repeat constructor. Qed.
Lemma balanced_medium mask : balanced (dump_bits "medium" mask medium).
Proof. apply balanced_bits; [done|]. by repeat constructor. Qed.
Lemma balanced_pause mask : balanced (pause_text mask).
Proof. unfold pause_text. repeat apply balanced_if; intros e st; vm_compute; reflexivity. Qed.
#[export] Hint Resolve balanced_rates balanced_medium balanced_pause : xml.

Lemma clean_bool (b : bool) x y : clean x = true → clean y = true → clean (if b then x else y) = true.
Proof. by destruct b. Qed.
#[export] Hint Resolve clean_bool : xml.
#[export] Hint Extern 2 (clean _ = true) => reflexivity : xml.

Lemma balanced_features mask : balanced (dump_port_features mask).
Proof. unfold dump_port_features. scan. Qed.
Lemma balanced_configuration o st : oclean st → balanced (port_configuration o st).
Proof.
  intros H. unfold port_configuration, conf_bit. destruct o; [scan|].
  apply balanced_opt. intros v ->. scan.
Qed.
#[export] Hint Resolve balanced_features balanced_configuration : xml.

(** ** One database *)

(** The database after some number of OpenFlow calls. *)
Definition calls (n : nat) (s : ovsdb) : ovsdb :=
  with_out (λ x, Outside (x_devices x) (x_switches x) n (x_files x) (x_added_interface x) (x_cs_id x)) s.

Section reading.
Context {LX : LibXml} {OI : OvsIdl} {KE : Kernel} {VC : Vconn} {FS : Files}.
Context (s0 : ovsdb).

(** Returns a value with the property, whatever number of calls was made. *)
Definition does {A} (Q : A → Prop) (m : M ovsdb A) : Prop :=
  ∀ n, ∃ a n', m (calls n s0) = Done (a, calls n' s0) ∧ Q a.

Lemma does_ret {A} (Q : A → Prop) a : Q a → does Q (mret a).
Proof. intros H n. by exists a, n. Qed.
Lemma does_bind {A B} (P : A → Prop) (Q : B → Prop) m k :
  does P m → (∀ a, P a → does Q (k a)) → does Q (m ≫= k).
Proof.
  intros Hm Hk n. destruct (Hm n) as (a & n1 & H1 & Ha). destruct (Hk a Ha n1) as (b & n2 & H2 & Hb).
  exists b, n2. split; [|done]. by rewrite (bind_run _ _ _ _ _ H1).
Qed.
Lemma does_mono {A} (P Q : A → Prop) m : does P m → (∀ a, P a → Q a) → does Q m.
Proof. intros H HPQ n. destruct (H n) as (a & n' & ? & ?). exists a, n'. auto. Qed.
Lemma does_deref {A} f (o : option A) : is_Some o → does (λ a, o = Some a) (deref f o).
Proof. intros [a ->]. by apply does_ret. Qed.

Lemma rows_calls {A} `{Row A} n :
  (∀ s, tab (calls n s) = tab (A := A) s) → rows (A := A) (calls n s0) = rows s0.
Proof. unfold rows. by intros ->. Qed.

(** The tables do not depend on the number of calls. *)
Class Steady A `{Row A} := steady n s : tab (A := A) (calls n s) = tab s.
#[export] Instance steady_queue : Steady queue. Proof. done. Qed.
#[export] Instance steady_qos : Steady qos. Proof. done. Qed.
#[export] Instance steady_port : Steady port. Proof. done. Qed.
#[export] Instance steady_interface : Steady interface. Proof. done. Qed.
#[export] Instance steady_flow_table : Steady flow_table. Proof. done. Qed.
#[export] Instance steady_bridge : Steady bridge. Proof. done. Qed.
#[export] Instance steady_controller : Steady controller. Proof. done. Qed.
#[export] Instance steady_open_vswitch : Steady open_vswitch. Proof. done. Qed.
#[export] Instance steady_ssl : Steady ssl. Proof. done. Qed.

Definition live_row {A} `{Row A} (u : uuid) : Prop := is_Some (assoc u (rows (A := A) s0)).

Lemma does_rows `{Steady A} : does (λ l, l = rows s0) (gets (rows (A := A))).
Proof. intros n. eexists _, n. split; [reflexivity|]. unfold rows. by rewrite steady. Qed.
Lemma does_row `{Steady A} u : live_row (A := A) u → does (λ a, (u, a) ∈ rows s0) (row (A := A) u).
Proof.
  intros [a Ha] n. exists a, n. split.
  - unfold row. rewrite bind_gets, steady. unfold rows in Ha. by rewrite Ha.
  - apply fmap_Some in Ha as ([u' a'] & Hf & ->). apply find_first_Some in Hf as [Hin Hu].
    apply bool_decide_eq_true in Hu. simpl in Hu. by subst.
Qed.
Lemma does_out {A} (f : outside → A) :
  (∀ n, f (o_out (calls n s0)) = f (o_out s0)) → does (λ a, a = f (o_out s0)) (gets_out f).
Proof. intros H n. eexists _, n. split; [reflexivity|]. apply H. Qed.
Lemma does_call {A} (f : nat → A) : does (λ a, ∃ n, a = f n) (of_call f).
Proof. intros n. exists (f n), (S n). split; [reflexivity|]. by exists n. Qed.
Lemma does_gets {A} (f : ovsdb → A) (Q : A → Prop) :
  (∀ n, Q (f (calls n s0))) → does Q (gets f).
Proof. intros H n. eexists _, n. split; [reflexivity|]. apply H. Qed.

Lemma does_put_all {A} (f : A → M ovsdb string) l :
  (∀ x, x ∈ l → does balanced (f x)) → does balanced (put_all f l).
Proof.
  induction l as [|x l IH]; intros H; [by apply does_ret|]. cbn [put_all].
  eapply does_bind; [apply H; by left|]. intros a Ha.
  eapply does_bind; [apply IH; intros y Hy; apply H; by right|]. intros b Hb.
  apply does_ret. by apply balanced_app.
Qed.

(** The text of a part that is NULL when it is empty. *)
Definition fine_part (o : option string) : Prop := balanced (default "" o).
Lemma does_steal m : does balanced m → does fine_part (s ← m; mret (steal s)).
Proof. intros H. eapply does_bind; [exact H|]. intros a Ha. apply does_ret. by apply balanced_steal. Qed.

(** ** What is asked of the database *)

(** References lead to rows; names are set; switches answer. *)
Record readable : Prop := Readable {
  rd_bridge u b : (u, b) ∈ rows s0 →
    (∃ nm, br_name b = Some nm ∧ ":"%char ∉ String.list_ascii_of_string nm) ∧
    Forall (live_row (A := port)) (br_ports b) ∧
    Forall (live_row (A := flow_table)) (br_flow_tables b).*2 ∧
    Forall (live_row (A := controller)) (br_controller b) ∧
    (∀ dp, br_datapath_id b = Some dp → 15 ≤ String.length dp);
  rd_port u p : (u, p) ∈ rows s0 →
    Forall (live_row (A := interface)) (port_interfaces p) ∧
    (∀ q, port_qos p = Some q → live_row (A := qos) q);
  rd_interface u i : (u, i) ∈ rows s0 → is_Some (if_name i);
  rd_qos u q : (u, q) ∈ rows s0 → Forall (live_row (A := queue)) (qos_queues q).*2;
  rd_controller u c : (u, c) ∈ rows s0 →
    ∃ t, c_target c = Some t ∧ ":"%char ∈ String.list_ascii_of_string t;
  rd_ssl u o su : (u, o) ∈ rows s0 → ovs_ssl o = Some su → live_row (A := ssl) su;
  rd_vconn n c : vconn_transacts n c = 0%Z }.

(** No value that is printed holds markup, tunnel types are names. *)
Record printable : Prop := Printable {
  pr_bridge u b : (u, b) ∈ rows s0 → oclean (br_name b) ∧ oclean (br_datapath_id b);
  pr_port u p : (u, p) ∈ rows s0 → oclean (port_name p);
  pr_interface u i : (u, i) ∈ rows s0 →
    oclean (if_name i) ∧ oclean (if_admin_state i) ∧ oclean (if_link_state i) ∧
    mclean (if_options i) ∧ mclean (if_other_config i) ∧
    (∀ t, if_external_ids i !! "tunnel_type" = Some t → is_name t = true);
  pr_flow_table u f : (u, f) ∈ rows s0 → oclean (ft_name f) ∧ mclean (ft_external_ids f);
  pr_queue u q : (u, q) ∈ rows s0 → mclean (q_external_ids q) ∧ mclean (q_other_config q);
  pr_controller u c : (u, c) ∈ rows s0 →
    oclean (c_target c) ∧ oclean (c_local_ip c) ∧ mclean (c_external_ids c);
  pr_ssl u s : (u, s) ∈ rows s0 → mclean (ssl_external_ids s);
  pr_files : mclean (x_files (o_out s0));
  pr_id : oclean (x_cs_id (o_out s0)) }.

Hypothesis (Hr : readable) (Hp : printable).

(** ** Flow tables and queues *)
Lemma linked_key_does ft l : Forall (live_row (A := flow_table)) l.*2 → does (λ _, True) (linked_key ft l).
Proof.
  induction l as [|[k u] l IH]; intros H; [by apply does_ret|]. cbn [linked_key].
  apply Forall_cons in H as [Hu H]. eapply does_bind; [by apply does_row|]. intros f _.
  case_bool_decide; [by apply does_ret|by apply IH].
Qed.
Lemma find_key_does ft l : (∀ u b, (u, b) ∈ l → (u, b) ∈ rows s0) → does (λ _, True) (find_key ft l).
Proof using Hr.
  induction l as [|[u b] l IH]; intros H; [by apply does_ret|]. cbn [find_key].
  eapply does_bind.
  - apply linked_key_does. by destruct (rd_bridge Hr u b) as (_ & _ & ? & _); [apply H; left|].
  - intros [k|] _; [by apply does_ret|]. apply IH. intros u' b' ?. apply H. by right.
Qed.

Lemma flow_tables_does : does fine_part get_flow_tables_config.
Proof using Hr Hp.
  unfold get_flow_tables_config. eapply does_bind; [apply does_rows|]. intros l ->.
  apply does_steal, does_put_all. intros [u f] Hf. unfold flow_table_config, find_flowtable_id.
  eapply does_bind; [eapply does_bind; [apply does_rows|]; intros l ->; by apply find_key_does|].
  intros k _. apply does_ret. destruct k as [k|]; [|done]. cbn [fst snd].
  destruct (pr_flow_table Hp u f Hf) as [Hnm Hext].
  assert (∀ o, o = ft_external_ids f !! OFC_RESOURCE_ID → balanced (match o with
    | Some rid => if bool_decide (rid = "") then "" else "<resource-id>" +:+ rid +:+ "</resource-id>"
    | None => "" end)) as H1.
  { intros [rid|] E; [|done]. symmetry in E. case_bool_decide; [done|]. scan. }
  specialize (H1 _ eq_refl).
  assert (balanced (opt_text (λ nm, "<name>" +:+ nm +:+ "</name>") (ft_name f))) as H2.
  { apply balanced_opt. intros nm E. scan. }
  scan.
Qed.

Lemma find_link_does rid i l : Forall (live_row (A := queue)) l.*2 → does (λ _, True) (find_link rid i l).
Proof.
  revert i. induction l as [|[k u] l IH]; intros i H; [by apply does_ret|]. cbn [find_link].
  apply Forall_cons in H as [Hu H]. eapply does_bind; [by apply does_row|]. intros q _.
  case_match; [by apply does_ret|by apply IH].
Qed.
Lemma find_port_link_does rid l : (∀ u p, (u, p) ∈ l → (u, p) ∈ rows s0) →
  does (λ o, ∀ p qs i, o = Some (p, qs, i) → ∃ pr, (p, pr) ∈ rows (A := port) s0) (find_port_link rid l).
Proof using Hr.
  induction l as [|[u p] l IH]; intros H; [by apply does_ret|]. cbn [find_port_link].
  assert (∀ u p, (u, p) ∈ l → (u, p) ∈ rows s0) as H' by (intros u' p' ?; apply H; by right).
  assert ((u, p) ∈ rows s0) as Hup by (apply H; by left).
  destruct (port_qos p) as [qs|] eqn:E; [|by apply IH].
  eapply does_bind; [apply does_row; by eapply (rd_port Hr)|]. intros q Hq.
  eapply does_bind; [apply find_link_does, (rd_qos Hr qs q Hq)|]. intros [i|] _; [|by apply IH].
  apply does_ret. intros p' qs' i' [= <- <- <-]. by exists p.
Qed.

(** A row that exists can be read, and is found. *)
Lemma live_in `{Row A} u a : (u, a) ∈ rows s0 → live_row (A := A) u.
Proof.
  intros H1. unfold live_row, assoc. apply fmap_is_Some.
  destruct (find_first (λ r, bool_decide (r.1 = u)) (rows s0)) eqn:E; [by eexists|].
  pose proof (proj1 (find_first_None _ _) E (u, a) H1) as Hn. simpl in Hn.
  by rewrite bool_decide_eq_true_2 in Hn.
Qed.

Lemma queue_properties_balanced m : mclean m → balanced (queue_properties m).
Proof. intros H. unfold queue_properties. scan. Qed.

Lemma queues_does : does fine_part get_queues_config.
Proof using Hr Hp.
  unfold get_queues_config. eapply does_bind; [apply does_rows|]. intros l ->.
  apply does_steal, does_put_all. intros [u q] Hq. unfold queue_config. cbn [snd].
  destruct (pr_queue Hp u q Hq) as [Hext Hother].
  destruct (q_external_ids q !! OFC_RESOURCE_ID) as [rid|] eqn:Erid; [|by apply does_ret].
  case_bool_decide; [by apply does_ret|].
  eapply (does_bind (λ o, ∀ p, o = Some p → ∃ pr, (p, pr) ∈ rows (A := port) s0)).
  { unfold find_queue_port. eapply does_bind; [apply does_rows|]. intros ps ->.
    eapply does_bind; [by apply find_port_link_does|]. intros o Ho. apply does_ret.
    intros p ([[p' qs] i] & E & ->)%fmap_Some. cbn [fst]. by eapply Ho. }
  intros o Ho. eapply (does_bind balanced).
  { destruct o as [pu|]; [|by apply does_ret]. destruct (Ho pu eq_refl) as [pr Hpr].
    eapply does_bind; [by apply does_row, (live_in pu pr)|]. intros p Hpu. apply does_ret.
    pose proof (pr_port Hp pu p Hpu). scan. }
  intros port Hport. apply does_ret. pose proof (queue_properties_balanced _ Hother) as Hprops.
  assert (balanced (opt_text (λ i, "<id>" +:+ i +:+ "</id>") (q_external_ids q !! "ofc_id"))) as Hid.
  { apply balanced_opt. intros i E. scan. }
  case_bool_decide; scan.
Qed.

(** ** Ports *)
Lemma vconn_open_does nm : does (λ r, r.1 = 0%Z → is_Some r.2) (vconn_open nm).
Proof.
  unfold vconn_open. eapply does_bind; [apply does_call|]. intros e _. apply does_ret.
  cbn [fst snd]. intros ->. by eexists.
Qed.
Lemma open_first_does l : does (λ _, True) (open_first l).
Proof.
  induction l as [|nm l IH]; [by apply does_ret|]. cbn [open_first].
  eapply does_bind; [apply vconn_open_does|]. intros [e v] _. case_match; [by apply does_ret|done].
Qed.
Lemma open_loop_does k nm bp sn : ":"%char ∉ String.list_ascii_of_string nm →
  does (λ _, True) (open_loop k nm bp sn).
Proof.
  intros H. induction k as [|k IH]; [by apply does_ret|]. cbn [open_loop].
  eapply (does_bind (λ _, True)).
  { unfold open_once. rewrite bool_decide_eq_false_2 by done.
    eapply does_bind; [apply open_first_does|]. intros [c|] _; [|by apply does_ret].
    eapply does_bind; [apply does_call|]. intros e _. by apply does_ret. }
  intros [v connected] _. destruct connected; [by apply does_ret|].
  destruct k; [by apply does_ret|done].
Qed.
Lemma open_vconn_does nm : ":"%char ∉ String.list_ascii_of_string nm → does (λ _, True) (of_open_vconn nm).
Proof.
  intros H. unfold of_open_vconn. eapply does_bind; [by apply open_loop_does|]. intros [[c|] ok] _;
    by apply does_ret.
Qed.
Lemma get_ports_does v : does (λ _, True) (of_get_ports v).
Proof using Hr.
  unfold of_get_ports. destruct v as [c|]; [|by apply does_ret].
  eapply does_bind; [apply does_call|]. intros n _. rewrite (rd_vconn Hr). cbn [Z.eqb].
  eapply does_bind; [by apply does_out|]. intros sw _. by apply does_ret.
Qed.

Lemma each_interface_does f u b : (u, b) ∈ rows s0 →
  (∀ o iu i, (iu, i) ∈ rows (A := interface) s0 → does balanced (f o iu)) → does fine_part (each_interface f b).
Proof using Hr.
  intros Hb Hf. destruct (rd_bridge Hr u b Hb) as ((nm & Hnm & Hc) & Hports & _).
  unfold each_interface. eapply does_bind; [apply does_deref; by rewrite Hnm|]. intros nm' E.
  rewrite Hnm in E. injection E as <-.
  eapply does_bind; [by apply open_vconn_does|]. intros [ok v] _.
  eapply (does_bind (λ _, True)); [destruct ok; [apply get_ports_does|by apply does_ret]|]. intros o _.
  apply does_steal, does_put_all. intros pu Hpu.
  eapply does_bind; [apply does_row; by eapply Forall_forall in Hports|]. intros p Hpr.
  apply does_put_all. intros iu Hiu. destruct (rd_port Hr pu p Hpr) as [Hi _].
  eapply Forall_forall in Hi as [i Hi]; [|done].
  apply (Hf o iu i). by apply assoc_Some_elem.
Qed.

(** What the functions on one interface begin with. *)
Lemma port_byname_does o nm : is_Some nm → does (λ _, True) (of_get_port_byname o nm).
Proof.
  intros Hn. unfold of_get_port_byname. destruct o as [[[|pp l]|]|]; try by apply does_ret.
  eapply does_bind; [by apply does_deref|]. intros n _. by apply does_ret.
Qed.
Lemma is_system_does nm : is_Some nm → does (λ _, True) (dev_is_system nm).
Proof.
  intros Hn. unfold dev_is_system, ifr_name.
  eapply (does_bind (λ _, True)); [eapply does_bind; [by apply does_deref|]; intros n _; by apply does_ret|].
  intros n _. eapply does_bind; [by apply does_out|]. intros d _. by apply does_ret.
Qed.
Lemma get_ethtool_does nm : is_Some nm → does (λ _, True) (dev_get_ethtool nm).
Proof.
  intros Hn. unfold dev_get_ethtool, ifr_name.
  eapply (does_bind (λ _, True)); [eapply does_bind; [by apply does_deref|]; intros n _; by apply does_ret|].
  intros n _. eapply does_bind; [by apply does_out|]. intros d _. by apply does_ret.
Qed.

Lemma tunnel_balanced i : mclean (if_options i) →
  (∀ t, if_external_ids i !! "tunnel_type" = Some t → is_name t = true) → balanced (tunnel_config i).
Proof.
  intros Ho Ht. apply balanced_opt. intros t E. specialize (Ht t E).
  match goal with |- balanced ("<" +:+ t +:+ ">" +:+ ?a +:+ ?b +:+ ?c +:+ "</" +:+ t +:+ ">") =>
    replace ("<" +:+ t +:+ ">" +:+ a +:+ b +:+ c +:+ "</" +:+ t +:+ ">")
      with ("<" +:+ t +:+ ">" +:+ (a +:+ b +:+ c) +:+ "</" +:+ t +:+ ">") by (by rewrite !str_app_assoc)
  end.
  apply balanced_elem; [done|]. auto 10 with xml.
Qed.

Lemma port_config_does o iu (i : interface) : (iu, i) ∈ rows s0 → does balanced (port_config o iu).
Proof using Hr Hp.
  intros Hi. unfold port_config. eapply does_bind; [by apply does_row, (live_in iu i)|].
  clear i Hi. intros i Hi. pose proof (rd_interface Hr iu i Hi) as Hn.
  destruct (pr_interface Hp iu i Hi) as (Hnm & Hadm & _ & Hopt & _ & Htt).
  eapply does_bind; [by apply port_byname_does|]. intros pp _.
  eapply does_bind; [by apply is_system_does|]. intros sys _.
  eapply (does_bind balanced).
  { destruct sys; [|by apply does_ret]. eapply does_bind; [by apply get_ethtool_does|].
    intros ec _. apply does_ret. scan. }
  intros features Hf. apply does_ret. pose proof (tunnel_balanced i Hopt Htt) as Ht.
  assert (balanced (opt_text (λ n, "<requested-number>" +:+ fmt_u64 n +:+ "</requested-number>")
    (if_ofport_request i))) as Hreq by (apply balanced_opt; intros n E; scan).
  scan.
Qed.

Lemma ports_config_does u b : (u, b) ∈ rows s0 → does fine_part (get_ports_config b).
Proof using Hr Hp. intros Hb. eapply each_interface_does; [exact Hb|]. intros o iu i. apply port_config_does. Qed.

(** ** Bridges *)
Lemma split_at_parts c l a b : split_at c l = Some (a, b) → l = a ++ c :: b.
Proof.
  revert a. induction l as [|x l IH]; intros a; cbn [split_at]; [done|].
  case_bool_decide; [by intros [= <- <-]; subst|].
  intros ([a' b'] & E & [= -> ->])%fmap_Some. cbn. by rewrite (IH _ E).
Qed.
Lemma split_at_found c l : c ∈ l → is_Some (split_at c l).
Proof.
  induction l as [|x l IH]; [by intros ?%elem_of_nil|]. cbn [split_at].
  case_bool_decide; [by eexists|]. intros [->|Hc]%elem_of_cons; [done|]. apply fmap_is_Some. auto.
Qed.

Lemma oclean_str l : Forall (λ c, plain c = true) l → oclean (Some (String.string_of_list_ascii l)).
Proof. intros H v [= <-]. by apply clean_str. Qed.
Lemma oclean_none : oclean None.
Proof. by intros v. Qed.

Lemma parse_target_clean t : clean t = true → ":"%char ∈ String.list_ascii_of_string t →
  ∃ pr ad po, parse_target_to_addr (Some t) = Some (pr, ad, po) ∧ oclean pr ∧ oclean ad ∧ oclean po.
Proof.
  intros Ht Hc. apply clean_chars in Ht. unfold parse_target_to_addr.
  destruct (split_at_found _ _ Hc) as [[proto rest] E]. rewrite E. cbn [mbind option_bind].
  apply split_at_parts in E. rewrite E in Ht. apply Forall_app in Ht as [Hproto Ht].
  apply Forall_cons in Ht as [_ Hrest].
  assert (oclean (Some (if bool_decide (String.string_of_list_ascii proto = "ssl") then "tls"
    else String.string_of_list_ascii proto))) as Hpr.
  { intros v [= <-]. case_bool_decide; [done|]. by apply clean_str. }
  revert Hpr. generalize (if bool_decide (String.string_of_list_ascii proto = "ssl") then "tls"
    else String.string_of_list_ascii proto). intros pr Hpr. case_bool_decide.
  - assert (Forall (λ c, plain c = true) (tail rest)) as Htl by (by destruct Hrest).
    destruct (split_at "]" (tail rest)) as [[a b]|] eqn:E2; [|by eexists _, _, _; split_and!; [reflexivity|..]; cbn; auto using oclean_str, oclean_none].
    apply split_at_parts in E2. rewrite E2 in Htl. apply Forall_app in Htl as [Ha Hb].
    apply Forall_cons in Hb as [_ Hb].
    destruct b as [|x b]; [by eexists _, _, _; split_and!; [reflexivity|..]; cbn; auto using oclean_str, oclean_none|]. apply Forall_cons in Hb as [_ Hb].
    destruct (decide (x = ":"%char)) as [->|Hx]; [by eexists _, _, _; split_and!; [reflexivity|..]; cbn; auto using oclean_str, oclean_none|].
    destruct x as [[] [] [] [] [] [] [] []]; try (by eexists _, _, _; split_and!; [reflexivity|..]; cbn; auto using oclean_str, oclean_none); done.
  - destruct (split_at ":" rest) as [[a b]|] eqn:E2; [|by eexists _, _, _; split_and!; [reflexivity|..]; cbn; auto using oclean_str, oclean_none].
    apply split_at_parts in E2. rewrite E2 in Hrest. apply Forall_app in Hrest as [Ha Hb].
    apply Forall_cons in Hb as [_ Hb]. by eexists _, _, _; split_and!; [reflexivity|..]; cbn; auto using oclean_str, oclean_none.
Qed.

Lemma controller_config_does cu (c : controller) : (cu, c) ∈ rows s0 → does balanced (controller_config cu).
Proof using Hr Hp.
  intros Hc. unfold controller_config. eapply does_bind; [by apply does_row, (live_in cu c)|].
  clear c Hc. intros c Hc. destruct (rd_controller Hr cu c Hc) as (t & Ht & Hcolon).
  destruct (pr_controller Hp cu c Hc) as (Hct & Hlip & Hext). rewrite Ht.
  eapply does_bind; [apply does_deref; by eexists|]. intros t' [= <-].
  destruct (parse_target_clean t (Hct t Ht) Hcolon) as (pr & ad & po & E & H1 & H2 & H3). rewrite E.
  eapply does_bind; [apply does_deref; by eexists|]. intros r [= <-].
  apply does_ret.
  assert (oclean (c_external_ids c !! "ofconfig-id")) as Hid by (intros v Hv; by eapply Hext).
  assert (balanced (opt_text (λ p, "<port>" +:+ p +:+ "</port>") po)) as Hpo.
  { apply balanced_opt. intros v ->. scan. }
  assert (balanced (opt_text (λ p, "<protocol>" +:+ p +:+ "</protocol>") pr)) as Hpr.
  { apply balanced_opt. intros v ->. scan. }
  assert (balanced (opt_text (λ l, "<local-ip-address>" +:+ l +:+ "</local-ip-address>") (c_local_ip c))) as Hlo.
  { apply balanced_opt. intros v Hv. scan. }
  scan.
Qed.

Lemma controllers_text_does f l : (∀ u, u ∈ l → does balanced (f u)) → does balanced (controllers_text f l).
Proof.
  intros H. unfold controllers_text. destruct l as [|u l]; [by apply does_ret|].
  eapply does_bind; [by apply does_put_all|]. intros s Hs. apply does_ret. scan.
Qed.

Lemma dpid_chars_some l : 16 ≤ length l → is_Some (dpid_chars 23 1 0 l).
Proof. intros H. do 16 (destruct l as [|? l]; [cbn in H; lia|]). by eexists. Qed.
Lemma dpid_chars_pure n j i l r : pure l → dpid_chars n j i l = Some r → pure r.
Proof.
  intros Hl. revert j i r. induction n as [|n IH]; intros j i r; cbn [dpid_chars].
  - intros [= <-]. constructor.
  - case_match.
    + intros (r' & E & ->)%fmap_Some. constructor; [by right|]. by eapply IH.
    + destruct (l !! i) as [c|] eqn:Ec; [|done]. cbn. intros (r' & E & ->)%fmap_Some.
      constructor; [by apply (Forall_lookup_1 _ _ _ _ Hl Ec)|]. by eapply IH.
Qed.
Lemma dpid_text_clean dp : clean dp = true → 15 ≤ String.length dp →
  ∃ t, dpid_text dp = Some t ∧ clean t = true.
Proof.
  intros Hc Hl. unfold dpid_text. destruct (dpid_chars_some (cbuf dp)) as [r E].
  { unfold cbuf. rewrite length_app, length_chars. cbn. lia. }
  rewrite E. eexists. split; [reflexivity|]. apply clean_cstr. apply Forall_app. split.
  - eapply dpid_chars_pure; [by apply pure_cbuf|exact E].
  - by repeat constructor.
Qed.

Lemma failmode_balanced m : balanced (failmode_config m).
Proof.
  apply balanced_opt. intros v _. apply balanced_if; intros e st; vm_compute; reflexivity.
Qed.

Lemma port_queues_does pu (p : port) : (pu, p) ∈ rows s0 → does balanced (port_queues pu).
Proof using Hr Hp.
  intros Hpu. unfold port_queues. eapply does_bind; [by apply does_row, (live_in pu p)|].
  clear p Hpu. intros p Hpu. destruct (port_qos p) as [qs|] eqn:E; [|by apply does_ret].
  eapply does_bind; [exact (does_row _ (proj2 (rd_port Hr pu p Hpu) qs E))|]. intros q Hq.
  apply does_put_all. intros [k u] Hu. pose proof (rd_qos Hr qs q Hq) as Hl.
  eapply does_bind.
  { apply does_row. eapply Forall_forall; [exact Hl|]. apply list_elem_of_fmap. by exists (k, u). }
  intros q' Hq'. apply does_ret. apply balanced_opt. intros v Hv.
  destruct (pr_queue Hp u q' Hq') as [Hext _]. scan.
Qed.

Lemma bridge_config_does rid u b : oclean rid → (u, b) ∈ rows s0 → does balanced (bridge_config rid (u, b)).
Proof using Hr Hp.
  intros Hrid Hb. destruct (rd_bridge Hr u b Hb) as (_ & Hports & Hfts & Hcs & Hdp).
  destruct (pr_bridge Hp u b Hb) as [Hnm Hcdp]. unfold bridge_config. cbn [snd].
  eapply (does_bind balanced).
  { unfold datapath_config. destruct (br_datapath_id b) as [dp|] eqn:E; [|by apply does_ret].
    destruct (dpid_text_clean dp (Hcdp dp eq_refl) (Hdp dp eq_refl)) as (t & -> & Ht).
    eapply does_bind; [apply does_deref; by eexists|]. intros t' [= <-]. apply does_ret. scan. }
  intros datapath Hdatapath. eapply does_bind.
  { apply controllers_text_does. intros cu Hcu. eapply Forall_forall in Hcs as [c Hc]; [|done].
    apply (controller_config_does cu c). by apply assoc_Some_elem. }
  intros controllers Hcontrollers. eapply (does_bind balanced).
  { unfold bridge_resources. eapply (does_bind balanced).
    { apply does_put_all. intros pu Hpu. eapply Forall_forall in Hports; [|done].
      eapply does_bind; [by apply does_row|]. intros p Hin. apply does_ret.
      pose proof (pr_port Hp pu p Hin). scan. }
    intros ports Hpt. eapply (does_bind balanced).
    { apply does_put_all. intros pu Hpu. eapply Forall_forall in Hports as [p Hin]; [|done].
      apply (port_queues_does pu p). by apply assoc_Some_elem. }
    intros queues Hqs. apply does_ret.
    assert (balanced (opt_text (λ r, "<certificate>" +:+ r +:+ "</certificate>") rid)) as Hcert.
    { apply balanced_opt. intros v ->. scan. }
    assert (balanced (String.concat "" ((λ kv, "<flow-table>" +:+ fmt_i kv.1 +:+ "</flow-table>") <$>
      br_flow_tables b))) as Hft.
    { apply balanced_concat, Forall_fmap, Forall_forall. intros kv _. unfold compose. scan. }
    auto with xml. }
  intros aux Haux. apply does_ret. pose proof (failmode_balanced (br_fail_mode b)) as Hfm.
  case_bool_decide; scan.
Qed.

Lemma cert_info_does : does oclean cert_info.
Proof using Hr Hp.
  unfold cert_info. eapply (does_bind (λ o, o = head (rows (A := open_vswitch) s0))).
  { apply does_gets. intros n. unfold rows. by rewrite steady. }
  intros o ->. destruct (rows (A := open_vswitch) s0) as [|[u o] l] eqn:E; cbn [head]; [by apply does_ret|].
  destruct (ovs_ssl o) as [su|] eqn:Es; [|by apply does_ret].
  eapply does_bind; [apply does_row, (rd_ssl Hr u o); [rewrite E; by left|done]|].
  intros s Hs. apply does_ret. intros v Hv. by eapply (pr_ssl Hp su s Hs).
Qed.

Lemma bridges_config_does : does fine_part get_bridges_config.
Proof using Hr Hp.
  unfold get_bridges_config. eapply does_bind; [apply cert_info_does|]. intros rid Hrid.
  eapply does_bind; [apply does_rows|]. intros l ->. apply does_steal, does_put_all.
  intros [u b] Hb. by apply bridge_config_does.
Qed.

(** ** Certificates *)
Lemma read_file_does f : does (λ o, ∀ pem, o = Some pem → pure pem) (read_file f).
Proof using Hp.
  unfold read_file. eapply does_bind; [by apply does_out|]. intros files ->. apply does_ret.
  intros pem. destruct f as [f|]; [|done]. cbn. destruct (x_files (o_out s0) !! f) as [t|] eqn:E; [|done].
  cbn. case_match; [|done]. intros [= <-]. apply pure_cbuf. by apply (pr_files Hp f).
Qed.
Lemma cert_text_clean pem t : pure pem → cert_text pem = Some t → clean t = true.
Proof.
  intros Hpem. unfold cert_text. destruct (strstr pem cert_begin) as [i|]; [|done].
  cbn. destruct (strstr pem cert_end) as [j|]; [|done]. cbn. intros [= <-]. auto with xml.
Qed.
Lemma key_text_clean pem a b : pure pem → key_text pem = Some (a, b) → clean a = true ∧ clean b = true.
Proof.
  intros Hpem. unfold key_text. destruct (key_markers pem) as [[i j]|]; [|done].
  cbn. intros [= <- <-]. auto with xml.
Qed.
Lemma first_ssl_does : does (λ o, ∀ u s, o = Some (u, s) → (u, s) ∈ rows s0) first_ssl.
Proof.
  apply does_gets. intros n u s. unfold rows. rewrite steady. intros E. by apply head_Some_elem_of.
Qed.

Lemma owned_does : does fine_part get_owned_certificates_config.
Proof using Hp.
  unfold get_owned_certificates_config. eapply does_bind; [apply first_ssl_does|].
  intros [[u s]|] Hs; [|by apply does_ret]. specialize (Hs u s eq_refl).
  pose proof (pr_ssl Hp u s Hs) as Hext.
  destruct (ssl_certificate s) as [cf|]; [|by apply does_ret].
  destruct (ssl_private_key s) as [kf|]; [|by apply does_ret].
  destruct (ssl_external_ids s !! OFC_RESID_OWN) as [rid|] eqn:E; [|by apply does_ret].
  eapply does_bind; [apply read_file_does|]. intros pem Hpem.
  destruct (pem ≫= cert_text) as [cert|] eqn:Ec; [|by apply does_ret].
  apply bind_Some in Ec as (p & Ep & Ec). pose proof (cert_text_clean p cert (Hpem p Ep) Ec) as Hcert.
  eapply does_bind; [apply read_file_does|]. intros pem' Hpem'.
  destruct (pem' ≫= key_text) as [[kt kd]|] eqn:Ek; [|by apply does_ret].
  apply bind_Some in Ek as (p' & Ep' & Ek).
  destruct (key_text_clean p' kt kd (Hpem' p' Ep') Ek) as [Hkt Hkd].
  apply does_ret. apply balanced_steal. scan.
Qed.

Lemma external_does : does fine_part get_external_certificates_config.
Proof using Hp.
  unfold get_external_certificates_config. eapply does_bind; [apply first_ssl_does|].
  intros [[u s]|] Hs; [|by apply does_ret]. specialize (Hs u s eq_refl).
  pose proof (pr_ssl Hp u s Hs) as Hext.
  destruct (ssl_ca_cert s) as [cf|]; [|by apply does_ret].
  destruct (ssl_external_ids s !! OFC_RESID_EXT) as [rid|] eqn:E; [|by apply does_ret].
  eapply does_bind; [apply read_file_does|]. intros pem Hpem.
  destruct (pem ≫= cert_text) as [cert|] eqn:Ec; [|by apply does_ret].
  apply bind_Some in Ec as (p & Ep & Ec). pose proof (cert_text_clean p cert (Hpem p Ep) Ec) as Hcert.
  apply does_ret. apply balanced_steal. scan.
Qed.

(** ** State *)
Lemma rate_balanced ec : balanced (rate_text ec).1.
Proof.
  assert (Forall (λ r, ∀ x, balanced (r +:+ (if x =? 0 then "-HD</rate>" else if x =? 1 then "-FD</rate>"
      else "</rate>")%Z))
    ["<rate>10Mb"; "<rate>100Mb"; "<rate>1Gb"; "<rate>10Gb"; "<rate>40Gb"; "<rate>other"]) as H.
  { repeat constructor; intros x;
      (destruct (x =? 0)%Z; [|destruct (x =? 1)%Z]; intros e st; vm_compute; reflexivity). }
  rewrite Forall_forall in H.
  unfold rate_text. set (speed := Z.lor _ _).
  repeat match goal with |- context [(speed =? ?n)%Z] =>
    destruct (speed =? n)%Z; [apply H; apply (bool_decide_unpack _); vm_compute; exact I|] end.
  apply (H "<rate>other"). apply (bool_decide_unpack _); vm_compute; exact I.
Qed.
Lemma medium_balanced port : balanced (medium_text port).
Proof. unfold medium_text. repeat apply balanced_if; intros e st; vm_compute; reflexivity. Qed.
#[local] Hint Resolve rate_balanced medium_balanced : xml.
Lemma features_state_balanced ec : balanced (features_state ec).
Proof. unfold features_state. scan. Qed.
#[local] Hint Resolve features_state_balanced : xml.

Lemma port_state_does o iu (i : interface) : (iu, i) ∈ rows s0 → does balanced (port_state o iu).
Proof using Hr Hp.
  intros Hi. unfold port_state. eapply does_bind; [by apply does_row, (live_in iu i)|].
  clear i Hi. intros i Hi. pose proof (rd_interface Hr iu i Hi) as Hn.
  destruct (pr_interface Hp iu i Hi) as (Hnm & _ & Hlink & _ & Hother & _).
  eapply does_bind; [by apply port_byname_does|]. intros pp _.
  eapply does_bind; [by apply is_system_does|]. intros sys _.
  eapply (does_bind (λ _, True)).
  { destruct sys; [by apply get_ethtool_does|by apply does_ret]. }
  intros ec _. apply does_ret.
  assert (balanced (port_status i pp)) as Hst.
  { unfold port_status, conf_bit. case_bool_decide as He; [done|].
    assert (balanced (opt_text (λ l, "<oper-state>" +:+ l +:+ "</oper-state>") (if_link_state i))) as H1.
    { apply balanced_opt. intros v Hv. scan. }
    assert (balanced (opt_text (λ pp, "<live>" +:+ (if has_bit (pp_state pp) OFPUTIL_PS_LIVE then "true"
      else "false") +:+ "</live>") pp)) as H2.
    { apply balanced_opt. intros v _. scan. }
    scan. }
  assert (balanced (opt_text (λ n, "<number>" +:+ fmt_u64 n +:+ "</number>") (if_ofport i))) as Hno.
  { apply balanced_opt. intros v _. scan. }
  assert (balanced (opt_text (λ pp, if ((rate_text ec).2 =? 255)%Z
    then "<current-rate>" +:+ fmt_u32 (pp_curr_speed pp) +:+ "</current-rate>"
         +:+ "<max-rate>" +:+ fmt_u32 (pp_max_speed pp) +:+ "</max-rate>"
    else "") pp)) as Hspeed.
  { apply balanced_opt. intros v _. apply balanced_if; [|done]. scan. }
  scan.
Qed.
Lemma ports_state_does u b : (u, b) ∈ rows s0 → does fine_part (get_ports_state b).
Proof using Hr Hp. intros Hb. eapply each_interface_does; [exact Hb|]. intros o iu i. apply port_state_does. Qed.

Lemma flow_tables_state_does : does fine_part get_flow_tables_state.
Proof using Hp.
  unfold get_flow_tables_state. eapply does_bind; [apply does_rows|]. intros l ->.
  apply does_ret, balanced_steal, balanced_concat, Forall_fmap, Forall_forall. intros [u f] Hf.
  unfold compose, flow_table_state. cbn [snd]. destruct (ft_flow_limit f) as [lim|]; [|done].
  destruct (ft_external_ids f !! "table_id") as [tid|] eqn:E; [|done].
  destruct (pr_flow_table Hp u f Hf) as [_ Hext]. scan.
Qed.

Lemma capabilities_balanced : balanced bridge_capabilities.
Proof. intros e st. vm_compute. reflexivity. Qed.
#[local] Hint Resolve capabilities_balanced : xml.

Lemma bridges_state_does : does fine_part get_bridges_state.
Proof using Hr Hp.
  unfold get_bridges_state. eapply does_bind; [apply does_rows|]. intros l ->.
  apply does_steal, does_put_all. intros [u b] Hb. unfold bridge_state. cbn [snd].
  destruct (rd_bridge Hr u b Hb) as (_ & _ & _ & Hcs & _). destruct (pr_bridge Hp u b Hb) as [Hnm _].
  eapply does_bind.
  { apply controllers_text_does. intros cu Hcu. eapply Forall_forall in Hcs; [|done].
    unfold controller_state. eapply does_bind; [by apply does_row|]. intros c Hc. apply does_ret.
    apply balanced_opt. intros v Hv. destruct (pr_controller Hp cu c Hc) as (_ & _ & Hext).
    assert (balanced (if c_is_connected c then "<connection-state>up</connection-state>"
      else "<connection-state>down</connection-state>")) as Hcc
      by (apply balanced_if; intros e st; vm_compute; reflexivity).
    scan. }
  intros cs Hcs'. apply does_ret. scan.
Qed.

(** ** The documents *)
Definition well_formed (text : string) : Prop := ∃ root, text = xml_decl +:+ root ∧ element root = true.

Lemma document_well_formed body : balanced body →
  well_formed (xml_decl +:+ envelope +:+ body +:+ "</capable-switch>").
Proof.
  intros H. eexists. split; [reflexivity|]. unfold element.
  rewrite (run_two _ envelope (["capable-switch"], Data)) by (vm_compute; reflexivity).
  rewrite (run_two _ _ _ _ (H _ _)). reflexivity.
Qed.

Lemma all_ports_does f : (∀ u b, (u, b) ∈ rows s0 → does fine_part (f b)) → does balanced (all_ports f).
Proof.
  intros H. unfold all_ports. eapply does_bind; [apply does_rows|]. intros l ->.
  apply does_put_all. intros [u b] Hb. eapply does_bind; [by apply (H u)|]. intros o Ho.
  by apply does_ret.
Qed.

Lemma config_data_does id : clean id = true → does well_formed (config_data id).
Proof using Hr Hp.
  intros Hid. unfold config_data. eapply does_bind; [apply all_ports_does, ports_config_does|].
  intros ps Hps. apply balanced_steal in Hps. revert Hps. generalize (steal ps). intros ports Hports.
  eapply does_bind; [apply queues_does|]. intros queues Hq. eapply does_bind; [apply owned_does|].
  intros own Ho. eapply does_bind; [apply external_does|]. intros ext He.
  eapply does_bind; [apply flow_tables_does|]. intros fts Hf.
  eapply does_bind; [apply bridges_config_does|]. intros bs Hb. apply does_ret.
  unfold fine_part in *.
  match goal with |- well_formed (_ +:+ _ +:+ ?a +:+ id +:+ ?b +:+ ?c +:+ ?d +:+ ?e) =>
    replace (xml_decl +:+ envelope +:+ a +:+ id +:+ b +:+ c +:+ d +:+ e)
      with (xml_decl +:+ envelope +:+ (a +:+ id +:+ b +:+ c +:+ d) +:+ e) by (by rewrite !str_app_assoc);
    assert (balanced c) as Hc; [|assert (balanced d) as Hd]
  end.
  - destruct ports, queues, own, ext, fts; try done; scan.
  - apply balanced_opt. intros v ->. cbn in Hb. scan.
  - apply document_well_formed. scan.
Qed.

Lemma state_data_does : does well_formed state_data.
Proof using Hr Hp.
  unfold state_data. eapply does_bind; [apply all_ports_does, ports_state_does|].
  intros ps Hps. apply balanced_steal in Hps. revert Hps. generalize (steal ps). intros ports Hports.
  eapply does_bind; [apply flow_tables_state_does|]. intros fts Hf.
  eapply does_bind; [apply bridges_state_does|]. intros bs Hb. apply does_ret.
  unfold fine_part in *.
  match goal with |- well_formed (_ +:+ _ +:+ ?a +:+ ?c +:+ ?d +:+ ?e) =>
    replace (xml_decl +:+ envelope +:+ a +:+ c +:+ d +:+ e)
      with (xml_decl +:+ envelope +:+ (a +:+ c +:+ d) +:+ e) by (by rewrite !str_app_assoc);
    assert (balanced c) as Hc; [|assert (balanced d) as Hd]
  end.
  - destruct ports, fts; try done; scan.
  - apply balanced_opt. intros v ->. cbn in Hb. scan.
  - apply document_well_formed. scan.
Qed.

End reading.

(** ** Connections *)
Section connections.
Context {LX : LibXml} {OI : OvsIdl} {KE : Kernel} {VC : Vconn}.

Lemma calls_calls n m s : calls n (calls m s) = calls n s.
Proof. by destruct s. Qed.
Lemma calls_count n s : x_calls (o_out (calls n s)) = n.
Proof. done. Qed.

(** The first socket of l that can be opened, when the first call has number n;
    m is the number of the next call. *)
Definition first_open (l : list string) (n : nat) (v : option string) (m : nat) : Prop :=
  match v with
  | Some c => ∃ i, l !! i = Some c ∧ m = n + i + 1 ∧ vconn_opens (n + i) c = 0%Z ∧
      ∀ i' c', i' < i → l !! i' = Some c' → vconn_opens (n + i') c' ≠ 0%Z
  | None => m = n + length l ∧ ∀ i c, l !! i = Some c → vconn_opens (n + i) c ≠ 0%Z
  end.

(** One try: a socket is opened and then connected, or none can be opened. *)
Definition tried (l : list string) (n : nat) (v : option string) (connected : bool) (m : nat) : Prop :=
  ∃ j, first_open l n v j ∧
    match v with
    | Some c => m = S j ∧ connected = bool_decide (vconn_connects j c = 0%Z)
    | None => m = j ∧ connected = false
    end.

(** k tries, all but the last of which fail. *)
Inductive tries (l : list string) : nat → nat → option string → bool → nat → Prop :=
| tries_last n v ok m : tried l n v ok m → tries l 1 n v ok m
| tries_again k n v m v' ok m' :
    tried l n v false m → tries l k m v' ok m' → tries l (S k) n v' ok m'.

Lemma tried_calls l n v ok m : tried l n v ok m → m ≤ n + length l + 1.
Proof.
  intros (j & Hj & Hv). destruct v as [c|]; [|destruct Hj, Hv; lia].
  destruct Hj as (i & Hi & -> & _). destruct Hv as [-> _]. apply lookup_lt_Some in Hi. lia.
Qed.
Lemma tries_calls l k n v ok m : tries l k n v ok m → m ≤ n + k * S (length l).
Proof. induction 1 as [? ? ? ? H|? ? ? ? ? ? ? H _ IH]; apply tried_calls in H; lia. Qed.

Definition socket_names (l : list string) : list string := (λ f, "unix:" +:+ f) <$> l.

Lemma first_open_miss c l n v m : vconn_opens n c ≠ 0%Z → first_open l (S n) v m →
  first_open (c :: l) n v m.
Proof.
  intros Hc H. destruct v as [d|].
  - destruct H as (i & Hi & -> & Ho & Hlt). exists (S i).
    rewrite !(Nat.add_succ_r n i). split; [done|]. split; [lia|]. split; [exact Ho|]. intros [|i'] c' Hi' E; simpl in E; [injection E as <-; by rewrite Nat.add_0_r|].
    rewrite Nat.add_succ_r. apply (Hlt i' c'); [lia|done].
  - destruct H as [-> Hall]. simpl. split; [lia|].
    intros [|i] c' E; simpl in E; [injection E as <-; by rewrite Nat.add_0_r|].
    rewrite Nat.add_succ_r. by apply Hall.
Qed.

Lemma open_first_run l n s : ∃ v m, open_first l (calls n s) = Done (v, calls m s) ∧
  first_open (socket_names l) n v m.
Proof.
  revert n. induction l as [|nm l IH]; intros n.
  { exists None, n. split; [done|]. split; [simpl; lia|]. by intros []. }
  cbn [open_first]. unfold of_open_vconn_socket, vconn_open.
  assert (of_call (λ k, vconn_opens k ("unix:" +:+ nm)) (calls n s) =
    Done (vconn_opens n ("unix:" +:+ nm), calls (S n) s)) as Hcall by done.
  erewrite bind_run by (rewrite (bind_run _ _ _ _ _ Hcall); reflexivity). simpl.
  destruct (vconn_opens n _ =? 0)%Z eqn:E.
  - exists (Some ("unix:" +:+ nm)), (S n). split; [done|]. exists 0. rewrite Nat.add_0_r.
    split_and!; [done|lia|by apply Z.eqb_eq|lia].
  - destruct (IH (S n)) as (v & m & H & Hf). exists v, m. split; [done|].
    apply first_open_miss; [by apply Z.eqb_neq|done].
Qed.

Lemma open_once_run nm bp sn n s : ":"%char ∉ String.list_ascii_of_string nm →
  ∃ v ok m, open_once nm bp sn (calls n s) = Done ((v, ok), calls m s) ∧
    tried (socket_names [nm; bp; sn]) n v ok m.
Proof.
  intros Hc. unfold open_once. rewrite bool_decide_eq_false_2 by done.
  destruct (open_first_run [nm; bp; sn] n s) as (v & j & H & Hf).
  rewrite (bind_run _ _ _ _ _ H). destruct v as [c|].
  - assert (of_call (λ k, vconn_connects k c) (calls j s) =
      Done (vconn_connects j c, calls (S j) s)) as Hcall by done.
    rewrite (bind_run _ _ _ _ _ Hcall). eexists _, _, _. split; [reflexivity|].
    exists j. split; [done|]. split; [done|].
    destruct (vconn_connects j c =? 0)%Z eqn:E.
    + by rewrite bool_decide_eq_true_2 by by apply Z.eqb_eq.
    + by rewrite bool_decide_eq_false_2 by by apply Z.eqb_neq.
  - eexists _, _, _. split; [reflexivity|]. by exists j.
Qed.

Lemma open_loop_S max nm bp sn : open_loop (S max) nm bp sn =
  ('(v, connected) ← open_once nm bp sn;
   if (connected : bool) then mret (v, true)
   else match max with O => mret (v, false) | S _ => open_loop max nm bp sn end).
Proof. reflexivity. Qed.

Lemma open_loop_run max nm bp sn n s : ":"%char ∉ String.list_ascii_of_string nm →
  ∃ k v ok m, open_loop (S max) nm bp sn (calls n s) = Done ((v, ok), calls m s) ∧
    k ≤ S max ∧ (ok = false → k = S max) ∧ tries (socket_names [nm; bp; sn]) k n v ok m.
Proof.
  intros Hc. revert n. induction max as [|max IH]; intros n;
    destruct (open_once_run nm bp sn n s Hc) as (v & ok & m & H & Ht);
    rewrite open_loop_S, (bind_run _ _ _ _ _ H).
  - exists 1, v, ok, m. split; [by destruct ok|]. split; [done|]. split; [done|]. by constructor.
  - destruct ok.
    + exists 1, v, true, m. split; [done|]. split; [lia|]. split; [done|]. by constructor.
    + destruct (IH m) as (k & v' & ok' & m' & H' & Hk & Hf & Ht').
      exists (S k), v', ok', m'. split; [done|]. split; [lia|]. split; [intros E; by rewrite (Hf E)|].
      by econstructor.
Qed.

(** The sockets of a bridge, in the order they are tried. *)
Definition bridge_sockets (nm : string) : list string :=
  socket_names [nm; ovs_rundir +:+ "/" +:+ nm +:+ ".mgmt"; ovs_rundir +:+ "/" +:+ dp_name_of nm +:+ ".mgmt"].

Lemma open_vconn_run nm s : ":"%char ∉ String.list_ascii_of_string nm →
  ∃ k v connected m,
    of_open_vconn nm s = Done ((connected && from_option version_known false v, v), calls m s) ∧
    k ≤ 30 ∧ (connected = false → k = 30) ∧ m ≤ x_calls (o_out s) + 120 ∧
    tries (bridge_sockets nm) k (x_calls (o_out s)) v connected m.
Proof.
  intros Hc. assert (s = calls (x_calls (o_out s)) s) as Hs by (by destruct s as [? ? ? ? ? ? ? ? ? ? ? ? []]).
  destruct (open_loop_run 29 nm (ovs_rundir +:+ "/" +:+ nm +:+ ".mgmt")
    (ovs_rundir +:+ "/" +:+ dp_name_of nm +:+ ".mgmt") (x_calls (o_out s)) s Hc)
    as (k & v & ok & m & H & Hk & Hf & Ht).
  rewrite <-Hs in H. unfold of_open_vconn. rewrite (bind_run _ _ _ _ _ H). exists k, v, ok, m.
  pose proof (tries_calls _ _ _ _ _ _ Ht) as Hm. cbn in Hm. split_and!; [|done|done|lia|done].
  destruct v; [done|]. by rewrite andb_false_r.
Qed.
End connections.
