(* ===== verification/PortFacts.v ===== *)
(** * Facts about advertised features and tunnels

    Feature masks are sums of distinct powers of two, so that the names a mask
    is printed with determine the bits that are set when they are read back;
    the administrative state; the options of a tunnel. *)

From S2P Require Import Prelude.
From S2P Require Import Xml.
From S2P Require Import EditTree.
From S2P Require Import OvsDevices.
From S2P Require Import Ovsdb.
From S2P Require Import OvsFacts.
From S2P Require Import OvsControllers.
From S2P Require Import OvsPorts.
From S2P Require Import OvsConfig.
From S2P Require Import XmlText.

(** ** Features *)

(** An element with a value, as get-config prints it. *)
Definition feature := (string * string)%type.
Definition feature_text (f : feature) : string :=
  "<" +:+ f.1 +:+ ">" +:+ f.2 +:+ "</" +:+ f.1 +:+ ">".

Definition bit_features (tag : string) (mask : Z) (l : list (Z * string)) : list feature :=
  (λ b, (tag, b.2)) <$> filter (λ b, has_bit mask b.1 = true) l.
Definition features_of (mask : Z) : list feature :=
  bit_features "rate" mask rates
  ++ [("auto-negotiate", if has_bit mask ADVERTISED_Autoneg then "true" else "false")]
  ++ bit_features "medium" mask medium
  ++ [("pause", if has_bit mask ADVERTISED_Asym_Pause then "asymmetric"
                else if has_bit mask ADVERTISED_Pause then "symmetric" else "unsupported")].

(** The element in a document. *)
Definition shows (f : feature) (n : xmlNode) : Prop :=
  ntype n = XML_ELEMENT_NODE ∧ name n = Some f.1 ∧ child_content n = Some f.2.

(** A mask has a bit with the name. *)
Definition advertises (l : list (Z * string)) (mask : Z) (nm : string) : Prop :=
  ∃ b, (b, nm) ∈ l ∧ has_bit mask b = true.

(** *** What is printed *)
Definition texts (l : list feature) : string := foldr (λ f r, feature_text f +:+ r) "" l.

Lemma concat_cons a l : String.concat "" (a :: l) = a +:+ String.concat "" l.
Proof. destruct l; [|done]. cbn. by rewrite str_app_nil. Qed.
Lemma texts_app l1 l2 : texts (l1 ++ l2) = texts l1 +:+ texts l2.
Proof.
  induction l1 as [|f l1 IH]; [done|].
  change (feature_text f +:+ texts (l1 ++ l2) = (feature_text f +:+ texts l1) +:+ texts l2).
  by rewrite IH, str_app_assoc.
Qed.
Lemma dump_bits_texts tag mask l : dump_bits tag mask l = texts (bit_features tag mask l).
Proof.
  unfold dump_bits, bit_features. induction l as [|b l IH]; [done|].
  rewrite fmap_cons, concat_cons, IH, filter_cons. case_decide as E.
  - rewrite E. done.
  - apply not_true_is_false in E. rewrite E. done.
Qed.
Lemma features_printed mask : dump_port_features mask = texts (features_of mask).
Proof.
  assert (∀ f, texts [f] = feature_text f) as Hone by (intros f; apply str_app_nil).
  unfold dump_port_features, features_of. rewrite !texts_app, !dump_bits_texts, !Hone.
  set (v := if has_bit mask ADVERTISED_Autoneg then _ else _).
  change (feature_text ("auto-negotiate", v)) with ("<auto-negotiate>" +:+ v +:+ "</auto-negotiate>").
  rewrite !str_app_assoc. do 4 f_equal. unfold pause_text. f_equal. by repeat case_match.
Qed.

(** *** Bits *)
Lemma has_bit_lor a b c : has_bit (Z.lor a b) c = has_bit a c || has_bit b c.
Proof.
  unfold has_bit. rewrite Z.land_lor_distr_l.
  destruct (Z.eqb_spec (Z.land a c) 0) as [Ea|Ea]; destruct (Z.eqb_spec (Z.land b c) 0) as [Eb|Eb];
    destruct (Z.eqb_spec (Z.lor (Z.land a c) (Z.land b c)) 0) as [E|E]; try done.
  - by rewrite Ea, Eb in E.
  - by apply Z.lor_eq_0_iff in E as [? ?].
  - by apply Z.lor_eq_0_iff in E as [? ?].
  - by apply Z.lor_eq_0_iff in E as [? ?].
Qed.

(** The bits that are given a name or tested. *)
Definition known : list Z := rates.*1 ++ medium.*1 ++ [ADVERTISED_Autoneg; ADVERTISED_Pause; ADVERTISED_Asym_Pause].

Lemma known_distinct : Forall (λ b, Forall (λ c, has_bit b c = (b =? c)%Z) known) known.
Proof. apply (bool_decide_unpack _). vm_compute. exact I. Qed.
Lemma known_eq b c : b ∈ known → c ∈ known → has_bit b c = (b =? c)%Z.
Proof.
  intros Hb Hc. pose proof known_distinct as H. eapply Forall_forall in H; [|exact Hb].
  by eapply Forall_forall in H.
Qed.
Lemma clear_known a c : c ∈ known →
  has_bit (clear_bits a ADVERTISED_Autoneg) c = has_bit a c && negb (c =? ADVERTISED_Autoneg)%Z.
Proof.
  intros Hc. assert (Forall (λ c, Z.land (Z.lxor (2 ^ 32 - 1) ADVERTISED_Autoneg) c =
    if (c =? ADVERTISED_Autoneg)%Z then 0%Z else c) known) as H.
  { apply (bool_decide_unpack _). vm_compute. exact I. }
  eapply Forall_forall in H; [|exact Hc]. unfold has_bit, clear_bits. rewrite <-Z.land_assoc, H.
  destruct (c =? ADVERTISED_Autoneg)%Z; [by rewrite Z.land_0_r, andb_false_r|by rewrite andb_true_r].
Qed.
Lemma rates_known b nm : (b, nm) ∈ rates → b ∈ known.
Proof. intros H. apply elem_of_app. left. apply list_elem_of_fmap. by exists (b, nm). Qed.
Lemma medium_known b nm : (b, nm) ∈ medium → b ∈ known.
Proof.
  intros H. apply elem_of_app. right. apply elem_of_app. left. apply list_elem_of_fmap. by exists (b, nm).
Qed.

(** The bit a name stands for. *)
Lemma bit_named_in nm l b : (b, nm) ∈ l → (bit_named (Some nm) l, nm) ∈ l.
Proof.
  intros H. unfold bit_named.
  destruct (find_first (λ b, xmlStrEqual (Some nm) (Some b.2)) l) as [[b0 nm0]|] eqn:E.
  - apply find_first_Some in E as [Hin E]. apply bool_decide_eq_true in E. injection E as <-. done.
  - pose proof (proj1 (find_first_None _ _) E _ H) as Hf. unfold xmlStrEqual in Hf. simpl in Hf.
    by rewrite bool_decide_eq_true_2 in Hf.
Qed.

(** *** What is read *)
Definition named_bits (l : list (Z * string)) (fs : list feature) : list Z :=
  (λ f, bit_named (Some f.2) l) <$> fs.
Definition kept (m : Z) : Z :=
  let a := foldl Z.lor ADVERTISED_Autoneg (named_bits rates (bit_features "rate" m rates)) in
  foldl Z.lor (if has_bit m ADVERTISED_Autoneg then a else clear_bits a ADVERTISED_Autoneg)
    (named_bits medium (bit_features "medium" m medium)).

Lemma has_bit_fold l a c : has_bit (foldl Z.lor a l) c = has_bit a c || existsb (λ b, has_bit b c) l.
Proof.
  revert a. induction l as [|b l IH]; intros a; cbn; [by rewrite orb_false_r|].
  by rewrite IH, has_bit_lor, orb_assoc.
Qed.

Lemma named_bit tag m l c : (∀ b nm, (b, nm) ∈ l → b ∈ known) → c ∈ known →
  existsb (λ b, has_bit b c) (named_bits l (bit_features tag m l)) = true ↔
  ∃ nm, (c, nm) ∈ l ∧ c = bit_named (Some nm) l ∧ advertises l m nm.
Proof.
  intros Hl Hc. rewrite existsb_exists. split.
  - intros (b & Hb & Hbc). apply list_elem_of_In, list_elem_of_fmap in Hb as (f & -> & Hf).
    unfold bit_features in Hf. apply list_elem_of_fmap in Hf as ([b' nm] & -> & Hf).
    apply list_elem_of_filter in Hf as [Hm Hin]. cbn [snd] in *.
    pose proof (bit_named_in nm l b' Hin) as H0. rewrite known_eq in Hbc by eauto.
    apply Z.eqb_eq in Hbc. rewrite Hbc in H0. exists nm. split; [done|]. split; [done|]. by exists b'.
  - intros (nm & Hin & Ec & b' & Hb' & Hm). exists c. split.
    + apply list_elem_of_In, list_elem_of_fmap. exists (tag, nm). split; [done|].
      apply list_elem_of_fmap. exists (b', nm). split; [done|]. by apply list_elem_of_filter.
    + rewrite known_eq by done. apply Z.eqb_refl.
Qed.

(** The bits of the two lists are different, and none is one of the others. *)
Lemma rates_names b nm nm' : (b, nm) ∈ rates → (b, nm') ∈ rates → nm = nm'.
Proof.
  assert (NoDup rates.*1) as Hn by (apply (bool_decide_unpack _); vm_compute; exact I).
  intros H1 H2. exact (nodup_key_unique rates b nm nm' Hn H1 H2).
Qed.
Lemma medium_names b nm nm' : (b, nm) ∈ medium → (b, nm') ∈ medium → nm = nm'.
Proof.
  assert (NoDup medium.*1) as Hn by (apply (bool_decide_unpack _); vm_compute; exact I).
  intros H1 H2. exact (nodup_key_unique medium b nm nm' Hn H1 H2).
Qed.
Lemma known_nodup : NoDup known.
Proof. apply (bool_decide_unpack _). vm_compute. exact I. Qed.
Lemma rates_not_medium b nm nm' : (b, nm) ∈ rates → (b, nm') ∈ medium → False.
Proof.
  intros H1 H2. pose proof known_nodup as H. unfold known in H. apply NoDup_app in H as (_ & H & _).
  apply (H b).
  - apply list_elem_of_fmap. by exists (b, nm).
  - apply elem_of_app. left. apply list_elem_of_fmap. by exists (b, nm').
Qed.
Lemma named_not_other l b nm : l = rates ∨ l = medium → (b, nm) ∈ l →
  b ∉ [ADVERTISED_Autoneg; ADVERTISED_Pause; ADVERTISED_Asym_Pause].
Proof.
  intros Hl H Hb. pose proof known_nodup as Hn. unfold known in Hn.
  destruct Hl as [-> | ->].
  - apply NoDup_app in Hn as (_ & Hd & _). apply (Hd b); [|apply elem_of_app; by right].
    apply list_elem_of_fmap. by exists (b, nm).
  - apply NoDup_app in Hn as (_ & _ & Hn). apply NoDup_app in Hn as (_ & Hd & _). apply (Hd b); [|done].
    apply list_elem_of_fmap. by exists (b, nm).
Qed.

Lemma kept_bit m c : c ∈ known →
  has_bit (kept m) c = true ↔
    (c = ADVERTISED_Autoneg ∧ has_bit m ADVERTISED_Autoneg = true) ∨
    (∃ nm, (c, nm) ∈ rates ∧ c = bit_named (Some nm) rates ∧ advertises rates m nm) ∨
    (∃ nm, (c, nm) ∈ medium ∧ c = bit_named (Some nm) medium ∧ advertises medium m nm).
Proof.
  intros Hc. pose proof (named_bit "rate" m rates c rates_known Hc) as Hrt.
  pose proof (named_bit "medium" m medium c medium_known Hc) as Hmd.
  assert (has_bit ADVERTISED_Autoneg c = (c =? ADVERTISED_Autoneg)%Z) as Ha.
  { rewrite known_eq; [apply Z.eqb_sym|apply (bool_decide_unpack _); vm_compute; exact I|done]. }
  unfold kept. rewrite has_bit_fold, orb_true_iff, Hmd.
  destruct (has_bit m ADVERTISED_Autoneg) eqn:Em.
  - rewrite has_bit_fold, Ha, orb_true_iff, Hrt, Z.eqb_eq. tauto.
  - rewrite clear_known, has_bit_fold, Ha by done. rewrite andb_true_iff, orb_true_iff, Hrt.
    rewrite negb_true_iff, Z.eqb_eq, Z.eqb_neq. split.
    + tauto.
    + intros [[_ [=]]|[(nm & H1 & H2)|H]]; [left|by right]. split; [right; by exists nm|].
      intros ->. eapply (named_not_other rates); [by left|exact H1|by left].
Qed.

Lemma kept_rates m nm : advertises rates (kept m) nm ↔ advertises rates m nm.
Proof.
  split.
  - intros (b & Hb & H). apply kept_bit in H as [[-> _]|[(nm' & Hb' & _ & H)|(nm' & Hb' & _)]];
      [..|by eapply rates_known].
    + exfalso. eapply (named_not_other rates); [by left|exact Hb|by left].
    + by rewrite (rates_names _ _ _ Hb Hb').
    + exfalso. by eapply rates_not_medium.
  - intros (b & Hb & H). pose proof (bit_named_in nm rates b Hb) as H0.
    exists (bit_named (Some nm) rates). split; [done|]. apply kept_bit; [by eapply rates_known|].
    right. left. exists nm. split; [done|]. split; [done|]. by exists b.
Qed.
Lemma kept_medium m nm : advertises medium (kept m) nm ↔ advertises medium m nm.
Proof.
  split.
  - intros (b & Hb & H). apply kept_bit in H as [[-> _]|[(nm' & Hb' & _)|(nm' & Hb' & _ & H)]];
      [..|by eapply medium_known].
    + exfalso. eapply (named_not_other medium); [by right|exact Hb|by left].
    + exfalso. by eapply rates_not_medium.
    + by rewrite (medium_names _ _ _ Hb Hb').
  - intros (b & Hb & H). pose proof (bit_named_in nm medium b Hb) as H0.
    exists (bit_named (Some nm) medium). split; [done|]. apply kept_bit; [by eapply medium_known|].
    right. right. exists nm. split; [done|]. split; [done|]. by exists b.
Qed.
Lemma kept_other m c : c ∈ [ADVERTISED_Autoneg; ADVERTISED_Pause; ADVERTISED_Asym_Pause] →
  has_bit (kept m) c = (c =? ADVERTISED_Autoneg)%Z && has_bit m ADVERTISED_Autoneg.
Proof.
  intros Hc. apply eq_true_iff_eq. rewrite kept_bit.
  2: { unfold known. apply elem_of_app. right. apply elem_of_app. by right. }
  rewrite andb_true_iff, Z.eqb_eq. split; [|tauto].
  intros [H|[(nm & H & _)|(nm & H & _)]]; [done|..]; exfalso.
  - by eapply (named_not_other rates); [left|exact H|].
  - by eapply (named_not_other medium); [right|exact H|].
Qed.

Section reading.
Context {LX : LibXml} {OI : OvsIdl} {KE : Kernel}.

Lemma shows_value f n s : shows f n → feature_value n s = Done (Some f.2, s).
Proof.
  intros (_ & _ & H). unfold feature_value, must_content. unfold child_content in H.
  destruct (first_child n) as [c|]; [|done]. cbn in *. rewrite bind_ret. by rewrite H.
Qed.

(** One feature of a new port. *)
Definition feature_step (adv : Z) (f : feature) : Z :=
  if bool_decide (f.1 = "rate") then Z.lor adv (bit_named (Some f.2) rates)
  else if bool_decide (f.1 = "medium") then Z.lor adv (bit_named (Some f.2) medium)
  else if bool_decide (f.1 = "auto-negotiate") then
    if bool_decide (f.2 = "false") then clear_bits adv ADVERTISED_Autoneg else adv
  else if bool_decide (f.1 = "pause") then
    if bool_decide (f.2 = "symetric") then Z.lor adv ADVERTISED_Pause
    else if bool_decide (f.2 = "asymetric") then Z.lor adv ADVERTISED_Asym_Pause else adv
  else adv.

Lemma name_shows f n x : shows f n → name_is n x = bool_decide (f.1 = x).
Proof.
  intros (_ & H & _). unfold name_is, xmlStrEqual. rewrite H. apply bool_decide_ext. naive_solver.
Qed.
Lemma xmlStrEqual_Some (a b : string) : xmlStrEqual (Some a) (Some b) = bool_decide (a = b).
Proof. unfold xmlStrEqual. apply bool_decide_ext. naive_solver. Qed.

Lemma new_feature_run f n adv s : shows f n → new_feature adv n s = Done (feature_step adv f, s).
Proof.
  intros H. pose proof (shows_value f n s H) as Hv. unfold new_feature, feature_step.
  rewrite !(name_shows f n _ H).
  repeat case_bool_decide; try done; rewrite (bind_run _ _ _ _ _ Hv), ?xmlStrEqual_Some;
    repeat case_bool_decide; done.
Qed.
Lemma new_features_run fs l adv s : Forall2 shows fs l →
  new_features adv l s = Done (foldl feature_step adv fs, s).
Proof.
  intros H. revert adv. induction H as [|f n fs l Hf _ IH]; intros adv; [done|]. cbn [new_features foldl].
  destruct Hf as (Ht & Hf). rewrite bool_decide_eq_true_2 by done. cbn [negb].
  rewrite (bind_run _ _ _ _ _ (new_feature_run f n adv s (conj Ht Hf))). apply IH.
Qed.

Lemma fold_named tag l fs adv : (∀ f, f ∈ fs → f.1 = tag) →
  (∀ adv f, f.1 = tag → feature_step adv f = Z.lor adv (bit_named (Some f.2) l)) →
  foldl feature_step adv fs = foldl Z.lor adv (named_bits l fs).
Proof.
  intros Hfs Hstep. revert adv. induction fs as [|f fs IH]; intros adv; [done|]. cbn [foldl].
  rewrite Hstep by (apply Hfs; by left). rewrite IH; [done|]. intros f' ?. apply Hfs. by right.
Qed.
Lemma bit_features_tag tag m l f : f ∈ bit_features tag m l → f.1 = tag.
Proof. intros (b & -> & _)%list_elem_of_fmap. done. Qed.

Lemma kept_features m : foldl feature_step ADVERTISED_Autoneg (features_of m) = kept m.
Proof.
  unfold features_of, kept. rewrite !foldl_app.
  rewrite (fold_named "rate" rates (bit_features "rate" m rates)); [|intros f; apply bit_features_tag|by intros adv [t v]; cbn; intros ->].
  cbn [foldl]. rewrite (fold_named "medium" medium (bit_features "medium" m medium));
    [|intros f; apply bit_features_tag|by intros adv [t v]; cbn; intros ->].
  set (a := foldl Z.lor ADVERTISED_Autoneg _).
  assert (∀ x v, v = "asymmetric" ∨ v = "symmetric" ∨ v = "unsupported" → feature_step x ("pause", v) = x) as Hp
    by (intros x v [->|[-> | ->]]; done).
  rewrite Hp by (repeat case_match; tauto).
  f_equal. destruct (has_bit m ADVERTISED_Autoneg); done.
Qed.
End reading.

(** *** What is shown afterwards *)
Lemma elem_bit_features tag m l f : f ∈ bit_features tag m l ↔ f.1 = tag ∧ advertises l m f.2.
Proof.
  unfold bit_features, advertises. rewrite list_elem_of_fmap. split.
  - intros ([b nm] & -> & [Hm H]%list_elem_of_filter). split; [done|]. by exists b.
  - destruct f as [t v]. cbn. intros (-> & b & H & Hm). exists (b, v). split; [done|]. by apply list_elem_of_filter.
Qed.
(** Reading keeps everything but the pause settings, which it drops. *)
Lemma kept_shown m f : f.1 ≠ "pause" → f ∈ features_of (kept m) ↔ f ∈ features_of m.
Proof.
  intros Hf. unfold features_of.
  rewrite !elem_of_app, !elem_bit_features, kept_rates, kept_medium, !list_elem_of_singleton.
  rewrite (kept_other m ADVERTISED_Autoneg) by by left. rewrite Z.eqb_refl. cbn [andb].
  assert (∀ v, f ≠ ("pause", v)) as Hp by (by intros v ->).
  naive_solver.
Qed.
Lemma kept_pause m : ("pause", "unsupported") ∈ features_of (kept m).
Proof.
  unfold features_of. do 3 (apply elem_of_app; right).
  rewrite !kept_other by (apply (bool_decide_unpack _); vm_compute; exact I). by left.
Qed.

(** ** Rows written twice *)
Section writes.
Context {OI : OvsIdl} {A : Type} `{Row A}.

Lemma assoc_alter_compose (u : uuid) (f g : A → A) l :
  assoc_alter u f (assoc_alter u g l) = assoc_alter u (λ a, f (g a)) l.
Proof.
  unfold assoc_alter. induction l as [|[v a] l IH]; [done|]. rewrite !fmap_cons, IH. f_equal.
  cbn [fst snd]. destruct (bool_decide (v = u)) eqn:E; cbn [fst snd]; by rewrite E.
Qed.
Lemma assoc_alter_id (u : uuid) (f : A → A) l : (∀ a, f a = a) → assoc_alter u f l = l.
Proof.
  intros Hf. unfold assoc_alter. induction l as [|[v a] l IH]; [done|]. rewrite fmap_cons, IH.
  cbn [fst snd]. rewrite Hf. by case_bool_decide; subst.
Qed.
Lemma written_written u f g s : written (A := A) u f (written u g s) = written u (λ a, f (g a)) s.
Proof. unfold written. rewrite put_put. unfold rows. rewrite !tab_put. cbn [live dead]. by rewrite assoc_alter_compose. Qed.
Lemma written_id u f s : (∀ a, f a = a) → put_tab (tab (A := A) s) s = s → written u f s = s.
Proof.
  intros Hf Hs. unfold written, rows. rewrite assoc_alter_id by done.
  assert (Table (live (tab (A := A) s)) (dead (tab s)) = tab s) as -> by (by destruct (tab s)). done.
Qed.
Lemma assoc_alter_ext (u : uuid) (f g : A → A) a l : NoDup l.*1 → assoc u l = Some a → f a = g a →
  assoc_alter u f l = assoc_alter u g l.
Proof.
  intros Hn Ha E. unfold assoc_alter. apply list_fmap_ext. intros k [v b] Hk. cbn [fst snd].
  case_bool_decide; [|done]. subst v. apply list_elem_of_lookup_2 in Hk.
  rewrite (elem_assoc u b l Hn Hk) in Ha. injection Ha as ->. by rewrite E.
Qed.
Lemma written_ext u f g a s : NoDup (rows (A := A) s).*1 → assoc u (rows s) = Some a → f a = g a →
  written (A := A) u f s = written u g s.
Proof. intros Hn Ha E. unfold written. by rewrite (assoc_alter_ext u f g a). Qed.
Lemma assoc_written u f a s : assoc u (rows s) = Some a → assoc u (rows (written (A := A) u f s)) = Some (f a).
Proof.
  rewrite rows_written. unfold assoc, assoc_alter. generalize (rows s). intros l.
  induction l as [|[v b] l IH]; [done|]. rewrite fmap_cons. cbn [find_first fst snd].
  destruct (bool_decide (v = u)) eqn:E; cbn [fst]; rewrite E; [by intros [= ->]|apply IH].
Qed.
End writes.

(** ** Tunnels *)
Section tunnels.
Context {LX : LibXml} {OI : OvsIdl} {KE : Kernel}.

(** The option an element of the tunnel sets. *)
Definition option_of (n : xmlNode) : option string :=
  if bool_decide (ntype n = XML_ELEMENT_NODE) then tunnel_option (name n) else None.
Definition fill_one (m : smap) (n : xmlNode) : smap :=
  match option_of n with
  | None => m
  | Some o => match m !! o with Some _ => m | None => <[o := default "" (child_content n)]> m end
  end.
Definition fill (l : list xmlNode) (m : smap) : smap := foldl fill_one m l.
(** Every such element has a value. *)
Definition filled_in (l : list xmlNode) : Prop :=
  Forall (λ n, is_Some (option_of n) → is_Some (child_content n)) l.

Lemma add_options_run u l s (i : interface) : NoDup (rows (A := interface) s).*1 → assoc u (rows s) = Some i →
  filled_in l → add_tunnel_options u l s = Done (tt, written u (with_if_options (fill l)) s).
Proof.
  intros Hn Hi Hl. revert s i Hn Hi. induction Hl as [|n l Hv _ IH]; intros s i Hn Hi.
  { cbn [add_tunnel_options]. rewrite written_id; [done|by intros []|by destruct s]. }
  assert (fill_one (if_options i) n = if_options i →
    Done (tt, written u (with_if_options (fill l)) s) = Done (tt, written u (with_if_options (fill (n :: l))) s))
    as Hsame.
  { intros E. do 2 f_equal. eapply written_ext; [done|exact Hi|]. unfold with_if_options.
    change (fill (n :: l) (if_options i)) with (fill l (fill_one (if_options i) n)). by rewrite E. }
  unfold fill_one, option_of in Hsame. unfold option_of in Hv. cbn [add_tunnel_options].
  destruct (bool_decide (ntype n = XML_ELEMENT_NODE)) eqn:Et; cbn [negb]; [|rewrite (IH s i) by done; auto].
  destruct (tunnel_option (name n)) as [o|] eqn:Eo; [|rewrite (IH s i) by done; auto].
  rewrite (bind_run _ _ _ _ _ (row_live u i s Hi)).
  destruct (Hv ltac:(by eexists)) as [v Ev]. rewrite Ev.
  destruct (if_options i !! o) as [v'|] eqn:Em; [rewrite bind_ret, (IH s i) by done; auto|].
  rewrite (bind_run _ _ s tt (written u (with_if_options <[o := v]>) s));
    [|apply row_write_live, assoc_is_Some; by eexists].
  rewrite (IH _ (with_if_options <[o := v]> i)); [|by rewrite keys_written|by apply assoc_written].
  rewrite written_written. do 2 f_equal. eapply written_ext; [done|exact Hi|]. unfold with_if_options.
  cbn. unfold fill_one, option_of. by rewrite Et, Eo, Em, Ev.
Qed.

(** The value of an option afterwards. *)
Definition first_value (o : string) (l : list xmlNode) : option string :=
  n ← find_first (λ n, bool_decide (option_of n = Some o)) l; child_content n.
Lemma fill_lookup l m o : filled_in l →
  fill l m !! o = match m !! o with Some v => Some v | None => first_value o l end.
Proof.
  intros Hl. revert m. induction Hl as [|n l Hn _ IH]; intros m; [cbn; by destruct (m !! o)|].
  change (fill (n :: l) m) with (fill l (fill_one m n)). rewrite IH. unfold first_value. cbn [find_first].
  unfold fill_one. destruct (option_of n) as [o'|] eqn:Eo; [|by rewrite bool_decide_eq_false_2].
  destruct (Hn ltac:(by eexists)) as [v Hv].
  destruct (decide (o' = o)) as [->|Hne].
  - rewrite (bool_decide_eq_true_2 (Some o = Some o)) by done. cbn [mbind option_bind].
    destruct (m !! o) as [w|] eqn:Em; [by rewrite Em|]. by rewrite lookup_insert_eq, Hv.
  - rewrite (bool_decide_eq_false_2 (Some o' = Some o)) by congruence.
    destruct (m !! o') as [w|] eqn:Em; [done|]. by rewrite lookup_insert_ne.
Qed.

(** The interface with the tunnel. *)
Definition tunnel_added (node : xmlNode) (t : string) (i : interface) : interface :=
  with_if_ext <["tunnel_type" := t]>
    (with_if_type (Some (if name_is node "vxlan-tunnel" then "vxlan" else "gre"))
      (with_if_options (fill (children node)) i)).

(** The row the search finds. *)
Definition first_named (nm : string) (u : uuid) (i : interface) (s : ovsdb) : Prop :=
  find_first (λ r, xmlStrEqual (Some nm) (if_name r.2)) (rows s) = Some (u, i).

Lemma find_named_run nm u i s l : (∀ v j, (v, j) ∈ l → is_Some (if_name j)) →
  find_first (λ r, xmlStrEqual (Some nm) (if_name r.2)) l = Some (u, i) →
  find_named nm l s = Done (Some (u, i), s).
Proof.
  induction l as [|[v j] l IH]; intros Hl; [done|]. cbn [find_named find_first snd].
  destruct (Hl v j) as [n Hn]; [by left|]. rewrite Hn. cbn [deref]. rewrite bind_ret.
  unfold xmlStrEqual at 1. destruct (decide (n = nm)) as [->|Hne].
  - rewrite !bool_decide_eq_true_2 by done. by intros [= -> ->].
  - rewrite !bool_decide_eq_false_2 by congruence. apply IH. intros w k ?. apply (Hl w k). by right.
Qed.
Lemma first_named_assoc nm u (i : interface) s : NoDup (rows (A := interface) s).*1 → first_named nm u i s →
  assoc u (rows s) = Some i.
Proof. intros Hn H. apply find_first_Some in H as [Hin _]. by apply elem_assoc. Qed.
Lemma first_named_written nm u i s f : (∀ j, if_name (f j) = if_name j) → first_named nm u i s →
  first_named nm u (f i) (written u f s).
Proof.
  intros Hf H. unfold first_named. rewrite rows_written.
  rewrite (find_first_alter (λ j, xmlStrEqual (Some nm) (if_name j))) by (intros j; by rewrite Hf).
  unfold first_named in H. rewrite H. cbn [fmap option_fmap option_map fst snd].
  by rewrite bool_decide_eq_true_2.
Qed.

Lemma add_tunnel_run nm node t u i s : NoDup (rows (A := interface) s).*1 →
  (∀ v (j : interface), (v, j) ∈ rows s → is_Some (if_name j)) → first_named nm u i s →
  name node = Some t → filled_in (children node) →
  txn_add_port_tunnel (Some nm) (Some node) s = Done (EXIT_SUCCESS, written u (tunnel_added node t) s).
Proof.
  intros Hn Hnames Hu Ht Hf. pose proof (first_named_assoc _ _ _ _ Hn Hu) as Hi.
  unfold txn_add_port_tunnel. rewrite bind_gets.
  rewrite (bind_run _ _ _ _ _ (find_named_run nm u i s _ Hnames Hu)).
  rewrite (bind_run _ _ _ _ _ (add_options_run u _ s i Hn Hi Hf)).
  assert (∀ f s, u ∈ (rows (A := interface) s).*1 → u ∈ (rows (A := interface) (written (A := interface) u f s)).*1) as Hk
    by (intros f s' ?; by rewrite keys_written).
  assert (u ∈ (rows (A := interface) s).*1) as Hin by (apply assoc_is_Some; by eexists).
  rewrite (bind_run _ _ _ _ _ (row_write_live u _ _ (Hk _ _ Hin))), written_written.
  rewrite Ht. cbn [deref]. rewrite bind_ret.
  rewrite (bind_run _ _ _ _ _ (row_write_live u _ _ (Hk _ _ Hin))), written_written. done.
Qed.

(** The interface without it. *)
Definition tunnel_deleted (type : string) (i : interface) : interface :=
  with_if_type (Some type) (with_if_ext (delete "tunnel_type")
    (with_if_options (λ m, delete "key" (delete "remote_ip" (delete "local_ip" m))) i)).

Lemma del_tunnel_run nm u i s : NoDup (rows (A := interface) s).*1 → first_named nm u i s →
  ∃ type, txn_del_port_tunnel (Some nm) s = Done (EXIT_SUCCESS, written u (tunnel_deleted type) s) ∧
    type = (if (match x_devices (o_out s) !! String.substring 0 15 nm ≫= dv_driver with
                | Some d => negb (bool_decide (d = "openvswitch")) | None => false end)
            then "system" else "internal").
Proof.
  intros Hn Hu. pose proof (first_named_assoc _ _ _ _ Hn Hu) as Hi.
  assert (∀ f s, u ∈ (rows (A := interface) s).*1 → u ∈ (rows (A := interface) (written (A := interface) u f s)).*1) as Hk
    by (intros f s' ?; by rewrite keys_written).
  assert (u ∈ (rows (A := interface) s).*1) as Hin by (apply assoc_is_Some; by eexists).
  eexists. split; [|reflexivity]. unfold txn_del_port_tunnel, find_interface, find_row. rewrite bind_gets.
  unfold first_named in Hu. rewrite Hu.
  rewrite (bind_run _ _ _ _ _ (row_write_live u _ _ Hin)).
  rewrite (bind_run _ _ _ _ _ (row_write_live u _ _ (Hk _ _ Hin))), written_written.
  unfold detect_type, dev_is_system, ifr_name. cbn [deref].
  set (s2 := written u _ s).
  rewrite (bind_run _ _ s2 tt (written u (with_if_type (Some (if (match x_devices (o_out s) !! String.substring 0 15 nm
    ≫= dv_driver with | Some d => negb (bool_decide (d = "openvswitch")) | None => false end)
            then "system" else "internal"))) s2)).
  - unfold s2. rewrite written_written. done.
  - rewrite (bind_run _ _ s2 (match x_devices (o_out s) !! String.substring 0 15 nm ≫= dv_driver with
      | Some d => negb (bool_decide (d = "openvswitch")) | None => false end) s2) by done.
    by rewrite row_write_live by (apply Hk; done).
Qed.

(** Only the three options are set. *)
Lemma option_of_three n o : option_of n = Some o → o = "local_ip" ∨ o = "remote_ip" ∨ o = "key".
Proof. unfold option_of, tunnel_option. repeat case_match; intros [= <-]; tauto. Qed.
Lemma fill_three l m o : o ≠ "local_ip" → o ≠ "remote_ip" → o ≠ "key" → fill l m !! o = m !! o.
Proof.
  intros H1 H2 H3. revert m. induction l as [|n l IH]; intros m; [done|].
  change (fill (n :: l) m) with (fill l (fill_one m n)). rewrite IH. unfold fill_one.
  destruct (option_of n) as [o'|] eqn:E; [|done]. apply option_of_three in E.
  destruct (m !! o'); [done|]. apply lookup_insert_ne. naive_solver.
Qed.
Lemma tunnel_undone type node t i :
  if_options i !! "local_ip" = None → if_options i !! "remote_ip" = None → if_options i !! "key" = None →
  if_external_ids i !! "tunnel_type" = None →
  tunnel_deleted type (tunnel_added node t i) = with_if_type (Some type) i.
Proof.
  intros Hl Hr Hk Ht. destruct i as [nm ty req opts ext op adm lk oth].
  unfold tunnel_deleted, tunnel_added, with_if_type, with_if_ext, with_if_options. cbn in *.
  assert (delete "tunnel_type" (<["tunnel_type" := t]> ext) = ext) as -> by (by rewrite delete_insert_id).
  f_equal. apply map_eq. intros o.
  destruct (decide (o = "key")) as [->|H1]; [by rewrite lookup_delete_eq|rewrite lookup_delete_ne by done].
  destruct (decide (o = "remote_ip")) as [->|H2]; [by rewrite lookup_delete_eq|rewrite lookup_delete_ne by done].
  destruct (decide (o = "local_ip")) as [->|H3]; [by rewrite lookup_delete_eq|rewrite lookup_delete_ne by done].
  by apply fill_three.
Qed.
End tunnels.

(** ** Administrative state *)
Section admin.
Context {LX : LibXml} {OI : OvsIdl} {KE : Kernel}.

(** The device is up. *)
Definition dev_up (nm : string) (s : ovsdb) : bool :=
  match x_devices (o_out s) !! String.substring 0 15 nm with
  | Some d => Z.testbit (dv_flags d) 0
  | None => false
  end.
Definition req_flags (up : bool) (flags : Z) : Z :=
  if up then Z.lor flags IFF_UP else clear_bits flags IFF_UP.
Definition flags_of (nm : string) (s : ovsdb) : Z :=
  match x_devices (o_out s) !! String.substring 0 15 nm with
  | Some d => short_to_uint (dv_flags d)
  | None => 0%Z
  end.
Definition put_device (nm : string) (d : device) (s : ovsdb) : ovsdb :=
  with_out (with_devices <[String.substring 0 15 nm := d]>) s.
(** The device after the request; None: it is not changed. *)
Definition device_after (nm : string) (v : Z) (s : ovsdb) : option device :=
  x_devices (o_out s) !! String.substring 0 15 nm ≫=
    (λ d, kernel_flags (String.substring 0 15 nm) d (v mod 2 ^ 16)%Z).
Definition after_request (nm : string) (v : Z) (s : ovsdb) : ovsdb :=
  match device_after nm v s with Some d => put_device nm d s | None => s end.

Lemma bit_mod16 v : Z.testbit (v mod 2 ^ 16) 0 = Z.testbit v 0.
Proof. by apply Z.mod_pow2_bits_low. Qed.
Lemma bit_short v : Z.testbit (short_to_uint v) 0 = Z.testbit v 0.
Proof.
  unfold short_to_uint. rewrite <-(bit_mod16 v). case_match; [done|].
  rewrite <-(Z.mod_pow2_bits_low (_ + _) 16 0) by done.
  f_equal. rewrite Z.add_mod, Z.add_0_r, Z.mod_mod by done. by rewrite Z.mod_mod.
Qed.
Lemma land_up v : negb (Z.land v IFF_UP =? 0)%Z = Z.testbit v 0.
Proof.
  change IFF_UP with (Z.ones 1). rewrite Z.land_ones, Z.bit0_odd by done. change (2 ^ 1)%Z with 2%Z.
  rewrite Zmod_odd. by destruct (Z.odd v).
Qed.
Lemma bit_request up v : Z.testbit (req_flags up v mod 2 ^ 16) 0 = up.
Proof.
  rewrite bit_mod16. unfold req_flags, clear_bits. destruct up.
  - rewrite Z.lor_spec. apply orb_true_r.
  - rewrite Z.land_spec. apply andb_false_r.
Qed.

Lemma check_flags_run nm req s : check_flags (Some nm) req s =
  Done (if Bool.eqb (dev_up nm s) req then (EXIT_SUCCESS, s) else (EXIT_FAILURE, set_oerr (Some not_affected) s)).
Proof.
  assert (negb (Z.land (flags_of nm s) IFF_UP =? 0)%Z = dev_up nm s) as E.
  { rewrite land_up. unfold flags_of, dev_up. case_match; [apply bit_short|done]. }
  unfold check_flags. rewrite (bind_run _ _ s (flags_of nm s) s) by done. rewrite E.
  by destruct req, (dev_up nm s).
Qed.
Lemma set_flags_run nm v s : ∃ r, dev_set_flags (Some nm) v s = Done (r, after_request nm v s).
Proof.
  unfold dev_set_flags. rewrite (bind_run _ _ s (String.substring 0 15 nm) s) by done.
  unfold gets_out. rewrite bind_gets.
  unfold after_request, device_after. case_match; by eexists.
Qed.
Lemma admin_run nm (up : bool) s :
  txn_mod_port_admin_state (Some nm) (Some (if up then "up" else "down")) s =
  check_flags (Some nm) up (after_request nm (req_flags up (flags_of nm s)) s).
Proof.
  destruct (set_flags_run nm (req_flags up (flags_of nm s)) s) as [r E]. unfold txn_mod_port_admin_state.
  destruct up.
  - rewrite bool_decide_eq_true_2, (bind_run _ _ s (flags_of nm s) s) by done. by rewrite (bind_run _ _ _ _ _ E).
  - rewrite bool_decide_eq_false_2, bool_decide_eq_true_2, (bind_run _ _ s (flags_of nm s) s) by done.
    by rewrite (bind_run _ _ _ _ _ E).
Qed.
End admin.
