(* ===== verification/CertFacts.v ===== *)
(** * Facts about certificate files

    What is written between the PEM markers is found again: the end marker
    starts with a newline and a hyphen, and text without hyphens, such as base64,
    does not contain it. *)

From S2P Require Import Prelude.
From S2P Require Import Xml.
From S2P Require Import EditTree.
From S2P Require Import OvsDevices.
From S2P Require Import Ovsdb.
From S2P Require Import OvsFacts.
From S2P Require Import OvsBridges.
From S2P Require Import OvsTextFacts.
From S2P Require Import OvsPorts.
From S2P Require Import OvsCerts.
From S2P Require Import XmlText.
From S2P Require Import PortFacts.

#[local] Arguments String.append : simpl nomatch.

(** ** Texts without hyphens *)
Definition plain_char (c : ascii) : bool := negb (Ascii.eqb c "-") && negb (Ascii.eqb c NUL).
Fixpoint hyphenless (s : string) : bool :=
  match s with EmptyString => true | String c s' => plain_char c && hyphenless s' end.

(** No newline is followed by a hyphen. *)
Definition hyphen_first (s : string) : bool :=
  match s with String c _ => Ascii.eqb c "-" | EmptyString => false end.
Definition newline : ascii := Ascii.ascii_of_nat 10.
Fixpoint no_break (s : string) : bool :=
  match s with
  | EmptyString => true
  | String c s' => negb (Ascii.eqb c newline && hyphen_first s') && no_break s'
  end.

Lemma hyphenless_no_break s : hyphenless s = true → no_break s = true.
Proof.
  induction s as [|c s IH]; [done|]. cbn. intros [_ H]%andb_true_iff. rewrite IH by done.
  destruct s as [|d s]; [by rewrite andb_false_r|]. cbn in *. apply andb_true_iff in H as [H _].
  unfold plain_char in H. apply andb_true_iff in H as [H _]. apply negb_true_iff in H. by rewrite H, andb_false_r.
Qed.
Lemma no_break_app a b : no_break a = true → no_break b = true → hyphen_first b = false →
  no_break (a +:+ b) = true.
Proof.
  intros Ha Hb Hh. induction a as [|c a IH]; [done|]. cbn in *. apply andb_true_iff in Ha as [H1 H2].
  rewrite IH by done. destruct a as [|d a]; cbn in *; [by rewrite Hh, andb_false_r|]. by rewrite H1.
Qed.

Lemma prefix_cons c p d b : String.prefix (String c p) (String d b) = bool_decide (c = d) && String.prefix p b.
Proof. cbn. destruct (ascii_dec c d) as [E|E]; [by rewrite bool_decide_eq_true_2|by rewrite bool_decide_eq_false_2]. Qed.
Lemma prefix_app a b : String.prefix a (a +:+ b) = true.
Proof.
  induction a as [|c a IH]; [by destruct b|]. cbn. destruct (ascii_dec c c) as [_|E]; [done|by destruct E].
Qed.
Lemma index_zero p b : p ≠ "" → String.index 0 p (p +:+ b) = Some 0.
Proof.
  intros Hp. destruct p as [|c p]; [by destruct Hp|]. cbn. destruct (ascii_dec c c) as [_|E]; [|by destruct E].
  by rewrite prefix_app.
Qed.

(** The search for a newline and a hyphen passes over such text. *)
Lemma index_after a p b : no_break a = true →
  String.index 0 (String newline (String "-" p)) (a +:+ String newline (String "-" p) +:+ b) = Some (String.length a).
Proof.
  set (pat := String newline (String "-" p)). intros Ha. induction a as [|c a IH].
  { by apply (index_zero pat b). }
  cbn in Ha. apply andb_true_iff in Ha as [H1 H2]. specialize (IH H2).
  change (String c a +:+ pat +:+ b) with (String c (a +:+ pat +:+ b)).
  assert (String.prefix pat (String c (a +:+ pat +:+ b)) = false) as Hpre.
  { unfold pat at 1. rewrite prefix_cons. case_bool_decide as E; [subst c|done].
    rewrite Ascii.eqb_refl in H1. apply negb_true_iff in H1. cbn in H1.
    destruct a as [|d a]; [done|]. cbn in H1.
    change (String d a +:+ pat +:+ b) with (String d (a +:+ pat +:+ b)).
    rewrite prefix_cons. case_bool_decide as E; [subst d; by rewrite Ascii.eqb_refl in H1|done]. }
  cbn [String.index]. rewrite Hpre, IH. done.
Qed.

(** ** Buffers *)
Notation chars := String.list_ascii_of_string.
Definition no_nul (s : string) : Prop := nonul (chars s).

Lemma hyphenless_no_nul s : hyphenless s = true → no_nul s.
Proof.
  induction s as [|c s IH]; [constructor|]. cbn. intros [Hc H]%andb_true_iff. constructor; [|by apply IH].
  unfold plain_char in Hc. apply andb_true_iff in Hc as [_ Hc]. apply negb_true_iff in Hc.
  by apply Ascii.eqb_neq.
Qed.
Lemma chars_append a b : chars (a +:+ b) = chars a ++ chars b.
Proof. induction a as [|c a IH]; [done|]. cbn. by rewrite IH. Qed.
Lemma no_nul_app a b : no_nul a → no_nul b → no_nul (a +:+ b).
Proof. unfold no_nul, nonul. rewrite chars_append. intros. by apply Forall_app. Qed.
Lemma length_app_str a b : String.length (a +:+ b) = String.length a + String.length b.
Proof. induction a as [|c a IH]; [done|]. cbn. by rewrite IH. Qed.
Lemma cstr_chars a r : no_nul a → cstr (chars a ++ NUL :: r) = a.
Proof. intros H. rewrite cstr_app by done. apply String.string_of_list_ascii_of_string. Qed.

(** The part of a buffer up to a terminated position. *)
Lemma str_at_part (a b : string) (r : buffer) : no_nul b → r ≠ [] →
  str_at (String.length a) (terminate (String.length a + String.length b) (chars a ++ chars b ++ r)) = b.
Proof.
  intros Hb Hr. unfold str_at, terminate, buffer in *.
  rewrite <-!length_chars, insert_app_r, drop_app_length, insert_app_r_alt, Nat.sub_diag by lia.
  destruct r as [|x r]; [done|]. by apply cstr_chars.
Qed.
Lemma terminate_comm i j (pem : buffer) : i ≠ j → terminate i (terminate j pem) = terminate j (terminate i pem).
Proof. intros H. by apply list_insert_insert_ne. Qed.
Lemma terminate_after (a : string) i (r : buffer) :
  terminate (String.length a + i) (chars a ++ r) = chars a ++ terminate i r.
Proof. unfold terminate, buffer. by rewrite <-length_chars, insert_app_r. Qed.
Lemma str_at_before i j (pem : buffer) : j < i → str_at i (terminate j pem) = str_at i pem.
Proof. intros H. unfold str_at, terminate, buffer. by rewrite drop_insert_lt. Qed.
Lemma strstr_cbuf text needle : no_nul text → strstr (cbuf text) needle = String.index 0 needle text.
Proof. intros H. unfold strstr, cbuf. f_equal. by apply cstr_chars. Qed.

(** ** Certificates and keys between their markers *)
Definition cert_pem (cert : string) : string := cert_begin +:+ cert +:+ cert_end.
Definition key_pem (t kd : string) : string := key_begin t +:+ kd +:+ key_end t.

Lemma cert_text_pem cert : hyphenless cert = true → cert_text (cbuf (cert_pem cert)) = Some cert.
Proof.
  intros H. pose proof (hyphenless_no_nul _ H) as Hn. unfold cert_text, cert_pem.
  assert (no_nul (cert_begin +:+ cert +:+ cert_end)) as Hall.
  { apply no_nul_app; [by apply (bool_decide_unpack _)|]. apply no_nul_app; [done|by apply (bool_decide_unpack _)]. }
  rewrite !strstr_cbuf, index_zero by done. cbn [mbind option_bind].
  assert (no_break (cert_begin +:+ cert) = true) as Hb.
  { apply no_break_app; [done|by apply hyphenless_no_break|]. destruct cert as [|c cert]; [done|].
    cbn in *. apply andb_true_iff in H as [H _]. apply andb_true_iff in H as [H _]. by apply negb_true_iff. }
  pose proof (index_after _ "----END CERTIFICATE-----" "" Hb) as Hi. rewrite !str_app_nil, str_app_assoc in Hi.
  change (String newline (String "-" "----END CERTIFICATE-----")) with cert_end in Hi.
  rewrite Hi. cbn [mbind option_bind]. apply (f_equal Some). change (0 + 28) with (String.length cert_begin).
  rewrite length_app_str. unfold cbuf. rewrite !chars_append, <-!app_assoc. by apply str_at_part.
Qed.

Lemma key_text_pem kd : hyphenless kd = true → key_text (cbuf (key_pem "RSA" kd)) = Some ("RSA", kd).
Proof.
  intros H. pose proof (hyphenless_no_nul _ H) as Hn. unfold key_text, key_markers, key_pem.
  assert (no_nul (key_begin "RSA" +:+ kd +:+ key_end "RSA")) as Hall.
  { apply no_nul_app; [by apply (bool_decide_unpack _)|]. apply no_nul_app; [done|by apply (bool_decide_unpack _)]. }
  rewrite !strstr_cbuf, index_zero by done. cbn [mbind option_bind].
  assert (no_break (key_begin "RSA" +:+ kd) = true) as Hb.
  { apply no_break_app; [done|by apply hyphenless_no_break|]. destruct kd as [|c kd]; [done|].
    cbn in *. apply andb_true_iff in H as [H _]. apply andb_true_iff in H as [H _]. by apply negb_true_iff. }
  pose proof (index_after _ "----END RSA PRIVATE KEY-----" "" Hb) as Hi. rewrite !str_app_nil, str_app_assoc in Hi.
  change (String newline (String "-" "----END RSA PRIVATE KEY-----")) with (key_end "RSA") in Hi.
  rewrite Hi. cbn [mbind fmap option_fmap option_map option_bind]. rewrite length_app_str.
  set (B := key_begin "RSA"). set (n := String.length B + String.length kd).
  assert (cbuf (B +:+ kd +:+ key_end "RSA") = chars (B +:+ kd +:+ nl +:+ "-----END ") ++ chars "RSA" ++ chars " PRIVATE KEY-----" ++ [NUL]) as Ek.
  { unfold cbuf. rewrite !chars_append, <-!app_assoc. reflexivity. }
  do 2 f_equal.
  - rewrite terminate_comm, str_at_before, Ek by lia.
    replace (n + 10) with (String.length (B +:+ kd +:+ nl +:+ "-----END ")) by (rewrite !length_app_str; cbn; unfold n; lia).
    replace (n + 13) with (String.length (B +:+ kd +:+ nl +:+ "-----END ") + String.length "RSA")
      by (rewrite !length_app_str; cbn; unfold n; lia).
    by apply str_at_part; [apply (bool_decide_unpack _)|].
  - rewrite terminate_comm by lia.
    unfold cbuf. rewrite !chars_append, <-!app_assoc. change (0 + 32) with (String.length B).
    replace (n + 13) with (String.length B + (String.length kd + 13)) by (unfold n; lia).
    rewrite !terminate_after. by apply str_at_part.
Qed.

(** ** Writing files *)
Section files.
Context {LX : LibXml} {OI : OvsIdl} {FS : Files}.

(** Files can be created, opened and read, and everything is written. *)
Record files_work : Prop := {
  fw_creates f : file_creates f = true;
  fw_opens f : file_opens f = true;
  fw_reads f : file_reads f = true;
  fw_takes f old text : String.length text <= file_takes f old text
}.
Context (FW : files_work).

Definition put_file (f text : string) (s : ovsdb) : ovsdb := with_out (with_files <[f := text]>) s.

Lemma put_file_twice f a b s : put_file f b (put_file f a s) = put_file f b s.
Proof.
  assert (∀ x, with_files <[f := b]> (with_files <[f := a]> x) = with_files <[f := b]> x) as H.
  { intros []. unfold with_files. cbn. by rewrite insert_insert_eq. }
  unfold put_file, with_out. cbn. by rewrite H.
Qed.
Lemma substring_all s : String.substring 0 (String.length s) s = s.
Proof. induction s as [|c s IH]; [done|]. cbn. by rewrite IH. Qed.
Lemma write_file_put f old text s :
  write_file f text (put_file f old s) = Done (String.length text, put_file f (old +:+ text) s).
Proof.
  unfold write_file, gets_out. rewrite bind_gets. cbn [o_out put_file with_out x_files with_files].
  rewrite lookup_insert_eq. cbn [default]. rewrite bind_modify.
  pose proof (fw_takes FW f old text) as H.
  rewrite Nat.min_r, substring_all by (by apply H).
  change (Done (String.length text, put_file f (old +:+ text) (put_file f old s)) =
    Done (String.length text, put_file f (old +:+ text) s)). by rewrite put_file_twice.
Qed.
Lemma creat_run f s : creat f s = Done (true, put_file f "" s).
Proof. unfold creat. by rewrite (fw_creates FW). Qed.

Lemma write_cert_run cert f s : write_cert cert f s = Done (EXIT_SUCCESS, put_file f (cert_pem cert) s).
Proof.
  unfold write_cert. rewrite (bind_run _ _ _ _ _ (creat_run f s)). cbn [negb].
  do 3 rewrite (bind_run _ _ _ _ _ (write_file_put f _ _ s)). cbn [String.append].
  unfold cert_pem. rewrite str_app_assoc. done.
Qed.
Lemma write_key_run t kd s : write_key t kd s = Done (EXIT_SUCCESS, put_file key_file (key_pem t kd) s).
Proof.
  unfold write_key. rewrite (bind_run _ _ _ _ _ (creat_run _ s)). cbn [negb].
  do 7 rewrite (bind_run _ _ _ _ _ (write_file_put key_file _ _ s)).
  unfold key_pem, key_begin, key_end. rewrite !str_app_assoc. done.
Qed.
Lemma read_file_run f text s : x_files (o_out s) !! f = Some text → read_file (Some f) s = Done (Some (cbuf text), s).
Proof. intros H. unfold read_file, gets_out. rewrite bind_gets. cbn. by rewrite H, (fw_opens FW), (fw_reads FW). Qed.

Lemma files_differ : cert_file ≠ key_file.
Proof.
  unfold cert_file, key_file. intros E. apply (f_equal String.length) in E. rewrite !length_app_str in E.
  cbn in E. lia.
Qed.

(** ** The row of the SSL table *)
Definition the_ssl (u : uuid) (r : ssl) (s : ovsdb) : Prop := head (rows s) = Some (u, r).

Lemma ssl_written u r f s : the_ssl u r s →
  row_write u f s = Done (tt, written u f s) ∧ the_ssl u (f r) (written u f s).
Proof.
  unfold the_ssl. intros H. split.
  - apply row_write_live. destruct (rows (A := ssl) s) as [|[v x] l]; [done|]. injection H as -> ->. by left.
  - rewrite rows_written. destruct (rows (A := ssl) s) as [|[v x] l]; [done|]. injection H as -> ->. cbn.
    by rewrite bool_decide_eq_true_2.
Qed.

(** The reference of the Open_vSwitch row leaves the SSL table and the files as they are. *)
Lemma link_ssl_returns u s : returns (λ _ s', tab (A := ssl) s' = tab s ∧ o_out s' = o_out s) (link_ssl u) s.
Proof.
  unfold link_ssl. apply (returns_bind (λ ou s1, ou ∈ (rows (A := open_vswitch) s1).*1 ∧
    tab (A := ssl) s1 = tab s ∧ o_out s1 = o_out s)).
  - unfold first_ovs, find_row. apply returns_gets.
    destruct (find_first (λ r : uuid * open_vswitch, true) (rows s)) as [[ou o]|] eqn:E.
    + apply returns_ret. split_and!; [|done..]. apply find_first_Some in E as [E _].
      apply list_elem_of_fmap. by exists (ou, o).
    + eexists _, _. split; [apply row_insert_run|]. split_and!; [|done..].
      unfold inserted, use_uuid, rows. cbn. rewrite idl_place_perm. by left.
  - intros ou s1 (Hin & Ht & Ho). eexists _, _. split; [by apply row_write_live|]. by split.
Qed.

(** The row a new certificate goes to: the one row of the table, or a new one. *)
Definition takes_certificate (type rid : string) (s : ovsdb) : Prop :=
  ∀ u r, the_ssl u r s → ssl_external_ids r !! type = None ∨ ssl_external_ids r !! type = Some rid.

Lemma cert_row_run type msg node rid s : get_key node "resource-id" = Some rid → takes_certificate type rid s →
  ∃ u new r s1, cert_row type msg node s = Done (Some (u, new), s1) ∧ the_ssl u r s1 ∧
    (new = None ∨ new = Some rid) ∧ o_out s1 = o_out s.
Proof.
  intros Hk Ht. unfold cert_row, first_ssl. destruct (head (rows (A := ssl) s)) as [[u r]|] eqn:E.
  - exists u, (Some rid), r, s. rewrite bind_gets, E, Hk. split_and!; [|done|by right|done].
    destruct (Ht u r E) as [-> | ->]; [done|]. by rewrite bool_decide_eq_true_2.
  - eexists _, None, _, _. rewrite bind_gets, E, (bind_run _ _ _ _ _ (row_insert_run _ s)). split; [done|].
    split_and!; [|by left|done]. unfold the_ssl, inserted, use_uuid, rows in *. cbn.
    destruct (live (t_ssl s)) eqn:El; [|cbn in E; by rewrite El in E].
    pose proof (idl_place_perm (idl_uuid (o_used s), Ssl None None None ∅) []) as Hp.
    symmetry in Hp. by apply Permutation_singleton_l in Hp as <-.
Qed.

(** The certificate and its key in the document. *)
Definition shows_key (kt kd : string) (n : xmlNode) : Prop :=
  ntype n = XML_ELEMENT_NODE ∧ name n = Some "private-key" ∧
  Forall2 shows [("key-type", kt); ("key-data", kd)] (children n).
Definition shows_owned (rid cert kt kd : string) (node : xmlNode) : Prop :=
  ∃ n1 n2 n3, children node = [n1; n2; n3] ∧ shows ("resource-id", rid) n1 ∧ shows ("certificate", cert) n2 ∧
    shows_key kt kd n3.

Lemma element_shows f n : shows f n → is_element n = true.
Proof. intros (H & _). unfold is_element. by rewrite H. Qed.
Lemma owned_resid rid n new : shows ("resource-id", rid) n → new = None ∨ new = Some rid →
  owned_field (CertInput new None None None) n = CertInput (Some rid) None None None.
Proof.
  intros H Hnew. unfold owned_field. rewrite (element_shows _ _ H), !(name_shows _ _ _ H).
  destruct H as (_ & _ & ->). by destruct Hnew as [-> | ->].
Qed.
Lemma owned_cert cert n r : shows ("certificate", cert) n →
  owned_field (CertInput r None None None) n = CertInput r (Some cert) None None.
Proof.
  intros H. unfold owned_field. rewrite (element_shows _ _ H), !(name_shows _ _ _ H).
  destruct H as (_ & _ & ->). cbn [fst snd in_resid in_key_type in_key_data].
  by rewrite (bool_decide_eq_false_2 ("certificate" = "resource-id")), andb_false_r.
Qed.
Lemma key_type_field kt n i : shows ("key-type", kt) n →
  key_field i n = CertInput (in_resid i) (in_cert i) (Some kt) (in_key_data i).
Proof.
  intros H. unfold key_field. rewrite (name_shows _ _ _ H). by destruct H as (_ & _ & ->).
Qed.
Lemma key_data_field kd n i : shows ("key-data", kd) n →
  key_field i n = CertInput (in_resid i) (in_cert i) (in_key_type i) (Some kd).
Proof.
  intros H. unfold key_field. rewrite !(name_shows _ _ _ H). by destruct H as (_ & _ & ->).
Qed.
Lemma owned_key kt kd n r c : shows_key kt kd n →
  owned_field (CertInput r c None None) n = CertInput r c (Some kt) (Some kd).
Proof.
  intros (Ht & Hn & Hc).
  apply Forall2_cons_inv_l in Hc as (k1 & l1 & K1 & H & E). apply Forall2_cons_inv_l in H as (k2 & l2 & K2 & H & ->).
  apply Forall2_nil_inv_l in H as ->.
  assert (∀ x, name_is n x = bool_decide (x = "private-key")) as N.
  { intros x. unfold name_is, xmlStrEqual. rewrite Hn. apply bool_decide_ext. naive_solver. }
  unfold owned_field. rewrite !N, E. unfold is_element. rewrite Ht.
  cbn [negb bool_decide fold_left]. rewrite (bool_decide_eq_false_2 ("resource-id" = "private-key")), andb_false_r by done.
  by rewrite (key_type_field _ _ _ K1), (key_data_field _ _ _ K2).
Qed.
Lemma owned_input rid cert kt kd node new : shows_owned rid cert kt kd node → new = None ∨ new = Some rid →
  fold_left owned_field (children node) (CertInput new None None None) =
  CertInput (Some rid) (Some cert) (Some kt) (Some kd).
Proof.
  intros (n1 & n2 & n3 & -> & H1 & H2 & H3) Hnew. cbn [fold_left].
  by rewrite (owned_resid _ _ _ H1 Hnew), (owned_cert _ _ _ H2), (owned_key _ _ _ _ _ H3).
Qed.
End files.
