(* ===== verification/OvsSamples.v ===== *)
(** * A sample database

    An instance of the IDL, a small database, and a kernel, switches and file
    system that do what they are asked to. *)

From S2P Require Import Prelude.
From S2P Require Import Xml.
From S2P Require Import XmlFacts.
From S2P Require Import EditTree.
From S2P Require Import OvsDevices.
From S2P Require Import Ovsdb.
From S2P Require Import OvsFacts.
From S2P Require Import OvsQueues.
From S2P Require Import OvsQueueFacts.
From S2P Require Import OvsQueueSpecs.

(** ** A sample IDL and database *)

Fixpoint first_of_keys (l : list (Z * uuid)) : list (Z * uuid) :=
  match l with
  | [] => []
  | (k, u) :: l' => (k, u) :: filter (λ kv, kv.1 ≠ k) (first_of_keys l')
  end.

Lemma first_of_keys_sub l : first_of_keys l ⊆ l.
Proof.
  induction l as [|[k u] l IH]; [done|]. cbn. intros x [->|Hx]%elem_of_cons; [by left|].
  right. apply list_elem_of_filter in Hx as [_ Hx]. by apply IH.
Qed.
Lemma first_of_keys_keys l k : k ∈ l.*1 → k ∈ (first_of_keys l).*1.
Proof.
  induction l as [|[k' u] l IH]; [done|]. cbn. intros [->|Hk]%elem_of_cons; [by left|].
  destruct (decide (k = k')) as [->|Hne]; [by left|]. right.
  apply IH, list_elem_of_fmap in Hk as ([k1 v] & -> & Hv). apply list_elem_of_fmap.
  exists (k1, v). split; [done|]. by apply list_elem_of_filter.
Qed.
Lemma first_of_keys_nodup l : NoDup (first_of_keys l).*1.
Proof.
  induction l as [|[k u] l IH]; [constructor|]. cbn. apply NoDup_cons. split.
  - intros ([k1 v] & -> & Hv)%list_elem_of_fmap. by apply list_elem_of_filter in Hv as [? _].
  - by apply nodup_filter_keys.
Qed.

Lemma max_uuid_le l u : u ∈ l → (u <= foldr Pos.max 1 l)%positive.
Proof. induction l as [|v l IH]; [by intros ?%elem_of_nil|]. intros [->|H%IH]%elem_of_cons; cbn; lia. Qed.

#[export] Program Instance sample_idl : OvsIdl := {|
  idl_uuid l := Pos.succ (foldr Pos.max 1%positive l);
  idl_place A r l := l ++ [r];
  idl_set l := remove_dups l;
  idl_map := first_of_keys;
  idl_keeps _ := true |}.
Next Obligation. intros l H%max_uuid_le. lia. Qed.
Next Obligation. intros A r l. cbn. by rewrite Permutation_app_comm. Qed.
Next Obligation. intros l x. apply elem_of_remove_dups. Qed.
Next Obligation. intros l. apply NoDup_remove_dups. Qed.
Next Obligation. apply first_of_keys_sub. Qed.
Next Obligation. apply first_of_keys_keys. Qed.
Next Obligation. apply first_of_keys_nodup. Qed.

(** Two queues, one of them linked to the first of two ports; a bridge with
    that port, another without controllers but one; two controllers. *)
Definition q_row (rid i : string) : queue :=
  Queue (<["ofc_id" := i]> {[OFC_RESOURCE_ID := rid]}) ∅.
Definition c_row (i t : string) : controller :=
  Controller (Some t) None None None {["ofconfig-id" := i]} true.
Arguments q_row : simpl never.
Arguments c_row : simpl never.

Definition if_row (nm : string) : interface :=
  Interface (Some nm) None None ∅ ∅ None None None ∅.
Arguments if_row : simpl never.

Definition sample_db : ovsdb :=
  Ovsdb (Table [(1, q_row "q1" "7"); (2, q_row "q2" "8")]%positive [])
    (Table [(3, Qos (Some QOS_TYPE) [(7%Z, 1)])]%positive [])
    (Table [(4, Port (Some "eth0") (Some 3) [11]); (5, Port (Some "eth1") None [12])]%positive [])
    (Table [(11, if_row "eth0"); (12, if_row "eth1")]%positive []) (Table [] [])
    (Table [(6, Bridge (Some "br0") [4] [] [8] ∅ None None); (7, Bridge (Some "br1") [] [] [9] ∅ None None)]%positive [])
    (Table [(8, c_row "c0" "tcp:10.0.0.1:6633"); (9, c_row "c1" "ssl:10.0.0.2")]%positive [])
    (Table [(10, OpenVswitch [6; 7] None)]%positive []) (Table [] []) (Table [] [])
    [1; 2; 3; 4; 5; 6; 7; 8; 9; 10; 11; 12]%positive None no_outside.

Lemma sample_queues u q : (u, q) ∈ rows sample_db →
  (u = 1%positive ∧ q = q_row "q1" "7") ∨ (u = 2%positive ∧ q = q_row "q2" "8").
Proof.
  change (rows sample_db) with [(1%positive, q_row "q1" "7"); (2%positive, q_row "q2" "8")].
  rewrite elem_of_cons, list_elem_of_singleton. intros [[= -> ->]|[= -> ->]]; tauto.
Qed.
Lemma sample_qoss u q : (u, q) ∈ rows sample_db →
  u = 3%positive ∧ q = Qos (Some QOS_TYPE) [(7%Z, 1%positive)].
Proof.
  change (rows sample_db) with [(3%positive, Qos (Some QOS_TYPE) [(7%Z, 1%positive)])].
  rewrite list_elem_of_singleton. by intros [= -> ->].
Qed.
Lemma sample_ports u p : (u, p) ∈ rows sample_db →
  (u = 4%positive ∧ p = Port (Some "eth0") (Some 3%positive) [11%positive]) ∨
  (u = 5%positive ∧ p = Port (Some "eth1") None [12%positive]).
Proof.
  change (rows sample_db) with
    [(4%positive, Port (Some "eth0") (Some 3%positive) [11%positive]); (5%positive, Port (Some "eth1") None [12%positive])].
  rewrite elem_of_cons, list_elem_of_singleton. intros [[= -> ->]|[= -> ->]]; tauto.
Qed.
Lemma sample_rid rid rid' i : has_rid rid (q_row rid' i) = true → rid = rid'.
Proof.
  unfold q_row. rewrite has_rid_spec. cbn [q_external_ids].
  rewrite lookup_insert_ne by done. rewrite lookup_singleton_eq. congruence.
Qed.

Lemma sample_queue_ok : queue_ok sample_db.
Proof.
  constructor.
  - by apply (bool_decide_unpack _).
  - by apply (bool_decide_unpack _).
  - by apply (bool_decide_unpack _).
  - intros u [(q & H)%keys_elem|(q & H)%keys_elem].
    + apply sample_queues in H as [[-> _]|[-> _]]; by apply (bool_decide_unpack _).
    + apply sample_qoss in H as [-> _]. by apply (bool_decide_unpack _).
  - intros u q u' q' rid [[-> ->]|[-> ->]]%sample_queues [[-> ->]|[-> ->]]%sample_queues
      Hr%sample_rid Hr'%sample_rid; congruence.
  - intros p pr qs [[-> ->]|[-> ->]]%sample_ports E; [|done]. injection E as <-. by left.
  - intros p pr p' pr' qs [[-> ->]|[-> ->]]%sample_ports [[-> ->]|[-> ->]]%sample_ports E E'; done.
  - intros qs q [-> ->]%sample_qoss. apply NoDup_singleton.
  - intros qs q k u [-> ->]%sample_qoss [= -> ->]%list_elem_of_singleton.
    exists (q_row "q1" "7"). split; [by left|]. intros _. reflexivity.
  - intros qs q k qs' q' k' u qr _ _ [-> ->]%sample_qoss _ [-> ->]%sample_qoss _. done.
Qed.

(** ** The services *)

(** Every change of a device is accepted. *)
#[export] Instance sample_kernel : Kernel := {|
  kernel_flags _ d v := Some (Device (dv_driver d) v (dv_ethtool d));
  kernel_ethtool _ d c := (λ _, Device (dv_driver d) (dv_flags d) (Some c)) <$> dv_ethtool d |}.

(** Bridges answer on their management sockets at once. *)
Definition sample_port_mod (no config mask : Z) (l : list phy_port) : list phy_port :=
  (λ p, if (pp_port_no p =? no)%Z
        then PhyPort (pp_name p) (pp_port_no p)
               (Z.lor (Z.land (pp_config p) (Z.lnot mask)) (Z.land config mask))
               (pp_state p) (pp_curr_speed p) (pp_max_speed p)
        else p) <$> l.
#[export] Instance sample_vconn : Vconn := {|
  ovs_rundir := "/run";
  dp_name_of nm := nm;
  vconn_opens _ nm := if String.prefix "unix:/run/" nm then 0%Z else 2%Z;
  vconn_connects _ _ := 0%Z;
  vconn_switch nm := nm;
  version_known _ := true;
  vconn_transacts _ _ := 0%Z;
  ports_described _ _ := true;
  port_mod_result _ _ := (0%Z, false);
  port_mod := sample_port_mod;
  ovs_strerror _ := "error";
  ofp_to_string _ := "error" |}.

(** All files can be written. *)
#[export] Instance sample_files : Files := {|
  ofc_datadir := "/var/lib/ofc";
  file_creates _ := true; file_opens _ := true; file_truncates _ := true; file_reads _ := true;
  file_takes _ _ text := String.length text |}.

(** ** A switch in use *)

(** eth0 is a network card, the switch has its id. *)
Definition card : device :=
  Device (Some "e1000") 4098 (Some (EthtoolCmd 8911 4207 4207 1000 0 1 0 1)).
Definition sample_outside : outside :=
  Outside {["eth0" := card]} {["unix:/run/br0.mgmt" := [PhyPort "eth0" 1 1 4 0 0]]} 0 ∅ false (Some "ofc").
Definition sample_conf : ovsdb := with_out (λ _, sample_outside) sample_db.
