(* ===== verification/OvsClaims.v ===== *)
(** * Properties of the OVSDB operations

    Queues and their links, ports of a bridge, the datapath-id and controller
    targets, each with a sample database on which the hypotheses hold. *)

From S2P Require Import Prelude.
From S2P Require Import Xml.
From S2P Require Import XmlFacts.
From S2P Require Import EditTree.
From S2P Require Import EditChecks.
From S2P Require Import EditCompact.
From S2P Require Import EditOps.
From S2P Require Import Samples.
From S2P Require Import OvsDevices.
From S2P Require Import Ovsdb.
From S2P Require Import OvsFacts.
From S2P Require Import OvsQueues.
From S2P Require Import OvsQueueFacts.
From S2P Require Import OvsQueueSpecs.
From S2P Require Import OvsBridges.
From S2P Require Import OvsControllers.
From S2P Require Import OvsBridgeFacts.
From S2P Require Import OvsTextFacts.
From S2P Require Import OvsLayer.
From S2P Require Import OvsSamples.

(** ** Queues *)
Section queues.
Context {LX : LibXml} {OI : OvsIdl} {KE : Kernel} {VC : Vconn} {FS : Files} (del_all : M ovsdb Z).

(** The calls on queues, and what they ask for: a queue is added under a new
    resource-id and linked when it has no link; the check of a bridge's queue
    compares the names of ports. *)
Definition queue_call (s : ovsdb) (op : txn_op) : Prop :=
  match op with
  | TxnAddQueue n =>
      ∀ rid, qi_rid (foldl queue_field (QueueInput None None None None) (children n)) = Some rid →
             no_queue s rid
  | TxnAddQueuePort (Some rid) _ => rid_unlinked s rid
  | TxnAddQueuePort None _ | TxnDelQueue _ | TxnDelQueuePort _ | TxnModQueueId _ _
  | TxnModQueueOptions _ _ _ => True
  | OfcCheckBridgeQueue _ _ => bridges_named s
  | _ => False
  end.

Definition safe (r : exit) (s' : ovsdb) : Prop :=
  queue_ok s' ∧ match r with EXIT_SUCCESS => True | EXIT_FAILURE => is_Some (o_err s') end.

Lemma fine_safe P F m s : returns (fine P F) m s → returns safe m s.
Proof.
  intros H. eapply returns_mono; [exact H|]. intros [|] s' [H1 H2]; (split; [done|]); [done|].
  by destruct H2.
Qed.
Lemma reject_safe e s : queue_ok s → returns safe (reject e) s.
Proof. intros H. by apply (fine_safe (λ _, True) True), reject_fine. Qed.
Lemma code_of_safe m s : returns safe m s →
  returns (λ r s', queue_ok s' ∧ (r ≠ 0%Z → is_Some (o_err s'))) (code_of m) s.
Proof.
  intros H. unfold code_of. eapply returns_bind; [exact H|].
  intros [|] s' [H1 H2]; apply returns_ret; by split.
Qed.

(** C17: every call on queues returns from a consistent state, when a queue is added
    only under a resource-id that no queue has and linked to a port only while
    it has no link, and, for ofc_check_bridge_queue(), ports have names and
    bridges refer to existing ports: the call never follows a dangling
    reference, it keeps the references, resource-ids, ids and links of queues
    consistent, and when it fails it has left an error, if it has a parameter
    for one. *)
Theorem queue_ops_safe s op : queue_ok s → queue_call s op →
  ∃ r s', ovs_exec del_all op s = Done (r, s') ∧ queue_ok s' ∧
    (r ≠ 0%Z → reports_error op = true → is_Some (o_err s')).
Proof.
  intros H Hop.
  assert (∀ m, returns safe m s → ∃ r s', code_of m s = Done (r, s') ∧ queue_ok s' ∧
    (r ≠ 0%Z → reports_error op = true → is_Some (o_err s'))) as Hcode.
  { intros m (r & s' & Hrun & Hok & Hr)%code_of_safe. exists r, s'. auto. }
  destruct op; try done; cbn [ovs_exec queue_call] in *; try apply Hcode.
  - destruct (ofc_check_bridge_queue_spec s br rid H Hop) as (r & s' & Hrun & ->). by exists r, s.
  - destruct (qi_rid (foldl queue_field (QueueInput None None None None) (children node)))
      as [rid|] eqn:E.
    + eapply fine_safe, txn_add_queue_spec; [done|exact E|]. by apply Hop.
    + unfold txn_add_queue. cbv zeta. rewrite E. by apply reject_safe.
  - destruct rid; [by eapply fine_safe, txn_del_queue_spec|by apply reject_safe].
  - destruct rid as [rid|], port as [p|]; try by apply reject_safe.
    by eapply fine_safe, txn_add_queue_port_spec.
  - destruct rid as [rid|]; [|by apply reject_safe].
    eapply returns_mono; [by apply txn_del_queue_port_spec|].
    intros [|] s' [H1 H2]; (split; [done|]); [done|]. by destruct H2.
  - destruct rid as [rid|], qid as [i|]; try by apply reject_safe.
    by eapply fine_safe, txn_mod_queue_id_spec.
  - destruct rid as [rid|]; [by eapply fine_safe, txn_mod_queue_options_spec|by apply reject_safe].
Qed.

(** C25: Linking an unlinked queue to a port succeeds exactly when the queue and
    the port exist and the queue has an id; then, unless the id is taken on
    that port, precisely this link is added, whether or not the port had a QoS
    before. *)
Theorem add_queue_port_links s rid nm : queue_ok s → rid_unlinked s rid →
  ∃ r s', txn_add_queue_port (Some rid) (Some nm) s = Done (r, s') ∧
    (r = EXIT_SUCCESS ↔ linkable s rid nm) ∧
    (r = EXIT_SUCCESS → ∃ qu q k pu pr,
       (qu, q) ∈ rows s ∧ has_rid rid q = true ∧ queue_id q = Some k ∧
       (pu, pr) ∈ rows s ∧ port_name pr = Some nm ∧
       ((∀ u, ¬ link s pu k u) → adds_link s s' pu k qu)).
Proof.
  intros H Hun. destruct (txn_add_queue_port_spec s rid nm H Hun) as (r & s' & Hrun & _ & Hr).
  exists r, s'. split; [done|]. destruct r.
  - destruct Hr as (qu & q & k & pu & pr & ? & ? & ? & ? & ? & _ & ?).
    split; [split; [|done]; intros _|intros _]; by exists qu, q, k, pu, pr.
  - destruct Hr as [_ Hno]. by split.
Qed.

(** C15: setting a queue's id in a consistent database ([queue_ok]) returns.  It fails,
    with an error, exactly when the id is not a number or there is no such
    queue.  Otherwise the row records the id as it was given, and its value
    becomes the key of the queue's link, on every port the queue is linked to,
    all other links being as before, provided no other queue of such a port has
    this key. *)
Theorem mod_queue_id_rekeys s rid id_s : queue_ok s →
  ∃ r s', txn_mod_queue_id (Some rid) (Some id_s) s = Done (r, s') ∧
    match r with
    | EXIT_SUCCESS => ∃ qu q k, (qu, q) ∈ rows s ∧ has_rid rid q = true ∧
        scan_i64 id_s = Some k ∧ (INT64_MIN ≤ k ≤ INT64_MAX)%Z ∧
        (∃ q', (qu, q') ∈ rows s' ∧ q_external_ids q' !! "ofc_id" = Some id_s) ∧
        ((∀ p k1 u, link s p k1 qu → link s p k u → u = qu) → rekeys s s' k qu)
    | EXIT_FAILURE => is_Some (o_err s') ∧ (scan_i64 id_s = None ∨ no_queue s rid)
    end.
Proof.
  intros H. destruct (txn_mod_queue_id_spec s rid id_s H) as (r & s' & Hrun & _ & Hr).
  exists r, s'. split; [done|]. destruct r; [|done].
  destruct Hr as (qu & q & k & Hqu & Hr & Hk & Hrows & _ & Hre).
  exists qu, q, k. split_and!; try done; [by eapply scan_i64_range|by eapply scan_i64_range|].
  exists (set_id id_s q). rewrite Hrows. split.
  - apply elem_alter. exists q. by rewrite bool_decide_eq_true_2.
  - cbn. apply lookup_insert_eq.
Qed.

(** C24: Deleting a queue that exists succeeds, linked or not: afterwards no QoS
    refers to the row, its links and its row are gone, all other links and
    queues are as before; it fails exactly when there is no such queue. *)
Theorem del_queue_gone s rid : queue_ok s →
  ∃ r s', txn_del_queue (Some rid) s = Done (r, s') ∧
    match r with
    | EXIT_SUCCESS => ∃ qu q, (qu, q) ∈ rows s ∧ has_rid rid q = true ∧
        in_no_qos s' qu ∧ drops_links s s' qu ∧
        ∀ u (q' : queue), (u, q') ∈ rows s' ↔ (u, q') ∈ rows s ∧ u ≠ qu
    | EXIT_FAILURE => is_Some (o_err s') ∧ no_queue s rid
    end.
Proof.
  intros H. destruct (txn_del_queue_spec s rid H) as (r & s' & Hrun & _ & Hr). by exists r, s'.
Qed.

End queues.

Lemma queue_ops_safe_witness : ∃ r s',
  ovs_exec (mret 0%Z) (TxnDelQueue (Some "q1")) sample_db = Done (r, s') ∧
  queue_ok s' ∧ (r ≠ 0%Z → reports_error (TxnDelQueue (Some "q1")) = true → is_Some (o_err s')).
Proof. apply queue_ops_safe; [apply sample_queue_ok|exact I]. Defined.

Lemma sample_q2_unlinked : rid_unlinked sample_db "q2".
Proof.
  intros qu q [[-> ->]|[-> ->]]%sample_queues Hr%sample_rid qs qr k [-> ->]%sample_qoss Hin; [done|].
  by apply list_elem_of_singleton in Hin.
Qed.

Lemma add_queue_port_links_witness : ∃ r s',
  txn_add_queue_port (Some "q2") (Some "eth1") sample_db = Done (r, s') ∧
  (r = EXIT_SUCCESS ↔ linkable sample_db "q2" "eth1") ∧
  (r = EXIT_SUCCESS → ∃ qu q k pu pr,
     (qu, q) ∈ rows sample_db ∧ has_rid "q2" q = true ∧ queue_id q = Some k ∧
     (pu, pr) ∈ rows sample_db ∧ port_name pr = Some "eth1" ∧
     ((∀ u, ¬ link sample_db pu k u) → adds_link sample_db s' pu k qu)).
Proof. apply add_queue_port_links; [apply sample_queue_ok|apply sample_q2_unlinked]. Defined.

Example add_queue_port_runs :
  fst <$> (match txn_add_queue_port (Some "q2") (Some "eth1") sample_db with
           | Done r => Some r | _ => None end) = Some EXIT_SUCCESS.
Proof. vm_compute. reflexivity. Qed.

Lemma mod_queue_id_rekeys_witness : ∃ r s',
  txn_mod_queue_id (Some "q1") (Some "0x10") sample_db = Done (r, s') ∧
    match r with
    | EXIT_SUCCESS => ∃ qu q k, (qu, q) ∈ rows sample_db ∧ has_rid "q1" q = true ∧
        scan_i64 "0x10" = Some k ∧ (INT64_MIN ≤ k ≤ INT64_MAX)%Z ∧
        (∃ q', (qu, q') ∈ rows s' ∧ q_external_ids q' !! "ofc_id" = Some "0x10") ∧
        ((∀ p k1 u, link sample_db p k1 qu → link sample_db p k u → u = qu) →
           rekeys sample_db s' k qu)
    | EXIT_FAILURE => is_Some (o_err s') ∧ (scan_i64 "0x10" = None ∨ no_queue sample_db "q1")
    end.
Proof. apply mod_queue_id_rekeys, sample_queue_ok. Defined.

Lemma del_queue_gone_witness : ∃ r s', txn_del_queue (Some "q1") sample_db = Done (r, s') ∧
    match r with
    | EXIT_SUCCESS => ∃ qu q, (qu, q) ∈ rows sample_db ∧ has_rid "q1" q = true ∧
        in_no_qos s' qu ∧ drops_links sample_db s' qu ∧
        ∀ u (q' : queue), (u, q') ∈ rows s' ↔ (u, q') ∈ rows sample_db ∧ u ≠ qu
    | EXIT_FAILURE => is_Some (o_err s') ∧ no_queue sample_db "q1"
    end.
Proof. apply del_queue_gone, sample_queue_ok. Defined.

(** ** Bridges *)
Section bridges.
Context {LX : LibXml} {OI : OvsIdl}.

(** C33: Adding a port to a bridge and removing it again restores the bridge's
    ports, whatever order the database keeps them in; in between the bridge has
    exactly one port more. *)
Theorem bridge_port_roundtrip s br nm bu b pu pr :
  NoDup (rows (A := port) s).*1 → the_bridge s br = Some (bu, b) →
  find_first (λ r, named_port nm r.2) (rows s) = Some (pu, pr) →
  ports_ok s nm pu (br_ports b) → pu ∉ br_ports b →
  ∃ s1 s2 l1 l2,
    txn_add_bridge_port (Some br) (Some nm) s = Done (EXIT_SUCCESS, s1) ∧
    txn_del_bridge_port (Some br) (Some nm) s1 = Done (EXIT_SUCCESS, s2) ∧
    ports_of s1 br = Some l1 ∧ l1 ≡ₚ pu :: br_ports b ∧
    ports_of s2 br = Some l2 ∧ l2 ≡ₚ br_ports b.
Proof.
  intros Hn Hb Hp Hok Hnew.
  destruct (txn_add_bridge_port_spec s br nm bu b pu pr Hb Hp) as (s1 & Hadd & E1).
  set (l1 := set_column (A := port) (br_ports b ++ [pu]) s) in *.
  apply find_first_elem in Hp as [Hpu Hnm].
  assert (NoDup (pu :: br_ports b)) as Hnd by (apply NoDup_cons; split; [done|apply Hok]).
  assert (l1 ≡ₚ pu :: br_ports b) as HP.
  { unfold l1. rewrite set_column_all; [by rewrite Permutation_app_comm| |].
    - by rewrite Permutation_app_comm.
    - intros u [Hu| ->%list_elem_of_singleton]%elem_of_app; apply list_elem_of_fmap.
      + destruct (proj2 Hok u Hu) as (pr' & Hpr' & _). by exists (u, pr').
      + by exists (pu, pr). }
  assert (the_bridge s1 br = Some (bu, with_br_ports l1 b)) as Hb1.
  { rewrite E1. by apply the_bridge_written. }
  assert (rows (A := port) s1 = rows s) as Hrows by by rewrite E1.
  destruct (txn_del_bridge_port_spec s1 br nm bu (with_br_ports l1 b) pu)
    as (s2 & Hdel & (l2 & Hl2 & HP2) & _); [by rewrite Hrows|done| |].
  { split; cbn [br_ports with_br_ports]; [by rewrite HP|]. intros p.
    rewrite HP, Hrows, elem_of_cons. intros [->|Hin]; [|by apply Hok].
    exists pr. by rewrite Hnm. }
  exists s1, s2, l1, l2. split_and!; try done; [by unfold ports_of; rewrite Hb1|].
  rewrite HP2. apply NoDup_Permutation; [apply NoDup_filter; cbn; by rewrite HP|apply Hok|].
  intros x. rewrite without_pu_elem. cbn [br_ports with_br_ports]. rewrite HP, elem_of_cons.
  split; [tauto|]. intros Hx. split; [by right|]. by intros ->.
Qed.

(** C35: A datapath-id of 23 characters is stored as its 16 digits exactly when
    7 of them are colons; with any other number of colons the conversion loop
    or the use of its buffer leaves the 23 or the 17 bytes. *)
Theorem datapath_converted s br bu b v :
  the_bridge s br = Some (bu, b) → String.length v = 23 → nonul (chars v) →
  txn_mod_bridge_datapath (Some br) (Some v) s =
    if bool_decide (length (digits (chars v)) = 16) then
      Done (EXIT_SUCCESS, written bu (with_br_other <["datapath-id" := str (digits (chars v))]>) s)
    else Crash OutOfBounds.
Proof.
  intros Hb Hlen Hv. unfold txn_mod_bridge_datapath. erewrite bind_run by by apply find_bridge_run.
  cbv beta iota. rewrite bool_decide_eq_true_2 by done. cbn [negb].
  rewrite datapath_of_spec by done. destruct (bool_decide _); [|done].
  unfold deref. rewrite bind_ret.
  erewrite bind_run; [done|]. apply row_write_live.
  apply the_bridge_elem in Hb. apply list_elem_of_fmap. by exists (bu, b).
Qed.

(** ** Controllers *)
Definition the_contr (s : ovsdb) (id : string) : option (uuid * controller) :=
  find_first (λ r, has_contr_id id r.2) (rows s).

Lemma find_contr_run s id r : the_contr s id = r → find_contr id s = Done (r, s).
Proof. by intros <-. Qed.
Lemma the_contr_key s id u c : the_contr s id = Some (u, c) → u ∈ (rows (A := controller) s).*1.
Proof. intros [H _]%find_first_Some. apply list_elem_of_fmap. by exists (u, c). Qed.
Lemma the_contr_written s id u c f : the_contr s id = Some (u, c) →
  (∀ c, c_external_ids (f c) = c_external_ids c) → the_contr (written u f s) id = Some (u, f c).
Proof.
  intros Hc Hf. unfold the_contr. rewrite rows_written.
  rewrite (find_first_alter (has_contr_id id)) by (intros a; unfold has_contr_id; by rewrite Hf).
  fold (the_contr s id). rewrite Hc. cbn -[bool_decide]. by rewrite bool_decide_eq_true_2.
Qed.

(** The strings of a target: a protocol of three letters, an address without
    colon or bracket, a port that does not confuse the parser. *)
Record target_ok (proto ip : string) (port : option string) : Prop := {
  to_len : String.length proto = 3; to_proto : colon ∉ chars proto; to_pnul : nonul (chars proto);
  to_ip : plain ip; to_ipnul : nonul (chars ip);
  to_port : "["%char ∉ port_part port; to_portnul : nonul (port_part port) }.

Definition shown (proto : string) : string := if bool_decide (proto = "ssl") then "tls" else proto.

(** C34: Setting the port or the address of a controller hands OVSDB a target
    that get-config reads back with the new value and the other parts as they
    were.  This is for targets of a protocol of three letters, an address
    without colon and bracket, thus no IPv6 address, old and new, and a port
    without bracket. *)
Theorem contr_target_edits s id u c proto ip port :
  the_contr s id = Some (u, c) → c_target c = Some (make_target proto ip port) →
  target_ok proto ip port →
  (∀ v, target_ok proto ip (Some v) →
     ∃ s1 c1, txn_mod_contr_target (Some id) (Some "port") (Some v) s = Done (EXIT_SUCCESS, s1) ∧
     the_contr s1 id = Some (u, c1) ∧ c_target_set c1 = c_target c1 ∧
     parse_target_to_addr (c_target_set c1) = Some (Some (shown proto), Some ip, Some v)) ∧
  (∀ v, target_ok proto v port →
     ∃ s1 c1, txn_mod_contr_target (Some id) (Some "ip-address") (Some v) s = Done (EXIT_SUCCESS, s1) ∧
     the_contr s1 id = Some (u, c1) ∧ c_target_set c1 = c_target c1 ∧
     parse_target_to_addr (c_target_set c1) = Some (Some (shown proto), Some v, port)).
Proof.
  intros Hc Ht Hok. destruct Hok as [? ? ? Hip ? ? ?]. destruct Hip as [? ?].
  pose proof (the_contr_key _ _ _ _ Hc) as Hkey. unfold txn_mod_contr_target.
  split; intros v Hv; destruct Hv; (erewrite bind_run by by apply find_contr_run); cbv beta iota;
    rewrite Ht, bind_ret.
  - rewrite bool_decide_eq_true_2, mod_port_spec by done. cbn [fmap option_fmap option_map deref].
    rewrite bind_ret. erewrite bind_run by by apply row_write_live. cbv beta iota.
    eexists _, _. split.
    { erewrite bind_run; [done|]. apply row_write_live. by rewrite keys_written. }
    split; [apply the_contr_written; [by apply the_contr_written|done]|].
    split; [done|]. by apply parse_target_spec.
  - rewrite !(bool_decide_eq_false_2 (_ = _)), bool_decide_eq_true_2, mod_ip_spec by done.
    eexists _, _. split; [erewrite bind_run; [done|by apply row_write_live]|].
    split; [by apply the_contr_written|]. split; [done|]. by apply parse_target_spec.
Qed.

(** Setting the protocol of a controller, or deleting its port, changes only
    the string in the row structure: OVSDB is never handed the new target. *)
Theorem contr_edits_not_written s id u c proto ip port value :
  the_contr s id = Some (u, c) → c_target c = Some (make_target proto ip port) →
  target_ok proto ip port →
  (∃ s1 c1, txn_mod_contr_target (Some id) (Some "protocol") value s = Done (EXIT_SUCCESS, s1) ∧
     the_contr s1 id = Some (u, c1) ∧ c_target_set c1 = c_target_set c ∧
     c_target c1 = Some (make_target (if xmlStrEqual value (Some "tcp") then "tcp" else "ssl") ip port)) ∧
  (∃ s1 c1, txn_mod_contr_target (Some id) (Some "port") None s = Done (EXIT_SUCCESS, s1) ∧
     the_contr s1 id = Some (u, c1) ∧ c_target_set c1 = c_target_set c ∧
     c_target c1 = Some (make_target proto ip None)).
Proof.
  intros Hc Ht Hok. destruct Hok as [? ? ? Hip ? ? ?]. destruct Hip as [? ?]. pose proof (the_contr_key _ _ _ _ Hc) as Hkey.
  unfold txn_mod_contr_target. split; (erewrite bind_run by by apply find_contr_run); cbv beta iota;
    rewrite Ht, bind_ret.
  - rewrite (bool_decide_eq_false_2 (_ = _)), bool_decide_eq_true_2, poke_proto_spec by done.
    cbn [deref]. rewrite bind_ret.
    eexists _, _. split; [erewrite bind_run; [done|by apply row_write_live]|].
    split; [by apply the_contr_written|done].
  - rewrite bool_decide_eq_true_2, mod_port_spec by done. cbn [fmap option_fmap option_map deref].
    rewrite bind_ret. erewrite bind_run by by apply row_write_live. rewrite bind_ret.
    eexists _, _. split; [done|]. split; [by apply the_contr_written|done].
Qed.

(** Deleting a controller from a bridge that has exactly one controller, a
    different one, succeeds: the bridge loses that other controller, and the
    row of the named one, which the bridge never referred to, is deleted. *)
Theorem del_contr_other_bridge s id br cu c bu b other :
  the_contr s id = Some (cu, c) → the_bridge s br = Some (bu, b) →
  NoDup (rows (A := controller) s).*1 → br_controller b = [other] → other ≠ cu →
  ∃ s' b', txn_del_contr (Some id) (Some br) s = Done (EXIT_SUCCESS, s') ∧
    the_bridge s' br = Some (bu, b') ∧ br_controller b' = [] ∧
    cu ∉ (rows (A := controller) s').*1 ∧
    (other ∈ (rows (A := controller) s).*1 → other ∈ (rows (A := controller) s').*1).
Proof.
  intros Hc Hb Hn Hone Hne. unfold txn_del_contr.
  erewrite bind_run by by apply find_contr_run. cbv beta iota.
  erewrite bind_run by by apply find_bridge_run.
  cbv beta iota zeta. rewrite Hone. rewrite bind_ret. cbv beta iota.
  unfold filled. rewrite bool_decide_eq_true_2 by done. rewrite bind_ret.
  apply find_first_Some in Hc as [Hcu _].
  unfold set_controller. eexists _, _. split.
  { erewrite bind_run.
    2: { rewrite bind_gets. apply row_write_live. apply the_bridge_elem in Hb.
         apply list_elem_of_fmap. by exists (bu, b). }
    erewrite bind_run; [done|]. apply row_delete_live. by apply elem_assoc. }
  split; [by apply (the_bridge_written _ _ _ b)|]. split.
  { cbn. apply Permutation_nil. symmetry.
    apply (set_column_all [] s); [constructor|intros ? []%elem_of_nil]. }
  rewrite !rows_deleted. split.
  - intros ([u a] & E & [_ Hu]%elem_remove)%list_elem_of_fmap. cbn in E, Hu. congruence.
  - intros ([u a] & -> & Hu)%list_elem_of_fmap. apply list_elem_of_fmap. exists (u, a).
    split; [done|]. by apply elem_remove.
Qed.

End bridges.

Lemma bridge_port_roundtrip_witness : ∃ s1 s2 l1 l2,
    txn_add_bridge_port (Some "br0") (Some "eth1") sample_db = Done (EXIT_SUCCESS, s1) ∧
    txn_del_bridge_port (Some "br0") (Some "eth1") s1 = Done (EXIT_SUCCESS, s2) ∧
    ports_of s1 "br0" = Some l1 ∧ l1 ≡ₚ [5; 4]%positive ∧
    ports_of s2 "br0" = Some l2 ∧ l2 ≡ₚ [4]%positive.
Proof.
  eapply (bridge_port_roundtrip sample_db "br0" "eth1" 6%positive
            (Bridge (Some "br0") [4] [] [8] ∅ None None)%positive 5%positive (Port (Some "eth1") None [12%positive])).
  - by apply (bool_decide_unpack _).
  - reflexivity.
  - reflexivity.
  - split; [apply NoDup_singleton|]. intros p ->%list_elem_of_singleton.
    exists (Port (Some "eth0") (Some 3%positive) [11%positive]). by split; [left|].
  - cbn. by intros ?%list_elem_of_singleton.
Defined.

Lemma datapath_converted_witness :
  txn_mod_bridge_datapath (Some "br0") (Some "00:23:20:00:00:00:00:0a") sample_db =
  Done (EXIT_SUCCESS, written 6%positive (with_br_other <["datapath-id" := "002320000000000a"]>) sample_db).
Proof.
  refine (datapath_converted sample_db "br0" 6%positive
    (Bridge (Some "br0") [4] [] [8] ∅ None None)%positive "00:23:20:00:00:00:00:0a" _ _ _).
  - reflexivity.
  - reflexivity.
  - by apply (bool_decide_unpack _).
Defined.

Lemma sample_target_ok proto ip port :
  bool_decide (String.length proto = 3) && bool_decide (colon ∉ chars proto) &&
  bool_decide (Forall (λ c, c ≠ NUL) (chars proto)) && bool_decide (colon ∉ chars ip) &&
  bool_decide ("["%char ∉ chars ip) && bool_decide (Forall (λ c, c ≠ NUL) (chars ip)) &&
  bool_decide ("["%char ∉ port_part port) && bool_decide (Forall (λ c, c ≠ NUL) (port_part port))
  = true → target_ok proto ip port.
Proof.
  rewrite !andb_true_iff, !bool_decide_eq_true. intros [[[[[[[? ?] ?] ?] ?] ?] ?] ?]. by repeat split.
Qed.

Lemma contr_target_edits_witness :
  (∃ s1 c1, txn_mod_contr_target (Some "c0") (Some "port") (Some "6653") sample_db
       = Done (EXIT_SUCCESS, s1) ∧
     the_contr s1 "c0" = Some (8%positive, c1) ∧ c_target_set c1 = c_target c1 ∧
     parse_target_to_addr (c_target_set c1) = Some (Some "tcp", Some "10.0.0.1", Some "6653")) ∧
  (∃ s1 c1, txn_mod_contr_target (Some "c0") (Some "ip-address") (Some "10.0.0.9") sample_db
       = Done (EXIT_SUCCESS, s1) ∧
     the_contr s1 "c0" = Some (8%positive, c1) ∧ c_target_set c1 = c_target c1 ∧
     parse_target_to_addr (c_target_set c1) = Some (Some "tcp", Some "10.0.0.9", Some "6633")).
Proof.
  destruct (contr_target_edits sample_db "c0" 8%positive (c_row "c0" "tcp:10.0.0.1:6633")
    "tcp" "10.0.0.1" (Some "6633")) as [H1 H2]; try reflexivity;
    [apply sample_target_ok; reflexivity|].
  split; [apply (H1 "6653")|apply (H2 "10.0.0.9")]; apply sample_target_ok; reflexivity.
Defined.

Lemma contr_edits_not_written_witness :
  (∃ s1 c1, txn_mod_contr_target (Some "c1") (Some "protocol") (Some "tcp") sample_db
       = Done (EXIT_SUCCESS, s1) ∧
     the_contr s1 "c1" = Some (9%positive, c1) ∧ c_target_set c1 = None ∧
     c_target c1 = Some "tcp:10.0.0.2") ∧
  (∃ s1 c1, txn_mod_contr_target (Some "c1") (Some "port") None sample_db
       = Done (EXIT_SUCCESS, s1) ∧
     the_contr s1 "c1" = Some (9%positive, c1) ∧ c_target_set c1 = None ∧
     c_target c1 = Some "ssl:10.0.0.2").
Proof.
  apply (contr_edits_not_written sample_db "c1" 9%positive (c_row "c1" "ssl:10.0.0.2")
    "ssl" "10.0.0.2" None (Some "tcp")); try reflexivity; apply sample_target_ok; reflexivity.
Defined.

Lemma del_contr_other_bridge_witness : ∃ s' b',
    txn_del_contr (Some "c1") (Some "br0") sample_db = Done (EXIT_SUCCESS, s') ∧
    the_bridge s' "br0" = Some (6%positive, b') ∧ br_controller b' = [] ∧
    9%positive ∉ (rows (A := controller) s').*1 ∧
    (8%positive ∈ (rows (A := controller) sample_db).*1 → 8%positive ∈ (rows (A := controller) s').*1).
Proof.
  eapply (del_contr_other_bridge sample_db "c1" "br0" 9%positive (c_row "c1" "ssl:10.0.0.2")
    6%positive (Bridge (Some "br0") [4] [] [8] ∅ None None)%positive 8%positive); try reflexivity.
  - by apply (bool_decide_unpack _).
  - done.
Defined.

(** ** edit-config on the database *)

(** txn_del_all() is not used here. *)
Definition failing : M ovsdb Z := _ ← invalid_input; mret 1%Z.
Lemma failing_err s r s' : failing s = Done (r, s') → r ≠ 0%Z → is_Some (o_err s').
Proof. intros [= <- <-] _. by eexists. Qed.
#[export] Instance sample_backend : OvsBackend := ovsdb_backend failing failing_err.

(** An edit that creates a queue on the second port. *)
Definition queue_edit : xmlNode := doc [el 20 "capable-switch" [el 21 "resources" [
  el_op 22 "queue" "create" [lf 23 "resource-id" "q3"; lf 25 "id" "9"; lf 27 "port" "eth1";
    el 29 "properties" [lf 30 "min-rate" "100"]]]]].

Example queue_edit_runs :
  match edit_operations 50 NC_EDIT_DEFOP_NONE true
          (EState conf queue_edit 100 (sample_db : @be sample_backend) None) with
  | Done (r, s) =>
      r = EXIT_SUCCESS ∧
      find_queue_port "q3" (e_be s) = Done (Some 5%positive, e_be s) ∧
      (qos_queues ∘ snd <$> rows (A := qos) (e_be s)) = [[(7%Z, 1%positive)]; [(9%Z, 13%positive)]]
  | _ => False
  end.
Proof. vm_compute. auto. Qed.
