(* ===== verification/OvsTxn.v ===== *)
(** * Transactions and the connection to the database (ovs-data.c)

    ovsdb_handler: the local copy of the database, the transaction that is
    being prepared, and the view the row structures give, which is the copy
    with the transaction's changes.  txn_commit() and txn_abort() end the
    transaction, and the view is the copy again; what was changed beside the
    database stays.

    The server of the database is the class [OvsdbServer]; what arrives from it
    while the program waits is a list of events. *)

From S2P Require Import Prelude.
From S2P Require Import Xml.
From S2P Require Import EditTree.
From S2P Require Import EditChecks.
From S2P Require Import EditCompact.
From S2P Require Import EditOps.
From S2P Require Import Datastore.
From S2P Require Import OvsDevices.
From S2P Require Import Ovsdb.
From S2P Require Import OvsBridges.
From S2P Require Import OvsQueues.
From S2P Require Import OvsPorts.
From S2P Require Import OvsOpenFlow.
From S2P Require Import OvsCerts.
From S2P Require Import OvsConfig.
From S2P Require Import OvsLayer.

(** enum ovsdb_idl_txn_status *)
Inductive txn_status :=
  TXN_UNCOMMITTED | TXN_UNCHANGED | TXN_INCOMPLETE | TXN_ABORTED | TXN_SUCCESS
| TXN_TRY_AGAIN | TXN_NOT_LOCKED | TXN_ERROR.

#[global] Instance txn_status_eq_dec : EqDecision txn_status.
Proof. solve_decision. Defined.

(** One ovsdb_idl_run() that changes something: the new sequence number, whether
    the session is alive, the new content of the local copy. *)
Record idl_event := IdlEvent { ev_seqno : Z; ev_alive : bool; ev_content : option ovsdb }.

(** ovsdb_idl_txn_commit_block(): the status, ovsdb_idl_txn_get_error() and the
    local copy afterwards, given the copy and the view to commit. *)
Class OvsdbServer := {
  commit_block : ovsdb → ovsdb → txn_status * string * ovsdb
}.

(** ovsdb_t with its idl. *)
Record handler := Handler {
  h_view : ovsdb;                 (* what the row structures show *)
  h_copy : ovsdb;                 (* the local copy of the database *)
  h_txn : bool;                   (* txn != NULL *)
  h_seqno : Z;                    (* seqno *)
  h_idl_seqno : Z;                (* ovsdb_idl_get_seqno(idl) *)
  h_alive : bool;                 (* ovsdb_idl_is_alive(idl) *)
  h_events : list idl_event }.    (* what arrives *)

(** The static variables: ovsdb_handler, or NULL, and ioctlfd. *)
Record globals := Globals { g_handler : option handler; g_ioctlfd : Z }.

(** The rows of one state with what lies beside the database of another. *)
Definition content_of (db s : ovsdb) : ovsdb :=
  Ovsdb (t_queue db) (t_qos db) (t_port db) (t_interface db) (t_flow_table db)
    (t_bridge db) (t_controller db) (t_open_vswitch db) (t_ssl db) (t_sample_set db) (o_used db)
    (o_err s) (o_out s).

Definition set_view (v : ovsdb) (h : handler) : handler :=
  Handler v (h_copy h) (h_txn h) (h_seqno h) (h_idl_seqno h) (h_alive h) (h_events h).
Definition set_txn (v : bool) (h : handler) : handler :=
  Handler (h_view h) (h_copy h) v (h_seqno h) (h_idl_seqno h) (h_alive h) (h_events h).
Definition set_copy (v : ovsdb) (h : handler) : handler :=
  Handler (h_view h) v (h_txn h) (h_seqno h) (h_idl_seqno h) (h_alive h) (h_events h).
(** The row structures show the local copy again. *)
Definition revert_view (h : handler) : handler := set_view (content_of (h_copy h) (h_view h)) h.

Section txn.
Context {LX : LibXml} {OI : OvsIdl} {KE : Kernel} {VC : Vconn} {FS : Files} {XP : PortXpath}
  {SV : OvsdbServer}.

(** ** Rows through the handler *)
Definition on_view {A} (m : M ovsdb A) : M handler A := λ h,
  match m (h_view h) with
  | Done (a, v) => Done (a, set_view v h)
  | Crash f => Crash f
  | NoFuel => NoFuel
  end.

(** ** The connection *)

(** ovsdb_idl_run() *)
Definition run_event (e : idl_event) (h : handler) : handler :=
  let h' := Handler (h_view h) (default (h_copy h) (ev_content e)) (h_txn h) (h_seqno h)
              (ev_seqno e) (ev_alive e) (tail (h_events h)) in
  if h_txn h then h' else revert_view h'.
Definition ovsdb_idl_run (h : handler) : handler :=
  match h_events h with [] => h | e :: _ => run_event e h end.

Definition take_seqno (h : handler) : handler :=
  Handler (h_view h) (h_copy h) (h_txn h) (h_idl_seqno h) (h_idl_seqno h) (h_alive h) (h_events h).

(** The loop; a pass without an event waits at most 100 ms, and changes nothing
    any more once the sequence number has been taken. *)
Fixpoint update_loop (events : list idl_event) (h : handler) : outcome (exit * handler) :=
  if negb (h_seqno h =? 0)%Z && (h_seqno h =? h_idl_seqno h)%Z then Done (EXIT_SUCCESS, h)
  else if negb (h_alive h) then Done (EXIT_FAILURE, h)
  else
    let h' := take_seqno h in
    match events with
    | e :: events' => update_loop events' (run_event e h')
    | [] => if negb (h_idl_seqno h =? 0)%Z then Done (EXIT_SUCCESS, h') else Crash Blocked
    end.

Definition ofc_update : M handler exit := λ h,
  let h' := ovsdb_idl_run h in update_loop (h_events h') h'.

(** ** Transactions *)
Definition txn_init : M handler unit :=
  modify (λ h, set_view (with_out (with_added false) (h_view h)) (set_txn true h)).

Definition txn_abort : M handler unit :=
  modify (λ h, if h_txn h then revert_view (set_txn false h) else h).

(** The message of a status that is not a success. *)
Definition status_msg (st : txn_status) (errmsg : string) : string :=
  match st with
  | TXN_UNCOMMITTED | TXN_INCOMPLETE => "Invalid OVSDB transaction"
  | TXN_ABORTED => "OVSDB transaction aborted"
  | TXN_TRY_AGAIN | TXN_ERROR => errmsg
  | TXN_NOT_LOCKED => "OVSDB not locked"
  | TXN_SUCCESS | TXN_UNCHANGED => "Unknown OVSDB result"
  end.

(** [e_given]: whether the argument e is not NULL. *)
Definition txn_commit (e_given : bool) : M handler exit :=
  open ← gets h_txn;
  if negb open then crash NullDeref        (* ovsdb_idl_txn_commit_block(NULL) *)
  else
    '(status, errmsg, copy) ← gets (λ h, commit_block (h_copy h) (h_view h));
    _ ← modify (set_copy copy);
    ret ← match status with
          | TXN_SUCCESS | TXN_UNCHANGED => mret EXIT_SUCCESS
          | _ => if e_given : bool then on_view (reject (op_failed (status_msg status errmsg)))
                 else crash NullDeref      (* *e = ... *)
          end;
    _ ← txn_abort;
    mret ret.

(** ** Deleting everything *)

(** OVSREC_x_FOR_EACH(row): the body, then ovsrec_x_delete; the next row is
    found through the deleted one. *)
Fixpoint delete_each {A} `{Row A} (body : uuid → M ovsdb unit) (l : list uuid) : M ovsdb unit :=
  match l with
  | [] => mret tt
  | u :: l' =>
      _ ← body u;
      _ ← row_delete (A := A) u;
      if idl_keeps u then delete_each body l' else crash UseAfterFree
  end.
Definition delete_rows {A} `{Row A} (body : uuid → M ovsdb unit) : M ovsdb unit :=
  l ← gets rows; delete_each (A := A) body (fst <$> (l : list (uuid * A))).

Definition empty_open_vswitch (u : uuid) : M ovsdb unit :=
  _ ← set_bridges u []; row_write u (set_ovs_ssl None).

Definition txn_del_all : M handler exit :=
  _ ← on_view (delete_rows (A := open_vswitch) empty_open_vswitch);
  _ ← on_view (delete_rows (A := sample_set) (λ _, mret tt));
  _ ← txn_commit false;
  _ ← txn_init;
  _ ← on_view (delete_rows (A := qos) (λ u, set_queues u []));
  _ ← on_view (delete_rows (A := queue) (λ _, mret tt));
  _ ← on_view (delete_rows (A := port) (λ u, row_write u (with_port_qos None)));
  _ ← on_view (delete_rows (A := ssl) (λ _, mret tt));
  _ ← on_view (ofc_set_switchid None);
  mret EXIT_SUCCESS.

(** ** Start and end *)

(** The descriptor is closed unless it is -1 already. *)
Definition ofc_destroy : M globals unit := modify (λ _, Globals None (-1)).

(** ovsdb_idl_create() gives an empty copy with its sequence number; [events]
    is what arrives, [fd] what socket() returns. *)
Definition ofc_init (seqno : Z) (alive : bool) (empty : ovsdb) (events : list idl_event) (fd : Z)
  : M globals bool := λ g,
  let h := Handler empty empty false seqno seqno alive events in
  match ofc_update h with
  | Done (EXIT_FAILURE, h') =>
      match ofc_destroy (Globals (Some h') (g_ioctlfd g)) with
      | Done (_, g') => Done (false, g')
      | Crash f => Crash f
      | NoFuel => NoFuel
      end
  | Done (EXIT_SUCCESS, h') => Done (true, Globals (Some h') fd)
  | Crash f => Crash f
  | NoFuel => NoFuel
  end.

(** ofc_get_config_data() and ofc_get_state_data(); the result of ofc_update()
    is not looked at. *)
Definition ofc_get_data (f : M ovsdb string) : M globals (option string) := λ g,
  match g_handler g with
  | None => Done (None, g)
  | Some h =>
      match (_ ← ofc_update; on_view f) h with
      | Done (s, h') => Done (Some s, Globals (Some h') (g_ioctlfd g))
      | Crash e => Crash e
      | NoFuel => NoFuel
      end
  end.

(** ** The interfaces of the layer *)
Definition on_handler {A} (m : M handler A) : M globals A := λ g,
  match g_handler g with
  | None => Crash NullDeref
  | Some h =>
      match m h with
      | Done (a, h') => Done (a, Globals (Some h') (g_ioctlfd g))
      | Crash f => Crash f
      | NoFuel => NoFuel
      end
  end.

(** The calls of edit-config. *)
Definition layer_exec (op : txn_op) : M handler Z :=
  match op with
  | TxnDelAll => r ← txn_del_all; mret (match r with EXIT_SUCCESS => 0 | EXIT_FAILURE => 1 end)%Z
  | _ => on_view (ovs_exec (crash NullDeref) op)
  end.

(** A call with a place for the error. *)
Definition with_err {A} (m : M handler A) : M (globals * option nc_err) A := λ st,
  match on_handler (_ ← on_view (modify (set_oerr st.2));
                    r ← m; e ← on_view (gets o_err); mret (r, e)) st.1 with
  | Done ((r, e), g) => Done (r, (g, e))
  | Crash f => Crash f
  | NoFuel => NoFuel
  end.

End txn.
