(* ===== verification/OvsTxnFacts.v ===== *)
(** * The layer implements the interfaces of edit-config and the datastores

    The transactions, and the instances of [OvsBackend] and [OvsStore] that
    the rows of the database, the services beside it and the connection make
    up: what edit-config.c and ofconfig-datastore.c assume of ovs-data.c holds
    of the definitions translated from it. *)

From S2P Require Import Prelude.
From S2P Require Import Xml.
From S2P Require Import EditTree.
From S2P Require Import EditChecks.
From S2P Require Import EditCompact.
From S2P Require Import EditOps.
From S2P Require Import Datastore.
From S2P Require Import OvsDevices.
From S2P Require Import Ovsdb.
From S2P Require Import OvsFacts.
From S2P Require Import OvsQueues.
From S2P Require Import OvsBridges.
From S2P Require Import OvsPorts.
From S2P Require Import OvsOpenFlow.
From S2P Require Import OvsCerts.
From S2P Require Import OvsConfig.
From S2P Require Import OvsLayer.
From S2P Require Import OvsTxn.

Section txn_facts.
Context {LX : LibXml} {OI : OvsIdl} {KE : Kernel} {VC : Vconn} {FS : Files} {XP : PortXpath}
  {SV : OvsdbServer}.

(** ** Runs *)
Lemma on_view_Done {A} (m : M ovsdb A) h a h' :
  on_view m h = Done (a, h') ↔ ∃ v, m (h_view h) = Done (a, v) ∧ h' = set_view v h.
Proof.
  unfold on_view. destruct (m (h_view h)) as [[a' v]| |]; (split; [|by intros (w & [= <- <-] & ->)]);
    [|done|done]. intros [= <- <-]. by exists v.
Qed.

Lemma on_handler_Done {A} (m : M handler A) g a g' :
  on_handler m g = Done (a, g') ↔
  ∃ h h', g_handler g = Some h ∧ m h = Done (a, h') ∧ g' = Globals (Some h') (g_ioctlfd g).
Proof.
  unfold on_handler. destruct (g_handler g) as [h|]; [|split; [done|by intros (? & ? & ? & _)]].
  destruct (m h) as [[a' h']| |] eqn:E.
  - split; [intros [= <- <-]; by exists h, h'|]. intros (h1 & h2 & [= <-] & H & ->). congruence.
  - split; [done|]. intros (h1 & h2 & [= <-] & H & ->). congruence.
  - split; [done|]. intros (h1 & h2 & [= <-] & H & ->). congruence.
Qed.

(** ** The transaction stays as it is *)
Lemma keeps_on_view {A} (m : M ovsdb A) : keeps h_txn (on_view m).
Proof. intros h a h' (v & _ & ->)%on_view_Done. done. Qed.

Lemma update_loop_txn events h r h' : update_loop events h = Done (r, h') → h_txn h' = h_txn h.
Proof.
  revert h. induction events as [|e events IH]; intros h; cbn [update_loop].
  - case_match; [by intros [= <- <-]|]. case_match; [by intros [= <- <-]|].
    case_match; [by intros [= <- <-]|done].
  - case_match; [by intros [= <- <-]|]. case_match; [by intros [= <- <-]|].
    intros Hrun%IH. rewrite Hrun. unfold run_event. by destruct (h_txn (take_seqno h)) eqn:E.
Qed.
Lemma keeps_update : keeps h_txn ofc_update.
Proof.
  intros h r h' H. apply update_loop_txn in H. rewrite H. unfold ovsdb_idl_run, run_event.
  destruct (h_events h); [done|]. by destruct (h_txn h) eqn:E.
Qed.

Lemma commit_closes b h r h' : txn_commit b h = Done (r, h') → h_txn h' = false.
Proof.
  unfold txn_commit. rewrite bind_gets. destruct (h_txn h); [|done]. simpl.
  rewrite bind_gets. destruct (commit_block _ _) as [[status msg] copy]. rewrite bind_modify.
  intros (ret & h1 & _ & H)%bind_Done. unfold txn_abort in H. rewrite bind_modify in H.
  injection H as <- <-. by destruct (h_txn h1) eqn:E.
Qed.

Lemma commit_reports h r h' : txn_commit true h = Done (r, h') → r = EXIT_FAILURE →
  is_Some (o_err (h_view h')).
Proof.
  unfold txn_commit. rewrite bind_gets. destruct (h_txn h); [|done]. simpl.
  rewrite bind_gets. destruct (commit_block _ _) as [[status msg] copy]. rewrite bind_modify.
  intros (ret & h1 & H1 & H)%bind_Done. unfold txn_abort in H. rewrite bind_modify in H.
  injection H as <- <-. intros ->.
  assert (is_Some (o_err (h_view h1))) as He.
  { destruct status; try done; apply on_view_Done in H1 as (v & [= <-] & ->); by eexists. }
  by destruct (h_txn h1).
Qed.

(** ** Errors *)
Lemma exec_err h op r h' : layer_exec op h = Done (r, h') → r ≠ 0%Z → reports_error op = true →
  is_Some (o_err (h_view h')).
Proof.
  intros H Hr Hop. destruct op; cbn [layer_exec] in H;
    try (apply on_view_Done in H as (v & H & ->); eapply ovs_exec_err; [|exact H|done|done]; done).
  apply bind_Done in H as (r1 & h1 & H1 & H2). injection H2 as <- <-.
  unfold txn_del_all in H1.
  repeat (apply bind_Done in H1 as (? & ? & _ & H1)). by injection H1 as <- <-.
Qed.

Lemma with_err_Done {A} (m : M handler A) g e a g' e' :
  with_err m (g, e) = Done (a, (g', e')) →
  ∃ h h', g_handler g = Some h ∧ m (set_view (set_oerr e (h_view h)) h) = Done (a, h') ∧
    g' = Globals (Some h') (g_ioctlfd g) ∧ e' = o_err (h_view h').
Proof.
  unfold with_err. cbn [fst snd].
  destruct (on_handler _ g) as [[[a1 e1] g1]| |] eqn:E; [|done|done].
  intros [= -> -> ->]. apply on_handler_Done in E as (h & h1 & Hh & H & ->).
  apply bind_Done in H as ([] & h2 & (v & [= <-] & ->)%on_view_Done & H).
  apply bind_Done in H as (a2 & h3 & H3 & H).
  apply bind_Done in H as (e2 & h4 & (v & [= <- <-] & ->)%on_view_Done & [= <- <- <-]).
  exists h, h3. split; [done|]. split; [done|]. by destruct h3.
Qed.

(** of_post_ports() fails without an error when the ports cannot be searched. *)
Lemma post_settings_err p l : sets_err (post_settings p l).
Proof.
  induction l as [|aux l IH]; [done|]. cbn [post_settings].
  intros s s' (r & s1 & H1 & H)%bind_Done. destruct r; [by apply (IH s1)|].
  injection H as <-. by eapply err_mod_port_cfg.
Qed.
Lemma post_ports_err l : sets_err (post_ports l).
Proof.
  induction l as [|p l IH]; [done|]. cbn [post_ports]. destruct (go2node p _); [|done].
  intros s s' (r & s1 & H1 & H)%bind_Done. destruct r; [by apply (IH s1)|].
  injection H as <-. by eapply post_settings_err.
Qed.
Lemma of_post_ports_err cfg s s' : of_post_ports cfg s = Done (EXIT_FAILURE, s') →
  is_Some (o_err s') ∨ ∃ root, cfg = Some root ∧ xpath_ports root = None ∧ s' = s.
Proof.
  unfold of_post_ports, gets_out. rewrite bind_gets. destruct cfg as [root|]; [|done].
  destruct (negb _); [done|]. destruct (xpath_ports root) eqn:E.
  - intros Hrun. left. by eapply post_ports_err.
  - intros [= <-]. right. by exists root.
Qed.

(** ** The instances *)
Definition layer_call (op : txn_op) : M (globals * option nc_err) Z := with_err (layer_exec op).

#[export] Program Instance ovs_backend : OvsBackend := {| be := globals; be_exec := layer_call |}.
Next Obligation.
  intros op g e r g' e' H Hr Hop. apply with_err_Done in H as (h & h' & _ & H & _ & ->).
  by eapply exec_err.
Qed.

(** txn_abort() looks whether there is a handler. *)
Definition abort_any : M globals unit := λ g,
  match g_handler g with None => Done (tt, g) | Some _ => on_handler txn_abort g end.

Definition handler_open (g : globals) : bool :=
  match g_handler g with Some h => h_txn h | None => false end.

#[export] Program Instance ovs_store : OvsStore := {|
  Datastore.ofc_get_config_data := ofc_get_data ofc_get_config_data;
  Datastore.txn_init := on_handler txn_init;
  Datastore.txn_abort := abort_any;
  Datastore.txn_commit := with_err (txn_commit true);
  Datastore.of_post_ports root := with_err (on_view (of_post_ports root));
  txn_open := handler_open |}.
Next Obligation.
  intros g v g' H. unfold ofc_get_data in H. unfold handler_open.
  destruct (g_handler g) as [h|] eqn:Hg; [|injection H as <- <-; by rewrite Hg].
  destruct ((_ ← ofc_update; on_view _) h) as [[s h']| |] eqn:E; [|done|done].
  injection H as <- <-. simpl. apply bind_Done in E as (r & h1 & H1 & H2).
  by rewrite (keeps_on_view _ _ _ _ H2), (keeps_update _ _ _ H1).
Qed.
Next Obligation. intros g g' (h & h' & _ & [= <-] & ->)%on_handler_Done. done. Qed.
Next Obligation.
  intros g g' H. unfold handler_open, abort_any in *. destruct (g_handler g) as [h|] eqn:Hg.
  - apply on_handler_Done in H as (h1 & h' & _ & [= <-] & ->). simpl. by destruct (h_txn h1) eqn:E.
  - injection H as <-. by rewrite Hg.
Qed.
Next Obligation.
  intros g e r g' e' (h & h' & _ & H & -> & _)%with_err_Done. by eapply commit_closes.
Qed.
Next Obligation.
  intros g e r g' e' (h & h' & _ & H & _ & ->)%with_err_Done Hr. by eapply commit_reports.
Qed.
Next Obligation.
  intros root g e r g' e' (h & h' & Hg & H & -> & _)%with_err_Done.
  unfold handler_open. rewrite Hg. simpl. by rewrite (keeps_on_view _ _ _ _ H).
Qed.

(** ** Deleting everything *)
Lemma assoc_remove_hd {A} u (a : A) l : NoDup ((u, a) :: l).*1 → assoc_remove u ((u, a) :: l) = l.
Proof.
  intros [Hu _]%NoDup_cons. unfold assoc_remove. rewrite filter_cons, decide_False by (simpl; tauto).
  apply filter_keeps_all. intros [v b] Hv Hvu. simpl in Hvu. subst. apply Hu.
  apply list_elem_of_fmap. by exists (u, b).
Qed.

(** The body of a loop writes to the table of its rows only. *)
Definition local_body {A} `{Row A} (body : uuid → M ovsdb unit) : Prop :=
  ∀ u s, u ∈ (rows (A := A) s).*1 →
    ∃ t, body u s = Done (tt, put_tab (A := A) t s) ∧ (live t).*1 = (rows s).*1.

Lemma local_none {A} `{Row A} : (∀ s : ovsdb, put_tab (tab (A := A) s) s = s) →
  local_body (A := A) (λ _, mret tt).
Proof. intros Hs u s _. exists (tab s). by rewrite Hs. Qed.
Lemma local_write {A} `{Row A} (f : ovsdb → A → A) :
  local_body (A := A) (λ u, x ← gets f; row_write u x).
Proof.
  intros u s Hu. rewrite bind_gets. rewrite row_write_live by done. eexists. split; [reflexivity|].
  cbn. apply assoc_alter_keys.
Qed.
Lemma local_ext {A} `{Row A} b1 b2 : (∀ u s, b1 u s = b2 u s) → local_body (A := A) b1 → local_body (A := A) b2.
Proof. intros E Hb u s Hu. destruct (Hb u s Hu) as (t & H1 & H2). exists t. by rewrite <-E. Qed.
Lemma local_seq {A} `{Row A} b1 b2 : local_body (A := A) b1 → local_body (A := A) b2 →
  local_body (A := A) (λ u, _ ← b1 u; b2 u).
Proof.
  intros H1 H2 u s Hu. destruct (H1 u s Hu) as (t1 & E1 & K1). rewrite (bind_run _ _ _ _ _ E1).
  destruct (H2 u (put_tab t1 s)) as (t2 & E2 & K2).
  { unfold rows. by rewrite tab_put, K1. }
  exists t2. rewrite E2, put_put. split; [done|]. rewrite K2. unfold rows. by rewrite tab_put.
Qed.

Lemma delete_each_run {A} `{Row A} body l s : (∀ u, idl_keeps u = true) → local_body (A := A) body →
  NoDup (rows (A := A) s).*1 → l = (rows (A := A) s).*1 →
  ∃ t, delete_each (A := A) body l s = Done (tt, put_tab t s) ∧ live t = [] ∨
       l = [] ∧ delete_each (A := A) body l s = Done (tt, s).
Proof.
  intros Hk Hb. revert s. induction l as [|u l IH]; intros s Hn Hl.
  { exists (tab s). by right. }
  cbn [delete_each]. destruct (Hb u s) as (t1 & E1 & K1); [rewrite <-Hl; by left|].
  rewrite (bind_run _ _ _ _ _ E1).
  destruct (live t1) as [|[u' a] r] eqn:Et; cbn in K1; [by rewrite <-Hl in K1|].
  rewrite <-Hl in K1. injection K1 as -> Kl.
  assert (rows (put_tab t1 s) = (u, a) :: r) as Hrows by (unfold rows; by rewrite tab_put).
  assert (NoDup ((u, a) :: r).*1) as Hn1 by (cbn; rewrite Kl, Hl; done).
  assert (assoc u (rows (put_tab t1 s)) = Some a) as Ha
    by (apply elem_assoc; rewrite Hrows; [done|by left]).
  rewrite (bind_run _ _ _ _ _ (row_delete_live u a _ Ha)).
  rewrite Hk. cbv iota. unfold deleted. rewrite Hrows, put_put, assoc_remove_hd by done.
  set (s2 := put_tab (Table r ((u, a) :: dead (tab (put_tab t1 s)))) s).
  assert (rows s2 = r) as Hr2 by (unfold rows, s2; by rewrite tab_put).
  destruct (IH s2) as (t & [[E Et'] | [-> E]]).
  - rewrite Hr2. by apply NoDup_cons in Hn1 as [_ ?].
  - by rewrite Hr2, Kl.
  - exists t. left. rewrite E. unfold s2. by rewrite put_put.
  - eexists. left. rewrite E. split; [reflexivity|]. by destruct r.
Qed.

(** A loop empties its table and leaves the others. *)
Lemma delete_rows_run {A} `{Row A} body s : (∀ u, idl_keeps u = true) → local_body (A := A) body →
  (∀ s : ovsdb, put_tab (tab (A := A) s) s = s) → NoDup (rows (A := A) s).*1 →
  ∃ t, delete_rows (A := A) body s = Done (tt, put_tab (A := A) t s) ∧ live t = [].
Proof.
  intros Hk Hb Hs Hn. unfold delete_rows. rewrite bind_gets.
  destruct (delete_each_run body _ s Hk Hb Hn eq_refl) as (t & [[E Et] | [El E]]); [by exists t|].
  exists (tab s). rewrite E, Hs. split; [done|]. by apply fmap_nil_inv in El.
Qed.

Lemma on_view_run {A} (m : M ovsdb A) h a v : m (h_view h) = Done (a, v) → on_view m h = Done (a, set_view v h).
Proof. unfold on_view. by intros ->. Qed.

Lemma empty_open_vswitch_local : local_body (A := open_vswitch) empty_open_vswitch.
Proof.
  unfold empty_open_vswitch. apply local_seq.
  - eapply local_ext; [|apply (local_write (λ s ov,
      OpenVswitch (set_column (A := bridge) [] s) (ovs_ssl ov)))]. done.
  - eapply local_ext; [|apply (local_write (λ _, set_ovs_ssl None))]. done.
Qed.

(** The four tables the second half empties. *)
Definition cleared (s : ovsdb) : Prop :=
  rows (A := qos) s = [] ∧ rows (A := queue) s = [] ∧ rows (A := port) s = [] ∧ rows (A := ssl) s = [].
Definition distinct_rows (s : ovsdb) : Prop :=
  NoDup (rows (A := qos) s).*1 ∧ NoDup (rows (A := queue) s).*1 ∧
  NoDup (rows (A := port) s).*1 ∧ NoDup (rows (A := ssl) s).*1.

Lemma second_half v : (∀ u, idl_keeps u = true) → distinct_rows v →
  ∃ v', (_ ← delete_rows (A := qos) (λ u, set_queues u []);
         _ ← delete_rows (A := queue) (λ _, mret tt);
         _ ← delete_rows (A := port) (λ u, row_write u (with_port_qos None));
         _ ← delete_rows (A := ssl) (λ _, mret tt);
         ofc_set_switchid None) v = Done (EXIT_SUCCESS, v') ∧
    cleared v' ∧ x_cs_id (o_out v') = None.
Proof.
  intros Hk (H1 & H2 & H3 & H4).
  destruct (delete_rows_run (A := qos) (λ u, set_queues u []) v) as (t1 & E1 & L1); try done.
  { apply (local_write (λ s, with_qos_queues (map_column (A := queue) [] s))). }
  { by intros []. }
  rewrite (bind_run _ _ _ _ _ E1).
  destruct (delete_rows_run (A := queue) (λ _, mret tt) (put_tab t1 v)) as (t2 & E2 & L2); try done.
  { by apply local_none; intros []. }
  { by intros []. }
  rewrite (bind_run _ _ _ _ _ E2).
  destruct (delete_rows_run (A := port) (λ u, row_write u (with_port_qos None))
    (put_tab t2 (put_tab t1 v))) as (t3 & E3 & L3); try done.
  { apply (local_write (λ _, with_port_qos None)). }
  { by intros []. }
  rewrite (bind_run _ _ _ _ _ E3).
  destruct (delete_rows_run (A := ssl) (λ _, mret tt) (put_tab t3 (put_tab t2 (put_tab t1 v))))
    as (t4 & E4 & L4); try done.
  { by apply local_none; intros []. }
  { by intros []. }
  rewrite (bind_run _ _ _ _ _ E4). unfold ofc_set_switchid. rewrite bind_modify.
  eexists. split; [reflexivity|]. by split_and!.
Qed.

End txn_facts.
