(* ===== verification/StateClaims.v ===== *)
(** * Properties of transactions and of the data sent to clients

    How failures are reported, txn_del_all(), connections to switches, and the
    well-formedness of configuration and state data. *)

From S2P Require Import Prelude.
From S2P Require Import Xml.
From S2P Require Import EditTree.
From S2P Require Import EditChecks.
From S2P Require Import EditCompact.
From S2P Require Import EditOps.
From S2P Require Import Datastore.
From S2P Require Import DatastoreFacts.
From S2P Require Import OvsDevices.
From S2P Require Import Ovsdb.
From S2P Require Import OvsFacts.
From S2P Require Import OvsQueues.
From S2P Require Import OvsBridges.
From S2P Require Import OvsPorts.
From S2P Require Import OvsOpenFlow.
From S2P Require Import OvsCerts.
From S2P Require Import OvsConfig.
From S2P Require Import OvsLayer.
From S2P Require Import OvsTxn.
From S2P Require Import OvsTxnFacts.
From S2P Require Import XmlText.
From S2P Require Import ConfigFacts.
From S2P Require Import OvsSamples.

Section state.
Context {LX : LibXml} {OI : OvsIdl} {KE : Kernel} {VC : Vconn} {FS : Files} {XP : PortXpath}
  {SV : OvsdbServer}.

(** C6: failures of ovs-data.c during an edit are reported: a call of edit-config
    with an error parameter that fails, on any of its branches, leaves an error
    there; txn_commit() that fails leaves an error and has ended the transaction
    all the same; of_post_ports() that fails leaves an error, unless its search
    for the new ports failed, which changes nothing and is not reported. *)
Theorem failures_reported :
  (∀ op g e r g' e', layer_call op (g, e) = Done (r, (g', e')) → r ≠ 0%Z →
     reports_error op = true → is_Some e') ∧
  (∀ g e g' e', with_err (txn_commit true) (g, e) = Done (EXIT_FAILURE, (g', e')) →
     is_Some e' ∧ handler_open g' = false) ∧
  (∀ cfg g e g' e', with_err (on_view (of_post_ports cfg)) (g, e) = Done (EXIT_FAILURE, (g', e')) →
     is_Some e' ∨ ∃ root, cfg = Some root ∧ xpath_ports root = None ∧ e' = e).
Proof.
  split_and!.
  - exact (be_fail_err (OvsBackend := ovs_backend)).
  - intros g e g' e' H. split; [by eapply (commit_err (OvsStore := ovs_store))|].
    by eapply (commit_open (OvsStore := ovs_store)).
  - intros cfg g e g' e' (h & h' & _ & H & _ & ->)%with_err_Done.
    apply on_view_Done in H as (v & H & ->).
    apply of_post_ports_err in H as [H | (root & -> & Hx & ->)]; [by left|]. right. by exists root.
Qed.

(** C38: txn_del_all() commits in the middle.  In a transaction on a database whose rows
    have distinct ids, when the row structures stay readable while their tables
    are emptied, it asks the server to commit the view with all rows of
    Open_vSwitch and Flow_Sample_Collector_Set deleted, without a place for an
    error.  When that succeeds, with distinct ids in the database it leaves, the
    rows of QoS, Queue, Port and SSL and the switch's id are removed in a second
    transaction, and txn_abort() then goes back to the database as it is after
    the first commit, not to the one before; when it fails, the server crashes. *)
Theorem del_all_commits h :
  (∀ u, idl_keeps u = true) → h_txn h = true →
  NoDup (rows (A := open_vswitch) (h_view h)).*1 → NoDup (rows (A := sample_set) (h_view h)).*1 →
  ∃ t1 t2, live t1 = [] ∧ live t2 = [] ∧
    let v1 := put_tab (A := sample_set) t2 (put_tab (A := open_vswitch) t1 (h_view h)) in
    let '(status, _, copy) := commit_block (h_copy h) v1 in
    if bool_decide (status = TXN_SUCCESS ∨ status = TXN_UNCHANGED) then
      distinct_rows copy →
      ∃ h', txn_del_all h = Done (EXIT_SUCCESS, h') ∧ h_txn h' = true ∧
        cleared (h_view h') ∧ x_cs_id (o_out (h_view h')) = None ∧
        ∃ h3, txn_abort h' = Done (tt, h3) ∧ h_txn h3 = false ∧ h_copy h3 = copy ∧
          h_view h3 = content_of copy (h_view h')
    else txn_del_all h = Crash NullDeref.
Proof.
  intros Hk Hopen H1 H2.
  destruct (delete_rows_run (A := open_vswitch) empty_open_vswitch (h_view h)) as (t1 & E1 & L1); try done.
  { apply empty_open_vswitch_local. }
  { by intros []. }
  destruct (delete_rows_run (A := sample_set) (λ _, mret tt) (put_tab t1 (h_view h))) as (t2 & E2 & L2);
    try done.
  { by apply local_none; intros []. }
  { by intros []. }
  exists t1, t2. split; [done|]. split; [done|]. cbv zeta.
  unfold txn_del_all. rewrite (bind_run _ _ _ _ _ (on_view_run _ h _ _ E1)).
  rewrite (bind_run _ _ _ _ _ (on_view_run _ (set_view (put_tab t1 (h_view h)) h) _ _ E2)).
  set (v1 := put_tab t2 (put_tab t1 (h_view h))).
  set (h1 := set_view v1 (set_view (put_tab t1 (h_view h)) h)).
  destruct (commit_block (h_copy h) v1) as [[status msg] copy] eqn:Ec.
  case_bool_decide as Hst.
  - intros Hd.
    assert (txn_commit false h1 = Done (EXIT_SUCCESS,
      revert_view (set_txn false (set_copy copy h1)))) as Hcommit.
    { unfold txn_commit. rewrite bind_gets. cbn [h_txn h1 set_view]. rewrite Hopen. cbn [negb].
      rewrite bind_gets. cbn [h_copy h_view h1 set_view]. rewrite Ec, bind_modify.
      destruct Hst as [-> | ->]; rewrite bind_ret; unfold txn_abort; rewrite bind_modify;
        cbn [h_txn set_copy h1 set_view]; by rewrite Hopen. }
    rewrite (bind_run _ _ _ _ _ Hcommit). unfold txn_init. rewrite bind_modify.
    set (h2 := set_view _ _).
    destruct (second_half (h_view h2)) as (v' & E & Hc & Hid); [done|exact Hd|].
    apply bind_Done in E as ([] & a1 & A1 & E). apply bind_Done in E as ([] & a2 & A2 & E).
    apply bind_Done in E as ([] & a3 & A3 & E). apply bind_Done in E as ([] & a4 & A4 & E).
    rewrite (bind_run _ _ _ _ _ (on_view_run _ _ _ _ A1)).
    rewrite (bind_run _ _ _ _ _ (on_view_run _ (set_view a1 h2) _ _ A2)).
    rewrite (bind_run _ _ _ _ _ (on_view_run _ (set_view a2 (set_view a1 h2)) _ _ A3)).
    rewrite (bind_run _ _ _ _ _ (on_view_run _ (set_view a3 (set_view a2 (set_view a1 h2))) _ _ A4)).
    rewrite (bind_run _ _ _ _ _ (on_view_run _
      (set_view a4 (set_view a3 (set_view a2 (set_view a1 h2)))) _ _ E)).
    eexists. split; [reflexivity|]. split; [done|]. split; [done|]. split; [done|].
    eexists. split; [reflexivity|]. done.
  - unfold txn_commit. apply (f_equal (λ f, f)). unfold mbind at 1, M_bind at 1.
    rewrite bind_gets. cbn [h_txn h1 set_view]. rewrite Hopen. cbn [negb].
    rewrite bind_gets. cbn [h_copy h_view h1 set_view]. rewrite Ec, bind_modify.
    destruct status; try done; tauto.
Qed.

(** ** Connections to switches *)


(** ** Configuration and state data *)

End state.

(** ** Samples *)

(** The server of the database accepts everything. *)
#[export] Instance sample_server : OvsdbServer := {| commit_block _ v := (TXN_SUCCESS, "", v) |}.

Definition sample_handler (txn : bool) : handler := Handler sample_conf sample_conf txn 1 1 true [].

(** The search for new ports succeeds. *)
#[export] Program Instance sample_xpath : PortXpath := {| xpath_ports cfg := Some (configured_ports cfg) |}.
Next Obligation. by intros cfg l [= <-]. Qed.

(** Deleting a queue without resource-id fails, and says so. *)
Definition sample_globals : globals := Globals (Some (sample_handler true)) 5.
Lemma failures_reported_witness : ∃ e' g',
  layer_call (TxnDelQueue None) (sample_globals, None) = Done (1%Z, (g', e')) ∧ is_Some e'.
Proof.
  destruct (layer_call (TxnDelQueue None) (sample_globals, None)) as [[r [g' e']]| |] eqn:E;
    [|vm_compute in E; discriminate..].
  assert (r = 1%Z) as -> by (vm_compute in E; congruence).
  exists e', g'. split; [reflexivity|].
  apply (proj1 failures_reported (TxnDelQueue None) sample_globals None 1%Z g' e' E); done.
Defined.

Lemma del_all_commits_witness : ∃ t1 t2, live t1 = [] ∧ live t2 = [] ∧
  let v1 := put_tab (A := sample_set) t2 (put_tab (A := open_vswitch) t1 sample_conf) in
  distinct_rows v1 →
  ∃ h', txn_del_all (sample_handler true) = Done (EXIT_SUCCESS, h') ∧ h_txn h' = true ∧
    cleared (h_view h') ∧ x_cs_id (o_out (h_view h')) = None ∧
    ∃ h3, txn_abort h' = Done (tt, h3) ∧ h_txn h3 = false ∧ h_copy h3 = v1 ∧
      h_view h3 = content_of v1 (h_view h').
Proof.
  destruct (del_all_commits (sample_handler true)) as (t1 & t2 & H1 & H2 & H);
    [done|done|by apply (bool_decide_unpack _)..|].
  exists t1, t2. split; [exact H1|]. split; [exact H2|]. exact H.
Defined.






(** A value with markup: the client names a bridge a<b, and the configuration
    sent from then on is not well-formed. *)
Definition marked_db : ovsdb :=
  put_tab (Table [(6%positive, Bridge (Some "a<b") [] [] [] ∅ None None)] []) sample_conf.
Theorem markup_breaks_configuration : ∃ text s',
  ofc_get_config_data marked_db = Done (text, s') ∧ ¬ well_formed text.
Proof.
  eexists _, _. split; [vm_compute; reflexivity|]. intros (root & E & H). vm_compute in E.
  injection E as <-. vm_compute in H. discriminate.
Qed.
