(* ===== verification/PortClaims.v ===== *)
(** * Properties of ports and certificates

    Advertised features, tunnels and certificates are read back as they were
    written; what a request for an administrative state leads to. *)

From S2P Require Import Prelude.
From S2P Require Import Xml.
From S2P Require Import EditTree.
From S2P Require Import OvsDevices.
From S2P Require Import Ovsdb.
From S2P Require Import OvsFacts.
From S2P Require Import OvsBridges.
From S2P Require Import OvsTextFacts.
From S2P Require Import OvsPorts.
From S2P Require Import OvsCerts.
From S2P Require Import OvsConfig.
From S2P Require Import XmlText.
From S2P Require Import PortFacts.
From S2P Require Import CertFacts.
From S2P Require Import Samples.
From S2P Require Import OvsSamples.

Section certificates.
Context {LX : LibXml} {OI : OvsIdl} {FS : Files}.

(** What get-config shows of an owned certificate. *)
Definition owned_text (rid cert kt kd : string) : string :=
  "<owned-certificate><resource-id>" +:+ rid +:+ "</resource-id>"
  +:+ "<certificate>" +:+ cert +:+ "</certificate>"
  +:+ "<private-key>" +:+ "<key-type>" +:+ kt +:+ "</key-type>"
  +:+ "<key-data>" +:+ kd +:+ "</key-data>" +:+ "</private-key>" +:+ "</owned-certificate>".

(** C16: an owned certificate is read back as it was added: when files can be
    created, written and read, the certificate and the RSA key have no hyphens,
    as base64 text has none, and no other owned certificate is in the way, txn_add_owned_certificate()
    succeeds and get_owned_certificates_config() then finds the resource id,
    the certificate, the type and the data of the key in the SSL row and the
    PEM files. *)
Theorem certificate_read_back rid cert kd node s :
  files_work → get_key node "resource-id" = Some rid → shows_owned rid cert "RSA" kd node →
  hyphenless cert = true → hyphenless kd = true → takes_certificate OFC_RESID_OWN rid s →
  ∃ s', txn_add_owned_certificate (Some node) s = Done (EXIT_SUCCESS, s') ∧
    get_owned_certificates_config s' = Done (Some (owned_text rid cert "RSA" kd), s').
Proof.
  intros FW Hk Hnode Hc Hd Ht.
  destruct (cert_row_run OFC_RESID_OWN "OVS allows to use only a single owned certificate" node rid s Hk Ht)
    as (u & new & r & s1 & E & Hr & Hnew & _).
  set (s2 := put_file cert_file (cert_pem cert) s1).
  destruct (ssl_written u r (with_certificate (Some cert_file)) s2 Hr) as [W1 H1].
  set (s3 := written u _ s2) in *. set (s4 := put_file key_file (key_pem "RSA" kd) s3).
  destruct (ssl_written u _ (with_private_key (Some key_file)) s4 H1) as [W2 H2].
  set (s5 := written u _ s4) in *.
  destruct (ssl_written u _ (with_ssl_ext <[OFC_RESID_OWN := rid]>) s5 H2) as [W3 H3].
  set (s6 := written u _ s5) in *.
  destruct (link_ssl_returns u s6) as ([] & s' & L & Ltab & Lout).
  exists s'. split.
  - unfold txn_add_owned_certificate. rewrite (bind_run _ _ _ _ _ E).
    cbn zeta. rewrite (owned_input _ _ _ _ _ _ Hnode Hnew). cbn [in_resid in_cert in_key_type in_key_data].
    unfold if_ok. rewrite (bind_run _ _ _ _ _ (write_cert_run FW cert cert_file s1)).
    rewrite (bind_run _ _ _ _ _ W1), (bind_run _ _ _ _ _ (write_key_run FW "RSA" kd s3)).
    by rewrite (bind_run _ _ _ _ _ W2), (bind_run _ _ _ _ _ W3), (bind_run _ _ _ _ _ L).
  - unfold the_ssl, rows in H3. rewrite <-Ltab in H3.
    assert (x_files (o_out s') = <[key_file := key_pem "RSA" kd]> (<[cert_file := cert_pem cert]> (x_files (o_out s1)))) as Hf.
    { rewrite Lout. reflexivity. }
    unfold get_owned_certificates_config, first_ssl. rewrite bind_gets. unfold rows. rewrite H3.
    cbn [ssl_certificate ssl_private_key ssl_external_ids with_ssl_ext with_private_key with_certificate].
    rewrite lookup_insert_eq.
    rewrite (bind_run _ _ _ _ _ (read_file_run FW cert_file (cert_pem cert) s'
      ltac:(rewrite Hf, lookup_insert_ne by (apply not_eq_sym, files_differ); apply lookup_insert_eq))).
    cbn [mbind option_bind]. rewrite cert_text_pem by done.
    rewrite (bind_run _ _ _ _ _ (read_file_run FW key_file (key_pem "RSA" kd) s'
      ltac:(rewrite Hf; apply lookup_insert_eq))).
    cbn [mbind option_bind]. by rewrite key_text_pem.
Qed.
End certificates.

Section ports.
Context {LX : LibXml} {OI : OvsIdl} {KE : Kernel}.

(** C40: a request for an administrative state is answered by what the device does:
    the server asks the kernel for the flags of the device with IFF_UP set or
    cleared and reads them again; the call succeeds exactly when the device is
    then in the state asked for, and reports an error and changes nothing else
    otherwise; a kernel that sets IFF_UP as it is told makes it succeed on every
    device.  Without a value, when the default (up) is meant, a device with any
    flag set is left as it is, up or down. *)
Theorem admin_state_obeyed nm s :
  (∀ up : bool, let s1 := after_request nm (req_flags up (flags_of nm s)) s in
     txn_mod_port_admin_state (Some nm) (Some (if up then "up" else "down")) s =
       Done (if Bool.eqb (dev_up nm s1) up then (EXIT_SUCCESS, s1)
             else (EXIT_FAILURE, set_oerr (Some not_affected) s1)) ∧
     ((∀ k d v, ∃ d', kernel_flags k d v = Some d' ∧ Z.testbit (dv_flags d') 0 = Z.testbit v 0) →
      is_Some (x_devices (o_out s) !! String.substring 0 15 nm) → dev_up nm s1 = up) ∧
     ∀ k, k ≠ String.substring 0 15 nm → x_devices (o_out s1) !! k = x_devices (o_out s) !! k) ∧
  (flags_of nm s ≠ 0%Z → txn_mod_port_admin_state (Some nm) None s = Done (EXIT_SUCCESS, s)).
Proof.
  split.
  - intros up s1. split; [rewrite admin_run; apply check_flags_run|]. split.
    + intros Hk [d Hd]. unfold s1, after_request, device_after. rewrite Hd. cbn [mbind option_bind].
      destruct (Hk (String.substring 0 15 nm) d (req_flags up (flags_of nm s) mod 2 ^ 16)%Z) as (d' & -> & Hb).
      unfold dev_up. cbn [o_out put_device with_out x_devices with_devices]. rewrite lookup_insert_eq, Hb.
      apply bit_request.
    + intros k Hne. unfold s1, after_request. case_match; [|done]. by apply lookup_insert_ne.
  - intros Hf. unfold txn_mod_port_admin_state. rewrite (bind_run _ _ s (flags_of nm s) s) by done.
    rewrite (proj2 (Z.eqb_neq _ _) Hf). done.
Qed.

(** The device is one of the kernel, not of Open vSwitch. *)
Definition system_device (nm : string) (s : ovsdb) : Prop :=
  ∃ d driver, x_devices (o_out s) !! String.substring 0 15 nm = Some d ∧ dv_driver d = Some driver ∧
    driver ≠ "openvswitch".
(** What ETHTOOL_GSET answers for the device. *)
Definition ethtool_of (nm : string) (s : ovsdb) : ethtool_cmd :=
  default no_ethtool (x_devices (o_out s) !! String.substring 0 15 nm ≫= dv_ethtool).

(** C29: advertised features are read back: what get-config prints for a feature mask
    (dump_port_features), given as <advertised> to the branch for <features> of
    txn_add_port() ([add_port_features]), makes the device of the new interface
    advertise the same rates, media and auto-negotiation, though several bits
    share a name; the pause settings are lost, as the words printed for them are
    not the ones that are read.  This is for a branch entered with port_name
    assigned, which in txn_add_port() takes a tunnel in front of the features
    (without one it is used uninitialised, see the findings), and naming a
    device of the kernel, not of Open vSwitch; the interface has its name, and
    its device takes the settings it is sent and keeps them. *)
Theorem features_read_back pn nm iu i aux advert m d d' s :
  go2node aux "advertised" = Some advert →
  Forall2 shows (features_of m) (children advert) →
  system_device pn s → assoc iu (rows s) = Some i → if_name i = Some nm →
  x_devices (o_out s) !! String.substring 0 15 nm = Some d →
  kernel_ethtool (String.substring 0 15 nm) d (set_advertising (kept m) (ethtool_of nm s)) = Some d' →
  dv_ethtool d' = Some (set_advertising (kept m) (ethtool_of nm s)) →
  let s' := put_device nm d' s in
  dump_port_features m = texts (features_of m) ∧
  add_port_features (Some (Some pn)) iu aux s = Done (tt, s') ∧
  dump_port_features (ec_advertising (ethtool_of nm s')) = texts (features_of (ec_advertising (ethtool_of nm s'))) ∧
  (∀ f, f.1 ≠ "pause" → f ∈ features_of (ec_advertising (ethtool_of nm s')) ↔ f ∈ features_of m) ∧
  ("pause", "unsupported") ∈ features_of (ec_advertising (ethtool_of nm s')).
Proof.
  intros Ha Hc (d0 & driver & Hd0 & Hdr & Hsys) Hi Hn Hd Hk He s'.
  assert (ec_advertising (ethtool_of nm s') = kept m) as ->.
  { unfold ethtool_of, s'. cbn [o_out put_device with_out x_devices with_devices].
    rewrite lookup_insert_eq. cbn [mbind option_bind]. by rewrite He. }
  split; [apply features_printed|]. split; [|split; [apply features_printed|split; [intros f; apply kept_shown|apply kept_pause]]].
  unfold add_port_features. rewrite Ha. cbn [deref]. rewrite bind_ret.
  rewrite (bind_run _ _ s true s).
  2: { unfold dev_is_system. rewrite (bind_run _ _ s (String.substring 0 15 pn) s) by done.
       unfold gets_out. rewrite bind_gets, Hd0. cbn [mbind option_bind]. rewrite Hdr.
       by rewrite bool_decide_eq_false_2. }
  cbn [negb]. rewrite (bind_run _ _ _ _ _ (row_live iu i s Hi)), Hn.
  rewrite (bind_run _ _ s (ethtool_of nm s) s) by done.
  rewrite (bind_run _ _ _ _ _ (new_features_run (features_of m) _ ADVERTISED_Autoneg s Hc)), kept_features.
  rewrite (bind_run _ _ s 0%Z s'); [done|].
  unfold dev_set_ethtool. rewrite (bind_run _ _ s (String.substring 0 15 nm) s) by done.
  unfold gets_out. rewrite bind_gets, Hd. cbn [mbind option_bind]. by rewrite Hk.
Qed.

(** The elements of a tunnel that give an option, and the value given first. *)
Definition option_names (o : string) : list string :=
  if decide (o = "local_ip") then ["local-endpoint-ipv4-adress"]
  else if decide (o = "remote_ip") then ["remote-endpoint-ipv4-adress"]
  else if decide (o = "key") then ["key"; "vni"] else [].
Definition given (o : string) (l : list xmlNode) : option string :=
  n ← find_first (λ n, is_element n && existsb (name_is n) (option_names o)) l; child_content n.

Lemma option_names_spec n o : tunnel_option (name n) = Some o ↔ existsb (name_is n) (option_names o) = true.
Proof.
  assert (∀ x, name_is n x = bool_decide (name n = Some x)) as Hn by done.
  unfold tunnel_option, option_names, xmlStrEqual. destruct (name n) as [nm|].
  - destruct (decide (o = "local_ip")) as [->|]; [|destruct (decide (o = "remote_ip")) as [->|];
      [|destruct (decide (o = "key")) as [->|]]]; cbn [existsb]; rewrite ?Hn;
      repeat (case_bool_decide; simplify_eq); cbn; naive_solver.
  - split; [by repeat case_bool_decide|]. rewrite existsb_exists. intros (x & _ & Hx). by rewrite Hn in Hx.
Qed.

Lemma first_value_given o l : first_value o l = given o l.
Proof.
  unfold first_value, given. f_equal. apply find_first_ext. intros n _. unfold option_of, is_element.
  destruct (bool_decide (ntype n = XML_ELEMENT_NODE)); [|done]. cbn [andb].
  apply eq_bool_prop_intro. rewrite bool_decide_spec, Is_true_true. apply option_names_spec.
Qed.

(** C30: a tunnel is added and removed again: when every option of the element has a
    value (an empty one crashes, see the findings), txn_add_port_tunnel() gives
    the first interface of the name the type of the tunnel and, for each option
    the element names, the option's old value or else the first one given;
    nothing else changes.  txn_del_port_tunnel() then takes the options away,
    whatever values they had, and sets the type of the device; an interface that
    had none of these options and no tunnel before is as it was but for this
    type.  It is system when the kernel has a device of this name with a driver
    other than openvswitch, internal otherwise.  An option for the checksum is
    neither set by the first call nor removed by the second.  The interfaces
    are taken to have names and distinct ids. *)
Theorem tunnel_add_del nm node t u i s :
  NoDup (rows (A := interface) s).*1 → (∀ v (j : interface), (v, j) ∈ rows s → is_Some (if_name j)) →
  first_named nm u i s → name node = Some t → filled_in (children node) →
  ∃ s1 type, txn_add_port_tunnel (Some nm) (Some node) s = Done (EXIT_SUCCESS, s1) ∧
    s1 = written u (tunnel_added node t) s ∧ first_named nm u (tunnel_added node t i) s1 ∧
    if_type (tunnel_added node t i) = Some (if decide (t = "vxlan-tunnel") then "vxlan" else "gre") ∧
    (∀ o, if_options (tunnel_added node t i) !! o =
       match if_options i !! o with Some v => Some v | None => given o (children node) end) ∧
    txn_del_port_tunnel (Some nm) s1 =
      Done (EXIT_SUCCESS, written u (λ j, tunnel_deleted type (tunnel_added node t j)) s) ∧
    (system_device nm s → type = "system") ∧ (¬ system_device nm s → type = "internal") ∧
    if_options (tunnel_deleted type (tunnel_added node t i)) !! "csum" = if_options i !! "csum" ∧
    ((∀ o, o ∈ ["local_ip"; "remote_ip"; "key"] → if_options i !! o = None) →
     if_external_ids i !! "tunnel_type" = None →
     tunnel_deleted type (tunnel_added node t i) = with_if_type (Some type) i).
Proof.
  intros Hn Hnames Hu Ht Hf. set (s1 := written u (tunnel_added node t) s).
  assert (first_named nm u (tunnel_added node t i) s1) as Hu1 by (by apply first_named_written).
  destruct (del_tunnel_run nm u (tunnel_added node t i) s1) as (type & Hdel & Htype);
    [by unfold s1; rewrite keys_written|done|].
  exists s1, type. split; [by eapply add_tunnel_run|]. split; [done|]. split; [done|].
  split; [cbn -[name_is]; unfold name_is, xmlStrEqual; rewrite Ht; case_decide;
    [by rewrite bool_decide_eq_true_2 by congruence|by rewrite bool_decide_eq_false_2 by congruence]|].
  split; [|split; [|split; [|split; [|split]]]].
  - intros o. rewrite <-first_value_given. by apply (fill_lookup (children node) (if_options i) o).
  - rewrite Hdel. unfold s1. by rewrite written_written.
  - intros (d & driver & Hd & Hdr & Hne). rewrite Htype. change (o_out s1) with (o_out s).
    rewrite Hd. cbn [mbind option_bind]. rewrite Hdr. by rewrite bool_decide_eq_false_2.
  - intros Hsys. rewrite Htype. change (o_out s1) with (o_out s).
    destruct (_ ≫= dv_driver) as [driver|] eqn:E; [|done]. case_bool_decide; [done|].
    destruct Hsys. apply bind_Some in E as (d & Hd & Hdr). by exists d, driver.
  - unfold tunnel_deleted, tunnel_added. cbn. rewrite !lookup_delete_ne by done. by apply fill_three.
  - intros Hopts Hext. apply tunnel_undone; [apply Hopts; set_solver..|done].
Qed.
End ports.

(** ** Samples *)
Definition sample_owned : xmlNode := el 30 "owned-certificate" [
  lf 31 "resource-id" "cert1"; lf 33 "certificate" "MIIB+g=="; 
  el 35 "private-key" [lf 36 "key-type" "RSA"; lf 38 "key-data" "MIIC/w=="]].

Lemma sample_files_work : files_work.
Proof. constructor; [done..|]. intros f old text. cbn. lia. Qed.

Lemma certificate_read_back_witness : ∃ s',
  txn_add_owned_certificate (Some sample_owned) sample_conf = Done (EXIT_SUCCESS, s') ∧
  get_owned_certificates_config s' = Done (Some (owned_text "cert1" "MIIB+g==" "RSA" "MIIC/w=="), s').
Proof.
  apply (certificate_read_back "cert1" "MIIB+g==" "MIIC/w==" sample_owned sample_conf).
  - exact sample_files_work.
  - reflexivity.
  - eexists _, _, _. split; [reflexivity|]. split; [by split_and!|]. split; [by split_and!|].
    split; [done|]. split; [done|]. repeat constructor.
  - reflexivity.
  - reflexivity.
  - intros u r [=].
Defined.

Lemma admin_state_obeyed_witness :
  (∀ up : bool, dev_up "eth0" (after_request "eth0" (req_flags up (flags_of "eth0" sample_conf)) sample_conf) = up) ∧
  txn_mod_port_admin_state (Some "eth0") None sample_conf = Done (EXIT_SUCCESS, sample_conf).
Proof.
  destruct (admin_state_obeyed "eth0" sample_conf) as [H1 H2]. split.
  - intros up. apply (H1 up); [|by eexists]. intros k d v. by eexists.
  - apply H2. done.
Defined.

(** 10Mb-HD, the second bit for 1Gb-FD, auto-negotiation, copper and Pause. *)
Definition sample_mask : Z := 139457.
Definition sample_advertised : xmlNode := el 41 "advertised" [
  lf 42 "rate" "10Mb-HD"; lf 44 "rate" "1Gb-FD"; lf 46 "auto-negotiate" "true";
  lf 48 "medium" "copper"; lf 50 "pause" "symmetric"].
Definition sample_features : xmlNode := el 40 "features" [sample_advertised].
Lemma sample_shows : Forall2 shows (features_of sample_mask) (children sample_advertised).
Proof.
  assert (features_of sample_mask = [("rate", "10Mb-HD"); ("rate", "1Gb-FD"); ("auto-negotiate", "true");
    ("medium", "copper"); ("pause", "symmetric")]) as -> by (vm_compute; reflexivity).
  repeat constructor.
Qed.
Definition sample_card : device :=
  Device (Some "e1000") 4098 (Some (set_advertising (kept sample_mask) (ethtool_of "eth0" sample_conf))).

Lemma features_read_back_witness :
  let s' := put_device "eth0" sample_card sample_conf in
  add_port_features (Some (Some "eth0")) 11%positive sample_features sample_conf = Done (tt, s') ∧
  ("rate", "1Gb-FD") ∈ features_of (ec_advertising (ethtool_of "eth0" s')).
Proof.
  destruct (features_read_back "eth0" "eth0" 11%positive (if_row "eth0") sample_features sample_advertised
    sample_mask card sample_card sample_conf) as (_ & H & _ & Hf & _).
  - reflexivity.
  - exact sample_shows.
  - by exists card, "e1000".
  - reflexivity.
  - reflexivity.
  - reflexivity.
  - reflexivity.
  - reflexivity.
  - split; [exact H|]. apply Hf; [done|]. apply (bool_decide_unpack _). vm_compute. exact I.
Defined.

Definition sample_tunnel : xmlNode := el 60 "ipgre-tunnel" [
  lf 61 "local-endpoint-ipv4-adress" "10.0.0.1"; lf 63 "remote-endpoint-ipv4-adress" "10.0.0.2";
  comment 65 "a comment"; lf 66 "checksum-present" "true"; lf 68 "key" "5"].

Lemma tunnel_add_del_witness : ∃ s1,
  txn_add_port_tunnel (Some "eth1") (Some sample_tunnel) sample_conf = Done (EXIT_SUCCESS, s1) ∧
  ∃ type, txn_del_port_tunnel (Some "eth1") s1 =
    Done (EXIT_SUCCESS, written 12%positive (λ j, tunnel_deleted type (tunnel_added sample_tunnel "ipgre-tunnel" j)) sample_conf).
Proof.
  destruct (tunnel_add_del "eth1" sample_tunnel "ipgre-tunnel" 12%positive (if_row "eth1") sample_conf)
    as (s1 & type & Ha & _ & _ & _ & _ & Hd & _).
  - apply (bool_decide_unpack _). vm_compute. exact I.
  - intros v j [[= -> ->]|[[= -> ->]|H]%elem_of_cons]%elem_of_cons; [by eexists..|by apply elem_of_nil in H].
  - reflexivity.
  - reflexivity.
  - repeat (apply Forall_cons; split; [intros [o E]; first [discriminate E | by eexists]|]). constructor.
  - exists s1. split; [exact Ha|]. by exists type.
Defined.
