(* ===== verification/OfcModule.v ===== *)
(** * Start and end of the of-config datastore (ofconfig-datastore.c, ofconfig-transapi.c)

    ofcds_init() connects to OVSDB and reads the startup configuration from its
    file, ofcds_free() writes it back.  The of-config module of libnetconf has
    no configuration callbacks to speak of; its state data are those of
    ofc_get_state_data(). *)

From S2P Require Import Prelude.
From S2P Require Import Xml.
From S2P Require Import XmlFacts.
From S2P Require Import EditTree.
From S2P Require Import EditChecks.
From S2P Require Import EditCompact.
From S2P Require Import EditOps.
From S2P Require Import Datastore.
From S2P Require Import OvsDevices.
From S2P Require Import Ovsdb.
From S2P Require Import OvsPorts.
From S2P Require Import OvsOpenFlow.
From S2P Require Import OvsCerts.
From S2P Require Import OvsConfig.
From S2P Require Import OvsTxn.
From S2P Require Import OvsTxnFacts.

(** xmlSaveFormatFile() with indentation: the parser, which drops blank nodes,
    reads the same data back.  An empty text is no document. *)
Class XmlFormat {IO : XmlIO} := {
  xmlFormatDoc : xmlNode → string;
  read_format d k : canonical d → children d ≠ [] →
    ∃ d' k', xmlReadMemory (xmlFormatDoc d) k = Some (d', k') ∧ data d' = data d;
  read_empty k : xmlReadMemory "" k = None
}.

(** What ofc_init() meets. *)
Record db_env := DbEnv {
  db_seqno : Z; db_alive : bool; db_empty : ovsdb; db_events : list idl_event; db_fd : Z }.

(** The file startup.xml; None: it does not exist. *)
Record startup_env := StartupEnv { se_reads : bool; se_writes : bool }.

Section module.
Context {LX : LibXml} {LN : LibNetconf} {IO : XmlIO} {XF : XmlFormat} {OI : OvsIdl} {KE : Kernel}
  {VC : Vconn} {FS : Files} {XP : PortXpath} {SV : OvsdbServer}.

(** The datastores with the file of the startup configuration and the path of
    OVSDB. *)
Record service := Service {
  sv_ds : dstate;
  startup_file : option string;
  ovsdb_path : option string }.

Definition on_ds {A} (m : M dstate A) : M service A := λ s,
  match m (sv_ds s) with
  | Done (a, d) => Done (a, Service d (startup_file s) (ovsdb_path s))
  | Crash f => Crash f
  | NoFuel => NoFuel
  end.

(** xmlDocGetRootElement() != NULL *)
Definition has_root (d : xmlNode) : bool := existsb is_element (children d).

(** xmlReadFile() with the options of the datastore: None for a file that
    cannot be read or parsed. *)
Definition xmlReadFile (env : startup_env) : M service (option xmlNode) :=
  file ← gets startup_file;
  match file with
  | Some text => if se_reads env then on_ds (read_memory text) else mret None
  | None => mret None
  end.

Definition ofcds_init (db : db_env) (env : startup_env) : M service exit :=
  path ← gets ovsdb_path;
  _ ← modify (λ s, Service (sv_ds s) (startup_file s)
        (Some (default ("unix:" +:+ ovs_rundir +:+ "/db.sock") path)));
  connected ← on_ds (on_be (ofc_init (db_seqno db) (db_alive db) (db_empty db) (db_events db) (db_fd db)));
  if negb (connected : bool) then mret EXIT_FAILURE
  else
    doc ← xmlReadFile env;
    _ ← on_ds (modify (set_startup (d ← doc; if has_root d then Some d else None)));
    mret EXIT_SUCCESS.

(** The result of writing is not looked at; truncate() fails for a file that
    does not exist.  The ids of the sessions holding locks are freed and not
    used any more. *)
Definition ofcds_free (env : startup_env) : M service unit :=
  _ ← on_ds (on_be ofc_destroy);
  startup ← on_ds (gets gds_startup);
  _ ← modify (λ s, Service (sv_ds s)
        (if se_writes env then
           match startup with
           | Some d => Some (xmlFormatDoc d)
           | None => match startup_file s with Some _ => Some "" | None => None end
           end
         else startup_file s) (ovsdb_path s));
  on_ds (modify (λ s, DState (gds_startup s) (gds_cand s) None (rollback_type s) (rollbacking s)
    (lock_running s) (lock_startup s) (lock_cand s) (d_next s) (d_be s) (d_err s))).

Definition ofcds_changed : M service Z := mret 0%Z.

(** ** The of-config module *)

(** [parse]: xmlReadMemory() without options. *)
Definition ofc_status_clb (parse : string → option xmlNode) : M globals (option xmlNode) :=
  state_data ← ofc_get_data ofc_get_state_data;
  mret (state_data ≫= parse).
Definition ofc_namespace_mapping : list (string * string) := [("of", "urn:onf:config:yang")].
Definition ofc_transapi_init : exit := EXIT_SUCCESS.
Definition callback_top : exit := EXIT_SUCCESS.

(** A new process. *)
Definition fresh_dstate (next : ptr) : dstate :=
  DState None None None NC_DATASTORE_ERROR false (Lock false None) (Lock false None) (Lock false None)
    next (Globals None (-1)) None.
Definition restart (next : ptr) (path : option string) (s : service) : service :=
  Service (fresh_dstate next) (startup_file s) path.

(** ** Facts *)
Definition init_globals (db : db_env) : M globals bool :=
  ofc_init (db_seqno db) (db_alive db) (db_empty db) (db_events db) (db_fd db).

Definition db_path (s : service) : string :=
  default ("unix:" +:+ ovs_rundir +:+ "/db.sock") (ovsdb_path s).
Lemma ofcds_init_run db env s (ok : bool) g' : init_globals db (d_be (sv_ds s)) = Done (ok, g') →
  ofcds_init db env s =
    (if ok then doc ← xmlReadFile env;
                _ ← on_ds (modify (set_startup (d ← doc; if has_root d then Some d else None)));
                mret EXIT_SUCCESS
     else mret EXIT_FAILURE) (Service (set_dbe g' (sv_ds s)) (startup_file s) (Some (db_path s))).
Proof.
  intros E. unfold ofcds_init. rewrite bind_gets, bind_modify.
  unfold init_globals in E. unfold mbind at 1, M_bind at 1. unfold on_ds at 1. cbn [sv_ds].
  unfold on_be at 1. rewrite E. cbn [startup_file ovsdb_path]. by destruct ok.
Qed.

Lemma has_root_data d d' : data d' = data d → has_root d' = has_root d.
Proof.
  unfold has_root. destruct d as [i h cs], d' as [i' h' cs']. rewrite !data_eq. intros E.
  assert (data <$> cs' = data <$> cs) as Hc by (by injection E). clear E. cbn [children].
  revert cs Hc. induction cs' as [|c' cs' IH]; intros [|c cs] Hc; try done.
  rewrite !fmap_cons in Hc. injection Hc as Hd Hc. cbn [existsb]. rewrite (IH cs Hc). f_equal.
  destruct c as [j g ds], c' as [j' g' ds']. rewrite !data_eq in Hd. unfold is_element. cbn in *.
  by injection Hd as ->.
Qed.

(** What ofcds_free() leaves in the file. *)
Definition saved (env : startup_env) (s : service) : option string :=
  if se_writes env then
    match gds_startup (sv_ds s) with
    | Some d => Some (xmlFormatDoc d)
    | None => match startup_file s with Some _ => Some "" | None => None end
    end
  else startup_file s.
Lemma ofcds_free_run env s : ∃ s', ofcds_free env s = Done (tt, s') ∧ startup_file s' = saved env s ∧
  g_handler (d_be (sv_ds s')) = None.
Proof. eexists. split; [reflexivity|]. split; [|done]. unfold saved. by cbn. Qed.

(** A document that can be saved. *)
Definition savable (d : xmlNode) : Prop := canonical d ∧ has_root d = true.

Lemma xmlReadFile_run env s text : startup_file s = Some text → se_reads env = true →
  xmlReadFile env s = match xmlReadMemory text (d_next (sv_ds s)) with
    | Some (d, k) => Done (Some d, Service (set_dnext k (sv_ds s)) (startup_file s) (ovsdb_path s))
    | None => Done (None, s) end.
Proof.
  intros Hf Hr. unfold xmlReadFile. rewrite bind_gets, Hf, Hr. unfold on_ds, read_memory. rewrite bind_gets.
  destruct (xmlReadMemory _ _) as [[d k]|]; [by rewrite Hf|]. by destruct s.
Qed.

(** Reading the saved file. *)
Lemma read_saved env db next path s s1 g' : se_writes env = true → se_reads env = true →
  (∀ d, gds_startup (sv_ds s) = Some d → savable d) → startup_file s1 = saved env s →
  init_globals db (Globals None (-1)) = Done (true, g') →
  ∃ s2, ofcds_init db env (restart next path s1) = Done (EXIT_SUCCESS, s2) ∧
    data <$> gds_startup (sv_ds s2) = data <$> gds_startup (sv_ds s).
Proof.
  intros Hw Hr Hs Hf E. rewrite (ofcds_init_run db env _ true g' E). set (s3 := Service _ _ _).
  assert (startup_file s3 = saved env s) as H3 by done. assert (d_next (sv_ds s3) = next) as Hn by done.
  unfold saved in H3. rewrite Hw in H3. destruct (gds_startup (sv_ds s)) as [d|] eqn:Ed.
  - destruct (Hs d eq_refl) as [Hcan Hroot].
    destruct (read_format d next Hcan) as (d' & k' & Hd & Hdata).
    { intros E0. unfold has_root in Hroot. by rewrite E0 in Hroot. }
    pose proof (xmlReadFile_run env s3 _ H3 Hr) as Hread. rewrite Hn, Hd in Hread.
    rewrite (bind_run _ _ _ _ _ Hread). eexists. split; [reflexivity|].
    cbn. rewrite (has_root_data d d') by done. rewrite Hroot. cbn. by rewrite Hdata.
  - destruct (startup_file s) as [t|].
    + pose proof (xmlReadFile_run env s3 _ H3 Hr) as Hread. rewrite read_empty in Hread.
      rewrite (bind_run _ _ _ _ _ Hread). by eexists.
    + assert (xmlReadFile env s3 = Done (None, s3)) as Hread
        by (unfold xmlReadFile; by rewrite bind_gets, H3).
      rewrite (bind_run _ _ _ _ _ Hread). by eexists.
Qed.
End module.
