(* ===== verification/Agents.v ===== *)
(** * The agents known to the server (server_ops.c)

    The server keeps a doubly linked list of struct agent_info, one element for
    each NETCONF session an agent has announced.  The list is modelled with its
    pointers: a heap of elements, the global [agents], and the links that
    srv_agent_new() and srv_agent_stop() rewire.  [registry] is what the list
    means, AgentsFacts.v shows that the code implements it.

    Sessions and capabilities belong to libnetconf: class [NcSession]. *)

From S2P Require Import Prelude.

(** ** Sessions of libnetconf *)
Class NcSession := {
  nc_cpblts : Type;
  nc_session : Type;
  (* from a NULL-terminated list of strings; the strings an iteration from the
     start returns, and those nc_cpblts_iter_next() returns from where it stands *)
  nc_cpblts_new : list string → nc_cpblts;
  nc_cpblts_iter : nc_cpblts → list string;
  nc_cpblts_next : nc_cpblts → list string;
  nc_session_dummy : string → string → nc_cpblts → nc_session;
  nc_session_get_id : nc_session → option string;
  cpblts_iter_new l : nc_cpblts_iter (nc_cpblts_new l) = l;
  dummy_id sid user c : nc_session_get_id (nc_session_dummy sid user c) = Some sid
}.

(** Pointers to list elements. *)
Definition aptr := nat.

Section agents.
Context {NS : NcSession}.

Record agent_info := AgentInfo {
  ag_id : string;
  ag_pid : Z;
  ag_session : nc_session;
  ag_next : option aptr;
  ag_prev : option aptr }.

Definition with_next (v : option aptr) (a : agent_info) : agent_info :=
  AgentInfo (ag_id a) (ag_pid a) (ag_session a) v (ag_prev a).
Definition with_prev (v : option aptr) (a : agent_info) : agent_info :=
  AgentInfo (ag_id a) (ag_pid a) (ag_session a) (ag_next a) v.

(** The global [agents], the elements it leads to, the next address that
    calloc() returns, and the processes that were sent SIGTERM, last one first. *)
Record alist := AList {
  al_head : option aptr;
  al_heap : gmap aptr agent_info;
  al_fresh : aptr;
  al_killed : list Z }.

Definition set_head (v : option aptr) (s : alist) : alist :=
  AList v (al_heap s) (al_fresh s) (al_killed s).
Definition set_heap (v : gmap aptr agent_info) (s : alist) : alist :=
  AList (al_head s) v (al_fresh s) (al_killed s).

Definition no_agents : alist := AList None ∅ 0 [].

(** ** Memory *)
Definition load (p : aptr) : M alist agent_info :=
  h ← gets al_heap; deref UseAfterFree (h !! p).
Definition store (p : aptr) (f : agent_info → agent_info) : M alist unit :=
  a ← load p; modify (λ s, set_heap (<[p := f a]> (al_heap s)) s).
(** calloc(), filled in by the caller before the element is linked *)
Definition alloc (a : agent_info) : M alist aptr :=
  p ← gets al_fresh;
  _ ← modify (λ s, AList (al_head s) (<[p := a]> (al_heap s)) (S p) (al_killed s));
  mret p.
Definition free_agent (p : aptr) : M alist unit :=
  _ ← load p; modify (λ s, set_heap (delete p (al_heap s)) s).
Definition kill (pid : Z) : M alist unit :=
  modify (λ s, AList (al_head s) (al_heap s) (al_fresh s) (pid :: al_killed s)).

(** No walk along the list is longer than the list. *)
Definition walk_fuel (s : alist) : nat := S (size (al_heap s)).

(** ** Searching *)

(** strcmp(id, nc_session_get_id(aux_session->session)) == 0 *)
Definition ncsid_matches (id : string) (a : agent_info) : M alist bool :=
  sid ← deref NullDeref (nc_session_get_id (ag_session a)); mret (bool_decide (id = sid)).
Definition agentid_matches (id : string) (a : agent_info) : M alist bool :=
  mret (bool_decide (id = ag_id a)).

(** while (aux_session != NULL) { ...; aux_session = aux_session->next; } *)
Fixpoint search (fuel : nat) (matches : agent_info → M alist bool) (aux : option aptr)
  : M alist (option aptr) :=
  match fuel with
  | 0 => nofuel
  | S f =>
      match aux with
      | None => mret None
      | Some p =>
          a ← load p;
          b ← matches a;
          if b : bool then mret (Some p) else search f matches (ag_next a)
      end
  end.

Definition srv_get_agent_by_ncsid (id : string) : M alist (option aptr) :=
  n ← gets walk_fuel; h ← gets al_head; search n (ncsid_matches id) h.

Definition srv_get_agent_by_agentid (id : string) : M alist (option aptr) :=
  n ← gets walk_fuel; h ← gets al_head; search n (agentid_matches id) h.

(** ** Adding and removing *)

(** while (agents_iter->next != NULL) agents_iter = agents_iter->next; *)
Fixpoint last_agent (fuel : nat) (iter : aptr) : M alist aptr :=
  match fuel with
  | 0 => nofuel
  | S f =>
      a ← load iter;
      match ag_next a with
      | None => mret iter
      | Some q => last_agent f q
      end
  end.

(** [pid] is a uint16_t. *)
Definition srv_agent_new (ncsid username : string) (cpblts : nc_cpblts) (agentid : string)
  (pid : Z) : M alist unit :=
  iter ← gets al_head;
  agent ← alloc (AgentInfo agentid pid (nc_session_dummy ncsid username cpblts) None None);
  match iter with
  | None => _ ← modify (set_head (Some agent)); store agent (with_prev None)
  | Some i =>
      n ← gets walk_fuel;
      l ← last_agent n i;
      _ ← store l (with_next (Some agent));
      store agent (with_prev (Some l))
  end.

Definition srv_agent_stop (agent : aptr) : M alist unit :=
  a ← load agent;
  _ ← match ag_prev a with
      | Some q => store q (with_next (ag_next a))
      | None => modify (set_head (ag_next a))
      end;
  _ ← match ag_next a with
      | Some q => store q (with_prev (ag_prev a))
      | None => mret tt
      end;
  free_agent agent.

Definition srv_agent_kill (agent : aptr) : M alist unit :=
  a ← load agent;
  _ ← kill (ag_pid a);
  srv_agent_stop agent.
End agents.
