(* ===== verification/AgentsFacts.v ===== *)
(** * The list of agents implements a registry

    [registry] is the abstract list of agents; [represents] relates it to the
    doubly linked list of server_ops.c.  Every operation of server_ops.c is
    shown to do on the linked list what its counterpart does on the registry. *)

From S2P Require Import Prelude.
From S2P Require Import OvsFacts.
From S2P Require Import Agents.

Section registry.
Context {NS : NcSession}.

Record entry := Entry {
  e_ncsid : string;
  e_id : string;
  e_pid : Z;
  e_session : nc_session }.

(** The handles are the addresses of the elements. *)
Definition registry := list (aptr * entry).

(** ** The specification *)
Definition reg_by_ncsid (id : string) (l : registry) : option aptr :=
  fst <$> find_first (λ x, bool_decide (id = e_ncsid x.2)) l.
Definition reg_by_agentid (id : string) (l : registry) : option aptr :=
  fst <$> find_first (λ x, bool_decide (id = e_id x.2)) l.
Definition reg_remove (p : aptr) (l : registry) : registry :=
  filter (λ x : aptr * entry, x.1 ≠ p) (l : list (aptr * entry)).
Definition new_entry (ncsid user : string) (c : nc_cpblts) (id : string) (pid : Z) : entry :=
  Entry ncsid id pid (nc_session_dummy ncsid user c).

(** ** The relation *)
Definition hd_ptr (l : registry) (nxt : option aptr) : option aptr :=
  match l with [] => nxt | (p, _) :: _ => Some p end.
Definition last_ptr (l : registry) (prv : option aptr) : option aptr :=
  from_option (λ x, Some x.1) prv (last l).

Definition elem (e : entry) (nxt prv : option aptr) : agent_info :=
  AgentInfo (e_id e) (e_pid e) (e_session e) nxt prv.

Fixpoint linked (h : gmap aptr agent_info) (prv : option aptr) (l : registry)
  (nxt : option aptr) : Prop :=
  match l with
  | [] => True
  | (p, e) :: l' => h !! p = Some (elem e (hd_ptr l' nxt) prv) ∧ linked h (Some p) l' nxt
  end.

Definition entry_ok (e : entry) : Prop := nc_session_get_id (e_session e) = Some (e_ncsid e).

Record represents (s : alist) (l : registry) : Prop := {
  rep_nodup : NoDup l.*1;
  rep_head : al_head s = hd_ptr l None;
  rep_links : linked (al_heap s) None l None;
  rep_heap : dom (al_heap s) = list_to_set l.*1;
  rep_fresh : Forall (λ x, x.1 < al_fresh s) l;
  rep_ok : Forall (λ x, entry_ok x.2) l }.

(** ** Segments *)
Lemma hd_ptr_app l1 l2 nxt : hd_ptr (l1 ++ l2) nxt = hd_ptr l1 (hd_ptr l2 nxt).
Proof. by destruct l1 as [|[]]. Qed.
Lemma last_ptr_cons p e l prv : last_ptr ((p, e) :: l) prv = last_ptr l (Some p).
Proof. unfold last_ptr. rewrite last_cons. by destruct (last l). Qed.

Lemma linked_app h l1 : ∀ prv l2 nxt, linked h prv (l1 ++ l2) nxt ↔
  linked h prv l1 (hd_ptr l2 nxt) ∧ linked h (last_ptr l1 prv) l2 nxt.
Proof.
  induction l1 as [|[p e] l1 IH]; intros prv l2 nxt; simpl.
  - naive_solver.
  - rewrite hd_ptr_app, IH, last_ptr_cons. naive_solver.
Qed.

Lemma linked_ext h h' l : ∀ prv nxt, (∀ p, p ∈ l.*1 → h' !! p = h !! p) →
  linked h prv l nxt → linked h' prv l nxt.
Proof.
  induction l as [|[p e] l IH]; intros prv nxt Hh; [done|]. simpl. intros [Hp Hl].
  rewrite Hh by set_solver. split; [done|]. apply IH; [|done]. intros. apply Hh. set_solver.
Qed.

(** The last element of a segment alone holds the link to what follows. *)
Lemma linked_relink h l q eq prv nxt nxt' :
  NoDup (l ++ [(q, eq)]).*1 →
  linked h prv (l ++ [(q, eq)]) nxt →
  ∃ a, h !! q = Some a ∧ a = elem eq nxt (last_ptr l prv) ∧
    linked (<[q := with_next nxt' a]> h) prv (l ++ [(q, eq)]) nxt'.
Proof.
  rewrite fmap_app, NoDup_app. intros (_ & Hq & _) [Hl [Hlast _]]%linked_app. simpl in *.
  eexists. split; [done|]. split; [done|]. apply linked_app. simpl. split.
  - eapply linked_ext; [|done]. intros p Hp. apply lookup_insert_ne. intros ->. set_solver.
  - by rewrite lookup_insert_eq.
Qed.

(** The first element of a segment alone holds the link back. *)
Lemma linked_reback h q eq l prv nxt prv' :
  NoDup ((q, eq) :: l).*1 →
  linked h prv ((q, eq) :: l) nxt →
  ∃ a, h !! q = Some a ∧ a = elem eq (hd_ptr l nxt) prv ∧
    linked (<[q := with_prev prv' a]> h) prv' ((q, eq) :: l) nxt.
Proof.
  rewrite fmap_cons, NoDup_cons. intros [Hq _] [Hlook Hl]. simpl in *.
  eexists. split; [done|]. split; [done|]. rewrite lookup_insert_eq. split; [done|].
  eapply linked_ext; [|done]. intros p Hp. apply lookup_insert_ne. by intros ->.
Qed.

Lemma linked_lookup h l p e : ∀ prv nxt, linked h prv l nxt → (p, e) ∈ l →
  ∃ n q, h !! p = Some (elem e n q).
Proof.
  induction l as [|[p' e'] l IH]; intros prv nxt; [set_solver|].
  simpl. intros [Hp Hl] [Heq|Hin]%elem_of_cons; simplify_eq; eauto.
Qed.

Lemma rep_size s l : represents s l → length l < walk_fuel s.
Proof.
  intros H. unfold walk_fuel. rewrite <-size_dom, (rep_heap _ _ H), size_list_to_set;
    [|apply H]. rewrite length_fmap. lia.
Qed.

Lemma load_run p a s : al_heap s !! p = Some a → load p s = Done (a, s).
Proof. intros H. unfold load. by rewrite bind_gets, H. Qed.
Lemma store_run p f a s : al_heap s !! p = Some a →
  store p f s = Done (tt, set_heap (<[p := f a]> (al_heap s)) s).
Proof. intros H. unfold store. by rewrite (bind_run _ _ _ _ _ (load_run _ _ _ H)). Qed.

(** ** Rewiring *)

(** What rewiring the neighbours of an element leaves alone. *)
Definition rewired (t t' : alist) (own : registry) : Prop :=
  (∀ x, x ∉ own.*1 → al_heap t' !! x = al_heap t !! x) ∧ dom (al_heap t') = dom (al_heap t) ∧
  al_fresh t' = al_fresh t ∧ al_killed t' = al_killed t.

Lemma rewired_store t p a f own : al_heap t !! p = Some a → p ∈ own.*1 →
  rewired t (set_heap (<[p := f a]> (al_heap t)) t) own.
Proof.
  intros Hp Hin. split_and!; try done; simpl.
  - intros x Hx. apply lookup_insert_ne. by intros <-.
  - rewrite dom_insert_L. apply (elem_of_dom_2 (D := gset aptr)) in Hp. set_solver.
Qed.

(** agent->prev->next = next, or agents = next for the first element. *)
Lemma link_forward t l1 nxt nxt' :
  NoDup l1.*1 → linked (al_heap t) None l1 nxt → al_head t = hd_ptr l1 nxt →
  ∃ t', match last_ptr l1 None with
        | Some q => store q (with_next nxt')
        | None => modify (set_head nxt')
        end t = Done (tt, t') ∧
    linked (al_heap t') None l1 nxt' ∧ al_head t' = hd_ptr l1 nxt' ∧ rewired t t' l1.
Proof.
  intros Hnd Hl Hh. destruct (decide (l1 = [])) as [->|Hne].
  - by exists (set_head nxt' t).
  - destruct (exists_last Hne) as (l' & [q eq] & ->). unfold last_ptr. rewrite last_snoc. simpl.
    destruct (linked_relink _ _ _ _ _ _ nxt' Hnd Hl) as (a & Ha & _ & Hl').
    exists (set_heap (<[q := with_next nxt' a]> (al_heap t)) t). split_and!.
    + by apply store_run.
    + done.
    + simpl. rewrite Hh. by destruct l' as [|[]].
    + apply rewired_store; [done|]. rewrite fmap_app. set_solver.
Qed.

(** agent->next->prev = prev, when there is a next element. *)
Lemma link_back t l2 prv prv' :
  NoDup l2.*1 → linked (al_heap t) prv l2 None →
  ∃ t', match hd_ptr l2 None with
        | Some q => store q (with_prev prv')
        | None => mret tt
        end t = Done (tt, t') ∧
    linked (al_heap t') prv' l2 None ∧ al_head t' = al_head t ∧ rewired t t' l2.
Proof.
  intros Hnd Hl. destruct l2 as [|[q eq] l2]; [by exists t|].
  destruct (linked_reback _ _ _ _ _ _ prv' Hnd Hl) as (a & Ha & _ & Hl'). cbn [hd_ptr].
  exists (set_heap (<[q := with_prev prv' a]> (al_heap t)) t). split_and!.
  - by apply store_run.
  - done.
  - done.
  - apply rewired_store; [done|]. set_solver.
Qed.

(** ** Searching *)
Lemma search_run (P : entry → bool) m s : ∀ l fuel prv,
  (∀ x, x ∈ l → ∀ n q, m (elem x.2 n q) s = Done (P x.2, s)) →
  linked (al_heap s) prv l None → length l < fuel →
  search fuel m (hd_ptr l None) s = Done (fst <$> find_first (λ x, P x.2) l, s).
Proof.
  induction l as [|[p e] l IH]; intros [|f] prv Hm Hl Hf; simpl in *; try lia; [done|].
  destruct Hl as [Hp Hl]. rewrite (bind_run _ _ _ _ _ (load_run _ _ _ Hp)).
  rewrite (bind_run _ _ _ _ _ (Hm (p, e) ltac:(set_solver) _ _)). simpl.
  destruct (P e); [done|]. eapply IH; [|done|lia]. intros. apply Hm. set_solver.
Qed.

Section ops.
Context (s : alist) (l : registry) (Hrep : represents s l).

Lemma by_ncsid_run id : srv_get_agent_by_ncsid id s = Done (reg_by_ncsid id l, s).
Proof using Hrep.
  unfold srv_get_agent_by_ncsid. rewrite !bind_gets, (rep_head _ _ Hrep).
  pose proof (search_run (λ e, bool_decide (id = e_ncsid e))) as Hs. eapply Hs; [|apply Hrep|by apply rep_size].
  intros x Hx n q. unfold ncsid_matches.
  pose proof (proj1 (Forall_forall _ _) (rep_ok _ _ Hrep) x Hx) as Hok. hnf in Hok.
  simpl. by rewrite Hok.
Qed.

Lemma by_agentid_run id : srv_get_agent_by_agentid id s = Done (reg_by_agentid id l, s).
Proof using Hrep.
  unfold srv_get_agent_by_agentid. rewrite !bind_gets, (rep_head _ _ Hrep).
  pose proof (search_run (λ e, bool_decide (id = e_id e))) as Hs. eapply Hs; [done|apply Hrep|by apply rep_size].
Qed.

(** ** Adding *)
Lemma last_agent_run t : ∀ l1 q eq fuel prv,
  linked (al_heap t) prv (l1 ++ [(q, eq)]) None → length l1 < fuel →
  ∀ p, hd_ptr (l1 ++ [(q, eq)]) None = Some p → last_agent fuel p t = Done (q, t).
Proof using.
  induction l1 as [|[p e] l1 IH]; intros q eq [|f] prv Hl Hf p' Hp; simpl in *; try lia;
    destruct Hl as [Hp' Hl]; simplify_eq.
  - by rewrite (bind_run _ _ _ _ _ (load_run _ _ _ Hp')).
  - rewrite (bind_run _ _ _ _ _ (load_run _ _ _ Hp')). simpl.
    destruct (hd_ptr (l1 ++ [(q, eq)]) None) as [p|] eqn:E.
    + eapply IH; [done|lia|done].
    + by destruct l1 as [|[]].
Qed.

Lemma fresh_new p : p ∈ l.*1 → p ≠ al_fresh s.
Proof using Hrep.
  intros ([? ?] & -> & Hx)%list_elem_of_fmap.
  pose proof (proj1 (Forall_forall _ _) (rep_fresh _ _ Hrep) _ Hx). simpl in *. lia.
Qed.

(** The elements after [calloc()]. *)
Definition grown (e : entry) : registry := l ++ [(al_fresh s, e)].

Lemma grown_nodup e : NoDup (grown e).*1.
Proof using Hrep.
  unfold grown. rewrite fmap_app, NoDup_app. split; [apply Hrep|].
  split; [|apply NoDup_singleton].
  intros p Hp ->%list_elem_of_singleton. by apply (fresh_new (al_fresh s)).
Qed.

Lemma grown_rep e s' : entry_ok e →
  al_head s' = hd_ptr (grown e) None → linked (al_heap s') None (grown e) None →
  dom (al_heap s') = {[al_fresh s]} ∪ dom (al_heap s) → al_fresh s' = S (al_fresh s) →
  represents s' (grown e).
Proof using Hrep.
  intros He H1 H2 H3 H4. constructor; try done; [apply grown_nodup| | |].
  - rewrite H3, (rep_heap _ _ Hrep). unfold grown. rewrite fmap_app, list_to_set_app_L.
    simpl. set_solver.
  - rewrite H4. apply Forall_app. split; [|by repeat constructor].
    eapply Forall_impl; [apply Hrep|]. simpl. lia.
  - apply Forall_app. split; [apply Hrep|]. by repeat constructor.
Qed.

Definition allocated (a : agent_info) : alist :=
  AList (al_head s) (<[al_fresh s := a]> (al_heap s)) (S (al_fresh s)) (al_killed s).

Lemma allocated_links a : linked (al_heap (allocated a)) None l None.
Proof using Hrep.
  eapply linked_ext; [|apply Hrep]. intros x Hx. apply lookup_insert_ne.
  intros <-. by apply (fresh_new (al_fresh s)).
Qed.

Lemma allocated_fuel a : length l < walk_fuel (allocated a).
Proof using Hrep.
  unfold walk_fuel. simpl. rewrite map_size_insert_None; [pose proof (rep_size _ _ Hrep);
    unfold walk_fuel in *; lia|].
  apply not_elem_of_dom. rewrite (rep_heap _ _ Hrep), elem_of_list_to_set.
  intros Hx. by apply (fresh_new (al_fresh s)).
Qed.

(** The new element linked behind the last one. *)
Lemma append_links l1 q eq e :
  l = l1 ++ [(q, eq)] → entry_ok e →
  ∃ s', (_ ← store q (with_next (Some (al_fresh s)));
         store (al_fresh s) (with_prev (Some q))) (allocated (elem e None None)) = Done (tt, s') ∧
    represents s' (grown e) ∧ al_killed s' = al_killed s.
Proof using Hrep.
  intros Hl He. pose proof (allocated_links (elem e None None)) as Hl1. rewrite Hl in Hl1.
  assert (NoDup (l1 ++ [(q, eq)]).*1) as Hnd by (rewrite <-Hl; apply Hrep).
  destruct (linked_relink _ _ _ _ _ _ (Some (al_fresh s)) Hnd Hl1) as (b & Hb & _ & Hl2).
  rewrite (bind_run _ _ _ _ _ (store_run _ _ _ _ Hb)).
  assert (q ∈ l.*1) as Hq by (rewrite Hl, fmap_app; set_solver).
  assert (q ≠ al_fresh s) as Hne by by apply fresh_new.
  eexists. split; [apply store_run; simpl; rewrite lookup_insert_ne by done;
    apply lookup_insert_eq|].
  split; [|done]. apply grown_rep; simpl; try done.
  - rewrite (rep_head _ _ Hrep). unfold grown. rewrite hd_ptr_app, Hl. by destruct l1 as [|[]].
  - apply linked_app. split.
    + rewrite Hl. eapply linked_ext; [|exact Hl2]. intros x Hx. apply lookup_insert_ne.
      intros <-. apply (fresh_new (al_fresh s)); [|done]. by rewrite Hl.
    + simpl. rewrite lookup_insert_eq. split; [|done]. unfold last_ptr.
      by rewrite Hl, last_snoc.
  - rewrite !dom_insert_L. cut (q ∈ dom (al_heap s)); [set_solver|].
    rewrite (rep_heap _ _ Hrep). by apply elem_of_list_to_set.
Qed.

Lemma agent_new_run ncsid user c id pid :
  ∃ s', srv_agent_new ncsid user c id pid s = Done (tt, s') ∧
    represents s' (grown (new_entry ncsid user c id pid)) ∧ al_killed s' = al_killed s.
Proof using Hrep.
  set (e := new_entry ncsid user c id pid).
  assert (entry_ok e) as He by apply dummy_id.
  unfold srv_agent_new. rewrite bind_gets.
  rewrite (bind_run _ _ _ _ (allocated (elem e None None))) by done.
  rewrite (rep_head _ _ Hrep). destruct (decide (l = [])) as [El|Hne].
  - rewrite El. cbn [hd_ptr]. rewrite bind_modify. eexists.
    split; [apply store_run; simpl; apply lookup_insert_eq|]. split; [|done].
    apply grown_rep; unfold grown; rewrite ?El; simpl; try done.
    + by rewrite lookup_insert_eq.
    + rewrite insert_insert_eq, dom_insert_L. set_solver.
  - destruct (exists_last Hne) as (l1 & [q eq] & Hl).
    destruct (hd_ptr l None) as [p|] eqn:Hp; [|by destruct l as [|[]]].
    rewrite bind_gets. erewrite bind_run; [apply (append_links l1 q eq e Hl He)|].
    apply last_agent_run with (l1 := l1) (eq := eq) (prv := None).
    + rewrite <-Hl. apply allocated_links.
    + pose proof (allocated_fuel (elem e None None)) as Hf. rewrite Hl, length_app in Hf.
      simpl in *. lia.
    + by rewrite <-Hl.
Qed.

(** ** Removing *)

Lemma agent_stop_run p e l1 l2 :
  l = l1 ++ (p, e) :: l2 →
  ∃ s', srv_agent_stop p s = Done (tt, s') ∧ represents s' (l1 ++ l2) ∧
    al_killed s' = al_killed s.
Proof using Hrep.
  intros Hl. destruct Hrep as [Hnd Hhead Hlinks Hdom Hfr Hok].
  rewrite Hl in Hnd, Hlinks, Hhead, Hdom. rewrite Hl in Hfr, Hok.
  apply linked_app in Hlinks as [H1 [Hp H2]]. cbn [hd_ptr] in *.
  rewrite fmap_app, fmap_cons in Hnd. apply NoDup_app in Hnd as (Hn1 & Hd & Hn2).
  apply NoDup_cons in Hn2 as [Hp2 Hn2]. cbn [fst] in *.
  assert (p ∉ l1.*1) as Hp1 by (intros Hx; apply (Hd p Hx); set_solver).
  unfold srv_agent_stop. rewrite (bind_run _ _ _ _ _ (load_run _ _ _ Hp)). cbn [elem ag_prev ag_next].
  destruct (link_forward s l1 (Some p) (hd_ptr l2 None) Hn1 H1) as (t & Ht & Hl1 & Hht & Ht1 & Ht2 & Ht3 & Ht4).
  { rewrite Hhead, hd_ptr_app. done. }
  rewrite (bind_run _ _ _ _ _ Ht).
  destruct (link_back t l2 (Some p) (last_ptr l1 None) Hn2) as (u & Hu & Hl2 & Hhu & Hu1 & Hu2 & Hu3 & Hu4).
  { eapply linked_ext; [|exact H2]. intros x Hx. apply Ht1. intros Hx1. apply (Hd x Hx1). set_solver. }
  rewrite (bind_run _ _ _ _ _ Hu). unfold free_agent.
  erewrite bind_run by (apply load_run; rewrite Hu1, Ht1 by done; exact Hp).
  eexists. split; [reflexivity|]. cbn. split; [|congruence]. constructor; cbn.
  - rewrite fmap_app. apply NoDup_app. split_and!; [done| |done]. intros x Hx. specialize (Hd x Hx). set_solver.
  - by rewrite Hhu, Hht, hd_ptr_app.
  - apply linked_app. split; (eapply linked_ext; [|done || exact Hl1]); intros x Hx.
    + rewrite lookup_delete_ne by (by intros <-). apply Hu1. intros Hx2. apply (Hd x Hx). set_solver.
    + apply lookup_delete_ne. by intros <-.
  - rewrite dom_delete_L, Hu2, Ht2, Hdom, !fmap_app, !list_to_set_app_L. simpl.
    clear -Hp1 Hp2. set_solver.
  - rewrite Hu3, Ht3. apply Forall_app in Hfr as [? Hx]. apply Forall_cons in Hx as [_ ?]. by apply Forall_app.
  - apply Forall_app in Hok as [? Hx]. apply Forall_cons in Hx as [_ ?]. by apply Forall_app.
Qed.
End ops.

Lemma agent_kill_run s l p e l1 l2 :
  represents s l → l = l1 ++ (p, e) :: l2 →
  ∃ s', srv_agent_kill p s = Done (tt, s') ∧ represents s' (l1 ++ l2) ∧
    al_killed s' = e_pid e :: al_killed s.
Proof.
  intros Hrep Hl. destruct (linked_lookup _ _ p e _ _ (rep_links _ _ Hrep)) as (n & q & Hp).
  { rewrite Hl. set_solver. }
  unfold srv_agent_kill. rewrite (bind_run _ _ _ _ _ (load_run _ _ _ Hp)).
  unfold kill. rewrite bind_modify. cbn [elem ag_pid]. set (s1 := AList _ _ _ _).
  assert (represents s1 l) as Hrep1 by (destruct Hrep; by constructor).
  destruct (agent_stop_run s1 l Hrep1 p e l1 l2 Hl) as (s' & H1 & H2 & H3). eauto.
Qed.

(** An element is removed by its address. *)
Lemma reg_split s l p : represents s l → p ∈ l.*1 →
  ∃ e l1 l2, l = l1 ++ (p, e) :: l2 ∧ reg_remove p l = l1 ++ l2.
Proof.
  intros Hrep ([p' e] & -> & Hin)%list_elem_of_fmap.
  apply list_elem_of_split in Hin as (l1 & l2 & ->). exists e, l1, l2. split; [done|].
  pose proof (rep_nodup _ _ Hrep) as Hnd. rewrite fmap_app, fmap_cons in Hnd.
  apply NoDup_app in Hnd as (_ & H1 & [H2 _]%NoDup_cons). simpl in *.
  unfold reg_remove. rewrite filter_app, filter_cons_False by naive_solver.
  f_equal; apply filter_keeps_all; intros x Hx Heq.
  - apply (H1 p'); [|set_solver]. rewrite <-Heq. by apply list_elem_of_fmap_2.
  - destruct H2. rewrite <-Heq. by apply list_elem_of_fmap_2.
Qed.

Lemma agent_stop_in s l p e : represents s l → (p, e) ∈ l →
  ∃ s', srv_agent_stop p s = Done (tt, s') ∧ represents s' (reg_remove p l) ∧
    al_killed s' = al_killed s.
Proof.
  intros Hrep Hin. assert (p ∈ l.*1) as Hp by (apply list_elem_of_fmap; by exists (p, e)).
  destruct (reg_split _ _ _ Hrep Hp) as (e' & l1 & l2 & Hl & ->).
  by apply (agent_stop_run s l Hrep p e' l1 l2).
Qed.

Lemma agent_kill_in s l p e : represents s l → (p, e) ∈ l →
  ∃ s', srv_agent_kill p s = Done (tt, s') ∧ represents s' (reg_remove p l) ∧
    al_killed s' = e_pid e :: al_killed s.
Proof.
  intros Hrep Hin. assert (p ∈ l.*1) as Hp by (apply list_elem_of_fmap; by exists (p, e)).
  destruct (reg_split _ _ _ Hrep Hp) as (e' & l1 & l2 & Hl & ->).
  assert ((p, e') ∈ l) as Hin' by (rewrite Hl; set_solver).
  rewrite (nodup_key_unique _ _ _ _ (rep_nodup _ _ Hrep) Hin Hin').
  by apply (agent_kill_run s l p e' l1 l2).
Qed.

(** ** The interface of server_ops.h *)
Inductive reg_op :=
| SrvNew (ncsid user : string) (c : nc_cpblts) (id : string) (pid : Z)
| SrvStop (p : aptr)
| SrvKill (p : aptr)
| SrvByNcsid (id : string)
| SrvByAgentid (id : string).

Definition srv_call (op : reg_op) : M alist (option aptr) :=
  match op with
  | SrvNew ncsid user c id pid => _ ← srv_agent_new ncsid user c id pid; mret None
  | SrvStop p => _ ← srv_agent_stop p; mret None
  | SrvKill p => _ ← srv_agent_kill p; mret None
  | SrvByNcsid id => srv_get_agent_by_ncsid id
  | SrvByAgentid id => srv_get_agent_by_agentid id
  end.

(** What a call promises: on the registry, and on the processes it stops. *)
Inductive reg_step : reg_op → registry → option aptr → registry → list Z → Prop :=
| step_new ncsid user c id pid l p : p ∉ l.*1 →
    reg_step (SrvNew ncsid user c id pid) l None (l ++ [(p, new_entry ncsid user c id pid)]) []
| step_stop p l : p ∈ l.*1 → reg_step (SrvStop p) l None (reg_remove p l) []
| step_kill p e l : (p, e) ∈ l → reg_step (SrvKill p) l None (reg_remove p l) [e_pid e]
| step_by_ncsid id l : reg_step (SrvByNcsid id) l (reg_by_ncsid id l) l []
| step_by_agentid id l : reg_step (SrvByAgentid id) l (reg_by_agentid id l) l [].

(** Callers pass handles of registered agents. *)
Definition callable (op : reg_op) (l : registry) : Prop :=
  match op with SrvStop p | SrvKill p => p ∈ l.*1 | _ => True end.

Lemma srv_call_refines op s l :
  represents s l → callable op l →
  ∃ r s' l' ks, srv_call op s = Done (r, s') ∧ reg_step op l r l' ks ∧ represents s' l' ∧
    al_killed s' = ks ++ al_killed s.
Proof.
  intros Hrep Hop. destruct op as [ncsid user c id pid|p|p|id|id]; cbn [srv_call callable] in *.
  - destruct (agent_new_run s l Hrep ncsid user c id pid) as (s' & H1 & H2 & H3).
    rewrite (bind_run _ _ _ _ _ H1). eexists _, _, _, []. split_and!; [done| |exact H2|done].
    constructor. intros Hx. by apply (fresh_new s l Hrep (al_fresh s)).
  - apply list_elem_of_fmap in Hop as ([p' e] & -> & Hin).
    destruct (agent_stop_in s l p' e Hrep Hin) as (s' & H1 & H2 & H3).
    rewrite (bind_run _ _ _ _ _ H1). eexists _, _, _, [].
    split_and!; [done|constructor; by eapply list_elem_of_fmap_2|done|done].
  - apply list_elem_of_fmap in Hop as ([p' e] & -> & Hin).
    destruct (agent_kill_in s l p' e Hrep Hin) as (s' & H1 & H2 & H3).
    rewrite (bind_run _ _ _ _ _ H1). eexists _, _, _, [e_pid e].
    split_and!; [done|by constructor|done|done].
  - rewrite (by_ncsid_run s l Hrep). eexists _, _, _, []. split_and!; [done|constructor|done|done].
  - rewrite (by_agentid_run s l Hrep). eexists _, _, _, []. split_and!; [done|constructor|done|done].
Qed.

(** ** Sequences of calls *)
Fixpoint srv_calls (ops : list reg_op) : M alist (list (option aptr)) :=
  match ops with
  | [] => mret []
  | op :: ops' => r ← srv_call op; rs ← srv_calls ops'; mret (r :: rs)
  end.

Inductive reg_steps : list reg_op → registry → list (option aptr) → registry → list Z → Prop :=
| steps_nil l : reg_steps [] l [] l []
| steps_cons op ops l r l1 ks rs l2 ks' :
    reg_step op l r l1 ks → reg_steps ops l1 rs l2 ks' →
    reg_steps (op :: ops) l (r :: rs) l2 (ks' ++ ks).

(** The handles are valid, whatever the registry chose for new ones. *)
Fixpoint callables (ops : list reg_op) (l : registry) : Prop :=
  match ops with
  | [] => True
  | op :: ops' => callable op l ∧ ∀ r l' ks, reg_step op l r l' ks → callables ops' l'
  end.


Lemma srv_calls_refine ops : ∀ s l, represents s l → callables ops l →
  ∃ rs s' l' ks, srv_calls ops s = Done (rs, s') ∧ reg_steps ops l rs l' ks ∧
    represents s' l' ∧ al_killed s' = ks ++ al_killed s.
Proof.
  induction ops as [|op ops IH]; intros s l Hrep; cbn [srv_calls callables].
  - intros _. eexists [], s, l, []. split_and!; [done|constructor|done|done].
  - intros [Hop Hops].
    destruct (srv_call_refines op s l Hrep Hop) as (r & s1 & l1 & ks & H1 & Hs & Hrep1 & Hk1).
    destruct (IH s1 l1 Hrep1 (Hops _ _ _ Hs)) as (rs & s2 & l2 & ks2 & H2 & Hss & Hrep2 & Hk2).
    exists (r :: rs), s2, l2, (ks2 ++ ks). split_and!; [|by econstructor|done|].
    + by rewrite (bind_run _ _ _ _ _ H1), (bind_run _ _ _ _ _ H2).
    + by rewrite Hk2, Hk1, app_assoc.
Qed.

Lemma no_agents_rep : represents no_agents [].
Proof. constructor; by try constructor. Qed.

(** What the calls look up is registered. *)
Lemma by_agentid_in id l p : reg_by_agentid id l = Some p →
  ∃ e, (p, e) ∈ l ∧ e_id e = id.
Proof.
  intros ([p' e] & [Hin Hid%bool_decide_eq_true]%find_first_Some & ->)%fmap_Some.
  exists e. by split.
Qed.
Lemma by_ncsid_in id l p : reg_by_ncsid id l = Some p →
  ∃ e, (p, e) ∈ l ∧ e_ncsid e = id.
Proof.
  intros ([p' e] & [Hin Hid%bool_decide_eq_true]%find_first_Some & ->)%fmap_Some.
  exists e. by split.
Qed.
Lemma in_handles p e l : (p, e) ∈ (l : registry) → p ∈ l.*1.
Proof. intros H. apply list_elem_of_fmap. by exists (p, e). Qed.
End registry.
