(* ===== verification/Sockets.v ===== *)
(** * Sockets between agents and server (comm_socket.h, comm_socket.c)

    The connection of an agent is a UNIX stream socket: two queues of bytes.
    The kernel decides how a send() is cut into pieces and how much of what is
    there a recv() returns; the first is the class [SocketLib], the second a
    list of events in the state, over which all theorems quantify.  Integers
    travel in their representation in memory, little-endian here; both ends run
    on the same host. *)

From S2P Require Import Prelude.
From coqutil Require Export Word.LittleEndianList.

Notation byte := Init.Byte.byte.
#[global] Instance byte_eq_dec : EqDecision byte := Byte.byte_eq_dec.

(** ** The kernel and the allocator *)
Class SocketLib := {
  (* what one send() leaves in the peer's receive queue *)
  send_split : list byte → list (list byte);
  split_concat bs : concat (send_split bs) = bs;
  split_nonempty bs : Forall (λ c, c ≠ []) (send_split bs);
  (* Short messages are not torn: so on the UNIX sockets used here, where send()
     queues a message as a whole when it has room for it, though nothing in
     POSIX promises it of a stream socket.  The code relies on it: recv() of an
     int or of a string is not repeated. *)
  atomic : nat;
  atomic_int : 4 ≤ atomic;
  split_atomic bs : length bs ≤ atomic → bs ≠ [] → send_split bs = [bs];
  (* does malloc() of that many bytes succeed? *)
  malloc_ok : Z → bool
}.

(** ** Connections *)
Record conn := Conn {
  c_in : list (list byte);     (* from the agent, unread by the server *)
  c_out : list (list byte);    (* from the server, unread by the agent *)
  c_hup : bool;                (* the agent has closed its end *)
  c_shut : bool }.             (* the server has closed its end *)

(** The behaviour of the next recv(): it returns what the first 1 + j pieces
    hold, or fails. *)
Inductive recv_event := Take (j : nat) | Again | RecvErr.

Inductive recv_result := Received (bs : list byte) | RecvAgain | RecvFailed.

Record net := Net {
  n_conns : gmap Z conn;
  n_sched : list recv_event }.

(** The descriptors of the server that are open.  After close() the entry stays
    for the agent at the other end, but the number is free. *)
Definition open_fds (n : net) : gset Z := dom (filter (λ p, c_shut p.2 = false) (n_conns n)).

Inductive endpoint := AtServer | AtAgent.

Definition rx (e : endpoint) (c : conn) : list (list byte) :=
  match e with AtServer => c_in c | AtAgent => c_out c end.
Definition set_rx (e : endpoint) (q : list (list byte)) (c : conn) : conn :=
  match e with
  | AtServer => Conn q (c_out c) (c_hup c) (c_shut c)
  | AtAgent => Conn (c_in c) q (c_hup c) (c_shut c)
  end.
Definition peer (e : endpoint) : endpoint :=
  match e with AtServer => AtAgent | AtAgent => AtServer end.
Definition closed_by_peer (e : endpoint) (c : conn) : bool :=
  match e with AtServer => c_hup c | AtAgent => c_shut c end.

Definition set_conn (fd : Z) (c : conn) (n : net) : net :=
  Net (<[fd := c]> (n_conns n)) (n_sched n).

Fixpoint drop_bytes (n : nat) (q : list (list byte)) : list (list byte) :=
  match q with
  | [] => []
  | c :: q' =>
      if bool_decide (n < length c) then drop n c :: q' else drop_bytes (n - length c) q'
  end.

(** recv(fd, buf, n, flags); None when it has to wait. *)
Definition sys_recv (e : endpoint) (fd : Z) (n : nat) : M net (option recv_result) := λ s,
  match n_conns s !! fd with
  | None => Done (Some RecvFailed, s)
  | Some c =>
      let q := rx e c in
      let '(ev, rest) := match n_sched s with
                         | [] => (Take (length q), [])
                         | ev :: l => (ev, l)
                         end in
      match ev with
      | Again => Done (Some RecvAgain, Net (n_conns s) rest)
      | RecvErr => Done (Some RecvFailed, Net (n_conns s) rest)
      | Take j =>
          match q with
          | [] => if closed_by_peer e c then Done (Some (Received []), Net (n_conns s) rest)
                  else Done (None, s)
          | _ =>
              let bs := take n (concat (take (S j) q)) in
              Done (Some (Received bs),
                    Net (<[fd := set_rx e (drop_bytes (length bs) q) c]> (n_conns s)) rest)
          end
      end
  end.

Section sockets.
Context {SL : SocketLib}.

(** send(fd, buf, n, MSG_NOSIGNAL); its result is never looked at. *)
Definition sys_send (e : endpoint) (fd : Z) (bs : list byte) : M net unit := λ s,
  match n_conns s !! fd with
  | None => Done (tt, s)
  | Some c => Done (tt, set_conn fd (set_rx (peer e) (rx (peer e) c ++ send_split bs) c) s)
  end.
End sockets.

(** ** Memory of a receiver *)

(** Memory that may not have been written. *)
Definition memory := list (option byte).
Definition uninit (n : nat) : memory := replicate n None.
Definition bytes_of (mem : memory) : option (list byte) := mapM id mem.

Definition overwrite (bs : list byte) (mem : memory) : memory :=
  (Some <$> bs) ++ drop (length bs) mem.

(** The value of an unsigned variable. *)
Definition load_uint {S} (mem : memory) : M S Z :=
  bs ← deref Uninitialised (bytes_of mem); mret (le_combine bs).
(** ... of an int *)
Definition load_int {S} (mem : memory) : M S Z :=
  z ← load_uint mem; mret (if (z <? 2 ^ 31)%Z then z else (z - 2 ^ 32)%Z).

Definition enc_int (z : Z) : list byte := le_split 4 z.
Definition enc_short (z : Z) : list byte := le_split 2 z.

(** A C string with its terminating NUL. *)
Definition enc_str (s : string) : list byte := String.list_byte_of_string s ++ [Init.Byte.x00].

(** The C string in a buffer. *)
Fixpoint mem_string {S} (mem : memory) : M S string :=
  match mem with
  | [] => crash OutOfBounds
  | None :: _ => crash Uninitialised
  | Some b :: mem' =>
      if bool_decide (b = Init.Byte.x00) then mret EmptyString
      else s ← mem_string mem'; mret (String (Ascii.ascii_of_byte b) s)
  end.
Definition buf_string {S} (buf : option memory) : M S string :=
  match buf with Some mem => mem_string mem | None => crash NullDeref end.

(** ** recv_msg (comm_socket.c)

    [recv] is recv() as the calling process sees it. *)
Section recv_msg.
Context {SL : SocketLib} {S : Type} (recv : nat → M S recv_result).

(** recv(socket, &var, sizeof var, ...) without a look at its result *)
Definition recv_var (mem : memory) : M S memory :=
  r ← recv (length mem);
  match r with
  | Received bs => mret (overwrite bs mem)
  | _ => mret mem
  end.

(** buf = malloc(len); recv(socket, buf, len, ...) *)
Definition recv_buf (len : Z) : M S (option memory) :=
  if malloc_ok len then
    mem ← recv_var (uninit (Z.to_nat len)); mret (Some mem)
  else mret None.

Definition comm_failed : nc_err :=
  set_msg "agent-server communication failed." (nc_err_new NC_ERR_OP_FAILED).
Definition malloc_failed : nc_err :=
  set_msg "Memory allocation failed." (nc_err_new NC_ERR_OP_FAILED).

(** while (recv_len < len); [msg] is what has been received. *)
Fixpoint recv_msg_loop (fuel : nat) (len : nat) (msg : list byte)
  : M S (nc_err + list byte) :=
  match fuel with
  | 0 => nofuel
  | Datatypes.S f =>
      if bool_decide (length msg < len) then
        r ← recv (len - length msg);
        match r with
        | Received [] => mret (inl comm_failed)
        | Received bs => recv_msg_loop f len (msg ++ bs)
        | RecvAgain => recv_msg_loop f len msg
        | RecvFailed => mret (inl comm_failed)
        end
      else mret (inr msg)
  end.

(** The error is stored in *err unless err is NULL. *)
Definition recv_msg (fuel : nat) (len : Z) : M S (nc_err + list byte) :=
  if malloc_ok len then recv_msg_loop fuel (Z.to_nat len) []
  else mret (inl malloc_failed).
End recv_msg.

(** Enough for recv_msg(): every round uses up an event or receives a byte. *)
Definition recv_fuel (len : Z) (n : net) : nat := S (length (n_sched n) + Z.to_nat len).

(** enum COMM_SOCKET_MSGTYPE *)
Definition COMM_SOCK_RESULT_ERROR : Z := -1.
Definition COMM_SOCK_GET_CPBLTS : Z := 1.
Definition COMM_SOCK_SET_SESSION : Z := 2.
Definition COMM_SOCK_CLOSE_SESSION : Z := 3.
Definition COMM_SOCK_KILL_SESSION : Z := 4.
Definition COMM_SOCK_GENERICOP : Z := 5.
