(* ===== verification/Rpc.v ===== *)
(** * Requests and replies (server_ops.c, libnetconf)

    NETCONF requests and replies belong to libnetconf, as does the dispatch of a
    request to the datastores, whose callbacks are those of
    ofconfig-datastore.c: class [NcRpc].  srv_process_rpc() of server_ops.c is
    what the server adds. *)

From S2P Require Import Prelude.
From S2P Require Import Agents.

(** What ncds_apply_rpc2all() returns. *)
Inductive apply_result (R : Type) :=
| ReplyNull
| NCDS_RPC_NOT_APPLICABLE
| Reply (r : R).
Arguments ReplyNull {_}.
Arguments NCDS_RPC_NOT_APPLICABLE {_}.
Arguments Reply {_} _.

(** [dev] is the state of the datastores.  A dump is a C string; dumping and
    building again gives the same message. *)
Class NcRpc {NS : NcSession} := {
  nc_rpc : Type;
  nc_reply : Type;
  dev : Type;
  nc_rpc_dump : nc_rpc → string;
  nc_rpc_build : string → nc_session → option nc_rpc;
  nc_reply_dump : nc_reply → option string;
  nc_reply_build : string → option nc_reply;
  nc_reply_error : nc_err → nc_reply;
  nc_reply_ok : nc_reply;
  ncds_apply_rpc2all : nc_session → option nc_rpc → M dev (apply_result nc_reply);
  nc_session_get_cpblts_default : list string;
  rpc_roundtrip r ses : nc_rpc_build (nc_rpc_dump r) ses = Some r;
  reply_roundtrip r d : nc_reply_dump r = Some d → nc_reply_build d = Some r;
  rpc_dump_nonul r : nonul (String.list_ascii_of_string (nc_rpc_dump r));
  reply_dump_nonul r d : nc_reply_dump r = Some d → nonul (String.list_ascii_of_string d);
  error_dumps e : is_Some (nc_reply_dump (nc_reply_error e));
  default_nonul : Forall (λ c, nonul (String.list_ascii_of_string c)) nc_session_get_cpblts_default
}.

Section rpc.
Context {NS : NcSession} {NR : NcRpc}.

Definition not_applicable : nc_err :=
  set_msg "Request is not applicable to the data managed by the server"
    (nc_err_new NC_ERR_OP_FAILED).

Definition srv_process_rpc (session : nc_session) (rpc : option nc_rpc)
  : M dev (apply_result nc_reply) :=
  r ← ncds_apply_rpc2all session rpc;
  match r with
  | ReplyNull => mret (Reply (nc_reply_error (nc_err_new NC_ERR_OP_FAILED)))
  | NCDS_RPC_NOT_APPLICABLE => mret (Reply (nc_reply_error not_applicable))
  | Reply r => mret (Reply r)
  end.

(** err = nc_err_new(...); nc_err_set(...); nc_reply_error(err) of the agents' calls *)
Definition op_failed (errmsg : option string) : nc_reply :=
  nc_reply_error (match errmsg with
                  | Some m => set_msg m (nc_err_new NC_ERR_OP_FAILED)
                  | None => nc_err_new NC_ERR_OP_FAILED
                  end).

(** It always has a reply. *)
Definition processed (session : nc_session) (rpc : option nc_rpc) : M dev nc_reply :=
  r ← ncds_apply_rpc2all session rpc;
  mret match r with
       | ReplyNull => nc_reply_error (nc_err_new NC_ERR_OP_FAILED)
       | NCDS_RPC_NOT_APPLICABLE => nc_reply_error not_applicable
       | Reply r => r
       end.

Lemma srv_process_rpc_eq session rpc d :
  srv_process_rpc session rpc d = (r ← processed session rpc; mret (Reply r)) d.
Proof.
  unfold srv_process_rpc, processed, mbind, M_bind.
  by destruct (ncds_apply_rpc2all session rpc d) as [[[] ?]| |].
Qed.
End rpc.
