(* ===== verification/ServerSocket.v ===== *)
(** * The server's side of the sockets (server_comm_socket.c)

    The table of pollfd structures, the handlers of the five messages and the
    communication loop.  What poll(), accept() and the calls of comm_init()
    return is an argument: [poll_env], [init_env]. *)

From S2P Require Import Prelude.
From S2P Require Import Agents.
From S2P Require Import Rpc.
From S2P Require Import Sockets.
From stdpp Require Import pretty.

Definition AGENTS_QUEUE : nat := 10.
Definition POLLIN : Z := 1.
Definition POLLERR : Z := 8.
Definition POLLHUP : Z := 16.
Definition POLLNVAL : Z := 32.

Record pollfd := PollFd { p_fd : Z; p_revents : Z }.

Definition is_broken (r : Z) : bool :=
  negb (Z.land r (Z.lor POLLERR (Z.lor POLLHUP POLLNVAL)) =? 0)%Z.
Definition is_readable (r : Z) : bool := negb (Z.land r POLLIN =? 0)%Z.

Section server.
Context {NS : NcSession} {NR : NcRpc} {SL : SocketLib}.

(** The globals [agents] of server_ops.c and of this file, [connected_agents]
    and [sock]; whether OFC_SOCK_PATH exists; the kernel's connections; the
    datastores. *)
Record server := Server {
  sv_agents : alist;
  sv_poll : list pollfd;
  sv_connected : Z;
  sv_sock : Z;
  sv_path : bool;
  sv_net : net;
  sv_dev : dev }.

Definition set_agents (v : alist) (s : server) : server :=
  Server v (sv_poll s) (sv_connected s) (sv_sock s) (sv_path s) (sv_net s) (sv_dev s).
Definition set_poll (v : list pollfd) (s : server) : server :=
  Server (sv_agents s) v (sv_connected s) (sv_sock s) (sv_path s) (sv_net s) (sv_dev s).
Definition set_connected (v : Z) (s : server) : server :=
  Server (sv_agents s) (sv_poll s) v (sv_sock s) (sv_path s) (sv_net s) (sv_dev s).
Definition set_sock (v : Z) (s : server) : server :=
  Server (sv_agents s) (sv_poll s) (sv_connected s) v (sv_path s) (sv_net s) (sv_dev s).
Definition set_path (v : bool) (s : server) : server :=
  Server (sv_agents s) (sv_poll s) (sv_connected s) (sv_sock s) v (sv_net s) (sv_dev s).
Definition set_net (v : net) (s : server) : server :=
  Server (sv_agents s) (sv_poll s) (sv_connected s) (sv_sock s) (sv_path s) v (sv_dev s).
Definition set_dev (v : dev) (s : server) : server :=
  Server (sv_agents s) (sv_poll s) (sv_connected s) (sv_sock s) (sv_path s) (sv_net s) v.

Definition on_agents {A} (m : M alist A) : M server A := λ s,
  match m (sv_agents s) with
  | Done (a, v) => Done (a, set_agents v s)
  | Crash f => Crash f
  | NoFuel => NoFuel
  end.
Definition on_net {A} (m : M net A) : M server A := λ s,
  match m (sv_net s) with
  | Done (a, v) => Done (a, set_net v s)
  | Crash f => Crash f
  | NoFuel => NoFuel
  end.
Definition on_dev {A} (m : M dev A) : M server A := λ s,
  match m (sv_dev s) with
  | Done (a, v) => Done (a, set_dev v s)
  | Crash f => Crash f
  | NoFuel => NoFuel
  end.

(** ** Input and output *)

(** The server has no other thread: when nothing has arrived, it hangs. *)
Definition srv_recv (socket : Z) (n : nat) : M server recv_result :=
  r ← on_net (sys_recv AtServer socket n); deref Blocked r.
Definition srv_send (socket : Z) (bs : list byte) : M server unit :=
  on_net (sys_send AtServer socket bs).
Definition srv_recv_msg (socket : Z) (len : Z) : M server (nc_err + list byte) :=
  n ← gets (λ s, recv_fuel len (sv_net s)); recv_msg (srv_recv socket) n len.
Definition srv_recv_var (socket : Z) (mem : memory) : M server memory :=
  recv_var (srv_recv socket) mem.

(** snprintf(id, sizeof (id), "%d", socket) with char id[6] *)
Definition agent_id (socket : Z) : string := String.substring 0 5 (pretty socket).

(** A buffer filled by recv_msg(), as a string. *)
Definition msg_string (bs : list byte) : M server string := mem_string (Some <$> bs).

(** ** Handlers *)
Fixpoint send_cpblts (socket : Z) (l : list string) : M server unit :=
  match l with
  | [] => mret tt
  | cpblt :: l' =>
      _ ← srv_send socket (enc_int (Z.of_nat (length (enc_str cpblt))));
      _ ← srv_send socket (enc_str cpblt);
      send_cpblts socket l'
  end.

Definition get_capabilities (socket : Z) : M server unit :=
  _ ← srv_send socket (enc_int COMM_SOCK_GET_CPBLTS);
  _ ← srv_send socket (enc_int (Z.of_nat (length nc_session_get_cpblts_default)));
  send_cpblts socket nc_session_get_cpblts_default.

(** for (i = 0; i < cpblts_count; i++): the buffers received, or None; [len] is
    the variable of that name. *)
Fixpoint recv_cpblts (socket : Z) (n : nat) (len : memory)
  : M server (option (list (list byte))) :=
  match n with
  | 0 => mret (Some [])
  | S n' =>
      len ← srv_recv_var socket len;
      v ← load_uint len;
      r ← srv_recv_msg socket v;
      match r with
      | inl _ => mret None
      | inr bs => l ← recv_cpblts socket n' len; mret (cons bs <$> l)
      end
  end.

Fixpoint msg_strings (l : list (list byte)) : M server (list string) :=
  match l with
  | [] => mret []
  | bs :: l' => c ← msg_string bs; cs ← msg_strings l'; mret (c :: cs)
  end.

Definition set_session (socket : Z) : M server unit :=
  len ← srv_recv_var socket (uninit 4);
  v ← load_uint len;
  session_id ← recv_buf (srv_recv socket) v;
  pid ← srv_recv_var socket (uninit 2);
  len ← srv_recv_var socket len;
  v ← load_uint len;
  username ← recv_buf (srv_recv socket) v;
  cnt ← srv_recv_var socket (uninit 4);
  cpblts_count ← load_int cnt;
  (* cpblts_list[cpblts_count] = NULL *)
  if (cpblts_count <? 0)%Z then crash OutOfBounds
  else if negb (malloc_ok (8 * (cpblts_count + 1))) then crash NullDeref
  else
    l ← recv_cpblts socket (Z.to_nat cpblts_count) len;
    match l with
    | None => srv_send socket (enc_int COMM_SOCK_RESULT_ERROR)
    | Some l =>
        cs ← msg_strings l;
        sid ← buf_string session_id;
        user ← buf_string username;
        p ← load_uint pid;
        _ ← on_agents (srv_agent_new sid user (nc_cpblts_new cs) (agent_id socket) p);
        srv_send socket (enc_int COMM_SOCK_SET_SESSION)
    end.

Definition close_session (socket : Z) : M server unit :=
  sender ← on_agents (srv_get_agent_by_agentid (agent_id socket));
  match sender with
  | None => mret tt
  | Some p =>
      _ ← on_agents (srv_agent_stop p);
      srv_send socket (enc_int COMM_SOCK_CLOSE_SESSION)
  end.

(** The reply to kill-session: the result, and an error message. *)
Definition kill_reply (socket : Z) (result : Z) (errmsg : option string) : M server unit :=
  _ ← srv_send socket (enc_int result);
  match errmsg with
  | None => mret tt
  | Some m =>
      _ ← srv_send socket (enc_int (Z.of_nat (length (enc_str m))));
      srv_send socket (enc_str m)
  end.
Definition kill_refused (socket : Z) (errmsg : string) : M server unit :=
  kill_reply socket COMM_SOCK_RESULT_ERROR (Some errmsg).

Definition kill_session (socket : Z) : M server unit :=
  len ← srv_recv_var socket (replicate 4 (Some Init.Byte.x00));
  v ← load_uint len;
  r ← srv_recv_msg socket v;
  match r with
  | inl _ => kill_refused socket "SessionID expected as a string value"
  | inr bs =>
      ncsid2kill ← msg_string bs;
      session ← on_agents (srv_get_agent_by_ncsid ncsid2kill);
      match session with
      | None => kill_refused socket "Session to kill does not exists"
      | Some p =>
          sender ← on_agents (srv_get_agent_by_agentid (agent_id socket));
          match sender with
          | None => kill_refused socket "You are unknown client"
          | Some q =>
              a ← on_agents (load q);
              own ← on_agents (ncsid_matches ncsid2kill a);
              if own : bool then kill_refused socket "Killing own session requested"
              else
                _ ← on_agents (srv_agent_kill p);
                kill_reply socket COMM_SOCK_KILL_SESSION None
          end
      end
  end.

Definition unknown_agent : nc_err :=
  set_msg "request from unknown agent" (nc_err_new NC_ERR_OP_FAILED).
Definition no_reply : nc_err :=
  set_msg "For unknown reason no reply was returned by device." (nc_err_new NC_ERR_OP_FAILED).
Definition no_device : nc_err :=
  set_msg "There is no device/data that could be affected." (nc_err_new NC_ERR_OP_FAILED).

(** The label send_reply. *)
Definition send_reply (socket : Z) (reply : nc_reply) : M server unit :=
  msg_dump ← deref NullDeref (nc_reply_dump reply);
  _ ← srv_send socket (enc_int COMM_SOCK_GENERICOP);
  _ ← srv_send socket (enc_int (Z.of_nat (length (enc_str msg_dump))));
  srv_send socket (enc_str msg_dump).

Definition process_operation (socket : Z) : M server unit :=
  len ← srv_recv_var socket (uninit 4);
  v ← load_uint len;
  r ← srv_recv_msg socket v;
  match r with
  | inl err => send_reply socket (nc_reply_error err)
  | inr bs =>
      session ← on_agents (srv_get_agent_by_agentid (agent_id socket));
      match session with
      | None => send_reply socket (nc_reply_error unknown_agent)
      | Some p =>
          a ← on_agents (load p);
          msg_dump ← msg_string bs;
          reply ← on_dev (srv_process_rpc (ag_session a) (nc_rpc_build msg_dump (ag_session a)));
          send_reply socket (match reply with
                             | ReplyNull => nc_reply_error no_reply
                             | NCDS_RPC_NOT_APPLICABLE => nc_reply_error no_device
                             | Reply r => r
                             end)
      end
  end.
End server.
