(* ===== verification/ServerLoop.v ===== *)
(** * The communication loop of the server (server_comm_socket.c)

    comm_init(), comm_loop() and comm_destroy().  One call of comm_loop() polls
    the table of agents once, serves the agents that have something to say and
    accepts new ones. *)

From S2P Require Import Prelude.
From S2P Require Import Agents.
From S2P Require Import Rpc.
From S2P Require Import Sockets.
From S2P Require Import ServerSocket.

(** What the kernel answers to poll() (None: an error other than EINTR, after
    which poll() is called again) and accept(): the new sockets, and whether
    errno is EAGAIN when there are no more. *)
Record poll_env := PollEnv {
  pe_poll : option (list Z);
  pe_accept : list (Z * conn);
  pe_again : bool }.

(** The results of the system calls of comm_init(). *)
Record init_env := InitEnv {
  ie_unlink : bool;
  ie_socket : Z;
  ie_bind : bool;
  ie_listen : bool }.

(** poll() sets revents everywhere, to 0 where fd is negative. *)
Definition sys_poll (rs : list Z) (t : list pollfd) : list pollfd :=
  imap (λ i p, PollFd (p_fd p) (if (p_fd p <? 0)%Z then 0 else nth i rs 0)%Z) t.

(** Its result: the number of elements with events. *)
Definition poll_count (t : list pollfd) : Z :=
  Z.of_nat (length (filter (λ p, p_revents p ≠ 0%Z) t)).

Section loop.
Context {NS : NcSession} {NR : NcRpc} {SL : SocketLib}.

(** ** The table *)
Definition agent (i : nat) : M server pollfd :=
  t ← gets sv_poll; deref OutOfBounds (t !! i).
Definition set_fd (i : nat) (fd : Z) : M server unit :=
  _ ← agent i;
  modify (λ s, set_poll (alter (λ p, PollFd fd (p_revents p)) i (sv_poll s)) s).
Definition set_revents (i : nat) (r : Z) : M server unit :=
  _ ← agent i;
  modify (λ s, set_poll (alter (λ p, PollFd (p_fd p) r) i (sv_poll s)) s).

(** The indices 1 .. AGENTS_QUEUE. *)
Definition slots : list nat := seq 1 AGENTS_QUEUE.

Definition sys_close (fd : Z) : M server unit :=
  modify (λ s, set_net (Net (alter (λ c, Conn (c_in c) (c_out c) (c_hup c) true) fd
                               (n_conns (sv_net s))) (n_sched (sv_net s))) s).

(** ** comm_destroy *)
Fixpoint close_agents (l : list nat) : M server unit :=
  match l with
  | [] => mret tt
  | i :: l' => p ← agent i; _ ← sys_close (p_fd p); close_agents l'
  end.

Definition comm_destroy : M server unit :=
  c ← gets sv_sock;
  if (c =? -1)%Z then mret tt
  else
    n ← gets sv_connected;
    _ ← (if (0 <? n)%Z then _ ← close_agents slots; modify (set_connected 0) else mret tt);
    _ ← modify (set_sock (-1));
    modify (set_path false).

(** ** Serving agents *)

(** The slot becomes free; listening is resumed. *)
Definition free_slot (i : nat) : M server unit :=
  _ ← set_fd i (-1);
  _ ← modify (λ s, set_connected (sv_connected s - 1) s);
  p0 ← agent 0;
  c ← gets sv_sock;
  if (p_fd p0 =? -1)%Z then set_fd 0 c else mret tt.

(** switch (op) *)
Definition dispatch (i : nat) (fd : Z) (op : Z) : M server unit :=
  if (op =? COMM_SOCK_GET_CPBLTS)%Z then get_capabilities fd
  else if (op =? COMM_SOCK_SET_SESSION)%Z then set_session fd
  else if (op =? COMM_SOCK_CLOSE_SESSION)%Z then
    _ ← close_session fd; _ ← sys_close fd; free_slot i
  else if (op =? COMM_SOCK_KILL_SESSION)%Z then kill_session fd
  else if (op =? COMM_SOCK_GENERICOP)%Z then process_operation fd
  else srv_send fd (enc_int COMM_SOCK_RESULT_ERROR).

(** for (i = 1; i <= AGENTS_QUEUE && connected_agents > 0; i++); the result is
    that of a return from within the loop. *)
Fixpoint serve_agents (l : list nat) (ret : Z) (op : memory) : M server (option exit) :=
  match l with
  | [] => mret None
  | i :: l' =>
      n ← gets sv_connected;
      if (n <=? 0)%Z then mret None
      else
        p ← agent i;
        if is_broken (p_revents p) then
          _ ← free_slot i; serve_agents l' ret op
        else if is_readable (p_revents p) then
          r ← srv_recv (p_fd p) 4;
          match r with
          | Received ((_ :: _) as bs) =>
              let op := overwrite bs op in
              v ← load_int op;
              _ ← dispatch i (p_fd p) v;
              if (ret - 1 =? 0)%Z then mret (Some EXIT_SUCCESS)
              else serve_agents l' (ret - 1) op
          | _ => serve_agents l' (ret - 1) op
          end
        else serve_agents l' ret op
  end.

(** ** New agents *)

(** for (i = 1; i <= AGENTS_QUEUE && agents[i].fd != -1; i++); *)
Fixpoint free_index (l : list nat) : M server nat :=
  match l with
  | [] => mret (S AGENTS_QUEUE)
  | i :: l' =>
      p ← agent i;
      if (p_fd p =? -1)%Z then mret i else free_index l'
  end.

(** while ((new_sock = accept(...)) != -1); the result is new_sock. *)
Fixpoint accept_agents (l : list (Z * conn)) : M server Z :=
  match l with
  | [] => mret (-1)%Z
  | (new_sock, c) :: l' =>
      _ ← modify (λ s, set_net (set_conn new_sock c (sv_net s)) s);
      i ← free_index slots;
      _ ← set_fd i new_sock;
      _ ← modify (λ s, set_connected (sv_connected s + 1) s);
      n ← gets sv_connected;
      if (n =? Z.of_nat AGENTS_QUEUE)%Z then _ ← set_fd 0 (-1); mret new_sock
      else accept_agents l'
  end.

Definition check_listen (env : poll_env) : M server exit :=
  p0 ← agent 0;
  if is_broken (p_revents p0) then _ ← comm_destroy; mret EXIT_FAILURE
  else if is_readable (p_revents p0) then
    new_sock ← accept_agents (pe_accept env);
    if (new_sock =? -1)%Z && negb (pe_again env) then _ ← comm_destroy; mret EXIT_FAILURE
    else
      n ← gets sv_connected;
      _ ← (if (n <? Z.of_nat AGENTS_QUEUE)%Z then set_revents 0 0 else mret tt);
      mret EXIT_SUCCESS
  else mret EXIT_SUCCESS.

(** ** comm_loop *)
Definition comm_loop (env : poll_env) : M server exit :=
  c ← gets sv_sock;
  if (c =? -1)%Z then mret EXIT_FAILURE
  else
    match pe_poll env with
    | None => _ ← comm_destroy; mret EXIT_FAILURE
    | Some rs =>
        _ ← modify (λ s, set_poll (sys_poll rs (sv_poll s)) s);
        ret ← gets (λ s, poll_count (sv_poll s));
        if (ret =? 0)%Z then mret EXIT_SUCCESS
        else
          r ← serve_agents slots ret (uninit 4);
          match r with
          | Some e => mret e
          | None => check_listen env
          end
    end.

(** ** comm_init *)

(** The result is whether a handle is returned. *)
Definition comm_init (crashed : bool) (env : init_env) : M server bool :=
  sock ← gets sv_sock;
  if negb (sock =? -1)%Z then mret true
  else
    exists_ ← gets sv_path;
    if exists_ && negb (crashed && ie_unlink env) then mret false
    else
      _ ← modify (set_path false);
      _ ← modify (set_sock (ie_socket env));
      if (ie_socket env =? -1)%Z then mret false
      else if negb (ie_bind env && ie_listen env) then
        (* error_cleanup *)
        _ ← modify (set_sock (-1)); mret false
      else
        _ ← modify (set_path true);
        _ ← modify (set_poll (PollFd (ie_socket env) 0 :: replicate AGENTS_QUEUE (PollFd (-1) 0)));
        mret true.
End loop.
