(* ===== verification/SocketFacts.v ===== *)
(** * Facts on sockets

    Encodings and their inverses, what recv(), recv_msg() and send() do to the
    queues of a connection, for any way the kernel cuts the stream. *)

From S2P Require Import Prelude.
From S2P Require Import OvsFacts.
From S2P Require Import Agents.
From S2P Require Import Rpc.
From S2P Require Import Sockets.
From S2P Require Import ServerSocket.

(** ** Encodings *)
Lemma bytes_of_some bs : bytes_of (Some <$> bs) = Some bs.
Proof. by apply mapM_fmap_Some. Qed.

Lemma overwrite_all bs mem : length bs = length mem → overwrite bs mem = Some <$> bs.
Proof. intros H. unfold overwrite. by rewrite drop_ge, app_nil_r by lia. Qed.

Section load.
Context {St : Type}.

Lemma load_uint_eq bs (s : St) : load_uint (Some <$> bs) s = Done (le_combine bs, s).
Proof. unfold load_uint. by rewrite bytes_of_some. Qed.

Lemma load_uint_run n z (s : St) : (0 ≤ z < 2 ^ (Z.of_nat n * 8))%Z →
  load_uint (Some <$> le_split n z) s = Done (z, s).
Proof.
  intros Hz. by rewrite load_uint_eq, le_combine_split, Z.mod_small by done.
Qed.

Lemma load_int_run z (s : St) : (- 2 ^ 31 ≤ z < 2 ^ 31)%Z →
  load_int (Some <$> enc_int z) s = Done (z, s).
Proof.
  intros Hz. unfold load_int, enc_int. rewrite (bind_run _ _ _ _ _ (load_uint_eq _ _)).
  rewrite le_combine_split. unfold mret, M_ret. do 2 f_equal.
  destruct (decide (0 ≤ z)%Z).
  - rewrite Z.mod_small by lia. by rewrite (proj2 (Z.ltb_lt _ _)) by lia.
  - replace (z mod 2 ^ (Z.of_nat 4 * 8))%Z with (z + 2 ^ 32)%Z.
    + rewrite (proj2 (Z.ltb_ge _ _)) by lia. lia.
    + apply Z.mod_unique with (q := (-1)%Z); lia.
Qed.
End load.

Lemma enc_int_length z : length (enc_int z) = 4.
Proof. apply length_le_split. Qed.
Lemma enc_short_length z : length (enc_short z) = 2.
Proof. apply length_le_split. Qed.

Definition c_string (s : string) : Prop := nonul (String.list_ascii_of_string s).

Lemma ascii_byte_nul a : Ascii.byte_of_ascii a = Init.Byte.x00 → a = NUL.
Proof.
  intros H. rewrite <-(Ascii.ascii_of_byte_of_ascii a), H. done.
Qed.

Lemma mem_string_enc {St} s rest (st : St) : c_string s →
  mem_string ((Some <$> enc_str s) ++ rest) st = Done (s, st).
Proof.
  unfold c_string, enc_str, String.list_byte_of_string.
  induction s as [|a s IH]; simpl; [done|].
  intros [Ha Hs]%Forall_cons. rewrite bool_decide_eq_false_2.
  - rewrite (bind_run _ _ _ _ _ (IH Hs)). by rewrite Ascii.ascii_of_byte_of_ascii.
  - intros H%ascii_byte_nul. done.
Qed.

Lemma enc_str_nonempty s : enc_str s ≠ [].
Proof. unfold enc_str. by destruct (String.list_byte_of_string s). Qed.

Lemma enc_str_length s : length (enc_str s) = S (String.length s).
Proof.
  unfold enc_str, String.list_byte_of_string. rewrite length_app, length_map. simpl.
  induction s as [|a s IH]; simpl in *; lia.
Qed.

(** ** Queues *)
Definition solid (q : list (list byte)) : Prop := Forall (λ c, c ≠ []) q.

Lemma drop_bytes_concat n : ∀ q, concat (drop_bytes n q) = drop n (concat q).
Proof.
  intros q. revert n. induction q as [|c q IH]; intros n; simpl.
  - by destruct n.
  - case_bool_decide as Hn; simpl.
    + rewrite drop_app_le by lia. done.
    + rewrite IH, drop_app_ge by lia. done.
Qed.

Lemma drop_bytes_solid n : ∀ q, solid q → solid (drop_bytes n q).
Proof.
  intros q. revert n. induction q as [|c q IH]; intros n; simpl; [done|].
  intros [Hc Hq]%Forall_cons. case_bool_decide as Hn; [|by apply IH].
  constructor; [|done]. intros H%(f_equal length). rewrite length_drop in H. simpl in H. lia.
Qed.

Lemma drop_bytes_app n : ∀ q r, n ≤ length (concat q) → solid r →
  drop_bytes n (q ++ r) = drop_bytes n q ++ r.
Proof.
  intros q. revert n. induction q as [|c q IH]; intros n r; simpl.
  - intros Hn Hr. assert (n = 0) as -> by lia. destruct r as [|d r]; simpl; [done|].
    apply Forall_cons in Hr as [Hd _]. rewrite bool_decide_eq_true_2; [done|].
    destruct d; simpl; [done|lia].
  - rewrite length_app. intros Hn Hr. case_bool_decide; [done|]. apply IH; [lia|done].
Qed.

Lemma drop_bytes_all q : drop_bytes (length (concat q)) q = [].
Proof.
  induction q as [|c q IH]; simpl; [done|]. rewrite length_app, bool_decide_eq_false_2 by lia.
  by replace (length c + length (concat q) - length c) with (length (concat q)) by lia.
Qed.

Lemma solid_concat q : solid q → q ≠ [] → concat q ≠ [].
Proof. destruct q as [|[|b c] q]; try done. intros [? _]%Forall_cons; done. Qed.

(** What a receive returns is a non-empty prefix. *)
Lemma take_prefix j n (q : list (list byte)) : solid q → q ≠ [] → 0 < n →
  ∃ k, take n (concat (take (S j) q)) = take k (concat q) ∧ 0 < k ≤ n ∧ k ≤ length (concat q).
Proof.
  intros Hq Hne Hn. destruct q as [|c q]; [done|]. apply Forall_cons in Hq as [Hc _].
  exists (length (take n (concat (take (S j) (c :: q))))).
  assert (take n (concat (take (S j) (c :: q))) `prefix_of` concat (c :: q)) as Hp.
  { transitivity (concat (take (S j) (c :: q))); [apply prefix_take|].
    exists (concat (drop (S j) (c :: q))). by rewrite <-concat_app, take_drop. }
  destruct Hp as [r Hr]. split; [|split].
  - by rewrite Hr, take_app_length.
  - rewrite length_take. simpl. rewrite length_app. destruct c; [done|]. simpl. lia.
  - rewrite Hr, length_app. lia.
Qed.

Lemma take_exact j (c : list byte) q : take (length c) (concat (take (S j) (c :: q))) = c.
Proof. simpl. by rewrite take_app_length. Qed.

(** No interrupted and no failing receive lies ahead. *)
Definition calm (l : list recv_event) : Prop := Forall (λ e, ∃ j, e = Take j) l.

Lemma calm_tail l : calm l → calm (tail l).
Proof. by intros [|]; simpl; [constructor|]. Qed.

Lemma sys_recv_exact e fd bs rest c (n : net) :
  n_conns n !! fd = Some c → rx e c = bs :: rest → calm (n_sched n) → solid (bs :: rest) →
  sys_recv e fd (length bs) n =
    Done (Some (Received bs), Net (<[fd := set_rx e rest c]> (n_conns n)) (tail (n_sched n))).
Proof.
  intros Hc Hq Hcalm Hs. unfold sys_recv. rewrite Hc, Hq. apply Forall_cons in Hs as [_ Hs].
  assert (drop_bytes (length bs) (bs :: rest) = rest) as Hd.
  { simpl. rewrite bool_decide_eq_false_2, Nat.sub_diag by lia.
    apply (drop_bytes_app 0 [] rest); [simpl; lia|done]. }
  destruct (n_sched n) as [|ev sch].
  - by rewrite take_exact, Hd.
  - apply Forall_cons in Hcalm as [[j ->] _]. by rewrite take_exact, Hd.
Qed.

(** Any receive returns a non-empty part of what is there. *)
Lemma sys_recv_part e fd q c k (n : net) :
  n_conns n !! fd = Some c → rx e c = q → calm (n_sched n) → solid q → q ≠ [] → 0 < k →
  ∃ m, sys_recv e fd k n =
      Done (Some (Received (take m (concat q))),
        Net (<[fd := set_rx e (drop_bytes m q) c]> (n_conns n)) (tail (n_sched n))) ∧
    0 < m ≤ k ∧ m ≤ length (concat q).
Proof.
  intros Hc Hq Hcalm Hs Hne Hk. unfold sys_recv. rewrite Hc, Hq.
  assert (∀ j, ∃ m, take k (concat (take (S j) q)) = take m (concat q) ∧
    length (take m (concat q)) = m ∧ 0 < m ≤ k ∧ m ≤ length (concat q)) as Hj.
  { intros j. destruct (take_prefix j k q Hs Hne Hk) as (m & H1 & H2 & H3).
    exists m. split; [done|]. rewrite length_take. lia. }
  destruct (n_sched n) as [|ev sch].
  - destruct (Hj (length q)) as (m & H1 & H2 & H3). exists m. split; [|done].
    destruct q as [|d q]; [done|]. by rewrite H1, H2.
  - apply Forall_cons in Hcalm as [[j ->] _].
    destruct (Hj j) as (m & H1 & H2 & H3). exists m. split; [|done].
    destruct q as [|d q]; [done|]. by rewrite H1, H2.
Qed.

(** ** Receiving, on either side

    [st q sch] is the state of a process with the queue q before it: receiving
    returns parts of q, and whole pieces when it asks for their length. *)
Record receiver {St} (recv : nat → M St recv_result)
  (st : list (list byte) → list recv_event → St) : Prop := {
  rv_exact bs rest sch : calm sch → solid (bs :: rest) →
    recv (length bs) (st (bs :: rest) sch) = Done (Received bs, st rest (tail sch));
  rv_part q k sch : calm sch → solid q → q ≠ [] → 0 < k →
    ∃ m, recv k (st q sch) = Done (Received (take m (concat q)), st (drop_bytes m q) (tail sch)) ∧
      0 < m ≤ k ∧ m ≤ length (concat q) }.

Section receive.
Context {SL : SocketLib} {St : Type} (recv : nat → M St recv_result).
Context (st : list (list byte) → list recv_event → St) (Hrv : receiver recv st).

Lemma recv_var_exact mem bs rest sch :
  length bs = length mem → calm sch → solid (bs :: rest) →
  recv_var recv mem (st (bs :: rest) sch) = Done (Some <$> bs, st rest (tail sch)).
Proof using Hrv.
  intros Hlen Hcalm Hq. unfold recv_var. rewrite <-Hlen.
  rewrite (bind_run _ _ _ _ _ (rv_exact _ _ Hrv _ _ _ Hcalm Hq)). by rewrite overwrite_all.
Qed.

Lemma recv_buf_exact len bs rest sch :
  Z.of_nat (length bs) = len → malloc_ok len = true → calm sch → solid (bs :: rest) →
  recv_buf recv len (st (bs :: rest) sch) = Done (Some (Some <$> bs), st rest (tail sch)).
Proof using Hrv.
  intros Hlen Hm Hcalm Hq. unfold recv_buf. rewrite Hm.
  erewrite bind_run; [done|]. apply recv_var_exact; try done.
  unfold uninit. rewrite length_replicate. lia.
Qed.

Lemma recv_msg_loop_exact rest : ∀ fuel q msg sch,
  calm sch → solid (q ++ rest) → length (concat q) < fuel →
  ∃ sch', recv_msg_loop recv fuel (length msg + length (concat q)) msg (st (q ++ rest) sch) =
      Done (inr (msg ++ concat q), st rest sch') ∧ calm sch'.
Proof using Hrv.
  induction fuel as [|f IH]; intros q msg sch Hcalm Hs Hf; [lia|].
  pose proof Hs as [Hq Hr]%Forall_app. cbn [recv_msg_loop].
  destruct (decide (q = [])) as [->|Hne].
  - rewrite bool_decide_eq_false_2 by (simpl; lia). exists sch. simpl. by rewrite app_nil_r.
  - pose proof (solid_concat q Hq Hne) as Hne'.
    assert (0 < length (concat q)) as Hpos by (destruct (concat q); [done|simpl; lia]).
    rewrite bool_decide_eq_true_2 by lia.
    replace (length msg + length (concat q) - length msg) with (length (concat q)) by lia.
    destruct (rv_part _ _ Hrv (q ++ rest) (length (concat q)) sch)
      as (m & Hrun & Hm1 & Hm2); try done.
    { by destruct q. }
    rewrite (bind_run _ _ _ _ _ Hrun).
    rewrite concat_app, take_app_le by lia.
    destruct (take m (concat q)) as [|b bs] eqn:E.
    { apply (f_equal length) in E. rewrite length_take in E. simpl in E. lia. }
    rewrite <-E. rewrite drop_bytes_app by (done || lia).
    destruct (IH (drop_bytes m q) (msg ++ take m (concat q)) (tail sch)) as (sch' & Hloop & Hc').
    + by apply calm_tail.
    + apply Forall_app. split; [by apply drop_bytes_solid|done].
    + rewrite drop_bytes_concat, length_drop. lia.
    + exists sch'. split; [|done]. rewrite drop_bytes_concat in Hloop.
      rewrite <-app_assoc, take_drop in Hloop. etransitivity; [|exact Hloop].
      f_equal. rewrite length_app, length_take, length_drop. lia.
Qed.

Lemma recv_msg_exact fuel len q rest sch :
  Z.of_nat (length (concat q)) = len → length (concat q) < fuel → malloc_ok len = true →
  calm sch → solid (q ++ rest) →
  ∃ sch', recv_msg recv fuel len (st (q ++ rest) sch) = Done (inr (concat q), st rest sch') ∧
    calm sch'.
Proof using Hrv.
  intros <- Hf Hm Hcalm Hq. unfold recv_msg. rewrite Hm, Nat2Z.id.
  by apply (recv_msg_loop_exact rest fuel q []).
Qed.
End receive.

Section facts.
Context {NS : NcSession} {NR : NcRpc} {SL : SocketLib}.
Implicit Types (s : server) (c : conn).

(** ** The server and one connection *)
Definition at_conn (fd : Z) (c : conn) (sch : list recv_event) (s : server) : server :=
  set_net (Net (<[fd := c]> (n_conns (sv_net s))) sch) s.

Definition take_in (q : list (list byte)) (c : conn) : conn := set_rx AtServer q c.
Definition put_out (bs : list byte) (c : conn) : conn :=
  Conn (c_in c) (c_out c ++ send_split bs) (c_hup c) (c_shut c).
Definition put_all (l : list (list byte)) (c : conn) : conn :=
  Conn (c_in c) (c_out c ++ (l ≫= send_split)) (c_hup c) (c_shut c).

Lemma at_conn_id fd c s : n_conns (sv_net s) !! fd = Some c →
  at_conn fd c (n_sched (sv_net s)) s = s.
Proof.
  intros H. destruct s as [? ? ? ? ? [cs l] ?]. unfold at_conn. simpl in *.
  by rewrite insert_id.
Qed.

Lemma srv_send_run fd bs c sch s :
  srv_send fd bs (at_conn fd c sch s) = Done (tt, at_conn fd (put_out bs c) sch s).
Proof.
  unfold srv_send, on_net, sys_send. simpl. rewrite lookup_insert_eq.
  unfold at_conn, set_net, set_conn. simpl. by rewrite insert_insert_eq.
Qed.

Lemma on_net_run {A} (m : M net A) s a n :
  m (sv_net s) = Done (a, n) → on_net m s = Done (a, set_net n s).
Proof. unfold on_net. by intros ->. Qed.

(** A message the kernel delivers in one piece is received as a whole. *)
Lemma srv_recv_run fd bs rest c sch s :
  c_in c = bs :: rest → calm sch → solid (bs :: rest) →
  srv_recv fd (length bs) (at_conn fd c sch s) =
    Done (Received bs, at_conn fd (take_in rest c) (tail sch) s).
Proof.
  intros Hin Hcalm Hq. unfold srv_recv.
  erewrite bind_run.
  2:{ apply on_net_run, (sys_recv_exact AtServer fd bs rest c); simpl; try done.
      apply lookup_insert_eq. }
  simpl. unfold at_conn, set_net, take_in. simpl. by rewrite insert_insert_eq.
Qed.

Lemma srv_receiver fd c s : receiver (srv_recv fd) (λ q sch, at_conn fd (take_in q c) sch s).
Proof.
  constructor.
  - intros bs rest sch Hcalm Hq. by apply (srv_recv_run fd bs rest (take_in (bs :: rest) c)).
  - intros q k sch Hcalm Hq Hne Hk.
    destruct (sys_recv_part AtServer fd q (take_in q c) k (sv_net (at_conn fd (take_in q c) sch s)))
      as (m & Hrun & Hm); try done; [apply lookup_insert_eq|].
    exists m. split; [|done]. unfold srv_recv. rewrite (bind_run _ _ _ _ _ (on_net_run _ _ _ _ Hrun)).
    simpl. unfold at_conn, set_net, take_in. simpl. by rewrite insert_insert_eq.
Qed.

Lemma take_in_same c q : c_in c = q → take_in q c = c.
Proof. intros <-. by destruct c. Qed.

Lemma srv_recv_var_run fd mem bs rest c sch s :
  c_in c = bs :: rest → length bs = length mem → calm sch → solid (bs :: rest) →
  srv_recv_var fd mem (at_conn fd c sch s) =
    Done (Some <$> bs, at_conn fd (take_in rest c) (tail sch) s).
Proof.
  intros Hin Hlen Hcalm Hq.
  pose proof (recv_var_exact _ _ (srv_receiver fd c s) mem bs rest sch Hlen Hcalm Hq) as H.
  cbv beta in H. by rewrite (take_in_same c _ Hin) in H.
Qed.

Lemma srv_recv_buf_run fd len bs rest c sch s :
  c_in c = bs :: rest → Z.of_nat (length bs) = len → malloc_ok len = true → calm sch →
  solid (bs :: rest) →
  recv_buf (srv_recv fd) len (at_conn fd c sch s) =
    Done (Some (Some <$> bs), at_conn fd (take_in rest c) (tail sch) s).
Proof.
  intros Hin Hlen Hm Hcalm Hq.
  pose proof (recv_buf_exact _ _ (srv_receiver fd c s) len bs rest sch Hlen Hm Hcalm Hq) as H.
  cbv beta in H. by rewrite (take_in_same c _ Hin) in H.
Qed.

Lemma srv_recv_msg_run fd len q rest c sch s :
  c_in c = q ++ rest → Z.of_nat (length (concat q)) = len → malloc_ok len = true → calm sch →
  solid (q ++ rest) →
  ∃ sch', srv_recv_msg fd len (at_conn fd c sch s) =
      Done (inr (concat q), at_conn fd (take_in rest c) sch' s) ∧ calm sch'.
Proof.
  intros Hin Hlen Hm Hcalm Hq. unfold srv_recv_msg. rewrite bind_gets.
  destruct (recv_msg_exact _ _ (srv_receiver fd c s)
    (recv_fuel len (sv_net (at_conn fd c sch s))) len q rest sch) as (sch' & H & Hc'); try done.
  - unfold recv_fuel. lia.
  - exists sch'. split; [|done]. cbv beta in H. by rewrite (take_in_same c _ Hin) in H.
Qed.

(** on_agents and on_dev do not look at the connections. *)
Lemma on_agents_run {A} (m : M alist A) s a v fd c sch :
  m (sv_agents s) = Done (a, v) →
  on_agents m (at_conn fd c sch s) = Done (a, at_conn fd c sch (set_agents v s)).
Proof. unfold on_agents. simpl. by intros ->. Qed.
Lemma on_dev_run {A} (m : M dev A) s a v fd c sch :
  m (sv_dev s) = Done (a, v) →
  on_dev m (at_conn fd c sch s) = Done (a, at_conn fd c sch (set_dev v s)).
Proof. unfold on_dev. simpl. by intros ->. Qed.
End facts.
