(* ===== verification/ServerSpec.v ===== *)
(** * What the server promises to agents (comm.h, server_ops.h)

    The requests an agent can make, the answers, and [serve], which says what
    the server does for a request: on the registry of agents, the datastores
    and the processes it stops.  It knows nothing of sockets, D-Bus or linked
    lists.  The rest of the file is how requests and answers travel over a
    socket. *)

From S2P Require Import Prelude.
From S2P Require Import Agents.
From S2P Require Import AgentsFacts.
From S2P Require Import Rpc.
From S2P Require Import Sockets.

Section spec.
Context {NS : NcSession} {NR : NcRpc}.

Inductive request :=
| GetCpblts
| SetSession (sid user : string) (cpblts : list string) (pid : Z)
| CloseSession
| KillSession (sid : string)
| GenericOp (rpc : nc_rpc).

Inductive answer :=
| Cpblts (l : list string)
| SessionSet
| SessionClosed
| NoAnswer
| SessionKilled
| Refused (msg : string)
| RpcReply (r : nc_reply).

Record world := World {
  w_reg : registry;
  w_dev : dev;
  w_killed : list Z }.

Definition set_reg (v : registry) (w : world) : world := World v (w_dev w) (w_killed w).
Definition w_on_dev {A} (m : M dev A) : M world A := λ w,
  match m (w_dev w) with
  | Done (a, v) => Done (a, World (w_reg w) v (w_killed w))
  | Crash f => Crash f
  | NoFuel => NoFuel
  end.

Definition agent_of (id : string) (l : registry) : option (aptr * entry) :=
  find_first (λ x, bool_decide (id = e_id x.2)) l.
Definition session_of (sid : string) (l : registry) : option (aptr * entry) :=
  find_first (λ x, bool_decide (sid = e_ncsid x.2)) l.

Definition closes (req : request) : bool := match req with CloseSession => true | _ => false end.

Definition unknown_agent_err : nc_err :=
  set_msg "request from unknown agent" (nc_err_new NC_ERR_OP_FAILED).

(** [id] names the agent, [p] is the handle a new entry gets. *)
Definition serve (p : aptr) (id : string) (req : request) : M world answer :=
  reg ← gets w_reg;
  match req with
  | GetCpblts => mret (Cpblts nc_session_get_cpblts_default)
  | SetSession sid user cs pid =>
      _ ← modify (set_reg (reg ++ [(p, new_entry sid user (nc_cpblts_new cs) id pid)]));
      mret SessionSet
  | CloseSession =>
      match agent_of id reg with
      | None => mret NoAnswer
      | Some (q, _) => _ ← modify (set_reg (reg_remove q reg)); mret SessionClosed
      end
  | KillSession sid =>
      match session_of sid reg with
      | None => mret (Refused "Session to kill does not exists")
      | Some (q, e) =>
          match agent_of id reg with
          | None => mret (Refused "You are unknown client")
          | Some (_, me) =>
              if bool_decide (e_ncsid me = sid) then mret (Refused "Killing own session requested")
              else
                _ ← modify (λ w, World (reg_remove q reg) (w_dev w) (e_pid e :: w_killed w));
                mret SessionKilled
          end
      end
  | GenericOp rpc =>
      match agent_of id reg with
      | None => mret (RpcReply (nc_reply_error unknown_agent_err))
      | Some (_, e) => r ← w_on_dev (processed (e_session e) (Some rpc)); mret (RpcReply r)
      end
  end.

(** What an agent makes of an answer. *)
Definition reply_of (a : answer) : option nc_reply :=
  match a with
  | RpcReply r => Some r
  | SessionKilled => Some nc_reply_ok
  | Refused m => Some (op_failed (Some m))
  | _ => None
  end.
Definition cpblts_of (a : answer) : option (list string) :=
  match a with Cpblts l => Some l | _ => None end.
Definition exit_of (a : answer) : exit :=
  match a with SessionSet | SessionClosed => EXIT_SUCCESS | _ => EXIT_FAILURE end.

(** ** Facts *)
Lemma agent_of_reg id l : reg_by_agentid id l = fst <$> agent_of id l.
Proof. done. Qed.
Lemma session_of_reg sid l : reg_by_ncsid sid l = fst <$> session_of sid l.
Proof. done. Qed.
Lemma agent_of_in id l q e : agent_of id l = Some (q, e) → (q, e) ∈ l ∧ e_id e = id.
Proof. intros [? H%bool_decide_eq_true]%find_first_Some. done. Qed.
Lemma session_of_in sid l q e : session_of sid l = Some (q, e) → (q, e) ∈ l ∧ e_ncsid e = sid.
Proof. intros [? H%bool_decide_eq_true]%find_first_Some. done. Qed.

(** The element of a registered agent. *)
Lemma load_agent v l q e : represents v l → (q, e) ∈ l →
  ∃ info, load q v = Done (info, v) ∧ ag_session info = e_session e ∧
    ∀ sid t, ncsid_matches sid info t = Done (bool_decide (sid = e_ncsid e), t).
Proof.
  intros Hrep Hin. destruct (linked_lookup _ _ _ _ _ _ (rep_links _ _ Hrep) Hin) as (n & p & Hl).
  eexists. split_and!; [by apply load_run|done|]. intros sid t. unfold ncsid_matches. simpl.
  pose proof (proj1 (Forall_forall _ _) (rep_ok _ _ Hrep) _ Hin) as Hok. hnf in Hok.
  simpl in Hok. by rewrite Hok.
Qed.

(** ** On the wire *)

Definition str_parts (s : string) : list (list byte) :=
  [enc_int (Z.of_nat (length (enc_str s))); enc_str s].

Definition req_op (req : request) : Z :=
  match req with
  | GetCpblts => COMM_SOCK_GET_CPBLTS
  | SetSession _ _ _ _ => COMM_SOCK_SET_SESSION
  | CloseSession => COMM_SOCK_CLOSE_SESSION
  | KillSession _ => COMM_SOCK_KILL_SESSION
  | GenericOp _ => COMM_SOCK_GENERICOP
  end.

Definition req_body (req : request) : list (list byte) :=
  match req with
  | GetCpblts | CloseSession => []
  | SetSession sid user cs pid =>
      str_parts sid ++ [enc_short pid] ++ str_parts user ++
      [enc_int (Z.of_nat (length cs))] ++ (cs ≫= str_parts)
  | KillSession sid => str_parts sid
  | GenericOp rpc => str_parts (nc_rpc_dump rpc)
  end.

Definition answer_parts (a : answer) : list (list byte) :=
  match a with
  | Cpblts l =>
      [enc_int COMM_SOCK_GET_CPBLTS; enc_int (Z.of_nat (length l))] ++ (l ≫= str_parts)
  | SessionSet => [enc_int COMM_SOCK_SET_SESSION]
  | SessionClosed => [enc_int COMM_SOCK_CLOSE_SESSION]
  | NoAnswer => []
  | SessionKilled => [enc_int COMM_SOCK_KILL_SESSION]
  | Refused m => enc_int COMM_SOCK_RESULT_ERROR :: str_parts m
  | RpcReply r =>
      enc_int COMM_SOCK_GENERICOP :: str_parts (default "" (nc_reply_dump r))
  end.

Section wire.
Context {SL : SocketLib}.

Definition wire (l : list (list byte)) : list (list byte) := l ≫= send_split.

(** A string the receiver can allocate. *)
Definition fits (s : string) : Prop :=
  nonul (String.list_ascii_of_string s) ∧
  (Z.of_nat (length (enc_str s)) < 2 ^ 32)%Z ∧ malloc_ok (Z.of_nat (length (enc_str s))) = true.
(** ... and that the kernel does not cut *)
Definition short (s : string) : Prop := fits s ∧ length (enc_str s) ≤ atomic.

Definition fits_list (l : list string) : Prop :=
  Forall fits l ∧ (Z.of_nat (length l) < 2 ^ 31)%Z ∧
  malloc_ok (8 * (Z.of_nat (length l) + 1)) = true.

Definition req_ok (req : request) : Prop :=
  match req with
  | GetCpblts | CloseSession => True
  | SetSession sid user cs pid => short sid ∧ short user ∧ fits_list cs ∧ (0 ≤ pid < 2 ^ 16)%Z
  | KillSession sid => fits sid
  | GenericOp rpc => fits (nc_rpc_dump rpc)
  end.
End wire.
End spec.
