(* ===== verification/HandlerFacts.v ===== *)
(** * The handlers of the server implement [serve]

    Each handler of server_comm_socket.c, given a complete request in the
    receive queue of a connection, does what [serve] says and leaves the answer
    in the send queue. *)

From S2P Require Import Prelude.
From S2P Require Import OvsFacts.
From S2P Require Import Agents.
From S2P Require Import AgentsFacts.
From S2P Require Import Rpc.
From S2P Require Import Sockets.
From S2P Require Import ServerSocket.
From S2P Require Import SocketFacts.
From S2P Require Import ServerSpec.

Section handlers.
Context {NS : NcSession} {NR : NcRpc} {SL : SocketLib}.
Implicit Types (s : server) (c : conn).

(** What the server's variables mean. *)
Record means (s : server) (w : world) : Prop := {
  means_reg : represents (sv_agents s) (w_reg w);
  means_killed : al_killed (sv_agents s) = w_killed w;
  means_dev : sv_dev s = w_dev w }.

(** The server after a handler: the registry and the datastores may differ. *)
Definition handled (s s' : server) : Prop :=
  ∃ a d, s' = set_agents a (set_dev d s).

Lemma handled_refl s : handled s s.
Proof. exists (sv_agents s), (sv_dev s). by destruct s. Qed.

(** ** Sending *)
Lemma put_all_nil c : put_all [] c = c.
Proof. unfold put_all. simpl. rewrite app_nil_r. by destruct c. Qed.
Lemma put_all_cons bs l c : put_all l (put_out bs c) = put_all (bs :: l) c.
Proof. unfold put_all, put_out. simpl. by rewrite <-app_assoc. Qed.
Lemma put_all_app l1 l2 c : put_all l2 (put_all l1 c) = put_all (l1 ++ l2) c.
Proof. unfold put_all. simpl. by rewrite bind_app, app_assoc. Qed.
Lemma put_all_one bs c : put_out bs c = put_all [bs] c.
Proof. by rewrite <-put_all_cons, put_all_nil. Qed.

Lemma send_cpblts_run fd l : ∀ c sch s,
  send_cpblts fd l (at_conn fd c sch s) = Done (tt, at_conn fd (put_all (l ≫= str_parts) c) sch s).
Proof.
  induction l as [|m l IH]; intros c sch s; simpl.
  - by rewrite put_all_nil.
  - rewrite !(bind_run _ _ _ _ _ (srv_send_run _ _ _ _ _)), IH. by rewrite !put_all_cons.
Qed.

Lemma send_reply_run fd r d c sch s :
  nc_reply_dump r = Some d →
  send_reply fd r (at_conn fd c sch s) =
    Done (tt, at_conn fd (put_all (answer_parts (RpcReply r)) c) sch s).
Proof.
  intros Hd. unfold send_reply. rewrite Hd. cbn [deref]. rewrite bind_ret.
  rewrite !(bind_run _ _ _ _ _ (srv_send_run _ _ _ _ _)), srv_send_run.
  cbn [answer_parts]. rewrite Hd. simpl. by rewrite put_all_one, !put_all_cons.
Qed.

Lemma kill_refused_run fd m c sch s :
  kill_refused fd m (at_conn fd c sch s) =
    Done (tt, at_conn fd (put_all (answer_parts (Refused m)) c) sch s).
Proof.
  unfold kill_refused, kill_reply. rewrite !(bind_run _ _ _ _ _ (srv_send_run _ _ _ _ _)).
  rewrite srv_send_run. simpl. by rewrite put_all_one, !put_all_cons.
Qed.

(** ** Receiving *)
Lemma wire_solid l : solid (wire l).
Proof. unfold wire, solid. induction l; simpl; [constructor|]. apply Forall_app. split; [apply split_nonempty|done]. Qed.

Lemma wire_app l1 l2 : wire (l1 ++ l2) = wire l1 ++ wire l2.
Proof. unfold wire. apply bind_app. Qed.

Lemma split_int z : send_split (enc_int z) = [enc_int z].
Proof.
  apply split_atomic; [rewrite enc_int_length; apply atomic_int|].
  intros H%(f_equal length). by rewrite enc_int_length in H.
Qed.
Lemma split_short z : send_split (enc_short z) = [enc_short z].
Proof.
  apply split_atomic; [rewrite enc_short_length; pose proof atomic_int; lia|].
  intros H%(f_equal length). by rewrite enc_short_length in H.
Qed.

Lemma wire_int z : wire [enc_int z] = [enc_int z].
Proof. unfold wire. simpl. by rewrite split_int. Qed.
Lemma wire_pid z : wire [enc_short z] = [enc_short z].
Proof. unfold wire. simpl. by rewrite split_short. Qed.

Lemma wire_str m : wire (str_parts m) = enc_int (Z.of_nat (length (enc_str m))) :: send_split (enc_str m).
Proof. unfold wire, str_parts. simpl. by rewrite split_int, app_nil_r. Qed.

Lemma fits_len m : fits m → (0 ≤ Z.of_nat (length (enc_str m)) < 2 ^ (Z.of_nat 4 * 8))%Z.
Proof. intros (_ & ? & _). simpl in *. lia. Qed.

Lemma solid_int z q : solid q → solid (enc_int z :: q).
Proof. intros H. constructor; [|done]. intros E%(f_equal length). by rewrite enc_int_length in E. Qed.

Lemma take_in_in q c : c_in (take_in q c) = q.
Proof. done. Qed.

(** recv(&len), then recv_msg(len) of a string: the variable and the message. *)
Lemma recv_len_run fd mem m q c sch s :
  fits m → length mem = 4 →
  c_in c = wire (str_parts m) ++ q → solid q → calm sch →
  ∃ mem' : memory, length mem' = 4 ∧ srv_recv_var fd mem (at_conn fd c sch s) =
      Done (mem', at_conn fd (take_in (send_split (enc_str m) ++ q) c) (tail sch) s) ∧
    ∀ t : server, load_uint mem' t = Done (Z.of_nat (length (enc_str m)), t).
Proof.
  intros Hm Hmem Hin Hq Hcalm. rewrite wire_str in Hin.
  exists (Some <$> enc_int (Z.of_nat (length (enc_str m)))). split_and!.
  - rewrite length_fmap. apply enc_int_length.
  - apply srv_recv_var_run; [done|by rewrite enc_int_length|done|].
    apply solid_int, Forall_app. split; [apply split_nonempty|done].
  - intros t. apply load_uint_run, fits_len, Hm.
Qed.

Lemma recv_str_run fd m q c sch s :
  fits m → c_in c = send_split (enc_str m) ++ q → solid q → calm sch →
  ∃ sch', srv_recv_msg fd (Z.of_nat (length (enc_str m))) (at_conn fd c sch s) =
      Done (inr (enc_str m), at_conn fd (take_in q c) sch' s) ∧ calm sch'.
Proof.
  intros (_ & _ & Hm) Hin Hq Hcalm.
  destruct (srv_recv_msg_run fd (Z.of_nat (length (enc_str m))) _ q c sch s Hin)
    as (sch' & H & Hc); [by rewrite split_concat|done|done| |].
  - apply Forall_app. split; [apply split_nonempty|done].
  - exists sch'. by rewrite split_concat in H.
Qed.

(** len ← recv; recv_msg(len) at the start of a handler. *)
Lemma recv_message_run {A} fd mem m rest c sch s (k : nc_err + list byte → M server A) :
  fits m → length mem = 4 → c_in c = wire (str_parts m) ++ rest → solid rest → calm sch →
  ∃ sch', calm sch' ∧
    (len ← srv_recv_var fd mem; v ← load_uint len; r ← srv_recv_msg fd v; k r)
      (at_conn fd c sch s) = k (inr (enc_str m)) (at_conn fd (take_in rest c) sch' s).
Proof.
  intros Hm Hmem Hin Hrest Hcalm.
  destruct (recv_len_run fd mem m rest c sch s) as (mem' & _ & H1 & Hlen); try done.
  destruct (recv_str_run fd m rest (take_in (send_split (enc_str m) ++ rest) c) (tail sch) s)
    as (sch' & H2 & Hc2); try done; [by apply calm_tail|].
  exists sch'. split; [done|].
  by rewrite (bind_run _ _ _ _ _ H1), (bind_run _ _ _ _ _ (Hlen _)), (bind_run _ _ _ _ _ H2).
Qed.

Lemma msg_string_run m s : fits m → msg_string (enc_str m) s = Done (m, s).
Proof.
  intros [Hm _]. unfold msg_string. pose proof (mem_string_enc m [] s Hm) as H.
  by rewrite app_nil_r in H.
Qed.

(** ** The handlers *)

(** A handler does what [serve] says. *)
Definition implements (fd : Z) (req : request) (h : M server unit) : Prop :=
  ∀ s w c sch rest a w',
    means s w → req_ok req → c_in c = wire (req_body req) ++ rest → solid rest → calm sch →
    serve (al_fresh (sv_agents s)) (agent_id fd) req w = Done (a, w') →
    (∀ r, a = RpcReply r → is_Some (nc_reply_dump r)) →
    ∃ sch' s', h (at_conn fd c sch s) =
        Done (tt, at_conn fd (put_all (answer_parts a) (take_in rest c)) sch' s') ∧
      calm sch' ∧ handled s s' ∧ means s' w'.

Lemma means_agents s w a w' :
  means s w → represents a (w_reg w') → al_killed a = w_killed w' → w_dev w' = w_dev w →
  means (set_agents a s) w'.
Proof. intros [_ _ Hd] Hr Hk Hw. constructor; simpl; congruence. Qed.

Lemma handled_agents a s : handled s (set_agents a s).
Proof. exists a, (sv_dev s). by destruct s. Qed.

Lemma get_capabilities_implements fd : implements fd GetCpblts (get_capabilities fd).
Proof.
  intros s w c sch rest a w' Hw _ Hin Hrest Hcalm [= <- <-] _. simpl in Hin.
  exists sch, s. split_and!; [|done|apply handled_refl|done].
  unfold get_capabilities. rewrite !(bind_run _ _ _ _ _ (srv_send_run _ _ _ _ _)).
  rewrite send_cpblts_run, !put_all_cons, take_in_same by done. done.
Qed.

Lemma on_search_run fd c sch s (m : M alist (option aptr)) r :
  m (sv_agents s) = Done (r, sv_agents s) →
  on_agents m (at_conn fd c sch s) = Done (r, at_conn fd c sch s).
Proof. intros H. rewrite (on_agents_run _ _ _ _ _ _ _ H). by destruct s. Qed.

Lemma close_session_implements fd : implements fd CloseSession (close_session fd).
Proof.
  intros s w c sch rest a w' Hw _ Hin Hrest Hcalm Hserve _. simpl in Hin.
  unfold serve in Hserve. rewrite bind_gets in Hserve. unfold close_session.
  pose proof (by_agentid_run _ _ (means_reg _ _ Hw) (agent_id fd)) as Hs.
  rewrite (bind_run _ _ _ _ _ (on_search_run fd c sch s _ _ Hs)), agent_of_reg.
  destruct (agent_of (agent_id fd) (w_reg w)) as [[q e]|] eqn:E; [rewrite bind_modify in Hserve|];
    injection Hserve as <- <-; cbn [fmap option_fmap option_map fst].
  - apply agent_of_in in E as [E _].
    destruct (agent_stop_in _ _ q e (means_reg _ _ Hw) E) as (v & Hv & Hrep & Hk).
    rewrite (bind_run _ _ _ _ _ (on_agents_run _ _ _ _ _ _ _ Hv)), srv_send_run.
    exists sch, (set_agents v s). split_and!; [|done|apply handled_agents|].
    + by rewrite put_all_one, take_in_same.
    + apply (means_agents s w); [done|done|simpl; by rewrite Hk, (means_killed _ _ Hw)|done].
  - exists sch, s. rewrite put_all_nil, take_in_same by done.
    split_and!; [done|done|apply handled_refl|done].
Qed.

Lemma on_agents_keep {A} (m : M alist A) r fd c sch s :
  m (sv_agents s) = Done (r, sv_agents s) →
  on_agents m (at_conn fd c sch s) = Done (r, at_conn fd c sch s).
Proof. intros H. rewrite (on_agents_run _ _ _ _ _ _ _ H). by destruct s. Qed.

Lemma kill_session_implements fd sid : implements fd (KillSession sid) (kill_session fd).
Proof.
  intros s w c sch rest a w' Hw Hok Hin Hrest Hcalm Hserve _. simpl in Hin, Hok.
  unfold kill_session.
  edestruct (recv_message_run (A := unit) fd (replicate 4 (Some Init.Byte.x00)) sid rest c sch s)
    as (sch' & Hc2 & ->); try done.
  rewrite (bind_run _ _ _ _ _ (msg_string_run _ _ Hok)).
  pose proof (by_ncsid_run _ _ (means_reg _ _ Hw) sid) as H3.
  rewrite (bind_run _ _ _ _ _ (on_agents_keep _ _ _ _ _ _ H3)), session_of_reg.
  unfold serve in Hserve. rewrite bind_gets in Hserve.
  assert (∀ m, Refused m = a → w = w' → ∃ sch'' s', kill_refused fd m
    (at_conn fd (take_in rest c) sch' s) =
    Done (tt, at_conn fd (put_all (answer_parts a) (take_in rest c)) sch'' s') ∧
    calm sch'' ∧ handled s s' ∧ means s' w') as Href.
  { intros m <- <-. exists sch', s. split_and!; [apply kill_refused_run|done|apply handled_refl|done]. }
  destruct (session_of sid (w_reg w)) as [[q e]|] eqn:E1; cbn [fmap option_fmap option_map fst];
    [|injection Hserve; intros; by eapply Href].
  pose proof (by_agentid_run _ _ (means_reg _ _ Hw) (agent_id fd)) as H4.
  rewrite (bind_run _ _ _ _ _ (on_agents_keep _ _ _ _ _ _ H4)), agent_of_reg.
  destruct (agent_of (agent_id fd) (w_reg w)) as [[q' me]|] eqn:E2;
    cbn [fmap option_fmap option_map fst]; [|injection Hserve; intros; by eapply Href].
  apply agent_of_in in E2 as [E2 _]. apply session_of_in in E1 as [E1 _].
  destruct (load_agent _ _ _ _ (means_reg _ _ Hw) E2) as (info & H5 & _ & Hown).
  rewrite (bind_run _ _ _ _ _ (on_agents_keep _ _ _ _ _ _ H5)).
  rewrite (bind_run _ _ _ _ _ (on_agents_keep _ _ _ _ _ _ (Hown sid _))).
  rewrite (bool_decide_ext _ (sid = e_ncsid me)) in Hserve by done.
  case_bool_decide; [injection Hserve; intros; by eapply Href|].
  rewrite bind_modify in Hserve. injection Hserve as <- <-.
  destruct (agent_kill_in _ _ q e (means_reg _ _ Hw) E1) as (v & Hv & Hrep & Hk).
  rewrite (bind_run _ _ _ _ _ (on_agents_run _ _ _ _ _ _ _ Hv)).
  unfold kill_reply. rewrite (bind_run _ _ _ _ _ (srv_send_run _ _ _ _ _)).
  exists sch', (set_agents v s). split_and!; [by rewrite put_all_one|done|apply handled_agents|].
  apply (means_agents s w); [done|done|simpl; by rewrite Hk, (means_killed _ _ Hw)|done].
Qed.

Lemma process_operation_implements fd rpc :
  implements fd (GenericOp rpc) (process_operation fd).
Proof.
  intros s w c sch rest a w' Hw Hok Hin Hrest Hcalm Hserve Hdump. simpl in Hin, Hok.
  unfold process_operation. set (d := nc_rpc_dump rpc) in *.
  edestruct (recv_message_run (A := unit) fd (uninit 4) d rest c sch s)
    as (sch' & Hc2 & ->); try done.
  pose proof (by_agentid_run _ _ (means_reg _ _ Hw) (agent_id fd)) as H4.
  rewrite (bind_run _ _ _ _ _ (on_agents_keep _ _ _ _ _ _ H4)), agent_of_reg.
  unfold serve in Hserve. rewrite bind_gets in Hserve.
  destruct (agent_of (agent_id fd) (w_reg w)) as [[q me]|] eqn:E2;
    cbn [fmap option_fmap option_map fst].
  - apply agent_of_in in E2 as [E2 _].
    destruct (load_agent _ _ _ _ (means_reg _ _ Hw) E2) as (info & H5 & Hses & _).
    rewrite (bind_run _ _ _ _ _ (on_agents_keep _ _ _ _ _ _ H5)).
    rewrite (bind_run _ _ _ _ _ (msg_string_run _ _ Hok)), Hses. unfold d. rewrite rpc_roundtrip.
    apply bind_Done in Hserve as (r & w1 & Hp & [= <- <-]).
    unfold w_on_dev in Hp. rewrite <-(means_dev _ _ Hw) in Hp.
    destruct (processed _ _ _) as [[r' v]| |] eqn:Ep; simplify_eq.
    assert (srv_process_rpc (e_session me) (Some rpc) (sv_dev s) = Done (Reply r, v)) as Hs
      by (by rewrite srv_process_rpc_eq, (bind_run _ _ _ _ _ Ep)).
    rewrite (bind_run _ _ _ _ _ (on_dev_run _ _ _ _ _ _ _ Hs)).
    destruct (Hdump r) as [dump Hd]; [done|]. rewrite (send_reply_run _ _ _ _ _ _ Hd).
    exists sch', (set_dev v s). split_and!; [done|done| |].
    + exists (sv_agents s), v. by destruct s.
    + destruct Hw. by constructor.
  - injection Hserve as <- <-. destruct (error_dumps unknown_agent) as [dump Hd].
    rewrite (send_reply_run _ _ _ _ _ _ Hd).
    exists sch', s. split_and!; [done|done|apply handled_refl|done].
Qed.

(** ** set_session *)
Lemma wire_short m : short m →
  wire (str_parts m) = [enc_int (Z.of_nat (length (enc_str m))); enc_str m].
Proof.
  intros [_ Hm]. rewrite wire_str, split_atomic; [done|done|apply enc_str_nonempty].
Qed.

Lemma recv_cpblts_run fd rest s : ∀ cs (mem : memory) c sch,
  Forall fits cs → length mem = 4 → c_in c = wire (cs ≫= str_parts) ++ rest → solid rest →
  calm sch →
  ∃ sch', recv_cpblts fd (length cs) mem (at_conn fd c sch s) =
    Done (Some (enc_str <$> cs), at_conn fd (take_in rest c) sch' s) ∧ calm sch'.
Proof.
  induction cs as [|m cs IH]; intros mem c sch Hcs Hmem Hin Hrest Hcalm; simpl in Hin.
  - exists sch. by rewrite (take_in_same c rest Hin).
  - apply Forall_cons in Hcs as [Hm Hcs].
    assert (c_in c = wire (str_parts m) ++ (wire (cs ≫= str_parts) ++ rest)) as Hin'
      by (rewrite Hin; unfold wire, str_parts; simpl; by rewrite app_nil_r, <-!app_assoc).
    assert (solid (wire (cs ≫= str_parts) ++ rest)) as Hs
      by (apply Forall_app; split; [apply wire_solid|done]).
    cbn [recv_cpblts length].
    destruct (recv_len_run fd mem m _ c sch s Hm Hmem Hin' Hs Hcalm) as (mem' & Hl' & H1 & Hlen).
    rewrite (bind_run _ _ _ _ _ H1), (bind_run _ _ _ _ _ (Hlen _)).
    set (q := wire (cs ≫= str_parts) ++ rest) in *.
    destruct (recv_str_run fd m q (take_in (send_split (enc_str m) ++ q) c) (tail sch) s)
      as (sch1 & H2 & Hc1); [done|done|done|by apply calm_tail|].
    rewrite (bind_run _ _ _ _ _ H2).
    destruct (IH mem' (take_in q c) sch1) as (sch2 & H3 & Hc2); try done.
    exists sch2. split; [|done]. by rewrite (bind_run _ _ _ _ _ H3).
Qed.

Lemma msg_strings_run cs (s : server) : Forall fits cs →
  msg_strings (enc_str <$> cs) s = Done (cs, s).
Proof.
  induction 1 as [|m cs Hm _ IH]; [done|]. cbn [msg_strings fmap list_fmap].
  by rewrite (bind_run _ _ _ _ _ (msg_string_run _ _ Hm)), (bind_run _ _ _ _ _ IH).
Qed.

Lemma buf_string_run m (s : server) : fits m →
  buf_string (Some (Some <$> enc_str m)) s = Done (m, s).
Proof. apply msg_string_run. Qed.

(** len = ...; buf = malloc(len); recv(buf) of a short string. *)
Lemma recv_field_run {A} fd (mem : memory) m rest c sch s
  (k : memory → option memory → M server A) :
  short m → length mem = 4 → c_in c = wire (str_parts m) ++ rest → solid rest → calm sch →
  ∃ mem' : memory, length mem' = 4 ∧
    (len ← srv_recv_var fd mem; v ← load_uint len; b ← recv_buf (srv_recv fd) v; k len b)
      (at_conn fd c sch s) =
    k mem' (Some (Some <$> enc_str m)) (at_conn fd (take_in rest c) (tail (tail sch)) s).
Proof.
  intros Hm Hmem Hin Hrest Hcalm. pose proof Hm as [Hf Hat].
  destruct (recv_len_run fd mem m rest c sch s) as (mem' & Hl & H1 & Hlen); try done.
  exists mem'. split; [done|].
  rewrite (bind_run _ _ _ _ _ H1), (bind_run _ _ _ _ _ (Hlen _)).
  rewrite (split_atomic (enc_str m)) by (done || apply enc_str_nonempty).
  erewrite bind_run; [reflexivity|].
  apply (srv_recv_buf_run fd _ (enc_str m) rest (take_in ([enc_str m] ++ rest) c));
    [done|done|apply Hf|by apply calm_tail|].
  constructor; [apply enc_str_nonempty|done].
Qed.

Lemma set_session_implements fd sid user cs pid :
  implements fd (SetSession sid user cs pid) (set_session fd).
Proof.
  intros s w c sch rest a w' Hw (Hsid & Huser & (Hcs & Hn & Hmal) & Hpid) Hin Hrest Hcalm Hserve _.
  set (q4 := wire (cs ≫= str_parts) ++ rest).
  set (q3 := enc_int (Z.of_nat (length cs)) :: q4).
  set (q2 := wire (str_parts user) ++ q3). set (q1 := enc_short pid :: q2).
  assert (c_in c = wire (str_parts sid) ++ q1) as Hin1.
  { rewrite Hin. cbn [req_body]. by rewrite !wire_app, wire_pid, wire_int, <-!app_assoc. }
  assert (solid q4) as Hq4 by (apply Forall_app; split; [apply wire_solid|done]).
  assert (solid q3) as Hq3 by by apply solid_int.
  assert (solid q2) as Hq2 by (apply Forall_app; split; [apply wire_solid|done]).
  assert (solid q1) as Hq1 by by constructor.
  unfold set_session.
  edestruct (recv_field_run (A := unit) fd (uninit 4) sid q1 c sch s) as (mem1 & Hl1 & ->);
    [done|done|done|done|done|].
  rewrite (bind_run _ _ _ _ _ (srv_recv_var_run fd (uninit 2) (enc_short pid) q2 (take_in q1 c)
    _ s eq_refl eq_refl (calm_tail _ (calm_tail _ Hcalm)) Hq1)).
  set (sch1 := tail (tail (tail sch))).
  assert (calm sch1) as Hc1 by by repeat apply calm_tail.
  edestruct (recv_field_run (A := unit) fd mem1 user q3 (take_in q2 (take_in q1 c)) sch1 s)
    as (mem2 & Hl2 & ->); [done|done|done|done|done|].
  set (sch2 := tail (tail sch1)). assert (calm sch2) as Hc2 by by repeat apply calm_tail.
  rewrite (bind_run _ _ _ _ _ (srv_recv_var_run fd (uninit 4) (enc_int _) q4
    (take_in q3 (take_in q2 (take_in q1 c))) sch2 s eq_refl eq_refl Hc2 Hq3)).
  rewrite (bind_run _ _ _ _ _ (load_int_run (Z.of_nat (length cs)) _ ltac:(lia))).
  rewrite (proj2 (Z.ltb_ge _ _)) by lia. rewrite Hmal. cbn [negb]. rewrite Nat2Z.id.
  destruct (recv_cpblts_run fd rest s cs mem2 (take_in q4 (take_in q3 (take_in q2 (take_in q1 c))))
    (tail sch2)) as (sch3 & H3 & Hc3); [done|done|done|done|by apply calm_tail|].
  rewrite (bind_run _ _ _ _ _ H3), (bind_run _ _ _ _ _ (msg_strings_run _ _ Hcs)).
  rewrite (bind_run _ _ _ _ _ (buf_string_run _ _ (proj1 Hsid))).
  rewrite (bind_run _ _ _ _ _ (buf_string_run _ _ (proj1 Huser))).
  rewrite (bind_run _ _ _ _ _ (load_uint_run 2 pid _ Hpid)).
  destruct (agent_new_run _ _ (means_reg _ _ Hw) sid user (nc_cpblts_new cs) (agent_id fd) pid)
    as (v & Hv & Hrep & Hk).
  rewrite (bind_run _ _ _ _ _ (on_agents_run _ _ _ _ _ _ _ Hv)), srv_send_run.
  unfold serve in Hserve. rewrite bind_gets, bind_modify in Hserve. injection Hserve as <- <-.
  exists sch3, (set_agents v s). split_and!; [by rewrite put_all_one|done|apply handled_agents|].
  apply (means_agents s w); [done|done|simpl; by rewrite Hk, (means_killed _ _ Hw)|done].
Qed.
End handlers.
