(* ===== verification/TableFacts.v ===== *)
(** * The table of connections

    The invariant of the pollfd table: connected_agents counts the slots in
    use, listening is suspended exactly when there is no free slot, no socket is
    in two slots.  Freeing a slot and accepting agents keep it, and accepting
    always finds a slot. *)

From S2P Require Import Prelude.
From S2P Require Import OvsFacts.
From S2P Require Import Agents.
From S2P Require Import Rpc.
From S2P Require Import Sockets.
From S2P Require Import ServerSocket.
From S2P Require Import ServerLoop.

(** The sockets in the slots 1 .. AGENTS_QUEUE. *)
Definition used (l : list pollfd) : list Z := filter (λ fd, fd ≠ (-1)%Z) (p_fd <$> l).

Lemma used_app l1 l2 : used (l1 ++ l2) = used l1 ++ used l2.
Proof. unfold used. by rewrite fmap_app, filter_app. Qed.
Lemma used_cons p l : used (p :: l) = (if decide (p_fd p ≠ (-1)%Z) then [p_fd p] else []) ++ used l.
Proof. unfold used. rewrite fmap_cons, filter_cons. by case_decide. Qed.
Lemma used_length l : length (used l) ≤ length l.
Proof. unfold used. rewrite length_filter, length_fmap. done. Qed.

Definition with_fd (fd : Z) (p : pollfd) : pollfd := PollFd fd (p_revents p).

Lemma alter_middle {A} (f : A → A) (l1 : list A) p l2 :
  alter f (length l1) (l1 ++ p :: l2) = l1 ++ f p :: l2.
Proof. induction l1 as [|x l1 IH]; [done|]. simpl. by rewrite <-IH. Qed.

Lemma used_free l k p : l !! k = Some p → p_fd p ≠ (-1)%Z →
  ∃ u1 u2, used l = u1 ++ p_fd p :: u2 ∧ used (alter (with_fd (-1)) k l) = u1 ++ u2.
Proof.
  intros (l1 & l2 & -> & ->)%list_elem_of_split_length Hp. rewrite alter_middle.
  exists (used l1), (used l2). rewrite !used_app, !used_cons. simpl.
  by rewrite decide_True by done.
Qed.

Lemma used_take l k p fd : l !! k = Some p → p_fd p = (-1)%Z → fd ≠ (-1)%Z →
  used (alter (with_fd fd) k l) ≡ₚ fd :: used l.
Proof.
  intros (l1 & l2 & -> & ->)%list_elem_of_split_length Hp Hfd. rewrite alter_middle.
  rewrite !used_app, !used_cons. simpl. rewrite decide_True, (decide_False (P := _ ≠ _)) by auto.
  simpl. by rewrite Permutation_middle.
Qed.

(** ** Open descriptors *)
Lemma elem_open n fd : fd ∈ open_fds n ↔ ∃ c, n_conns n !! fd = Some c ∧ c_shut c = false.
Proof.
  unfold open_fds. rewrite elem_of_dom. split.
  - intros [c Hc]. apply map_lookup_filter_Some in Hc. by exists c.
  - intros [c Hc]. exists c. by apply map_lookup_filter_Some.
Qed.

Lemma open_insert fd c c' n sch : n_conns n !! fd = Some c → c_shut c' = c_shut c →
  open_fds (Net (<[fd := c']> (n_conns n)) sch) = open_fds n.
Proof.
  intros Hc Hs. apply set_eq. intros x. rewrite !elem_open. simpl.
  destruct (decide (x = fd)) as [->|Hne].
  - rewrite lookup_insert_eq, Hc. naive_solver congruence.
  - by rewrite lookup_insert_ne.
Qed.

Lemma open_new fd c n x : c_shut c = false → x ∈ open_fds n → x ∈ open_fds (set_conn fd c n).
Proof.
  intros Hc. rewrite !elem_open. intros (d & Hd & Hs). simpl.
  destruct (decide (x = fd)) as [->|Hne]; [exists c; by rewrite lookup_insert_eq|].
  exists d. by rewrite lookup_insert_ne.
Qed.

(** What close() does to the connections. *)
Definition shut_conn (fd : Z) (n : net) : net :=
  Net (alter (λ c, Conn (c_in c) (c_out c) (c_hup c) true) fd (n_conns n)) (n_sched n).

Lemma open_shut fd n x : x ∈ open_fds (shut_conn fd n) ↔ x ∈ open_fds n ∧ x ≠ fd.
Proof.
  rewrite !elem_open. simpl. destruct (decide (x = fd)) as [->|Hne].
  - rewrite lookup_alter_eq. destruct (n_conns n !! fd); naive_solver.
  - rewrite lookup_alter_ne by done. naive_solver.
Qed.

Section table.
Context {NS : NcSession} {NR : NcRpc} {SL : SocketLib}.
Implicit Types (s : server).

Record up s : Prop := {
  up_length : length (sv_poll s) = S AGENTS_QUEUE;
  up_sock : (0 ≤ sv_sock s)%Z;
  up_nodup : NoDup (used (tail (sv_poll s)));
  up_conns : Forall (λ fd, (0 ≤ fd)%Z ∧ fd ∈ open_fds (sv_net s))
    (used (tail (sv_poll s)));
  up_count : sv_connected s = Z.of_nat (length (used (tail (sv_poll s))));
  up_listen : p_fd <$> head (sv_poll s) =
    Some (if (sv_connected s =? Z.of_nat AGENTS_QUEUE)%Z then (-1)%Z else sv_sock s) }.

(** Everything the invariant looks at. *)
Definition table_of s :=
  (sv_poll s, sv_connected s, sv_sock s, open_fds (sv_net s), sv_path s).

Lemma up_table s s' : table_of s' = table_of s → up s → up s'.
Proof.
  intros [= Hp Hc Hk Hd] []. constructor; rewrite ?Hp, ?Hc, ?Hk; try done.
  eapply Forall_impl; [done|]. intros fd [H1 H2]. by rewrite Hd.
Qed.

(** ** Running the table operations *)
Lemma agent_run i p s : sv_poll s !! i = Some p → agent i s = Done (p, s).
Proof. intros H. unfold agent. by rewrite bind_gets, H. Qed.
Lemma set_fd_run i p fd s : sv_poll s !! i = Some p →
  set_fd i fd s = Done (tt, set_poll (alter (with_fd fd) i (sv_poll s)) s).
Proof. intros H. unfold set_fd. by rewrite (bind_run _ _ _ _ _ (agent_run _ _ _ H)). Qed.

Lemma table_shape s : up s → ∃ p0 l, sv_poll s = p0 :: l ∧ length l = AGENTS_QUEUE ∧
  p_fd p0 = if (sv_connected s =? Z.of_nat AGENTS_QUEUE)%Z then (-1)%Z else sv_sock s.
Proof.
  intros []. destruct (sv_poll s) as [|p0 l]; [done|]. exists p0, l. simpl in *.
  split_and!; [done|lia|congruence].
Qed.

(** A slot in use is freed: there is room again, so the server listens. *)
Lemma free_slot_run i p s : up s → 1 ≤ i → sv_poll s !! i = Some p → p_fd p ≠ (-1)%Z →
  ∃ s', free_slot i s = Done (tt, s') ∧ up s' ∧
    sv_agents s' = sv_agents s ∧ sv_net s' = sv_net s ∧ sv_dev s' = sv_dev s ∧
    sv_sock s' = sv_sock s ∧ tail (sv_poll s') = alter (with_fd (-1)) (pred i) (tail (sv_poll s)) ∧
    p_revents <$> head (sv_poll s') = p_revents <$> head (sv_poll s) ∧
    sv_connected s' = (sv_connected s - 1)%Z.
Proof.
  intros Hup Hi Hp Hfd. destruct (table_shape s Hup) as (p0 & l & Ht & Hl & H0).
  destruct i as [|k]; [lia|]. rewrite Ht in Hp. simpl in Hp.
  destruct (used_free l k p Hp Hfd) as (u1 & u2 & Hu & Hu').
  pose proof (up_count _ Hup) as Hc. rewrite Ht in Hc. simpl in Hc. rewrite Hu, length_app in Hc.
  simpl in Hc. pose proof (used_length l) as Hle. rewrite Hu, length_app, Hl in Hle. simpl in Hle.
  assert (∀ p0' s', sv_poll s' = p0' :: alter (with_fd (-1)) k l → p_fd p0' = sv_sock s →
    sv_connected s' = (sv_connected s - 1)%Z → sv_sock s' = sv_sock s →
    sv_net s' = sv_net s → up s') as Hmk.
  { intros p0' s' H1 H2 H3 H4 H5. destruct Hup as [? ? Hnd Hcn ? ?]. rewrite Ht in *. simpl in *.
    rewrite Hu in Hnd, Hcn. constructor; rewrite ?H1, ?H3, ?H4, ?H5; simpl; rewrite ?Hu'.
    - by rewrite length_alter, Hl.
    - done.
    - apply NoDup_app in Hnd as (? & Hx & [_ ?]%NoDup_cons). apply NoDup_app. set_solver.
    - apply Forall_app in Hcn as [? [_ ?]%Forall_cons]. by apply Forall_app.
    - rewrite length_app. lia.
    - rewrite (proj2 (Z.eqb_neq _ _)); [by rewrite H2|]. unfold AGENTS_QUEUE in *. lia. }
  unfold free_slot. erewrite bind_run by (eapply set_fd_run; by rewrite Ht).
  rewrite bind_modify. erewrite bind_run by (apply agent_run; simpl; by rewrite Ht).
  rewrite bind_gets. rewrite Ht. simpl. destruct (p_fd p0 =? -1)%Z eqn:E.
  - eexists. split; [eapply set_fd_run; reflexivity|]. simpl. split; [|done].
    by eapply (Hmk (with_fd (sv_sock s) p0)).
  - eexists. split; [reflexivity|]. simpl. split; [|done]. apply (Hmk p0); try done.
    rewrite H0. rewrite H0 in E. case_match; [|done]. done.
Qed.

(** close() and free_slot() commute: the first changes the connections only, the
    second the table only. *)
Lemma free_slot_net i n s s' : free_slot i s = Done (tt, s') →
  free_slot i (set_net n s) = Done (tt, set_net n s').
Proof.
  assert (∀ j fd t t', set_fd j fd t = Done (tt, t') →
    set_fd j fd (set_net n t) = Done (tt, set_net n t')) as Hset.
  { intros j fd t t'. unfold set_fd, agent, gets, modify, mbind, M_bind, deref. cbn.
    destruct (sv_poll t !! j); [|done]. cbn. by intros [= <-]. }
  unfold free_slot. intros ([] & s1 & H1%Hset & H)%bind_Done. rewrite (bind_run _ _ _ _ _ H1).
  rewrite bind_modify in *. apply bind_Done in H as (p0 & s2 & H2 & H).
  unfold agent in *. rewrite bind_gets in H2. cbn in *.
  destruct (sv_poll s1 !! 0) as [q|] eqn:Hq; [|done]. injection H2 as -> <-.
  erewrite bind_run by (rewrite bind_gets; cbn; by rewrite Hq). rewrite bind_gets in *. cbn in *.
  destruct (p_fd p0 =? -1)%Z; [by apply Hset in H|by injection H as <-].
Qed.

Lemma close_slot_run i p s : up s → 1 ≤ i → sv_poll s !! i = Some p → p_fd p ≠ (-1)%Z →
  ∃ s', (_ ← sys_close (p_fd p); free_slot i) s = Done (tt, s') ∧ up s' ∧
    sv_agents s' = sv_agents s ∧ sv_net s' = shut_conn (p_fd p) (sv_net s) ∧ sv_dev s' = sv_dev s ∧
    sv_sock s' = sv_sock s ∧ tail (sv_poll s') = alter (with_fd (-1)) (pred i) (tail (sv_poll s)) ∧
    p_revents <$> head (sv_poll s') = p_revents <$> head (sv_poll s) ∧
    sv_connected s' = (sv_connected s - 1)%Z.
Proof.
  intros Hup Hi Hp Hfd.
  destruct (free_slot_run i p s Hup Hi Hp Hfd) as (t & Hf & Hupt & Ha & Hn & Hd & Hk & Ht & Hh & Hc).
  exists (set_net (shut_conn (p_fd p) (sv_net s)) t). split.
  { unfold sys_close. rewrite bind_modify. by apply free_slot_net. }
  split_and!; try done.
  assert (p_fd p ∉ used (tail (sv_poll t))) as Hout.
  { rewrite Ht. destruct i as [|k]; [lia|]. rewrite <-lookup_tail in Hp. cbn [pred].
    destruct (used_free _ _ _ Hp Hfd) as (u1 & u2 & Hu & Hu'). rewrite Hu'.
    pose proof (up_nodup _ Hup) as Hnd. rewrite Hu in Hnd.
    apply NoDup_app in Hnd as (_ & H1 & [H2 _]%NoDup_cons). rewrite elem_of_app. intros [Hx|Hx]; [|done].
    apply (H1 _ Hx). by left. }
  destruct Hupt as [? ? ? Hcn ? ?]. constructor; try done.
  apply Forall_forall. intros fd Hin. apply (proj1 (Forall_forall _ _) Hcn) in Hin as Hx.
  destruct Hx as [H0 Hx]. split; [done|]. simpl. apply open_shut. rewrite <-Hn. split; [done|].
  by intros ->.
Qed.

(** ** Accepting *)
Lemma free_index_run s : ∀ l, Forall (λ i, is_Some (sv_poll s !! i)) l →
  free_index l s =
    Done (default (S AGENTS_QUEUE)
      (find_first (λ i, bool_decide (p_fd <$> sv_poll s !! i = Some (-1)%Z)) l), s).
Proof.
  induction l as [|i l IH]; [done|]. intros [[p Hp] Hl]%Forall_cons. simpl.
  rewrite (bind_run _ _ _ _ _ (agent_run _ _ _ Hp)), Hp. simpl.
  destruct (p_fd p =? -1)%Z eqn:E.
  - apply Z.eqb_eq in E. by rewrite bool_decide_eq_true_2 by congruence.
  - apply Z.eqb_neq in E. rewrite bool_decide_eq_false_2 by congruence. by apply IH.
Qed.

Lemma used_full l : (∀ k p, l !! k = Some p → p_fd p ≠ (-1)%Z) → length (used l) = length l.
Proof.
  induction l as [|p l IH]; intros H; [done|]. rewrite used_cons, decide_True by by apply (H 0).
  simpl. f_equal. apply IH. intros k q Hq. by apply (H (S k)).
Qed.

Lemma slots_lookup s : up s → Forall (λ i, is_Some (sv_poll s !! i)) slots.
Proof.
  intros Hup. apply Forall_forall. intros i [H1 H2]%elem_of_seq. apply lookup_lt_is_Some.
  rewrite (up_length _ Hup). unfold AGENTS_QUEUE in *. lia.
Qed.

(** There is a free slot as long as the server listens. *)
Lemma free_index_found s : up s → (sv_connected s < Z.of_nat AGENTS_QUEUE)%Z →
  ∃ k p, free_index slots s = Done (S k, s) ∧ tail (sv_poll s) !! k = Some p ∧
    p_fd p = (-1)%Z ∧ sv_poll s !! S k = Some p.
Proof.
  intros Hup Hlt. rewrite free_index_run by by apply slots_lookup.
  destruct (table_shape s Hup) as (p0 & l & Ht & Hl & _).
  destruct (find_first _ slots) as [i|] eqn:E.
  - apply find_first_Some in E as [Hi E%bool_decide_eq_true].
    apply elem_of_seq in Hi as [Hi _]. destruct i as [|k]; [lia|]. rewrite Ht in *. simpl in *.
    destruct (l !! k) as [p|] eqn:Hp; [|done]. exists k, p. by injection E as ->.
  - exfalso. pose proof (up_count _ Hup) as Hc. rewrite Ht in Hc. simpl in Hc.
    rewrite used_full in Hc; [rewrite Hl in Hc; lia|]. intros k p Hp Hfd.
    apply (proj1 (find_first_None _ _)) with (x := S k) in E.
    + rewrite Ht in E. simpl in E. rewrite Hp in E. apply bool_decide_eq_false in E.
      destruct E. simpl. congruence.
    + apply elem_of_seq. apply lookup_lt_Some in Hp. lia.
Qed.

Definition fresh_fd s (fd : Z) : Prop := (0 ≤ fd)%Z ∧ fd ∉ used (tail (sv_poll s)).
Definition new_conn s (x : Z * conn) : Prop := fresh_fd s x.1 ∧ c_shut x.2 = false.

(** What accepting leaves alone. *)
Definition accepted (fds : list Z) s s' : Prop :=
  sv_agents s' = sv_agents s ∧ sv_dev s' = sv_dev s ∧ (sv_sock s', sv_path s') = (sv_sock s, sv_path s) ∧
  n_sched (sv_net s') = n_sched (sv_net s) ∧
  (∀ fd, fd ∉ fds → n_conns (sv_net s') !! fd = n_conns (sv_net s) !! fd) ∧
  (∀ i p, 1 ≤ i → sv_poll s !! i = Some p → p_fd p ≠ (-1)%Z → sv_poll s' !! i = Some p).

(** One accepted socket, before listening is suspended. *)
Definition joined (k : nat) (fd : Z) (c : conn) s : server :=
  set_connected (sv_connected s + 1)
    (set_poll (alter (with_fd fd) (S k) (sv_poll s)) (set_net (set_conn fd c (sv_net s)) s)).

Lemma joined_used k p fd c s : tail (sv_poll s) !! k = Some p → p_fd p = (-1)%Z →
  (0 ≤ fd)%Z → used (tail (sv_poll (joined k fd c s))) ≡ₚ fd :: used (tail (sv_poll s)).
Proof.
  intros Hk Hp Hfd. simpl. destruct (sv_poll s) as [|p0 l]; [done|]. simpl in *.
  by apply used_take with p; [..|lia].
Qed.

(** With listening suspended when the last slot was taken. *)
Definition settled s : server :=
  if (sv_connected s =? Z.of_nat AGENTS_QUEUE)%Z
  then set_poll (alter (with_fd (-1)) 0 (sv_poll s)) s else s.

Lemma joined_up k p fd c s :
  up s → (sv_connected s < Z.of_nat AGENTS_QUEUE)%Z → tail (sv_poll s) !! k = Some p →
  p_fd p = (-1)%Z → new_conn s (fd, c) → up (settled (joined k fd c s)).
Proof.
  intros Hup Hlt Hk Hp [[H0 Hfd] Hopen]. simpl in H0, Hfd, Hopen. pose proof (joined_used k p fd c s Hk Hp H0) as Hu.
  set (t := joined k fd c s) in *. destruct (table_shape s Hup) as (p0 & l & Ht & Hl & Hp0).
  destruct Hup as [_ Hsock Hnd Hcn Hct _].
  assert (tail (sv_poll (settled t)) = tail (sv_poll t)) as Htl.
  { unfold settled. destruct (sv_connected t =? _)%Z; [|done].
    unfold t, joined. simpl. by rewrite Ht. }
  assert (sv_connected (settled t) = sv_connected t) as Hcc by (unfold settled; by destruct (sv_connected t =? _)%Z).
  assert (sv_net (settled t) = sv_net t) as Hnn by (unfold settled; by destruct (sv_connected t =? _)%Z).
  assert (sv_sock (settled t) = sv_sock s) as Hss by (unfold settled; by destruct (sv_connected t =? _)%Z).
  constructor; rewrite ?Htl, ?Hcc, ?Hnn, ?Hss.
  - unfold settled. destruct (sv_connected t =? _)%Z; unfold t, joined; simpl;
      by rewrite ?length_alter, Ht, <-Hl.
  - done.
  - rewrite Hu. by apply NoDup_cons.
  - rewrite Hu. apply Forall_cons. split.
    + split; [done|]. apply elem_open. exists c. simpl. by rewrite lookup_insert_eq.
    + eapply Forall_impl; [exact Hcn|]. intros fd' [? ?]. split; [done|]. by apply open_new.
  - rewrite Hu. simpl. rewrite Hct. lia.
  - unfold settled. simpl. destruct (sv_connected s + 1 =? _)%Z; simpl; rewrite Ht; simpl; [done|].
    f_equal. rewrite Hp0, (proj2 (Z.eqb_neq _ _)) by lia. done.
Qed.

Lemma accept_agents_run : ∀ l s,
  up s → (sv_connected s < Z.of_nat AGENTS_QUEUE)%Z → NoDup l.*1 →
  Forall (new_conn s) l →
  ∃ r s', accept_agents l s = Done (r, s') ∧ up s' ∧ accepted l.*1 s s'.
Proof.
  induction l as [|[fd c] l IH]; intros s Hup Hlt Hnd Hfr; simpl in *.
  - by exists (-1)%Z, s.
  - apply NoDup_cons in Hnd as [Hnew Hnd]. apply Forall_cons in Hfr as [Hf Hfr].
    rewrite bind_modify. set (s1 := set_net (set_conn fd c (sv_net s)) s).
    assert (free_index slots s1 = (λ o, match o with Done (i, _) => Done (i, s1) | Crash f => Crash f
      | NoFuel => NoFuel end) (free_index slots s)) as Hfi.
    { rewrite !free_index_run; [done| |]; by apply (slots_lookup s). }
    destruct (free_index_found s Hup Hlt) as (k & p & Hk & Hk2 & Hp & Hk3).
    rewrite Hk in Hfi. rewrite (bind_run _ _ _ _ _ Hfi).
    rewrite (bind_run _ _ _ _ _ (set_fd_run (S k) p fd s1 Hk3)), bind_modify, bind_gets.
    change (set_connected _ _) with (joined k fd c s). set (t := joined k fd c s).
    pose proof (joined_up k p fd c s Hup Hlt Hk2 Hp Hf) as Hup'. fold t in Hup'.
    assert (accepted (fd :: l.*1) s t) as Hacc.
    { split_and!; try done.
      - intros fd' Hfd'. simpl. apply lookup_insert_ne. set_solver.
      - intros j q _ Hq Hne. simpl. destruct (decide (j = S k)) as [->|].
        + rewrite Hk3 in Hq. by simplify_eq.
        + by rewrite list_lookup_alter_ne. }
    unfold settled in Hup'. destruct (sv_connected t =? Z.of_nat AGENTS_QUEUE)%Z eqn:E.
    + destruct (table_shape s Hup) as (p0 & l0 & Ht & _).
      exists fd. eexists. split; [|split; [exact Hup'|]].
      * erewrite bind_run; [reflexivity|]. eapply set_fd_run. simpl. rewrite Ht. reflexivity.
      * destruct Hacc as (B1 & B2 & B3 & B4 & B5 & B6). split_and!; try done.
        intros j q Hj Hq Hne. cbn [set_poll sv_poll]. rewrite list_lookup_alter_ne by lia.
        by apply B6.
    + destruct (IH t Hup') as (r & s' & Hr & Hs' & Ha).
      * apply Z.eqb_neq in E. simpl in *. lia.
      * done.
      * apply Forall_forall. intros [fd' c'] Hin.
        apply (proj1 (Forall_forall _ _) Hfr) in Hin as Hx. destruct Hx as [[H0 Hu] Hs].
        split; [split; [done|]|done].
        pose proof (joined_used k p fd c s Hk2 Hp (proj1 (proj1 Hf))) as Hju. fold t in Hju.
        rewrite Hju, not_elem_of_cons. split; [|done]. simpl. intros ->.
        apply Hnew, list_elem_of_fmap. by exists (fd, c').
      * exists r, s'. split_and!; [done|done|]. destruct Ha as (A1 & A2 & A3 & A4 & A5 & A6).
        destruct Hacc as (B1 & B2 & B3 & B4 & B5 & B6). split_and!; try congruence.
        -- intros fd' Hfd'. rewrite A5 by set_solver. by apply B5.
        -- intros j q Hj Hq Hne. apply A6; [done| |done]. by apply B6.
Qed.
End table.
