(* ===== verification/LoopFacts.v ===== *)
(** * Facts on the communication loop

    Whatever an agent sends, the handlers leave the table of connections alone;
    one call of comm_loop() keeps the invariant of the table or closes the
    server. *)

From S2P Require Import Prelude.
From S2P Require Import OvsFacts.
From S2P Require Import Agents.
From S2P Require Import Rpc.
From S2P Require Import Sockets.
From S2P Require Import ServerSocket.
From S2P Require Import ServerLoop.
From S2P Require Import TableFacts.

#[local] Create HintDb keeps.

Section loop.
Context {NS : NcSession} {NR : NcRpc} {SL : SocketLib}.
Implicit Types (s : server).

(** ** The handlers and the table *)
Lemma table_on_net {A} (m : M net A) :
  keeps open_fds m → keeps table_of (on_net m).
Proof.
  intros Hm s a s' H. unfold on_net in H. destruct (m (sv_net s)) as [[a' n]| |] eqn:E; [|done..].
  injection H as <- <-. unfold table_of. simpl. by rewrite (Hm _ _ _ E).
Qed.
Lemma table_on_agents {A} (m : M alist A) : keeps table_of (on_agents m).
Proof.
  intros s a s' H. unfold on_agents in H. destruct (m (sv_agents s)) as [[]| |]; [|done..].
  by injection H as <- <-.
Qed.
Lemma table_on_dev {A} (m : M dev A) : keeps table_of (on_dev m).
Proof.
  intros s a s' H. unfold on_dev in H. destruct (m (sv_dev s)) as [[]| |]; [|done..].
  by injection H as <- <-.
Qed.

Lemma open_sys_recv e fd n : keeps open_fds (sys_recv e fd n).
Proof.
  intros s a s' H. unfold sys_recv in H. destruct (n_conns s !! fd) as [c|] eqn:Hc; [|by simplify_eq].
  repeat case_match; simplify_eq/=; try done;
    (eapply open_insert; [exact Hc|by destruct e]).
Qed.
Lemma open_sys_send e fd bs : keeps open_fds (sys_send e fd bs).
Proof.
  intros s a s' H. unfold sys_send in H. destruct (n_conns s !! fd) as [c|] eqn:Hc; [|by simplify_eq].
  simplify_eq/=. eapply open_insert; [exact Hc|]. by destruct e.
Qed.

Lemma table_recv fd n : keeps table_of (srv_recv fd n).
Proof.
  apply keeps_bind; [apply table_on_net, open_sys_recv|intros; apply keeps_deref].
Qed.
Lemma table_send fd bs : keeps table_of (srv_send fd bs).
Proof. apply table_on_net, open_sys_send. Qed.

Lemma keeps_mem_string {A B} (f : A → B) mem : keeps f (mem_string mem).
Proof.
  induction mem as [|[b|] mem IH]; simpl; [done| |done]. case_bool_decide; [apply keeps_ret|].
  apply keeps_bind; [done|]. intros. apply keeps_ret.
Qed.
Lemma keeps_load_uint {A B} (f : A → B) mem : keeps f (load_uint mem).
Proof. apply keeps_bind; [apply keeps_deref|intros; apply keeps_ret]. Qed.
Lemma keeps_load_int {A B} (f : A → B) mem : keeps f (load_int mem).
Proof. apply keeps_bind; [apply keeps_load_uint|intros; apply keeps_ret]. Qed.

Hint Resolve table_recv table_send table_on_agents table_on_dev keeps_ret keeps_gets keeps_crash
  keeps_nofuel keeps_deref keeps_mem_string keeps_load_uint keeps_load_int : keeps.

(** Follow the code. *)
Ltac keep := repeat first
  [ solve [auto with keeps] | solve [apply keeps_modify; done] | apply keeps_bind; [|intros] | case_match | progress intros ].

Lemma table_recv_var fd mem : keeps table_of (srv_recv_var fd mem).
Proof. unfold srv_recv_var, recv_var. keep. Qed.
Hint Resolve table_recv_var : keeps.
Lemma table_recv_buf fd len : keeps table_of (recv_buf (srv_recv fd) len).
Proof. unfold recv_buf. keep. Qed.
Lemma table_recv_msg fd len : keeps table_of (srv_recv_msg fd len).
Proof.
  unfold srv_recv_msg, recv_msg. keep. rename a into fuel. generalize (@nil byte).
  induction fuel as [|f IH]; intros msg; simpl; keep.
Qed.
Hint Resolve table_recv_buf table_recv_msg : keeps.
Lemma table_msg_strings l : keeps table_of (msg_strings l).
Proof. induction l as [|bs l IH]; simpl; [keep|]. unfold msg_string. keep. Qed.
Lemma table_recv_cpblts fd n : ∀ mem, keeps table_of (recv_cpblts fd n mem).
Proof. induction n as [|n IH]; intros mem; simpl; keep. Qed.
Lemma table_send_cpblts fd l : keeps table_of (send_cpblts fd l).
Proof. induction l as [|m l IH]; simpl; keep. Qed.
Hint Resolve table_msg_strings table_recv_cpblts table_send_cpblts : keeps.

Lemma table_get_capabilities fd : keeps table_of (get_capabilities fd).
Proof. unfold get_capabilities. keep. Qed.
Lemma table_set_session fd : keeps table_of (set_session fd).
Proof. unfold set_session, buf_string. keep. Qed.
Lemma table_close_session fd : keeps table_of (close_session fd).
Proof. unfold close_session. keep. Qed.
Lemma table_kill_session fd : keeps table_of (kill_session fd).
Proof. unfold kill_session, kill_refused, kill_reply, msg_string. keep. Qed.
Lemma table_process_operation fd : keeps table_of (process_operation fd).
Proof. unfold process_operation, send_reply, msg_string. keep. Qed.
Hint Resolve table_get_capabilities table_set_session table_close_session table_kill_session
  table_process_operation : keeps.

(** ** Serving *)

(** The listening socket is polled only while there is room. *)
Definition listens s : Prop :=
  ∀ r, p_revents <$> head (sv_poll s) = Some r → r ≠ 0%Z →
    (sv_connected s < Z.of_nat AGENTS_QUEUE)%Z.

(** A slot with events is in use. *)
Definition events_used (l : list nat) s : Prop :=
  ∀ i p, i ∈ l → sv_poll s !! i = Some p → p_revents p ≠ 0%Z → p_fd p ≠ (-1)%Z.

Lemma broken_event r : is_broken r = true → r ≠ 0%Z.
Proof. intros H ->. done. Qed.
Lemma readable_event r : is_readable r = true → r ≠ 0%Z.
Proof. intros H ->. done. Qed.

Lemma agent_inv i s p s' : agent i s = Done (p, s') → s' = s ∧ sv_poll s !! i = Some p.
Proof. unfold agent. rewrite bind_gets. destruct (sv_poll s !! i); [|done]. by intros [= -> ->]. Qed.

(** Freeing a slot says nothing about the others. *)
Lemma events_free l i s s' : i ∉ l → Forall (λ j, 1 ≤ j) l → 1 ≤ i →
  events_used l s → tail (sv_poll s') = alter (with_fd (-1)) (pred i) (tail (sv_poll s)) →
  events_used l s'.
Proof.
  intros Hi Hl Hi1 He Ht j p Hj Hp. pose proof (proj1 (Forall_forall _ _) Hl j Hj) as Hj1.
  simpl in Hj1. apply (He j p Hj). destruct j as [|j]; [lia|]. destruct i as [|i]; [lia|].
  rewrite <-lookup_tail in *. rewrite Ht in Hp. simpl in Hp.
  rewrite list_lookup_alter_ne in Hp by (intros ->; done). done.
Qed.

Lemma dispatch_up i fd v s r s' : up s → 1 ≤ i → sv_poll s !! i = Some r → p_fd r = fd →
  fd ≠ (-1)%Z → listens s → dispatch i fd v s = Done (tt, s') →
  up s' ∧ listens s' ∧ (sv_poll s' = sv_poll s ∨
    tail (sv_poll s') = alter (with_fd (-1)) (pred i) (tail (sv_poll s))).
Proof.
  intros Hup Hi Hr Hfd Hne Hlis H. unfold dispatch in H.
  assert (∀ m, keeps table_of m → m s = Done (tt, s') → up s' ∧ listens s' ∧ (sv_poll s' = sv_poll s ∨
    tail (sv_poll s') = alter (with_fd (-1)) (pred i) (tail (sv_poll s)))) as Hk.
  { intros m Hm E. pose proof (Hm _ _ _ E) as Ht. split; [by eapply up_table|].
    injection Ht as Hp Hc _ _. split; [unfold listens; by rewrite Hp, Hc|]. by left. }
  case_match; [by eapply Hk, H; auto with keeps|]. case_match; [by eapply Hk, H; auto with keeps|].
  case_match.
  - apply bind_Done in H as ([] & s1 & G1 & H). apply bind_Done in H as ([] & s2 & G2 & H).
    pose proof (table_close_session _ _ _ _ G1) as T1.
    assert (up s1) as Hup1 by by eapply up_table.
    injection T1 as Hp Hc _ _ _. rewrite <-Hfd in G2.
    destruct (close_slot_run i r s1) as (s3 & G3 & Hup3 & _ & _ & _ & _ & Ht & Hh & Hn); try done;
      [by rewrite Hp|by rewrite Hfd|].
    rewrite (bind_run _ _ _ _ _ G2), H in G3. injection G3 as <-. split; [done|]. split.
    + intros e He Hne'. rewrite Hh, Hp in He. specialize (Hlis e He Hne'). lia.
    + right. by rewrite Ht, Hp.
  - repeat (case_match; [by eapply Hk, H; auto with keeps|]). by eapply Hk, H; auto with keeps.
Qed.

(** What stays while agents are served. *)
Definition socks s := (sv_sock s, sv_path s).

Lemma socks_table s s' : table_of s' = table_of s → socks s' = socks s.
Proof. unfold socks. by intros [= _ _ -> _ ->]. Qed.

Lemma free_slot_socks i s s' : free_slot i s = Done (tt, s') → socks s' = socks s.
Proof.
  assert (keeps socks (free_slot i)) as Hk by (unfold free_slot, set_fd, agent; keep).
  apply Hk.
Qed.

Lemma dispatch_socks i fd v : keeps socks (dispatch i fd v).
Proof.
  assert (∀ m : M server unit, keeps table_of m → keeps socks m) as Hk.
  { intros m Hm t a t' H. by apply socks_table, (Hm _ _ _ H). }
  unfold dispatch. repeat (case_match; [by apply Hk; auto with keeps|]).
  case_match; [|repeat (case_match; [by apply Hk; auto with keeps|]); by apply Hk; auto with keeps].
  apply keeps_bind; [by apply Hk; auto with keeps|intros _].
  apply keeps_bind; [by apply keeps_modify|intros _].
  intros t [] t'. apply free_slot_socks.
Qed.

Lemma serve_agents_up : ∀ l s ret op r s',
  NoDup l → Forall (λ i, 1 ≤ i) l → up s → events_used l s → listens s →
  serve_agents l ret op s = Done (r, s') → up s' ∧ listens s' ∧ socks s' = socks s.
Proof.
  induction l as [|i l IH]; intros s ret op r s' Hnd Hl Hup Hev Hlis H; simpl in H; [by injection H as <- <-|].
  apply NoDup_cons in Hnd as [Hi Hnd]. apply Forall_cons in Hl as [Hi1 Hl].
  assert (events_used l s) as Hev' by (intros j p Hj; refine (Hev j p _); by right).
  rewrite bind_gets in H. case_match; [by injection H as <- <-|].
  inv_bind H. apply agent_inv in Hm as [-> Hp].
  destruct (is_broken (p_revents a)) eqn:Eb; [|destruct (is_readable (p_revents a)) eqn:Er].
  - pose proof (Hev i a ltac:(by left) Hp (broken_event _ Eb)) as Hfd.
    destruct (free_slot_run i a s Hup Hi1 Hp Hfd) as (t & Ht & Hupt & _ & _ & _ & _ & Htl & Hh & Hn).
    rewrite (bind_run _ _ _ _ _ Ht) in H.
    assert (listens t) as Hlt by (intros e He Hne; rewrite Hh in He; specialize (Hlis e He Hne); lia).
    destruct (IH t ret op r s' Hnd Hl Hupt (events_free _ _ _ _ Hi Hl Hi1 Hev' Htl) Hlt H)
      as (? & ? & ->).
    split_and!; [done|done|by eapply free_slot_socks].
  - pose proof (Hev i a ltac:(by left) Hp (readable_event _ Er)) as Hfd.
    inv_bind H. pose proof (table_recv _ _ _ _ _ Hm) as T1.
    assert (up s'0) as Hup1 by by eapply up_table.
    pose proof (socks_table _ _ T1) as S1.
    assert (sv_poll s'0 = sv_poll s) as P1 by by injection T1.
    assert (events_used l s'0) as Hev1 by (unfold events_used; by rewrite P1).
    assert (listens s'0) as Hl1 by (injection T1 as _ Hc _ _ _; unfold listens; by rewrite P1, Hc).
    rewrite <-S1. destruct a0 as [[|b bs]| |]; [by eapply IH| |by eapply IH..].
    inv_bind H. assert (s'1 = s'0) as -> by (by apply (keeps_load_int id _ _ _ _ Hm0)).
    inv_bind H. destruct a1. rewrite <-P1 in Hp.
    destruct (dispatch_up _ _ _ _ _ _ Hup1 Hi1 Hp eq_refl Hfd Hl1 Hm1) as (Hup2 & Hlis2 & Htl).
    rewrite <-(dispatch_socks _ _ _ _ _ _ Hm1). case_match; [by injection H as <- <-|].
    eapply IH; [done|done|done| |done|exact H]. destruct Htl as [Hsame|Htl].
    + unfold events_used. by rewrite Hsame.
    + by eapply events_free.
  - by eapply IH.
Qed.

(** ** Closing the server *)
Lemma close_agents_run : ∀ l s, Forall (λ i, is_Some (sv_poll s !! i)) l →
  ∃ s', close_agents l s = Done (tt, s') ∧ sv_sock s' = sv_sock s ∧ sv_poll s' = sv_poll s ∧
    sv_agents s' = sv_agents s ∧ sv_dev s' = sv_dev s ∧ sv_connected s' = sv_connected s.
Proof.
  induction l as [|i l IH]; intros s Hl; [by exists s|]. apply Forall_cons in Hl as [[p Hp] Hl].
  simpl. rewrite (bind_run _ _ _ _ _ (agent_run _ _ _ Hp)). unfold sys_close at 1.
  rewrite bind_modify. match goal with |- context [close_agents l ?t] => destruct (IH t Hl) as (s' & H) end.
  by exists s'.
Qed.

Lemma comm_destroy_run s : up s → ∃ s', comm_destroy s = Done (tt, s') ∧
  (sv_sock s', sv_path s') = ((-1)%Z, false) ∧
  sv_agents s' = sv_agents s ∧ sv_dev s' = sv_dev s.
Proof.
  intros Hup. unfold comm_destroy. rewrite bind_gets.
  rewrite (proj2 (Z.eqb_neq _ _)) by (pose proof (up_sock _ Hup); lia). rewrite bind_gets.
  destruct (0 <? sv_connected s)%Z.
  - destruct (close_agents_run slots s (slots_lookup s Hup)) as (t & Ht & _ & _ & Ha & Hd & _).
    erewrite bind_run by (by rewrite (bind_run _ _ _ _ _ Ht)). eexists. split; [reflexivity|]. done.
  - eexists. split; [reflexivity|]. done.
Qed.

(** ** New agents *)

(** The kernel gives accepted sockets numbers that are not open when accept() is
    called, whether or not they were in use before. *)
Definition accepts_new (env : poll_env) s : Prop :=
  NoDup (pe_accept env).*1 ∧
  Forall (λ x, (0 ≤ x.1)%Z ∧ x.1 ∉ open_fds (sv_net s) ∧ c_shut x.2 = false) (pe_accept env).

Lemma accepts_new_conns env s : up s → accepts_new env s → Forall (new_conn s) (pe_accept env).
Proof.
  intros Hup [_ H]. eapply Forall_impl; [exact H|]. intros [fd c] (H0 & Hfd & Hc). split; [|done].
  split; [done|]. contradict Hfd. by apply (proj1 (Forall_forall _ _) (up_conns _ Hup) _ Hfd).
Qed.

Definition alive s s' (r : exit) : Prop :=
  (up s' ∧ (sv_sock s', sv_path s') = (sv_sock s, sv_path s)) ∨
  (r = EXIT_FAILURE ∧ (sv_sock s', sv_path s') = ((-1)%Z, false)).

Lemma check_listen_run env s : up s → listens s → accepts_new env s →
  ∃ r s', check_listen env s = Done (r, s') ∧ alive s s' r ∧
    sv_agents s' = sv_agents s ∧ sv_dev s' = sv_dev s ∧
    (r = EXIT_SUCCESS → up s' ∧ accepted (pe_accept env).*1 s s') ∧
    (r = EXIT_FAILURE → (sv_sock s', sv_path s') = ((-1)%Z, false) ∧ (pe_again env = false ∨
       ∃ e, p_revents <$> head (sv_poll s) = Some e ∧ is_broken e = true)).
Proof.
  intros Hup Hlis Hfr. destruct (table_shape s Hup) as (p0 & l & Ht & Hl & Hp0).
  unfold check_listen. rewrite (bind_run _ _ _ _ _ (agent_run 0 p0 s ltac:(by rewrite Ht))).
  set (why := pe_again env = false ∨
    ∃ e, p_revents <$> head (sv_poll s) = Some e ∧ is_broken e = true).
  assert (∀ t, why → up t → sv_agents t = sv_agents s → sv_dev t = sv_dev s →
    ∃ r s', (_ ← comm_destroy; mret EXIT_FAILURE) t = Done (r, s') ∧
    alive s s' r ∧ sv_agents s' = sv_agents s ∧ sv_dev s' = sv_dev s ∧
    (r = EXIT_SUCCESS → up s' ∧ accepted (pe_accept env).*1 s s') ∧
    (r = EXIT_FAILURE → (sv_sock s', sv_path s') = ((-1)%Z, false) ∧ why)) as Hd.
  { intros t Hwhy Hupt Ha Hd. destruct (comm_destroy_run t Hupt) as (u & Hu & Hs & Hau & Hdu).
    exists EXIT_FAILURE, u. rewrite (bind_run _ _ _ _ _ Hu). split; [done|].
    split; [by right|]. by rewrite Hau, Hdu, Ha, Hd. }
  destruct (is_broken (p_revents p0)) eqn:Eb.
  { apply Hd; try done. right. exists (p_revents p0). by rewrite Ht. }
  destruct (is_readable (p_revents p0)) eqn:Er; [|exists EXIT_SUCCESS, s; split_and!; try done; by left].
  destruct (accept_agents_run (pe_accept env) s) as (fd & t & Hacc & Hupt & Hacc').
  - done.
  - apply (Hlis (p_revents p0)); [by rewrite Ht|by apply readable_event].
  - apply Hfr.
  - by apply accepts_new_conns.
  - rewrite (bind_run _ _ _ _ _ Hacc). pose proof Hacc' as (Ha & Hdv & Hs & Hsch & Hoth & Hsl).
    destruct ((fd =? -1)%Z && negb (pe_again env)) eqn:Ea.
    { apply Hd; try done. left. apply andb_true_iff in Ea as [_ Ea]. by apply negb_true_iff. }
    rewrite bind_gets.
    exists EXIT_SUCCESS. destruct (sv_connected t <? Z.of_nat AGENTS_QUEUE)%Z.
    + destruct (table_shape t Hupt) as (q0 & m & Hm & _). unfold set_revents.
      erewrite bind_run by (rewrite (bind_run _ _ _ _ _ (agent_run 0 q0 t ltac:(by rewrite Hm)));
        reflexivity).
      eexists. split; [reflexivity|].
      match goal with |- alive _ ?u _ ∧ _ => assert (up u) as Hupu end.
      { destruct Hupt as [? ? ? ? ? ?]. rewrite Hm in *. constructor; simpl; rewrite ?Hm; done. }
      split_and!; [by left|done|done| |done]. intros _. split; [done|].
      split_and!; try done. intros j q Hj Hq Hne. simpl. rewrite list_lookup_alter_ne by lia.
      by apply Hsl.
    + exists t. split_and!; [done|by left|done|done|done|done].
Qed.

(** ** poll() *)
Definition polled (rs : list Z) s : server := set_poll (sys_poll rs (sv_poll s)) s.

Lemma sys_poll_lookup rs t i p : sys_poll rs t !! i = Some p →
  ∃ q, t !! i = Some q ∧ p_fd p = p_fd q ∧ (p_revents p ≠ 0%Z → (0 ≤ p_fd p)%Z) ∧
    p_revents p = if (p_fd q <? 0)%Z then 0%Z else nth i rs 0%Z.
Proof.
  unfold sys_poll. rewrite list_lookup_imap. intros (q & Hq & ->)%fmap_Some.
  exists q. simpl. split_and!; try done. case_match eqn:E; [done|]. intros _. lia.
Qed.

Lemma sys_poll_fds rs t : p_fd <$> sys_poll rs t = p_fd <$> t.
Proof.
  apply list_eq. intros i. rewrite !list_lookup_fmap. unfold sys_poll.
  rewrite list_lookup_imap. by destruct (t !! i).
Qed.

Lemma polled_up rs s : up s →
  up (polled rs s) ∧ events_used slots (polled rs s) ∧ listens (polled rs s).
Proof.
  intros Hup. pose proof (sys_poll_fds rs (sv_poll s)) as Hf.
  assert (p_fd <$> tail (sys_poll rs (sv_poll s)) = p_fd <$> tail (sv_poll s)) as Hft.
  { by rewrite !fmap_tail, Hf. }
  assert (used (tail (sys_poll rs (sv_poll s))) = used (tail (sv_poll s))) as Hu
    by (unfold used; by rewrite Hft).
  assert (p_fd <$> head (sys_poll rs (sv_poll s)) = p_fd <$> head (sv_poll s)) as Hh
    by (by rewrite !head_lookup, <-!list_lookup_fmap, Hf).
  split; [|split].
  - destruct Hup. constructor; simpl; rewrite ?Hu, ?Hh; try done.
    unfold sys_poll. by rewrite length_imap.
  - intros i p _ Hp He. simpl in Hp. apply sys_poll_lookup in Hp as (q & _ & _ & H & _).
    specialize (H He). lia.
  - intros r Hr Hne. simpl in *. destruct (head (sys_poll _ _)) as [p0|] eqn:E0; [|done].
    rewrite head_lookup in E0. apply sys_poll_lookup in E0 as (q & Hq & Hfd & H & _).
    simpl in Hr. injection Hr as <-. specialize (H Hne). rewrite Hfd in H.
    pose proof (up_listen _ Hup) as Hl. rewrite head_lookup, Hq in Hl. simpl in Hl.
    injection Hl as Hl. destruct (table_shape s Hup) as (p1 & l & Ht & Hlen & _).
    pose proof (up_count _ Hup) as Hc. rewrite Ht in Hc. simpl in Hc.
    pose proof (used_length l). rewrite Hlen in *.
    destruct (sv_connected s =? _)%Z eqn:E; [lia|]. apply Z.eqb_neq in E. lia.
Qed.

(** ... in the round that begins in s: accept() is called after the agents have
    been served. *)
Definition env_fresh (env : poll_env) s : Prop :=
  ∀ rs s1, pe_poll env = Some rs →
    serve_agents slots (poll_count (sv_poll (polled rs s))) (uninit 4) (polled rs s) = Done (None, s1) →
    accepts_new env s1.

Lemma comm_loop_up env s r s' : up s → env_fresh env s →
  comm_loop env s = Done (r, s') → alive s s' r.
Proof.
  intros Hup Hfr H. unfold comm_loop in H. rewrite bind_gets in H.
  rewrite (proj2 (Z.eqb_neq _ _)) in H by (pose proof (up_sock _ Hup); lia).
  destruct (pe_poll env) as [rs|] eqn:Epoll.
  - rewrite bind_modify, bind_gets in H. change (set_poll _ s) with (polled rs s) in H.
    destruct (polled_up rs s Hup) as (Hup1 & Hev & Hlis).
    destruct (poll_count _ =? 0)%Z; [injection H as <- <-; by left|].
    inv_bind H. pose proof Hm as Hserve. eapply serve_agents_up in Hm as (Hup2 & Hlis2 & Hs); try done.
    + injection Hs as Hk Hpt.
      destruct a as [e|]; [injection H as <- <-; left; split; [done|by rewrite Hk, Hpt]|].
      destruct (check_listen_run env s'0 Hup2 Hlis2) as (e & t & Ht & Ha & _); [by apply (Hfr rs)|].
      rewrite H in Ht. injection Ht as <- <-. unfold alive in *. by rewrite Hk, Hpt in Ha.
    + apply NoDup_seq.
    + apply Forall_forall. intros i [? _]%elem_of_seq. done.
  - destruct (comm_destroy_run s Hup) as (t & Ht & Hs & _).
    rewrite (bind_run _ _ _ _ _ Ht) in H. injection H as <- <-. by right.
Qed.
End loop.
