(* ===== verification/ServeFacts.v ===== *)
(** * The communication loop serves agents

    One call of comm_loop() answers every agent whose request has arrived, in
    the order of the table, as [serve] says, and leaves the other connections
    alone. *)

From S2P Require Import Prelude.
From S2P Require Import OvsFacts.
From S2P Require Import Agents.
From S2P Require Import AgentsFacts.
From S2P Require Import Rpc.
From S2P Require Import Sockets.
From S2P Require Import ServerSocket.
From S2P Require Import ServerLoop.
From S2P Require Import SocketFacts.
From S2P Require Import ServerSpec.
From S2P Require Import HandlerFacts.
From S2P Require Import TableFacts.
From S2P Require Import LoopFacts.

Section serving.
Context {NS : NcSession} {NR : NcRpc} {SL : SocketLib}.
Implicit Types (s : server).

(** The datastores answer every request, as long as they are in a good state. *)
Definition device_answers (I : dev → Prop) : Prop :=
  ∀ ses rpc d, I d → ∃ r d', processed ses rpc d = Done (r, d') ∧ I d' ∧ is_Some (nc_reply_dump r).

(** A request that has arrived completely. *)
Definition req_parts (req : request) : list (list byte) := enc_int (req_op req) :: req_body req.

Definition pending s (fd : Z) (req : request) : Prop :=
  req_ok req ∧ ∃ c rest, n_conns (sv_net s) !! fd = Some c ∧
    c_in c = wire (req_parts req) ++ rest ∧ solid rest.

(** The request has been consumed and the answer sent. *)
Definition answered s s' (fd : Z) (req : request) (a : answer) : Prop :=
  ∃ c rest, n_conns (sv_net s) !! fd = Some c ∧ c_in c = wire (req_parts req) ++ rest ∧
    n_conns (sv_net s') !! fd =
      Some (Conn rest (c_out c ++ wire (answer_parts a)) (c_hup c) (closes req || c_shut c)).

Definition others_same s s' (fds : list Z) : Prop :=
  ∀ fd, fd ∉ fds → n_conns (sv_net s') !! fd = n_conns (sv_net s) !! fd.

(** What is served, in order. *)
Inductive serves_all : list (Z * request * answer) → world → world → Prop :=
| serves_nil w : serves_all [] w w
| serves_cons fd req a tr w w1 w2 p :
    p ∉ (w_reg w).*1 → serve p (agent_id fd) req w = Done (a, w1) →
    serves_all tr w1 w2 → serves_all ((fd, req, a) :: tr) w w2.

Section device.
Context (I : dev → Prop) (HI : device_answers I).

Lemma serve_total p id req w : I (w_dev w) →
  ∃ a w', serve p id req w = Done (a, w') ∧ I (w_dev w') ∧
    ∀ r, a = RpcReply r → is_Some (nc_reply_dump r).
Proof using HI.
  intros Hw. unfold serve. rewrite bind_gets.
  destruct req as [|sid user cs pid| |sid|rpc].
  - by eexists _, _.
  - by eexists _, _.
  - destruct (agent_of _ _) as [[]|]; by eexists _, _.
  - destruct (session_of _ _) as [[]|]; [|by eexists _, _].
    destruct (agent_of _ _) as [[]|]; [|by eexists _, _].
    case_bool_decide; by eexists _, _.
  - destruct (agent_of _ _) as [[q e]|].
    + destruct (HI (e_session e) (Some rpc) _ Hw) as (r & d' & Hr & Hd & Hdump).
      exists (RpcReply r), (World (w_reg w) d' (w_killed w)).
      erewrite bind_run by (unfold w_on_dev; by rewrite Hr). split_and!; [done|done|].
      by intros r' [= <-].
    + eexists _, _. split_and!; [done|done|]. intros r [= <-]. apply error_dumps.
Qed.

(** ** One request *)
Definition handler (fd : Z) (req : request) : M server unit :=
  match req with
  | GetCpblts => get_capabilities fd
  | SetSession _ _ _ _ => set_session fd
  | CloseSession => close_session fd
  | KillSession _ => kill_session fd
  | GenericOp _ => process_operation fd
  end.

Lemma handler_implements fd req : implements fd req (handler fd req).
Proof.
  destruct req; simpl; [apply get_capabilities_implements|apply set_session_implements
    |apply close_session_implements|apply kill_session_implements|apply process_operation_implements].
Qed.

Lemma dispatch_handler i fd req :
  dispatch i fd (req_op req) =
    if closes req then (_ ← handler fd req; _ ← sys_close fd; free_slot i) else handler fd req.
Proof. by destruct req. Qed.

Lemma req_op_range req : (- 2 ^ 31 ≤ req_op req < 2 ^ 31)%Z.
Proof. destruct req; unfold req_op, COMM_SOCK_GET_CPBLTS, COMM_SOCK_SET_SESSION,
  COMM_SOCK_CLOSE_SESSION, COMM_SOCK_KILL_SESSION, COMM_SOCK_GENERICOP; lia. Qed.

(** The operation and then the rest of the message. *)
Lemma recv_op_run s w fd req : means s w → pending s fd req → calm (n_sched (sv_net s)) →
  ∃ c rest, n_conns (sv_net s) !! fd = Some c ∧ c_in c = wire (req_parts req) ++ rest ∧
    solid rest ∧ calm (tail (n_sched (sv_net s))) ∧
    srv_recv fd 4 s = Done (Received (enc_int (req_op req)),
      at_conn fd (take_in (wire (req_body req) ++ rest) c) (tail (n_sched (sv_net s))) s).
Proof.
  intros Hw (Hok & c & rest & Hc & Hin & Hrest) Hcalm. exists c, rest.
  split_and!; [done|done|done|by apply calm_tail|].
  assert (wire (req_parts req) = enc_int (req_op req) :: wire (req_body req)) as Hp.
  { unfold wire, req_parts. simpl. by rewrite split_int. }
  rewrite Hp in Hin. pose proof (srv_recv_run fd (enc_int (req_op req)) (wire (req_body req) ++ rest)
    c (n_sched (sv_net s)) s Hin Hcalm) as H.
  rewrite enc_int_length, at_conn_id in H by done. apply H.
  apply solid_int, Forall_app. split; [apply wire_solid|done].
Qed.

(** Handling the request on connection fd. *)
Lemma handle_request s w fd req : means s w → I (w_dev w) → pending s fd req →
  calm (n_sched (sv_net s)) →
  ∃ s1 s' a w', srv_recv fd 4 s = Done (Received (enc_int (req_op req)), s1) ∧
    handler fd req s1 = Done (tt, s') ∧ table_of s' = table_of s ∧ table_of s1 = table_of s ∧
    means s' w' ∧ I (w_dev w') ∧ calm (n_sched (sv_net s')) ∧
    (∃ p, p ∉ (w_reg w).*1 ∧ serve p (agent_id fd) req w = Done (a, w')) ∧
    others_same s s' [fd] ∧
    ∃ c rest, n_conns (sv_net s) !! fd = Some c ∧ c_in c = wire (req_parts req) ++ rest ∧
      n_conns (sv_net s') !! fd =
        Some (Conn rest (c_out c ++ wire (answer_parts a)) (c_hup c) (c_shut c)).
Proof using HI.
  intros Hw Hi Hpend Hcalm.
  destruct (recv_op_run s w fd req Hw Hpend Hcalm) as (c & rest & Hc & Hin & Hrest & Hcalm1 & Hop).
  destruct (serve_total (al_fresh (sv_agents s)) (agent_id fd) req w Hi) as (a & w' & Hserve & Hi' & Hd).
  destruct (handler_implements fd req s w (take_in (wire (req_body req) ++ rest) c)
    (tail (n_sched (sv_net s))) rest a w' Hw (proj1 Hpend)) as (sch' & s' & Hh & Hcalm' & Hhd & Hw');
    try done.
  eexists _, _, a, w'. split; [exact Hop|]. split; [exact Hh|].
  pose proof (table_recv _ _ _ _ _ Hop) as T1.
  assert (keeps table_of (handler fd req)) as Hk by (destruct req; simpl;
    [apply table_get_capabilities|apply table_set_session|apply table_close_session
    |apply table_kill_session|apply table_process_operation]).
  pose proof (Hk _ _ _ Hh) as T2. destruct Hhd as (v & d & ->).
  split_and!; [congruence|done| |done|done| | |].
  - destruct Hw'. by constructor.
  - exists (al_fresh (sv_agents s)). split; [|done]. intros Hx.
    by apply (fresh_new _ _ (means_reg _ _ Hw) (al_fresh (sv_agents s))).
  - intros fd' Hfd. simpl. apply lookup_insert_ne. set_solver.
  - exists c, rest. split_and!; [done|done|]. simpl. by rewrite lookup_insert_eq.
Qed.

(** Slots other than the one freed. *)
Lemma free_others i j s s' : 1 ≤ i → 1 ≤ j → j ≠ i →
  tail (sv_poll s') = alter (with_fd (-1)) (pred i) (tail (sv_poll s)) →
  sv_poll s' !! j = sv_poll s !! j.
Proof.
  intros Hi Hj Hne Ht. destruct i as [|i]; [lia|]. destruct j as [|j]; [lia|].
  rewrite <-!lookup_tail, Ht. simpl. apply list_lookup_alter_ne. lia.
Qed.

(** One slot with a pending request. *)
Record slot_served s s' (i : nat) (fd : Z) (req : request) (a : answer) (w w' : world) : Prop := {
  ss_up : up s'; ss_listens : listens s'; ss_socks : socks s' = socks s;
  ss_means : means s' w'; ss_dev : I (w_dev w'); ss_calm : calm (n_sched (sv_net s'));
  ss_serve : ∃ p, p ∉ (w_reg w).*1 ∧ serve p (agent_id fd) req w = Done (a, w');
  ss_answered : answered s s' fd req a;
  ss_others : others_same s s' [fd];
  ss_head : p_revents <$> head (sv_poll s') = p_revents <$> head (sv_poll s);
  ss_slots j : 1 ≤ j → j ≠ i → sv_poll s' !! j = sv_poll s !! j;
  ss_keep : closes req = false → sv_poll s' = sv_poll s }.

Lemma serve_slot s w i p req :
  up s → listens s → means s w → I (w_dev w) → calm (n_sched (sv_net s)) →
  1 ≤ i → sv_poll s !! i = Some p → p_fd p ≠ (-1)%Z → pending s (p_fd p) req →
  ∃ s1 s' a w', srv_recv (p_fd p) 4 s = Done (Received (enc_int (req_op req)), s1) ∧
    dispatch i (p_fd p) (req_op req) s1 = Done (tt, s') ∧
    slot_served s s' i (p_fd p) req a w w'.
Proof using HI.
  intros Hup Hlis Hw Hi Hcalm Hi1 Hp Hfd Hpend.
  destruct (handle_request s w (p_fd p) req Hw Hi Hpend Hcalm) as (s1 & s2 & a & w' & Hop & Hh &
    T2 & T1 & Hw2 & Hi2 & Hc2 & Hserve & Hoth & c & rest & Hc & Hin & Hc').
  assert (up s2) as Hup2 by by eapply up_table.
  injection T2 as Hpoll Hconn Hsock Hdom Hpath.
  assert (listens s2) as Hlis2 by (unfold listens; by rewrite Hpoll, Hconn).
  assert (socks s2 = socks s) as Hs2 by (unfold socks; congruence).
  rewrite dispatch_handler. destruct (closes req) eqn:Hcl.
  - destruct (close_slot_run i p s2 Hup2 Hi1) as (s' & Hf & Hup' & Ha & Hn & Hd & Hk & Ht & Hhd & Hcn);
      [by rewrite Hpoll|done|].
    exists s1, s', a, w'. split; [done|]. split; [by rewrite (bind_run _ _ _ _ _ Hh)|].
    apply bind_Done in Hf as ([] & s3 & Hcl3 & Hf).
    constructor.
    + done.
    + intros r Hr Hne. rewrite Hhd in Hr. specialize (Hlis2 r Hr Hne). simpl in Hcn. lia.
    + rewrite <-Hs2, (free_slot_socks _ _ _ Hf). by injection Hcl3 as <-.
    + destruct Hw2. constructor; rewrite ?Ha, ?Hd; done.
    + done.
    + by rewrite Hn.
    + done.
    + exists c, rest. rewrite Hn, Hcl. simpl. rewrite lookup_alter_eq, Hc'. done.
    + intros fd' Hfd'. rewrite Hn. simpl. rewrite lookup_alter_ne by set_solver. by apply Hoth.
    + rewrite Hhd. by rewrite Hpoll.
    + intros j Hj Hne. rewrite (free_others i j s2 s') by done. by rewrite Hpoll.
    + by rewrite Hcl.
  - exists s1, s2, a, w'. split; [done|]. split; [done|]. constructor; try done.
    + exists c, rest. by rewrite Hcl.
    + by rewrite Hpoll.
    + intros j _ _. by rewrite Hpoll.
Qed.

End device.

(** ** The whole round *)

(** The sockets with a message, in the order of the table. *)
Definition ready (p : pollfd) : bool := negb (is_broken (p_revents p)) && is_readable (p_revents p).
Definition ready_fds (l : list nat) (t : list pollfd) : list Z :=
  omap (λ i, p ← t !! i; if ready p then Some (p_fd p) else None) l.
Definition revents_at (t : list pollfd) (i : nat) : Z := from_option p_revents 0%Z (t !! i).
Definition events (l : list nat) (t : list pollfd) : nat :=
  length (filter (λ i, revents_at t i ≠ 0%Z) l).

Lemma events_count l2 : ∀ l1,
  events (seq (length l1) (length l2)) (l1 ++ l2) = length (filter (λ p, p_revents p ≠ 0%Z) l2).
Proof.
  induction l2 as [|p l2 IH]; intros l1; [done|]. unfold events in *. cbn [length seq].
  specialize (IH (l1 ++ [p])). rewrite length_app, <-app_assoc in IH. simpl in IH.
  rewrite Nat.add_1_r in IH.
  assert (revents_at (l1 ++ p :: l2) (length l1) = p_revents p) as Hr
    by (unfold revents_at; by rewrite list_lookup_middle).
  rewrite !filter_cons, Hr. case_decide; simpl; by rewrite IH.
Qed.

Lemma events_polled s rs : up s →
  (Z.of_nat (events slots (sv_poll (polled rs s))) ≤ poll_count (sv_poll (polled rs s)))%Z.
Proof.
  intros Hup. destruct (polled_up rs s Hup) as [Hup' _].
  destruct (table_shape _ Hup') as (p0 & l & Ht & Hl & _). rewrite Ht. unfold slots.
  rewrite <-Hl. pose proof (events_count l [p0]) as He. simpl in He. rewrite He. unfold poll_count. rewrite filter_cons.
  case_decide; simpl; lia.
Qed.

Lemma ready_event t i p : t !! i = Some p → ready p = true → revents_at t i ≠ 0%Z.
Proof.
  intros Hp [_ Hr]%andb_true_iff. unfold revents_at. rewrite Hp. by apply readable_event.
Qed.

Lemma no_events_ready l t : events l t = 0 → ready_fds l t = [].
Proof.
  unfold events. induction l as [|i l IH]; [done|]. rewrite filter_cons. simpl.
  destruct (decide (revents_at t i ≠ 0%Z)) as [|Hd]; [done|]. intros H. rewrite (IH H).
  destruct (t !! i) as [p|] eqn:Hp; [|done]. simpl. destruct (ready p) eqn:Hr; [|done].
  by destruct Hd; eapply ready_event.
Qed.

(** Sockets in different slots differ. *)
Lemma used_distinct l a b p q : NoDup (used l) → l !! a = Some p → l !! b = Some q → a ≠ b →
  p_fd p ≠ (-1)%Z → p_fd q ≠ (-1)%Z → p_fd q ≠ p_fd p.
Proof.
  intros Hnd (l1 & l2 & -> & ->)%list_elem_of_split_length Hb Hne Hp Hq Heq.
  rewrite used_app, used_cons, decide_True in Hnd by done.
  assert (∀ m, q ∈ m → p_fd p ∈ used m) as Hin.
  { intros m Hm. rewrite <-Heq. apply list_elem_of_filter. split; [done|].
    by apply list_elem_of_fmap_2. }
  apply NoDup_app in Hnd as (_ & H1 & [H2 _]%NoDup_cons).
  destruct (decide (b < length l1)) as [Hlt|Hge].
  - rewrite lookup_app_l in Hb by done. apply (H1 (p_fd p)); [|by left].
    by apply Hin, (list_elem_of_lookup_2 _ b).
  - rewrite lookup_app_r in Hb by lia. destruct (b - length l1) as [|k] eqn:E; [lia|].
    simpl in Hb. by apply H2, Hin, (list_elem_of_lookup_2 _ k).
Qed.

Lemma slots_distinct s i j p q : up s → 1 ≤ i → 1 ≤ j → i ≠ j →
  sv_poll s !! i = Some p → sv_poll s !! j = Some q → p_fd p ≠ (-1)%Z → p_fd q ≠ (-1)%Z →
  p_fd q ≠ p_fd p.
Proof.
  intros Hup Hi Hj Hne Hp Hq. destruct i as [|i], j as [|j]; try lia.
  rewrite <-lookup_tail in *. apply (used_distinct (tail (sv_poll s)) i j); [apply Hup|done|done|lia].
Qed.

Lemma events_zero l t : (∀ i, i ∈ l → revents_at t i = 0%Z) → events l t = 0.
Proof.
  unfold events. induction l as [|i l IH]; intros H; [done|].
  rewrite filter_cons, decide_False by (intros Hne; apply Hne, H; by left).
  apply IH. intros j Hj. apply H. by right.
Qed.

(** Without connected agents there are no events. *)
Lemma none_connected s l : up s → (sv_connected s ≤ 0)%Z → Forall (λ i, 1 ≤ i) l →
  events_used l s → events l (sv_poll s) = 0.
Proof.
  intros Hup Hn Hl He. pose proof (up_count _ Hup) as Hc. apply events_zero. intros i Hi.
  unfold revents_at. destruct (sv_poll s !! i) as [p|] eqn:Hp; [|done]. simpl.
  destruct (decide (p_revents p = 0%Z)) as [|Hne]; [done|exfalso].
  specialize (He i p Hi Hp Hne). destruct i as [|i]; [by apply Forall_forall with (x := 0) in Hl; [lia|]|].
  rewrite <-lookup_tail in Hp.
  assert (p_fd p ∈ used (tail (sv_poll s))) as Hin.
  { apply list_elem_of_filter. split; [done|]. apply list_elem_of_fmap_2. by eapply list_elem_of_lookup_2. }
  destruct (used (tail (sv_poll s))); [by apply not_elem_of_nil in Hin|]. simpl in Hc. lia.
Qed.

Section round.
Context (I : dev → Prop) (HI : device_answers I).

(** The request of each agent that has something to say. *)
Context (reqs : Z → request).

(** Same events at the slots of l. *)
Definition agrees (l : list nat) (t t' : list pollfd) : Prop := ∀ i, i ∈ l → t' !! i = t !! i.

Lemma ready_fds_agrees l t t' : agrees l t t' → ready_fds l t' = ready_fds l t.
Proof.
  intros H. apply list_omap_ext, Forall_Forall2_diag, Forall_forall.
  intros i Hi. by rewrite (H i Hi).
Qed.
Lemma events_agrees l t t' : agrees l t t' → events l t' = events l t.
Proof.
  unfold events. intros H. f_equal. induction l as [|i l IH]; [done|].
  assert (revents_at t' i = revents_at t i) as Hi by (unfold revents_at; by rewrite (H i) by by left).
  rewrite !filter_cons, Hi, IH; [done|]. intros j Hj. apply H. by right.
Qed.

(** All messages that have arrived are requests. *)
Definition all_pending (l : list nat) s : Prop :=
  ∀ i p, i ∈ l → sv_poll s !! i = Some p → ready p = true → pending s (p_fd p) (reqs (p_fd p)).

(** The slot is not freed in this round. *)
Definition stays (p : pollfd) : Prop :=
  is_broken (p_revents p) = false ∧ (ready p = true → closes (reqs (p_fd p)) = false).

Record round_done s s' (w w' : world) (fds : list Z) (tr : list (Z * request * answer)) : Prop := {
  rd_up : up s'; rd_listens : listens s'; rd_socks : socks s' = socks s;
  rd_means : means s' w'; rd_dev : I (w_dev w'); rd_calm : calm (n_sched (sv_net s'));
  rd_serves : serves_all tr w w';
  rd_fds : tr.*1 = (λ fd, (fd, reqs fd)) <$> fds;
  rd_answered fd req a : (fd, req, a) ∈ tr → answered s s' fd req a;
  rd_slots j q : 1 ≤ j → sv_poll s !! j = Some q → stays q → sv_poll s' !! j = Some q;
  rd_head : p_revents <$> head (sv_poll s') = p_revents <$> head (sv_poll s);
  rd_others : others_same s s' fds }.

(** The sockets of ready slots of a list. *)
Lemma ready_fds_in l t fd : fd ∈ ready_fds l t →
  ∃ i p, i ∈ l ∧ t !! i = Some p ∧ ready p = true ∧ p_fd p = fd.
Proof.
  unfold ready_fds. rewrite list_elem_of_omap. intros (i & Hi & Hp).
  destruct (t !! i) as [p|] eqn:E; [|done]. simpl in Hp. destruct (ready p) eqn:Hr; [|done].
  injection Hp as <-. by exists i, p.
Qed.

Lemma ready_fds_cons i l t p : t !! i = Some p →
  ready_fds (i :: l) t = (if ready p then [p_fd p] else []) ++ ready_fds l t.
Proof. intros Hp. unfold ready_fds. simpl. rewrite Hp. simpl. by destruct (ready p). Qed.

Lemma events_cons_le i l t : events l t ≤ events (i :: l) t.
Proof. unfold events. rewrite filter_cons. case_decide; simpl; lia. Qed.
Lemma events_cons_ready i l t p : t !! i = Some p → ready p = true →
  events (i :: l) t = S (events l t).
Proof.
  intros Hp Hr. unfold events. rewrite filter_cons, decide_True by by eapply ready_event. done.
Qed.

Lemma round_nil s w : up s → listens s → means s w → I (w_dev w) → calm (n_sched (sv_net s)) →
  round_done s s w w [] [].
Proof. intros. constructor; try done; [constructor|]. set_solver. Qed.

Lemma slot_round s s1 i fd req a w w1 : slot_served I s s1 i fd req a w w1 →
  round_done s1 s1 w1 w1 [] [].
Proof. intros []. by apply round_nil. Qed.

(** First one slot, then the rest. *)
Lemma round_cons s s1 s' w w1 w' i p fd req a fds tr :
  slot_served I s s1 i fd req a w w1 → req = reqs fd →
  sv_poll s !! i = Some p → p_fd p = fd → ready p = true →
  round_done s1 s' w1 w' fds tr → fd ∉ fds → round_done s s' w w' (fd :: fds) ((fd, req, a) :: tr).
Proof.
  intros [] Hreq Hpi Hpf Hrp [] Hfd. destruct ss_serve0 as (h & Hp & Hs). constructor; try done.
  - congruence.
  - by econstructor.
  - by rewrite !fmap_cons, rd_fds0, Hreq.
  - intros fd' req' a' [Heq|Hin]%elem_of_cons.
    + injection Heq as -> -> ->. destruct ss_answered0 as (c & rest & H1 & H2 & H3).
      exists c, rest. split_and!; [done|done|]. by rewrite rd_others0.
    + assert (fd' ∈ fds) as Hin'.
      { assert ((fd', req') ∈ tr.*1) as Hx by (apply list_elem_of_fmap; by exists (fd', req', a')).
        rewrite rd_fds0 in Hx. by apply list_elem_of_fmap in Hx as (x & [= -> _] & Hx). }
      destruct (rd_answered0 _ _ _ Hin) as (c & rest & H1 & H2 & H3).
      exists c, rest. rewrite <-(ss_others0 fd') by set_solver. done.
  - intros j q Hj Hq Hst. apply rd_slots0; [done| |done].
    destruct (decide (j = i)) as [->|Hne].
    + rewrite ss_keep0; [done|]. rewrite Hpi in Hq. injection Hq as <-.
      rewrite Hreq, <-Hpf. by apply Hst.
    + by rewrite ss_slots0.
  - congruence.
  - intros fd' Hn. rewrite rd_others0, ss_others0 by set_solver. done.
Qed.

(** A state that differs in the table only. *)
Lemma round_from t s s' w w' fds tr : sv_net t = sv_net s → socks t = socks s →
  p_revents <$> head (sv_poll t) = p_revents <$> head (sv_poll s) →
  (∀ j q, 1 ≤ j → sv_poll s !! j = Some q → stays q → sv_poll t !! j = Some q) →
  round_done t s' w w' fds tr → round_done s s' w w' fds tr.
Proof.
  intros Hn Hs Hh Hst []. constructor; try done; [congruence| |by eauto|congruence|].
  - intros fd req a Hin. destruct (rd_answered0 _ _ _ Hin) as (c & rest & H). exists c, rest.
    by rewrite Hn in H.
  - intros fd Hfd. rewrite rd_others0 by done. by rewrite Hn.
Qed.

Lemma serve_agents_total : ∀ l s w ret op,
  NoDup l → Forall (λ i, 1 ≤ i) l → Forall (λ i, i < S AGENTS_QUEUE) l →
  up s → events_used l s → listens s → means s w → I (w_dev w) → calm (n_sched (sv_net s)) →
  all_pending l s → length op = 4 → (Z.of_nat (events l (sv_poll s)) ≤ ret)%Z →
  ∃ r s' w' tr, serve_agents l ret op s = Done (r, s') ∧ (r = None ∨ r = Some EXIT_SUCCESS) ∧
    round_done s s' w w' (ready_fds l (sv_poll s)) tr.
Proof using HI.
  induction l as [|i l IH]; intros s w ret op Hnd Hl Hlk Hup Hev Hlis Hw Hi Hcalm Hpend Hop Hret.
  { exists None, s, w, []. split; [done|]. split; [by left|]. by apply round_nil. }
  pose proof Hl as Hl0. apply NoDup_cons in Hnd as [Hil Hnd]. apply Forall_cons in Hl as [Hi1 Hl].
  apply Forall_cons in Hlk as [Hip Hlk].
  rewrite <-(up_length _ Hup) in Hip. apply lookup_lt_is_Some in Hip as [p Hp]. cbn [serve_agents]. rewrite bind_gets.
  destruct (sv_connected s <=? 0)%Z eqn:Hc.
  { exists None, s, w, []. split; [done|]. split; [by left|].
    rewrite no_events_ready; [by apply round_nil|]. apply none_connected; try done. lia. }
  rewrite (bind_run _ _ _ _ _ (agent_run _ _ _ Hp)), (ready_fds_cons i l _ p Hp).
  assert (events_used l s) as Hev' by (intros j q Hj; refine (Hev j q _); by right).
  assert (all_pending l s) as Hpend' by (intros j q Hj; refine (Hpend j q _); by right).
  unfold ready at 1. destruct (is_broken (p_revents p)) eqn:Eb; cbn [negb andb].
  - pose proof (Hev i p ltac:(by left) Hp (broken_event _ Eb)) as Hfd.
    destruct (free_slot_run i p s Hup Hi1 Hp Hfd) as (t & Ht & Hupt & Ha & Hn & Hd & Hk & Htl & Hh & Hcn).
    rewrite (bind_run _ _ _ _ _ Ht).
    assert (agrees l (sv_poll s) (sv_poll t)) as Hag.
    { intros j Hj. eapply free_others; [exact Hi1| | |exact Htl].
      - by apply (proj1 (Forall_forall _ _) Hl).
      - by intros ->. }
    destruct (IH t w ret op) as (r & s' & w' & tr & Hrun & Hr & Hrd); try done.
    + by eapply events_free.
    + intros e He Hne. rewrite Hh in He. specialize (Hlis e He Hne). lia.
    + destruct Hw. constructor; rewrite ?Ha, ?Hd; done.
    + by rewrite Hn.
    + intros j q Hj Hq. rewrite (Hag j Hj) in Hq. intros Hrq.
      destruct (Hpend' j q Hj Hq Hrq) as (Hok & H). split; [done|]. by rewrite Hn.
    + rewrite (events_agrees _ _ _ Hag). pose proof (events_cons_le i l (sv_poll s)). lia.
    + exists r, s', w', tr. split; [done|]. split; [done|]. rewrite (ready_fds_agrees _ _ _ Hag) in Hrd.
      apply (round_from t); [done|by eapply free_slot_socks|done| |done].
      intros j q Hj Hq [Hb _]. rewrite (free_others i j s t); [done|done|done| |done].
      intros ->. rewrite Hp in Hq. injection Hq as <-. by rewrite Eb in Hb.
  - destruct (is_readable (p_revents p)) eqn:Er.
    + pose proof (Hev i p ltac:(by left) Hp (readable_event _ Er)) as Hfd.
      assert (ready p = true) as Hrp by (unfold ready; by rewrite Eb, Er).
      pose proof (Hpend i p ltac:(by left) Hp Hrp) as Hreq. set (req := reqs (p_fd p)) in *.
      destruct (serve_slot I HI s w i p req) as (s1 & t & a & w1 & Hrecv & Hdis & Hss); try done.
      rewrite (bind_run _ _ _ _ _ Hrecv).
      destruct (enc_int (req_op req)) as [|b bs] eqn:Ee;
        [by apply (f_equal length) in Ee; rewrite enc_int_length in Ee|].
      rewrite <-Ee, overwrite_all by (by rewrite enc_int_length).
      rewrite (bind_run _ _ _ _ _ (load_int_run _ _ (req_op_range req))).
      rewrite (bind_run _ _ _ _ _ Hdis).
      assert (agrees l (sv_poll s) (sv_poll t)) as Hag.
      { intros j Hj. apply (ss_slots _ _ _ _ _ _ _ _ _ Hss).
        - by apply (proj1 (Forall_forall _ _) Hl).
        - by intros ->. }
      assert (∀ j q, j ∈ l → sv_poll s !! j = Some q → ready q = true → p_fd q ≠ p_fd p) as Hdist.
      { intros j q Hj Hq Hrq. apply (slots_distinct s i j); try done.
        - by apply (proj1 (Forall_forall _ _) Hl).
        - by intros ->.
        - apply (Hev' j q Hj Hq). apply readable_event. by apply andb_true_iff in Hrq as [_ ?]. }
      assert (p_fd p ∉ ready_fds l (sv_poll s)) as Hnin.
      { intros (j & q & Hj & Hq & Hrq & Heq)%ready_fds_in. by apply (Hdist j q). }
      rewrite (events_cons_ready i l _ p Hp Hrp) in Hret.
      destruct (ret - 1 =? 0)%Z eqn:E1.
      * apply Z.eqb_eq in E1. exists (Some EXIT_SUCCESS), t, w1, [(p_fd p, req, a)].
        split; [done|]. split; [by right|]. rewrite (no_events_ready l) by lia. simpl.
        eapply round_cons; [done|done|done|done|done|by eapply slot_round|set_solver].
      * pose proof Hss as [? ? ? ? ? ? ? ? ? ? ? ?].
        destruct (IH t w1 (ret - 1)%Z (Some <$> enc_int (req_op req)))
          as (r & s' & w' & tr & Hrun & Hr & Hrd); try done.
        -- intros j q Hj Hq. rewrite (Hag j Hj) in Hq. exact (Hev' j q Hj Hq).
        -- intros j q Hj Hq Hrq. rewrite (Hag j Hj) in Hq.
           destruct (Hpend' j q Hj Hq Hrq) as (Hok & H). split; [done|].
           rewrite (ss_others _ _ _ _ _ _ _ _ _ Hss); [done|].
           apply not_elem_of_cons. split; [by apply (Hdist j q)|apply not_elem_of_nil].
        -- rewrite (events_agrees _ _ _ Hag). lia.
        -- exists r, s', w', ((p_fd p, req, a) :: tr). split; [done|]. split; [done|].
           rewrite (ready_fds_agrees _ _ _ Hag) in Hrd. by eapply round_cons.
    + pose proof (events_cons_le i l (sv_poll s)). apply IH; try done. lia.
Qed.

(** ** comm_loop *)

(** Why the server gives up. *)
Definition listen_failed (env : poll_env) (s : server) : Prop :=
  pe_again env = false ∨ ∃ e, p_revents <$> head (sv_poll s) = Some e ∧ is_broken e = true.

(** The end of a round whose agents have been served in s1: either new agents
    were accepted, which changes their connections and free slots only, or the
    server closed its socket. *)
Definition round_ends (env : poll_env) (s1 s' : server) (r : exit) : Prop :=
  match r with
  | EXIT_SUCCESS => up s' ∧ accepted (pe_accept env).*1 s1 s'
  | EXIT_FAILURE => listen_failed env s1 ∧ (sv_sock s', sv_path s') = ((-1)%Z, false) ∧
      sv_agents s' = sv_agents s1 ∧ sv_dev s' = sv_dev s1
  end.

Lemma accepted_refl fds s : accepted fds s s.
Proof. done. Qed.

Lemma comm_loop_run env rs s w :
  up s → means s w → I (w_dev w) → calm (n_sched (sv_net s)) → env_fresh env s →
  pe_poll env = Some rs → all_pending slots (polled rs s) →
  ∃ r s1 s' w' tr, comm_loop env s = Done (r, s') ∧
    round_done (polled rs s) s1 w w' (ready_fds slots (sv_poll (polled rs s))) tr ∧
    round_ends env s1 s' r.
Proof using HI.
  intros Hup Hw Hi Hcalm Hfr Hpoll Hpend. unfold comm_loop. rewrite bind_gets.
  rewrite (proj2 (Z.eqb_neq _ _)) by (pose proof (up_sock _ Hup); lia).
  rewrite Hpoll, bind_modify, bind_gets. change (set_poll _ s) with (polled rs s).
  pose proof (events_polled s rs Hup) as Hcnt.
  destruct (polled_up rs s Hup) as (Hup1 & Hev & Hlis).
  assert (means (polled rs s) w) as Hw0 by (destruct Hw; by constructor).
  destruct (poll_count _ =? 0)%Z eqn:E0.
  { apply Z.eqb_eq in E0. exists EXIT_SUCCESS, (polled rs s), (polled rs s), w, []. split; [done|].
    rewrite no_events_ready by lia. split; [by apply round_nil|]. by split. }
  destruct (serve_agents_total slots (polled rs s) w (poll_count (sv_poll (polled rs s))) (uninit 4))
    as (r & s1 & w1 & tr & Hrun & Hr & Hrd); try done.
  - apply NoDup_seq.
  - apply Forall_forall. intros i [? _]%elem_of_seq. done.
  - apply Forall_forall. intros i [_ ?]%elem_of_seq. done.
  - rewrite (bind_run _ _ _ _ _ Hrun). destruct Hr as [-> | ->].
    + destruct (check_listen_run env s1 (rd_up _ _ _ _ _ _ Hrd) (rd_listens _ _ _ _ _ _ Hrd))
        as (e & t & Ht & Hal & Ha & Hd & Hok & Hbad); [by eapply Hfr|].
      exists e, s1, t, w1, tr. split; [done|]. split; [done|]. destruct e; simpl.
      * by apply Hok.
      * destruct (Hbad eq_refl). done.
    + exists EXIT_SUCCESS, s1, s1, w1, tr. split; [done|]. split; [done|].
      split; [apply Hrd|done].
Qed.
End round.
End serving.
