(* ===== verification/AgentSocket.v ===== *)
(** * The agent's side of the sockets (agent_comm_socket.c)

    The functions an agent calls to reach the server.  While an agent waits for
    an answer, the server makes a round of comm_loop() in which poll() reports
    the agent's socket: [serve_me]. *)

From S2P Require Import Prelude.
From S2P Require Import Agents.
From S2P Require Import Rpc.
From S2P Require Import Sockets.
From S2P Require Import ServerSocket.
From S2P Require Import ServerLoop.

Section agent.
Context {NS : NcSession} {NR : NcRpc} {SL : SocketLib}.

(** The agent's [sock], -1 or the number of the connection at the server, and
    the server. *)
Record astate := AState { a_sock : Z; a_srv : server }.

Definition on_srv {A} (m : M server A) : M astate A := λ s,
  match m (a_srv s) with
  | Done (a, v) => Done (a, AState (a_sock s) v)
  | Crash f => Crash f
  | NoFuel => NoFuel
  end.

(** poll() finds a message of this agent only. *)
Definition only_me (fd : Z) (s : server) : list Z :=
  (λ p, if (p_fd p =? fd)%Z then POLLIN else 0%Z) <$> sv_poll s.
Definition serve_me (fd : Z) : M server exit :=
  rs ← gets (only_me fd); comm_loop (PollEnv (Some rs) [] true).

Definition agent_recv (n : nat) : M astate recv_result :=
  fd ← gets a_sock;
  r ← on_srv (on_net (sys_recv AtAgent fd n));
  match r with
  | Some r => mret r
  | None =>
      _ ← on_srv (serve_me fd);
      r ← on_srv (on_net (sys_recv AtAgent fd n));
      deref Blocked r
  end.

Definition agent_send (bs : list byte) : M astate unit :=
  fd ← gets a_sock; on_srv (on_net (sys_send AtAgent fd bs)).

Definition agent_send_str (m : string) : M astate unit :=
  _ ← agent_send (enc_int (Z.of_nat (length (enc_str m)))); agent_send (enc_str m).

Definition agent_recv_var (mem : memory) : M astate memory := recv_var agent_recv mem.
Definition agent_recv_msg (len : Z) : M astate (nc_err + list byte) :=
  n ← gets (λ s, recv_fuel len (sv_net (a_srv s))); recv_msg agent_recv n len.

(** msgtype_t result = 0; recv(..., &result, sizeof result, ...) *)
Definition recv_result_var : M astate Z :=
  mem ← agent_recv_var (Some <$> enc_int 0); load_int mem.

(** ** comm_init *)

(** [socket]: what socket() and connect() come to. *)
Definition agent_comm_init (socket : option Z) : M astate bool :=
  match socket with
  | Some fd => _ ← modify (λ s, AState fd (a_srv s)); mret true
  | None => _ ← modify (λ s, AState (-1) (a_srv s)); mret false
  end.

(** ** comm_get_srv_cpblts *)
Fixpoint agent_recv_cpblts (n : nat) (len : memory) : M astate (option (list (list byte))) :=
  match n with
  | 0 => mret (Some [])
  | S n' =>
      len ← agent_recv_var len;
      v ← load_uint len;
      r ← agent_recv_msg v;
      match r with
      | inl _ => mret None
      | inr bs => l ← agent_recv_cpblts n' len; mret (cons bs <$> l)
      end
  end.

(** The strings, as buffers. *)
Definition comm_get_srv_cpblts : M astate (option (list (list byte))) :=
  c ← gets a_sock;
  if (c =? -1)%Z then mret None
  else
    _ ← agent_send (enc_int COMM_SOCK_GET_CPBLTS);
    result ← recv_result_var;
    if negb (result =? COMM_SOCK_GET_CPBLTS)%Z then mret None
    else
      cnt ← agent_recv_var (uninit 4);
      count ← load_int cnt;
      (* cpblts[count] = NULL *)
      if (count <? 0)%Z then crash OutOfBounds
      else if negb (malloc_ok (8 * (count + 1))) then crash NullDeref
      else agent_recv_cpblts (Z.to_nat count) (uninit 4).

(** ** comm_session_info_send *)
Fixpoint agent_send_cpblts (l : list string) : M astate unit :=
  match l with
  | [] => mret tt
  | cpblt :: l' => _ ← agent_send_str cpblt; agent_send_cpblts l'
  end.

Definition comm_session_info_send (getpid : Z) (username sid : string) (cpblts : nc_cpblts)
  : M astate exit :=
  c ← gets a_sock;
  if (c =? -1)%Z then mret EXIT_FAILURE
  else
    _ ← agent_send (enc_int COMM_SOCK_SET_SESSION);
    _ ← agent_send_str sid;
    (* (uint16_t) getpid() *)
    _ ← agent_send (enc_short (getpid mod 2 ^ 16));
    _ ← agent_send_str username;
    _ ← agent_send (enc_int (Z.of_nat (length (nc_cpblts_iter cpblts))));
    (* without nc_cpblts_iter_start() *)
    _ ← agent_send_cpblts (nc_cpblts_next cpblts);
    result ← recv_result_var;
    mret (if (result =? COMM_SOCK_SET_SESSION)%Z then EXIT_SUCCESS else EXIT_FAILURE).

(** ** comm_operation *)

(** None is NULL. *)
Definition comm_operation (rpc : nc_rpc) : M astate (option nc_reply) :=
  c ← gets a_sock;
  if (c =? -1)%Z then mret None
  else
    _ ← agent_send (enc_int COMM_SOCK_GENERICOP);
    _ ← agent_send_str (nc_rpc_dump rpc);
    result ← recv_result_var;
    if negb (result =? COMM_SOCK_GENERICOP)%Z then mret (Some (nc_reply_error comm_failed))
    else
      len ← agent_recv_var (uninit 4);
      v ← load_uint len;
      r ← agent_recv_msg v;
      match r with
      | inl err => mret (Some (nc_reply_error err))
      | inr bs => d ← mem_string (Some <$> bs); mret (nc_reply_build d)
      end.

(** ** comm_close, comm_destroy *)
Definition comm_close : M astate exit :=
  c ← gets a_sock;
  if (c =? -1)%Z then mret EXIT_FAILURE
  else
    _ ← agent_send (enc_int COMM_SOCK_CLOSE_SESSION);
    result ← recv_result_var;
    mret (if (result =? COMM_SOCK_CLOSE_SESSION)%Z then EXIT_SUCCESS else EXIT_FAILURE).

(** close() at the agent *)
Definition agent_close : M astate unit :=
  fd ← gets a_sock;
  on_srv (modify (λ s, set_net (Net (alter (λ c, Conn (c_in c) (c_out c) true (c_shut c)) fd
    (n_conns (sv_net s))) (n_sched (sv_net s))) s)).

Definition agent_comm_destroy : M astate unit :=
  c ← gets a_sock;
  if (c =? -1)%Z then mret tt
  else
    _ ← comm_close;
    _ ← agent_close;
    modify (λ s, AState (-1) (a_srv s)).

(** ** comm_kill_session *)
Definition comm_kill_session (sid : string) : M astate (option nc_reply) :=
  c ← gets a_sock;
  if (c =? -1)%Z then mret None
  else
    _ ← agent_send (enc_int COMM_SOCK_KILL_SESSION);
    _ ← agent_send_str sid;
    result ← recv_result_var;
    if (result =? COMM_SOCK_RESULT_ERROR)%Z then
      len ← agent_recv_var (uninit 4);
      v ← load_uint len;
      r ← agent_recv_msg v;
      match r with
      | inl _ => mret (Some (op_failed None))
      | inr bs => m ← mem_string (Some <$> bs); mret (Some (op_failed (Some m)))
      end
    else if negb (result =? COMM_SOCK_KILL_SESSION)%Z then mret (Some (op_failed None))
    else mret (Some nc_reply_ok).
End agent.
