(* ===== verification/AgentSocketFacts.v ===== *)
(** * Remote calls over a socket

    Each function of agent_comm_socket.c, together with the server's round that
    answers it, is one step of [serve]. *)

From S2P Require Import Prelude.
From S2P Require Import OvsFacts.
From S2P Require Import Agents.
From S2P Require Import AgentsFacts.
From S2P Require Import Rpc.
From S2P Require Import Sockets.
From S2P Require Import ServerSocket.
From S2P Require Import ServerLoop.
From S2P Require Import SocketFacts.
From S2P Require Import ServerSpec.
From S2P Require Import HandlerFacts.
From S2P Require Import TableFacts.
From S2P Require Import LoopFacts.
From S2P Require Import ServeFacts.
From S2P Require Import AgentSocket.

Section remote.
Context {NS : NcSession} {NR : NcRpc} {SL : SocketLib}.
Context (I : dev → Prop) (HI : device_answers I).
Implicit Types (s : server).

(** The connection fd is in the table. *)
Definition has_slot (fd : Z) s : Prop :=
  (0 ≤ fd)%Z ∧ ∃ i p, i ∈ slots ∧ sv_poll s !! i = Some p ∧ p_fd p = fd.

Lemma only_me_lookup fd s i p : (0 ≤ fd)%Z → sv_poll (polled (only_me fd s) s) !! i = Some p →
  ∃ q, sv_poll s !! i = Some q ∧ p_fd p = p_fd q ∧
    p_revents p = if (p_fd q =? fd)%Z then POLLIN else 0%Z.
Proof.
  intros Hfd Hp. simpl in Hp. apply sys_poll_lookup in Hp as (q & Hq & Hf & _ & Hr).
  exists q. split_and!; [done|done|]. rewrite Hr.
  assert (nth i (only_me fd s) 0%Z = if (p_fd q =? fd)%Z then POLLIN else 0%Z) as Hn.
  { apply nth_lookup_Some. unfold only_me. by rewrite list_lookup_fmap, Hq. }
  rewrite Hn. destruct (p_fd q <? 0)%Z eqn:E; [|done].
  apply Z.ltb_lt in E. rewrite (proj2 (Z.eqb_neq _ _)) by lia. done.
Qed.

Lemma omap_one {A B} (f : A → option B) (l : list A) i b : NoDup l → i ∈ l → f i = Some b →
  (∀ j, j ∈ l → j ≠ i → f j = None) → omap f l = [b].
Proof.
  intros Hnd (l1 & l2 & ->)%list_elem_of_split Hi Hj.
  apply NoDup_app in Hnd as (_ & H1 & [H2 _]%NoDup_cons).
  assert (∀ m, (∀ j, j ∈ m → f j = None) → omap f m = []) as Hnil.
  { induction m as [|x m IH]; intros Hm; [done|]. simpl. rewrite (Hm x) by by left.
    apply IH. intros y Hy. apply Hm. by right. }
  rewrite omap_app. simpl. rewrite Hi, !Hnil; [done| |].
  - intros j Hjl. apply Hj; [set_solver|]. by intros ->.
  - intros j Hjl. apply Hj; [set_solver|]. intros ->. apply (H1 i); [done|by left].
Qed.

Lemma only_me_ready fd s : up s → has_slot fd s →
  ready_fds slots (sv_poll (polled (only_me fd s) s)) = [fd].
Proof.
  intros Hup (H0 & i & p & Hi & Hp & Hfd).
  assert (∀ j q, sv_poll (polled (only_me fd s) s) !! j = Some q → ready q = true ↔ p_fd q = fd) as Hr.
  { intros j q Hq. apply only_me_lookup in Hq as (q0 & Hq0 & Hf & Hrev); [|done].
    unfold ready. rewrite Hrev, Hf. destruct (p_fd q0 =? fd)%Z eqn:E.
    - apply Z.eqb_eq in E. done.
    - apply Z.eqb_neq in E. done. }
  destruct (polled_up (only_me fd s) s Hup) as [Hup' _].
  assert (∃ q, sv_poll (polled (only_me fd s) s) !! i = Some q ∧ p_fd q = fd) as (q & Hq & Hqf).
  { simpl. unfold sys_poll. rewrite list_lookup_imap, Hp. simpl. eexists. split; [done|]. done. }
  apply omap_one with i; [apply NoDup_seq|done| |].
  - rewrite Hq. simpl. rewrite (proj2 (Hr i q Hq) Hqf). by rewrite Hqf.
  - intros j Hj Hne. destruct (sv_poll (polled (only_me fd s) s) !! j) as [r|] eqn:Er; [|done].
    simpl. destruct (ready r) eqn:Erd; [|done]. exfalso.
    apply (Hr j r Er) in Erd.
    apply elem_of_seq in Hi as [Hi _]. apply elem_of_seq in Hj as [Hj _].
    apply (slots_distinct _ i j q r Hup'); try done; rewrite ?Hqf, ?Erd; lia.
Qed.

(** The round in which the server serves one agent. *)
Lemma serve_me_run fd req s w :
  up s → has_slot fd s → means s w → I (w_dev w) → calm (n_sched (sv_net s)) → pending s fd req →
  ∃ s' w' a p, serve_me fd s = Done (EXIT_SUCCESS, s') ∧
    p ∉ (w_reg w).*1 ∧ serve p (agent_id fd) req w = Done (a, w') ∧
    up s' ∧ means s' w' ∧ I (w_dev w') ∧ calm (n_sched (sv_net s')) ∧ answered s s' fd req a ∧
    (closes req = false → has_slot fd s').
Proof using HI.
  intros Hup Hslot Hw Hi Hcalm Hpend. unfold serve_me. rewrite bind_gets.
  pose proof (only_me_ready fd s Hup Hslot) as Hready.
  destruct (comm_loop_run I HI (λ _, req) (PollEnv (Some (only_me fd s)) [] true)
    (only_me fd s) s w) as (r & s1 & s' & w' & tr & Hrun & Hdone & Hend); try done.
  - intros rs s1 _ _. split; constructor.
  - intros i p Hin Hp Hr. assert (p_fd p ∈ ready_fds slots (sv_poll (polled (only_me fd s) s))) as Hx.
    { unfold ready_fds. apply list_elem_of_omap. exists i. split; [done|]. rewrite Hp. simpl. by rewrite Hr. }
    rewrite Hready in Hx. apply list_elem_of_singleton in Hx as ->. done.
  - rewrite Hready in Hdone. destruct Hdone as [Hu1 _ _ Hw1 Hi1 Hc1 Htr Hfds Hans Hkept Hhead _]. destruct r.
    + destruct Hend as [Hup' (Ha & Hd & _ & Hsch & Hconns & Hslots)].
      destruct tr as [|[[fd' req'] a] [|]]; try done. simpl in Hfds. injection Hfds as -> ->.
      inversion_clear Htr as [|? ? ? ? ? w1 ? p Hp Hs Hnil]. inversion Hnil; subst.
      exists s', w', a, p.
      split; [exact Hrun|]. split; [exact Hp|]. split; [exact Hs|]. split; [exact Hup'|].
      split; [destruct Hw1; constructor; rewrite ?Ha, ?Hd; assumption|].
      split; [exact Hi1|]. split; [by rewrite Hsch|]. split.
      * destruct (Hans fd req a) as (c & rest & H1 & H2 & H3); [by left|].
        exists c, rest. split; [exact H1|]. split; [exact H2|].
        rewrite (Hconns fd (not_elem_of_nil _)). exact H3.
      * intros Hcl. destruct Hslot as (H0 & i & q & Hin & Hq & Hqf). split; [done|].
        exists i. destruct (sv_poll (polled (only_me fd s) s) !! i) as [q'|] eqn:Eq.
        -- pose proof (only_me_lookup fd s i q' H0 Eq) as (q0 & Hq0 & Hf & Hrev).
           assert (p_fd q' = fd) as Hq'f by congruence.
           exists q'. split_and!; [done| |done]. apply elem_of_seq in Hin as [Hge _].
           apply Hslots; [done| |lia]. apply Hkept; [done|done|].
           split; [|done]. rewrite Hrev. by destruct (_ =? fd)%Z.
        -- simpl in Eq. unfold sys_poll in Eq. rewrite list_lookup_imap, Hq in Eq. done.
    + exfalso. destruct Hend as ([|(e & He & Hb)] & _); [done|]. rewrite Hhead in He.
      destruct (head (sv_poll (polled (only_me fd s) s))) as [p0|] eqn:E0; [|done]. rewrite head_lookup in E0.
      apply only_me_lookup in E0 as (q & _ & _ & Hr); [|apply Hslot].
      simpl in He. injection He as <-. rewrite Hr in Hb. by destruct (_ =? fd)%Z.
Qed.

(** ** The agent's queue *)
Definition at_agent (fd : Z) (c : conn) (sch : list recv_event) (s : server) : astate :=
  AState fd (at_conn fd c sch s).

Definition put_in (bs : list byte) (c : conn) : conn :=
  Conn (c_in c ++ send_split bs) (c_out c) (c_hup c) (c_shut c).
Definition take_out (q : list (list byte)) (c : conn) : conn := set_rx AtAgent q c.

Lemma agent_send_run fd bs c sch s :
  agent_send bs (at_agent fd c sch s) = Done (tt, at_agent fd (put_in bs c) sch s).
Proof.
  unfold agent_send, on_srv, on_net, sys_send, at_agent. rewrite bind_gets. simpl.
  rewrite lookup_insert_eq. unfold at_conn, set_net, set_conn. simpl. by rewrite insert_insert_eq.
Qed.

Lemma on_srv_net_run {A} (m : M net A) t a n : m (sv_net (a_srv t)) = Done (a, n) →
  on_srv (on_net m) t = Done (a, AState (a_sock t) (set_net n (a_srv t))).
Proof. intros H. unfold on_srv, on_net. by rewrite H. Qed.

Lemma agent_sys_run fd c sch s n (r : recv_result) t :
  sys_recv AtAgent fd n (sv_net (at_conn fd c sch s)) = Done (Some r, t) →
  agent_recv n (at_agent fd c sch s) = Done (r, AState fd (set_net t (at_conn fd c sch s))).
Proof.
  intros H. unfold agent_recv, at_agent. rewrite bind_gets.
  by rewrite (bind_run _ _ _ _ _ (on_srv_net_run (sys_recv AtAgent fd n)
    (AState fd (at_conn fd c sch s)) _ _ H)).
Qed.

Lemma agent_receiver fd c s : receiver agent_recv (λ q sch, at_agent fd (take_out q c) sch s).
Proof.
  assert (∀ q q' sch sch' , AState fd (set_net (Net (<[fd:=take_out q' (take_out q c)]>
    (n_conns (sv_net (at_conn fd (take_out q c) sch s)))) sch') (at_conn fd (take_out q c) sch s)) =
    at_agent fd (take_out q' c) sch' s) as Heq.
  { intros. unfold at_agent, at_conn, set_net. simpl. by rewrite insert_insert_eq. }
  constructor.
  - intros bs rest sch Hcalm Hq. rewrite <-(Heq (bs :: rest) rest sch). apply agent_sys_run.
    apply (sys_recv_exact AtAgent); try done. apply lookup_insert_eq.
  - intros q k sch Hcalm Hq Hne Hk.
    destruct (sys_recv_part AtAgent fd q (take_out q c) k (sv_net (at_conn fd (take_out q c) sch s)))
      as (m & Hrun & Hm); try done; [apply lookup_insert_eq|].
    exists m. split; [|done]. rewrite <-(Heq q (drop_bytes m q) sch). by apply agent_sys_run.
Qed.

(** A connection without anything on the way. *)
Record idle (fd : Z) s : Prop := {
  idle_up : up s;
  idle_slot : has_slot fd s;
  idle_conn : n_conns (sv_net s) !! fd = Some (Conn [] [] false false);
  idle_calm : calm (n_sched (sv_net s)) }.

(** The request is on its way. *)
Definition asked (fd : Z) (req : request) s : server :=
  at_conn fd (Conn (wire (req_parts req)) [] false false) (n_sched (sv_net s)) s.

Lemma asked_up fd req s : idle fd s → up (asked fd req s) ∧ has_slot fd (asked fd req s).
Proof.
  intros []. split; [|by destruct idle_slot0]. apply (up_table s); [|done].
  unfold table_of. simpl. do 2 f_equal. eapply open_insert; [exact idle_conn0|done].
Qed.

(** The answer is on its way back. *)
Definition replied (fd : Z) (req : request) (a : answer) s : astate :=
  at_agent fd (Conn [] (wire (answer_parts a)) false (closes req)) (n_sched (sv_net s)) s.

(** A receive that finds nothing. *)
Lemma sys_recv_none e fd n c (t : net) : n_conns t !! fd = Some c → rx e c = [] →
  closed_by_peer e c = false → calm (n_sched t) → sys_recv e fd n t = Done (None, t).
Proof.
  intros Hc Hq Hcl Hcalm. unfold sys_recv. rewrite Hc, Hq, Hcl.
  destruct (n_sched t) as [|ev l]; [done|]. by apply Forall_cons in Hcalm as [[j ->] _].
Qed.

Lemma agent_wait_run fd n s s' c c' :
  n_conns (sv_net s) !! fd = Some c → c_out c = [] ∧ c_shut c = false →
  calm (n_sched (sv_net s)) → serve_me fd s = Done (EXIT_SUCCESS, s') →
  n_conns (sv_net s') !! fd = Some c' → calm (n_sched (sv_net s')) →
  c_out c' ≠ [] ∨ c_shut c' = true →
  agent_recv n (AState fd s) = agent_recv n (AState fd s').
Proof.
  intros Hc [Hq Hcl] Hcalm Hrun Hc' Hcalm' Hne.
  assert (∃ r t, sys_recv AtAgent fd n (sv_net s') = Done (Some r, t)) as (r & t & Ht).
  { unfold sys_recv. rewrite Hc'. simpl.
    destruct (n_sched (sv_net s')) as [|ev l].
    - destruct (c_out c') as [|b bs]; [|by eexists _, _]. destruct Hne as [ | -> ]; [done|by eexists _, _].
    - apply Forall_cons in Hcalm' as [[j ->] _].
      destruct (c_out c') as [|b bs]; [|by eexists _, _]. destruct Hne as [ | -> ]; [done|by eexists _, _]. }
  pose proof (sys_recv_none AtAgent fd n c (sv_net s) Hc Hq Hcl Hcalm) as Hnone.
  unfold agent_recv. rewrite !bind_gets. simpl.
  rewrite (bind_run _ _ _ _ _ (on_srv_net_run _ (AState fd s) _ _ Hnone)).
  rewrite (bind_run _ _ (AState fd s') _ _ (on_srv_net_run _ (AState fd s') _ _ Ht)). simpl.
  assert (set_net (sv_net s) s = s) as -> by by destruct s.
  assert (on_srv (serve_me fd) (AState fd s) = Done (EXIT_SUCCESS, AState fd s')) as Hs
    by (unfold on_srv; simpl; by rewrite Hrun).
  rewrite (bind_run _ _ _ _ _ Hs).
  by rewrite (bind_run _ _ (AState fd s') _ _ (on_srv_net_run _ (AState fd s') _ _ Ht)).
Qed.

(** Waiting for the first part of the answer lets the server work. *)
Lemma wait_run fd req s w :
  idle fd s → means s w → I (w_dev w) → req_ok req →
  ∃ s' w' a p, p ∉ (w_reg w).*1 ∧ serve p (agent_id fd) req w = Done (a, w') ∧
    up s' ∧ means s' w' ∧ I (w_dev w') ∧ calm (n_sched (sv_net s')) ∧
    (closes req = false → has_slot fd s') ∧
    n_conns (sv_net s') !! fd = Some (Conn [] (wire (answer_parts a)) false (closes req)) ∧
    (wire (answer_parts a) ≠ [] ∨ closes req = true →
     recv_result_var (AState fd (asked fd req s)) = recv_result_var (replied fd req a s')).
Proof using HI.
  intros Hid Hw Hi Hok. destruct (asked_up fd req s Hid) as [Hup Hslot].
  assert (pending (asked fd req s) fd req) as Hpend.
  { split; [done|]. eexists _, []. split_and!; [apply lookup_insert_eq| |constructor].
    by rewrite app_nil_r. }
  assert (means (asked fd req s) w) as Hw1 by (destruct Hw; by constructor).
  destruct (serve_me_run fd req (asked fd req s) w Hup Hslot Hw1 Hi (idle_calm _ _ Hid) Hpend)
    as (s' & w' & a & p & Hrun & Hp & Hs & Hup' & Hw' & Hi' & Hc' & (c & rest & H1 & H2 & H3) & Hsl).
  cbn [asked at_conn set_net sv_net n_conns] in H1. rewrite lookup_insert_eq in H1.
  injection H1 as <-. cbn [c_in c_out c_hup c_shut] in H2, H3.
  assert (rest = []) as -> by (apply (app_inv_head (wire (req_parts req))); by rewrite app_nil_r).
  exists s', w', a, p. rewrite orb_false_r in H3. split_and!; try done. intros Hne.
  assert (∀ n, agent_recv n (AState fd (asked fd req s)) = agent_recv n (replied fd req a s')) as Hr.
  { intros n. assert (replied fd req a s' = AState fd s') as ->.
    { unfold replied, at_agent. by rewrite at_conn_id. }
    apply (agent_wait_run fd n (asked fd req s) s' (Conn (wire (req_parts req)) [] false false)
      (Conn [] (wire (answer_parts a)) false (closes req)));
      [apply lookup_insert_eq|done|apply Hid|exact Hrun|done|exact Hc'|exact Hne]. }
  unfold recv_result_var, agent_recv_var, recv_var. unfold mbind, M_bind. by rewrite Hr.
Qed.

(** ** Sending *)
Definition put_ins (l : list (list byte)) (c : conn) : conn :=
  Conn (c_in c ++ wire l) (c_out c) (c_hup c) (c_shut c).

Lemma put_ins_nil c : put_ins [] c = c.
Proof. unfold put_ins. simpl. rewrite app_nil_r. by destruct c. Qed.
Lemma put_ins_cons bs l c : put_ins l (put_in bs c) = put_ins (bs :: l) c.
Proof. unfold put_ins, put_in, wire. simpl. by rewrite <-app_assoc. Qed.

Lemma agent_send_step {A} fd bs c sch s (k : unit → M astate A) :
  (x ← agent_send bs; k x) (at_agent fd c sch s) = k tt (at_agent fd (put_in bs c) sch s).
Proof. by rewrite (bind_run _ _ _ _ _ (agent_send_run _ _ _ _ _)). Qed.

Lemma agent_send_str_run fd m c sch s :
  agent_send_str m (at_agent fd c sch s) = Done (tt, at_agent fd (put_ins (str_parts m) c) sch s).
Proof.
  unfold agent_send_str. rewrite agent_send_step, agent_send_run.
  unfold str_parts. by rewrite <-!put_ins_cons, put_ins_nil.
Qed.

Lemma put_ins_app l1 l2 c : put_ins l2 (put_ins l1 c) = put_ins (l1 ++ l2) c.
Proof. unfold put_ins. simpl. by rewrite wire_app, app_assoc. Qed.
Lemma put_in_one bs c : put_in bs c = put_ins [bs] c.
Proof. by rewrite <-put_ins_cons, put_ins_nil. Qed.

Lemma agent_send_str_step {A} fd m c sch s (k : unit → M astate A) :
  (x ← agent_send_str m; k x) (at_agent fd c sch s) =
    k tt (at_agent fd (put_ins (str_parts m) c) sch s).
Proof. by rewrite (bind_run _ _ _ _ _ (agent_send_str_run _ _ _ _ _)). Qed.

Lemma agent_send_cpblts_run fd l : ∀ c sch s,
  agent_send_cpblts l (at_agent fd c sch s) =
    Done (tt, at_agent fd (put_ins (l ≫= str_parts) c) sch s).
Proof.
  induction l as [|m l IH]; intros c sch s; [by simpl; rewrite put_ins_nil|].
  cbn [agent_send_cpblts]. by rewrite agent_send_str_step, IH, put_ins_app.
Qed.

(** The connection of an idle agent. *)
Lemma idle_conn_eq fd s : idle fd s →
  AState fd s = at_agent fd (Conn [] [] false false) (n_sched (sv_net s)) s.
Proof. intros []. unfold at_agent. by rewrite at_conn_id. Qed.

Lemma asked_eq fd req s :
  at_agent fd (put_ins (req_parts req) (Conn [] [] false false)) (n_sched (sv_net s)) s =
    AState fd (asked fd req s).
Proof. done. Qed.

(** ** Receiving *)
Section answers.
Context (fd : Z) (c : conn) (s : server).
Notation at_out q sch := (at_agent fd (take_out q c) sch s).

Lemma recv_result_run z q sch : (- 2 ^ 31 ≤ z < 2 ^ 31)%Z → calm sch → solid q →
  recv_result_var (at_out (enc_int z :: q) sch) = Done (z, at_out q (tail sch)).
Proof.
  intros Hz Hcalm Hq. unfold recv_result_var.
  assert (length (enc_int z) = length (Some <$> enc_int 0)) as Hlen
    by by rewrite length_fmap, !enc_int_length.
  rewrite (bind_run _ _ _ _ _ (recv_var_exact _ _ (agent_receiver fd c s) (Some <$> enc_int 0)
    (enc_int z) q sch Hlen Hcalm (solid_int _ _ Hq))).
  by apply load_int_run.
Qed.

Lemma agent_recv_len_run (mem : memory) z q sch : length mem = 4 → calm sch → solid q →
  agent_recv_var mem (at_out (enc_int z :: q) sch) = Done (Some <$> enc_int z, at_out q (tail sch)).
Proof.
  intros Hmem Hcalm Hq. apply (recv_var_exact _ _ (agent_receiver fd c s));
    [by rewrite enc_int_length|done|by apply solid_int].
Qed.

Lemma agent_recv_msg_run m q sch : fits m → calm sch → solid q →
  ∃ sch', calm sch' ∧ agent_recv_msg (Z.of_nat (length (enc_str m)))
    (at_out (send_split (enc_str m) ++ q) sch) = Done (inr (enc_str m), at_out q sch').
Proof.
  intros (_ & _ & Hm) Hcalm Hq. unfold agent_recv_msg. rewrite bind_gets.
  edestruct (recv_msg_exact _ _ (agent_receiver fd c s)) as (sch' & H & Hc');
    [by rewrite split_concat| |exact Hm|exact Hcalm| |rewrite split_concat in H; by exists sch'].
  - rewrite split_concat. unfold recv_fuel. lia.
  - apply Forall_app. split; [apply split_nonempty|done].
Qed.

(** A length and a string. *)
Lemma agent_recv_str_run {A} (mem : memory) m q sch (k : memory → nc_err + list byte → M astate A) :
  fits m → length mem = 4 → calm sch → solid q →
  ∃ sch' mem', calm sch' ∧ length mem' = 4 ∧
    (len ← agent_recv_var mem; v ← load_uint len; r ← agent_recv_msg v; k len r)
      (at_out (wire (str_parts m) ++ q) sch) = k mem' (inr (enc_str m)) (at_out q sch').
Proof.
  intros Hm Hmem Hcalm Hq. rewrite wire_str. simpl.
  assert (solid (send_split (enc_str m) ++ q)) as Hs
    by (apply Forall_app; split; [apply split_nonempty|done]).
  destruct (agent_recv_msg_run m q (tail sch) Hm (calm_tail _ Hcalm) Hq) as (sch' & Hc' & H).
  exists sch', (Some <$> enc_int (Z.of_nat (length (enc_str m)))).
  split; [done|]. split; [by rewrite length_fmap, enc_int_length|].
  rewrite (bind_run _ _ _ _ _ (agent_recv_len_run mem _ _ sch Hmem Hcalm Hs)).
  rewrite (bind_run _ _ _ _ _ (load_uint_run 4 _ _ (fits_len _ Hm))).
  by rewrite (bind_run _ _ _ _ _ H).
Qed.

Lemma agent_recv_cpblts_run : ∀ l (mem : memory) sch,
  Forall fits l → length mem = 4 → calm sch →
  ∃ sch', calm sch' ∧ agent_recv_cpblts (length l) mem (at_out (wire (l ≫= str_parts)) sch) =
    Done (Some (enc_str <$> l), at_out [] sch').
Proof.
  induction l as [|m l IH]; intros mem sch Hl Hmem Hcalm; [by exists sch|].
  apply Forall_cons in Hl as [Hm Hl].
  assert (wire ((m :: l) ≫= str_parts) = wire (str_parts m) ++ wire (l ≫= str_parts)) as ->
    by apply wire_app.
  cbn [agent_recv_cpblts length].
  edestruct (agent_recv_str_run (A := option (list (list byte))) mem m (wire (l ≫= str_parts)) sch)
    as (sch1 & mem1 & Hc1 & Hm1 & ->); [done|done|done|apply wire_solid|].
  destruct (IH mem1 sch1) as (sch2 & Hc2 & H); try done.
  exists sch2. split; [done|]. by rewrite (bind_run _ _ _ _ _ H).
Qed.
End answers.

(** ** The calls *)

(** The agent can store the answer. *)
Definition answer_fits (a : answer) : Prop :=
  match a with
  | Cpblts l => fits_list l
  | Refused m => fits m
  | RpcReply r => ∀ d, nc_reply_dump r = Some d → fits d
  | _ => True
  end.

(** [a] is what the server answers to [req]. *)
Definition answer_to (fd : Z) (req : request) (w : world) (a : answer) : Prop :=
  ∃ p w', serve p (agent_id fd) req w = Done (a, w').

(** The call [m] of the agent performs [req] at the server; [result] is what it
    makes of the answer. *)
Definition performs {A} (fd : Z) (req : request) (result : answer → A) (m : M astate A) : Prop :=
  ∀ s w, idle fd s → means s w → I (w_dev w) → (∀ a, answer_to fd req w a → answer_fits a) →
  ∃ s' w' a p, m (AState fd s) = Done (result a, AState fd s') ∧
    p ∉ (w_reg w).*1 ∧ serve p (agent_id fd) req w = Done (a, w') ∧
    means s' w' ∧ I (w_dev w') ∧ (closes req = false → idle fd s').

(** Taking the answer from the queue. *)
Definition understands {A} (fd : Z) (req : request) (result : answer → A) (k : M astate A) : Prop :=
  ∀ s w a c sch, I (w_dev w) → answer_to fd req w a → answer_fits a → calm sch →
    c_in c = [] → c_shut c = closes req →
  ∃ sch', calm sch' ∧
    k (at_agent fd (take_out (wire (answer_parts a)) c) sch s) =
      Done (result a, at_agent fd (take_out [] c) sch' s).

Lemma wire_cons_int z l : wire (enc_int z :: l) = enc_int z :: wire l.
Proof. change (enc_int z :: l) with ([enc_int z] ++ l). by rewrite wire_app, wire_int. Qed.

(** Only close-session may go unanswered. *)
Lemma answer_nonempty fd req w a : answer_to fd req w a →
  wire (answer_parts a) ≠ [] ∨ closes req = true.
Proof.
  intros (p & w' & H). assert (a ≠ NoAnswer ∨ closes req = true) as [Ha | ?]; [|left|by right].
  - unfold serve in H. rewrite bind_gets in H. destruct req as [|sid user cs pid| |sid|rpc].
    + injection H as <- <-. by left.
    + rewrite bind_modify in H. injection H as <- <-. by left.
    + by right.
    + destruct (session_of _ _) as [[q e]|]; [|injection H as <- <-; by left].
      destruct (agent_of _ _) as [[q' me]|]; [|injection H as <- <-; by left].
      case_bool_decide; [injection H as <- <-; by left|].
      rewrite bind_modify in H. injection H as <- <-. by left.
    + destruct (agent_of _ _) as [[q e]|]; [|injection H as <- <-; by left].
      apply bind_Done in H as (r & w1 & _ & [= <- <-]). by left.
  - assert (∀ z l, wire (enc_int z :: l) ≠ []) as Hz.
    { intros z l. by rewrite wire_cons_int. }
    destruct a; cbn [answer_parts app]; try apply Hz. by destruct Ha.
Qed.

Lemma performs_intro {A} fd req result (m : M astate A) (k : Z → M astate A) :
  req_ok req →
  (∀ s, idle fd s → m (AState fd s) = (r ← recv_result_var; k r) (AState fd (asked fd req s))) →
  understands fd req result (r ← recv_result_var; k r) →
  performs fd req result m.
Proof using HI.
  intros Hok Hsend Hrecv s w Hid Hw Hi Hfit.
  destruct (wait_run fd req s w Hid Hw Hi Hok)
    as (s1 & w' & a & p & Hp & Hs & Hup & Hw' & Hi' & Hc & Hsl & Hconn & Hwait).
  assert (answer_to fd req w a) as Ha by (by exists p, w').
  destruct (Hrecv s1 w a (Conn [] [] false (closes req)) (n_sched (sv_net s1)))
    as (sch' & Hc' & Hrun); [done|done|by apply Hfit|done|done|done|].
  exists (at_conn fd (Conn [] [] false (closes req)) sch' s1), w', a, p.
  split.
  { rewrite Hsend by done. specialize (Hwait (answer_nonempty _ _ _ _ Ha)).
    unfold mbind, M_bind in *. rewrite Hwait. exact Hrun. }
  split_and!; [done|done| |done|].
  - destruct Hw'. by constructor.
  - intros Hcl. specialize (Hsl Hcl). rewrite Hcl. constructor.
    + apply (up_table s1); [|done]. unfold table_of. simpl. do 2 f_equal.
      eapply open_insert; [exact Hconn|done].
    + done.
    + apply lookup_insert_eq.
    + done.
Qed.

Lemma connected_step {A} fd s (m m' : M astate A) : idle fd s →
  (c ← gets a_sock; if (c =? -1)%Z then m' else m) (AState fd s) = m (AState fd s).
Proof.
  intros []. rewrite bind_gets. simpl. rewrite (proj2 (Z.eqb_neq _ _)); [done|].
  destruct idle_slot0. lia.
Qed.

(** Rewrites a call to its sends. *)
Ltac sends :=
  rewrite connected_step by done; erewrite idle_conn_eq by done;
  rewrite ?agent_send_step, ?agent_send_str_step, ?agent_send_step, ?agent_send_str_step,
    ?agent_send_step, ?agent_send_str_step, ?agent_send_step;
  rewrite ?put_in_one, ?put_ins_app.

(** ** comm_operation *)
Lemma comm_operation_understands fd rpc :
  understands fd (GenericOp rpc) reply_of
    (result ← recv_result_var;
     if negb (result =? COMM_SOCK_GENERICOP)%Z then mret (Some (nc_reply_error comm_failed))
     else
       len ← agent_recv_var (uninit 4);
       v ← load_uint len;
       r ← agent_recv_msg v;
       match r with
       | inl err => mret (Some (nc_reply_error err))
       | inr bs => d ← mem_string (Some <$> bs); mret (nc_reply_build d)
       end).
Proof using HI.
  intros s w a c sch Hi (p & w' & Hs) Hfit Hcalm _ _.
  assert (∃ r d, a = RpcReply r ∧ nc_reply_dump r = Some d) as (r & d & -> & Hd).
  { destruct (serve_total I HI p (agent_id fd) (GenericOp rpc) w Hi) as (a' & w1 & H & _ & Hdump).
    rewrite Hs in H. injection H as <- <-. unfold serve in Hs. rewrite bind_gets in Hs.
    destruct (agent_of _ _) as [[q e]|].
    - apply bind_Done in Hs as (r & w1 & _ & [= <- <-]). destruct (Hdump r eq_refl) as [d Hd]. eauto.
    - injection Hs as <- <-. destruct (Hdump _ eq_refl) as [d Hd]. eauto. }
  specialize (Hfit d Hd). cbn [answer_parts]. rewrite Hd.
  cbn [default from_option id]. rewrite wire_cons_int.
  rewrite (bind_run _ _ _ _ _ (recv_result_run fd c s COMM_SOCK_GENERICOP (wire (str_parts d)) sch
    ltac:(done) Hcalm (wire_solid _))), Z.eqb_refl. cbn [negb].
  rewrite <-(app_nil_r (wire (str_parts d))).
  edestruct (agent_recv_str_run fd c s (A := option nc_reply) (uninit 4) d [] (tail sch))
    as (sch' & mem' & Hc' & _ & ->); [done|done|by apply calm_tail|constructor|].
  exists sch'. split; [done|].
  pose proof (mem_string_enc (St := astate) d [] (at_agent fd (take_out [] c) sch' s) (proj1 Hfit)) as Hm.
  rewrite app_nil_r in Hm. rewrite (bind_run _ _ _ _ _ Hm). simpl.
  by rewrite (reply_roundtrip r d Hd).
Qed.

Lemma comm_operation_performs fd rpc :
  fits (nc_rpc_dump rpc) → performs fd (GenericOp rpc) reply_of (comm_operation rpc).
Proof using HI.
  intros Hok. eapply performs_intro; [done| |apply comm_operation_understands].
  intros s Hid. unfold comm_operation. sends. done.
Qed.

(** ** comm_get_srv_cpblts *)
Lemma comm_get_srv_cpblts_performs fd : performs fd GetCpblts (λ a, fmap (M := list) enc_str <$> cpblts_of a) comm_get_srv_cpblts.
Proof using HI.
  eapply performs_intro; [done|intros s Hid; unfold comm_get_srv_cpblts; by sends|].
  intros s w a c sch _ (p & w' & [= <- <-]) (Hl & Hn & Hm) Hcalm _ _.
  cbn [answer_parts app]. rewrite !wire_cons_int.
  set (l := nc_session_get_cpblts_default) in *. pose proof (wire_solid (l ≫= str_parts)) as Hs.
  rewrite (bind_run _ _ _ _ _ (recv_result_run fd c s COMM_SOCK_GET_CPBLTS _ sch ltac:(done) Hcalm
    (solid_int _ _ Hs))), Z.eqb_refl. cbn [negb].
  rewrite (bind_run _ _ _ _ _ (agent_recv_len_run fd c s (uninit 4) _ _ _ eq_refl
    (calm_tail _ Hcalm) Hs)).
  rewrite (bind_run _ _ _ _ _ (load_int_run (Z.of_nat (length l)) _ ltac:(lia))).
  rewrite (proj2 (Z.ltb_ge _ _)) by lia. rewrite Hm, Nat2Z.id. cbn [negb].
  destruct (agent_recv_cpblts_run fd c s l (uninit 4) (tail (tail sch)) Hl eq_refl)
    as (sch' & Hc' & H); [by apply calm_tail, calm_tail|].
  by exists sch'.
Qed.

(** ** comm_session_info_send *)
Lemma comm_session_info_send_performs fd getpid username sid cs :
  short sid → short username → fits_list (nc_cpblts_iter cs) → nc_cpblts_next cs = nc_cpblts_iter cs →
  performs fd (SetSession sid username (nc_cpblts_iter cs) (getpid mod 2 ^ 16)) exit_of
    (comm_session_info_send getpid username sid cs).
Proof using HI.
  intros Hsid Huser Hcs Hnext.
  assert (req_ok (SetSession sid username (nc_cpblts_iter cs) (getpid mod 2 ^ 16))) as Hok.
  { do 3 (split; [done|]). apply Z.mod_pos_bound. lia. }
  eapply performs_intro; [done| |].
  - intros s Hid. unfold comm_session_info_send. rewrite Hnext. sends.
    rewrite (bind_run _ _ _ _ _ (agent_send_cpblts_run _ _ _ _ _)), put_ins_app, <-asked_eq.
    do 2 f_equal.
  - intros s w a c sch _ (p & w' & Hs) _ Hcalm _ _.
    unfold serve in Hs. rewrite bind_gets, bind_modify in Hs. injection Hs as <- <-.
    cbn [answer_parts]. rewrite wire_cons_int.
    rewrite (bind_run _ _ _ _ _ (recv_result_run fd c s COMM_SOCK_SET_SESSION _ sch ltac:(done) Hcalm
      (wire_solid []))), Z.eqb_refl.
    exists (tail sch). split; [by apply calm_tail|done].
Qed.

(** ** comm_kill_session *)
Lemma comm_kill_session_performs fd sid :
  fits sid → performs fd (KillSession sid) reply_of (comm_kill_session sid).
Proof using HI.
  intros Hok. eapply performs_intro; [done|intros s Hid; unfold comm_kill_session; by sends|].
  intros s w a c sch _ (p & w' & Hs) Hfit Hcalm _ _.
  assert (a = SessionKilled ∨ ∃ m, a = Refused m) as [-> | [m ->]].
  { unfold serve in Hs. rewrite bind_gets in Hs.
    destruct (session_of _ _) as [[q e]|]; [|injection Hs as <- <-; eauto].
    destruct (agent_of _ _) as [[q' me]|]; [|injection Hs as <- <-; eauto].
    case_bool_decide; [injection Hs as <- <-; eauto|].
    rewrite bind_modify in Hs. injection Hs as <- <-. by left. }
  - cbn [answer_parts]. rewrite wire_cons_int.
    rewrite (bind_run _ _ _ _ _ (recv_result_run fd c s COMM_SOCK_KILL_SESSION _ sch ltac:(done) Hcalm
      (wire_solid []))).
    exists (tail sch). split; [by apply calm_tail|done].
  - cbn [answer_parts]. rewrite wire_cons_int.
    rewrite (bind_run _ _ _ _ _ (recv_result_run fd c s COMM_SOCK_RESULT_ERROR _ sch ltac:(done) Hcalm
      (wire_solid _))), Z.eqb_refl.
    rewrite <-(app_nil_r (wire (str_parts m))).
    edestruct (agent_recv_str_run fd c s (A := option nc_reply) (uninit 4) m [] (tail sch))
      as (sch' & mem' & Hc' & _ & ->); [done|done|by apply calm_tail|constructor|].
    exists sch'. split; [done|].
    pose proof (mem_string_enc (St := astate) m [] (at_agent fd (take_out [] c) sch' s) (proj1 Hfit))
      as Hm.
    rewrite app_nil_r in Hm. by rewrite (bind_run _ _ _ _ _ Hm).
Qed.

(** ** comm_close *)

(** The server has closed the connection: recv() returns 0 and the result stays
    as it was. *)
Lemma recv_result_closed fd c sch s : calm sch → c_out c = [] → c_shut c = true →
  ∃ sch', calm sch' ∧ recv_result_var (at_agent fd c sch s) = Done (0%Z, at_agent fd c sch' s).
Proof.
  intros Hcalm Hq Hsh. exists (tail sch). split; [by apply calm_tail|].
  assert (sys_recv AtAgent fd 4 (sv_net (at_conn fd c sch s)) =
    Done (Some (Received []), Net (n_conns (sv_net (at_conn fd c sch s))) (tail sch))) as Hr.
  { unfold sys_recv. simpl. rewrite lookup_insert_eq, Hq. simpl. rewrite Hsh.
    destruct sch as [|ev sch]; [done|]. by apply Forall_cons in Hcalm as [[j ->] _]. }
  unfold recv_result_var, agent_recv_var, recv_var.
  assert (length (Some <$> enc_int 0) = 4) as -> by (by rewrite length_fmap, enc_int_length).
  unfold mbind, M_bind. rewrite (agent_sys_run fd c sch s 4 _ _ Hr). done.
Qed.

Lemma comm_close_performs fd : performs fd CloseSession exit_of comm_close.
Proof using HI.
  eapply performs_intro; [done|intros s Hid; unfold comm_close; by sends|].
  intros s w a c sch _ (p & w' & Hs) _ Hcalm _ Hsh.
  assert (a = SessionClosed ∨ a = NoAnswer) as [-> | ->].
  { unfold serve in Hs. rewrite bind_gets in Hs.
    destruct (agent_of _ _) as [[q e]|]; [rewrite bind_modify in Hs|];
      injection Hs as <- <-; eauto. }
  - cbn [answer_parts]. rewrite wire_cons_int.
    rewrite (bind_run _ _ _ _ _ (recv_result_run fd c s COMM_SOCK_CLOSE_SESSION _ sch ltac:(done) Hcalm
      (wire_solid []))), Z.eqb_refl.
    exists (tail sch). split; [by apply calm_tail|done].
  - destruct (recv_result_closed fd (take_out [] c) sch s Hcalm eq_refl) as (sch' & Hc' & H); [done|].
    exists sch'. split; [done|]. cbn [answer_parts]. change (wire []) with (@nil (list byte)).
    by rewrite (bind_run _ _ _ _ _ H).
Qed.
End remote.
