(* ===== verification/ServerDBus.v ===== *)
(** * The server on the D-Bus (server_comm_dbus.c, comm_dbus.h)

    The other transport: requests are method calls with typed arguments, the
    sender's unique bus name identifies the agent, replies carry the serial
    number of their request.  What belongs to libdbus is the class [DBusLib]. *)

From S2P Require Import Prelude.
From S2P Require Import Agents.
From S2P Require Import Rpc.

(** ** Messages *)
Inductive dbus_arg := DString (s : string) | DUint16 (z : Z) | DBoolean (b : bool).

Inductive dbus_type := METHOD_CALL | SIGNAL.

(** A message the server reads. *)
Record dmsg := DMsg {
  dm_type : dbus_type;
  dm_serial : Z;
  dm_sender : string;
  dm_interface : option string;
  dm_member : string;
  dm_args : list dbus_arg }.

(** A message the server writes: a method return or an error. *)
Inductive dbody :=
| MethodReturn (args : list dbus_arg)
| ErrorReply (name msg : string).
Record dreply := DReply { dr_serial : Z; dr_to : string; dr_body : dbody }.

(** Memory, valid strings and the machine's id. *)
Class DBusLib := {
  (* dbus_message_iter_append_basic() *)
  append_ok : dbus_arg → bool;
  (* dbus_connection_send() *)
  send_ok : dbody → bool;
  dbus_get_local_machine_id : string;
  (* a message without interface may match any *)
  dbus_message_is_method_call : dmsg → string → string → bool;
  is_method_call_type m i n : dbus_message_is_method_call m i n = true → dm_type m = METHOD_CALL;
  is_method_call_eq m i n j : dm_type m = METHOD_CALL → dm_interface m = Some j →
    dbus_message_is_method_call m i n = bool_decide (j = i ∧ dm_member m = n);
  (* what dbus_connection_send_with_reply_and_block() reports for a reply that
     does not come *)
  no_reply_error : string
}.

(** nc_cpblts_add() of libnetconf *)
Class NcCpbltsAdd {NS : NcSession} := { nc_cpblts_add : nc_cpblts → string → nc_cpblts }.

Definition DBUS_ERROR_FAILED : string := "org.freedesktop.DBus.Error.Failed".
Definition DBUS_ERROR_UNKNOWN_METHOD : string := "org.freedesktop.DBus.Error.UnknownMethod".

Definition OFC_DBUS_BUSNAME : string := "org.opennetworking.ofc.server".
Definition OFC_DBUS_IF : string := "org.opennetworking.ofc.server".
Definition OFC_DBUS_GETCAPABILITIES : string := "GetCapabilities".
Definition OFC_DBUS_PROCESSOP : string := "GenericOperation".
Definition OFC_DBUS_KILLSESSION : string := "KillSession".
Definition OFC_DBUS_CLOSESESSION : string := "CloseSession".
Definition OFC_DBUS_SETSESSION : string := "SetSessionParams".
Definition DBUS_STDIF_PEER : string := "org.freedesktop.DBus.Peer".
Definition DBUS_STDIF_INTR : string := "org.freedesktop.DBus.Introspectable".
Definition DBUS_STDIF_PROP : string := "org.freedesktop.DBus.Properties".

(** The markup of the introspection data, with the quotes of the source. *)
Definition quoted (s : string) : string := String "034"%char (s +:+ String "034"%char EmptyString).
Definition introspect_data : string :=
  "<!DOCTYPE node PUBLIC " +:+ quoted "-//freedesktop//DTD D-BUS Object Introspection 1.0//EN" +:+
  String "010"%char EmptyString +:+ quoted "http://www.freedesktop.org/standards/dbus/1.0/introspect.dtd" +:+
  ">" +:+ String "010"%char "<node/>".

Section dserver.
Context {NS : NcSession} {NR : NcRpc} {CA : NcCpbltsAdd} {DB : DBusLib}.

(** The list of agents, the messages that have arrived and those sent, oldest
    first, and the datastores. *)
Record dserver := DServer {
  ds_agents : alist;
  ds_queue : list dmsg;
  ds_sent : list dreply;
  ds_dev : dev }.

Definition ds_set_agents (v : alist) (s : dserver) : dserver :=
  DServer v (ds_queue s) (ds_sent s) (ds_dev s).
Definition ds_set_queue (v : list dmsg) (s : dserver) : dserver :=
  DServer (ds_agents s) v (ds_sent s) (ds_dev s).
Definition ds_set_sent (v : list dreply) (s : dserver) : dserver :=
  DServer (ds_agents s) (ds_queue s) v (ds_dev s).
Definition ds_set_dev (v : dev) (s : dserver) : dserver :=
  DServer (ds_agents s) (ds_queue s) (ds_sent s) v.

Definition ds_on_agents {A} (m : M alist A) : M dserver A := λ s,
  match m (ds_agents s) with
  | Done (a, v) => Done (a, ds_set_agents v s)
  | Crash f => Crash f
  | NoFuel => NoFuel
  end.
Definition ds_on_dev {A} (m : M dev A) : M dserver A := λ s,
  match m (ds_dev s) with
  | Done (a, v) => Done (a, ds_set_dev v s)
  | Crash f => Crash f
  | NoFuel => NoFuel
  end.

(** dbus_connection_send() of a reply to [msg] *)
Definition dbus_connection_send (msg : dmsg) (b : dbody) : M dserver bool :=
  if send_ok b then
    _ ← modify (λ s, ds_set_sent (ds_sent s ++ [DReply (dm_serial msg) (dm_sender msg) b]) s);
    mret true
  else mret false.

Definition _dbus_error_reply (msg : dmsg) (error_name : option string) (error_message : string)
  : M dserver exit :=
  r ← dbus_connection_send msg (ErrorReply (default DBUS_ERROR_FAILED error_name) error_message);
  mret (if r : bool then EXIT_SUCCESS else EXIT_FAILURE).

Definition _dbus_positive_reply (msg : dmsg) : M dserver exit :=
  if append_ok (DBoolean true) then
    r ← dbus_connection_send msg (MethodReturn [DBoolean true]);
    mret (if r : bool then EXIT_SUCCESS else EXIT_FAILURE)
  else mret EXIT_FAILURE.

(** ** Standard interfaces *)

(** A reply with one string. *)
Definition string_reply (msg : dmsg) (v : string) : M dserver Z :=
  if negb (append_ok (DString v)) then mret (-1)%Z
  else
    r ← dbus_connection_send msg (MethodReturn [DString v]);
    mret (if r : bool then 1 else -1)%Z.

Definition has_interface (msg : dmsg) (i : string) : bool := bool_decide (dm_interface msg = Some i).
Definition has_member (msg : dmsg) (m : string) : bool := bool_decide (dm_member msg = m).

Definition unknown_method (msg : dmsg) (text : string) : M dserver Z :=
  _ ← _dbus_error_reply msg (Some DBUS_ERROR_UNKNOWN_METHOD) text; mret (-1)%Z.

Definition _dbus_handlestdif (msg : dmsg) : M dserver Z :=
  match dm_type msg with
  | METHOD_CALL =>
      if has_interface msg DBUS_STDIF_PEER then
        if has_member msg "Ping" then _ ← _dbus_positive_reply msg; mret 1%Z
        else if has_member msg "GetMachineId" then string_reply msg dbus_get_local_machine_id
        else unknown_method msg "Unknown method invoked"
      else if has_interface msg DBUS_STDIF_INTR then
        if has_member msg "Introspect" then string_reply msg introspect_data
        else unknown_method msg "Unknown method invoked"
      else if has_interface msg DBUS_STDIF_PROP then
        unknown_method msg ("Not used interface " +:+ DBUS_STDIF_PROP)
      else mret 0%Z
  | _ => mret 0%Z
  end.

(** ** Handlers *)
Definition failed_reply (msg : dmsg) (errmsg : string) : M dserver unit :=
  _ ← _dbus_error_reply msg (Some DBUS_ERROR_FAILED) errmsg; mret tt.

Definition get_capabilities (msg : dmsg) : M dserver unit :=
  let cpblts := nc_session_get_cpblts_default in
  (* the low 16 bits of an int *)
  let args := DUint16 (Z.of_nat (length cpblts) mod 2 ^ 16) :: (DString <$> cpblts) in
  if forallb append_ok args then
    _ ← dbus_connection_send msg (MethodReturn args); mret tt
  else failed_reply msg "Unable to create reply message content".

(** for (i = 0; i < cpblts_count; i++) *)
Fixpoint get_cpblts (n : nat) (args : list dbus_arg) (cpblts : nc_cpblts) : option nc_cpblts :=
  match n with
  | 0 => Some cpblts
  | S n' =>
      match args with
      | DString aux_string :: rest => get_cpblts n' rest (nc_cpblts_add cpblts aux_string)
      | _ => None
      end
  end.

Definition set_session (msg : dmsg) : M dserver unit :=
  let dbus_id := dm_sender msg in
  match dm_args msg with
  | [] => failed_reply msg "Invalid format (no attributes)."
  | DString session_id :: args =>
      match args with
      | DUint16 pid :: args =>
          match args with
          | DString username :: args =>
              match args with
              | DUint16 cpblts_count :: args =>
                  match get_cpblts (Z.to_nat cpblts_count) args (nc_cpblts_new []) with
                  | Some cpblts =>
                      _ ← ds_on_agents (srv_agent_new session_id username cpblts dbus_id pid);
                      _ ← _dbus_positive_reply msg; mret tt
                  | None => failed_reply msg "Capability expected as a string value"
                  end
              | _ => failed_reply msg "CapabilitiesCount expected as a uint16 value"
              end
          | _ => failed_reply msg "Username expected as a string value"
          end
      | _ => failed_reply msg "PID expected as a uint16 value"
      end
  | _ => failed_reply msg "SessionID expected as a string value"
  end.

Definition close_session (msg : dmsg) : M dserver unit :=
  sender_session ← ds_on_agents (srv_get_agent_by_agentid (dm_sender msg));
  match sender_session with
  | None => mret tt
  | Some p => ds_on_agents (srv_agent_stop p)
  end.

Definition kill_session (msg : dmsg) : M dserver unit :=
  match dm_args msg with
  | [] => failed_reply msg "Invalid format (no attributes)."
  | DString id2kill :: _ =>
      session ← ds_on_agents (srv_get_agent_by_ncsid id2kill);
      match session with
      | None => failed_reply msg "Session to kill does not exists"
      | Some p =>
          let sid := dm_sender msg in
          sender ← ds_on_agents (srv_get_agent_by_agentid sid);
          match sender with
          | Some q =>
              a ← ds_on_agents (load q);
              (* strcmp(nc_session_get_id(sender->session), sid) == 0 *)
              own ← ds_on_agents (ncsid_matches sid a);
              if own : bool then failed_reply msg "Killing own session requested"
              else
                _ ← ds_on_agents (srv_agent_kill p);
                _ ← _dbus_positive_reply msg; mret tt
          | None => failed_reply msg "You are unknown client"
          end
      end
  | _ => failed_reply msg "SessionID expected as a string value"
  end.

Definition process_operation (msg : dmsg) : M dserver unit :=
  session ← ds_on_agents (srv_get_agent_by_agentid (dm_sender msg));
  match session with
  | None => failed_reply msg "Your session is no longer valid!"
  | Some p =>
      match dm_args msg with
      | [] => failed_reply msg "Invalid format (no attributes)."
      | DString rpcdump :: _ =>
          a ← ds_on_agents (load p);
          reply ← ds_on_dev (srv_process_rpc (ag_session a) (nc_rpc_build rpcdump (ag_session a)));
          r ← match reply with Reply r => mret r | _ => crash NullDeref end;
          match nc_reply_dump r with
          | None => failed_reply msg "Invalid rpc-reply to send via D-Bus"
          | Some replydump =>
              if negb (append_ok (DString replydump)) then
                failed_reply msg "Unable to create reply message content"
              else
                _ ← dbus_connection_send msg (MethodReturn [DString replydump]); mret tt
          end
      | _ => failed_reply msg "RPC expected as a string value"
      end
  end.

(** ** comm_loop *)
Definition dispatch (msg : dmsg) : M dserver unit :=
  std ← _dbus_handlestdif msg;
  if negb (std =? 0)%Z then mret tt
  else
    match dm_type msg with
    | METHOD_CALL =>
        if dbus_message_is_method_call msg OFC_DBUS_IF OFC_DBUS_GETCAPABILITIES then
          get_capabilities msg
        else if dbus_message_is_method_call msg OFC_DBUS_IF OFC_DBUS_SETSESSION then
          set_session msg
        else if dbus_message_is_method_call msg OFC_DBUS_IF OFC_DBUS_CLOSESESSION then
          close_session msg
        else if dbus_message_is_method_call msg OFC_DBUS_IF OFC_DBUS_KILLSESSION then
          kill_session msg
        else if dbus_message_is_method_call msg OFC_DBUS_IF OFC_DBUS_PROCESSOP then
          process_operation msg
        else mret tt
    | _ => mret tt
    end.

(** while ((msg = dbus_connection_pop_message(c)) != NULL) *)
Fixpoint pop_messages (fuel : nat) : M dserver exit :=
  match fuel with
  | 0 => nofuel
  | S f =>
      q ← gets ds_queue;
      match q with
      | [] => mret EXIT_SUCCESS
      | msg :: rest =>
          _ ← modify (ds_set_queue rest);
          _ ← dispatch msg;
          pop_messages f
      end
  end.

(** [arrived]: what dbus_connection_read_write() reads. *)
Definition comm_loop (arrived : list dmsg) : M dserver exit :=
  _ ← modify (λ s, ds_set_queue (ds_queue s ++ arrived) s);
  n ← gets (λ s, S (length (ds_queue s)));
  pop_messages n.

(** ** comm_init *)

(** The results of dbus_bus_get_private() and dbus_bus_request_name(): is there
    a connection, an error in the request, and are we the primary owner? *)
Definition comm_init (connected name_err primary : bool) : bool :=
  connected && negb name_err && primary.
End dserver.
