(* ===== verification/AgentDBus.v ===== *)
(** * The agent on the D-Bus (agent_comm_dbus.c)

    The functions an agent calls to reach the server over the D-Bus.  A call
    that waits for its reply puts a message into the server's queue and lets the
    server make a round of its comm_loop(). *)

From S2P Require Import Prelude.
From S2P Require Import Agents.
From S2P Require Import Rpc.
From S2P Require Import ServerDBus.

Section dagent.
Context {NS : NcSession} {NR : NcRpc} {CA : NcCpbltsAdd} {DB : DBusLib}.

(** The unique name of the agent's connection, the serial number of its next
    message, and the server. *)
Record dagent := DAgent {
  da_name : string;
  da_serial : Z;
  da_srv : dserver }.

Definition da_set_srv (v : dserver) (s : dagent) : dagent := DAgent (da_name s) (da_serial s) v.
Definition on_dsrv {A} (m : M dserver A) : M dagent A := λ s,
  match m (da_srv s) with
  | Done (a, v) => Done (a, da_set_srv v s)
  | Crash f => Crash f
  | NoFuel => NoFuel
  end.

(** dbus_message_new_method_call() and the arguments; the bus adds the sender,
    the connection the serial number. *)
Definition new_message (iface member : string) (args : list dbus_arg) : M dagent dmsg :=
  s ← gets id;
  _ ← modify (λ s, DAgent (da_name s) (da_serial s + 1) (da_srv s));
  mret (DMsg METHOD_CALL (da_serial s) (da_name s) (Some iface) member args).

(** The reply to a message. *)
Definition reply_to (name : string) (serial : Z) (l : list dreply) : option dbody :=
  dr_body <$> find_first (λ r, bool_decide (dr_to r = name ∧ dr_serial r = serial)) l.

(** dbus_connection_send_with_reply_and_block(): the arguments of the reply or
    the message of the error *)
Definition send_and_block (iface member : string) (args : list dbus_arg)
  : M dagent (string + list dbus_arg) :=
  msg ← new_message iface member args;
  _ ← on_dsrv (comm_loop [msg]);
  sent ← gets (λ s, ds_sent (da_srv s));
  mret (match reply_to (dm_sender msg) (dm_serial msg) sent with
        | None => inl no_reply_error
        | Some (ErrorReply _ m) => inl m
        | Some (MethodReturn l) => inr l
        end).

(** ** comm_init *)
Definition agent_comm_init (connected : bool) : M dagent bool :=
  if connected then
    r ← send_and_block DBUS_STDIF_PEER "Ping" [];
    mret (match r with inl _ => false | inr _ => true end)
  else mret false.

(** ** comm_get_srv_cpblts *)

(** for (i = 0; i < cpblts_count; i++): the strings, None where the memory is
    free; a reply that is too short makes it free what it has. *)
Fixpoint copy_cpblts (n : nat) (args : list dbus_arg) (cpblts : list string) : list (option string) :=
  match n with
  | 0 => Some <$> cpblts
  | S n' =>
      match args with
      | DString cpblt :: rest => copy_cpblts n' rest (cpblts ++ [cpblt])
      | _ => (λ _, None) <$> cpblts
      end
  end.

Definition comm_get_srv_cpblts : M dagent (option (list (option string))) :=
  r ← send_and_block OFC_DBUS_IF OFC_DBUS_GETCAPABILITIES [];
  mret (match r with
        | inr (DUint16 cpblts_count :: args) =>
            if (cpblts_count <=? 0)%Z then None
            else Some (copy_cpblts (Z.to_nat cpblts_count) args [])
        | _ => None
        end).

(** ** comm_session_info_send *)
Definition comm_session_info_send (getpid : Z) (username sid : string) (cpblts : nc_cpblts)
  : M dagent exit :=
  let l := nc_cpblts_iter cpblts in
  let args := [DString sid; DUint16 (getpid mod 2 ^ 16); DString username;
               DUint16 (Z.of_nat (length l) mod 2 ^ 16)] ++ (DString <$> l) in
  if negb (forallb append_ok args) then mret EXIT_FAILURE
  else
    r ← send_and_block OFC_DBUS_IF OFC_DBUS_SETSESSION args;
    mret (match r with inl _ => EXIT_FAILURE | inr _ => EXIT_SUCCESS end).

(** ** comm_operation *)
Definition comm_operation (rpc : nc_rpc) : M dagent (option nc_reply) :=
  let dump := nc_rpc_dump rpc in
  if negb (append_ok (DString dump)) then
    mret (Some (op_failed (Some "Unable to set D-Bus method call")))
  else
    r ← send_and_block OFC_DBUS_IF OFC_DBUS_PROCESSOP [DString dump];
    match r with
    | inl err_message => mret (Some (op_failed (Some err_message)))
    | inr (DString dump :: _) => mret (nc_reply_build dump)
    | inr _ => mret (Some (op_failed None))
    end.

(** ** comm_close, comm_destroy *)

(** dbus_connection_send() to the server, which reads it in a later round *)
Definition comm_close (sent : bool) : M dagent exit :=
  msg ← new_message OFC_DBUS_IF OFC_DBUS_CLOSESESSION [];
  if sent then
    _ ← on_dsrv (modify (λ s, ds_set_queue (ds_queue s ++ [msg]) s)); mret EXIT_SUCCESS
  else mret EXIT_FAILURE.

Definition agent_comm_destroy (connected sent : bool) : M dagent unit :=
  if connected then _ ← comm_close sent; mret tt else mret tt.

(** ** comm_kill_session *)
Definition comm_kill_session (sid : string) : M dagent (option nc_reply) :=
  if negb (append_ok (DString sid)) then mret (Some (op_failed None))
  else
    r ← send_and_block OFC_DBUS_IF OFC_DBUS_KILLSESSION [DString sid];
    mret (Some (match r with
                | inl errmsg => op_failed (Some errmsg)
                | inr _ => nc_reply_ok
                end)).
End dagent.
