(* ===== verification/DBusFacts.v ===== *)
(** * The server on the D-Bus serves requests

    [dserve] is [serve] of ServerSpec.v as the D-Bus server implements it, with
    its two differences; the handlers implement it, and no message, however
    malformed, makes the communication loop fail. *)

From S2P Require Import Prelude.
From S2P Require Import OvsFacts.
From S2P Require Import Agents.
From S2P Require Import AgentsFacts.
From S2P Require Import Rpc.
From S2P Require Import Sockets.
From S2P Require Import ServerSpec.
From S2P Require Import ServerDBus.

Section dbus.
Context {NS : NcSession} {NR : NcRpc} {CA : NcCpbltsAdd} {DB : DBusLib}.
Implicit Types (s : dserver) (msg : dmsg).

(** ** The specification *)
Definition added (cs : list string) : nc_cpblts := foldl nc_cpblts_add (nc_cpblts_new []) cs.

Definition dserve (p : aptr) (id : string) (req : request) : M world answer :=
  reg ← gets w_reg;
  match req with
  | SetSession sid user cs pid =>
      _ ← modify (set_reg (reg ++ [(p, new_entry sid user (added cs) id pid)])); mret SessionSet
  | KillSession sid =>
      match session_of sid reg with
      | None => mret (Refused "Session to kill does not exists")
      | Some (q, e) =>
          match agent_of id reg with
          | None => mret (Refused "You are unknown client")
          | Some (_, me) =>
              if bool_decide (id = e_ncsid me) then mret (Refused "Killing own session requested")
              else
                _ ← modify (λ w, World (reg_remove q reg) (w_dev w) (e_pid e :: w_killed w));
                mret SessionKilled
          end
      end
  | GenericOp rpc =>
      match agent_of id reg with
      | None => mret (Refused "Your session is no longer valid!")
      | Some (_, e) => r ← w_on_dev (processed (e_session e) (Some rpc)); mret (RpcReply r)
      end
  | GetCpblts | CloseSession => serve p id req
  end.

(** ** Requests and answers as messages *)
Definition req_member (req : request) : string :=
  match req with
  | GetCpblts => OFC_DBUS_GETCAPABILITIES
  | SetSession _ _ _ _ => OFC_DBUS_SETSESSION
  | CloseSession => OFC_DBUS_CLOSESESSION
  | KillSession _ => OFC_DBUS_KILLSESSION
  | GenericOp _ => OFC_DBUS_PROCESSOP
  end.

Definition req_args (req : request) : list dbus_arg :=
  match req with
  | GetCpblts | CloseSession => []
  | SetSession sid user cs pid =>
      [DString sid; DUint16 pid; DString user; DUint16 (Z.of_nat (length cs))] ++ (DString <$> cs)
  | KillSession sid => [DString sid]
  | GenericOp rpc => [DString (nc_rpc_dump rpc)]
  end.

Definition req_msg (serial : Z) (name : string) (req : request) : dmsg :=
  DMsg METHOD_CALL serial name (Some OFC_DBUS_IF) (req_member req) (req_args req).

Definition answer_body (a : answer) : option dbody :=
  match a with
  | Cpblts l => Some (MethodReturn (DUint16 (Z.of_nat (length l)) :: (DString <$> l)))
  | SessionSet | SessionKilled => Some (MethodReturn [DBoolean true])
  | SessionClosed | NoAnswer => None
  | Refused m => Some (ErrorReply DBUS_ERROR_FAILED m)
  | RpcReply r => Some (MethodReturn [DString (default "" (nc_reply_dump r))])
  end.
Definition answer_msgs (serial : Z) (name : string) (a : answer) : list dreply :=
  DReply serial name <$> option_list (answer_body a).

(** libdbus accepts the message. *)
Definition body_ok (b : dbody) : Prop :=
  send_ok b = true ∧
  match b with MethodReturn l => forallb append_ok l = true | ErrorReply _ _ => True end.
Definition answer_ok (a : answer) : Prop :=
  (∀ b, answer_body a = Some b → body_ok b) ∧
  match a with
  | Cpblts l => (Z.of_nat (length l) < 2 ^ 16)%Z
  | RpcReply r => is_Some (nc_reply_dump r)
  | _ => True
  end.

(** ** What the server's variables mean *)
Record dmeans s (w : world) : Prop := {
  dmeans_reg : represents (ds_agents s) (w_reg w);
  dmeans_killed : al_killed (ds_agents s) = w_killed w;
  dmeans_dev : ds_dev s = w_dev w }.

(** ** Elementary steps *)
Definition sent (l : list dreply) s : dserver := ds_set_sent (ds_sent s ++ l) s.

Lemma send_run msg b s : send_ok b = true →
  dbus_connection_send msg b s = Done (true, sent [DReply (dm_serial msg) (dm_sender msg) b] s).
Proof. intros H. unfold dbus_connection_send. by rewrite H. Qed.

Lemma positive_run msg s : body_ok (MethodReturn [DBoolean true]) →
  _dbus_positive_reply msg s =
    Done (EXIT_SUCCESS,
      sent [DReply (dm_serial msg) (dm_sender msg) (MethodReturn [DBoolean true])] s).
Proof.
  intros [Hs Ha]. simpl in Ha. rewrite andb_true_r in Ha. unfold _dbus_positive_reply.
  by rewrite Ha, (bind_run _ _ _ _ _ (send_run _ _ _ Hs)).
Qed.

Lemma failed_run msg m s : send_ok (ErrorReply DBUS_ERROR_FAILED m) = true →
  failed_reply msg m s =
    Done (tt, sent [DReply (dm_serial msg) (dm_sender msg) (ErrorReply DBUS_ERROR_FAILED m)] s).
Proof.
  intros Hs. unfold failed_reply, _dbus_error_reply. simpl.
  unfold mbind, M_bind. by rewrite (send_run _ _ _ Hs).
Qed.

Lemma ds_on_agents_run {A} (m : M alist A) s a v :
  m (ds_agents s) = Done (a, v) → ds_on_agents m s = Done (a, ds_set_agents v s).
Proof. unfold ds_on_agents. by intros ->. Qed.
Lemma ds_on_agents_same {A} (m : M alist A) s a :
  m (ds_agents s) = Done (a, ds_agents s) → ds_on_agents m s = Done (a, s).
Proof. intros H. rewrite (ds_on_agents_run _ _ _ _ H). by destruct s. Qed.
Lemma ds_on_dev_run {A} (m : M dev A) s a v :
  m (ds_dev s) = Done (a, v) → ds_on_dev m s = Done (a, ds_set_dev v s).
Proof. unfold ds_on_dev. by intros ->. Qed.

Lemma find_sender s l id : represents (ds_agents s) l →
  ds_on_agents (srv_get_agent_by_agentid id) s = Done (fst <$> agent_of id l, s).
Proof. intros H. by apply ds_on_agents_same, (by_agentid_run _ l). Qed.
Lemma find_session s l sid : represents (ds_agents s) l →
  ds_on_agents (srv_get_agent_by_ncsid sid) s = Done (fst <$> session_of sid l, s).
Proof. intros H. by apply ds_on_agents_same, (by_ncsid_run _ l). Qed.

(** ** The handlers *)
Definition dreq_ok (req : request) : Prop :=
  match req with SetSession _ _ cs _ => (Z.of_nat (length cs) < 2 ^ 16)%Z | _ => True end.

Definition dimplements (req : request) (h : dmsg → M dserver unit) : Prop :=
  ∀ s w serial name a w', dmeans s w → dreq_ok req →
    dserve (al_fresh (ds_agents s)) name req w = Done (a, w') → answer_ok a →
    ∃ s', h (req_msg serial name req) s = Done (tt, sent (answer_msgs serial name a) s') ∧
      dmeans s' w' ∧ ds_queue s' = ds_queue s ∧ ds_sent s' = ds_sent s.

Lemma sent_nil s : sent [] s = s.
Proof. unfold sent, ds_set_sent. rewrite app_nil_r. by destruct s. Qed.

Lemma get_capabilities_dimplements : dimplements GetCpblts get_capabilities.
Proof.
  intros s w serial name a w' Hw _ [= <- <-] [Hok Hn].
  destruct (Hok _ eq_refl) as [Hs Ha]. exists s. split; [|done].
  unfold get_capabilities. rewrite Z.mod_small by lia. rewrite Ha.
  by rewrite (bind_run _ _ _ _ _ (send_run _ _ _ Hs)).
Qed.

Lemma get_cpblts_run cs : ∀ cpblts,
  get_cpblts (length cs) (DString <$> cs) cpblts = Some (foldl nc_cpblts_add cpblts cs).
Proof. induction cs as [|c cs IH]; intros cpblts; [done|apply IH]. Qed.

Lemma set_session_dimplements sid user cs pid :
  dimplements (SetSession sid user cs pid) set_session.
Proof.
  intros s w serial name a w' Hw Hcs Hserve [Hok _].
  unfold dserve in Hserve. rewrite bind_gets, bind_modify in Hserve. injection Hserve as <- <-.
  unfold set_session. cbn [req_msg req_args dm_args dm_sender app].
  rewrite Nat2Z.id, get_cpblts_run. change (foldl _ _ cs) with (added cs).
  destruct (agent_new_run _ _ (dmeans_reg _ _ Hw) sid user (added cs) name pid)
    as (v & Hv & Hrep & Hk).
  rewrite (bind_run _ _ _ _ _ (ds_on_agents_run _ _ _ _ Hv)).
  rewrite (bind_run _ _ _ _ _ (positive_run _ _ (Hok _ eq_refl))).
  exists (ds_set_agents v s). split_and!; [done| |done|done].
  constructor; simpl; [done|by rewrite Hk, (dmeans_killed _ _ Hw)|apply Hw].
Qed.

Lemma close_session_dimplements : dimplements CloseSession close_session.
Proof.
  intros s w serial name a w' Hw _ Hserve _. unfold dserve, serve in Hserve.
  rewrite !bind_gets in Hserve. unfold close_session.
  rewrite (bind_run _ _ _ _ _ (find_sender s _ name (dmeans_reg _ _ Hw))).
  destruct (agent_of name (w_reg w)) as [[q e]|] eqn:E; [rewrite bind_modify in Hserve|];
    injection Hserve as <- <-; cbn [fmap option_fmap option_map fst].
  - apply agent_of_in in E as [E _].
    destruct (agent_stop_in _ _ q e (dmeans_reg _ _ Hw) E) as (v & Hv & Hrep & Hk).
    exists (ds_set_agents v s).
    split_and!; [by rewrite sent_nil, (ds_on_agents_run _ _ _ _ Hv)| |done|done].
    constructor; simpl; [done|by rewrite Hk, (dmeans_killed _ _ Hw)|apply Hw].
  - exists s. by rewrite sent_nil.
Qed.

Lemma refused_done msg serial name m s : msg = DMsg (dm_type msg) serial name (dm_interface msg)
    (dm_member msg) (dm_args msg) → answer_ok (Refused m) →
  failed_reply msg m s = Done (tt, sent (answer_msgs serial name (Refused m)) s).
Proof. intros -> [Hok _]. destruct (Hok _ eq_refl) as [Hs _]. by rewrite failed_run. Qed.

Lemma kill_session_dimplements sid : dimplements (KillSession sid) kill_session.
Proof.
  intros s w serial name a w' Hw _ Hserve Hok. unfold dserve in Hserve. rewrite bind_gets in Hserve.
  unfold kill_session. cbn [req_msg req_args dm_args dm_sender].
  rewrite (bind_run _ _ _ _ _ (find_session s _ sid (dmeans_reg _ _ Hw))).
  assert (∀ m, Refused m = a → w = w' → ∃ s',
    failed_reply (req_msg serial name (KillSession sid)) m s =
      Done (tt, sent (answer_msgs serial name a) s') ∧
    dmeans s' w' ∧ ds_queue s' = ds_queue s ∧ ds_sent s' = ds_sent s) as Href.
  { intros m <- <-. exists s. split_and!; try done. by apply refused_done. }
  destruct (session_of sid (w_reg w)) as [[q e]|] eqn:E1; cbn [fmap option_fmap option_map fst];
    [|injection Hserve; intros; by eapply Href].
  rewrite (bind_run _ _ _ _ _ (find_sender s _ name (dmeans_reg _ _ Hw))).
  destruct (agent_of name (w_reg w)) as [[q' me]|] eqn:E2; cbn [fmap option_fmap option_map fst];
    [|injection Hserve; intros; by eapply Href].
  apply agent_of_in in E2 as [E2 _]. apply session_of_in in E1 as [E1 _].
  destruct (load_agent _ _ _ _ (dmeans_reg _ _ Hw) E2) as (info & H5 & _ & Hown).
  rewrite (bind_run _ _ _ _ _ (ds_on_agents_same _ _ _ H5)).
  rewrite (bind_run _ _ _ _ _ (ds_on_agents_same _ _ _ (Hown name _))).
  case_bool_decide; [injection Hserve; intros; by eapply Href|].
  rewrite bind_modify in Hserve. injection Hserve as <- <-.
  destruct (agent_kill_in _ _ q e (dmeans_reg _ _ Hw) E1) as (v & Hv & Hrep & Hk).
  rewrite (bind_run _ _ _ _ _ (ds_on_agents_run _ _ _ _ Hv)).
  rewrite (bind_run _ _ _ _ _ (positive_run _ _ (proj1 Hok _ eq_refl))).
  exists (ds_set_agents v s). split_and!; [done| |done|done].
  constructor; simpl; [done|by rewrite Hk, (dmeans_killed _ _ Hw)|apply Hw].
Qed.

Lemma process_operation_dimplements rpc : dimplements (GenericOp rpc) process_operation.
Proof.
  intros s w serial name a w' Hw _ Hserve Hok. unfold dserve in Hserve. rewrite bind_gets in Hserve.
  unfold process_operation. cbn [req_msg req_args dm_args dm_sender].
  rewrite (bind_run _ _ _ _ _ (find_sender s _ name (dmeans_reg _ _ Hw))).
  destruct (agent_of name (w_reg w)) as [[q me]|] eqn:E2; cbn [fmap option_fmap option_map fst].
  - apply agent_of_in in E2 as [E2 _].
    destruct (load_agent _ _ _ _ (dmeans_reg _ _ Hw) E2) as (info & H5 & Hses & _).
    rewrite (bind_run _ _ _ _ _ (ds_on_agents_same _ _ _ H5)), Hses, rpc_roundtrip.
    apply bind_Done in Hserve as (r & w1 & Hp & [= <- <-]).
    unfold w_on_dev in Hp. rewrite <-(dmeans_dev _ _ Hw) in Hp.
    destruct (processed _ _ _) as [[r' v]| |] eqn:Ep; simplify_eq.
    assert (srv_process_rpc (e_session me) (Some rpc) (ds_dev s) = Done (Reply r, v)) as Hs
      by (by rewrite srv_process_rpc_eq, (bind_run _ _ _ _ _ Ep)).
    rewrite (bind_run _ _ _ _ _ (ds_on_dev_run _ _ _ _ Hs)), bind_ret.
    destruct Hok as [Hok [d Hd]]. destruct (Hok _ eq_refl) as [Hsend Happ]. rewrite Hd in *.
    simpl in Happ, Hsend. rewrite andb_true_r in Happ. rewrite Happ. cbn [negb].
    rewrite (bind_run _ _ _ _ _ (send_run _ _ _ Hsend)).
    exists (ds_set_dev v s). split_and!; [|destruct Hw; by constructor|done|done].
    unfold answer_msgs. simpl. by rewrite Hd.
  - injection Hserve as <- <-. exists s. split_and!; try done. by apply refused_done.
Qed.

(** ** The communication loop *)
Definition dhandler (req : request) : dmsg → M dserver unit :=
  match req with
  | GetCpblts => get_capabilities
  | SetSession _ _ _ _ => set_session
  | CloseSession => close_session
  | KillSession _ => kill_session
  | GenericOp _ => process_operation
  end.

Lemma dhandler_implements req : dimplements req (dhandler req).
Proof.
  destruct req; [apply get_capabilities_dimplements|apply set_session_dimplements
    |apply close_session_dimplements|apply kill_session_dimplements|apply process_operation_dimplements].
Qed.

Lemma dispatch_request serial name req s :
  dispatch (req_msg serial name req) s = dhandler req (req_msg serial name req) s.
Proof.
  unfold dispatch.
  assert (_dbus_handlestdif (req_msg serial name req) s = Done (0%Z, s)) as H by done.
  rewrite (bind_run _ _ _ _ _ H). cbn [req_msg dm_type].
  change (0 =? 0)%Z with true. cbn [negb].
  rewrite !(is_method_call_eq _ _ _ OFC_DBUS_IF) by done. cbn [req_msg dm_member].
  by destruct req.
Qed.

(** Requests, each with its serial number and sender, and their answers. *)
Definition call := (Z * string * request)%type.
Definition call_msg (c : call) : dmsg := req_msg c.1.1 c.1.2 c.2.
Definition call_replies (x : call * answer) : list dreply := answer_msgs x.1.1.1 x.1.1.2 x.2.

Inductive dserves_all : list (call * answer) → world → world → Prop :=
| dserves_nil w : dserves_all [] w w
| dserves_cons c a tr w w1 w2 p :
    p ∉ (w_reg w).*1 → dserve p c.1.2 c.2 w = Done (a, w1) →
    dserves_all tr w1 w2 → dserves_all ((c, a) :: tr) w w2.

(** The answers the server can send, whatever happened before. *)
Section device.
Context (I : dev → Prop).
Definition device_total : Prop :=
  ∀ ses rpc d, I d → ∃ r d', processed ses rpc d = Done (r, d') ∧ I d'.
Definition answers_ok : Prop :=
  ∀ p id req w a w', I (w_dev w) → dserve p id req w = Done (a, w') → answer_ok a.
Context (HI : device_total) (Hans : answers_ok).

Lemma dserve_total p id req w : I (w_dev w) → ∃ a w', dserve p id req w = Done (a, w') ∧ I (w_dev w').
Proof using HI.
  intros Hi. unfold dserve, serve. destruct req as [|sid user cs pid| |sid|rpc]; rewrite !bind_gets.
  - by eexists _, _.
  - by eexists _, _.
  - destruct (agent_of _ _) as [[q e]|]; by eexists _, _.
  - destruct (session_of _ _) as [[q e]|]; [|by eexists _, _].
    destruct (agent_of _ _) as [[q' me]|]; [|by eexists _, _].
    case_bool_decide; by eexists _, _.
  - destruct (agent_of _ _) as [[q e]|]; [|by eexists _, _].
    destruct (HI (e_session e) (Some rpc) _ Hi) as (r & d' & Hr & Hd).
    exists (RpcReply r), (World (w_reg w) d' (w_killed w)).
    split; [|done]. erewrite bind_run by (unfold w_on_dev; by rewrite Hr). done.
Qed.

Lemma sent_sent l1 l2 s s' : ds_sent s' = ds_sent (sent l1 s) → sent l2 s' = sent (l1 ++ l2)
  (ds_set_sent (ds_sent s) s').
Proof. intros H. unfold sent in *. simpl in H. rewrite H, app_assoc. by destruct s'. Qed.

Lemma pop_messages_run : ∀ calls fuel s w,
  dmeans s w → I (w_dev w) → ds_queue s = call_msg <$> calls → length calls < fuel →
  Forall (λ c, dreq_ok c.2) calls →
  ∃ s' w' tr, pop_messages fuel s = Done (EXIT_SUCCESS, s') ∧ tr.*1 = calls ∧
    dserves_all tr w w' ∧ dmeans s' w' ∧ I (w_dev w') ∧ ds_queue s' = [] ∧
    ds_sent s' = ds_sent s ++ (tr ≫= call_replies).
Proof using HI Hans.
  induction calls as [|c calls IH]; intros fuel s w Hw Hi Hq Hf Hok;
    (destruct fuel as [|fuel]; simpl in Hf; [lia|]); cbn [pop_messages]; rewrite bind_gets, Hq.
  - exists s, w, []. split_and!; try done; [constructor|]. by rewrite app_nil_r.
  - cbn [fmap list_fmap]. rewrite bind_modify. apply Forall_cons in Hok as [Hc Hok].
    set (s0 := ds_set_queue (call_msg <$> calls) s).
    assert (dmeans s0 w) as Hw0 by (destruct Hw; by constructor).
    destruct (dserve_total (al_fresh (ds_agents s0)) c.1.2 c.2 w Hi) as (a & w1 & Hs & Hi1).
    destruct (dhandler_implements c.2 s0 w c.1.1 c.1.2 a w1 Hw0 Hc Hs) as (s1 & Hh & Hw1 & Hq1 & Hs1);
      [eapply Hans; [exact Hi|exact Hs]|].
    pose proof (dispatch_request c.1.1 c.1.2 c.2 s0) as Hd. rewrite Hh in Hd.
    rewrite (bind_run _ _ _ _ _ Hd).
    destruct (IH fuel (sent (answer_msgs c.1.1 c.1.2 a) s1) w1) as (s' & w' & tr & Hrun & Htr & Hsv & Hm & Hi'
      & Hq' & Hsent); try done; [destruct Hw1; by constructor|lia|].
    exists s', w', ((c, a) :: tr). split_and!; try done.
    + by rewrite fmap_cons, Htr.
    + econstructor; [|exact Hs|exact Hsv].
      intros Hin. by apply (fresh_new _ _ (dmeans_reg _ _ Hw0) (al_fresh (ds_agents s0))).
    + rewrite Hsent. simpl. rewrite Hs1, <-app_assoc. done.
Qed.

Lemma comm_loop_serves calls s w :
  dmeans s w → I (w_dev w) → ds_queue s = [] → Forall (λ c, dreq_ok c.2) calls →
  ∃ s' w' tr, comm_loop (call_msg <$> calls) s = Done (EXIT_SUCCESS, s') ∧ tr.*1 = calls ∧
    dserves_all tr w w' ∧ dmeans s' w' ∧ I (w_dev w') ∧ ds_queue s' = [] ∧
    ds_sent s' = ds_sent s ++ (tr ≫= call_replies).
Proof using HI Hans.
  intros Hw Hi Hq Hok. unfold comm_loop. rewrite bind_modify, bind_gets, Hq.
  apply (pop_messages_run calls _ (ds_set_queue (call_msg <$> calls) s) w);
    [destruct Hw; by constructor|done|done| |done].
  simpl. rewrite length_fmap. lia.
Qed.
End device.

(** ** Arbitrary messages *)

(** The list of agents is intact and the datastores are in a good state. *)
Definition healthy (I : dev → Prop) s : Prop :=
  (∃ l, represents (ds_agents s) l) ∧ I (ds_dev s).

(** A step that always succeeds, keeps the server healthy and leaves the queue
    alone. *)
Definition survives {A} (I : dev → Prop) (m : M dserver A) : Prop :=
  ∀ s, healthy I s → ∃ a s', m s = Done (a, s') ∧ healthy I s' ∧ ds_queue s' = ds_queue s.

#[local] Create HintDb survives.

Section survival.
Context (I : dev → Prop) (HI : device_total I).

Lemma survives_ret {A} (a : A) : survives I (mret a).
Proof. intros s H. by exists a, s. Qed.
Lemma survives_bind {A B} (m : M dserver A) (f : A → M dserver B) :
  survives I m → (∀ a, survives I (f a)) → survives I (m ≫= f).
Proof.
  intros Hm Hf s H. destruct (Hm s H) as (a & s1 & H1 & Hs1 & Hq1).
  destruct (Hf a s1 Hs1) as (b & s2 & H2 & Hs2 & Hq2). exists b, s2.
  rewrite (bind_run _ _ _ _ _ H1). split_and!; [done|done|congruence].
Qed.
Lemma survives_send msg b : survives I (dbus_connection_send msg b).
Proof. intros s H. unfold dbus_connection_send. destruct (send_ok b); by eexists _, _. Qed.
Lemma survives_ignore {A} (m : M dserver A) : survives I m → survives I (_ ← m; mret tt).
Proof. intros H. apply survives_bind; [done|]. intros _. apply survives_ret. Qed.

Hint Resolve survives_ret survives_send survives_ignore : survives.
#[local] Ltac survive := repeat (first
  [ solve [eauto with survives] | apply survives_bind; [|intros ?] | case_match ]).

Lemma survives_error msg n m : survives I (_dbus_error_reply msg n m).
Proof. unfold _dbus_error_reply. survive. Qed.
Lemma survives_positive msg : survives I (_dbus_positive_reply msg).
Proof. unfold _dbus_positive_reply. survive. Qed.
Hint Resolve survives_error survives_positive : survives.
Lemma survives_failed msg m : survives I (failed_reply msg m).
Proof. unfold failed_reply. survive. Qed.
Lemma survives_std msg : survives I (_dbus_handlestdif msg).
Proof. unfold _dbus_handlestdif, unknown_method, string_reply. survive. Qed.
Hint Resolve survives_failed survives_std : survives.

Lemma survives_capabilities msg : survives I (get_capabilities msg).
Proof. unfold get_capabilities. survive. Qed.

(** Steps on the list of agents. *)
Lemma survives_new sid user c id pid :
  survives I (ds_on_agents (srv_agent_new sid user c id pid)).
Proof.
  intros s [[l Hl] Hd]. destruct (agent_new_run _ _ Hl sid user c id pid) as (v & Hv & Hrep & _).
  rewrite (ds_on_agents_run _ _ _ _ Hv). eexists _, _. split_and!; [done| |done].
  split; [by eexists|done].
Qed.
Hint Resolve survives_new : survives.
Lemma survives_set_session msg : survives I (set_session msg).
Proof. unfold set_session. survive. Qed.

(** What follows a search may assume that the agent found is registered. *)
Definition survives_found {A} (p : aptr) (m : M dserver A) : Prop :=
  ∀ s l e, represents (ds_agents s) l → (p, e) ∈ l → I (ds_dev s) →
    ∃ a s', m s = Done (a, s') ∧ healthy I s' ∧ ds_queue s' = ds_queue s.

Lemma survives_sender {A} id (f : option aptr → M dserver A) :
  survives I (f None) → (∀ p, survives_found p (f (Some p))) →
  survives I (r ← ds_on_agents (srv_get_agent_by_agentid id); f r).
Proof.
  intros Hn Hf s [[l Hl] Hd]. rewrite (bind_run _ _ _ _ _ (find_sender s l id Hl)).
  destruct (agent_of id l) as [[p e]|] eqn:E; simpl.
  - apply agent_of_in in E as [E _]. by eapply Hf.
  - apply Hn. split; [by eexists|done].
Qed.

Lemma found_stop p : survives_found p (ds_on_agents (srv_agent_stop p)).
Proof.
  intros s l e Hl Hin Hd. destruct (agent_stop_in _ _ p e Hl Hin) as (v & Hv & Hrep & _).
  rewrite (ds_on_agents_run _ _ _ _ Hv). eexists _, _. split_and!; [done| |done].
  split; [by eexists|done].
Qed.

Lemma survives_close msg : survives I (close_session msg).
Proof.
  apply (survives_sender _ (λ r, match r with None => mret tt | Some p => _ end));
    [apply survives_ret|apply found_stop].
Qed.

Lemma survives_kill msg : survives I (kill_session msg).
Proof.
  unfold kill_session. destruct (dm_args msg) as [|[id2kill| |] args]; eauto with survives.
  intros s [[l Hl] Hd]. rewrite (bind_run _ _ _ _ _ (find_session s l id2kill Hl)).
  assert (healthy I s) as Hs by (split; [by eexists|done]).
  destruct (session_of id2kill l) as [[p e]|] eqn:E; simpl; [|by apply survives_failed].
  rewrite (bind_run _ _ _ _ _ (find_sender s l _ Hl)).
  destruct (agent_of _ l) as [[q me]|] eqn:E2; simpl; [|by apply survives_failed].
  apply session_of_in in E as [E _]. apply agent_of_in in E2 as [E2 _].
  destruct (load_agent _ _ _ _ Hl E2) as (info & H5 & _ & Hown).
  rewrite (bind_run _ _ _ _ _ (ds_on_agents_same _ _ _ H5)).
  rewrite (bind_run _ _ _ _ _ (ds_on_agents_same _ _ _ (Hown _ _))).
  case_bool_decide; [by apply survives_failed|].
  destruct (agent_kill_in _ _ p e Hl E) as (v & Hv & Hrep & _).
  rewrite (bind_run _ _ _ _ _ (ds_on_agents_run _ _ _ _ Hv)).
  apply (survives_ignore _ (survives_positive msg) (ds_set_agents v s)).
  split; [by eexists|done].
Qed.

Lemma survives_operation msg : survives I (process_operation msg).
Proof using HI.
  unfold process_operation. apply (survives_sender _ (λ r, match r with None => _ | Some p => _ end)).
  { apply survives_failed. }
  intros p s l e Hl Hin Hd. assert (healthy I s) as Hs by (split; [by eexists|done]).
  destruct (dm_args msg) as [|[dump| |] args]; try by apply survives_failed.
  destruct (load_agent _ _ _ _ Hl Hin) as (info & H5 & _ & _).
  rewrite (bind_run _ _ _ _ _ (ds_on_agents_same _ _ _ H5)).
  destruct (HI (ag_session info) (nc_rpc_build dump (ag_session info)) _ Hd) as (r & d' & Hr & Hd').
  assert (srv_process_rpc (ag_session info) (nc_rpc_build dump (ag_session info)) (ds_dev s) =
    Done (Reply r, d')) as Hp by (by rewrite srv_process_rpc_eq, (bind_run _ _ _ _ _ Hr)).
  rewrite (bind_run _ _ _ _ _ (ds_on_dev_run _ _ _ _ Hp)), bind_ret.
  assert (healthy I (ds_set_dev d' s)) as Hs' by (split; [by eexists|done]).
  destruct (nc_reply_dump r) as [d|]; [|by apply (survives_failed _ _ _ Hs')].
  destruct (append_ok _); cbn [negb]; [|by apply (survives_failed _ _ _ Hs')].
  apply (survives_ignore _ (survives_send _ _) _ Hs').
Qed.
Hint Resolve survives_capabilities survives_set_session survives_close survives_kill
  survives_operation : survives.

Lemma survives_dispatch msg : survives I (dispatch msg).
Proof using HI. unfold dispatch. survive. Qed.

Lemma comm_loop_survives arrived s : healthy I s →
  ∃ s', comm_loop arrived s = Done (EXIT_SUCCESS, s') ∧ healthy I s' ∧ ds_queue s' = [].
Proof using HI.
  intros Hs. unfold comm_loop. rewrite bind_modify, bind_gets.
  set (s0 := ds_set_queue (ds_queue s ++ arrived) s).
  assert (healthy I s0) as Hs0 by done. clearbody s0. clear s Hs.
  assert (∀ q fuel s, healthy I s → ds_queue s = q → length q < fuel →
    ∃ s', pop_messages fuel s = Done (EXIT_SUCCESS, s') ∧ healthy I s' ∧ ds_queue s' = []) as H.
  { induction q as [|msg q IH]; intros fuel s Hs Hq Hf;
      (destruct fuel as [|fuel]; simpl in Hf; [lia|]); cbn [pop_messages]; rewrite bind_gets, Hq.
    - by exists s.
    - rewrite bind_modify.
      destruct (survives_dispatch msg (ds_set_queue q s) Hs) as ([] & s1 & Hd & Hs1 & Hq1).
      rewrite (bind_run _ _ _ _ _ Hd). apply IH; [done|done|lia]. }
  eapply H; [done|done|lia].
Qed.
End survival.
End dbus.
