(* ===== verification/AgentDBusFacts.v ===== *)
(** * Remote calls over the D-Bus

    Each function of agent_comm_dbus.c, together with the server's round that
    answers it, is one step of [dserve]. *)

From S2P Require Import Prelude.
From S2P Require Import OvsFacts.
From S2P Require Import Agents.
From S2P Require Import AgentsFacts.
From S2P Require Import Rpc.
From S2P Require Import ServerSpec.
From S2P Require Import ServerDBus.
From S2P Require Import DBusFacts.
From S2P Require Import AgentDBus.

Section remote.
Context {NS : NcSession} {NR : NcRpc} {CA : NcCpbltsAdd} {DB : DBusLib}.
Context (I : dev → Prop) (HI : device_total I) (Hans : answers_ok I).
Implicit Types (s : dagent).

(** No message is on its way, and no reply to a message yet to be sent. *)
Record didle s : Prop := {
  didle_queue : ds_queue (da_srv s) = [];
  didle_sent r : r ∈ ds_sent (da_srv s) → dr_to r = da_name s → (dr_serial r < da_serial s)%Z }.

(** What the caller of a blocking send gets. *)
Definition got (a : answer) : string + list dbus_arg :=
  match answer_body a with
  | None => inl no_reply_error
  | Some (ErrorReply _ m) => inl m
  | Some (MethodReturn l) => inr l
  end.

Lemma find_first_app {A} (P : A → bool) l1 l2 : (∀ x, x ∈ l1 → P x = false) →
  find_first P (l1 ++ l2) = find_first P l2.
Proof.
  induction l1 as [|x l1 IH]; intros H; [done|]. simpl. rewrite (H x) by by left.
  apply IH. intros y Hy. apply H. by right.
Qed.

Lemma new_message_run iface member args s :
  new_message iface member args s =
    Done (DMsg METHOD_CALL (da_serial s) (da_name s) (Some iface) member args,
      DAgent (da_name s) (da_serial s + 1) (da_srv s)).
Proof. done. Qed.

Lemma send_and_block_run req s w :
  didle s → dmeans (da_srv s) w → I (w_dev w) → dreq_ok req →
  ∃ s' w' a p, send_and_block OFC_DBUS_IF (req_member req) (req_args req) s = Done (got a, s') ∧
    p ∉ (w_reg w).*1 ∧ dserve p (da_name s) req w = Done (a, w') ∧
    dmeans (da_srv s') w' ∧ I (w_dev w') ∧ didle s' ∧ da_name s' = da_name s.
Proof using HI Hans.
  intros [Hq Hsent] Hw Hi Hok. set (c := (da_serial s, da_name s, req)).
  destruct (comm_loop_serves I HI Hans [c] (da_srv s) w Hw Hi Hq) as
    (v & w' & tr & Hrun & Htr & Hsv & Hw' & Hi' & Hq' & Hs'); [by repeat constructor|].
  destruct tr as [|[c' a] [|]]; try done. injection Htr as ->. inversion_clear Hsv as [|????????Hp Hd Hn].
  inversion Hn; subst. simpl in Hs'. rewrite app_nil_r in Hs'.
  set (s' := DAgent (da_name s) (da_serial s + 1) v). exists s', w', a, p.
  split_and!; try done.
  - unfold send_and_block. rewrite (bind_run _ _ _ _ _ (new_message_run _ _ _ _)).
    assert (on_dsrv (comm_loop [DMsg METHOD_CALL (da_serial s) (da_name s) (Some OFC_DBUS_IF)
      (req_member req) (req_args req)]) (DAgent (da_name s) (da_serial s + 1) (da_srv s)) =
      Done (EXIT_SUCCESS, s')) as Hl by (unfold on_dsrv; cbn [da_srv];
      change (comm_loop _ (da_srv s)) with (comm_loop (call_msg <$> [c]) (da_srv s)); rewrite Hrun; reflexivity).
    rewrite (bind_run _ _ _ _ _ Hl), bind_gets. simpl. unfold mret, M_ret. do 2 f_equal.
    unfold reply_to. rewrite Hs', find_first_app.
    + unfold call_replies, answer_msgs, got. cbn [fst snd]. destruct (answer_body a) as [b|]; [|done].
      simpl. by rewrite bool_decide_eq_true_2 by done.
    + intros r Hr. apply bool_decide_eq_false. intros [H1 H2]. specialize (Hsent r Hr H1). lia.
  - constructor; [done|]. intros r Hr Hto. simpl in *. rewrite Hs' in Hr.
    apply elem_of_app in Hr as [Hr|Hr]; [specialize (Hsent r Hr Hto); lia|].
    unfold call_replies, answer_msgs in Hr. apply list_elem_of_fmap in Hr as (b & -> & _). simpl. lia.
Qed.

(** ** The calls *)

(** The call [m] performs [req] at the server; [result] is what it makes of the
    answer. *)
Definition dperforms {A} (req : request) (result : answer → A) (m : M dagent A) : Prop :=
  ∀ s w, didle s → dmeans (da_srv s) w → I (w_dev w) →
  ∃ s' w' a p, m s = Done (result a, s') ∧
    p ∉ (w_reg w).*1 ∧ dserve p (da_name s) req w = Done (a, w') ∧
    dmeans (da_srv s') w' ∧ I (w_dev w') ∧ didle s' ∧ da_name s' = da_name s.

Lemma dperforms_intro {A} req (result : answer → A) (m : M dagent A)
    (k : string + list dbus_arg → M dagent A) :
  dreq_ok req →
  (∀ s, m s = (r ← send_and_block OFC_DBUS_IF (req_member req) (req_args req); k r) s) →
  (∀ s p id w a w', I (w_dev w) → dserve p id req w = Done (a, w') → k (got a) s = Done (result a, s)) →
  dperforms req result m.
Proof using HI Hans.
  intros Hok Hm Hk s w Hid Hw Hi.
  destruct (send_and_block_run req s w Hid Hw Hi Hok) as (s' & w' & a & p & Hrun & Hp & Hs & H).
  exists s', w', a, p. rewrite Hm, (bind_run _ _ _ _ _ Hrun). split; [by eapply Hk|done].
Qed.

Lemma comm_operation_dperforms rpc :
  append_ok (DString (nc_rpc_dump rpc)) = true →
  dperforms (GenericOp rpc) reply_of (comm_operation rpc).
Proof using HI Hans.
  intros Ha. eapply dperforms_intro; [done|intros s; unfold comm_operation; by rewrite Ha|].
  intros s p id w a w' Hi Hs. pose proof (Hans _ _ _ _ _ _ Hi Hs) as [_ Hd].
  unfold dserve in Hs. rewrite bind_gets in Hs. destruct (agent_of _ _) as [[q e]|].
  - apply bind_Done in Hs as (r & w1 & _ & [= <- <-]). destruct Hd as [d Hd].
    unfold got. simpl. rewrite Hd. simpl. by rewrite (reply_roundtrip _ _ Hd).
  - by injection Hs as <- <-.
Qed.

Lemma comm_kill_session_dperforms sid :
  append_ok (DString sid) = true → dperforms (KillSession sid) reply_of (comm_kill_session sid).
Proof using HI Hans.
  intros Ha. eapply dperforms_intro; [done|intros s; unfold comm_kill_session; by rewrite Ha|].
  intros s p id w a w' Hi Hs. unfold dserve in Hs. rewrite bind_gets in Hs.
  destruct (session_of _ _) as [[q e]|]; [|by injection Hs as <- <-].
  destruct (agent_of _ _) as [[q' me]|]; [|by injection Hs as <- <-].
  case_bool_decide; [by injection Hs as <- <-|]. rewrite bind_modify in Hs. by injection Hs as <- <-.
Qed.

Lemma comm_session_info_send_dperforms getpid username sid cs :
  let args := req_args (SetSession sid username (nc_cpblts_iter cs) (getpid mod 2 ^ 16)) in
  forallb append_ok args = true → (Z.of_nat (length (nc_cpblts_iter cs)) < 2 ^ 16)%Z →
  dperforms (SetSession sid username (nc_cpblts_iter cs) (getpid mod 2 ^ 16)) exit_of
    (comm_session_info_send getpid username sid cs).
Proof using HI Hans.
  intros args Ha Hn. eapply dperforms_intro; [done| |].
  - intros s. unfold comm_session_info_send. rewrite (Z.mod_small (Z.of_nat _)) by lia.
    fold args. change (forallb _ _) with (forallb append_ok args). by rewrite Ha.
  - intros s p id w a w' Hi Hs. unfold dserve in Hs. rewrite bind_gets, bind_modify in Hs.
    by injection Hs as <- <-.
Qed.

(** The strings a reply brings, none of them freed. *)
Lemma copy_cpblts_run l : ∀ cpblts,
  copy_cpblts (length l) (DString <$> l) cpblts = Some <$> (cpblts ++ l).
Proof.
  induction l as [|c l IH]; intros cpblts; simpl; [by rewrite app_nil_r|].
  by rewrite IH, <-app_assoc.
Qed.

Lemma comm_get_srv_cpblts_dperforms : nc_session_get_cpblts_default ≠ [] →
  dperforms GetCpblts (λ a, fmap (M := list) Some <$> cpblts_of a) comm_get_srv_cpblts.
Proof using HI Hans.
  intros Hne. eapply dperforms_intro; [done|done|].
  intros s p id w a w' Hi [= <- <-]. simpl. destruct nc_session_get_cpblts_default as [|c l]; [done|].
  rewrite (proj2 (Z.leb_gt _ _)) by (simpl; lia). by rewrite Nat2Z.id, copy_cpblts_run.
Qed.

(** The message that closes the session is served in the next round. *)
Lemma comm_close_queued s w :
  didle s → dmeans (da_srv s) w → I (w_dev w) →
  ∃ s', comm_close true s = Done (EXIT_SUCCESS, s') ∧
    ∃ v w' a p, comm_loop [] (da_srv s') = Done (EXIT_SUCCESS, v) ∧
      p ∉ (w_reg w).*1 ∧ dserve p (da_name s) CloseSession w = Done (a, w') ∧
      dmeans v w' ∧ I (w_dev w').
Proof using HI Hans.
  intros [Hq _] Hw Hi. eexists. split; [done|].
  set (c := (da_serial s, da_name s, CloseSession)).
  destruct (comm_loop_serves I HI Hans [c] (da_srv s) w Hw Hi Hq) as
    (v & w' & tr & Hrun & Htr & Hsv & Hw' & Hi' & _); [by repeat constructor|].
  destruct tr as [|[c' a] [|]]; try done. injection Htr as ->.
  inversion_clear Hsv as [|????????Hp Hd Hn]. inversion Hn; subst.
  exists v, w', a, p. split_and!; try done. rewrite <-Hrun. unfold comm_loop. rewrite !bind_modify, !bind_gets.
  simpl. by rewrite Hq.
Qed.
End remote.
