(* ===== verification/Comm.v ===== *)
(** * The interface of the transports (comm.h)

    What the agent calls, whichever transport the build chose, and what the
    calls promise: each is one step of the server's specification
    [comm_serve].  AgentProcess.v is proved against this interface;
    CommInstances.v discharges it for sockets and for the D-Bus. *)

From S2P Require Import Prelude.
From S2P Require Import Agents.
From S2P Require Import AgentsFacts.
From S2P Require Import Rpc.
From S2P Require Import ServerSpec.

(** The functions of comm.h, over the state of the agent's end, the transport
    and the server.  The strings comm_get_srv_cpblts() returns are those its
    caller reads. *)
Class CommOps {NS : NcSession} {NR : NcRpc} := {
  comm_state : Type;
  comm_get_srv_cpblts : M comm_state (option (list string));
  comm_session_info_send : Z → string → string → nc_cpblts → M comm_state exit;
  comm_operation : nc_rpc → M comm_state (option nc_reply);
  comm_kill_session : string → M comm_state (option nc_reply);
  comm_destroy : M comm_state unit
}.

(** The contract: the agent's name at the server, the states between calls with
    the world the server stands for, the states after comm_destroy(), the requests
    that can be sent, and the capabilities that are sent as a whole. *)
Class CommSpec {NS : NcSession} {NR : NcRpc} {CO : CommOps} := {
  comm_serve : aptr → string → request → M world answer;
  comm_id : comm_state → string;
  comm_ready : comm_state → world → Prop;
  comm_closing : comm_state → world → Prop;
  comm_sendable : request → Prop;
  comm_rewound : nc_cpblts → Prop
}.

(** The world after a request of the agent [id]. *)
Definition comm_step {NS : NcSession} {NR : NcRpc} {CO : CommOps} {CS : CommSpec}
  (id : string) (req : request) (w : world) (a : answer) (w' : world) : Prop := ∃ p, p ∉ (w_reg w).*1 ∧ comm_serve p id req w = Done (a, w').

(** The call [m] performs [req], [result] is what it makes of the answer. *)
Definition carries {NS : NcSession} {NR : NcRpc} {CO : CommOps} {CS : CommSpec} {A}
  (req : request) (result : answer → A) (m : M comm_state A) : Prop :=
  ∀ s w, comm_ready s w → comm_sendable req →
  ∃ s' w' a, m s = Done (result a, s') ∧ comm_step (comm_id s) req w a w' ∧
    comm_ready s' w' ∧ comm_id s' = comm_id s.

Class Comm {NS : NcSession} {NR : NcRpc} {CO : CommOps} {CS : CommSpec} : Prop := {
  get_srv_cpblts_carries : carries GetCpblts cpblts_of comm_get_srv_cpblts;
  session_info_send_carries getpid user sid cs : comm_rewound cs →
    carries (SetSession sid user (nc_cpblts_iter cs) (getpid mod 2 ^ 16)) exit_of
      (comm_session_info_send getpid user sid cs);
  operation_carries rpc : carries (GenericOp rpc) reply_of (comm_operation rpc);
  kill_session_carries sid : carries (KillSession sid) reply_of (comm_kill_session sid);
  destroy_closes s w : comm_ready s w →
    ∃ s' w' a, comm_destroy s = Done (tt, s') ∧ comm_step (comm_id s) CloseSession w a w' ∧
      comm_closing s' w';
  (* the shape of the answers *)
  cpblts_answer id w a w' : comm_step id GetCpblts w a w' → is_Some (cpblts_of a);
  reply_answer id req w a w' : comm_step id req w a w' →
    match req with GenericOp _ | KillSession _ => is_Some (reply_of a) | _ => True end;
  set_answer id sid user cs pid w a w' :
    comm_step id (SetSession sid user cs pid) w a w' → a = SessionSet
}.
