(* ===== verification/CommInstances.v ===== *)
(** * Both transports implement the interface

    The instances of Comm.v: agent_comm_socket.c with server_comm_socket.c, and
    agent_comm_dbus.c with server_comm_dbus.c. *)

From S2P Require Import Prelude.
From S2P Require Import OvsFacts.
From S2P Require Import Agents.
From S2P Require Import AgentsFacts.
From S2P Require Import Rpc.
From S2P Require Import ServerSpec.
From S2P Require Import Comm.
From S2P Require Sockets.
From S2P Require ServerSocket.
From S2P Require ServerLoop.
From S2P Require SocketFacts.
From S2P Require HandlerFacts.
From S2P Require ServeFacts.
From S2P Require AgentSocket.
From S2P Require AgentSocketFacts.
From S2P Require ServerDBus.
From S2P Require AgentDBus.
From S2P Require DBusFacts.
From S2P Require AgentDBusFacts.

(** ** Sockets *)
Module Socket.
Import Sockets ServerSocket HandlerFacts ServeFacts AgentSocket AgentSocketFacts.

Section socket.
Context {NS : NcSession} {NR : NcRpc} {SL : SocketLib}.

(** The strings in the buffers comm_get_srv_cpblts() returns. *)
Fixpoint buf_strings (l : list (list byte)) : M astate (list string) :=
  match l with
  | [] => mret []
  | bs :: l' => c ← mem_string (Some <$> bs); cs ← buf_strings l'; mret (c :: cs)
  end.
Definition srv_cpblts : M astate (option (list string)) :=
  r ← AgentSocket.comm_get_srv_cpblts;
  match r with
  | None => mret None
  | Some l => cs ← buf_strings l; mret (Some cs)
  end.

#[global] Instance socket_ops : CommOps := {|
  Comm.comm_state := astate;
  Comm.comm_get_srv_cpblts := srv_cpblts;
  Comm.comm_session_info_send := AgentSocket.comm_session_info_send;
  Comm.comm_operation := AgentSocket.comm_operation;
  Comm.comm_kill_session := AgentSocket.comm_kill_session;
  Comm.comm_destroy := agent_comm_destroy |}.

Context (I : dev → Prop) (HI : device_answers I).

(** What the server answers can be stored. *)
Definition roomy : Prop :=
  ∀ fd req w a, I (w_dev w) → answer_to fd req w a → answer_fits a.
Context (Hroomy : roomy).

Definition socket_sendable (req : request) : Prop :=
  match req with
  | SetSession sid user cs _ => short sid ∧ short user ∧ fits_list cs
  | KillSession sid => fits sid
  | GenericOp rpc => fits (nc_rpc_dump rpc)
  | _ => True
  end.

Definition socket_ready (s : astate) (w : world) : Prop :=
  idle (a_sock s) (a_srv s) ∧ means (a_srv s) w ∧ I (w_dev w).
Definition socket_closing (s : astate) (w : world) : Prop :=
  a_sock s = (-1)%Z ∧ means (a_srv s) w ∧ I (w_dev w).

Definition socket_spec : CommSpec := {|
  comm_serve := serve;
  comm_id s := agent_id (a_sock s);
  comm_ready := socket_ready;
  comm_closing := socket_closing;
  comm_sendable := socket_sendable;
  comm_rewound cs := nc_cpblts_next cs = nc_cpblts_iter cs |}.
#[local] Existing Instance socket_spec.

Lemma performs_carries {A} req (result : answer → A) (m : M astate A) :
  closes req = false →
  (∀ fd, socket_sendable req → performs I fd req result m) → carries (CO := socket_ops) req result m.
Proof using Hroomy.
  intros Hcl Hm [fd v] w (Hid & Hw & Hi) Hok.
  destruct (Hm fd Hok v w Hid Hw Hi (λ a, Hroomy fd req w a Hi))
    as (v' & w' & a & p & Hrun & Hp & Hs & Hw' & Hi' & Hid').
  exists (AState fd v'), w', a. split; [done|]. split; [by exists p|]. split; [|done].
  split; [by apply Hid'|done].
Qed.

Lemma buf_strings_run l (s : astate) : Forall fits l → buf_strings (enc_str <$> l) s = Done (l, s).
Proof.
  induction 1 as [|m l Hm _ IH]; [done|]. cbn [buf_strings fmap list_fmap].
  pose proof (SocketFacts.mem_string_enc m [] s (proj1 Hm)) as H. rewrite app_nil_r in H.
  by rewrite (bind_run _ _ _ _ _ H), (bind_run _ _ _ _ _ IH).
Qed.

Lemma srv_cpblts_performs fd : performs I fd GetCpblts cpblts_of srv_cpblts.
Proof using HI.
  intros s w Hid Hw Hi Hfit.
  destruct (comm_get_srv_cpblts_performs I HI fd s w Hid Hw Hi Hfit)
    as (s' & w' & a & p & Hrun & Hp & Hs & H).
  exists s', w', a, p. split; [|done]. unfold srv_cpblts. rewrite (bind_run _ _ _ _ _ Hrun).
  assert (answer_fits a) as Ha by (apply Hfit; by exists p, w').
  injection Hs as <- <-. simpl. by rewrite (bind_run _ _ _ _ _ (buf_strings_run _ _ (proj1 Ha))).
Qed.

Lemma serve_reply p id req w a w' : serve p id req w = Done (a, w') →
  match req with GenericOp _ | KillSession _ => is_Some (reply_of a) | _ => True end.
Proof.
  unfold serve. rewrite bind_gets. destruct req as [| | |sid|rpc]; try done; intros Hs.
  - destruct (session_of _ _) as [[q e]|]; [|by injection Hs as <- <-].
    destruct (agent_of _ _) as [[q' me]|]; [|by injection Hs as <- <-].
    case_bool_decide; [by injection Hs as <- <-|]. rewrite bind_modify in Hs. by injection Hs as <- <-.
  - destruct (agent_of _ _) as [[q' me]|]; [|by injection Hs as <- <-].
    by apply bind_Done in Hs as (r & w1 & _ & [= <- <-]).
Qed.

Lemma socket_destroy (s : astate) w : socket_ready s w →
  ∃ s' w' a, agent_comm_destroy s = Done (tt, s') ∧
    comm_step (CO := socket_ops) (agent_id (a_sock s)) CloseSession w a w' ∧ socket_closing s' w'.
Proof using HI Hroomy.
  destruct s as [fd v]. intros (Hid & Hw & Hi).
  destruct (comm_close_performs I HI fd v w Hid Hw Hi (λ a, Hroomy fd CloseSession w a Hi))
    as (v' & w' & a & p & Hrun & Hp & Hs & Hw' & Hi' & _).
  eexists _, w', a. split; [|split; [by exists p|]].
  - unfold agent_comm_destroy. rewrite connected_step by done.
    rewrite (bind_run _ _ _ _ _ Hrun). reflexivity.
  - split_and!; [done| |done]. destruct Hw'. by constructor.
Qed.

Lemma socket_comm : Comm (CO := socket_ops) (CS := socket_spec).
Proof using HI Hroomy.
  constructor.
  - apply performs_carries; [done|]. intros fd _. apply srv_cpblts_performs.
  - intros getpid user sid cs Hcs. apply performs_carries; [done|]. intros fd (H1 & H2 & H3).
    by apply comm_session_info_send_performs.
  - intros rpc. apply performs_carries; [done|]. intros fd H. by apply comm_operation_performs.
  - intros sid. apply performs_carries; [done|]. intros fd H. by apply comm_kill_session_performs.
  - apply socket_destroy.
  - intros id w a w' (p & _ & [= <- <-]). by eexists.
  - intros id req w a w' (p & _ & Hs). exact (serve_reply _ _ _ _ _ _ Hs).
  - intros id sid user cs pid w a w' (p & _ & Hs). simpl in Hs. unfold serve in Hs.
    rewrite bind_gets, bind_modify in Hs. by injection Hs as <- <-.
Qed.
End socket.
End Socket.

(** ** D-Bus *)
Module DBus.
Import ServerDBus AgentDBus DBusFacts AgentDBusFacts.

Section dbus.
Context {NS : NcSession} {NR : NcRpc} {CA : NcCpbltsAdd} {DB : DBusLib}.

(** The strings nc_cpblts_new() reads: a freed one is an error. *)
Fixpoint read_strings {S} (l : list (option string)) : M S (list string) :=
  match l with
  | [] => mret []
  | c :: l' => c ← deref UseAfterFree c; cs ← read_strings l'; mret (c :: cs)
  end.
Definition srv_cpblts : M dagent (option (list string)) :=
  r ← AgentDBus.comm_get_srv_cpblts;
  match r with
  | None => mret None
  | Some l => cs ← read_strings l; mret (Some cs)
  end.

#[global] Instance dbus_ops : CommOps := {|
  Comm.comm_state := dagent;
  Comm.comm_get_srv_cpblts := srv_cpblts;
  Comm.comm_session_info_send := AgentDBus.comm_session_info_send;
  Comm.comm_operation := AgentDBus.comm_operation;
  Comm.comm_kill_session := AgentDBus.comm_kill_session;
  Comm.comm_destroy := agent_comm_destroy true true |}.

Context (I : dev → Prop) (HI : device_total I) (Hans : answers_ok I).

Definition dbus_sendable (req : request) : Prop :=
  forallb append_ok (req_args req) = true ∧
  match req with SetSession _ _ cs _ => (Z.of_nat (length cs) < 2 ^ 16)%Z | _ => True end.

Definition dbus_ready (s : dagent) (w : world) : Prop :=
  didle s ∧ dmeans (da_srv s) w ∧ I (w_dev w).

(** The server's next round brings it to [w]. *)
Definition dbus_closing (s : dagent) (w : world) : Prop :=
  ∃ v, ServerDBus.comm_loop [] (da_srv s) = Done (EXIT_SUCCESS, v) ∧ dmeans v w ∧ I (w_dev w).

Definition dbus_spec : CommSpec := {|
  comm_serve := dserve;
  comm_id := da_name;
  comm_ready := dbus_ready;
  comm_closing := dbus_closing;
  comm_sendable := dbus_sendable;
  comm_rewound _ := True |}.
#[local] Existing Instance dbus_spec.

Lemma dperforms_carries {A} req (result : answer → A) (m : M dagent A) :
  (dbus_sendable req → dperforms I req result m) → carries (CO := dbus_ops) req result m.
Proof.
  intros Hm s w (Hid & Hw & Hi) Hok.
  destruct (Hm Hok s w Hid Hw Hi) as (s' & w' & a & p & Hrun & Hp & Hs & Hw' & Hi' & Hid' & Hn).
  exists s', w', a. split; [done|]. split; [by exists p|]. done.
Qed.

Lemma read_strings_run {S} l (s : S) : read_strings (Some <$> l) s = Done (l, s).
Proof.
  induction l as [|c l IH]; [done|]. cbn [read_strings fmap list_fmap deref].
  by rewrite bind_ret, (bind_run _ _ _ _ _ IH).
Qed.

Lemma srv_cpblts_dperforms : nc_session_get_cpblts_default ≠ [] →
  dperforms I GetCpblts cpblts_of srv_cpblts.
Proof using HI Hans.
  intros Hne s w Hid Hw Hi.
  destruct (comm_get_srv_cpblts_dperforms I HI Hans Hne s w Hid Hw Hi)
    as (s' & w' & a & p & Hrun & Hp & Hs & H).
  exists s', w', a, p. split; [|done]. unfold srv_cpblts. rewrite (bind_run _ _ _ _ _ Hrun).
  injection Hs as <- <-. simpl. by rewrite (bind_run _ _ _ _ _ (read_strings_run _ _)).
Qed.

Lemma dserve_reply p id req w a w' : dserve p id req w = Done (a, w') →
  match req with GenericOp _ | KillSession _ => is_Some (reply_of a) | _ => True end.
Proof.
  unfold dserve. rewrite bind_gets. destruct req as [| | |sid|rpc]; try done; intros Hs.
  - destruct (session_of _ _) as [[q e]|]; [|by injection Hs as <- <-].
    destruct (agent_of _ _) as [[q' me]|]; [|by injection Hs as <- <-].
    case_bool_decide; [by injection Hs as <- <-|]. rewrite bind_modify in Hs. by injection Hs as <- <-.
  - destruct (agent_of _ _) as [[q' me]|]; [|by injection Hs as <- <-].
    by apply bind_Done in Hs as (r & w1 & _ & [= <- <-]).
Qed.

Lemma sendable_one a req : req_args req = [a] → dbus_sendable req → append_ok a = true.
Proof. intros Hr [H _]. rewrite Hr in H. simpl in H. by rewrite andb_true_r in H. Qed.

Lemma dbus_comm : nc_session_get_cpblts_default ≠ [] → Comm (CO := dbus_ops) (CS := dbus_spec).
Proof using HI Hans.
  intros Hne. constructor.
  - apply dperforms_carries. intros _. by apply srv_cpblts_dperforms.
  - intros getpid user sid cs _. apply dperforms_carries. intros (H1 & H2).
    by apply comm_session_info_send_dperforms.
  - intros rpc. apply dperforms_carries. intros H.
    apply comm_operation_dperforms; [done|done|exact (sendable_one _ (GenericOp rpc) eq_refl H)].
  - intros sid. apply dperforms_carries. intros H.
    apply comm_kill_session_dperforms; [done|done|exact (sendable_one _ (KillSession sid) eq_refl H)].
  - intros s w (Hid & Hw & Hi).
    destruct (comm_close_queued I HI Hans s w Hid Hw Hi)
      as (s' & Hrun & v & w' & a & p & Hl & Hp & Hs & Hw' & Hi').
    exists s', w', a. split; [|split; [by exists p|by exists v]].
    simpl. unfold agent_comm_destroy. by rewrite (bind_run _ _ _ _ _ Hrun).
  - intros id w a w' (p & _ & [= <- <-]). by eexists.
  - intros id req w a w' (p & _ & Hs). exact (dserve_reply _ _ _ _ _ _ Hs).
  - intros id sid user cs pid w a w' (p & _ & Hs). simpl in Hs. unfold dserve in Hs.
    rewrite bind_gets, bind_modify in Hs. by injection Hs as <- <-.
Qed.
End dbus.
End DBus.
