(* ===== verification/AgentProcess.v ===== *)
(** * The agent (agent.c)

    One process for each NETCONF session: it fetches the server's capabilities,
    accepts the session of the client, announces it to the server, and forwards
    the client's requests.  The client's session and the inspection of requests
    belong to libnetconf: class [AgentLib].  The transport is the interface of
    Comm.v. *)

From S2P Require Import Prelude.
From S2P Require Import Agents.
From S2P Require Import Rpc.
From S2P Require Import ServerSpec.
From S2P Require Import Comm.

Inductive nc_op := NC_OP_CLOSESESSION | NC_OP_KILLSESSION | NC_OP_CREATESUBSCRIPTION | NC_OP_OTHER.

(** ncxml_rpc_get_op_content(): the name of the element, and its first child's
    name and content. *)
Record opnode := OpNode {
  op_name : option string;
  op_child : option (option string * string) }.

Class AgentLib {NS : NcSession} {NR : NcRpc} := {
  nc_rpc_get_op : nc_rpc → nc_op;
  ncxml_rpc_get_op_content : nc_rpc → option opnode;
  nc_session_accept : nc_cpblts → option nc_session;
  nc_session_get_user : nc_session → option string;
  nc_session_get_cpblts : nc_session → option nc_cpblts;
  nc_cpblts_enabled : nc_session → string → bool;
  (* None: NC_REPLY_OK *)
  ncntf_subscription_check : nc_rpc → option nc_reply
}.

Definition NOTIFCAP_URI : string := "urn:ietf:params:netconf:capability:notification:1.0".

(** What the system answers while a subscription is created. *)
Record sub_env := SubEnv {
  se_allowed : bool;      (* nc_session_notif_allowed() *)
  se_malloc : bool;
  se_thread : bool }.

(** What the process has come to. *)
Inductive finished := Running | Returned (r : exit) | Exited (r : exit).

Section agent.
Context {NS : NcSession} {NR : NcRpc} {AL : AgentLib} {CO : CommOps}.

(** What the agent waits for: a request (None: NULL), nothing, an unreadable
    message with the session working or not, another type of message, a signal
    of the handled ones or another. *)
Inductive event :=
| MsgRpc (rpc : option nc_rpc) (env : sub_env)
| MsgNone
| MsgUnknown (working : bool)
| MsgOther
| StopSignal
| OtherSignal.

(** Is [c] not NULL, the flag [mainloop], the transport, the replies sent to the
    client and the subscriptions that got a thread, oldest first. *)
Record aproc := AProc {
  ap_conn : bool;
  ap_mainloop : bool;
  ap_comm : comm_state;
  ap_sent : list nc_reply;
  ap_subs : list nc_rpc }.

Definition set_conn (v : bool) (s : aproc) : aproc :=
  AProc v (ap_mainloop s) (ap_comm s) (ap_sent s) (ap_subs s).
Definition set_mainloop (v : bool) (s : aproc) : aproc :=
  AProc (ap_conn s) v (ap_comm s) (ap_sent s) (ap_subs s).
Definition set_comm (v : comm_state) (s : aproc) : aproc :=
  AProc (ap_conn s) (ap_mainloop s) v (ap_sent s) (ap_subs s).

(** A call of comm.h, which needs a handle. *)
Definition on_comm {A} (m : M comm_state A) : M aproc A := λ s,
  if ap_conn s then
    match m (ap_comm s) with
    | Done (a, v) => Done (a, set_comm v s)
    | Crash f => Crash f
    | NoFuel => NoFuel
    end
  else Crash NullDeref.

(** ** Signals *)

(** [None]: the process goes on. *)
Definition signal_handler (stop : bool) : M aproc (option finished) :=
  if stop then
    m ← gets ap_mainloop;
    if m : bool then mret (Some (Exited EXIT_FAILURE))
    else _ ← modify (set_mainloop true); mret None
  else mret (Some (Exited EXIT_FAILURE)).

(** ** Start *)
Definition get_server_capabilities : M aproc (option nc_cpblts) :=
  l ← on_comm comm_get_srv_cpblts;
  mret (nc_cpblts_new <$> l).

Definition session_info (getpid : Z) (ncs : nc_session) : M aproc exit :=
  match nc_session_get_user ncs with
  | None => mret EXIT_FAILURE
  | Some username =>
      match nc_session_get_id ncs with
      | None => mret EXIT_FAILURE
      | Some sid =>
          match nc_session_get_cpblts ncs with
          | None => mret EXIT_FAILURE
          | Some cpblts => on_comm (comm_session_info_send getpid username sid cpblts)
          end
      end
  end.

(** ** Requests *)

(** The session to kill, or the error. *)
Definition kill_target (rpc : nc_rpc) : nc_err + string :=
  match ncxml_rpc_get_op_content rpc with
  | None => inl (nc_err_new NC_ERR_OP_FAILED)
  | Some node =>
      if negb (bool_decide (op_name node = Some "kill-session")) then
        inl (nc_err_new NC_ERR_OP_FAILED)
      else
        match op_child node with
        | Some (Some "session-id", sid) => inr sid
        | _ => inl (set_badelem (Some "session-id") (nc_err_new NC_ERR_MISSING_ELEM))
        end
  end.

Definition out_of_memory : nc_err :=
  set_msg "Memory allocation failed." (nc_err_new NC_ERR_OP_FAILED).

(** The reply to create-subscription, and whether a thread was started. *)
Definition create_subscription (session : nc_session) (env : sub_env) (rpc : nc_rpc)
  : nc_reply * bool :=
  if negb (nc_cpblts_enabled session NOTIFCAP_URI) then
    (nc_reply_error (nc_err_new NC_ERR_OP_NOT_SUPPORTED), false)
  else if negb (se_allowed env) then
    (nc_reply_error (set_msg
       "Another notification subscription is currently active on this session."
       (set_type "protocol" (nc_err_new NC_ERR_OP_FAILED))), false)
  else
    match ncntf_subscription_check rpc with
    | Some reply => (reply, false)
    | None =>
        if negb (se_malloc env) then (nc_reply_error out_of_memory, false)
        else if negb (se_thread env) then
          (nc_reply_error (set_msg "Creating thread for sending Notifications failed."
             (nc_err_new NC_ERR_OP_FAILED)), false)
        else (nc_reply_ok, true)
    end.

Definition process_message (session : nc_session) (env : sub_env) (rpc : option nc_rpc)
  : M aproc exit :=
  match rpc with
  | None => mret EXIT_FAILURE
  | Some rpc =>
      reply ← match nc_rpc_get_op rpc with
              | NC_OP_CLOSESESSION =>
                  _ ← on_comm comm_destroy;
                  _ ← modify (set_conn false);
                  _ ← modify (set_mainloop true);
                  mret (Some nc_reply_ok)
              | NC_OP_KILLSESSION =>
                  match kill_target rpc with
                  | inl err => mret (Some (nc_reply_error err))
                  | inr sid => on_comm (comm_kill_session sid)
                  end
              | NC_OP_CREATESUBSCRIPTION =>
                  let '(reply, thread) := create_subscription session env rpc in
                  _ ← modify (λ s, if thread then
                                     AProc (ap_conn s) (ap_mainloop s) (ap_comm s) (ap_sent s)
                                       (ap_subs s ++ [rpc])
                                   else s);
                  mret (Some reply)
              | NC_OP_OTHER => on_comm (comm_operation rpc)
              end;
      let reply := default (nc_reply_error (nc_err_new NC_ERR_OP_FAILED)) reply in
      _ ← modify (λ s, AProc (ap_conn s) (ap_mainloop s) (ap_comm s) (ap_sent s ++ [reply]) (ap_subs s));
      mret EXIT_SUCCESS
  end.

(** while (!mainloop); [Running] when the events are used up, [None] for the
    end of the loop, [Some] for a jump to the cleanup or an exit(). *)
Fixpoint main_loop (session : nc_session) (events : list event) : M aproc (option finished) :=
  stop ← gets ap_mainloop;
  if stop : bool then mret None
  else
    match events with
    | [] => mret (Some Running)
    | MsgRpc rpc env :: events' =>
        _ ← process_message session env rpc; main_loop session events'
    | MsgUnknown false :: _ => mret (Some (Returned EXIT_FAILURE))
    | (MsgNone | MsgUnknown true | MsgOther) :: events' => main_loop session events'
    | StopSignal :: events' => _ ← signal_handler true; main_loop session events'
    | OtherSignal :: _ => signal_handler false
    end.

(** The label cleanup. *)
Definition cleanup (r : exit) : M aproc finished :=
  c ← gets ap_conn;
  _ ← (if c : bool then _ ← on_comm comm_destroy; modify (set_conn false) else mret tt);
  mret (Returned r).

(** main() after its options; [inits]: nc_init(), [connects]: comm_init(). *)
Definition main (inits connects : bool) (getpid : Z) (events : list event) : M aproc finished :=
  if negb inits then cleanup EXIT_FAILURE
  else
    _ ← modify (set_conn connects);
    if negb connects then cleanup EXIT_FAILURE
    else
      capabilities ← get_server_capabilities;
      match capabilities with
      | None => cleanup EXIT_FAILURE
      | Some capabilities =>
          match nc_session_accept capabilities with
          | None => cleanup EXIT_FAILURE
          | Some ncs =>
              r ← session_info getpid ncs;
              match r with
              | EXIT_FAILURE => cleanup EXIT_FAILURE
              | EXIT_SUCCESS =>
                  f ← main_loop ncs events;
                  match f with
                  | None => cleanup EXIT_SUCCESS
                  | Some (Returned r) => cleanup r
                  | Some f => mret f
                  end
              end
          end
      end.
End agent.
