(* ===== verification/AgentProcessFacts.v ===== *)
(** * The agent serves its client

    Proved against the interface of the transports: every request of the client
    gets exactly one reply, in order, the one the server's specification gives. *)

From S2P Require Import Prelude.
From S2P Require Import OvsFacts.
From S2P Require Import Agents.
From S2P Require Import AgentsFacts.
From S2P Require Import Rpc.
From S2P Require Import ServerSpec.
From S2P Require Import Comm.
From S2P Require Import AgentProcess.

Section client.
Context {NS : NcSession} {NR : NcRpc} {AL : AgentLib} {CO : CommOps} {CS : CommSpec} {CM : Comm}.

(** ** The specification *)

(** A request other than close-session, its reply, and what it does at the
    server. *)
Inductive rpc_step (ncs : nc_session) (id : string) (env : sub_env) (rpc : nc_rpc)
  : nc_reply → world → world → Prop :=
| step_operation a r w w' :
    nc_rpc_get_op rpc = NC_OP_OTHER → comm_step id (GenericOp rpc) w a w' →
    reply_of a = Some r → rpc_step ncs id env rpc r w w'
| step_kill_session sid a r w w' :
    nc_rpc_get_op rpc = NC_OP_KILLSESSION → kill_target rpc = inr sid →
    comm_step id (KillSession sid) w a w' → reply_of a = Some r →
    rpc_step ncs id env rpc r w w'
| step_no_target err w :
    nc_rpc_get_op rpc = NC_OP_KILLSESSION → kill_target rpc = inl err →
    rpc_step ncs id env rpc (nc_reply_error err) w w
| step_subscription w :
    nc_rpc_get_op rpc = NC_OP_CREATESUBSCRIPTION →
    rpc_step ncs id env rpc (create_subscription ncs env rpc).1 w w.

(** Events without a request. *)
Definition idle_event (ev : event) : Prop :=
  match ev with
  | MsgRpc None _ | MsgUnknown true | MsgNone | MsgOther => True
  | _ => False
  end.

(** What the client sends before the end, and the replies. *)
Inductive client_steps (ncs : nc_session) (id : string)
  : list event → list nc_reply → world → world → Prop :=
| steps_end w : client_steps ncs id [] [] w w
| steps_idle ev evs rs w w' :
    idle_event ev → client_steps ncs id evs rs w w' → client_steps ncs id (ev :: evs) rs w w'
| steps_rpc rpc env evs r rs w w1 w' :
    rpc_step ncs id env rpc r w w1 → client_steps ncs id evs rs w1 w' →
    client_steps ncs id (MsgRpc (Some rpc) env :: evs) (r :: rs) w w'.

Definition rpc_sendable (rpc : nc_rpc) : Prop :=
  match nc_rpc_get_op rpc with
  | NC_OP_CLOSESESSION => False
  | NC_OP_KILLSESSION =>
      match kill_target rpc with inr sid => comm_sendable (KillSession sid) | _ => True end
  | NC_OP_CREATESUBSCRIPTION => True
  | NC_OP_OTHER => comm_sendable (GenericOp rpc)
  end.

(** Events that do not end the main loop. *)
Definition goes_on (ev : event) : Prop :=
  match ev with
  | MsgRpc (Some rpc) _ => rpc_sendable rpc
  | _ => idle_event ev
  end.

(** Events that end it well, and the last reply. *)
Definition ends (ev : event) (rs : list nc_reply) : Prop :=
  match ev with
  | MsgRpc (Some rpc) _ => nc_rpc_get_op rpc = NC_OP_CLOSESESSION ∧ rs = [nc_reply_ok]
  | StopSignal => rs = []
  | _ => False
  end.

(** ** One request *)

(** The agent's state while it serves. *)
Definition serving (st : comm_state) (s : aproc) : Prop :=
  ap_conn s = true ∧ ap_mainloop s = false ∧ ap_comm s = st.

Lemma on_comm_run {A} (m : M comm_state A) s a st : ap_conn s = true →
  m (ap_comm s) = Done (a, st) → on_comm m s = Done (a, set_comm st s).
Proof. intros Hc H. unfold on_comm. by rewrite Hc, H. Qed.

Lemma process_message_serves ncs env rpc s st w :
  serving st s → comm_ready st w → rpc_sendable rpc →
  ∃ s' st' w' r, process_message ncs env (Some rpc) s = Done (EXIT_SUCCESS, s') ∧
    rpc_step ncs (comm_id st) env rpc r w w' ∧ serving st' s' ∧ comm_ready st' w' ∧
    comm_id st' = comm_id st ∧ ap_sent s' = ap_sent s ++ [r].
Proof using CM.
  intros (Hc & Hm & Hst) Hr Hok. unfold process_message, rpc_sendable in *. subst st.
  assert (∀ req (m : M comm_state (option nc_reply)), carries req reply_of m → comm_sendable req →
    (∀ w a w', comm_step (comm_id (ap_comm s)) req w a w' → is_Some (reply_of a)) →
    ∃ s1 w' a r, on_comm m s = Done (Some r, s1) ∧ comm_step (comm_id (ap_comm s)) req w a w' ∧
      reply_of a = Some r ∧ serving (ap_comm s1) s1 ∧ comm_ready (ap_comm s1) w' ∧
      comm_id (ap_comm s1) = comm_id (ap_comm s) ∧ ap_sent s1 = ap_sent s) as Hcall.
  { intros req m Hcar Hs Hsome.
    destruct (Hcar (ap_comm s) w Hr Hs) as (st' & w' & a & Hrun & Hstep & Hr' & Hid).
    destruct (Hsome _ _ _ Hstep) as [r Ha]. rewrite Ha in Hrun.
    exists (set_comm st' s), w', a, r. split_and!; try done. by apply on_comm_run. }
  destruct (nc_rpc_get_op rpc) eqn:Hop; [done| | |].
  - destruct (kill_target rpc) as [err|sid] eqn:Ht.
    + rewrite bind_ret, bind_modify. eexists _, (ap_comm s), w, _.
      split_and!; [done|by apply step_no_target|done|done|done|done].
    + destruct (Hcall (KillSession sid) (comm_kill_session sid)) as
        (s1 & w' & a & r & Hrun & Hstep & Ha & Hsv & Hr' & Hid & Hsent);
        [apply kill_session_carries|done|intros ???; apply (reply_answer _ (KillSession sid))|].
      rewrite (bind_run _ _ _ _ _ Hrun), bind_modify. eexists _, (ap_comm s1), w', r.
      split_and!; [done|by eapply step_kill_session|by destruct Hsv as (? & ? & _)|done|done|].
      simpl. by rewrite Hsent.
  - pose proof (step_subscription ncs (comm_id (ap_comm s)) env rpc w Hop) as Hstep.
    destruct (create_subscription ncs env rpc) as [r [|]]; (eexists _, (ap_comm s), w, r;
      split_and!; [reflexivity|done|done|done|done|done]).
  - destruct (Hcall (GenericOp rpc) (comm_operation rpc)) as
      (s1 & w' & a & r & Hrun & Hstep & Ha & Hsv & Hr' & Hid & Hsent);
      [apply operation_carries|done|intros ???; apply (reply_answer _ (GenericOp rpc))|].
    rewrite (bind_run _ _ _ _ _ Hrun), bind_modify. eexists _, (ap_comm s1), w', r.
    split_and!; [done|by eapply step_operation|by destruct Hsv as (? & ? & _)|done|done|].
    simpl. by rewrite Hsent.
Qed.

(** ** The main loop *)
Lemma main_loop_idle ncs ev evs s : idle_event ev → ap_mainloop s = false →
  main_loop ncs (ev :: evs) s = main_loop ncs evs s.
Proof.
  intros Hev Hm. cbn [main_loop]. rewrite bind_gets, Hm.
  destruct ev as [[rpc|] env| |[|]| | |]; try done.
Qed.

Lemma main_loop_serves ncs : ∀ evs rest s st w,
  serving st s → comm_ready st w → Forall goes_on evs →
  ∃ s' st' w' rs, main_loop ncs (evs ++ rest) s = main_loop ncs rest s' ∧
    client_steps ncs (comm_id st) evs rs w w' ∧ serving st' s' ∧ comm_ready st' w' ∧
    comm_id st' = comm_id st ∧ ap_sent s' = ap_sent s ++ rs.
Proof using CM.
  induction evs as [|ev evs IH]; intros rest s st w Hsv Hr Hev; simpl app.
  { exists s, st, w, []. rewrite app_nil_r. split_and!; try done. constructor. }
  apply Forall_cons in Hev as [Hev Hevs].
  assert (idle_event ev ∨ ∃ rpc env, ev = MsgRpc (Some rpc) env ∧ rpc_sendable rpc)
    as [Hi | (rpc & env & -> & Hok)].
  { destruct ev as [[rpc|] env| | | | |]; try by left. right. eauto. }
  - rewrite main_loop_idle by (done || apply Hsv).
    destruct (IH rest s st w Hsv Hr Hevs) as (s' & st' & w' & rs & H1 & H2 & H).
    exists s', st', w', rs. split; [done|]. split; [by constructor|done].
  - destruct (process_message_serves ncs env rpc s st w Hsv Hr Hok)
      as (s1 & st1 & w1 & r & Hrun & Hstep & Hsv1 & Hr1 & Hid1 & Hsent1).
    destruct (IH rest s1 st1 w1 Hsv1 Hr1 Hevs) as (s' & st' & w' & rs & H1 & H2 & H3 & H4 & H5 & H6).
    exists s', st', w', (r :: rs). split_and!; try done.
    + rewrite <-H1. cbn [main_loop]. rewrite bind_gets. destruct Hsv as (_ & -> & _).
      by rewrite (bind_run _ _ _ _ _ Hrun).
    + rewrite Hid1 in H2. by econstructor.
    + congruence.
    + by rewrite H6, Hsent1, <-app_assoc.
Qed.

(** The end: the agent closes its session at the server. *)
Lemma main_loop_ends ncs ev rest rs s st w :
  serving st s → comm_ready st w → ends ev rs →
  ∃ s' st' w' a, (f ← main_loop ncs (ev :: rest);
      match f with
      | None => cleanup EXIT_SUCCESS
      | Some (Returned r) => cleanup r
      | Some f => mret f
      end) s = Done (Returned EXIT_SUCCESS, s') ∧
    comm_step (comm_id st) CloseSession w a w' ∧ comm_closing st' w' ∧ ap_comm s' = st' ∧
    ap_conn s' = false ∧ ap_sent s' = ap_sent s ++ rs.
Proof using CM.
  intros (Hc & Hm & Hst) Hr Hev. subst st.
  destruct (destroy_closes (ap_comm s) w Hr) as (st' & w' & a & Hd & Hstep & Hcl).
  assert (on_comm comm_destroy s = Done (tt, set_comm st' s)) as Hrun by by apply on_comm_run.
  destruct ev as [[rpc|] env| | | | |]; try done; simpl in Hev.
  - destruct Hev as [Hop ->].
    set (s1 := AProc false true st' (ap_sent s ++ [nc_reply_ok]) (ap_subs s)).
    assert (process_message ncs env (Some rpc) s = Done (EXIT_SUCCESS, s1)) as Hp.
    { unfold process_message. rewrite Hop. unfold mbind, M_bind. by rewrite Hrun. }
    assert (main_loop ncs (MsgRpc (Some rpc) env :: rest) s = Done (None, s1)) as Hl.
    { cbn [main_loop]. rewrite bind_gets, Hm, (bind_run _ _ _ _ _ Hp). by destruct rest. }
    rewrite (bind_run _ _ _ _ _ Hl). by eexists s1, st', w', a.
  - subst rs. set (s1 := set_mainloop true s).
    assert (main_loop ncs (StopSignal :: rest) s = Done (None, s1)) as Hl.
    { cbn [main_loop]. rewrite bind_gets, Hm.
      assert (signal_handler true s = Done (None, s1)) as Hs
        by (unfold signal_handler; by rewrite bind_gets, Hm).
      rewrite (bind_run _ _ _ _ _ Hs). by destruct rest. }
    rewrite (bind_run _ _ _ _ _ Hl). unfold cleanup. rewrite bind_gets.
    change (ap_conn s1) with (ap_conn s). rewrite Hc.
    assert (on_comm comm_destroy s1 = Done (tt, set_comm st' s1)) as Hrun1 by by apply on_comm_run.
    eexists (set_conn false (set_comm st' s1)), st', w', a.
    split_and!; [|done|done|done|done|by rewrite app_nil_r].
    unfold mbind, M_bind. by rewrite Hrun1.
Qed.

(** ** The whole session *)
Lemma main_serves st w ncs user sid cs getpid evs ev rest rs :
  comm_ready st w → comm_sendable GetCpblts →
  (∀ l, nc_session_accept (nc_cpblts_new l) = Some ncs) →
  nc_session_get_user ncs = Some user → nc_session_get_id ncs = Some sid →
  nc_session_get_cpblts ncs = Some cs → comm_rewound cs →
  comm_sendable (SetSession sid user (nc_cpblts_iter cs) (getpid mod 2 ^ 16)) →
  Forall goes_on evs → ends ev rs →
  ∃ s' rs' w0 w1 w2 w3 a0 a1 a3, main true true getpid (evs ++ ev :: rest) (AProc false false st [] []) =
      Done (Returned EXIT_SUCCESS, s') ∧
    comm_step (comm_id st) GetCpblts w a0 w0 ∧
    comm_step (comm_id st) (SetSession sid user (nc_cpblts_iter cs) (getpid mod 2 ^ 16)) w0 a1 w1 ∧
    client_steps ncs (comm_id st) evs rs' w1 w2 ∧
    comm_step (comm_id st) CloseSession w2 a3 w3 ∧ comm_closing (ap_comm s') w3 ∧
    ap_conn s' = false ∧ ap_sent s' = rs' ++ rs.
Proof using CM.
  intros Hr Hg Hacc Hu Hsid Hcs Hrew Hset Hevs Hev. unfold main. cbn [negb]. rewrite bind_modify.
  destruct (get_srv_cpblts_carries st w Hr Hg) as (st0 & w0 & a0 & H0 & Hs0 & Hr0 & Hid0).
  destruct (cpblts_answer _ _ _ _ Hs0) as [l Hl]. rewrite Hl in H0.
  set (t0 := AProc true false st0 [] []).
  assert (get_server_capabilities (set_conn true (AProc false false st [] [])) =
    Done (Some (nc_cpblts_new l), t0)) as Hget.
  { unfold get_server_capabilities, mbind, M_bind, on_comm. simpl. by rewrite H0. }
  rewrite (bind_run _ _ _ _ _ Hget), Hacc.
  destruct (session_info_send_carries getpid user sid cs Hrew st0 w0 Hr0 Hset)
    as (st1 & w1 & a1 & H1 & Hs1 & Hr1 & Hid1).
  rewrite (set_answer _ _ _ _ _ _ _ _ Hs1) in H1.
  set (t1 := AProc true false st1 [] []).
  assert (session_info getpid ncs t0 = Done (EXIT_SUCCESS, t1)) as Hinfo.
  { unfold session_info. rewrite Hu, Hsid, Hcs. unfold on_comm. simpl. by rewrite H1. }
  rewrite (bind_run _ _ _ _ _ Hinfo).
  destruct (main_loop_serves ncs evs (ev :: rest) t1 st1 w1) as
    (t2 & st2 & w2 & rs' & Hloop & Hsteps & Hsv2 & Hr2 & Hid2 & Hsent2); [done|done|done|].
  destruct (main_loop_ends ncs ev rest rs t2 st2 w2 Hsv2 Hr2 Hev) as
    (t3 & st3 & w3 & a3 & Hend & Hs3 & Hcl & Hc3 & Hn3 & Hsent3).
  exists t3, rs', w0, w1, w2, w3, a0, a1, a3. split_and!; try done.
  - rewrite <-Hend. unfold mbind, M_bind. by rewrite Hloop.
  - by rewrite <-Hid0.
  - by rewrite <-Hid0, <-Hid1.
  - by rewrite <-Hid0, <-Hid1, <-Hid2.
  - by rewrite Hc3.
  - by rewrite Hsent3, Hsent2.
Qed.
End client.
