(* ===== verification/ServerMain.v ===== *)
(** * The server process (server.c)

    Options, start, the main loop over comm_loop() of the socket transport, and
    what is left behind.  The results of daemon(), of libnetconf's calls and of
    the system calls are arguments. *)

From S2P Require Import Prelude.
From S2P Require Import OvsFacts.
From S2P Require Import Agents.
From S2P Require Import AgentsFacts.
From S2P Require Import Rpc.
From S2P Require Import Sockets.
From S2P Require Import ServerSocket.
From S2P Require Import ServerLoop.
From S2P Require Import TableFacts.
From S2P Require Import LoopFacts.

(** ** Options *)
Inductive opt := OptDb (path : string) | OptForeground | OptHelp | OptVerbose (level : Z) | OptUnknown.

Record options := Options {
  ovsdb_path : option string;
  ofc_daemonize : bool;
  o_verbose : Z }.

(** while ((next_option = getopt_long(...)) != -1); None: the usage is printed
    and the process exits. *)
Fixpoint parse_options (l : list opt) (o : options) : option options :=
  match l with
  | [] => Some o
  | OptDb path :: l' => parse_options l' (Options (Some path) (ofc_daemonize o) (o_verbose o))
  | OptForeground :: l' => parse_options l' (Options (ovsdb_path o) false (o_verbose o))
  | OptVerbose level :: l' => parse_options l' (Options (ovsdb_path o) (ofc_daemonize o) level)
  | (OptHelp | OptUnknown) :: _ => None
  end.

(** Normalisation to the range of the enumeration. *)
Definition nc_verbosity (NC_VERB_ERROR NC_VERB_DEBUG verbose : Z) : Z :=
  if (verbose <? NC_VERB_ERROR)%Z then NC_VERB_ERROR
  else if (NC_VERB_DEBUG <? verbose)%Z then NC_VERB_DEBUG else verbose.

(** ** Start *)
Record start_env := StartEnv {
  st_daemon : bool;
  st_nc_init : Z;
  st_comm : init_env;
  st_server_new : bool;
  st_server_init : bool;
  st_ofc_new : bool;
  st_ofc_init : bool;
  st_consolidate : bool;
  st_server_device : bool;
  st_ofc_device : bool }.

(** What wakes the server: a round of comm_loop(), or a signal. *)
Inductive wakeup := Round (env : poll_env) | StopSignal | OtherSignal.

Inductive finished := Running | Returned (r : exit) | Exited (r : Z).

Section main.
Context {NS : NcSession} {NR : NcRpc} {SL : SocketLib}.

(** The flag [mainloop] and the rest. *)
Record sproc := SProc { sp_mainloop : bool; sp_srv : server }.

Definition on_server {A} (m : M server A) : M sproc A := λ s,
  match m (sp_srv s) with
  | Done (a, v) => Done (a, SProc (sp_mainloop s) v)
  | Crash f => Crash f
  | NoFuel => NoFuel
  end.

(** None: the process goes on. *)
Definition signal_handler (stop : bool) : M sproc (option finished) :=
  if stop then
    m ← gets sp_mainloop;
    if m : bool then mret (Some (Exited 1))
    else _ ← modify (λ s, SProc true (sp_srv s)); mret None
  else mret (Some (Exited 1)).

(** while (!mainloop) comm_loop(c, 500); *)
Fixpoint main_loop (events : list wakeup) : M sproc finished :=
  stop ← gets sp_mainloop;
  if stop : bool then mret (Returned EXIT_SUCCESS)
  else
    match events with
    | [] => mret Running
    | Round env :: events' => _ ← on_server (comm_loop env); main_loop events'
    | StopSignal :: events' =>
        f ← signal_handler true;
        match f with Some f => mret f | None => main_loop events' end
    | OtherSignal :: _ =>
        f ← signal_handler false; mret (default Running f)
    end.

(** The datastores: ncds_new_transapi_static() to ncds_device_init(). *)
Definition init_datastores (env : start_env) : exit :=
  if negb (st_server_new env) then EXIT_FAILURE
  else if negb (st_server_init env) then EXIT_FAILURE
  else if negb (st_ofc_new env) then EXIT_FAILURE
  else if negb (st_ofc_init env) then EXIT_FAILURE
  else if negb (st_consolidate env) then EXIT_FAILURE
  else if negb (st_server_device env) then EXIT_FAILURE
  else if negb (st_ofc_device env) then EXIT_FAILURE
  else EXIT_SUCCESS.

(** main(); nc_init() tells by a positive result that the last instance
    crashed. *)
Definition main (opts : list opt) (verbose : Z) (env : start_env) (events : list wakeup)
  : M sproc finished :=
  match parse_options opts (Options None true verbose) with
  | None => mret (Exited 0)
  | Some o =>
      if ofc_daemonize o && negb (st_daemon env) then mret (Returned EXIT_FAILURE)
      else if (st_nc_init env <? 0)%Z then mret (Returned EXIT_FAILURE)
      else
        c ← on_server (comm_init (negb (st_nc_init env =? 0)%Z) (st_comm env));
        if negb (c : bool) then mret (Returned EXIT_FAILURE)
        else
          match init_datastores env with
          | EXIT_FAILURE => mret (Returned EXIT_FAILURE)
          | EXIT_SUCCESS => main_loop events
          end
  end.

(** A new process: what the kernel and the file system keep is whether the
    socket's file exists. *)
Definition boot (path : bool) (d : dev) : sproc :=
  SProc false (Server no_agents [] 0 (-1) path (Net ∅ []) d).

(** ** What the main loop does *)
Implicit Types (s : server).

Lemma comm_init_up crashed env s : sv_sock s = (-1)%Z → sv_connected s = 0%Z → (0 ≤ ie_socket env)%Z →
  (∃ s', comm_init crashed env s = Done (false, s') ∧ sv_sock s' = (-1)%Z) ∨
  (∃ s', comm_init crashed env s = Done (true, s') ∧ up s' ∧ sv_path s' = true ∧
     sv_agents s' = sv_agents s ∧ sv_net s' = sv_net s ∧ sv_dev s' = sv_dev s).
Proof.
  intros Hs Hc Hk. unfold comm_init. rewrite bind_gets, Hs, Z.eqb_refl. cbn [negb]. rewrite bind_gets.
  destruct (sv_path s && _); [left; by exists s|].
  rewrite !bind_modify. destruct (ie_socket env =? -1)%Z eqn:E; [apply Z.eqb_eq in E; lia|].
  destruct (negb _); [left; by eexists|]. right. rewrite !bind_modify.
  eexists. split; [done|]. split_and!; try done.
  assert (used (replicate AGENTS_QUEUE (PollFd (-1) 0)) = []) as Hu by done.
  constructor; cbn [set_poll set_path set_sock sv_poll sv_connected sv_sock sv_net tail head];
    rewrite ?Hu, ?Hc; try done. by constructor.
Qed.

(** The state the main loop keeps: the table is intact and the socket's file
    exists, or the server has closed its socket. *)
Definition open_or_closed s : Prop :=
  (up s ∧ sv_path s = true) ∨ (sv_sock s = (-1)%Z ∧ sv_path s = false).

Lemma comm_loop_closed env s : sv_sock s = (-1)%Z → comm_loop env s = Done (EXIT_FAILURE, s).
Proof. intros H. unfold comm_loop. by rewrite bind_gets, H. Qed.

Lemma comm_loop_keeps env s r s' : open_or_closed s → env_fresh env s →
  comm_loop env s = Done (r, s') → open_or_closed s'.
Proof.
  intros [[Hup Hp]|[Hk Hp]] Hfr H.
  - destruct (comm_loop_up env s r s' Hup Hfr H) as [[Hup' Heq]|[_ Heq]]; injection Heq as Hk' Hp'.
    + left. by rewrite Hp'.
    + by right.
  - rewrite comm_loop_closed in H by done. injection H as <- <-. by right.
Qed.

(** The kernel never hands out a number that is in use. *)
Fixpoint fresh_rounds (events : list wakeup) s : Prop :=
  match events with
  | Round env :: events' =>
      env_fresh env s ∧ ∀ r s', comm_loop env s = Done (r, s') → fresh_rounds events' s'
  | _ :: events' => fresh_rounds events' s
  | [] => True
  end.

Lemma main_loop_keeps : ∀ events m s f p',
  open_or_closed s → fresh_rounds events s →
  main_loop events (SProc m s) = Done (f, p') → open_or_closed (sp_srv p').
Proof.
  induction events as [|ev events IH]; intros m s f p' Ho Hfr H; cbn [main_loop] in H;
    rewrite bind_gets in H; destruct m; cbn [sp_mainloop] in H; try (by injection H as <- <-).
  destruct ev as [env| |]; cbn [fresh_rounds] in Hfr.
  - apply bind_Done in H as (r & p1 & Hl & H). unfold on_server in Hl. cbn [sp_srv sp_mainloop] in Hl.
    destruct (comm_loop env s) as [[r0 s1]| |] eqn:E; [|done..]. injection Hl as <- <-.
    destruct Hfr as [Hf Hfr]. eapply IH; [by eapply comm_loop_keeps|by eapply Hfr|exact H].
  - cbn in H. apply IH in H; done.
  - cbn in H. by injection H as <- <-.
Qed.

(** Once closed, the server stays so. *)
Lemma main_loop_deaf : ∀ events s,
  sv_sock s = (-1)%Z → Forall (λ ev, ∃ env, ev = Round env) events →
  main_loop events (SProc false s) = Done (Running, SProc false s).
Proof.
  induction events as [|ev events IH]; intros s Hs Hev; [done|].
  apply Forall_cons in Hev as [[env ->] Hev]. cbn [main_loop]. rewrite bind_gets. cbn [sp_mainloop].
  unfold mbind, M_bind, on_server. cbn [sp_srv sp_mainloop]. rewrite comm_loop_closed by done.
  by apply IH.
Qed.
End main.
