(* ===== verification/CommSamples.v ===== *)
(** * Samples of the communication layer

    Concrete sessions, requests, a device, a kernel and a bus, and states of the
    server to evaluate the definitions on. *)

From S2P Require Import Prelude.
From S2P Require Import OvsFacts.
From S2P Require Import Agents.
From S2P Require Import AgentsFacts.
From S2P Require Import Rpc.
From S2P Require Import Sockets.
From S2P Require Import ServerSpec.
From S2P Require Import ServerSocket.
From S2P Require Import SocketFacts.
From S2P Require Import HandlerFacts.
From S2P Require Import TableFacts.
From S2P Require Import LoopFacts.
From S2P Require Import ServeFacts.
From S2P Require ServerDBus.
From S2P Require DBusFacts.

(** ** Sessions *)
#[export] Instance sample_session : NcSession := {|
  nc_cpblts := list string;
  nc_session := string * string * list string;
  nc_cpblts_new l := l;
  nc_cpblts_iter l := l;
  nc_cpblts_next l := l;
  nc_session_dummy sid user c := (sid, user, c);
  nc_session_get_id s := Some s.1.1;
  cpblts_iter_new l := eq_refl;
  dummy_id sid user c := eq_refl |}.

(** ** A device with one flag *)
Inductive sample_rpc := RpcRead | RpcToggle | RpcKill | RpcClose.
Inductive sample_reply := ReplyOk | ReplyFlag (b : bool) | ReplyErr.

Definition sample_dump (r : sample_rpc) : string :=
  match r with RpcRead => "read" | RpcToggle => "toggle" | RpcKill => "kill" | RpcClose => "close" end.
Definition sample_build (d : string) (_ : nc_session) : option sample_rpc :=
  if bool_decide (d = "read") then Some RpcRead
  else if bool_decide (d = "toggle") then Some RpcToggle
  else if bool_decide (d = "kill") then Some RpcKill
  else if bool_decide (d = "close") then Some RpcClose else None.
Definition sample_reply_dump (r : sample_reply) : string :=
  match r with ReplyOk => "ok" | ReplyFlag true => "on" | ReplyFlag false => "off" | ReplyErr => "error" end.
Definition sample_reply_build (d : string) : option sample_reply :=
  if bool_decide (d = "ok") then Some ReplyOk
  else if bool_decide (d = "on") then Some (ReplyFlag true)
  else if bool_decide (d = "off") then Some (ReplyFlag false)
  else if bool_decide (d = "error") then Some ReplyErr else None.
Definition sample_apply (_ : nc_session) (r : option sample_rpc) : M bool (apply_result sample_reply) :=
  λ b, match r with
       | Some RpcRead => Done (Reply (ReplyFlag b), b)
       | Some RpcToggle => Done (Reply ReplyOk, negb b)
       | Some _ => Done (NCDS_RPC_NOT_APPLICABLE, b)
       | None => Done (ReplyNull, b)
       end.

#[export] Program Instance sample_device : NcRpc := {|
  nc_rpc := sample_rpc;
  nc_reply := sample_reply;
  dev := bool;
  nc_rpc_dump := sample_dump;
  nc_rpc_build := sample_build;
  nc_reply_dump r := Some (sample_reply_dump r);
  nc_reply_build := sample_reply_build;
  nc_reply_error _ := ReplyErr;
  nc_reply_ok := ReplyOk;
  ncds_apply_rpc2all := sample_apply;
  nc_session_get_cpblts_default := ["base:1.0"; "startup:1.0"] |}.
Next Obligation. by intros []. Qed.
Next Obligation. by intros [|[|]|] d [= <-]. Qed.
Next Obligation. intros []; vm_compute; repeat constructor; done. Qed.
Next Obligation. intros [|[|]|] d [= <-]; vm_compute; repeat constructor; done. Qed.
Next Obligation. intros e. by eexists. Qed.
Next Obligation. vm_compute; repeat constructor; done. Qed.

(** ** A kernel that cuts messages of more than 16 bytes in two *)
Definition sample_split (bs : list byte) : list (list byte) :=
  match bs with
  | [] => []
  | _ => if bool_decide (length bs ≤ 16) then [bs] else [take 16 bs; drop 16 bs]
  end.

#[export] Program Instance sample_kernel : SocketLib := {|
  send_split := sample_split;
  atomic := 16;
  malloc_ok n := bool_decide (0 ≤ n < 1048576)%Z |}.
Next Obligation.
  intros [|b bs]; [done|]. unfold sample_split. case_bool_decide; [by cbn [concat]; rewrite app_nil_r|].
  cbn [concat]. by rewrite app_nil_r, take_drop.
Qed.
Next Obligation.
  intros [|b bs]; [constructor|]. unfold sample_split. case_bool_decide as H; [by repeat constructor|].
  repeat constructor; [done|]. intros E%(f_equal length). rewrite length_drop in E. simpl in E, H. lia.
Qed.
Next Obligation. simpl. lia. Qed.
Next Obligation.
  intros [|b bs] H Hne; [done|]. unfold sample_split. by rewrite bool_decide_eq_true_2.
Qed.

Definition any_device : bool → Prop := λ _, True.

Lemma sample_processed ses rpc d : ∃ r d', processed ses rpc d = Done (r, d').
Proof. destruct rpc as [[]|]; by eexists _, _. Qed.
Lemma sample_answers : device_answers any_device.
Proof.
  intros ses rpc d _. destruct (sample_processed ses rpc d) as (r & d' & H).
  exists r, d'. split; [done|]. split; [done|]. by eexists.
Qed.
Lemma sample_total : DBusFacts.device_total any_device.
Proof.
  intros ses rpc d _. destruct (sample_processed ses rpc d) as (r & d' & H). by exists r, d'.
Qed.

(** ** Strings on the sample kernel *)
Definition fitsb (m : string) : bool :=
  forallb (λ c, negb (bool_decide (c = NUL))) (String.list_ascii_of_string m) &&
  (Z.of_nat (length (enc_str m)) <? 1048576)%Z.

Lemma fitsb_ok m : fitsb m = true → fits m.
Proof.
  unfold fitsb. rewrite andb_true_iff. intros [H1 H2%Z.ltb_lt].
  split; [|split].
  - apply Forall_forall. intros c Hc. rewrite forallb_forall in H1.
    specialize (H1 c (proj1 (list_elem_of_In _ _) Hc)). apply negb_true_iff in H1.
    by apply bool_decide_eq_false in H1.
  - lia.
  - apply bool_decide_eq_true. lia.
Qed.
Lemma shortb_ok m : fitsb m && Nat.leb (length (enc_str m)) 16 = true → short m.
Proof. rewrite andb_true_iff. intros [H1%fitsb_ok H2%Nat.leb_le]. done. Qed.
