(* ===== verification/CommClaims.v ===== *)
(** * Properties of the communication between agents and server

    The list of agents, a round of the server over sockets and over the D-Bus,
    remote calls over both transports, the agent's session from start to end,
    and the faults of the protocol. *)

From S2P Require Import Prelude.
From S2P Require Import OvsFacts.
From S2P Require Import Agents.
From S2P Require Import AgentsFacts.
From S2P Require Import Rpc.
From S2P Require Import Sockets.
From S2P Require Import ServerSpec.
From S2P Require Import ServerSocket.
From S2P Require Import ServerLoop.
From S2P Require Import SocketFacts.
From S2P Require Import HandlerFacts.
From S2P Require Import TableFacts.
From S2P Require Import LoopFacts.
From S2P Require Import ServeFacts.
From S2P Require Import AgentSocket.
From S2P Require Import AgentSocketFacts.
From S2P Require Import ServerMain.
From S2P Require ServerDBus.
From S2P Require DBusFacts.
From S2P Require AgentDBus.
From S2P Require AgentDBusFacts.
From S2P Require Import Comm.
From S2P Require Import CommInstances.
From S2P Require AgentProcess.
From S2P Require AgentProcessFacts.
From S2P Require Import CommSamples.

Section claims.
Context {NS : NcSession} {NR : NcRpc} {SL : SocketLib}.

(** C22: the linked list of server_ops.c is a registry: from a list that represents one,
    any sequence of its calls with handles of registered agents returns without
    touching freed or unallocated memory; the results, the new list and the
    processes that were sent SIGTERM are what the registry says. *)
Theorem agents_registry ops s l :
  represents s l → callables ops l →
  ∃ rs s' l' ks, srv_calls ops s = Done (rs, s') ∧ reg_steps ops l rs l' ks ∧
    represents s' l' ∧ al_killed s' = ks ++ al_killed s.
Proof. apply srv_calls_refine. Qed.

(** C5: one call of comm_loop() serves every agent whose request has arrived, in the
    order of the table.  When every agent with data has sent a complete request,
    with session id and user name in one piece and the other strings however the
    kernel cuts them, no recv() is interrupted or fails, and the datastores
    answer every request: each request is consumed and answered as [serve] says,
    other connections and the slots of agents that stay are left alone; then new
    agents are accepted, which touches only their connections and free slots, or
    the listening socket has failed and the server closes, with the sessions and
    datastores as they are. *)
Theorem server_round_serves I reqs env rs s w :
  device_answers I → up s → means s w → I (w_dev w) → calm (n_sched (sv_net s)) →
  env_fresh env s → pe_poll env = Some rs → all_pending reqs slots (polled rs s) →
  ∃ r s1 s' w' tr, comm_loop env s = Done (r, s') ∧
    round_done I reqs (polled rs s) s1 w w' (ready_fds slots (sv_poll (polled rs s))) tr ∧
    round_ends env s1 s' r.
Proof. intros HI. by apply comm_loop_run. Qed.

(** C10: whatever bytes agents send, whatever poll() reports and whatever numbers
    accept() hands out among those that are not open at that moment, the table of
    connections stays well-formed through the whole main loop of the server:
    while the server has its socket, the table has its length, its sockets are
    distinct and each is open, the counter of agents is right, and listening is
    suspended exactly when the table is full; otherwise the server has closed
    its socket and removed the socket's file. *)
Theorem server_table_invariant events s f p :
  open_or_closed s → fresh_rounds events s →
  main_loop events (SProc false s) = Done (f, p) → open_or_closed (sp_srv p).
Proof. apply main_loop_keeps. Qed.

(** C8: over sockets, agent and server together implement the interface of comm.h: every
    function of agent_comm_socket.c, with the round of comm_loop() that answers
    it, is one step of the server's specification, and returns what the answer
    says. *)
Theorem socket_transport I :
  device_answers I → Socket.roomy I → Comm (CO := Socket.socket_ops) (CS := Socket.socket_spec I).
Proof. apply Socket.socket_comm. Qed.

(** A server whose socket has failed keeps running but is deaf: main() does not look
    at the result of comm_loop(), so that round after round nothing is served,
    no new agent is accepted and the loop does not end. *)
Theorem closed_server_spins events s :
  sv_sock s = (-1)%Z → Forall (λ ev, ∃ env, ev = Round env) events →
  main_loop events (SProc false s) = Done (Running, SProc false s).
Proof. apply main_loop_deaf. Qed.

(** A server that is stopped by a signal cannot be started again: main() never calls
    comm_destroy(), so that the socket's file stays, and comm_init() takes it for
    another instance, unless libnetconf reports a crash. *)
Theorem clean_stop_blocks_restart opts v env events d p opts2 o2 v2 env2 events2 d2 :
  (0 ≤ ie_socket (st_comm env))%Z →
  (∀ s, comm_init (negb (st_nc_init env =? 0)%Z) (st_comm env) (sp_srv (boot false d)) =
    Done (true, s) → fresh_rounds events s) →
  main opts v env events (boot false d) = Done (Returned EXIT_SUCCESS, p) →
  sv_sock (sp_srv p) ≠ (-1)%Z →
  parse_options opts2 (Options None true v2) = Some o2 → st_daemon env2 = true →
  st_nc_init env2 = 0%Z →
  ∃ p2, main opts2 v2 env2 events2 (boot (sv_path (sp_srv p)) d2) = Done (Returned EXIT_FAILURE, p2).
Proof.
  intros Hk Hfr Hmain Hs Hopt2 Hd2 Hi2.
  assert (sv_path (sp_srv p) = true) as ->.
  { unfold main in Hmain. destruct (parse_options _ _) as [o|]; [|done].
    destruct (_ && _); [done|]. destruct (_ <? 0)%Z; [done|].
    apply bind_Done in Hmain as (c & p1 & Hc & Hmain). unfold on_server in Hc.
    destruct (comm_init_up (negb (st_nc_init env =? 0)%Z) (st_comm env) (sp_srv (boot false d))
      eq_refl eq_refl Hk) as [(s' & Hc' & _) | (s' & Hc' & Hup & Hp & _)];
      rewrite Hc' in Hc; injection Hc as <- <-; [done|]. cbn [negb] in Hmain.
    destruct (init_datastores env); [|done].
    assert (open_or_closed s') as Ho by (by left).
    destruct (main_loop_keeps _ _ _ _ _ Ho (Hfr _ Hc') Hmain) as [[_ H]|[H _]]; [done|by destruct Hs]. }
  unfold main. rewrite Hopt2, Hd2, andb_false_r, Hi2. cbn [Z.ltb Z.compare]. eexists. reflexivity.
Qed.

(** A set-session message with a negative number of capabilities makes the server
    write before the array it allocates, whatever the rest of the message: any
    process that may connect can stop the server. *)
Theorem negative_count_crashes fd sid user pid n rest s c :
  short sid → short user → (- 2 ^ 31 ≤ n < 0)%Z →
  c_in c = wire (str_parts sid ++ [enc_short pid] ++ str_parts user ++ [enc_int n]) ++ rest →
  solid rest → n_conns (sv_net s) !! fd = Some c → calm (n_sched (sv_net s)) →
  set_session fd s = Crash OutOfBounds.
Proof.
  intros Hsid Huser Hn Hin Hrest Hc Hcalm. rewrite <-(at_conn_id fd c s Hc).
  set (sch := n_sched (sv_net s)) in *. set (q3 := enc_int n :: rest).
  set (q2 := wire (str_parts user) ++ q3). set (q1 := enc_short pid :: q2).
  assert (c_in c = wire (str_parts sid) ++ q1) as Hin1
    by (by rewrite Hin, !wire_app, wire_pid, wire_int, <-!app_assoc).
  assert (solid q3) as Hq3 by by apply solid_int.
  assert (solid q2) as Hq2 by (apply Forall_app; split; [apply wire_solid|done]).
  assert (solid q1) as Hq1 by by constructor.
  unfold set_session.
  edestruct (recv_field_run (A := unit) fd (uninit 4) sid q1 c sch s) as (mem1 & Hl1 & ->);
    [done|done|done|done|done|].
  rewrite (bind_run _ _ _ _ _ (srv_recv_var_run fd (uninit 2) (enc_short pid) q2 (take_in q1 c)
    _ s eq_refl eq_refl (calm_tail _ (calm_tail _ Hcalm)) Hq1)).
  set (sch1 := tail (tail (tail sch))).
  assert (calm sch1) as Hc1 by by repeat apply calm_tail.
  edestruct (recv_field_run (A := unit) fd mem1 user q3 (take_in q2 (take_in q1 c)) sch1 s)
    as (mem2 & Hl2 & ->); [done|done|done|done|done|].
  set (sch2 := tail (tail sch1)). assert (calm sch2) as Hc2 by by repeat apply calm_tail.
  rewrite (bind_run _ _ _ _ _ (srv_recv_var_run fd (uninit 4) (enc_int n) rest
    (take_in q3 (take_in q2 (take_in q1 c))) sch2 s eq_refl eq_refl Hc2 Hq3)).
  rewrite (bind_run _ _ _ _ _ (load_int_run n _ ltac:(lia))).
  by rewrite (proj2 (Z.ltb_lt n 0)) by lia.
Qed.
End claims.

(** ** D-Bus *)
Section dbus.
Import ServerDBus AgentDBus DBusFacts AgentDBusFacts.
Context {NS : NcSession} {NR : NcRpc} {CA : NcCpbltsAdd} {DB : DBusLib}.

(** C11: on the D-Bus no message stops the server by itself: for datastores that
    return from every request handed to them ([device_total]), whatever messages
    arrive, malformed ones and ones from strangers included, comm_loop() handles
    them all and returns EXIT_SUCCESS, touching no freed memory, with the list
    of agents intact.  (The datastores of this program do not return from every
    request: an illegal operation attribute or a nested delete in an edit-config
    crashes them, see the findings, and this theorem says nothing of these.) *)
Theorem dbus_server_survives I arrived s :
  device_total I → healthy I s →
  ∃ s', ServerDBus.comm_loop arrived s = Done (EXIT_SUCCESS, s') ∧ healthy I s' ∧ ds_queue s' = [].
Proof. intros HI. by apply comm_loop_survives. Qed.

(** C23: over the D-Bus, agent and server together implement the interface of comm.h too. *)
Theorem dbus_transport I :
  device_total I → answers_ok I → nc_session_get_cpblts_default ≠ [] →
  Comm (CO := DBus.dbus_ops) (CS := DBus.dbus_spec I).
Proof. apply DBus.dbus_comm. Qed.

(** The two differences: a request from an unknown agent, and killing one's own
    session. *)
Definition same_service (id : string) (req : request) (w : world) : Prop :=
  match req with
  | GenericOp _ => is_Some (agent_of id (w_reg w))
  | KillSession sid =>
      ∀ q me, agent_of id (w_reg w) = Some (q, me) → e_ncsid me ≠ id ∧ e_ncsid me ≠ sid
  | _ => True
  end.

(** Both transports serve requests alike, for registered agents that do not ask to
    kill their own session. *)
Theorem transports_agree p id req w :
  (∀ cs, added cs = nc_cpblts_new cs) → same_service id req w →
  dserve p id req w = serve p id req w.
Proof.
  intros Hadd Hsame. unfold dserve. rewrite bind_gets. destruct req as [|sid user cs pid| |sid|rpc].
  - done.
  - unfold serve. by rewrite bind_gets, Hadd.
  - done.
  - unfold serve. rewrite bind_gets. destruct (session_of sid (w_reg w)) as [[q e]|]; [|done].
    simpl in Hsame. destruct (agent_of id (w_reg w)) as [[q' me]|]; [|done].
    destruct (Hsame q' me eq_refl) as [H1 H2]. rewrite !bool_decide_eq_false_2 by congruence. done.
  - unfold serve. rewrite bind_gets. destruct Hsame as [[q me] ->]. done.
Qed.

(** On the D-Bus an agent can kill its own session: the check compares the
    NETCONF session id with the name on the bus. *)
Theorem dbus_kills_own_session p id sid q e w :
  agent_of id (w_reg w) = Some (q, e) → session_of sid (w_reg w) = Some (q, e) → id ≠ sid →
  dserve p id (KillSession sid) w =
    Done (SessionKilled, World (reg_remove q (w_reg w)) (w_dev w) (e_pid e :: w_killed w)) ∧
  serve p id (KillSession sid) w = Done (Refused "Killing own session requested", w).
Proof.
  intros Ha Hs Hne. pose proof Hs as [_ Hid]%session_of_in.
  unfold dserve, serve. rewrite !bind_gets, Hs, Ha.
  rewrite bool_decide_eq_false_2 by congruence. by rewrite bool_decide_eq_true_2.
Qed.
End dbus.

(** ** The agent *)
Section agent.
Import AgentProcess AgentProcessFacts.
Context {NS : NcSession} {NR : NcRpc} {AL : AgentLib} {CO : CommOps} {CS : CommSpec} {CM : Comm}.

(** C9: on any transport that implements the interface, the agent runs its client's
    session from start to end: it announces the session to the server, then gives
    every request exactly one reply, in order, the one the server's specification
    gives, and when the client closes the session or a signal asks to stop, it
    closes the session at the server and ends with EXIT_SUCCESS. *)
Theorem agent_session_served st w ncs user sid cs getpid evs ev rest rs :
  comm_ready st w → comm_sendable GetCpblts →
  (∀ l, nc_session_accept (nc_cpblts_new l) = Some ncs) →
  nc_session_get_user ncs = Some user → nc_session_get_id ncs = Some sid →
  nc_session_get_cpblts ncs = Some cs → comm_rewound cs →
  comm_sendable (SetSession sid user (nc_cpblts_iter cs) (getpid mod 2 ^ 16)) →
  Forall goes_on evs → ends ev rs →
  ∃ s' rs' w0 w1 w2 w3 a0 a1 a3,
    AgentProcess.main true true getpid (evs ++ ev :: rest) (AProc false false st [] []) =
      Done (AgentProcess.Returned EXIT_SUCCESS, s') ∧
    comm_step (comm_id st) GetCpblts w a0 w0 ∧
    comm_step (comm_id st) (SetSession sid user (nc_cpblts_iter cs) (getpid mod 2 ^ 16)) w0 a1 w1 ∧
    client_steps ncs (comm_id st) evs rs' w1 w2 ∧
    comm_step (comm_id st) CloseSession w2 a3 w3 ∧ comm_closing (ap_comm s') w3 ∧
    ap_conn s' = false ∧ ap_sent s' = rs' ++ rs.
Proof using CM. intros. by eapply main_serves. Qed.
End agent.

(** ** Samples *)

(** An agent of process 4000 is registered on connection 5. *)
Definition after {S A} (m : M S A) (s : S) : S := match m s with Done (_, s') => s' | _ => s end.
Definition one_agent (id : string) : alist :=
  after (srv_agent_new "1" "joe" (nc_cpblts_new ["base:1.0"]) id 4000) no_agents.
Definition one_entry (id : string) : registry := [(0, new_entry "1" "joe" (nc_cpblts_new ["base:1.0"]) id 4000)].

Lemma one_agent_rep id : represents (one_agent id) (one_entry id) ∧ al_killed (one_agent id) = [].
Proof.
  destruct (agent_new_run no_agents [] no_agents_rep "1" "joe" (nc_cpblts_new ["base:1.0"]) id 4000) as (s & H & Hr & Hk).
  unfold one_agent, after. by rewrite H.
Qed.

Definition flag_off : @dev sample_session sample_device := false.
Definition sample_world (id : string) : world := World (one_entry id) flag_off [].

(** The server with connections 5 and 6, what has arrived on each. *)
Definition two_conns (q5 q6 : list (list byte)) : server :=
  Server (one_agent "5") (PollFd 3 0 :: PollFd 5 0 :: PollFd 6 0 :: replicate 8 (PollFd (-1) 0)) 2 3 true
    (Net {[ 5%Z := Conn q5 [] false false; 6%Z := Conn q6 [] false false ]} [Take 0; Take 1]) false.

Lemma two_conns_up q5 q6 : up (two_conns q5 q6).
Proof.
  constructor; try done.
  - cbn. apply NoDup_cons. split; [set_solver|apply NoDup_singleton].
  - cbn. repeat constructor; try done; apply (bool_decide_unpack _); vm_compute; exact I.
Qed.

Lemma sample_roomy : Socket.roomy any_device.
Proof.
  assert (∀ m, fitsb m = true → answer_fits (Refused m)) as Hm by (intros m; apply fitsb_ok).
  intros fd req w a _ (p & w' & Hs). unfold serve in Hs. rewrite bind_gets in Hs.
  destruct req as [|sid user cs pid| |sid|rpc].
  - injection Hs as <- <-. split; [|done].
    repeat (apply Forall_cons; split; [by apply fitsb_ok|]). constructor.
  - rewrite bind_modify in Hs. by injection Hs as <- <-.
  - destruct (agent_of _ _) as [[]|]; [rewrite bind_modify in Hs|]; by injection Hs as <- <-.
  - destruct (session_of _ _) as [[]|]; [|injection Hs as <- <-; by apply Hm].
    destruct (agent_of _ _) as [[]|]; [|injection Hs as <- <-; by apply Hm].
    case_bool_decide; [injection Hs as <- <-; by apply Hm|]. rewrite bind_modify in Hs.
    by injection Hs as <- <-.
  - assert (∀ r d, nc_reply_dump r = Some d → fits d) as Hd
      by (intros [|[|]|] d [= <-]; by apply fitsb_ok).
    destruct (agent_of _ _) as [[]|]; [|injection Hs as <- <-; intros d; apply Hd].
    apply bind_Done in Hs as (r & w1 & _ & [= <- <-]). intros d. apply Hd.
Qed.

Lemma agents_registry_witness :
  ∃ rs s' l' ks, srv_calls [SrvNew "1" "joe" (nc_cpblts_new []) "5" 4000; SrvByNcsid "1"; SrvByAgentid "6"] no_agents =
      Done (rs, s') ∧
    reg_steps [SrvNew "1" "joe" (nc_cpblts_new []) "5" 4000; SrvByNcsid "1"; SrvByAgentid "6"] [] rs l' ks ∧
    represents s' l' ∧ al_killed s' = ks ++ al_killed no_agents.
Proof.
  apply agents_registry; [apply no_agents_rep|].
  split; [done|]. intros r l' ks _. split; [done|]. intros r1 l1 ks1 _. by split.
Defined.

(** Agent 5 asks to toggle the flag, agent 6 announces its session. *)
Definition two_requests (fd : Z) : request :=
  if (fd =? 5)%Z then GenericOp (RpcToggle : nc_rpc) else SetSession "2" "ann" ["base:1.0"] 5000.
Definition two_asking : server :=
  two_conns (wire (req_parts (two_requests 5))) (wire (req_parts (two_requests 6))).
Definition two_ready : poll_env := PollEnv (Some [0; 1; 1]%Z) [] true.

Lemma two_asking_pending : all_pending two_requests slots (polled [0; 1; 1]%Z two_asking).
Proof.
  intros i p Hi Hp Hr. apply elem_of_seq in Hi as [_ Hi]. unfold AGENTS_QUEUE in Hi.
  repeat (destruct i as [|i]; [simpl in Hp; injection Hp as <-; simpl in Hr; try done|]); [..|lia].
  - split; [by apply fitsb_ok|]. eexists _, []. split_and!; [reflexivity|by rewrite app_nil_r|constructor].
  - split.
    + split; [by apply shortb_ok|]. split; [by apply shortb_ok|]. split; [|done].
      split; [|done]. repeat (apply Forall_cons; split; [by apply fitsb_ok|]). constructor.
    + eexists _, []. split_and!; [reflexivity|by rewrite app_nil_r|constructor].
Qed.

Lemma server_round_serves_witness :
  ∃ r s1 s' w' tr, comm_loop two_ready two_asking = Done (r, s') ∧
    round_done any_device two_requests (polled [0; 1; 1]%Z two_asking) s1
      (sample_world "5") w'
      (ready_fds slots (sv_poll (polled [0; 1; 1]%Z two_asking))) tr ∧
    round_ends two_ready s1 s' r.
Proof.
  apply server_round_serves; try done.
  - apply sample_answers.
  - apply two_conns_up.
  - constructor; [apply one_agent_rep|apply one_agent_rep|done].
  - repeat constructor; by eexists.
  - intros rs s1 _ _. split; constructor.
  - apply two_asking_pending.
Defined.

(** Agent 5 closes its session, and the next agent gets its number in the same
    round. *)
Definition one_leaving : server := two_conns (wire (req_parts CloseSession)) [].
Definition number_reused : poll_env :=
  PollEnv (Some [1; 1; 0]%Z) [(5%Z, Conn [] [] false false)] true.

Lemma server_table_invariant_witness :
  ∃ f p, main_loop [Round number_reused; StopSignal] (SProc false one_leaving) = Done (f, p) ∧
    open_or_closed (sp_srv p).
Proof.
  eexists _, _. split; [vm_compute; reflexivity|].
  eapply (server_table_invariant [Round number_reused; StopSignal] one_leaving).
  - left. split; [apply two_conns_up|done].
  - split; [|done]. intros rs s1 [= <-] H. vm_compute in H. injection H as <-.
    split; [apply NoDup_singleton|]. apply (bool_decide_unpack _). vm_compute. exact I.
  - vm_compute. reflexivity.
Defined.

Lemma socket_transport_witness :
  Comm (CO := Socket.socket_ops) (CS := Socket.socket_spec any_device).
Proof. apply socket_transport; [apply sample_answers|apply sample_roomy]. Defined.

Lemma closed_server_spins_witness :
  main_loop [Round two_ready; Round two_ready] (SProc false (set_sock (-1) two_asking)) =
    Done (Running, SProc false (set_sock (-1) two_asking)).
Proof.
  apply closed_server_spins; [done|]. repeat constructor; by eexists.
Defined.

(** A start that succeeds. *)
Definition good_start (crash : Z) : start_env :=
  StartEnv true crash (InitEnv true 3 true true) true true true true true true true.

Lemma clean_stop_blocks_restart_witness :
  ∃ p p2, main [] 0 (good_start 0) [StopSignal] (boot false flag_off) = Done (Returned EXIT_SUCCESS, p) ∧
    main [OptForeground] 0 (good_start 0) [] (boot (sv_path (sp_srv p)) flag_off) =
      Done (Returned EXIT_FAILURE, p2).
Proof.
  assert (∃ p, main [] 0 (good_start 0) [StopSignal] (boot false flag_off) =
    Done (Returned EXIT_SUCCESS, p) ∧ sv_sock (sp_srv p) ≠ (-1)%Z) as (p & Hp & Hs)
    by (eexists; split; [vm_compute; reflexivity|done]).
  destruct (clean_stop_blocks_restart [] 0 (good_start 0) [StopSignal] flag_off p [OptForeground]
    (Options None false 0) 0 (good_start 0) [] flag_off) as [p2 H]; try done.
  by exists p, p2.
Defined.

Definition negative_count : list (list byte) :=
  wire (str_parts "2" ++ [enc_short 77] ++ str_parts "ann" ++ [enc_int (-1)]) ++ [].

Lemma negative_count_crashes_witness :
  set_session 6 (two_conns [] negative_count) = Crash OutOfBounds.
Proof.
  apply (negative_count_crashes 6 "2" "ann" 77 (-1) [] (two_conns [] negative_count)
    (Conn negative_count [] false false));
    [by apply shortb_ok|by apply shortb_ok|lia|reflexivity|constructor|reflexivity|].
  repeat constructor; by eexists.
Defined.

(** *** A bus *)
Module SampleBus.
Import ServerDBus AgentDBus DBusFacts AgentDBusFacts.

#[export] Instance sample_add : @NcCpbltsAdd sample_session :=
  Build_NcCpbltsAdd sample_session (λ c s, c ++ [s]).

Definition sample_call (m : dmsg) (i n : string) : bool :=
  match dm_type m with
  | METHOD_CALL => bool_decide (dm_interface m = Some i) && bool_decide (dm_member m = n)
  | SIGNAL => false
  end.

#[export] Program Instance sample_bus : DBusLib := {|
  append_ok _ := true;
  send_ok _ := true;
  dbus_get_local_machine_id := "4d3c";
  dbus_message_is_method_call := sample_call;
  no_reply_error := "no reply" |}.
Next Obligation. intros m i n. unfold sample_call. by destruct (dm_type m). Qed.
Next Obligation.
  intros m i n j Ht Hj. unfold sample_call. rewrite Ht, Hj, <-bool_decide_and. apply bool_decide_ext. naive_solver.
Qed.

Lemma sample_answers_ok : answers_ok any_device.
Proof.
  intros p id req w a w' _ Hs. split.
  - intros [l|n m] Hb; split; try done. clear Hb. by induction l.
  - unfold dserve, serve in Hs. rewrite !bind_gets in Hs. destruct req as [|sid user cs pid| |sid|rpc].
    + by injection Hs as <- <-.
    + rewrite bind_modify in Hs. by injection Hs as <- <-.
    + rewrite bind_gets in Hs.
      destruct (agent_of _ _) as [[]|]; [rewrite bind_modify in Hs|]; by injection Hs as <- <-.
    + destruct (session_of _ _) as [[]|]; [|by injection Hs as <- <-].
      destruct (agent_of _ _) as [[]|]; [|by injection Hs as <- <-].
      case_bool_decide; [by injection Hs as <- <-|]. rewrite bind_modify in Hs. by injection Hs as <- <-.
    + destruct (agent_of _ _) as [[]|]; [|by injection Hs as <- <-].
      apply bind_Done in Hs as (r & w1 & _ & [= <- <-]). by eexists.
Qed.

Definition bus_server : dserver := DServer (NR := sample_device) (one_agent ":1.5") [] [] false.

(** A call without arguments, one with arguments of wrong types, and a signal. *)
Definition odd_messages : list dmsg :=
  [DMsg METHOD_CALL 1 ":1.5" (Some OFC_DBUS_IF) OFC_DBUS_PROCESSOP [];
   DMsg METHOD_CALL 2 ":1.7" (Some OFC_DBUS_IF) OFC_DBUS_SETSESSION [DString "2"; DString "x"];
   DMsg SIGNAL 3 ":1.7" None "NameAcquired" []].

Lemma dbus_server_survives_witness :
  ∃ s', ServerDBus.comm_loop odd_messages bus_server = Done (EXIT_SUCCESS, s') ∧
    healthy any_device s' ∧ ds_queue s' = [].
Proof.
  apply dbus_server_survives; [apply sample_total|].
  split; [|done]. exists (one_entry ":1.5"). apply one_agent_rep.
Defined.

Lemma dbus_transport_witness : Comm (CO := DBus.dbus_ops) (CS := DBus.dbus_spec any_device).
Proof. apply dbus_transport; [apply sample_total|apply sample_answers_ok|done]. Defined.

Definition bus_world : world := sample_world ":1.5".

Lemma transports_agree_witness :
  dserve 1 ":1.5" (GenericOp (RpcRead : nc_rpc)) bus_world = serve 1 ":1.5" (GenericOp (RpcRead : nc_rpc)) bus_world.
Proof.
  apply transports_agree; [|by eexists].
  intros cs. unfold added. simpl. assert (∀ l l', foldl nc_cpblts_add l l' = l ++ l') as ->; [|done].
  intros l l'. revert l. induction l' as [|c l' IH]; intros l; simpl; [by rewrite app_nil_r|].
  by rewrite IH, <-app_assoc.
Defined.

Lemma dbus_kills_own_session_witness :
  dserve 1 ":1.5" (KillSession "1") bus_world =
    Done (SessionKilled, World (reg_remove 0 (w_reg bus_world)) (w_dev bus_world) [4000%Z]) ∧
  serve 1 ":1.5" (KillSession "1") bus_world = Done (Refused "Killing own session requested", bus_world).
Proof. by apply (dbus_kills_own_session 1 ":1.5" "1" 0 (new_entry "1" "joe" (nc_cpblts_new ["base:1.0"]) ":1.5" 4000)). Defined.
End SampleBus.

(** *** A client *)
Module SampleClient.
Import AgentProcess AgentProcessFacts.

Definition sample_client : nc_session := nc_session_dummy "2" "ann" (nc_cpblts_new ["base:1.0"]).

Definition sample_op (r : sample_rpc) : nc_op :=
  match r with RpcClose => NC_OP_CLOSESESSION | RpcKill => NC_OP_KILLSESSION | _ => NC_OP_OTHER end.
Definition sample_content (r : sample_rpc) : option opnode :=
  match r with
  | RpcKill => Some (OpNode (Some "kill-session") (Some (Some "session-id", "1")))
  | _ => None
  end.

#[export] Instance sample_agent : @AgentLib sample_session sample_device :=
  Build_AgentLib sample_session sample_device sample_op sample_content (λ _, Some sample_client)
    (λ s, Some s.1.2) (λ s, Some s.2) (λ _ _, false) (λ _, None).

Definition no_env : sub_env := SubEnv true true true.
Definition sample_events : list event :=
  [MsgRpc (Some (RpcToggle : nc_rpc)) no_env; MsgNone; MsgRpc (Some (RpcKill : nc_rpc)) no_env].

Lemma agent_session_served_witness :
  let st := AState 6 (two_conns [] []) in
  ∃ s' rs' w0 w1 w2 w3 a0 a1 a3,
    AgentProcess.main (CO := Socket.socket_ops) true true 5000
      (sample_events ++ MsgRpc (Some (RpcClose : nc_rpc)) no_env :: []) (AProc false false st [] []) =
      Done (AgentProcess.Returned EXIT_SUCCESS, s') ∧
    comm_step (CS := Socket.socket_spec any_device) "6" GetCpblts
      (sample_world "5") a0 w0 ∧
    comm_step (CS := Socket.socket_spec any_device) "6" (SetSession "2" "ann" ["base:1.0"] 5000) w0 a1 w1 ∧
    client_steps (CS := Socket.socket_spec any_device) sample_client "6" sample_events rs' w1 w2 ∧
    comm_step (CS := Socket.socket_spec any_device) "6" CloseSession w2 a3 w3 ∧
    Socket.socket_closing any_device (ap_comm s') w3 ∧
    ap_conn s' = false ∧ ap_sent s' = rs' ++ [nc_reply_ok].
Proof.
  intros st.
  pose proof (Socket.socket_comm any_device sample_answers sample_roomy) as CM.
  apply (agent_session_served (CM := CM) st (sample_world "5") sample_client "ann" "2"
    (nc_cpblts_new ["base:1.0"])); try done.
  - split; [|split; [|done]].
    + constructor; [apply two_conns_up| |done|repeat constructor; by eexists].
      split; [done|]. exists 2, (PollFd 6 0). split_and!; [|done|done]. apply elem_of_seq. unfold AGENTS_QUEUE. lia.
    + constructor; [apply one_agent_rep|apply one_agent_rep|done].
  - split; [by apply shortb_ok|]. split; [by apply shortb_ok|]. split; [|done].
    repeat (apply Forall_cons; split; [by apply fitsb_ok|]). constructor.
  - repeat (apply Forall_cons; split; [try done; by apply fitsb_ok|]). constructor.
Defined.
End SampleClient.
