(* ===== verification/ServerTransapi.v ===== *)
(** * The ietf-netconf-server module (netconf-server-transapi.c)

    libnetconf calls these functions when the configuration of the NETCONF
    server changes: the ports and interfaces to listen on are collected as
    lines for sshd_config, and the SSH daemon is started, reconfigured or
    stopped.  What the system answers is given with each call; the signals sent
    and the processes started are a log. *)

From stdpp Require Import pretty.
From S2P Require Import Prelude.
From S2P Require Import Xml.
From S2P Require Import EditTree.

(** XMLDIFF_OP of libnetconf. *)
Inductive XMLDIFF_OP := XMLDIFF_ADD | XMLDIFF_REM | XMLDIFF_MOD | XMLDIFF_CHAIN.
#[global] Instance XMLDIFF_OP_eq_dec : EqDecision XMLDIFF_OP.
Proof. solve_decision. Defined.

Definition SSHDPID_ENV : string := "SSHD_PID".
Definition SIGHUP : Z := 1.
Definition SIGTERM : Z := 15.

(** What the process asked the kernel for. *)
Inductive sysact := Started (pid : Z) | Signalled (pid sig : Z).

Record tstate := TState {
  sshd_pid : Z;                       (* u_int16_t *)
  sshd_listen : option string;
  t_environ : gmap string string;
  t_running : option string;          (* the file sshd_config.running *)
  t_log : list sysact;                (* the last action first *)
  t_error : option nc_err }.

Definition set_pid (v : Z) (s : tstate) : tstate :=
  TState v (sshd_listen s) (t_environ s) (t_running s) (t_log s) (t_error s).
Definition set_listen (v : option string) (s : tstate) : tstate :=
  TState (sshd_pid s) v (t_environ s) (t_running s) (t_log s) (t_error s).
Definition set_environ (f : gmap string string → gmap string string) (s : tstate) : tstate :=
  TState (sshd_pid s) (sshd_listen s) (f (t_environ s)) (t_running s) (t_log s) (t_error s).
Definition set_running (v : string) (s : tstate) : tstate :=
  TState (sshd_pid s) (sshd_listen s) (t_environ s) (Some v) (t_log s) (t_error s).
Definition log_act (a : sysact) (s : tstate) : tstate :=
  TState (sshd_pid s) (sshd_listen s) (t_environ s) (t_running s) (a :: t_log s) (t_error s).
Definition set_terr (e : nc_err) (s : tstate) : tstate :=
  TState (sshd_pid s) (sshd_listen s) (t_environ s) (t_running s) (t_log s) (Some e).

(** %s of a char *; glibc prints NULL as (null). *)
Definition put_s (s : option string) : string := default "(null)" s.
Definition eol : string := String (Ascii.ascii_of_nat 10) "".

(** What the system answers to callback_srv_netconf_srv_ssh_srv_listen(). *)
Record listen_env := ListenEnv {
  le_template : option string;   (* the file sshd_config; None: open() fails *)
  le_open : bool;                (* open() of sshd_config.running *)
  le_fstat : bool;
  le_sendfile : option nat;      (* the bytes copied; None: -1 *)
  le_dprintf : string → nat;     (* the bytes written of a text *)
  le_fork : Z }.                 (* in the parent *)

Section transapi.
Context {LX : LibXml}.

Definition kill_sshd : M tstate unit :=
  pid ← gets sshd_pid;
  if (pid =? 0)%Z then mret tt
  else
    _ ← modify (log_act (Signalled pid SIGTERM));
    _ ← modify (set_pid 0);
    modify (set_environ (delete SSHDPID_ENV)).

Definition server_get_state_data : M tstate (option xmlNode) := mret None.

Definition server_namespace_mapping : list (string * string) :=
  [("srv", "urn:ietf:params:xml:ns:yang:ietf-netconf-server")].

Definition module_error (msg : string) : nc_err := set_msg msg (nc_err_new NC_ERR_OP_FAILED).
Definition fail_with (e : nc_err) : M tstate exit :=
  _ ← modify (set_terr e); mret EXIT_FAILURE.

(** The settings for all interfaces. *)
Definition port_settings (port : option string) : string :=
  "Port " +:+ put_s port +:+ eol +:+ "ListenAddress 0.0.0.0" +:+ eol +:+ "ListenAddress ::".

(** [asprintf_ok]: whether asprintf() succeeds. *)
Definition callback_srv_netconf_srv_ssh_srv_listen_oneport (asprintf_ok : bool) (op : XMLDIFF_OP)
    (new : option xmlNode) : M tstate exit :=
  if bool_decide (op = XMLDIFF_REM) then mret EXIT_SUCCESS
  else
    let port := new ≫= xmlNodeGetContent in
    if negb asprintf_ok then
      _ ← modify (set_listen None);
      fail_with (module_error "ietf-netconf-server module internal error")
    else
      _ ← modify (set_listen (Some (port_settings port)));
      mret EXIT_SUCCESS.

(** The loop over the children, which ends when both values are known. *)
Fixpoint find_addr (addr port : option string) (l : list xmlNode) : option string * option string :=
  match l with
  | [] => (addr, port)
  | n :: l' =>
      match addr, port with
      | Some _, Some _ => (addr, port)
      | _, _ =>
          if negb (is_element n) then find_addr addr port l'
          else if bool_decide (addr = None) && name_is n "address" then
            find_addr (xmlNodeGetContent n) port l'
          else if bool_decide (port = None) && name_is n "port" then
            find_addr addr (xmlNodeGetContent n) l'
          else find_addr addr port l'
      end
  end.

Definition listen_line (addr port : option string) : string :=
  "ListenAddress " +:+ put_s addr +:+ ":" +:+ put_s port +:+ eol.

Definition callback_srv_netconf_srv_ssh_srv_listen_manyports (asprintf_ok : bool) (op : XMLDIFF_OP)
    (new : option xmlNode) : M tstate exit :=
  if bool_decide (op = XMLDIFF_REM) then mret EXIT_SUCCESS
  else
    new ← deref NullDeref new;
    let '(addr, port) := find_addr None None (children new) in
    if negb asprintf_ok then
      _ ← fail_with (module_error "ietf-netconf-server module internal error");
      _ ← modify (set_listen None);
      mret EXIT_FAILURE
    else
      _ ← modify (λ s, set_listen (Some (default "" (sshd_listen s) +:+ listen_line addr port)) s);
      mret EXIT_SUCCESS.

(** err_return: *)
Definition start_failed : M tstate exit :=
  fail_with (module_error
    "ietf-netconf-server module internal error - unable to start SSH server.").

Definition listen_header : string := eol +:+ "# NETCONF listening settings" +:+ eol.

(** The new sshd_config: the template, as much of it as sendfile() copies, and
    the settings. *)
Definition append_running (text : string) : M tstate unit :=
  modify (λ s, set_running (default "" (t_running s) +:+ text) s).

Definition callback_srv_netconf_srv_ssh_srv_listen (env : listen_env) (op : XMLDIFF_OP) : M tstate exit :=
  if bool_decide (op = XMLDIFF_REM) then _ ← kill_sshd; mret EXIT_SUCCESS
  else
    match le_template env with
    | None => start_failed
    | Some template =>
        if negb (le_open env) then start_failed
        else
          _ ← modify (set_running "");      (* O_TRUNC | O_CREAT *)
          if negb (le_fstat env) then start_failed
          else
            match le_sendfile env with
            | None => start_failed
            | Some n =>
                _ ← append_running (String.substring 0 n template);
                settings ← gets sshd_listen;
                let text := listen_header +:+ put_s settings in
                _ ← append_running (String.substring 0 (le_dprintf env text) text);
                _ ← modify (set_listen None);
                pid ← gets sshd_pid;
                if negb (pid =? 0)%Z then
                  _ ← modify (log_act (Signalled pid SIGHUP));
                  mret EXIT_SUCCESS
                else if (le_fork env <? 0)%Z then start_failed
                else
                  _ ← modify (log_act (Started (le_fork env)));
                  _ ← modify (set_pid (le_fork env mod 2 ^ 16)%Z);
                  _ ← modify (λ s, set_environ <[SSHDPID_ENV := pretty (sshd_pid s)]> s);
                  mret EXIT_SUCCESS
            end
    end.

Definition quot : string := String (Ascii.ascii_of_nat 34) "".
Definition default_config : string :=
  "<netconf xmlns=" +:+ quot +:+ "urn:ietf:params:xml:ns:yang:ietf-netconf-server" +:+ quot +:+ ">"
  +:+ "<ssh><listen><port>830</port></listen></ssh></netconf>".

(** doc->children->children->children->children *)
Definition child_of (n : xmlNode) : M tstate xmlNode := deref NullDeref (first_child n).

(** [ssh], [inbound_ssh]: the enabled features; [xmlReadDoc]: the parser. *)
Definition server_transapi_init (ssh inbound_ssh : bool) (xmlReadDoc : string → option xmlNode)
    (asprintf_ok : bool) (env : listen_env) : M tstate exit :=
  if ssh && inbound_ssh then
    match xmlReadDoc default_config with
    | None => mret EXIT_FAILURE
    | Some doc =>
        root ← child_of doc; ssh_node ← child_of root; listen ← child_of ssh_node;
        r ← callback_srv_netconf_srv_ssh_srv_listen_oneport asprintf_ok XMLDIFF_ADD (first_child listen);
        match r with
        | EXIT_FAILURE => mret EXIT_FAILURE
        | EXIT_SUCCESS => callback_srv_netconf_srv_ssh_srv_listen env XMLDIFF_ADD
        end
    end
  else mret EXIT_SUCCESS.

Definition server_transapi_close : M tstate unit := kill_sshd.

(** server_clbks: the function for each path. *)
Inductive server_callback := OnePort | ManyPorts | Listen.
Definition server_clbks : list (string * server_callback) := [
  ("/srv:netconf/srv:ssh/srv:listen/srv:port", OnePort);
  ("/srv:netconf/srv:ssh/srv:listen/srv:interface", ManyPorts);
  ("/srv:netconf/srv:ssh/srv:listen", Listen)].

(** One call from libnetconf. *)
Record change := Change { ch_clbk : server_callback; ch_op : XMLDIFF_OP; ch_new : option xmlNode;
  ch_asprintf : bool; ch_env : listen_env }.
Definition call_back (c : change) : M tstate exit :=
  match ch_clbk c with
  | OnePort => callback_srv_netconf_srv_ssh_srv_listen_oneport (ch_asprintf c) (ch_op c) (ch_new c)
  | ManyPorts => callback_srv_netconf_srv_ssh_srv_listen_manyports (ch_asprintf c) (ch_op c) (ch_new c)
  | Listen => callback_srv_netconf_srv_ssh_srv_listen (ch_env c) (ch_op c)
  end.
End transapi.
