(* ===== verification/TransapiClaims.v ===== *)
(** * Properties of the ietf-netconf-server module

    What is written for sshd, what a failing call leaves behind, and that the
    module never runs two daemons, as long as process ids fit in 16 bits. *)

From stdpp Require Import pretty.
From S2P Require Import Prelude.
From S2P Require Import Xml.
From S2P Require Import EditTree.
From S2P Require Import XmlText.
From S2P Require Import ServerTransapi.
From S2P Require Import Samples.

Section transapi.
Context {LX : LibXml}.

(** ** The settings of interfaces *)

(** An element with a name and a text. *)
Definition text_elem (nm v : string) (n : xmlNode) : Prop :=
  is_element n = true ∧ name n = Some nm ∧ text_content n = v.
(** <interface><address>a</address><port>p</port></interface> *)
Record interface := Interface { i_node : xmlNode; i_addr : string; i_port : string }.
Definition is_interface (i : interface) : Prop :=
  ∃ x y, children (i_node i) = [x; y] ∧ text_elem "address" (i_addr i) x ∧ text_elem "port" (i_port i) y.

Notation changes := (list (XMLDIFF_OP * interface)).
(** The calls for the interfaces that changed. *)
Fixpoint call_interfaces (l : changes) : M tstate exit :=
  match l with
  | [] => mret EXIT_SUCCESS
  | (op, i) :: l' =>
      r ← callback_srv_netconf_srv_ssh_srv_listen_manyports true op (Some (i_node i));
      match r with EXIT_SUCCESS => call_interfaces l' | EXIT_FAILURE => mret EXIT_FAILURE end
  end.
Definition added (l : changes) : list interface := snd <$> filter (λ c, c.1 ≠ XMLDIFF_REM) l.
Definition lines (l : list interface) : string :=
  foldr (λ i r, listen_line (Some (i_addr i)) (Some (i_port i)) +:+ r) "" l.
(** What they leave in sshd_listen. *)
Definition collected (old : option string) (l : list interface) : option string :=
  match l with [] => old | _ => Some (default "" old +:+ lines l) end.

Lemma find_addr_interface i : is_interface i →
  find_addr None None (children (i_node i)) = (Some (i_addr i), Some (i_port i)).
Proof.
  intros (x & y & -> & (Hx & Nx & Tx) & (Hy & Ny & Ty)). cbn [find_addr].
  unfold name_is. rewrite Hx, Nx, Hy, Ny. cbn. by rewrite !xmlNodeGetContent_spec, Tx, Ty by done.
Qed.
Lemma set_listen_twice a b s : set_listen a (set_listen b s) = set_listen a s.
Proof. done. Qed.
Lemma collected_cons old i l : collected (collected old [i]) l = collected old (i :: l).
Proof.
  cbn. rewrite !str_app_nil. destruct l as [|j l]; cbn; [by rewrite str_app_nil|]. by rewrite str_app_assoc.
Qed.
Lemma call_interfaces_run l s : Forall (λ c, is_interface c.2) l →
  call_interfaces l s = Done (EXIT_SUCCESS, set_listen (collected (sshd_listen s) (added l)) s).
Proof.
  intros H. revert s. induction H as [|[op i] l Hi _ IH]; intros s.
  { unfold added. cbn. by destruct s. }
  cbn [call_interfaces]. unfold callback_srv_netconf_srv_ssh_srv_listen_manyports, added. rewrite filter_cons.
  destruct (decide (op = XMLDIFF_REM)) as [->|Hop].
  - rewrite bool_decide_eq_true_2 by done. rewrite bind_ret, decide_False by tauto. apply IH.
  - rewrite bool_decide_eq_false_2, decide_True by done. cbn [deref].
    unfold mbind at 1, M_bind at 1. rewrite bind_ret. cbn [snd] in Hi. rewrite (find_addr_interface i Hi).
    cbn [negb]. rewrite bind_modify. cbn [mret M_ret]. rewrite IH, set_listen_twice. do 3 f_equal.
    cbn [sshd_listen set_listen]. fold (added l). rewrite fmap_cons, <-collected_cons. cbn [snd].
    unfold collected at 3. cbn [lines foldr]. by rewrite str_app_nil.
Qed.

(** The system does what it is asked. *)
Record files_ok (env : listen_env) (template : string) : Prop := {
  fo_template : le_template env = Some template;
  fo_open : le_open env = true;
  fo_fstat : le_fstat env = true;
  fo_sendfile : le_sendfile env = Some (String.length template);
  fo_dprintf text : le_dprintf env text = String.length text }.

Lemma substring_whole s : String.substring 0 (String.length s) s = s.
Proof. induction s as [|c s IH]; [done|]. cbn. by rewrite IH. Qed.

(** The state after a successful call. *)
Definition listening (env : listen_env) (template : string) (s : tstate) : tstate :=
  let s1 := set_listen None (set_running (template +:+ listen_header +:+ put_s (sshd_listen s)) s) in
  if (sshd_pid s =? 0)%Z then
    let pid := (le_fork env mod 2 ^ 16)%Z in
    set_environ <[SSHDPID_ENV := pretty pid]> (set_pid pid (log_act (Started (le_fork env)) s1))
  else log_act (Signalled (sshd_pid s) SIGHUP) s1.

Lemma listen_run env template op s : files_ok env template → op ≠ XMLDIFF_REM →
  sshd_pid s ≠ 0%Z ∨ (0 <= le_fork env)%Z →
  callback_srv_netconf_srv_ssh_srv_listen env op s = Done (EXIT_SUCCESS, listening env template s).
Proof.
  intros F Hop Hf. unfold callback_srv_netconf_srv_ssh_srv_listen, append_running, listening.
  rewrite bool_decide_eq_false_2 by done.
  rewrite (fo_template _ _ F), (fo_open _ _ F). cbn [negb]. rewrite bind_modify, (fo_fstat _ _ F). cbn [negb].
  rewrite (fo_sendfile _ _ F), bind_modify, bind_gets, bind_modify, bind_modify, bind_gets.
  rewrite (fo_dprintf _ _ F), !substring_whole.
  cbn [sshd_listen sshd_pid t_running set_running set_listen default]. change ("" +:+ template) with template.
  destruct (sshd_pid s =? 0)%Z eqn:E; cbn [negb].
  - rewrite (proj2 (Z.ltb_ge _ _)) by (destruct Hf as [Hf|Hf]; [by apply Z.eqb_eq in E|done]).
    by rewrite !bind_modify.
  - by rewrite bind_modify.
Qed.

(** C31: when libnetconf reports changes of interfaces and then of <listen>, nothing
    being left over from before, the file for sshd is the template followed by
    one line for each interface of these changes that was not removed, or by
    the word (null) when there is none; sshd is told to read it again, or
    started, its process id being kept modulo 2^16 and put into the
    environment.  So the interfaces configured earlier are not in the file any
    more. *)
Theorem listen_configured l op env template s :
  sshd_listen s = None → Forall (λ c, is_interface c.2) l → files_ok env template →
  op ≠ XMLDIFF_REM → sshd_pid s ≠ 0%Z ∨ (0 <= le_fork env)%Z →
  ∃ s', (_ ← call_interfaces l; callback_srv_netconf_srv_ssh_srv_listen env op) s = Done (EXIT_SUCCESS, s') ∧
    t_running s' = Some (template +:+ listen_header +:+
      match added l with [] => "(null)" | _ => lines (added l) end) ∧
    sshd_listen s' = None ∧
    if (sshd_pid s =? 0)%Z then
      sshd_pid s' = (le_fork env mod 2 ^ 16)%Z ∧ t_log s' = Started (le_fork env) :: t_log s ∧
      t_environ s' !! SSHDPID_ENV = Some (pretty (le_fork env mod 2 ^ 16)%Z)
    else sshd_pid s' = sshd_pid s ∧ t_log s' = Signalled (sshd_pid s) SIGHUP :: t_log s ∧
      t_environ s' = t_environ s.
Proof.
  intros Hl Hi F Hop Hf. rewrite (bind_run _ _ _ _ _ (call_interfaces_run l s Hi)), Hl.
  eexists. split; [by apply (listen_run env template)|].
  assert (put_s (collected None (added l)) = match added l with [] => "(null)" | _ => lines (added l) end) as E
    by (by destruct (added l)).
  unfold listening. cbn [sshd_pid sshd_listen set_listen]. rewrite E.
  destruct (sshd_pid s =? 0)%Z; split_and!; try done. apply lookup_insert_eq.
Qed.

(** ** Failures *)

(** What goes wrong before the settings are written, and the file then. *)
Inductive unprepared (env : listen_env) (s : tstate) : option string → Prop :=
| NoTemplate : le_template env = None → unprepared env s (t_running s)
| NoFile t : le_template env = Some t → le_open env = false → unprepared env s (t_running s)
| NoStat t : le_template env = Some t → le_open env = true → le_fstat env = false →
    unprepared env s (Some "")
| NoCopy t : le_template env = Some t → le_open env = true → le_fstat env = true →
    le_sendfile env = None → unprepared env s (Some "").

(** C37: a failure of <listen> is reported and neither starts nor signals a daemon.
    When the file cannot be prepared, it is unchanged or empty, and the settings
    stay in sshd_listen, where those of the next change are appended to them;
    when fork() fails, they have been written and are gone. *)
Theorem listen_fails env op s : op ≠ XMLDIFF_REM →
  (∀ file, unprepared env s file → ∃ s',
     callback_srv_netconf_srv_ssh_srv_listen env op s = Done (EXIT_FAILURE, s') ∧ is_Some (t_error s') ∧
     t_log s' = t_log s ∧ sshd_pid s' = sshd_pid s ∧ t_environ s' = t_environ s ∧
     t_running s' = file ∧ sshd_listen s' = sshd_listen s ∧
     ∀ l, Forall (λ c, is_interface c.2) l → ∃ s'',
       call_interfaces l s' = Done (EXIT_SUCCESS, s'') ∧
       sshd_listen s'' = collected (sshd_listen s) (added l)) ∧
  (∀ template, files_ok env template → sshd_pid s = 0%Z → (le_fork env < 0)%Z → ∃ s',
     callback_srv_netconf_srv_ssh_srv_listen env op s = Done (EXIT_FAILURE, s') ∧ is_Some (t_error s') ∧
     t_log s' = t_log s ∧ sshd_pid s' = 0%Z ∧ t_environ s' = t_environ s ∧
     t_running s' = Some (template +:+ listen_header +:+ put_s (sshd_listen s)) ∧ sshd_listen s' = None).
Proof.
  intros Hop. split.
  - intros file Hu. unfold callback_srv_netconf_srv_ssh_srv_listen. rewrite bool_decide_eq_false_2 by done.
    assert (∀ s', sshd_listen s' = sshd_listen s → ∀ l, Forall (λ c, is_interface c.2) l → ∃ s'',
       call_interfaces l s' = Done (EXIT_SUCCESS, s'') ∧
       sshd_listen s'' = collected (sshd_listen s) (added l)) as Hnext.
    { intros s' <- l Hl. eexists. split; [by apply call_interfaces_run|done]. }
    destruct Hu as [-> | t -> -> | t -> -> -> | t -> -> -> ->]; cbn [negb]; eexists;
      (split; [reflexivity|]); (split_and!; [by eexists|done..|by apply Hnext]).
  - intros template F Hp Hf. unfold callback_srv_netconf_srv_ssh_srv_listen, append_running.
    rewrite bool_decide_eq_false_2 by done.
    rewrite (fo_template _ _ F), (fo_open _ _ F). cbn [negb]. rewrite bind_modify, (fo_fstat _ _ F). cbn [negb].
    rewrite (fo_sendfile _ _ F), bind_modify, bind_gets, bind_modify, bind_modify, bind_gets.
    rewrite (fo_dprintf _ _ F), !substring_whole.
    cbn [sshd_listen sshd_pid t_running set_running set_listen default]. change ("" +:+ template) with template.
    rewrite Hp, Z.eqb_refl. cbn [negb]. rewrite (proj2 (Z.ltb_lt _ _) Hf).
    eexists. split; [reflexivity|]. split_and!; [by eexists|done..].
Qed.

(** ** The daemons *)

(** The daemons that were started and not terminated. *)
Fixpoint alive (log : list sysact) : list Z :=
  match log with
  | [] => []
  | Started pid :: l => pid :: alive l
  | Signalled pid sig :: l => if (sig =? SIGTERM)%Z then filter (λ p, p ≠ pid) (alive l) else alive l
  end.

(** The daemon is the one of sshd_pid. *)
Record one_sshd (s : tstate) : Prop := {
  os_range : (0 <= sshd_pid s < 2 ^ 16)%Z;
  os_alive : alive (t_log s) = if (sshd_pid s =? 0)%Z then [] else [sshd_pid s];
  os_env : t_environ s !! SSHDPID_ENV = if (sshd_pid s =? 0)%Z then None else Some (pretty (sshd_pid s)) }.

(** The calls of the module: at its start, for a change, at its end. *)
Inductive module_call :=
| Init (ssh inbound_ssh : bool) (read : string → option xmlNode) (asprintf_ok : bool) (env : listen_env)
| Changed (c : change)
| Close.
Definition run_call (c : module_call) : M tstate unit :=
  match c with
  | Init ssh inbound read ok env => _ ← server_transapi_init ssh inbound read ok env; mret tt
  | Changed c => _ ← call_back c; mret tt
  | Close => server_transapi_close
  end.
Fixpoint run_module (l : list module_call) : M tstate unit :=
  match l with [] => mret tt | c :: l' => _ ← run_call c; run_module l' end.
(** fork() fails or gives a process id of 16 bits. *)
Definition small_pid (c : module_call) : Prop :=
  match c with
  | Init _ _ _ _ env | Changed (Change _ _ _ _ env) => (le_fork env ≠ 0 ∧ le_fork env < 2 ^ 16)%Z
  | Close => True
  end.

Definition daemon (s : tstate) := (sshd_pid s, t_log s, t_environ s).
Lemma one_sshd_same s s' : daemon s' = daemon s → one_sshd s → one_sshd s'.
Proof. intros [= H1 H2 H3] []. by constructor; rewrite ?H1, ?H2, ?H3. Qed.

Lemma kill_sshd_one s : one_sshd s → ∃ s', kill_sshd s = Done (tt, s') ∧ one_sshd s' ∧ sshd_pid s' = 0%Z.
Proof.
  intros [Hr Ha He]. unfold kill_sshd. rewrite bind_gets. destruct (sshd_pid s =? 0)%Z eqn:E.
  - exists s. apply Z.eqb_eq in E. split; [done|]. split; [|done]. by constructor; rewrite ?E.
  - eexists. split; [by rewrite !bind_modify|]. split; [|done]. constructor; cbn.
    + lia.
    + rewrite Ha, filter_cons_False by (intros H; by apply H). done.
    + apply lookup_delete_eq.
Qed.

Definition preserves (P : tstate → Prop) {A} (m : M tstate A) : Prop :=
  ∀ s a s', P s → m s = Done (a, s') → P s'.
Lemma preserves_bind P {A B} (m : M tstate A) (k : A → M tstate B) :
  preserves P m → (∀ a, preserves P (k a)) → preserves P (m ≫= k).
Proof. intros Hm Hk s b s' HP (a & s1 & H1 & H2)%bind_Done. eapply Hk; [eapply Hm|]; eauto. Qed.
Lemma preserves_ret P {A} (a : A) : preserves P (mret a).
Proof. by intros s a' s' HP [= <- <-]. Qed.
Lemma preserves_keeps {A} (m : M tstate A) : keeps daemon m → preserves one_sshd m.
Proof. intros H s a s' HP E. eapply one_sshd_same; [by eapply H|done]. Qed.
Lemma fail_keeps e : keeps daemon (fail_with e).
Proof. by intros s a s' [= <- <-]. Qed.

Lemma oneport_one ok op new : preserves one_sshd (callback_srv_netconf_srv_ssh_srv_listen_oneport ok op new).
Proof.
  apply preserves_keeps. unfold callback_srv_netconf_srv_ssh_srv_listen_oneport.
  case_bool_decide; [apply keeps_ret|]. destruct ok; cbn [negb];
    (apply keeps_bind; [by apply keeps_modify|intros _; first [apply keeps_ret|apply fail_keeps]]).
Qed.
Lemma manyports_one ok op new : preserves one_sshd (callback_srv_netconf_srv_ssh_srv_listen_manyports ok op new).
Proof.
  apply preserves_keeps. unfold callback_srv_netconf_srv_ssh_srv_listen_manyports.
  case_bool_decide; [apply keeps_ret|]. apply keeps_bind; [apply keeps_deref|]. intros n.
  destruct (find_addr _ _ _) as [a p]. destruct ok; cbn [negb].
  - apply keeps_bind; [by apply keeps_modify|intros _; apply keeps_ret].
  - apply keeps_bind; [apply fail_keeps|]. intros _.
    apply keeps_bind; [by apply keeps_modify|intros _; apply keeps_ret].
Qed.
Lemma listen_one env op : (le_fork env ≠ 0 ∧ le_fork env < 2 ^ 16)%Z →
  preserves one_sshd (callback_srv_netconf_srv_ssh_srv_listen env op).
Proof.
  intros Hf. unfold callback_srv_netconf_srv_ssh_srv_listen, append_running. case_bool_decide.
  { intros s a s' Hs (u & s1 & H1 & H2)%bind_Done. destruct (kill_sshd_one s Hs) as (s2 & E & Hone & _).
    rewrite E in H1. injection H1 as <- <-. by injection H2 as <- <-. }
  assert (preserves one_sshd start_failed) as Hfail by apply preserves_keeps, fail_keeps.
  assert (∀ g, (∀ s, daemon (g s) = daemon s) → preserves one_sshd (modify g)) as Hmod
    by (intros g Hg; by apply preserves_keeps, keeps_modify).
  destruct (le_template env) as [t|]; [|done]. destruct (le_open env); cbn [negb]; [|done].
  apply preserves_bind; [by apply Hmod|]. intros _. destruct (le_fstat env); cbn [negb]; [|done].
  destruct (le_sendfile env) as [n|]; [|done].
  apply preserves_bind; [by apply Hmod|]. intros _. apply preserves_bind; [by apply preserves_keeps, keeps_gets|].
  intros set. apply preserves_bind; [by apply Hmod|]. intros _. apply preserves_bind; [by apply Hmod|]. intros _.
  intros s a s' Hs E. rewrite bind_gets in E. pose proof Hs as [Hr Ha He].
  destruct (sshd_pid s =? 0)%Z eqn:Ep; cbn [negb] in E.
  - destruct (le_fork env <? 0)%Z eqn:El; [by eapply Hfail|]. apply Z.ltb_ge in El.
    rewrite !bind_modify in E. injection E as <- <-.
    assert ((le_fork env mod 2 ^ 16)%Z = le_fork env) as Hm by (apply Z.mod_small; lia).
    constructor; cbn [sshd_pid t_log t_environ set_environ set_pid log_act]; rewrite Hm;
      rewrite ?(proj2 (Z.eqb_neq (le_fork env) 0) ltac:(lia)).
    + lia.
    + cbn [alive]. by rewrite Ha.
    + apply lookup_insert_eq.
  - rewrite bind_modify in E. injection E as <- <-. constructor; cbn; rewrite ?Ep; done.
Qed.
Lemma init_one ssh inb read ok env : (le_fork env ≠ 0 ∧ le_fork env < 2 ^ 16)%Z →
  preserves one_sshd (server_transapi_init ssh inb read ok env).
Proof.
  intros Hf. unfold server_transapi_init. destruct (ssh && inb); [|apply preserves_ret].
  destruct (read default_config) as [d|]; [|apply preserves_ret].
  do 3 (apply preserves_bind; [apply preserves_keeps, keeps_deref|intros ?]).
  apply preserves_bind; [apply oneport_one|]. intros []; [by apply listen_one|apply preserves_ret].
Qed.

(** C12: whatever calls libnetconf makes, while process ids are below 2^16 at most one
    SSH daemon runs, the one whose id is in sshd_pid and in the environment, and
    server_transapi_close() terminates it. *)
Theorem sshd_single l s s' : one_sshd s → Forall small_pid l → run_module l s = Done (tt, s') →
  one_sshd s' ∧ ∃ s'', server_transapi_close s' = Done (tt, s'') ∧ alive (t_log s'') = [].
Proof.
  intros Hs Hl. assert (preserves one_sshd (run_module l)) as Hp.
  { induction Hl as [|c l Hc _ IH]; [apply preserves_ret|]. cbn [run_module].
    apply preserves_bind; [|intros _; apply IH]. destruct c as [? ? ? ? env|[cb op new ok env]|]; cbn [run_call].
    - apply preserves_bind; [by apply init_one|intros ?; apply preserves_ret].
    - apply preserves_bind; [|intros ?; apply preserves_ret].
      destruct cb; [apply oneport_one|apply manyports_one|by apply listen_one].
    - intros s0 [] s1 H0 E. destruct (kill_sshd_one s0 H0) as (s2 & E' & Ho & _).
      unfold server_transapi_close in E. rewrite E' in E. by injection E as <-. }
  intros E. pose proof (Hp s tt s' Hs E) as Ho. split; [done|].
  destruct (kill_sshd_one s' Ho) as (s'' & E' & [_ Ha _] & Hz). exists s''. split; [done|]. by rewrite Ha, Hz.
Qed.

(** Sshd_pid is a u_int16_t: a daemon started with a larger process id is never
    stopped; closing the module sends SIGTERM to the process whose id is the
    remainder, or to none. *)
Theorem sshd_pid_truncated env template op s :
  files_ok env template → op ≠ XMLDIFF_REM → sshd_pid s = 0%Z → (2 ^ 16 <= le_fork env)%Z →
  ∃ s' s'', callback_srv_netconf_srv_ssh_srv_listen env op s = Done (EXIT_SUCCESS, s') ∧
    server_transapi_close s' = Done (tt, s'') ∧ le_fork env ∈ alive (t_log s'') ∧
    let q := (le_fork env mod 2 ^ 16)%Z in
    t_log s'' = (if (q =? 0)%Z then [] else [Signalled q SIGTERM]) ++ Started (le_fork env) :: t_log s.
Proof.
  intros F Hop Hp Hf. set (q := (le_fork env mod 2 ^ 16)%Z).
  assert (0 <= q < 2 ^ 16)%Z as Hq by (apply Z.mod_pos_bound; lia).
  eexists _, (let s' := listening env template s in
    if (q =? 0)%Z then s' else set_environ (delete SSHDPID_ENV) (set_pid 0 (log_act (Signalled q SIGTERM) s'))).
  split; [apply (listen_run env template); [done|done|right; lia]|].
  assert (sshd_pid (listening env template s) = q) as Hsp by (unfold listening; by rewrite Hp, Z.eqb_refl).
  assert (t_log (listening env template s) = Started (le_fork env) :: t_log s) as Hlog
    by (unfold listening; by rewrite Hp, Z.eqb_refl).
  split; [|split].
  - unfold server_transapi_close, kill_sshd. rewrite bind_gets, Hsp.
    destruct (q =? 0)%Z; [done|]. by rewrite !bind_modify.
  - cbn zeta. destruct (q =? 0)%Z.
    + rewrite Hlog. by left.
    + cbn [t_log set_environ set_pid log_act]. rewrite Hlog. cbn [alive].
      change (SIGTERM =? SIGTERM)%Z with true. cbn iota. apply list_elem_of_filter. split; [lia|by left].
  - cbn zeta. destruct (q =? 0)%Z; [done|]. cbn [t_log set_environ set_pid log_act]. by rewrite Hlog.
Qed.
End transapi.

(** ** Samples *)
Definition sample_listen (fork : Z) : listen_env :=
  ListenEnv (Some "UsePAM yes") true true (Some 10) String.length fork.
Definition sample_interface (a p : string) : interface :=
  Interface (el 1 "interface" [lf 2 "address" a; lf 4 "port" p]) a p.
Definition sshd_stopped : tstate := TState 0 None ∅ None [] None.
Definition sshd_running : tstate := TState 700 None {[SSHDPID_ENV := "700"]} (Some "old") [Started 700] None.

Lemma sample_listen_ok fork : files_ok (sample_listen fork) "UsePAM yes".
Proof. by constructor. Qed.
Lemma sample_interface_ok a p : is_interface (sample_interface a p).
Proof.
  eexists _, _. split; [reflexivity|].
  split; (split; [done|split; reflexivity]).
Qed.

(** One of two interfaces is removed, and no line is left. *)
Lemma listen_configured_witness : ∃ s',
  (_ ← call_interfaces [(XMLDIFF_REM, sample_interface "10.0.0.1" "22")];
   callback_srv_netconf_srv_ssh_srv_listen (sample_listen 0) XMLDIFF_MOD) sshd_running = Done (EXIT_SUCCESS, s') ∧
  t_running s' = Some ("UsePAM yes" +:+ listen_header +:+ "(null)").
Proof.
  destruct (listen_configured [(XMLDIFF_REM, sample_interface "10.0.0.1" "22")] XMLDIFF_MOD (sample_listen 0)
    "UsePAM yes" sshd_running) as (s' & H & Hr & _).
  - reflexivity.
  - apply Forall_cons. split; [apply sample_interface_ok|constructor].
  - apply sample_listen_ok.
  - discriminate.
  - left. discriminate.
  - exists s'. split; [exact H|exact Hr].
Defined.

Lemma listen_fails_witness : ∃ s',
  callback_srv_netconf_srv_ssh_srv_listen (ListenEnv None true true (Some 0) String.length 5) XMLDIFF_ADD
    (set_listen (Some "Port 830") sshd_stopped) = Done (EXIT_FAILURE, s') ∧ sshd_listen s' = Some "Port 830".
Proof.
  destruct (listen_fails (ListenEnv None true true (Some 0) String.length 5) XMLDIFF_ADD
    (set_listen (Some "Port 830") sshd_stopped) ltac:(discriminate)) as [H _].
  destruct (H None (NoTemplate (ListenEnv None true true (Some 0) String.length 5) _ eq_refl))
    as (s' & E & _ & _ & _ & _ & _ & Hs & _). exists s'. split; [exact E|exact Hs].
Defined.

Definition sample_calls : list module_call :=
  [Changed (Change OnePort XMLDIFF_ADD (Some (lf 1 "port" "830")) true (sample_listen 700));
   Changed (Change Listen XMLDIFF_ADD None true (sample_listen 700));
   Changed (Change ManyPorts XMLDIFF_ADD (Some (i_node (sample_interface "10.0.0.1" "22"))) true (sample_listen 9));
   Changed (Change Listen XMLDIFF_MOD None true (sample_listen 9))].
Definition after_calls : tstate :=
  match run_module sample_calls sshd_stopped with Done (_, s) => s | _ => sshd_stopped end.
Lemma sample_calls_run : run_module sample_calls sshd_stopped = Done (tt, after_calls).
Proof. vm_compute. reflexivity. Qed.
Lemma sshd_single_witness : one_sshd after_calls ∧
  ∃ s'', server_transapi_close after_calls = Done (tt, s'') ∧ alive (t_log s'') = [].
Proof.
  apply (sshd_single sample_calls sshd_stopped after_calls).
  - constructor; done.
  - repeat (apply Forall_cons; split; [done|]). constructor.
  - exact sample_calls_run.
Defined.

Lemma sshd_pid_truncated_witness : ∃ s' s'',
  callback_srv_netconf_srv_ssh_srv_listen (sample_listen 65537) XMLDIFF_ADD sshd_stopped = Done (EXIT_SUCCESS, s') ∧
  server_transapi_close s' = Done (tt, s'') ∧ 65537%Z ∈ alive (t_log s'') ∧
  t_log s'' = [Signalled 1 SIGTERM; Started 65537].
Proof.
  apply (sshd_pid_truncated (sample_listen 65537) "UsePAM yes" XMLDIFF_ADD sshd_stopped);
    [apply sample_listen_ok|discriminate|reflexivity|vm_compute; discriminate].
Defined.
