(* ===== verification/StartClaims.v ===== *)
(** * Properties of start and end of the of-config datastore

    The startup configuration survives the end and the next start of the
    server, on a format whose printed documents are read back. *)

From S2P Require Import Prelude.
From S2P Require Import Xml.
From S2P Require Import XmlFacts.
From S2P Require Import EditTree.
From S2P Require Import EditChecks.
From S2P Require Import EditCompact.
From S2P Require Import EditOps.
From S2P Require Import Samples.
From S2P Require Import Datastore.
From S2P Require Import DatastoreClaims.
From S2P Require Import OvsDevices.
From S2P Require Import Ovsdb.
From S2P Require Import OvsOpenFlow.
From S2P Require Import OvsTxn.
From S2P Require Import OvsTxnFacts.
From S2P Require Import OvsSamples.
From S2P Require Import StateClaims.
From S2P Require Import OfcModule.

Section start.
Context {LX : LibXml} {LN : LibNetconf} {IO : XmlIO} {XF : XmlFormat} {OI : OvsIdl} {KE : Kernel}
  {VC : Vconn} {FS : Files} {XP : PortXpath} {SV : OvsdbServer}.

(** C13: the startup configuration survives a restart: when its file can be written and
    read, what ofcds_free() saves is read by ofcds_init() in the next process,
    or there is none if there was none, given that OVSDB can be reached.  When
    it cannot, ofcds_init() fails without reading the file, and another
    ofcds_free() empties it. *)
Theorem startup_restart env s : se_writes env = true → se_reads env = true →
  (∀ d, gds_startup (sv_ds s) = Some d → savable d) →
  ∃ s1, ofcds_free env s = Done (tt, s1) ∧
    ∀ db next path,
      (∀ g', init_globals db (Globals None (-1)) = Done (true, g') →
         ∃ s2, ofcds_init db env (restart next path s1) = Done (EXIT_SUCCESS, s2) ∧
           data <$> gds_startup (sv_ds s2) = data <$> gds_startup (sv_ds s)) ∧
      (∀ g', init_globals db (Globals None (-1)) = Done (false, g') →
         ∃ s2 s3, ofcds_init db env (restart next path s1) = Done (EXIT_FAILURE, s2) ∧
           startup_file s2 = startup_file s1 ∧
           ofcds_free env s2 = Done (tt, s3) ∧
           (is_Some (startup_file s1) → startup_file s3 = Some "")).
Proof.
  intros Hw Hr Hs. destruct (ofcds_free_run env s) as (s1 & Hfree & Hf & _). exists s1. split; [done|].
  intros db next path. split.
  - intros g' E. by apply (read_saved env db next path s s1 g').
  - intros g' E. eexists. rewrite (ofcds_init_run db env _ false g' E).
    destruct (ofcds_free_run env (Service (set_dbe (OB := ovs_backend) g' (sv_ds (restart next path s1)))
      (startup_file s1) (Some (db_path (restart next path s1))))) as (s3 & Hfree3 & Hf3 & _).
    exists s3. split; [reflexivity|]. split; [done|]. split; [exact Hfree3|].
    intros [t Ht]. rewrite Hf3. unfold saved. rewrite Hw. cbn. by rewrite Ht.
Qed.
End start.

(** ** Samples *)
#[export] Program Instance sample_format : XmlFormat := {| xmlFormatDoc := sample_dump |}.
Next Obligation. intros d k Hd _. exact (read_dump (XmlIO := sample_io) d k Hd). Qed.
Next Obligation. reflexivity. Qed.

Definition sample_env : startup_env := StartupEnv true true.

Definition sample_service : service :=
  Service (DState (OB := ovs_backend) (Some conf) None None NC_DATASTORE_ERROR false unlocked unlocked unlocked 100
    (Globals (Some (sample_handler false)) 5) None) None None.

Lemma startup_restart_witness : ∃ s1, ofcds_free sample_env sample_service = Done (tt, s1) ∧
  ∃ s2, ofcds_init (DbEnv 1 true sample_conf [] 5) sample_env (restart 7 None s1) = Done (EXIT_SUCCESS, s2) ∧
    data <$> gds_startup (sv_ds s2) = Some (data conf).
Proof.
  destruct (startup_restart sample_env sample_service eq_refl eq_refl) as (s1 & H & Hnext).
  - intros d [= <-]. split; [by left|reflexivity].
  - exists s1. split; [exact H|]. apply (Hnext (DbEnv 1 true sample_conf [] 5) 7 None) with
      (g' := Globals (Some (Handler sample_conf sample_conf false 1 1 true [])) 5). reflexivity.
Defined.
